(* ===== verification/_CoqProject ===== *)
-Q . S2P
Prelude.v
GoLib.v
Hash.v
Duration.v
Regexp.v
K8s.v
ApiCommon.v
Conditions.v
ApiTypes.v
Client.v
ApiServer.v
K8sUtil.v
Deployer.v
Builder.v
Common.v
NodeId.v
Validate.v
Toml.v
DbConfig.v
Initializer.v
Pods.v
Mergo.v
Defaulting.v
Cluster.v
Generator.v
Datanode.v
Claims.v
DatanodeGen.v
MetaGen.v
FlownodeGen.v
FrontendGen.v
Meta.v
Frontend.v
Reconcile.v
Reconciler.v
Standalone.v
StandaloneGen.v
Monitoring.v
Metrics.v
Setup.v
Deletion.v
System.v
Operator.v
Calm.v
Runnable.v
CalmGen.v
CalmDeployers.v
NoPanic.v
NoPanicStandalone.v
