(* ===== verification/Prelude.v ===== *)
(** * A verification development for greptimedb-operator

    The operator reconciles two custom resources, GreptimeDBCluster and
    GreptimeDBStandalone, into Kubernetes objects.  A reconciliation reads the
    resource, validates it, fills in defaults, merges templates, and runs one
    deployer per component (monitoring, metasrv, datanode, frontend, flownode);
    a deployer generates objects, applies the differences to the API server,
    checks that the workloads are ready and runs hooks.  The status carries a
    phase; region failover needs the metasrv in maintenance mode while datanode
    pods restart.  The pods start with an init container of this repository,
    which adds the pod's identity to the configuration that the operator wrote.

    ** How Go is modelled

    - A fallible function returns [res] (this file): a nil error, an error, or a
      run-time panic.  A pointer is an [option], and dereferencing nil panics.
    - A method that talks to the API server, the metasrv, etcd, a database, an HTTP
      server, the metrics registry, the recorder or the clock is a tree of requests
      (Client): an environment answers each one, and theorems hold for every
      environment, or for every one that satisfies the laws of [ApiServer] where
      convergence needs a server that stores what it is told.  [M S A] adds the Go
      memory [S], which survives an error return.  [exec] runs a computation and
      logs the requests with their answers, so that a theorem can say what was
      asked before what.
    - Strings keep Go's string types; int32, int64 and uint64 are integers whose
      wrap-around is written out where the code computes with them (GoLib,
      ApiTypes, NodeId, Duration); float64 is the binary64 of SpecFloat (Duration).
    - What the code uses of Go's standard library is modelled: SHA-256 (Hash), the
      text of a duration (Duration), regular expressions (Regexp), a multipart
      form (Monitoring).
    - Libraries that are not in the repository are type classes: [MergoLib]
      (dario.cat/mergo), [RetryLib] (retry-go, client-go's retry), [JsonLib],
      [TomlUnmarshal] and [TomlLib] (go-toml), [VectorLib] (the template of
      vector's configuration), [QuantityLib], [SelectorLib] (the selectors that
      apimachinery refuses), [FinalizerLib] and [ControllerLib]
      (controllerutil), [FlagLib] and [IntFlag] (pflag); where a theorem needs
      their documented behaviour it is a second class of laws ([MergoLaws],
      [RetryLaws], [TomlLaws], [FinalizerLaws], [ControllerLaws], [JsonLaws],
      [FlagLaws], [IntFlagLaws], [QuantityLaws], and [SafeLibraries] and [SafeUnmarshal],
      by which they return their errors), instantiated in the witnesses.
    - Go's map iteration order is a class too ([MapOrder]).
    - A nil map or slice and an empty one are one value where the code cannot tell them
      apart.  It can for the labels of an object, which are compared with DeepEqual
      ([om_Labels] is an option), and for the frontend groups in the collector (an
      argument of [CollectClusterPodMetrics]).  A list of pointers in a spec is a list of
      values: the schemas of the resources refuse a null in it.
    - A slice is a value.  The one aliasing that reaches a result is that of the
      label and annotation maps, which generated objects share with the spec in
      memory: a generator writes them back (Cluster, [share_template] and
      [share_service]), and what the deployers keep of a cluster is stated up to
      them ([same_cluster]).  The request body that retries share is memory of its
      own (Monitoring).

    ** Files and the code they model

    - Prelude: errors, results, generic list lemmas.
    - GoLib, Hash: strings, numbers, pkg/util/util.go.  Duration, Regexp: the
      standard library under pkg/metrics/metrics.go.
    - K8s: the shapes of the Kubernetes objects.
    - ApiCommon, Conditions, ApiTypes: apis/v1alpha1/common.go and the two types
      files, with their nil-safe getters and the replica count.
    - Client: requests, programs, execution; [hoare], [leaves] (what is known of the
      log of a success), [logs_only] (every request a program can make),
      [preserves] (what it does to memory).
    - ApiServer: the laws of a healthy server, with its admission, and one that satisfies
      them.
    - K8sUtil: pkg/util/k8s/k8s.go.
    - Deployer: pkg/deployer/deployer.go: the operator interface (a record of
      operations), [Sync] and [Apply].
    - Builder: pkg/deployer/builder.go: the owner reference and the last-applied
      annotation of the generated objects.
    - Common: controllers/common/common.go and constant.go: names, claims, pod
      templates, maintenance endpoint.
    - NodeId, Initializer: cmd/initializer: [allocateNodeID], the command line, the
      configuration of a pod.
    - Validate: apis/v1alpha1/validate.go and the two webhooks.
    - Toml, DbConfig: pkg/dbconfig: TOML trees and their merge, the configuration
      structs and how a cluster or a standalone fills them.
    - Mergo: the documented behaviour of mergo on the operator's types, and the
      transformer of defaulting.go.
    - Defaulting: apis/v1alpha1/defaulting.go and constants.go.
    - Cluster: what the deployers of a cluster share
      (controllers/greptimedbcluster/deployers/common.go).
    - Pods, Generator, Claims: what the generators share: operations on a pod
      template, the [CommonBuilder], the storages and their claims; and the shape of
      a component: services, config maps, workloads and monitors, by name.
    - Datanode, Meta, Frontend: the status, clean-up, apply and hooks of datanode.go,
      meta.go, frontend.go and flownode.go.  DatanodeGen, MetaGen, FrontendGen,
      FlownodeGen: their builders.
    - Monitoring: monitoring.go.  Metrics: pkg/metrics/metrics.go.
    - Reconcile: what the two reconcilers share: the outer error and its deferred
      handler, the phases, the finalizer library.
    - Reconciler, Setup: controllers/greptimedbcluster/controller.go.
    - Standalone, StandaloneGen: controllers/greptimedbstandalone (controller.go,
      deployer.go).
    - Deletion, System: the operator from end to end: the reconciler with its five
      deployers and their generators.
    - Operator: cmd/operator: the options and the run of the command.
    - Calm, Runnable, CalmGen, CalmDeployers, NoPanic, NoPanicStandalone: no code of
      their own, but the proof that a reconciliation never panics: a judgement on
      computations and its rules; what a spec needs to be run, and that the defaults
      and the merges provide it; the generators; the deployers and the collector; the
      two reconcilers.

    A definition has the name of the function it models; where two types have a
    method of one name, the type's name comes first ([Cluster_Validate]).  Parts
    of a long function are definitions of their own, next to it.

    ** What the theorems show

    - End to end (System, Deletion, Setup): a cluster that turns Running has had every
      workload its generators make read from the server and found ready; the
      deletion of a cluster ends, whatever finite number of errors the server
      answers about claims, when the selectors of its claims are accepted, and never
      ends otherwise; the deployers do not fight over objects, and what each
      generates converges on the server under its own [Apply].
    - No panic (NoPanic, NoPanicStandalone): whatever cluster or standalone is stored
      and whatever is answered, within what [sound] (Calm), [cluster_ok] (Runnable) and
      [standalone_ok] ask of the answers, the whole reconciliation dereferences no nil
      pointer and indexes no slice out of range.  What they ask is where the code trusts
      more than it checks: the size of a storage, the storage of a raft-engine WAL, the
      replica count and the containers of a stored workload, the running state of a
      container.
    - The reconciler (Reconciler, Setup): a cluster turns Running exactly when every
      deployer in turn returned nil and the metasrv left maintenance; the phase
      takes four transitions only; deletion cleans everything up before the
      finalizer goes; which errors the Error phase records; deployers never touch
      the phase.
    - The standalone reconciler: the same for its single deployer.
    - The framework (Builder, Deployer): the builder annotates every object with its
      own spec; applying converges, for any loop body that keeps the promise of the
      class [Converging] and objects that the server accepts and whose label maps are
      not empty, patches only differences, and hooks run only after a ready status.
    - The generators: the objects of each component are those of a declarative
      description, in order; services select the pods of their workload and no
      others; every volume mounted is declared; config maps are what the pods
      mount; the claims are those that clean-up deletes; the initializer reads back
      the command line it is given, and no two datanode pods get one node id, when the
      start ids are not negative and the pods have host names of their own; the status
      check of the datanodes asks for the StatefulSets that are generated.
    - The datanode deployer: clean-up refines a declarative list of claims; pods
      restart only in maintenance mode; one cluster's flag never moves by another
      cluster's reconciliation, nor by the deletion of its own cluster; its [Apply]
      is [Converging] when the metasrv accepts.
    - Metasrv and frontend: the etcd check, maintenance mode on creation, readiness.
    - Configuration (DbConfig, Initializer): which value each key of the merged
      configuration has, by the merge strategy; generation succeeds after [Check];
      the initializer changes the keys of the pod's identity only.
    - Monitoring: ready means that the standalone runs and has every pipeline, and it
      becomes ready when the servers work; the address the cluster uses is that of
      the service which the other controller generates.
    - Metrics: what one collection observes, pod by pod; the text of a pull event is
      read back; a duration is read back from its text.
    - Defaulting: idempotent (so that the update loop of the reconciler settles),
      the values it gives, and that the template merge after it cannot
      dereference nil and points every probe at its component's port.
    - Validation: [Validate] and [Check] accept exactly the declarative
      well-formedness predicates.
    - Node ids: the formula for every int32 start, where it wraps, injectivity, and the
      rejected names.
    - Conditions, names, selectors: one condition per type; two storage types or
      resources never share a claim.
    - The command (Operator): the manager starts last, after every set-up succeeded;
      the options are read back from a command line.

    Several theorems pin behaviour that looks unintended (an emptyDir that hides
    the WAL claims, a group scaled to zero that comes back, an Error phase that is
    never cleared, retried uploads that send nothing, a pod that is not running in
    the collector, an empty label map that is patched for ever, a long name that
    blocks the deletion, start ids that collide); they say so in their comments.

    ** Bounds and fuel

    Recursion is structural (over the objects, the groups, the deployers, the text)
    but for these.  [Duration.parse_components] and the repetition of a regular
    expression get the length of the text, of which each turn consumes a character;
    [Duration.put_digits] gets more digits than a uint64 has; the round trip of a
    duration and the matching lemmas show that this is enough.  [Deletion.serve]
    counts the services of a request, and the theorem gives the number that
    suffices.  The retry loops are library parameters whose witness counts its
    attempts.

    ** What is not modelled

    Log messages, event texts, contexts, timeouts and the closing of connections;
    the constructors that only store the manager's client, and the registration of
    types, schemes and watches; generated code (deep copies, clientset, informers),
    since a deep copy is the identity on values; the version subcommand and the
    end-to-end tests.  A partially merged object after a failing mergo call is not
    modelled.  Two reconciliations run one after the other here; that the queue
    never serves one resource twice at once is controller-runtime's promise. *)

From stdpp Require Import base gmap strings list fin_maps.
From Stdlib Require Import ZArith Lia.

(** ** Errors and outcomes

    A Go function that returns [error] is modelled in [res]: [Ok a] is a
    [nil] error, [Err e] a non-nil one, and [Panic] the run-time panic of a
    nil pointer dereference or an index out of range. *)

(** The Go [error] values the program tells apart: the sentinel
    [deployer.ErrSyncNotReady], the two API-server reasons that
    [errors.IsNotFound] and [retry.RetryOnConflict] look for, and every other
    error with its message. *)
Inductive error : Set :=
  | ErrSyncNotReady
  | ErrNotFound (msg : string)
  | ErrConflict (msg : string)
  | Errorf (msg : string).

Global Instance error_eq_dec : EqDecision error.
Proof. solve_decision. Defined.

(** [errors.IsNotFound] of k8s.io/apimachinery. *)
Definition IsNotFound (e : error) : bool :=
  match e with ErrNotFound _ => true | _ => false end.

(** [err.Error()]. *)
Definition Error (e : error) : string :=
  match e with
  | ErrSyncNotReady => "the sync process is not ready"
  | ErrNotFound msg | ErrConflict msg | Errorf msg => msg
  end.

Inductive res (A : Type) : Type :=
  | Ok (a : A)
  | Err (e : error)
  | Panic.
Global Arguments Ok {A} a.
Global Arguments Err {A} e.
Global Arguments Panic {A}.

Global Instance res_eq_dec {A} `{EqDecision A} : EqDecision (res A).
Proof. solve_decision. Defined.

Global Instance Ok_inj {A} : Inj (=) (=) (@Ok A).
Proof. by intros x y [=]. Qed.

Global Instance res_ret : MRet res := fun A a => Ok a.
Global Instance res_bind : MBind res := fun A B f m =>
  match m with Ok a => f a | Err e => Err e | Panic => Panic end.
Global Instance res_fmap : FMap res := fun A B f m =>
  match m with Ok a => Ok (f a) | Err e => Err e | Panic => Panic end.

Definition is_Ok {A} (r : res A) : bool :=
  match r with Ok _ => true | _ => false end.

(** Dereferencing a pointer: a nil pointer panics. *)
Definition deref {A} (p : option A) : res A :=
  match p with Some a => Ok a | None => Panic end.

(** The nil-safe getters [if in != nil { return in.F }; return d]. *)
Definition nil_or {A B} (d : B) (f : A -> B) (p : option A) : B :=
  match p with Some a => f a | None => d end.

(** [p != nil] and [p != nil && *p]. *)
Definition not_nil {A} (p : option A) : bool :=
  match p with Some _ => true | None => false end.
Definition is_true_ptr (p : option bool) : bool :=
  match p with Some b => b | None => false end.

(** [if cond { return err }]. *)
Definition guard_err (cond : bool) (e : error) : res unit :=
  if cond then Err e else Ok tt.

(** [fmt.Errorf("...: '%v'", err)]: the callers only test that the wrapped
    error is non-nil. *)
Definition wrap_err {A} (e : error) (r : res A) : res A :=
  match r with Ok a => Ok a | Err _ => Err e | Panic => Panic end.

(** A loop [for _, x := range l { if err := f(x); err != nil { return err } }]. *)
Fixpoint for_each {A} (f : A -> res unit) (l : list A) : res unit :=
  match l with
  | [] => Ok tt
  | x :: l => match f x with
              | Ok _ => for_each f l
              | Err e => Err e
              | Panic => Panic
              end
  end.

(** [for i, x := range l] whose body rewrites the element it visits. *)
Fixpoint map_res {A B} (f : A -> res B) (l : list A) : res (list B) :=
  match l with
  | [] => Ok []
  | x :: l => match f x with
              | Ok y => match map_res f l with
                        | Ok ys => Ok (y :: ys)
                        | Err e => Err e
                        | Panic => Panic
                        end
              | Err e => Err e
              | Panic => Panic
              end
  end.

(** ** Lemmas *)

Section res_lemmas.
Context {A B : Type}.
Implicit Types (f : A -> res B) (m : res A).

Lemma bind_Ok f m b : m ≫= f = Ok b <-> exists a, m = Ok a /\ f a = Ok b.
Proof. destruct m; split; naive_solver. Qed.

Lemma bind_Err f m e :
  m ≫= f = Err e <-> m = Err e \/ exists a, m = Ok a /\ f a = Err e.
Proof. destruct m; split; naive_solver. Qed.

Lemma guard_err_Ok c e u : guard_err c e = Ok u <-> c = false.
Proof. destruct c, u; simpl; naive_solver. Qed.

Lemma wrap_err_Ok e m a : wrap_err e m = Ok a <-> m = Ok a.
Proof. destruct m; simpl; naive_solver. Qed.

Lemma for_each_Ok (g : A -> res unit) l :
  for_each g l = Ok tt <-> Forall (fun x => g x = Ok tt) l.
Proof.
  induction l as [|x l IH]; simpl; [split; auto|].
  rewrite Forall_cons. destruct (g x) as [[]| |] eqn:?; naive_solver.
Qed.

Lemma map_res_Ok f l l' :
  map_res f l = Ok l' <-> Forall2 (fun x y => f x = Ok y) l l'.
Proof.
  revert l'. induction l as [|x l IH]; intros l'; simpl.
  - split; [intros [= <-]; constructor|intros H; by inversion H].
  - split.
    + destruct (f x) eqn:Hx; try done. destruct (map_res f l) eqn:Hl; try done.
      intros [= <-]. constructor; [done|]. by apply IH.
    + inversion 1 as [|? y ? l1 Hy Hl]; subst. rewrite Hy.
      by apply IH in Hl as ->.
Qed.

Lemma map_res_total f l :
  (forall x, x ∈ l -> exists y, f x = Ok y) -> exists l', map_res f l = Ok l'.
Proof.
  induction l as [|x l IH]; intros H; simpl; [eauto|].
  destruct (H x) as [y ->]; [set_solver|].
  destruct IH as [l' ->]; [set_solver|eauto].
Qed.
End res_lemmas.

(** Options as Go pointers. *)
Lemma option_bind_Some_inv {A B} (f : A -> option B) (o : option A) b :
  o ≫= f = Some b -> exists a, o = Some a /\ f a = Some b.
Proof. destruct o; naive_solver. Qed.

Lemma not_nil_is_Some {A} (p : option A) : not_nil p = true <-> is_Some p.
Proof. destruct p; cbn; [naive_solver eauto|]. split; [done|]. by intros [? [=]]. Qed.

Lemma none_not_Exists {A} (P : A -> Prop) l :
  Forall (fun x => ~ P x) l -> Exists P l -> False.
Proof. induction 1; inversion 1; auto. Qed.

Lemma Forall2_Forall_impl {A B} (P R : A -> B -> Prop) (Q : A -> Prop) l l' :
  Forall2 P l l' -> Forall Q l -> (forall x y, P x y -> Q x -> R x y) -> Forall2 R l l'.
Proof. induction 1; inversion 1; constructor; auto. Qed.

(** ** Automation *)

Create HintDb gooper.
Create Rewrite HintDb gooper_bool.
#[export] Hint Rewrite andb_true_iff andb_false_iff orb_true_iff orb_false_iff
  negb_true_iff negb_false_iff : gooper_bool.

(** Splits a hypothesis that a chain of Go statements returned [Ok]. *)
Ltac res_inv :=
  repeat match goal with
  | H : _ ≫= _ = Ok _ |- _ => apply bind_Ok in H; destruct H as (? & ? & ?)
  | H : Ok _ = Ok _ |- _ => injection H as ?
  | H : Err _ = Ok _ |- _ => discriminate H
  | H : Panic = Ok _ |- _ => discriminate H
  | H : guard_err _ _ = Ok _ |- _ => apply guard_err_Ok in H
  | H : wrap_err _ _ = Ok _ |- _ => apply wrap_err_Ok in H
  | H : for_each _ _ = Ok _ |- _ => apply for_each_Ok in H
  | H : map_res _ _ = Ok _ |- _ => apply map_res_Ok in H
  | H : () |- _ => destruct H
  end.

(** Closes a goal when an element is in a list that holds none of its kind. *)
Ltac no_such :=
  match goal with
  | H : Forall (fun x => ~ _ x) ?l, E : Exists _ ?l |- _ =>
      exfalso; exact (none_not_Exists _ l H E)
  end.

(** Case analysis on the scrutinee of a match in a hypothesis or the goal. *)
Ltac go_case :=
  match goal with
  | |- context [match ?x with _ => _ end] => destruct x eqn:?
  | H : context [match ?x with _ => _ end] |- _ => destruct x eqn:?
  end.
