(* ===== verification/GoLib.v ===== *)
(** * The Go standard library as the operator uses it

    Machine integers, [strings.Split] and [strings.Join], [fmt.Sprintf("%d")],
    [strconv.ParseUint], and pkg/util/util.go's [MergeStringMap]. *)

From stdpp Require Import base gmap strings list fin_maps.
From Stdlib Require Import ZArith Lia Ascii Decimal DecimalString DecimalFacts DecimalZ DecimalN DecimalPos.
From S2P Require Import Prelude.

Local Open Scope Z_scope.

(** ** Machine integers *)

(** [uint64(x)]: reduction modulo 2^64. *)
Definition uint64 (x : Z) : Z := x mod 2 ^ 64.

(** [int32(x)]: the signed residue modulo 2^32. *)
Definition int32 (x : Z) : Z := (x + 2 ^ 31) mod 2 ^ 32 - 2 ^ 31.

(** The values a Go [int32] can hold. *)
Definition is_int32 (x : Z) : Prop := - 2 ^ 31 <= x < 2 ^ 31.

(** The values a Go [uint64] can hold. *)
Definition is_uint64 (x : Z) : Prop := 0 <= x < 2 ^ 64.

(** ** Strings *)

(** [strings.Split(s, sep)] for a one-character separator: never empty. *)
Fixpoint Split (sep : Ascii.ascii) (s : string) : list string :=
  match s with
  | EmptyString => [EmptyString]
  | String c s' =>
      if Ascii.eqb c sep then EmptyString :: Split sep s'
      else match Split sep s' with
           | [] => [String c EmptyString]
           | t :: ts => String c t :: ts
           end
  end.

(** [strings.Join(l, sep)]. *)
Fixpoint Join (sep : string) (l : list string) : string :=
  match l with
  | [] => EmptyString
  | [s] => s
  | s :: l => s +:+ sep +:+ Join sep l
  end.

(** Whether a character occurs in a string. *)
Fixpoint has_char (c : Ascii.ascii) (s : string) : bool :=
  match s with
  | EmptyString => false
  | String d s => Ascii.eqb d c || has_char c s
  end.

(** [strings.HasPrefix(s, prefix)] and [strings.Contains(s, sub)]. *)
Definition HasPrefix (s prefix : string) : bool := String.prefix prefix s.
Fixpoint Contains (s sub : string) : bool :=
  HasPrefix s sub || match s with
                     | EmptyString => false
                     | String _ s => Contains s sub
                     end.

(** [fmt.Sprintf("%d", z)]. *)
Definition fmt_d (z : Z) : string := NilZero.string_of_int (Z.to_int z).

(** [strconv.ParseUint(s, 10, 64)]: a non-empty string of decimal digits whose
    value fits in 64 bits; leading zeros are accepted, a sign is not. *)
Definition ParseUint (s : string) : res Z :=
  match s with
  | EmptyString => Err (Errorf "invalid syntax")
  | _ => match NilEmpty.uint_of_string s with
         | None => Err (Errorf "invalid syntax")
         | Some u => let n := Z.of_N (N.of_uint u) in
                     if 2 ^ 64 <=? n then Err (Errorf "value out of range") else Ok n
         end
  end.

(** [token[len(token)-1]]: panics on the empty slice. *)
Definition last_elem {A} (l : list A) : res A := deref (last l).

(** ** Maps *)

(** [util.MergeStringMap]: the loop [for k, v := range new { origin[k] = v }]. *)
Definition MergeStringMap (origin new : gmap string string) : gmap string string :=
  map_fold (fun k v m => <[k:=v]> m) origin new.

(** ** Lemmas on integers *)

Lemma uint64_small x : is_uint64 x -> uint64 x = x.
Proof. intros H. unfold uint64. apply Z.mod_small, H. Qed.

Lemma uint64_range x : is_uint64 (uint64 x).
Proof. unfold uint64, is_uint64. apply Z.mod_pos_bound. lia. Qed.

Lemma int32_small x : is_int32 x -> int32 x = x.
Proof. unfold is_int32, int32. intros H. rewrite Z.mod_small; lia. Qed.

(** A shifted high word or'ed with a low word is their sum. *)
Lemma lor_shiftl_add hi lo n :
  0 <= n -> 0 <= lo < 2 ^ n -> Z.lor (Z.shiftl hi n) lo = hi * 2 ^ n + lo.
Proof.
  intros Hn Hlo. rewrite <- Z.shiftl_mul_pow2 by lia.
  assert (Hland : Z.land (Z.shiftl hi n) lo = 0).
  { apply Z.bits_inj'. intros i Hi. rewrite Z.land_spec, Z.bits_0, andb_false_iff.
    destruct (decide (i < n)) as [Hlt|Hge].
    - left. apply Z.shiftl_spec_low. lia.
    - right. destruct (decide (lo = 0)) as [->|Hne]; [apply Z.bits_0|].
      apply Z.bits_above_log2; [lia|]. apply Z.log2_lt_pow2; [lia|].
      eapply Z.lt_le_trans; [apply Hlo|]. apply Z.pow_le_mono_r; lia. }
  rewrite <- Z.lxor_lor by done. symmetry. by apply Z.add_nocarry_lxor.
Qed.

(** ** Lemmas on strings *)

Lemma string_app_assoc (a b c : string) : (a +:+ b) +:+ c = a +:+ b +:+ c.
Proof. induction a as [|x a IH]; [done|]. 
  change (String x ((a +:+ b) +:+ c) = String x (a +:+ b +:+ c)). by rewrite IH.
Qed.

Lemma string_app_nil_r (a : string) : a +:+ "" = a.
Proof. induction a as [|x a IH]; [done|]. exact (f_equal (String x) IH). Qed.

Lemma string_length_app (a b : string) :
  String.length (a +:+ b) = (String.length a + String.length b)%nat.
Proof.
  induction a as [|x a IH]; [done|].
  change (S (String.length (a +:+ b)) = S (String.length a + String.length b)). by rewrite IH.
Qed.

Lemma Split_not_nil sep s : Split sep s <> [].
Proof.
  destruct s as [|c s]; simpl; [done|].
  destruct (Ascii.eqb c sep); [done|]. by destruct (Split sep s).
Qed.

Lemma Split_no_sep sep s : has_char sep s = false -> Split sep s = [s].
Proof.
  induction s as [|c s IH]; simpl; [done|].
  rewrite orb_false_iff. intros [-> H]. by rewrite IH.
Qed.

Lemma Split_cons_sep sep s t :
  has_char sep s = false ->
  Split sep (s +:+ String sep t) = s :: Split sep t.
Proof.
  induction s as [|c s IH]; simpl.
  - intros _. by rewrite Ascii.eqb_refl.
  - rewrite orb_false_iff. intros [-> H]. by rewrite IH.
Qed.

(** Splitting [p ++ sep ++ t] ends with [t] when [t] has no separator. *)
Lemma last_Split_app sep p t :
  has_char sep t = false ->
  last (Split sep (p +:+ String sep t)) = Some t.
Proof.
  intros Ht. induction p as [|c p IH]; simpl.
  - rewrite Ascii.eqb_refl. by rewrite Split_no_sep.
  - pose proof (Split_not_nil sep (p +:+ String sep t)) as Hn.
    destruct (Split sep (p +:+ String sep t)) as [|x l] eqn:E; [done|].
    destruct (Ascii.eqb c sep); simpl.
    + destruct l; exact IH.
    + destruct l; simpl in *; [|exact IH].
      exfalso. clear -E. revert x E. induction p as [|d p IHp]; simpl; intros x.
      * rewrite Ascii.eqb_refl. by destruct (Split sep t) eqn:?; [destruct (Split_not_nil sep t)|].
      * destruct (Ascii.eqb d sep).
        -- intros [= <- H]. destruct (Split_not_nil sep (p +:+ String sep t) H).
        -- destruct (Split sep (p +:+ String sep t)) as [|y l] eqn:E'; [by destruct (Split_not_nil _ _ E')|].
           intros [= <- ->]. by eapply IHp.
Qed.

Lemma Join_Split sep s : Join (String sep EmptyString) (Split sep s) = s.
Proof.
  induction s as [|c s IH]; simpl; [done|].
  destruct (Ascii.eqb_spec c sep) as [->|Hne].
  - destruct (Split sep s) eqn:E; [by destruct (Split_not_nil sep s)|].
    change (String sep (Join (String sep "") (s0 :: l)) = String sep s). by rewrite IH.
  - destruct (Split sep s) as [|t [|t' ts]] eqn:E; simpl in *; subst; done.
Qed.

(** ** Lemmas on decimal printing *)

Lemma digits_no_dash u : has_char "-"%char (NilEmpty.string_of_uint u) = false.
Proof. by induction u. Qed.

(** Printing a natural number prints the digits of its decimal form. *)
Lemma fmt_d_nonneg n :
  0 <= n -> fmt_d n = NilZero.string_of_uint (N.to_uint (Z.to_N n)).
Proof. by destruct n. Qed.

Lemma to_uint_not_nil n : N.to_uint n <> Decimal.Nil.
Proof. destruct n; [done|]. apply DecimalPos.Unsigned.to_uint_nonnil. Qed.

Lemma fmt_d_digits n :
  0 <= n -> fmt_d n = NilEmpty.string_of_uint (N.to_uint (Z.to_N n)).
Proof.
  intros H. rewrite fmt_d_nonneg by done.
  pose proof (to_uint_not_nil (Z.to_N n)). by destruct (N.to_uint (Z.to_N n)).
Qed.

Lemma fmt_d_no_dash n : 0 <= n -> has_char "-"%char (fmt_d n) = false.
Proof. intros H. rewrite fmt_d_digits by done. apply digits_no_dash. Qed.

(** [strconv.ParseUint] reads back what [fmt.Sprintf("%d")] prints. *)
Lemma ParseUint_fmt_d n : is_uint64 n -> ParseUint (fmt_d n) = Ok n.
Proof.
  intros [H0 H1]. rewrite fmt_d_digits by done.
  pose proof (to_uint_not_nil (Z.to_N n)) as Hnn.
  unfold ParseUint. rewrite NilEmpty.usu.
  destruct (NilEmpty.string_of_uint (N.to_uint (Z.to_N n))) eqn:E;
    [by destruct (N.to_uint (Z.to_N n))|].
  rewrite DecimalN.Unsigned.of_to, Z2N.id by done.
  by rewrite (proj2 (Z.leb_gt _ _)).
Qed.

Lemma ParseUint_range s n : ParseUint s = Ok n -> is_uint64 n.
Proof.
  unfold ParseUint. destruct s as [|c s]; [done|].
  destruct (NilEmpty.uint_of_string _) as [u|]; [|done].
  destruct (2 ^ 64 <=? _) eqn:E; [done|]. intros [= <-].
  apply Z.leb_gt in E. split; [lia|done].
Qed.

(** ** Lemmas on maps *)

Lemma MergeStringMap_union o n : MergeStringMap o n = n ∪ o.
Proof.
  unfold MergeStringMap. induction n as [|k v m Hk IH] using map_ind.
  - rewrite map_fold_empty. by rewrite map_empty_union.
  - rewrite map_fold_insert_L; [|intros; by apply insert_insert_ne|done].
    by rewrite IH, insert_union_l.
Qed.

Lemma MergeStringMap_lookup o n k :
  MergeStringMap o n !! k = match n !! k with Some v => Some v | None => o !! k end.
Proof. rewrite MergeStringMap_union, lookup_union. by destruct (n !! k), (o !! k). Qed.

Lemma MergeStringMap_idem o n : MergeStringMap (MergeStringMap o n) n = MergeStringMap o n.
Proof.
  apply map_eq. intros k. rewrite !MergeStringMap_lookup. by destruct (n !! k).
Qed.
