(* ===== verification/Hash.v ===== *)
(** * pkg/util/util.go: the hash of a config

    [CalculateConfigHash] over crypto/sha256 and encoding/hex of Go's standard
    library.  The hash of a component's config is an annotation of its pods, so that
    a changed config restarts them. *)

From stdpp Require Import base list strings.
From Stdlib Require Import NArith Ascii Lia.
From S2P Require Import Prelude.

#[local] Open Scope N_scope.

(** ** crypto/sha256: words of 32 bits *)

Definition word (n : N) : N := N.land n 0xffffffff.
Definition rotr (x : N) (k : N) : N := N.lor (N.shiftr x k) (word (N.shiftl x (32 - k))).

Definition Ch (x y z : N) : N := N.lxor (N.land x y) (N.land (N.lxor x 0xffffffff) z).
Definition Maj (x y z : N) : N := N.lxor (N.lxor (N.land x y) (N.land x z)) (N.land y z).
Definition Sigma0 (x : N) : N := N.lxor (N.lxor (rotr x 2) (rotr x 13)) (rotr x 22).
Definition Sigma1 (x : N) : N := N.lxor (N.lxor (rotr x 6) (rotr x 11)) (rotr x 25).
Definition sigma0 (x : N) : N := N.lxor (N.lxor (rotr x 7) (rotr x 18)) (N.shiftr x 3).
Definition sigma1 (x : N) : N := N.lxor (N.lxor (rotr x 17) (rotr x 19)) (N.shiftr x 10).

(** FIPS 180-4, 4.2.2 and 5.3.3: the constants are the first 32 bits of the fractional
    parts of the cube roots of the first 64 primes, and of the square roots of the
    first eight. *)
Fixpoint primes_from (fuel : nat) (n : N) (found : list N) : list N :=
  match fuel with
  | O => rev found
  | S fuel =>
      primes_from fuel (n + 1)
        (if existsb (fun p => n mod p =? 0) found then found else n :: found)
  end.
Definition primes : list N := Eval vm_compute in primes_from 310 2 [].

(** The largest [r] below [r0 + 2 ^ bits] with [r ^ k <= n], bit by bit. *)
Fixpoint root_bits (k n : N) (bits : nat) (r0 : N) : N :=
  match bits with
  | O => r0
  | S bits =>
      let r := r0 + N.shiftl 1 (N.of_nat bits) in
      root_bits k n bits (if r ^ k <=? n then r else r0)
  end.
Definition root_fraction (k p : N) : N := word (root_bits k (N.shiftl p (32 * k)) 40 0).

Definition round_constants : list N := Eval vm_compute in map (root_fraction 3) primes.

Record digest := mkDigest {
  h_a : N; h_b : N; h_c : N; h_d : N; h_e : N; h_f : N; h_g : N; h_h : N }.

Definition initial_digest : digest :=
  Eval vm_compute in
    let h i := root_fraction 2 (nth i primes 0) in
    mkDigest (h 0%nat) (h 1%nat) (h 2%nat) (h 3%nat) (h 4%nat) (h 5%nat) (h 6%nat) (h 7%nat).

Definition sha_round (h : digest) (kw : N * N) : digest :=
  let t1 := h_h h + Sigma1 (h_e h) + Ch (h_e h) (h_f h) (h_g h) + kw.1 + kw.2 in
  let t2 := Sigma0 (h_a h) + Maj (h_a h) (h_b h) (h_c h) in
  mkDigest (word (t1 + t2)) (h_a h) (h_b h) (h_c h) (word (h_d h + t1)) (h_e h) (h_f h) (h_g h).

(** The message schedule, the last word first. *)
Fixpoint schedule (n : nat) (ws : list N) : list N :=
  match n with
  | O => ws
  | S n =>
      let at_ i := nth i ws 0 in
      schedule n (word (sigma1 (at_ 1%nat) + at_ 6%nat + sigma0 (at_ 14%nat) + at_ 15%nat) :: ws)
  end.

Definition add_digest (h h' : digest) : digest :=
  mkDigest (word (h_a h + h_a h')) (word (h_b h + h_b h')) (word (h_c h + h_c h'))
    (word (h_d h + h_d h')) (word (h_e h + h_e h')) (word (h_f h + h_f h'))
    (word (h_g h + h_g h')) (word (h_h h + h_h h')).

(** A block is its sixteen words, the last first. *)
Definition compress (h : digest) (block : list N) : digest :=
  add_digest h (fold_left sha_round (combine round_constants (rev (schedule 48 block))) h).

(** ** Padding and blocks *)

Definition bytes_of (s : string) : list N := map N_of_ascii (String.list_ascii_of_string s).

(** [n] as [k] bytes, the most significant first. *)
Fixpoint big_endian (k : nat) (n : N) : list N :=
  match k with
  | O => []
  | S k => N.land (N.shiftr n (8 * N.of_nat k)) 255 :: big_endian k n
  end.

Definition pad (bytes : list N) : list N :=
  let n := N.of_nat (length bytes) in
  bytes ++ 128 :: repeat 0 (N.to_nat ((119 - n mod 64) mod 64)) ++ big_endian 8 (8 * n).

Fixpoint words_of (bytes : list N) : list N :=
  match bytes with
  | a :: b :: c :: d :: bytes =>
      (N.shiftl a 24 + N.shiftl b 16 + N.shiftl c 8 + d) :: words_of bytes
  | _ => []
  end.

(** Sixteen words make a block. *)
Fixpoint blocks (h : digest) (block : list N) (ws : list N) : digest :=
  match ws with
  | [] => h
  | w :: ws =>
      let block := w :: block in
      if Nat.eqb (length block) 16 then blocks (compress h block) [] ws else blocks h block ws
  end.

Definition Sum256 (s : string) : list N :=
  let h := blocks initial_digest [] (words_of (pad (bytes_of s))) in
  concat (map (big_endian 4)
    [h_a h; h_b h; h_c h; h_d h; h_e h; h_f h; h_g h; h_h h]).

(** ** encoding/hex *)

Definition hex_digit (n : N) : ascii :=
  ascii_of_N (if n <? 10 then 48 + n else 87 + n).

Fixpoint hex_EncodeToString (bytes : list N) : string :=
  match bytes with
  | [] => ""
  | b :: bytes => String (hex_digit (N.shiftr b 4)) (String (hex_digit (N.land b 15))
                    (hex_EncodeToString bytes))
  end.

Definition CalculateConfigHash (config : string) : string :=
  if decide (config = "") then "" else hex_EncodeToString (Sum256 config).

Example CalculateConfigHash_abc :
  CalculateConfigHash "abc" = "ba7816bf8f01cfea414140de5dae2223b00361a396177a9cb410ff61f20015ad".
Proof. vm_compute. reflexivity. Qed.
Example CalculateConfigHash_two_blocks :
  CalculateConfigHash "abcdbcdecdefdefgefghfghighijhijkijkljklmklmnlmnomnopnopq"
  = "248d6a61d20638b8e5c026930c3e6039a33ce45964ff2167f6ecedd419db06c1".
Proof. vm_compute. reflexivity. Qed.

(** ** Properties *)

(** The digits an annotation or a file name can hold. *)
Definition is_hex_digit (a : ascii) : Prop :=
  (48 <= N_of_ascii a <= 57) \/ (97 <= N_of_ascii a <= 102).

Lemma hex_digit_spec n : n < 16 -> is_hex_digit (hex_digit n).
Proof.
  intros Hn. unfold is_hex_digit, hex_digit.
  destruct (N.ltb_spec n 10); rewrite N_ascii_embedding; lia.
Qed.

Lemma big_endian_length k n : length (big_endian k n) = k.
Proof. induction k as [|k IH]; cbn; congruence. Qed.

Lemma big_endian_bytes k n : Forall (fun b => b < 256) (big_endian k n).
Proof.
  induction k as [|k IH]; cbn; constructor; [|done].
  change 255 with (N.ones 8). rewrite N.land_ones. by apply N.mod_lt.
Qed.

Lemma Sum256_spec s : length (Sum256 s) = 32%nat /\ Forall (fun b => b < 256) (Sum256 s).
Proof.
  unfold Sum256. set (h := blocks _ _ _). split.
  - cbn [map concat]. rewrite !length_app, !big_endian_length. done.
  - cbn [map concat]. rewrite !Forall_app. split_and!; solve [apply big_endian_bytes|constructor].
Qed.

Lemma hex_EncodeToString_spec bytes :
  Forall (fun b => b < 256) bytes ->
  String.length (hex_EncodeToString bytes) = (2 * length bytes)%nat
  /\ Forall is_hex_digit (String.list_ascii_of_string (hex_EncodeToString bytes)).
Proof.
  induction 1 as [|b bytes Hb Hbs [IH1 IH2]]; cbn [hex_EncodeToString]; [by repeat constructor|].
  cbn [String.length length String.list_ascii_of_string]. split; [lia|].
  apply Forall_cons_2; [|apply Forall_cons_2; [|done]]; apply hex_digit_spec.
  - rewrite N.shiftr_div_pow2. by apply N.Div0.div_lt_upper_bound.
  - change 15 with (N.ones 4). rewrite N.land_ones. by apply N.mod_lt.
Qed.

(** The hash of a config is empty for an empty config and otherwise 64 lower-case
    hexadecimal digits: a value every annotation accepts. *)
Theorem CalculateConfigHash_digits config :
  (CalculateConfigHash config = "" <-> config = "")
  /\ (config <> "" -> String.length (CalculateConfigHash config) = 64%nat)
  /\ Forall is_hex_digit (String.list_ascii_of_string (CalculateConfigHash config)).
Proof.
  unfold CalculateConfigHash. destruct (decide (config = "")) as [->|Hc].
  - by repeat split; try constructor.
  - destruct (Sum256_spec config) as [Hl Hb].
    destruct (hex_EncodeToString_spec _ Hb) as [Hlen Hd]. rewrite Hl in Hlen.
    split_and!; [|done..]. split; [|done]. intros He. rewrite He in Hlen. discriminate Hlen.
Qed.
