(* ===== verification/Duration.v ===== *)
(** * time.Duration of Go's standard library

    A duration is an int64 of nanoseconds: [Sub], [String] and [ParseDuration], which
    read back what [String] wrote.  The fraction of a unit goes through float64
    arithmetic, here SpecFloat's binary64. *)

From stdpp Require Import base list strings.
From Stdlib Require Import ZArith Lia Ascii SpecFloat.
From S2P Require Import Prelude GoLib.

#[local] Open Scope Z_scope.

(** ** Constants *)

Definition Nanosecond : Z := 1.
Definition Microsecond : Z := 1000 * Nanosecond.
Definition Millisecond : Z := 1000 * Microsecond.
Definition Second : Z := 1000 * Millisecond.
Definition Minute : Z := 60 * Second.
Definition Hour : Z := 60 * Minute.

Definition minDuration : Z := - 2 ^ 63.
Definition maxDuration : Z := 2 ^ 63 - 1.

(** [t.Sub(u)] of two wall-clock times saturates; [d.Milliseconds()] truncates. *)
Definition Sub (t u : Z) : Z := Z.max minDuration (Z.min maxDuration (t - u)).
Definition Milliseconds (d : Z) : Z := Z.quot d Millisecond.

(** ** Printing *)

(** The greek letter is two bytes. *)
Definition micro : string := String (ascii_of_nat 194) (String (ascii_of_nat 181) "").

Definition digit (v : Z) : ascii := ascii_of_N (Z.to_N (48 + v)).

(** [fmtFrac(buf, v, prec)]: the digits of [v / 10 ^ prec] after the point, without
    trailing zeros, in front of [buf]; and the rest of [v]. *)
Fixpoint fmtFrac (buf : string) (v : Z) (prec : nat) (print : bool) : string * Z :=
  match prec with
  | O => (if print then String "." buf else buf, v)
  | S prec =>
      let d := v mod 10 in
      let print := print || negb (Z.eqb d 0) in
      fmtFrac (if print then String (digit d) buf else buf) (v / 10) prec print
  end.

(** [fmtInt(buf, v)], of an unsigned 64-bit value: at most 20 digits. *)
Fixpoint put_digits (fuel : nat) (buf : string) (v : Z) : string :=
  match fuel with
  | O => buf
  | S fuel => if 0 <? v then put_digits fuel (String (digit (v mod 10)) buf) (v / 10) else buf
  end.
Definition fmtInt (buf : string) (v : Z) : string :=
  if v =? 0 then String "0" buf else put_digits 20 buf v.

(** The text of a duration that is not negative, from [uint64(d)]. *)
Definition text_of (u : Z) : string :=
  if u <? Second then
    if u =? 0 then "0s"
    else
      let '(unit, prec) :=
        if u <? Microsecond then ("ns", 0%nat)
        else if u <? Millisecond then (micro +:+ "s", 3%nat) else ("ms", 6%nat) in
      let '(buf, u) := fmtFrac unit u prec false in
      fmtInt buf u
  else
    let '(buf, u) := fmtFrac "s" u 9 false in
    let buf := fmtInt buf (u mod 60) in
    let u := u / 60 in
    if 0 <? u then
      let buf := fmtInt (String "m" buf) (u mod 60) in
      let u := u / 60 in
      if 0 <? u then fmtInt (String "h" buf) u else buf
    else buf.

Definition Duration_String (d : Z) : string :=
  let text := text_of (Z.abs d) in
  if d <? 0 then String "-" text else text.

(** ** Parsing *)

Definition is_digit (c : ascii) : bool :=
  let n := N_of_ascii c in (48 <=? n)%N && (n <=? 57)%N.
Definition digit_value (c : ascii) : Z := Z.of_N (N_of_ascii c) - 48.

Definition invalid_duration : error := Errorf "time: invalid duration".

(** [leadingInt(s)], from the digits read so far. *)
Fixpoint leadingInt (s : string) (x : Z) : res (Z * string) :=
  match s with
  | String c rest =>
      if negb (is_digit c) then Ok (x, s)
      else if 2 ^ 63 / 10 <? x then Err invalid_duration
      else
        let x := x * 10 + digit_value c in
        if 2 ^ 63 <? x then Err invalid_duration else leadingInt rest x
  | EmptyString => Ok (x, s)
  end.

(** binary64 *)
Definition float_of_Z (z : Z) : spec_float := binary_normalize 53 1024 z 0 false.
Definition float_mul : spec_float -> spec_float -> spec_float := SFmul 53 1024.
Definition float_div : spec_float -> spec_float -> spec_float := SFdiv 53 1024.
(** [uint64(f)] of a finite float that is not negative. *)
Definition uint64_of_float (f : spec_float) : Z :=
  match f with
  | S754_finite _ m e => Z.shiftl (Zpos m) e
  | _ => 0
  end.

(** [leadingFraction(s)]: the digits as a number, and the power of ten to divide by. *)
Fixpoint leadingFraction (s : string) (x : Z) (scale : spec_float) (overflow : bool)
    : Z * spec_float * string :=
  match s with
  | String c rest =>
      if negb (is_digit c) then (x, scale, s)
      else if overflow then leadingFraction rest x scale true
      else if (2 ^ 63 - 1) / 10 <? x then leadingFraction rest x scale true
      else
        let y := x * 10 + digit_value c in
        if 2 ^ 63 <? y then leadingFraction rest x scale true
        else leadingFraction rest y (float_mul scale (float_of_Z 10)) false
  | EmptyString => (x, scale, s)
  end.

(** The unit: up to the next point or digit. *)
Fixpoint unit_text (s : string) : string * string :=
  match s with
  | String c rest =>
      if Ascii.eqb c "." || is_digit c then ("", s)
      else let '(u, rest) := unit_text rest in (String c u, rest)
  | EmptyString => ("", "")
  end.

(** [unitMap]; both code points of the micro sign. *)
Definition unitMap (u : string) : option Z :=
  if decide (u = "ns") then Some Nanosecond
  else if decide (u = "us") then Some Microsecond
  else if decide (u = micro +:+ "s") then Some Microsecond
  else if decide (u = String (ascii_of_nat 206) (String (ascii_of_nat 188) "s")) then Some Microsecond
  else if decide (u = "ms") then Some Millisecond
  else if decide (u = "s") then Some Second
  else if decide (u = "m") then Some Minute
  else if decide (u = "h") then Some Hour
  else None.

(** One number with its unit: its value and the rest of the text. *)
Definition parse_component (s : string) : res (Z * string) :=
  _ ← guard_err (negb (match s with
                       | String c _ => Ascii.eqb c "." || is_digit c
                       | EmptyString => false
                       end)) invalid_duration;
  '(v, s1) ← leadingInt s 0;
  let pre := negb (bool_decide (s1 = s)) in
  let '(f, scale, s2, post) :=
    match s1 with
    | String "." s' =>
        let '(f, scale, s2) := leadingFraction s' 0 (float_of_Z 1) false in
        (f, scale, s2, negb (bool_decide (s2 = s')))
    | _ => (0, float_of_Z 1, s1, false)
    end in
  _ ← guard_err (negb pre && negb post) invalid_duration;
  let '(u, s3) := unit_text s2 in
  _ ← guard_err (bool_decide (u = "")) invalid_duration;
  unit ← match unitMap u with Some unit => Ok unit | None => Err invalid_duration end;
  _ ← guard_err (2 ^ 63 / unit <? v) invalid_duration;
  let v := v * unit in
  if 0 <? f then
    let v := uint64 (v + uint64_of_float (float_mul (float_of_Z f) (float_div (float_of_Z unit) scale))) in
    _ ← guard_err (2 ^ 63 <? v) invalid_duration;
    Ok (v, s3)
  else Ok (v, s3).

(** The loop over the components; a component consumes at least one byte. *)
Fixpoint parse_components (fuel : nat) (s : string) (d : Z) : res Z :=
  match s, fuel with
  | EmptyString, _ => Ok d
  | _, O => Err invalid_duration
  | _, S fuel =>
      '(v, s) ← parse_component s;
      let d := uint64 (d + v) in
      _ ← guard_err (2 ^ 63 <? d) invalid_duration;
      parse_components fuel s d
  end.

(** Consumes a sign: whether it is a minus. *)
Definition sign_of (s : string) : bool * string :=
  match s with
  | String c rest => if Ascii.eqb c "-" then (true, rest)
                     else if Ascii.eqb c "+" then (false, rest) else (false, s)
  | EmptyString => (false, s)
  end.

Definition ParseDuration (s : string) : res Z :=
  let '(neg, s) := sign_of s in
  if bool_decide (s = "0") then Ok 0
  else if bool_decide (s = "") then Err invalid_duration
  else
    d ← parse_components (String.length s) s 0;
    if neg then Ok (- d)
    else
      _ ← guard_err (2 ^ 63 - 1 <? d) invalid_duration;
      Ok d.

Example String_examples :
  map Duration_String [0; 7; 1500; 314950966; 10 * Second; 6159733714; 90 * Second; 3661000000001]
  = ["0s"; "7ns"; "1.5" +:+ micro +:+ "s"; "314.950966ms"; "10s"; "6.159733714s"; "1m30s"; "1h1m1.000000001s"].
Proof. vm_compute. reflexivity. Qed.
Example ParseDuration_examples :
  map ParseDuration ["0"; "314.950966ms"; "10s"; "-1.5h"; "1h1m1.000000001s"; "1"; ".5s"; "3000000h"]
  = [Ok 0; Ok 314950966; Ok (10 * Second); Ok (- 90 * Minute); Ok 3661000000001; Err invalid_duration;
     Ok 500000000; Err invalid_duration].
Proof. vm_compute. reflexivity. Qed.

(** ** Lemmas: digits *)

Lemma is_digit_digit v : 0 <= v < 10 -> is_digit (digit v) = true /\ digit_value (digit v) = v.
Proof.
  intros Hv. assert (H : v = 0 \/ v = 1 \/ v = 2 \/ v = 3 \/ v = 4 \/ v = 5 \/ v = 6 \/ v = 7 \/ v = 8 \/ v = 9)
    by lia.
  by repeat (destruct H as [->|H]; [by vm_compute|]); subst v.
Qed.

Lemma mod10 v : 0 <= v mod 10 < 10.
Proof. apply Z.mod_pos_bound. lia. Qed.

(** Text that ends a number. *)
Definition no_digit (s : string) : Prop :=
  match s with String c _ => is_digit c = false | EmptyString => True end.

Lemma leadingInt_stop s x : no_digit s -> leadingInt s x = Ok (x, s).
Proof. destruct s as [|c s]; cbn; [done|]. by intros ->. Qed.

(** One more digit, as long as the value stays in range. *)
Lemma leadingInt_digit s v :
  0 <= v <= 2 ^ 63 -> leadingInt (String (digit (v mod 10)) s) (v / 10) = leadingInt s v.
Proof.
  intros Hv. cbn [leadingInt]. destruct (is_digit_digit (v mod 10) (mod10 v)) as [-> ->]. cbn [negb].
  assert (Hq : v / 10 <= 2 ^ 63 / 10) by (apply Z.div_le_mono; lia).
  rewrite (proj2 (Z.ltb_ge _ _) Hq). replace (v / 10 * 10 + v mod 10) with v; [|rewrite (Z.div_mod v 10) at 1; lia].
  rewrite (proj2 (Z.ltb_ge _ _)) by lia. done.
Qed.

Lemma leadingInt_put_digits fuel : forall buf v,
  0 <= v <= 2 ^ 63 -> v < 10 ^ Z.of_nat fuel -> leadingInt (put_digits fuel buf v) 0 = leadingInt buf v.
Proof.
  induction fuel as [|fuel IH]; intros buf v Hv Hf.
  - cbn in Hf |- *. by replace v with 0 by lia.
  - cbn [put_digits]. destruct (Z.ltb_spec 0 v); [|by replace v with 0 by lia].
    rewrite IH; [by apply leadingInt_digit| |].
    + split; [apply Z.div_pos; lia|]. apply Z.div_le_upper_bound; lia.
    + apply Z.div_lt_upper_bound; [lia|]. rewrite Nat2Z.inj_succ, Z.pow_succ_r in Hf; lia.
Qed.

Lemma leadingInt_fmtInt buf v :
  0 <= v <= 2 ^ 63 -> no_digit buf -> leadingInt (fmtInt buf v) 0 = Ok (v, buf).
Proof.
  intros Hv Hb. unfold fmtInt. destruct (Z.eqb_spec v 0) as [->|Hne].
  - cbn. by apply leadingInt_stop.
  - rewrite leadingInt_put_digits; [by apply leadingInt_stop|done|]. cbn. lia.
Qed.

Lemma put_digits_S fuel buf v :
  put_digits (S fuel) buf v
  = if 0 <? v then put_digits fuel (String (digit (v mod 10)) buf) (v / 10) else buf.
Proof. done. Qed.

Lemma put_digits_length fuel : forall buf v, (String.length buf <= String.length (put_digits fuel buf v))%nat.
Proof.
  induction fuel as [|fuel IH]; intros buf v; cbn; [done|]. destruct (0 <? v); [|done].
  etransitivity; [|apply IH]. cbn. lia.
Qed.

Lemma fmtInt_length buf v : 0 <= v -> (String.length buf < String.length (fmtInt buf v))%nat.
Proof.
  intros Hv. unfold fmtInt. destruct (Z.eqb_spec v 0) as [->|Hne]; [cbn; lia|].
  rewrite (put_digits_S 19), (proj2 (Z.ltb_lt 0 v)) by lia.
  eapply Nat.lt_le_trans; [|apply put_digits_length]. cbn. lia.
Qed.

Lemma put_digits_head fuel : forall buf v,
  (exists c s, buf = String c s /\ is_digit c = true) ->
  exists c s, put_digits fuel buf v = String c s /\ is_digit c = true.
Proof.
  induction fuel as [|fuel IH]; intros buf v Hb; cbn; [done|]. destruct (0 <? v); [|done].
  apply IH. eexists _, _. split; [done|]. apply is_digit_digit, mod10.
Qed.

Lemma fmtInt_head buf v : 0 <= v -> exists c s, fmtInt buf v = String c s /\ is_digit c = true.
Proof.
  intros Hv. unfold fmtInt. destruct (Z.eqb_spec v 0) as [->|Hne]; [by eexists _, _|].
  rewrite (put_digits_S 19), (proj2 (Z.ltb_lt 0 v)) by lia. apply put_digits_head.
  eexists _, _. split; [done|]. apply is_digit_digit, mod10.
Qed.

(** ** Lemmas: binary64 is exact on the integers below 2^53 *)

Lemma digits2_log2 p : Zpos (digits2_pos p) = Z.log2 (Zpos p) + 1.
Proof.
  induction p as [p IH|p IH|]; cbn [digits2_pos]; [| |done]; rewrite Pos2Z.inj_succ, IH.
  - rewrite (Pos2Z.inj_xI p), Z.log2_succ_double by lia. lia.
  - rewrite (Pos2Z.inj_xO p), Z.log2_double by lia. lia.
Qed.

(** Shifting zeros out is exact. *)
Lemma iter_shr_exact p : forall z, 0 < z ->
  iter_pos shr_1 p (Build_shr_record (z * 2 ^ Zpos p) false false) = Build_shr_record z false false.
Proof.
  assert (H1 : forall z, 0 < z -> shr_1 (Build_shr_record (2 * z) false false) = Build_shr_record z false false).
  { intros [|q|q] Hz; [lia|done|lia]. }
  induction p as [p IH|p IH|]; intros z Hz; cbn [iter_pos].
  - replace (z * 2 ^ Zpos p~1) with (2 * (z * 2 ^ Zpos p * 2 ^ Zpos p)).
    + rewrite H1 by (apply Z.mul_pos_pos; [apply Z.mul_pos_pos|]; lia).
      rewrite IH by (apply Z.mul_pos_pos; lia). by apply IH.
    + rewrite (Pos2Z.inj_xI p), Z.pow_add_r, (Z.mul_comm 2 (Zpos p)), Z.pow_mul_r by lia. nia.
  - replace (z * 2 ^ Zpos p~0) with (z * 2 ^ Zpos p * 2 ^ Zpos p).
    + rewrite IH by (apply Z.mul_pos_pos; lia). by apply IH.
    + rewrite (Pos2Z.inj_xO p), (Z.mul_comm 2 (Zpos p)), Z.pow_mul_r by lia. nia.
  - rewrite Z.mul_comm. by apply H1.
Qed.

(** The float [f] is the integer [v]. *)
Definition is_int (f : spec_float) (v : Z) : Prop :=
  exists m e, f = S754_finite false m e /\ e <= 0 /\ Zpos m = v * 2 ^ (- e).

Lemma uint64_of_int f v : is_int f v -> uint64_of_float f = v.
Proof.
  intros (m & e & -> & He & Hm). cbn [uint64_of_float]. rewrite Hm.
  replace e with (- - e) at 2 by lia. rewrite Z.shiftl_opp_r, Z.shiftr_div_pow2 by lia.
  apply Z.div_mul, Z.pow_nonzero; lia.
Qed.

(** The exponent that an integer is rounded to. *)
Lemma fexp_int m e v :
  0 < v < 2 ^ 53 -> e <= 0 -> Zpos m = v * 2 ^ (- e) ->
  fexp 53 1024 (Zdigits2 (Zpos m) + e) = Z.log2 v - 52.
Proof.
  intros Hv He Hm. cbn [Zdigits2]. rewrite digits2_log2, Hm, Z.log2_mul_pow2 by lia.
  unfold fexp, emin. pose proof (Z.log2_nonneg v). lia.
Qed.

Lemma shr_fexp_exact m e v :
  0 < v < 2 ^ 53 -> e <= 0 -> Zpos m = v * 2 ^ (- e) ->
  exists m' e', shr_fexp 53 1024 (Zpos m) e loc_Exact = (Build_shr_record (Zpos m') false false, e')
    /\ e' <= 0 /\ Zpos m' = v * 2 ^ (- e').
Proof.
  intros Hv He Hm. unfold shr_fexp. rewrite (fexp_int m e v) by done. unfold shr.
  destruct (Z.log2 v - 52 - e) as [|n|n] eqn:Hn; [by exists m, e| |by exists m, e].
  assert (Hlog : Z.log2 v < 53) by (apply Z.log2_lt_pow2; lia).
  set (k := v * 2 ^ (52 - Z.log2 v)).
  assert (Hk : Zpos m = k * 2 ^ Zpos n).
  { unfold k. rewrite Hm, <- Z.mul_assoc, <- Z.pow_add_r by lia. do 2 f_equal. lia. }
  assert (Hpos : 0 < k) by (unfold k; apply Z.mul_pos_pos; lia).
  cbn [shr_record_of_loc]. rewrite Hk, (iter_shr_exact n k Hpos).
  destruct k as [|q|q] eqn:Hq; [lia| |lia]. exists q, (e + Zpos n). split_and!; [done|lia|].
  rewrite <- Hq. unfold k. do 2 f_equal. lia.
Qed.

Lemma round_aux_exact m e v :
  0 < v < 2 ^ 53 -> e <= 0 -> Zpos m = v * 2 ^ (- e) ->
  is_int (binary_round_aux 53 1024 false (Zpos m) e loc_Exact) v.
Proof.
  intros Hv He Hm. unfold binary_round_aux.
  destruct (shr_fexp_exact m e v Hv He Hm) as (m1 & e1 & -> & He1 & Hm1).
  cbn [shr_m loc_of_shr_record round_nearest_even].
  destruct (shr_fexp_exact m1 e1 v Hv He1 Hm1) as (m2 & e2 & -> & He2 & Hm2). cbn [shr_m].
  rewrite (proj2 (Z.leb_le _ _)) by lia. by exists m2, e2.
Qed.

Lemma float_of_int v : 0 < v < 2 ^ 53 -> is_int (float_of_Z v) v.
Proof.
  intros Hv. destruct v as [|p|p]; [lia| |lia]. unfold float_of_Z, binary_normalize, binary_round, shl_align.
  destruct (_ - 0) as [|d|d] eqn:Hd.
  - apply round_aux_exact; [done|done|by rewrite Z.mul_1_r].
  - apply round_aux_exact; [done|done|by rewrite Z.mul_1_r].
  - apply round_aux_exact; [done|lia|].
    replace (- _) with (Zpos d) by lia. clear. induction d as [|d IH] using Pos.peano_ind; [cbn; lia|].
    rewrite Pos.iter_succ, Pos2Z.inj_succ, Z.pow_succ_r by lia. rewrite (Pos2Z.inj_xO (Pos.iter _ _ _)), IH. lia.
Qed.

Lemma float_mul_int x y a b :
  is_int x a -> is_int y b -> 0 < a -> 0 < b -> a * b < 2 ^ 53 -> is_int (float_mul x y) (a * b).
Proof.
  intros (m1 & e1 & -> & He1 & Hm1) (m2 & e2 & -> & He2 & Hm2) Ha Hb Hab. unfold float_mul, SFmul. cbn [xorb].
  apply round_aux_exact; [nia|lia|]. rewrite Pos2Z.inj_mul, Hm1, Hm2.
  replace (- (e1 + e2)) with (- e1 + - e2) by lia. rewrite Z.pow_add_r by lia. nia.
Qed.

(** ** Lemmas: the fraction *)

(** The last [p] digits of [v], in front of [buf]; and the power of ten that reading them
    accumulates. *)
Fixpoint frac_digits (buf : string) (v : Z) (p : nat) : string :=
  match p with
  | O => buf
  | S p => frac_digits (String (digit (v mod 10)) buf) (v / 10) p
  end.
Fixpoint scale_after (p : nat) : spec_float :=
  match p with
  | O => float_of_Z 1
  | S p => float_mul (scale_after p) (float_of_Z 10)
  end.
Definition point (buf : string) (v : Z) (p : nat) : string :=
  match p with O => buf | _ => String "." (frac_digits buf v p) end.

Lemma pow10_S p : 10 ^ Z.of_nat (S p) = 10 * 10 ^ Z.of_nat p.
Proof. rewrite Nat2Z.inj_succ, Z.pow_succ_r; lia. Qed.

Lemma pow10_pos p : 0 < 10 ^ Z.of_nat p.
Proof. apply Z.pow_pos_nonneg; lia. Qed.

(** The last digits, one by one. *)
Lemma mod_pow10_S v p : v mod 10 ^ Z.of_nat (S p) = v / 10 mod 10 ^ Z.of_nat p * 10 + v mod 10.
Proof. rewrite pow10_S, Z.rem_mul_r by (try apply pow10_pos; lia). lia. Qed.

Lemma div_pow10_S v p : v / 10 ^ Z.of_nat (S p) = v / 10 / 10 ^ Z.of_nat p.
Proof. rewrite pow10_S, Z.div_div by (try apply pow10_pos; lia). done. Qed.

Lemma leadingFraction_frac_digits p : forall buf v, (p <= 9)%nat -> no_digit buf ->
  leadingFraction (frac_digits buf v p) 0 (float_of_Z 1) false
  = (v mod 10 ^ Z.of_nat p, scale_after p, buf).
Proof.
  assert (Hgen : forall buf v, (p <= 9)%nat ->
    leadingFraction (frac_digits buf v p) 0 (float_of_Z 1) false
    = leadingFraction buf (v mod 10 ^ Z.of_nat p) (scale_after p) false).
  { induction p as [|p IH]; intros buf v Hp; [by rewrite Z.mod_1_r|].
    cbn [frac_digits]. rewrite IH by lia. cbn [leadingFraction].
    destruct (is_digit_digit (v mod 10) (mod10 v)) as [-> ->]. cbn [negb].
    pose proof (Z.mod_pos_bound (v / 10) (10 ^ Z.of_nat p) (pow10_pos p)) as Hb.
    assert (Hle : 10 ^ Z.of_nat p <= 10 ^ 8) by (apply Z.pow_le_mono_r; lia).
    pose proof (mod10 v). replace ((2 ^ 63 - 1) / 10) with 922337203685477580 by done.
    rewrite (proj2 (Z.ltb_ge _ _)) by lia. rewrite <- mod_pow10_S.
    rewrite (proj2 (Z.ltb_ge _ _)) by (rewrite mod_pow10_S; lia). done. }
  intros buf v Hp Hb. rewrite Hgen by done. destruct buf as [|c buf]; cbn; [done|].
  cbn in Hb. by rewrite Hb.
Qed.

Lemma fmtFrac_true buf v p :
  fmtFrac buf v p true = (String "." (frac_digits buf v p), v / 10 ^ Z.of_nat p).
Proof.
  revert buf v. induction p as [|p IH]; intros buf v; cbn [fmtFrac frac_digits orb].
  - by rewrite Z.div_1_r.
  - by rewrite IH, div_pow10_S.
Qed.

(** What [fmtFrac] writes: the digits that count, [f] of them. *)
Lemma fmtFrac_point prec : forall buf v,
  exists p w, fmtFrac buf v prec false = (point buf w p, v / 10 ^ Z.of_nat prec)
    /\ (p <= prec)%nat /\ v mod 10 ^ Z.of_nat prec = w mod 10 ^ Z.of_nat p * 10 ^ Z.of_nat (prec - p)
    /\ (p <> O -> 0 < w mod 10 ^ Z.of_nat p).
Proof.
  induction prec as [|prec IH]; intros buf v.
  - exists O, v. cbn [fmtFrac point]. rewrite Z.mod_1_r, Z.div_1_r. split_and!; [done|lia|done|done].
  - cbn [fmtFrac orb]. destruct (Z.eqb_spec (v mod 10) 0) as [Hz|Hz]; cbn [negb].
    + destruct (IH buf (v / 10)) as (p & w & -> & Hp & Hm & Hw). exists p, w.
      rewrite <- div_pow10_S. split_and!; [done|lia| |done].
      rewrite mod_pow10_S, Hz, Hm. replace (S prec - p)%nat with (S (prec - p)) by lia.
      rewrite (pow10_S (prec - p)). lia.
    + exists (S prec), v. rewrite fmtFrac_true, <- div_pow10_S. split_and!; [done|lia| |].
      * rewrite Nat.sub_diag, Z.mul_1_r. done.
      * intros _. rewrite mod_pow10_S.
        pose proof (mod10 v). pose proof (Z.mod_pos_bound (v / 10) _ (pow10_pos prec)). lia.
Qed.

(** The quotient of a unit and a power of ten is exact. *)
Lemma float_div_unit k p : (k = 3 \/ k = 6 \/ k = 9)%nat -> (p <= k)%nat ->
  is_int (float_div (float_of_Z (10 ^ Z.of_nat k)) (scale_after p)) (10 ^ Z.of_nat (k - p)).
Proof.
  intros [-> | [-> | ->]] Hp;
    do 10 (destruct p as [|p]; [first [lia|eexists _, _; split_and!; [vm_compute; reflexivity|done|vm_compute; reflexivity]]|]);
    lia.
Qed.

(** So is the value of a fraction. *)
Lemma fraction_value k p f :
  (k = 3 \/ k = 6 \/ k = 9)%nat -> (p <= k)%nat -> 0 < f < 10 ^ Z.of_nat p ->
  uint64_of_float (float_mul (float_of_Z f) (float_div (float_of_Z (10 ^ Z.of_nat k)) (scale_after p)))
  = f * 10 ^ Z.of_nat (k - p).
Proof.
  intros Hk Hp Hf.
  assert (Hpk : 10 ^ Z.of_nat p * 10 ^ Z.of_nat (k - p) <= 10 ^ 9).
  { rewrite <- Z.pow_add_r by lia. apply Z.pow_le_mono_r; [lia|]. destruct Hk as [-> | [-> | ->]]; lia. }
  pose proof (pow10_pos (k - p)) as Hkp.
  assert (Hlt : f * 10 ^ Z.of_nat (k - p) < 10 ^ 9).
  { eapply Z.lt_le_trans; [|exact Hpk]. apply Z.mul_lt_mono_pos_r; lia. }
  assert (Hf53 : f < 2 ^ 53) by nia.
  apply uint64_of_int, float_mul_int; [apply float_of_int; lia|by apply float_div_unit|lia|done|lia].
Qed.

(** ** Lemmas: a component *)

(** A unit of [unitMap], as [String] writes it before another number or the end. *)
Definition unit_ok (u : string) (value : Z) : Prop :=
  unitMap u = Some value /\ 0 < value /\ u <> ""
  /\ forall rest, (match rest with String c _ => is_digit c = true | EmptyString => True end) ->
       unit_text (u +:+ rest) = (u, rest) /\ no_digit (u +:+ rest)
       /\ match u +:+ rest with String "." _ => False | _ => True end.

Lemma unit_text_stop rest :
  (match rest with String c _ => is_digit c = true | EmptyString => True end) -> unit_text rest = ("", rest).
Proof. destruct rest as [|c rest]; cbn; [done|]. intros ->. by rewrite orb_true_r. Qed.

Lemma units_ok :
  unit_ok "ns" Nanosecond /\ unit_ok (micro +:+ "s") Microsecond /\ unit_ok "ms" Millisecond
  /\ unit_ok "s" Second /\ unit_ok "m" Minute /\ unit_ok "h" Hour.
Proof.
  split_and!; (split; [by vm_compute|split; [by vm_compute|split; [done|]]]);
    intros rest Hr; cbv [micro String.append]; cbn [unit_text]; rewrite (unit_text_stop rest Hr); done.
Qed.

(** A number and its unit are read back. *)
Lemma parse_component_int u value i rest :
  unit_ok u value -> 0 <= i -> i * value <= 2 ^ 63 ->
  (match rest with String c _ => is_digit c = true | EmptyString => True end) ->
  parse_component (fmtInt (u +:+ rest) i) = Ok (i * value, rest).
Proof.
  intros (Hu & Hpos & Hne & Htext) Hi Hb Hrest. destruct (Htext rest Hrest) as (Ht & Hnd & Hpt).
  assert (Hi63 : i <= 2 ^ 63) by nia.
  pose proof (fmtInt_head (u +:+ rest) i Hi) as (c & s & Hs & Hc).
  pose proof (fmtInt_length (u +:+ rest) i Hi) as Hl.
  pose proof (leadingInt_fmtInt (u +:+ rest) i (conj Hi Hi63) Hnd) as Hlead.
  unfold parse_component. rewrite Hs at 1. rewrite Hc, orb_true_r. cbn [negb guard_err mbind res_bind].
  rewrite Hlead. cbn [mbind res_bind].
  assert (Hneq : bool_decide (u +:+ rest = fmtInt (u +:+ rest) i) = false).
  { apply bool_decide_eq_false_2. intros He. rewrite <- He in Hl. lia. }
  rewrite Hneq. cbn [negb andb].
  assert (Hmatch : forall A (x : string -> A) (y : A), match u +:+ rest with String "." s' => x s' | _ => y end = y).
  { intros A x y. destruct (u +:+ rest) as [|[[] [] [] [] [] [] [] []] ?]; done. }
  rewrite Hmatch. cbn [andb guard_err mbind res_bind]. rewrite Ht.
  rewrite bool_decide_eq_false_2 by done. cbn [guard_err mbind res_bind]. rewrite Hu. cbn [mbind res_bind].
  rewrite (proj2 (Z.ltb_ge (2 ^ 63 / value) i)) by (apply Z.div_le_lower_bound; lia). done.
Qed.

Lemma parse_component_frac u k w p i rest :
  unit_ok u (10 ^ Z.of_nat k) -> (k = 3 \/ k = 6 \/ k = 9)%nat -> (p <= k)%nat ->
  (p <> O -> 0 < w mod 10 ^ Z.of_nat p) ->
  0 <= i -> (i + 1) * 10 ^ Z.of_nat k <= 2 ^ 63 ->
  (match rest with String c _ => is_digit c = true | EmptyString => True end) ->
  parse_component (fmtInt (point (u +:+ rest) w p) i)
  = Ok (i * 10 ^ Z.of_nat k + w mod 10 ^ Z.of_nat p * 10 ^ Z.of_nat (k - p), rest).
Proof.
  intros Hunit Hk Hp Hw Hi Hb Hrest. destruct p as [|p].
  { cbn [point]. rewrite Z.mod_1_r, Z.mul_0_l, Z.add_0_r.
    pose proof (pow10_pos k). apply parse_component_int; [done..|lia|done]. }
  set (P := S p) in *. assert (HP : P <> O) by done. specialize (Hw HP).
  destruct Hunit as (Hu & Hpos & Hne & Htext). destruct (Htext rest Hrest) as (Ht & Hnd & _).
  change (point (u +:+ rest) w P) with (String "." (frac_digits (u +:+ rest) w P)).
  set (buf := String "." _). assert (Hi63 : i <= 2 ^ 63) by nia.
  pose proof (fmtInt_head buf i Hi) as (c & s & Hs & Hc).
  pose proof (fmtInt_length buf i Hi) as Hl.
  pose proof (leadingInt_fmtInt buf i (conj Hi Hi63) eq_refl) as Hlead.
  unfold parse_component. rewrite Hs at 1. rewrite Hc, orb_true_r. cbn [negb guard_err mbind res_bind].
  rewrite Hlead. cbn [mbind res_bind].
  assert (Hneq : bool_decide (buf = fmtInt buf i) = false).
  { apply bool_decide_eq_false_2. intros He. rewrite <- He in Hl. lia. }
  rewrite Hneq. subst buf. cbn [negb andb]. rewrite leadingFraction_frac_digits by (try done; lia).
  cbn [guard_err mbind res_bind andb]. rewrite Ht.
  rewrite bool_decide_eq_false_2 by done. cbn [guard_err mbind res_bind]. rewrite Hu. cbn [mbind res_bind].
  rewrite (proj2 (Z.ltb_ge (2 ^ 63 / 10 ^ Z.of_nat k) i)) by (apply Z.div_le_lower_bound; lia). cbn [guard_err mbind res_bind].
  pose proof (Z.mod_pos_bound w _ (pow10_pos P)) as Hwb.
  rewrite (proj2 (Z.ltb_lt 0 _) Hw), fraction_value by (try done; lia).
  assert (Hval : w mod 10 ^ Z.of_nat P * 10 ^ Z.of_nat (k - P) <= 10 ^ Z.of_nat k).
  { replace (10 ^ Z.of_nat k) with (10 ^ Z.of_nat P * 10 ^ Z.of_nat (k - P)).
    - apply Z.mul_le_mono_nonneg_r; [|lia]. pose proof (pow10_pos (k - P)). lia.
    - rewrite <- Z.pow_add_r by lia. f_equal. lia. }
  pose proof (pow10_pos (k - P)).
  rewrite uint64_small by (unfold is_uint64; nia).
  rewrite (proj2 (Z.ltb_ge _ _)) by lia. done.
Qed.

(** ** Lemmas: the components of a text *)

(** [s] reads as the durations [ds] one after the other, and starts with a digit. *)
Fixpoint reads (ds : list Z) (s : string) : Prop :=
  match ds with
  | [] => s = ""
  | d :: ds => 0 <= d <= 2 ^ 63
      /\ exists c rest s', s = String c rest /\ is_digit c = true /\ (String.length s' < String.length s)%nat
         /\ parse_component s = Ok (d, s') /\ reads ds s'
  end.

Definition sum (ds : list Z) : Z := foldr Z.add 0 ds.

Lemma reads_parse ds : forall s fuel d,
  reads ds s -> (String.length s <= fuel)%nat -> 0 <= d -> d + sum ds <= 2 ^ 63 ->
  parse_components fuel s d = Ok (d + sum ds).
Proof.
  induction ds as [|x ds IH]; intros s fuel d Hr Hf Hd Hs; cbn [reads sum foldr] in *.
  - subst s. destruct fuel; cbn; by rewrite Z.add_0_r.
  - destruct Hr as (Hx & c & rest & s' & -> & Hc & Hl & Hp & Hr).
    destruct fuel as [|fuel]; [cbn in Hf; lia|]. cbn [parse_components]. rewrite Hp. cbn [mbind res_bind].
    assert (Hnn : 0 <= sum ds).
    { clear -Hr. revert s' Hr. induction ds as [|y ds IH]; intros s' Hr; cbn; [lia|].
      destruct Hr as (Hy & ? & ? & s2 & _ & _ & _ & _ & Hr). specialize (IH s2 Hr). unfold sum in IH. lia. }
    change (foldr Z.add 0 ds) with (sum ds) in *.
    rewrite uint64_small by (unfold is_uint64; lia). rewrite (proj2 (Z.ltb_ge _ _)) by lia.
    cbn [guard_err mbind res_bind]. rewrite IH; [f_equal; lia|done| |lia|lia].
    cbn in Hf, Hl. lia.
Qed.

(** A number and a unit in front of a text that is read. *)
Definition starts (s : string) : Prop :=
  match s with String c _ => is_digit c = true | EmptyString => True end.

Lemma reads_starts ds s : reads ds s -> starts s.
Proof. destruct ds; cbn; [by intros ->|]. by intros (_ & c & rest & _ & -> & Hc & _). Qed.

Lemma reads_component ds buf i d s' :
  0 <= i -> 0 <= d <= 2 ^ 63 -> parse_component (fmtInt buf i) = Ok (d, s') ->
  (String.length s' <= String.length buf)%nat -> reads ds s' -> reads (d :: ds) (fmtInt buf i).
Proof.
  intros Hi Hd Hp Hl Hr. cbn [reads]. split; [done|].
  pose proof (fmtInt_length buf i Hi). destruct (fmtInt_head buf i Hi) as (c & s & Hs & Hc).
  exists c, s, s'. split_and!; [done|done|lia|done|done].
Qed.

Lemma reads_int u value i rest ds :
  unit_ok u value -> 0 <= i -> i * value <= 2 ^ 63 -> reads ds rest ->
  reads (i * value :: ds) (fmtInt (u +:+ rest) i).
Proof.
  intros Hu Hi Hb Hr. pose proof Hu as (_ & Hpos & _). eapply reads_component; [done|nia| | |exact Hr].
  - apply parse_component_int; [done..|]. by eapply reads_starts.
  - rewrite string_length_app. lia.
Qed.

Lemma frac_digits_length p : forall buf v, (String.length buf <= String.length (frac_digits buf v p))%nat.
Proof.
  induction p as [|p IH]; intros buf v; cbn; [done|]. etransitivity; [|apply IH]. cbn. lia.
Qed.

(** The last component, with a fraction: [v] of units of [10 ^ k] nanoseconds. *)
Lemma reads_frac u k v i :
  unit_ok u (10 ^ Z.of_nat k) -> (k = 3 \/ k = 6 \/ k = 9)%nat -> 0 <= i ->
  (i + 1) * 10 ^ Z.of_nat k <= 2 ^ 63 ->
  reads [i * 10 ^ Z.of_nat k + v mod 10 ^ Z.of_nat k] (fmtInt (fmtFrac u v k false).1 i).
Proof.
  intros Hu Hk Hi Hb. destruct (fmtFrac_point k u v) as (p & w & -> & Hp & Hm & Hw). cbn [fst].
  rewrite Hm. pose proof (Z.mod_pos_bound v _ (pow10_pos k)) as Hv. rewrite Hm in Hv.
  replace u with (u +:+ "") at 1 by apply string_app_nil_r.
  eapply reads_component; [done| | | |done].
  - lia.
  - apply parse_component_frac; done.
  - cbn. lia.
Qed.

(** With divisions by constants. *)
Ltac div_lia := Z.to_euclidean_division_equations; lia.

Lemma text_reads u : 0 <= u <= 2 ^ 63 -> exists ds, reads ds (text_of u) /\ sum ds = u /\ ds <> [].
Proof.
  intros Hu. destruct units_ok as (Uns & Uus & Ums & Us & Um & Uh). unfold text_of.
  destruct (Z.ltb_spec u Second) as [Hs|Hs].
  - destruct (Z.eqb_spec u 0) as [->|H0].
    { exists [0]. split; [|done]. apply (reads_int "s" Second 0 "" []); [done|div_lia..|done]. }
    destruct (Z.ltb_spec u Microsecond) as [Hus|Hus]; [|destruct (Z.ltb_spec u Millisecond) as [Hms|Hms]].
    + cbn [fmtFrac]. exists [u * Nanosecond]. split; [|cbn; unfold Nanosecond; split; [div_lia|done]].
      change "ns" with ("ns" +:+ ""). apply reads_int; [done|div_lia|unfold Nanosecond; div_lia|done].
    + exists [u / 1000 * 1000 + u mod 1000]. split; [|cbn; split; [|done]; pose proof (Z.div_mod u 1000); div_lia].
      pose proof (reads_frac (micro +:+ "s") 3 u (u / 1000) Uus (or_introl eq_refl)) as Hr.
      destruct (fmtFrac_point 3 (micro +:+ "s") u) as (p & w & Hf & _). rewrite Hf in Hr |- *.
      change (10 ^ Z.of_nat 3) with 1000 in *. apply Hr; unfold Millisecond, Microsecond, Nanosecond in *; div_lia.
    + exists [u / 1000000 * 1000000 + u mod 1000000]. split; [|cbn; split; [|done]; pose proof (Z.div_mod u 1000000); div_lia].
      pose proof (reads_frac "ms" 6 u (u / 1000000) Ums (or_intror (or_introl eq_refl))) as Hr.
      destruct (fmtFrac_point 6 "ms" u) as (p & w & Hf & _). rewrite Hf in Hr |- *.
      change (10 ^ Z.of_nat 6) with 1000000 in *. apply Hr; unfold Second, Millisecond, Microsecond, Nanosecond in *; div_lia.
  - set (v := u / 1000000000). assert (Hv : 0 <= v <= 9223372036) by (unfold v; div_lia).
    pose proof (reads_frac "s" 9 u (v mod 60) Us (or_intror (or_intror eq_refl))) as Hr.
    destruct (fmtFrac_point 9 "s" u) as (p & w & Hf & _). rewrite Hf in Hr |- *.
    change (10 ^ Z.of_nat 9) with 1000000000 in *. fold v in Hr |- *. cbn [fst] in Hr.
    assert (Hsec : reads [v mod 60 * 1000000000 + u mod 1000000000] (fmtInt (point "s" w p) (v mod 60)))
      by (apply Hr; div_lia).
    assert (Hu9 : u = v * 1000000000 + u mod 1000000000) by (unfold v; div_lia).
    destruct (Z.ltb_spec 0 (v / 60)) as [Hm|Hm]; [|by eexists; split; [exact Hsec|split; [cbn; div_lia|done]]].
    assert (Hmin : reads (v / 60 mod 60 * Minute :: [v mod 60 * 1000000000 + u mod 1000000000])
                     (fmtInt (String "m" (fmtInt (point "s" w p) (v mod 60))) (v / 60 mod 60))).
    { change (String "m" ?x) with ("m" +:+ x). apply reads_int; [done|div_lia|unfold Minute, Second, Millisecond, Microsecond, Nanosecond; div_lia|done]. }
    destruct (Z.ltb_spec 0 (v / 60 / 60)) as [Hh|Hh].
    + exists (v / 60 / 60 * Hour :: v / 60 mod 60 * Minute :: [v mod 60 * 1000000000 + u mod 1000000000]).
      split; [|split; [|done]].
      * change (String "h" ?x) with ("h" +:+ x). apply reads_int; [done|div_lia| |done].
        unfold Hour, Minute, Second, Millisecond, Microsecond, Nanosecond; div_lia.
      * cbn. unfold Hour, Minute, Second, Millisecond, Microsecond, Nanosecond. div_lia.
    + eexists. split; [exact Hmin|split; [|done]]. cbn.
      unfold Minute, Second, Millisecond, Microsecond, Nanosecond. div_lia.
Qed.

(** A text that reads as components is the duration that is their sum. *)
Lemma ParseDuration_reads x ds s (neg : bool) :
  reads (x :: ds) s -> sum (x :: ds) <= (if neg then 2 ^ 63 else maxDuration) ->
  ParseDuration (if neg then String "-" s else s) = Ok (if neg then - sum (x :: ds) else sum (x :: ds)).
Proof.
  intros Hr Hb. pose proof Hr as (_ & c & rest & s' & Ht & Hc & _ & Hp & _).
  assert (H63 : sum (x :: ds) <= 2 ^ 63) by (unfold maxDuration in Hb; destruct neg; lia).
  pose proof (reads_parse (x :: ds) s (String.length s) 0 Hr (le_n _) (Z.le_refl 0) H63) as Hparse.
  assert (H0 : s <> "0") by (intros E; rewrite E in Hp; discriminate Hp).
  assert (He : s <> "") by (rewrite Ht; done).
  assert (Hsign : sign_of (if neg then String "-" s else s) = (neg, s)).
  { destruct neg; [done|]. rewrite Ht. cbn. destruct (Ascii.eqb_spec c "-") as [->|]; [discriminate Hc|].
    destruct (Ascii.eqb_spec c "+") as [->|]; [discriminate Hc|done]. }
  unfold ParseDuration. rewrite Hsign. cbv beta iota. rewrite !bool_decide_eq_false_2 by done.
  rewrite Hparse. cbn [mbind res_bind]. destruct neg; [by f_equal|].
  unfold maxDuration in Hb. rewrite (proj2 (Z.ltb_ge _ _)) by lia. done.
Qed.

(** ** Properties *)

(** What [String] writes, [ParseDuration] reads back: for every int64, in spite of the
    float64 arithmetic on the way. *)
Theorem ParseDuration_String d : minDuration <= d <= maxDuration -> ParseDuration (Duration_String d) = Ok d.
Proof.
  unfold minDuration, maxDuration. intros Hd.
  destruct (text_reads (Z.abs d)) as (ds & Hr & Hs & Hne); [lia|]. destruct ds as [|x ds]; [done|].
  unfold Duration_String. cbv zeta. destruct (Z.ltb_spec d 0) as [Hneg|Hneg].
  - rewrite (ParseDuration_reads x ds _ true Hr) by (rewrite Hs; lia). f_equal. lia.
  - rewrite (ParseDuration_reads x ds _ false Hr) by (rewrite Hs; unfold maxDuration; lia). f_equal. lia.
Qed.

(** A duration with a fraction, of several units, and the least one. *)
Lemma ParseDuration_String_witness :
  ParseDuration (Duration_String 5025000000007) = Ok 5025000000007
  /\ ParseDuration (Duration_String minDuration) = Ok minDuration.
Proof. split; apply ParseDuration_String; unfold minDuration, maxDuration; lia. Defined.
