(* ===== verification/Regexp.v ===== *)
(** * regexp of Go's standard library: what the operator's patterns use

    A backtracking matcher with Go's preferences: the leftmost match; alternatives in
    order; repetitions as long as possible.  Text is bytes: the classes used here do
    not split a character of UTF-8. *)

From stdpp Require Import base list strings.
From Stdlib Require Import ZArith Lia Ascii.
From S2P Require Import Prelude GoLib.

(** ** Patterns *)

Inductive regexp :=
  | Class (p : ascii -> bool)
  | Lit (text : string)
  | Seq (r1 r2 : regexp)
  | Alt (r1 r2 : regexp)
  | Plus (r : regexp)
  | Opt (r : regexp)
  | Group (r : regexp).

(** The rest of a text after a literal. *)
Fixpoint after (lit s : string) : option string :=
  match lit, s with
  | EmptyString, s => Some s
  | String c lit, String d s => if Ascii.eqb c d then after lit s else None
  | String _ _, EmptyString => None
  end.

(** The text between a position and a later one. *)
Definition consumed (s rest : string) : string :=
  String.substring 0 (String.length s - String.length rest) s.

(** [k] is what has to match after [r], given the rest of the text and the groups so
    far.  A round of a repetition that consumes nothing ends it: the length of the text
    bounds the rounds. *)
Fixpoint rmatch {B} (r : regexp) (s : string) (groups : list string)
    (k : string -> list string -> option B) : option B :=
  match r with
  | Class p => match s with
               | String c rest => if p c then k rest groups else None
               | EmptyString => None
               end
  | Lit text => match after text s with Some rest => k rest groups | None => None end
  | Seq r1 r2 => rmatch r1 s groups (fun rest groups => rmatch r2 rest groups k)
  | Alt r1 r2 => match rmatch r1 s groups k with Some b => Some b | None => rmatch r2 s groups k end
  | Opt r => match rmatch r s groups k with Some b => Some b | None => k s groups end
  | Group r => rmatch r s groups (fun rest groups => k rest (groups ++ [consumed s rest]))
  | Plus r =>
      (fix plus (fuel : nat) (s : string) (groups : list string) : option B :=
         rmatch r s groups (fun rest groups =>
           match fuel with
           | O => k rest groups
           | S fuel => match plus fuel rest groups with Some b => Some b | None => k rest groups end
           end)) (String.length s) s groups
  end.

(** [re.FindStringSubmatch(s)]: the match and its groups, or nil. *)
Fixpoint FindStringSubmatch (r : regexp) (s : string) : list string :=
  match rmatch r s [] (fun rest groups => Some (consumed s rest :: groups)) with
  | Some m => m
  | None => match s with
            | EmptyString => []
            | String _ s => FindStringSubmatch r s
            end
  end.

Fixpoint Alts (r : regexp) (l : list regexp) : regexp :=
  match l with [] => r | r' :: l => Alt r (Alts r' l) end.

(** ** Lemmas *)

(** Every character of a text is in a class; a text does not go on in the class. *)
Fixpoint all_in (p : ascii -> bool) (s : string) : bool :=
  match s with EmptyString => true | String c s => p c && all_in p s end.
Definition stops (p : ascii -> bool) (s : string) : Prop :=
  match s with String c _ => p c = false | EmptyString => True end.

Lemma consumed_app a b : consumed (a +:+ b) b = a.
Proof.
  unfold consumed. rewrite string_length_app. replace (_ + _ - _) with (String.length a) by lia.
  induction a as [|c a IH]; [by destruct b|]. change (String c a +:+ b) with (String c (a +:+ b)).
  cbn [String.length String.substring]. by rewrite IH.
Qed.

Lemma all_in_app p a b : all_in p (a +:+ b) = all_in p a && all_in p b.
Proof.
  induction a as [|c a IH]; [done|]. change (String c a +:+ b) with (String c (a +:+ b)). cbn [all_in].
  by rewrite IH, andb_assoc.
Qed.

Lemma after_app lit s : after lit (lit +:+ s) = Some s.
Proof.
  induction lit as [|c lit IH]; [done|]. change (String c lit +:+ s) with (String c (lit +:+ s)).
  cbn [after]. by rewrite Ascii.eqb_refl.
Qed.

(** Literals and alternatives. *)
Lemma lit_here {B} lit s groups (k : string -> list string -> option B) b :
  k s groups = Some b -> rmatch (Lit lit) (lit +:+ s) groups k = Some b.
Proof. cbn [rmatch]. by rewrite after_app. Qed.

Lemma seq_eq {B} r1 r2 s groups (k : string -> list string -> option B) :
  rmatch (Seq r1 r2) s groups k = rmatch r1 s groups (fun rest groups => rmatch r2 rest groups k).
Proof. done. Qed.

Lemma seq_lit {B} lit r s groups (k : string -> list string -> option B) b :
  rmatch r s groups k = Some b -> rmatch (Seq (Lit lit) r) (lit +:+ s) groups k = Some b.
Proof. intros H. rewrite seq_eq. by apply lit_here. Qed.

Lemma group_eq {B} r s groups (k : string -> list string -> option B) :
  rmatch (Group r) s groups k = rmatch r s groups (fun rest groups => k rest (groups ++ [consumed s rest])).
Proof. done. Qed.

Lemma alt_here {B} r1 r2 s groups (k : string -> list string -> option B) b :
  rmatch r1 s groups k = Some b -> rmatch (Alt r1 r2) s groups k = Some b.
Proof. cbn [rmatch]. by intros ->. Qed.

Lemma alt_skip {B} lit r2 s groups (k : string -> list string -> option B) b :
  after lit s = None -> rmatch r2 s groups k = Some b -> rmatch (Alt (Lit lit) r2) s groups k = Some b.
Proof. cbn [rmatch]. by intros ->. Qed.

(** A repetition of a class first tries all of the text in the class. *)
Lemma rmatch_plus {B} p d rest groups (k : string -> list string -> option B) b :
  d <> "" -> all_in p d = true -> stops p rest -> k rest groups = Some b ->
  rmatch (Plus (Class p)) (d +:+ rest) groups k = Some b.
Proof.
  intros Hne Hd Hrest Hk. cbn [rmatch].
  assert (Hfuel : (String.length d <= S (String.length (d +:+ rest)))%nat)
    by (rewrite string_length_app; lia).
  revert Hfuel. generalize (String.length (d +:+ rest)). intros fuel.
  revert d Hne Hd. induction fuel as [|fuel IH]; intros [|c d] Hne Hd Hfuel; try done;
    change (String c d +:+ rest) with (String c (d +:+ rest)); cbn [all_in] in Hd;
    apply andb_prop in Hd as [-> Hd].
  - destruct d; [done|cbn in Hfuel; lia].
  - destruct d as [|c' d].
    + cbn [String.append]. change ("" +:+ rest) with rest. destruct fuel, rest as [|c' rest]; cbn in Hrest |- *;
        rewrite ?Hrest; done.
    + rewrite (IH (String c' d)); [done|done|done|cbn in Hfuel |- *; lia].
Qed.

(** Where a pattern does not match, the search moves on. *)
Lemma find_skip r c s :
  (forall groups k, rmatch (B := list string) r (String c s) groups k = None) ->
  FindStringSubmatch r (String c s) = FindStringSubmatch r s.
Proof. intros H. cbn [FindStringSubmatch]. by rewrite H. Qed.

Lemma find_here r s m :
  rmatch r s [] (fun rest groups => Some (consumed s rest :: groups)) = Some m ->
  FindStringSubmatch r s = m.
Proof. intros H. destruct s; cbn [FindStringSubmatch]; by rewrite H. Qed.
