(* ===== verification/K8s.v ===== *)
(** * The Kubernetes objects the operator reads and writes

    The shapes (not the behaviour) of the k8s.io/api structures that the
    sources build, compare or read field by field.  A Go pointer is an
    [option], a [map[string]string] a [gmap string string] (a nil map is the
    empty one unless the code tells them apart), a slice a [list].  A
    sub-structure that the operator only copies and compares is [opaque]: its
    serialised text, empty when it is nil. *)

From stdpp Require Import base gmap strings list fin_maps.
From Stdlib Require Import ZArith.
From S2P Require Import Prelude.

(** A sub-structure carried as its serialised text. *)
Definition opaque : Type := string.
#[export] Instance opaque_eq_dec : EqDecision opaque := String.eq_dec.

Notation strmap := (gmap string string).

(** types.NamespacedName *)
Record NamespacedName := mkNamespacedName {
  nn_Namespace : string;
  nn_Name : string }.
#[export] Instance NamespacedName_eq_dec : EqDecision NamespacedName.
Proof. solve_decision. Defined.
#[export] Instance NamespacedName_countable : Countable NamespacedName.
Proof.
  refine (inj_countable' (fun n => (nn_Namespace n, nn_Name n))
            (fun p => mkNamespacedName p.1 p.2) _). by intros [].
Defined.

(** metav1.ObjectMeta; [om_DeletionTimestamp] is [None] for the zero time.  The labels are a
    map that may be nil ([None]): the operator tells a nil map from an empty one. *)
Record ObjectMeta := mkObjectMeta {
  om_Name : string;
  om_Namespace : string;
  om_Labels : option strmap;
  om_Annotations : strmap;
  om_Finalizers : list string;
  om_OwnerReferences : list opaque;
  om_Generation : Z;
  om_ResourceVersion : string;
  om_DeletionTimestamp : option Z }.
#[export] Instance ObjectMeta_eq_dec : EqDecision ObjectMeta.
Proof. solve_decision. Defined.

(** The metadata the builders set: name, namespace, labels, annotations. *)
Definition meta_of (ns name : string) (labels : option strmap) (annotations : strmap) : ObjectMeta :=
  mkObjectMeta name ns labels annotations [] [] 0 "" None.

(** Reading a nil map is reading an empty one. *)
Definition labels_of (m : ObjectMeta) : strmap := default ∅ (om_Labels m).

Definition key_of (m : ObjectMeta) : NamespacedName :=
  mkNamespacedName (om_Namespace m) (om_Name m).

(** intstr.IntOrString: [Type] is [Int] (0) or [String] (1). *)
Inductive IntOrStringType := TInt | TString.
#[export] Instance IntOrStringType_eq_dec : EqDecision IntOrStringType.
Proof. solve_decision. Defined.

Record IntOrString := mkIntOrString {
  is_Type : IntOrStringType;
  is_IntVal : Z;
  is_StrVal : string }.
#[export] Instance IntOrString_eq_dec : EqDecision IntOrString.
Proof. solve_decision. Defined.

(** intstr.FromInt32 *)
Definition FromInt32 (n : Z) : IntOrString := mkIntOrString TInt n "".

(** corev1.HTTPGetAction and corev1.Probe *)
Record HTTPGetAction := mkHTTPGetAction {
  hg_Path : string;
  hg_Port : IntOrString;
  hg_Host : string;
  hg_Scheme : string;
  hg_HTTPHeaders : list opaque }.
#[export] Instance HTTPGetAction_eq_dec : EqDecision HTTPGetAction.
Proof. solve_decision. Defined.

Record Probe := mkProbe {
  pb_Exec : opaque;
  pb_HTTPGet : option HTTPGetAction;
  pb_TCPSocket : opaque;
  pb_GRPC : opaque;
  pb_InitialDelaySeconds : Z;
  pb_TimeoutSeconds : Z;
  pb_PeriodSeconds : Z;
  pb_SuccessThreshold : Z;
  pb_FailureThreshold : Z;
  pb_TerminationGracePeriodSeconds : option Z }.
#[export] Instance Probe_eq_dec : EqDecision Probe.
Proof. solve_decision. Defined.

(** corev1.ResourceRequirements: a quantity is its canonical text. *)
Record ResourceRequirements := mkResourceRequirements {
  rr_Limits : strmap;
  rr_Requests : strmap;
  rr_Claims : list opaque }.
#[export] Instance ResourceRequirements_eq_dec : EqDecision ResourceRequirements.
Proof. solve_decision. Defined.

(** corev1.EnvVar: its value is a literal, a field reference or another source. *)
Inductive EnvVarSource :=
  | FieldRef (path : string)
  | OtherSource (src : opaque).
#[export] Instance EnvVarSource_eq_dec : EqDecision EnvVarSource.
Proof. solve_decision. Defined.

Record EnvVar := mkEnvVar {
  ev_Name : string;
  ev_Value : string;
  ev_ValueFrom : option EnvVarSource }.
#[export] Instance EnvVar_eq_dec : EqDecision EnvVar.
Proof. solve_decision. Defined.

Record ContainerPort := mkContainerPort {
  cp_Name : string;
  cp_Protocol : string;
  cp_ContainerPort : Z }.
#[export] Instance ContainerPort_eq_dec : EqDecision ContainerPort.
Proof. solve_decision. Defined.

Record VolumeMount := mkVolumeMount {
  vm_Name : string;
  vm_MountPath : string;
  vm_ReadOnly : bool }.
#[export] Instance VolumeMount_eq_dec : EqDecision VolumeMount.
Proof. solve_decision. Defined.

Inductive VolumeSource :=
  | ConfigMapSource (name : string)
  | EmptyDirSource (size_limit : option string)
  | SecretSource (name : string)
  | OtherVolumeSource (src : opaque).
#[export] Instance VolumeSource_eq_dec : EqDecision VolumeSource.
Proof. solve_decision. Defined.

Record Volume := mkVolume {
  vo_Name : string;
  vo_Source : VolumeSource }.
#[export] Instance Volume_eq_dec : EqDecision Volume.
Proof. solve_decision. Defined.

(** corev1.Container *)
Record Container := mkContainer {
  ct_Name : string;
  ct_Image : string;
  ct_Command : list string;
  ct_Args : list string;
  ct_WorkingDir : string;
  ct_Ports : list ContainerPort;
  ct_EnvFrom : list opaque;
  ct_Env : list EnvVar;
  ct_Resources : ResourceRequirements;
  ct_VolumeMounts : list VolumeMount;
  ct_LivenessProbe : option Probe;
  ct_ReadinessProbe : option Probe;
  ct_StartupProbe : option Probe;
  ct_Lifecycle : opaque;
  ct_ImagePullPolicy : string;
  ct_SecurityContext : opaque }.
#[export] Instance Container_eq_dec : EqDecision Container.
Proof. solve_decision. Defined.

(** corev1.PodSpec and corev1.PodTemplateSpec *)
Record PodSpec := mkPodSpec {
  ps_Containers : list Container;
  ps_InitContainers : list Container;
  ps_Volumes : list Volume;
  ps_NodeSelector : strmap;
  ps_RestartPolicy : string;
  ps_TerminationGracePeriodSeconds : option Z;
  ps_ActiveDeadlineSeconds : option Z;
  ps_DNSPolicy : string;
  ps_ServiceAccountName : string;
  ps_HostNetwork : bool;
  ps_ImagePullSecrets : list string;
  ps_Affinity : opaque;
  ps_SchedulerName : string;
  ps_Tolerations : list opaque;
  ps_SecurityContext : opaque }.
#[export] Instance PodSpec_eq_dec : EqDecision PodSpec.
Proof. solve_decision. Defined.

Record CorePodTemplateSpec := mkCorePodTemplateSpec {
  pt_Annotations : strmap;
  pt_Labels : strmap;
  pt_Spec : PodSpec }.
#[export] Instance CorePodTemplateSpec_eq_dec : EqDecision CorePodTemplateSpec.
Proof. solve_decision. Defined.

Record ServicePort := mkServicePort {
  sp_Name : string;
  sp_Protocol : string;
  sp_Port : Z;
  sp_TargetPort : IntOrString }.
#[export] Instance ServicePort_eq_dec : EqDecision ServicePort.
Proof. solve_decision. Defined.

(** appsv1.RollingUpdateDeployment and RollingUpdateStatefulSetStrategy *)
Record RollingUpdateDeployment := mkRollingUpdateDeployment {
  rd_MaxUnavailable : option IntOrString;
  rd_MaxSurge : option IntOrString }.
#[export] Instance RollingUpdateDeployment_eq_dec : EqDecision RollingUpdateDeployment.
Proof. solve_decision. Defined.

Record RollingUpdateStatefulSetStrategy := mkRollingUpdateStatefulSetStrategy {
  rs_Partition : option Z;
  rs_MaxUnavailable : option IntOrString }.
#[export] Instance RollingUpdateStatefulSetStrategy_eq_dec :
  EqDecision RollingUpdateStatefulSetStrategy.
Proof. solve_decision. Defined.

(** corev1.PersistentVolumeClaim *)
Record PVCSpec := mkPVCSpec {
  vc_StorageClassName : option string;
  vc_AccessModes : list string;
  vc_Requests : strmap }.
#[export] Instance PVCSpec_eq_dec : EqDecision PVCSpec.
Proof. solve_decision. Defined.

Record PersistentVolumeClaim := mkPersistentVolumeClaim {
  pvc_ObjectMeta : ObjectMeta;
  pvc_Spec : PVCSpec }.
#[export] Instance PersistentVolumeClaim_eq_dec : EqDecision PersistentVolumeClaim.
Proof. solve_decision. Defined.

(** appsv1.StatefulSet and Deployment; only the status fields that are read. *)
Record StatefulSetSpec := mkStatefulSetSpec {
  ss_PodManagementPolicy : string;
  ss_ServiceName : string;
  ss_Replicas : option Z;
  ss_MatchLabels : strmap;
  ss_Template : CorePodTemplateSpec;
  ss_VolumeClaimTemplates : list PersistentVolumeClaim;
  ss_UpdateStrategyType : string;
  ss_RollingUpdate : option RollingUpdateStatefulSetStrategy }.
#[export] Instance StatefulSetSpec_eq_dec : EqDecision StatefulSetSpec.
Proof. solve_decision. Defined.

Record StatefulSetStatus := mkStatefulSetStatus {
  st_ObservedGeneration : Z;
  st_ReadyReplicas : Z;
  st_CurrentReplicas : Z }.
#[export] Instance StatefulSetStatus_eq_dec : EqDecision StatefulSetStatus.
Proof. solve_decision. Defined.

Record StatefulSet := mkStatefulSet {
  sts_ObjectMeta : ObjectMeta;
  sts_Spec : StatefulSetSpec;
  sts_Status : StatefulSetStatus }.
#[export] Instance StatefulSet_eq_dec : EqDecision StatefulSet.
Proof. solve_decision. Defined.

Record DeploymentCondition := mkDeploymentCondition {
  dc_Type : string;
  dc_Reason : string }.
#[export] Instance DeploymentCondition_eq_dec : EqDecision DeploymentCondition.
Proof. solve_decision. Defined.

Record DeploymentSpec := mkDeploymentSpec {
  ds_Replicas : option Z;
  ds_MatchLabels : strmap;
  ds_Template : CorePodTemplateSpec;
  ds_StrategyType : string;
  ds_RollingUpdate : option RollingUpdateDeployment }.
#[export] Instance DeploymentSpec_eq_dec : EqDecision DeploymentSpec.
Proof. solve_decision. Defined.

Record DeploymentStatus := mkDeploymentStatus {
  dt_ObservedGeneration : Z;
  dt_ReadyReplicas : Z;
  dt_Conditions : list DeploymentCondition }.
#[export] Instance DeploymentStatus_eq_dec : EqDecision DeploymentStatus.
Proof. solve_decision. Defined.

Record Deployment := mkDeployment {
  dep_ObjectMeta : ObjectMeta;
  dep_Spec : DeploymentSpec;
  dep_Status : DeploymentStatus }.
#[export] Instance Deployment_eq_dec : EqDecision Deployment.
Proof. solve_decision. Defined.

(** corev1.Service, ConfigMap and Secret *)
Record CoreServiceSpec := mkCoreServiceSpec {
  se_Type : string;
  se_ClusterIP : string;
  se_Selector : strmap;
  se_Ports : list ServicePort;
  se_LoadBalancerClass : option string }.
#[export] Instance CoreServiceSpec_eq_dec : EqDecision CoreServiceSpec.
Proof. solve_decision. Defined.

Record Service := mkService {
  svc_ObjectMeta : ObjectMeta;
  svc_Spec : CoreServiceSpec }.
#[export] Instance Service_eq_dec : EqDecision Service.
Proof. solve_decision. Defined.

Record ConfigMap := mkConfigMap {
  cm_ObjectMeta : ObjectMeta;
  cm_Data : strmap }.
#[export] Instance ConfigMap_eq_dec : EqDecision ConfigMap.
Proof. solve_decision. Defined.

(** A secret's [Data] is nil ([None]) or a map from keys to bytes; the bytes
    of a key are carried as a string, [None] for a nil slice. *)
Record Secret := mkSecret {
  sec_ObjectMeta : ObjectMeta;
  sec_Data : option (gmap string (option string)) }.
#[export] Instance Secret_eq_dec : EqDecision Secret.
Proof. solve_decision. Defined.

(** monitoringv1.PodMonitor *)
Record PodMonitorSpec := mkPodMonitorSpec {
  pm_Path : string;
  pm_Port : string;
  pm_Interval : string;
  pm_HonorLabels : bool;
  pm_MatchLabels : strmap;
  pm_MatchNames : list string }.
#[export] Instance PodMonitorSpec_eq_dec : EqDecision PodMonitorSpec.
Proof. solve_decision. Defined.

Record PodMonitor := mkPodMonitor {
  pmon_ObjectMeta : ObjectMeta;
  pmon_Spec : PodMonitorSpec }.
#[export] Instance PodMonitor_eq_dec : EqDecision PodMonitor.
Proof. solve_decision. Defined.

(** ** Pods and events, as the metrics collector reads them

    A time is its nanoseconds since the epoch. *)

Record PodCondition := mkPodCondition {
  pc_Type : string;
  pc_LastTransitionTime : Z }.

(** [State.Running] is nil while a container waits or after it has terminated. *)
Record ContainerStatus := mkContainerStatus {
  cst_Name : string;
  cst_RunningStartedAt : option Z }.

Record Pod := mkPod {
  po_Namespace : string;
  po_Name : string;
  po_UID : string;
  po_CreationTimestamp : Z;
  po_NodeName : string;
  po_Conditions : option (list PodCondition);
  po_ContainerStatuses : list ContainerStatus }.

(** corev1.Event *)
Record CoreEvent := mkCoreEvent { ce_Message : string }.

(** ** Go's zero values, from which composite literals start *)

Definition zero_ObjectMeta : ObjectMeta := mkObjectMeta "" "" None ∅ [] [] 0 "" None.
Definition zero_ResourceRequirements : ResourceRequirements := mkResourceRequirements ∅ ∅ [].
Definition zero_PodSpec : PodSpec :=
  mkPodSpec [] [] [] ∅ "" None None "" "" false [] "" "" [] "".
Definition zero_CorePodTemplateSpec : CorePodTemplateSpec := mkCorePodTemplateSpec ∅ ∅ zero_PodSpec.
Definition zero_StatefulSetSpec : StatefulSetSpec :=
  mkStatefulSetSpec "" "" None ∅ zero_CorePodTemplateSpec [] "" None.
Definition zero_DeploymentSpec : DeploymentSpec :=
  mkDeploymentSpec None ∅ zero_CorePodTemplateSpec "" None.
Definition zero_StatefulSet : StatefulSet :=
  mkStatefulSet zero_ObjectMeta zero_StatefulSetSpec (mkStatefulSetStatus 0 0 0).

(** A StatefulSet and a Deployment with [n] replicas, all ready. *)
Definition ready_StatefulSet (ns name : string) (n : Z) : StatefulSet :=
  mkStatefulSet (meta_of ns name None ∅)
    (mkStatefulSetSpec "" "" (Some n) ∅ zero_CorePodTemplateSpec [] "" None)
    (mkStatefulSetStatus 0 n n).
Definition ready_Deployment (ns name : string) (n : Z) : Deployment :=
  mkDeployment (meta_of ns name None ∅)
    (mkDeploymentSpec (Some n) ∅ zero_CorePodTemplateSpec "" None)
    (mkDeploymentStatus 0 n [mkDeploymentCondition "Progressing" "NewReplicaSetAvailable"]).
