(* ===== verification/ApiCommon.v ===== *)
(** * apis/v1alpha1/common.go: the types both resources share

    Records with the Go fields, the nil-safe getters, and the condition list.
    The Go string types (Phase, RoleKind, ...) stay strings: the API server
    may hold any value. *)

From stdpp Require Import base gmap strings list fin_maps.
From Stdlib Require Import ZArith.
From S2P Require Import Prelude K8s.

(** ** String types and their constants *)

Definition StorageRetainPolicyType : Type := string.
Definition StorageRetainPolicyTypeRetain : StorageRetainPolicyType := "Retain".
Definition StorageRetainPolicyTypeDelete : StorageRetainPolicyType := "Delete".

Definition Phase : Type := string.
Definition PhaseStarting : Phase := "Starting".
Definition PhaseRunning : Phase := "Running".
Definition PhaseUpdating : Phase := "Updating".
Definition PhaseError : Phase := "Error".
Definition PhaseTerminating : Phase := "Terminating".

Definition RoleKind : Type := string.
Definition FrontendRoleKind : RoleKind := "frontend".
Definition DatanodeRoleKind : RoleKind := "datanode".
Definition MetaRoleKind : RoleKind := "meta".
Definition FlownodeRoleKind : RoleKind := "flownode".
Definition StandaloneRoleKind : RoleKind := "standalone".

Definition LoggingLevelInfo : string := "info".
Definition LogFormatJSON : string := "json".
Definition LogFormatText : string := "text".
Definition SlowQueryRecordTypeSystemTable : string := "system_table".

Definition ConfigMergeStrategy : Type := string.
Definition ConfigMergeStrategyOperatorFirst : ConfigMergeStrategy :=
  "ConfigMergeStrategyOperatorFirst".
Definition ConfigMergeStrategyInjectedDataFirst : ConfigMergeStrategy :=
  "ConfigMergeStrategyInjectedDataFirst".

(** ** Pod templates *)

Record SlimPodSpec := mkSlimPodSpec {
  sl_NodeSelector : strmap;
  sl_InitContainers : list Container;
  sl_RestartPolicy : string;
  sl_TerminationGracePeriodSeconds : option Z;
  sl_ActiveDeadlineSeconds : option Z;
  sl_DNSPolicy : string;
  sl_ServiceAccountName : string;
  sl_HostNetwork : bool;
  sl_ImagePullSecrets : list string;
  sl_Affinity : opaque;
  sl_Tolerations : list opaque;
  sl_SchedulerName : string;
  sl_AdditionalContainers : list Container;
  sl_Volumes : list Volume;
  sl_SecurityContext : opaque }.
#[export] Instance SlimPodSpec_eq_dec : EqDecision SlimPodSpec.
Proof. solve_decision. Defined.

Record MainContainerSpec := mkMainContainerSpec {
  mc_Image : string;
  mc_Resources : ResourceRequirements;
  mc_Command : list string;
  mc_Args : list string;
  mc_ExtraArgs : list string;
  mc_WorkingDir : string;
  mc_Env : list EnvVar;
  mc_EnvFrom : list opaque;
  mc_LivenessProbe : option Probe;
  mc_ReadinessProbe : option Probe;
  mc_StartupProbe : option Probe;
  mc_Lifecycle : opaque;
  mc_ImagePullPolicy : string;
  mc_VolumeMounts : list VolumeMount;
  mc_SecurityContext : opaque }.
#[export] Instance MainContainerSpec_eq_dec : EqDecision MainContainerSpec.
Proof. solve_decision. Defined.

Definition MainContainerSpec_GetImage : option MainContainerSpec -> string :=
  nil_or "" mc_Image.

Record PodTemplateSpec := mkPodTemplateSpec {
  tp_Annotations : strmap;
  tp_Labels : strmap;
  tp_MainContainer : option MainContainerSpec;
  tp_SlimPodSpec : SlimPodSpec }.
#[export] Instance PodTemplateSpec_eq_dec : EqDecision PodTemplateSpec.
Proof. solve_decision. Defined.

(** ** File storage *)

Record FileStorage := mkFileStorage {
  fs_Name : string;
  fs_UseEmptyDir : option bool;
  fs_StorageClassName : option string;
  fs_StorageSize : string;
  fs_MountPath : string;
  fs_StorageRetainPolicy : StorageRetainPolicyType;
  fs_Labels : strmap;
  fs_Annotations : strmap }.
#[export] Instance FileStorage_eq_dec : EqDecision FileStorage.
Proof. solve_decision. Defined.

Definition FileStorage_GetName : option FileStorage -> string := nil_or "" fs_Name.
Definition FileStorage_GetStorageClassName : option FileStorage -> option string :=
  nil_or None fs_StorageClassName.
Definition FileStorage_GetSize : option FileStorage -> string := nil_or "" fs_StorageSize.
Definition FileStorage_GetMountPath : option FileStorage -> string := nil_or "" fs_MountPath.
Definition FileStorage_GetPolicy : option FileStorage -> StorageRetainPolicyType :=
  nil_or "" fs_StorageRetainPolicy.
Definition FileStorage_GetLabels : option FileStorage -> strmap := nil_or ∅ fs_Labels.
Definition FileStorage_GetAnnotations : option FileStorage -> strmap :=
  nil_or ∅ fs_Annotations.
Definition FileStorage_IsUseEmptyDir : option FileStorage -> bool :=
  nil_or false (fun i => is_true_ptr (fs_UseEmptyDir i)).

(** ** Write-ahead log *)

Record RaftEngineWAL := mkRaftEngineWAL { re_FileStorage : option FileStorage }.
#[export] Instance RaftEngineWAL_eq_dec : EqDecision RaftEngineWAL.
Proof. solve_decision. Defined.

Record KafkaSASLSecretRef := mkKafkaSASLSecretRef {
  kr_Name : string;
  kr_UsernameKey : string;
  kr_PasswordKey : string }.
#[export] Instance KafkaSASLSecretRef_eq_dec : EqDecision KafkaSASLSecretRef.
Proof. solve_decision. Defined.

Record KafkaSASL := mkKafkaSASL {
  ks_Type : string;
  ks_Username : string;
  ks_Password : string;
  ks_SecretRef : option KafkaSASLSecretRef }.
#[export] Instance KafkaSASL_eq_dec : EqDecision KafkaSASL.
Proof. solve_decision. Defined.

Record KafkaTLS := mkKafkaTLS {
  kt_ServerCACertPath : string;
  kt_ClientCertPath : string;
  kt_ClientKeyPath : string }.
#[export] Instance KafkaTLS_eq_dec : EqDecision KafkaTLS.
Proof. solve_decision. Defined.

Record KafkaWAL := mkKafkaWAL {
  kw_BrokerEndpoints : list string;
  kw_SASL : option KafkaSASL;
  kw_TLS : option KafkaTLS }.
#[export] Instance KafkaWAL_eq_dec : EqDecision KafkaWAL.
Proof. solve_decision. Defined.

Record WALProviderSpec := mkWALProviderSpec {
  wp_RaftEngineWAL : option RaftEngineWAL;
  wp_KafkaWAL : option KafkaWAL }.
#[export] Instance WALProviderSpec_eq_dec : EqDecision WALProviderSpec.
Proof. solve_decision. Defined.

Definition WALProviderSpec_GetRaftEngineWAL : option WALProviderSpec -> option RaftEngineWAL :=
  nil_or None wp_RaftEngineWAL.
Definition WALProviderSpec_GetKafkaWAL : option WALProviderSpec -> option KafkaWAL :=
  nil_or None wp_KafkaWAL.
Definition RaftEngineWAL_GetFileStorage : option RaftEngineWAL -> option FileStorage :=
  nil_or None re_FileStorage.
Definition KafkaWAL_GetBrokerEndpoints : option KafkaWAL -> list string :=
  nil_or [] kw_BrokerEndpoints.
Definition KafkaWAL_GetSASL : option KafkaWAL -> option KafkaSASL := nil_or None kw_SASL.
Definition KafkaWAL_GetTLS : option KafkaWAL -> option KafkaTLS := nil_or None kw_TLS.

(** ** Logging, tracing, audit log *)

Record LoggingSpec := mkLoggingSpec {
  lg_Level : string;
  lg_Filters : list string;
  lg_LogsDir : string;
  lg_PersistentWithData : option bool;
  lg_OnlyLogToStdout : option bool;
  lg_Format : string;
  lg_MaxLogFiles : option Z;
  lg_MaxLogDirSize : string }.
#[export] Instance LoggingSpec_eq_dec : EqDecision LoggingSpec.
Proof. solve_decision. Defined.

Definition LoggingSpec_GetLevel : option LoggingSpec -> string := nil_or "" lg_Level.
Definition LoggingSpec_GetLogsDir : option LoggingSpec -> string := nil_or "" lg_LogsDir.
Definition LoggingSpec_IsPersistentWithData : option LoggingSpec -> bool :=
  nil_or false (fun i => is_true_ptr (lg_PersistentWithData i)).
Definition LoggingSpec_IsOnlyLogToStdout : option LoggingSpec -> bool :=
  nil_or false (fun i => is_true_ptr (lg_OnlyLogToStdout i)).
Definition LoggingSpec_GetMaxLogFiles : option LoggingSpec -> option Z :=
  nil_or None lg_MaxLogFiles.
Definition LoggingSpec_GetMaxLogDirSize : option LoggingSpec -> string :=
  nil_or "" lg_MaxLogDirSize.

Record TracingSpec := mkTracingSpec {
  tr_Enabled : option bool;
  tr_Endpoint : string;
  tr_SampleRatio : string;
  tr_Headers : strmap;
  tr_ExportProtocol : string }.
#[export] Instance TracingSpec_eq_dec : EqDecision TracingSpec.
Proof. solve_decision. Defined.

Record AuditLogSpec := mkAuditLogSpec {
  al_Enabled : bool;
  al_Dir : string;
  al_Sources : string;
  al_Classes : string;
  al_Commands : string;
  al_ObjectTypes : string;
  al_MaxLogFiles : option Z }.
#[export] Instance AuditLogSpec_eq_dec : EqDecision AuditLogSpec.
Proof. solve_decision. Defined.

(** ** Services and TLS *)

Record ServiceSpec := mkServiceSpec {
  sv_Type : string;
  sv_Annotations : strmap;
  sv_Labels : strmap;
  sv_LoadBalancerClass : option string;
  sv_Ports : list ServicePort }.
#[export] Instance ServiceSpec_eq_dec : EqDecision ServiceSpec.
Proof. solve_decision. Defined.

Definition ServiceSpec_GetPorts (i : option ServiceSpec) (defaultPorts : list ServicePort)
    : list ServicePort :=
  match i with
  | Some s => if decide (0 < length (sv_Ports s))%nat then sv_Ports s else defaultPorts
  | None => defaultPorts
  end.

Record TLSSpec := mkTLSSpec { tl_SecretName : string }.
#[export] Instance TLSSpec_eq_dec : EqDecision TLSSpec.
Proof. solve_decision. Defined.
Definition TLSSpec_GetSecretName : option TLSSpec -> string := nil_or "" tl_SecretName.

(** ** Object storage *)

Record CacheStorage := mkCacheStorage {
  ca_FileStorage : option FileStorage;
  ca_CacheCapacity : string }.
#[export] Instance CacheStorage_eq_dec : EqDecision CacheStorage.
Proof. solve_decision. Defined.
Definition CacheStorage_GetFileStorage : option CacheStorage -> option FileStorage :=
  nil_or None ca_FileStorage.

Record S3Storage := mkS3Storage {
  s3_Bucket : string;
  s3_Region : string;
  s3_SecretName : string;
  s3_Root : string;
  s3_Endpoint : string;
  s3_EnableVirtualHostStyle : bool }.
#[export] Instance S3Storage_eq_dec : EqDecision S3Storage.
Proof. solve_decision. Defined.
Definition S3Storage_GetSecretName : option S3Storage -> string := nil_or "" s3_SecretName.
Definition S3Storage_GetRoot : option S3Storage -> string := nil_or "" s3_Root.

Record OSSStorage := mkOSSStorage {
  oss_Bucket : string;
  oss_Region : string;
  oss_SecretName : string;
  oss_Root : string;
  oss_Endpoint : string }.
#[export] Instance OSSStorage_eq_dec : EqDecision OSSStorage.
Proof. solve_decision. Defined.
Definition OSSStorage_GetSecretName : option OSSStorage -> string := nil_or "" oss_SecretName.
Definition OSSStorage_GetRoot : option OSSStorage -> string := nil_or "" oss_Root.

Record GCSStorage := mkGCSStorage {
  gcs_Bucket : string;
  gcs_Root : string;
  gcs_SecretName : string;
  gcs_Scope : string;
  gcs_Endpoint : string }.
#[export] Instance GCSStorage_eq_dec : EqDecision GCSStorage.
Proof. solve_decision. Defined.
Definition GCSStorage_GetSecretName : option GCSStorage -> string := nil_or "" gcs_SecretName.
Definition GCSStorage_GetRoot : option GCSStorage -> string := nil_or "" gcs_Root.

Record AZBlobStorage := mkAZBlobStorage {
  az_Container : string;
  az_SecretName : string;
  az_Root : string;
  az_Endpoint : string }.
#[export] Instance AZBlobStorage_eq_dec : EqDecision AZBlobStorage.
Proof. solve_decision. Defined.
Definition AZBlobStorage_GetSecretName : option AZBlobStorage -> string :=
  nil_or "" az_SecretName.
Definition AZBlobStorage_GetRoot : option AZBlobStorage -> string := nil_or "" az_Root.

Record ObjectStorageProviderSpec := mkObjectStorageProviderSpec {
  os_S3 : option S3Storage;
  os_OSS : option OSSStorage;
  os_GCS : option GCSStorage;
  os_AZBlob : option AZBlobStorage;
  os_Cache : option CacheStorage }.
#[export] Instance ObjectStorageProviderSpec_eq_dec : EqDecision ObjectStorageProviderSpec.
Proof. solve_decision. Defined.

Section ObjectStorageProviderAccessor.
Variable i : option ObjectStorageProviderSpec.

Definition GetCacheFileStorage : option FileStorage :=
  match i with
  | Some o => nil_or None ca_FileStorage (os_Cache o)
  | None => None
  end.
Definition GetCacheStorage : option CacheStorage := nil_or None os_Cache i.
Definition GetS3Storage : option S3Storage := nil_or None os_S3 i.
Definition GetGCSStorage : option GCSStorage := nil_or None os_GCS i.
Definition GetOSSStorage : option OSSStorage := nil_or None os_OSS i.
Definition GetAZBlobStorage : option AZBlobStorage := nil_or None os_AZBlob i.
End ObjectStorageProviderAccessor.

(** [count++] when the pointer is set. *)
Definition count_set {A} (p : option A) : Z := if not_nil p then 1 else 0.

Definition getSetObjectStorageCount (o : ObjectStorageProviderSpec) : Z :=
  (count_set (os_S3 o) + count_set (os_OSS o) + count_set (os_GCS o)
   + count_set (os_AZBlob o))%Z.

Record DatanodeStorageSpec := mkDatanodeStorageSpec {
  dst_DataHome : string;
  dst_FileStorage : option FileStorage }.
#[export] Instance DatanodeStorageSpec_eq_dec : EqDecision DatanodeStorageSpec.
Proof. solve_decision. Defined.

(** ** Monitoring and slow query *)

(** The labels may be nil or empty: their tag has no [omitempty], and they become the
    labels of the pod monitor as they are. *)
Record PrometheusMonitorSpec := mkPrometheusMonitorSpec {
  pr_Enabled : bool;
  pr_Labels : option strmap;
  pr_Interval : string }.
#[export] Instance PrometheusMonitorSpec_eq_dec : EqDecision PrometheusMonitorSpec.
Proof. solve_decision. Defined.
Definition IsEnablePrometheusMonitor : option PrometheusMonitorSpec -> bool :=
  nil_or false pr_Enabled.

Record SlowQuery := mkSlowQuery {
  sq_Enabled : bool;
  sq_RecordType : string;
  sq_Threshold : string;
  sq_SampleRatio : string;
  sq_TTL : string }.
#[export] Instance SlowQuery_eq_dec : EqDecision SlowQuery.
Proof. solve_decision. Defined.
Definition SlowQuery_IsEnabled : option SlowQuery -> bool := nil_or false sq_Enabled.
