(* ===== verification/Conditions.v ===== *)
(** * The condition list of a resource's status

    apis/v1alpha1/common.go: [Condition], [NewCondition], [GetCondition],
    [SetCondition] and [filterOutCondition].  Times are the integers
    [metav1.Now()] returned. *)

From stdpp Require Import base gmap strings list fin_maps.
From Stdlib Require Import ZArith.
From S2P Require Import Prelude.

Definition ConditionType : Type := string.
Definition ConditionTypeReady : ConditionType := "Ready".
Definition ConditionTypeProgressing : ConditionType := "Progressing".
Definition ConditionTrue : string := "True".

Record Condition := mkCondition {
  cd_Type : ConditionType;
  cd_Status : string;
  cd_LastUpdateTime : Z;
  cd_LastTransitionTime : Z;
  cd_Reason : string;
  cd_Message : string }.
#[export] Instance Condition_eq_dec : EqDecision Condition.
Proof. solve_decision. Defined.

(** The two timestamps are the results of the two calls of [metav1.Now()]. *)
Definition NewCondition (conditionType : ConditionType) (conditionStatus reason message : string)
    (now_transition now_update : Z) : Condition :=
  mkCondition conditionType conditionStatus now_update now_transition reason message.

(** Returns a pointer to a copy of the first condition of the type. *)
Fixpoint GetCondition (conditions : list Condition) (conditionType : ConditionType)
    : option Condition :=
  match conditions with
  | [] => None
  | c :: cs => if String.eqb (cd_Type c) conditionType then Some c
               else GetCondition cs conditionType
  end.

Definition set_LastUpdateTime (t : Z) (c : Condition) : Condition :=
  mkCondition (cd_Type c) (cd_Status c) t (cd_LastTransitionTime c) (cd_Reason c) (cd_Message c).
Definition set_LastTransitionTime (t : Z) (c : Condition) : Condition :=
  mkCondition (cd_Type c) (cd_Status c) (cd_LastUpdateTime c) t (cd_Reason c) (cd_Message c).

Fixpoint filterOutCondition (conditions : list Condition) (conditionType : ConditionType)
    : list Condition :=
  match conditions with
  | [] => []
  | c :: cs => if String.eqb (cd_Type c) conditionType then filterOutCondition cs conditionType
               else c :: filterOutCondition cs conditionType
  end.

(** [currentCondition] points to a copy, so the assignment to its
    [LastUpdateTime] in the first branch reaches no element of the list. *)
Definition SetCondition (conditions : list Condition) (condition : Condition)
    : list Condition :=
  let currentCondition := GetCondition conditions (cd_Type condition) in
  match currentCondition with
  | Some cur =>
      if String.eqb (cd_Status cur) (cd_Status condition)
         && String.eqb (cd_Reason cur) (cd_Reason condition) then
        let _copy := set_LastUpdateTime (cd_LastUpdateTime condition) cur in
        conditions
      else
        let condition :=
          if String.eqb (cd_Status cur) (cd_Status condition)
          then set_LastTransitionTime (cd_LastTransitionTime cur) condition
          else condition in
        filterOutCondition conditions (cd_Type condition) ++ [condition]
  | None => filterOutCondition conditions (cd_Type condition) ++ [condition]
  end.

(** At most one condition of each type. *)
Definition well_formed (cs : list Condition) : Prop := NoDup (map cd_Type cs).

(** What [SetCondition] promises: the entry of the condition's type carries its
    status and reason, the entries of the other types are as before. *)
Definition sets_condition (cs : list Condition) (c : Condition) (cs' : list Condition) : Prop :=
  (exists c', GetCondition cs' (cd_Type c) = Some c'
              /\ cd_Status c' = cd_Status c /\ cd_Reason c' = cd_Reason c)
  /\ (forall t, t <> cd_Type c -> GetCondition cs' t = GetCondition cs t).

(** The condition the cluster controller sets, at a given time. *)
Definition ready_at (t : Z) : Condition :=
  NewCondition ConditionTypeReady ConditionTrue "ClusterReady" "the cluster is ready" t t.

(** ** Lemmas *)

Lemma GetCondition_type cs t c : GetCondition cs t = Some c -> cd_Type c = t /\ c ∈ cs.
Proof.
  induction cs as [|d cs IH]; simpl; [done|].
  destruct (String.eqb_spec (cd_Type d) t); [intros [= <-]; set_solver|set_solver].
Qed.

Lemma GetCondition_app cs cs' t :
  GetCondition (cs ++ cs') t =
    match GetCondition cs t with Some c => Some c | None => GetCondition cs' t end.
Proof. induction cs as [|c cs IH]; simpl; [done|]. by destruct (String.eqb _ _). Qed.

Lemma GetCondition_filter_eq cs t : GetCondition (filterOutCondition cs t) t = None.
Proof.
  induction cs as [|c cs IH]; simpl; [done|].
  destruct (String.eqb (cd_Type c) t) eqn:E; simpl; [done|]. by rewrite E.
Qed.

Lemma GetCondition_filter_ne cs t t' :
  t' <> t -> GetCondition (filterOutCondition cs t) t' = GetCondition cs t'.
Proof.
  intros Hne. induction cs as [|c cs IH]; simpl; [done|].
  destruct (String.eqb_spec (cd_Type c) t) as [->|]; simpl.
  - destruct (String.eqb_spec t t'); [congruence|done].
  - by rewrite IH.
Qed.

Lemma filterOut_subseteq cs t c : c ∈ filterOutCondition cs t -> c ∈ cs /\ cd_Type c <> t.
Proof.
  induction cs as [|d cs IH]; simpl; [set_solver|].
  destruct (String.eqb_spec (cd_Type d) t); [set_solver|].
  rewrite !elem_of_cons. intros [->|H]; [auto|]. destruct (IH H); auto.
Qed.

Lemma filterOut_well_formed cs t : well_formed cs -> well_formed (filterOutCondition cs t).
Proof.
  unfold well_formed. induction cs as [|c cs IH]; simpl; [done|].
  rewrite NoDup_cons. intros [Hc Hcs]. destruct (String.eqb _ _); [by apply IH|].
  simpl. apply NoDup_cons. split; [|by apply IH].
  rewrite list_elem_of_In, in_map_iff. intros (d & Hd & Hin).
  apply list_elem_of_In in Hin. apply filterOut_subseteq in Hin as [Hin _].
  apply Hc. rewrite list_elem_of_In, in_map_iff. exists d. by rewrite <- list_elem_of_In.
Qed.

(** Replacing the entry of a type by one condition of that type. *)
Lemma replace_condition cs c t :
  cd_Type c = t ->
  sets_condition cs c (filterOutCondition cs t ++ [c])
  /\ (well_formed cs -> well_formed (filterOutCondition cs t ++ [c])).
Proof.
  intros <-. split; [split|].
  - exists c. rewrite GetCondition_app, GetCondition_filter_eq. simpl.
    by rewrite String.eqb_refl.
  - intros t Hne. rewrite GetCondition_app, GetCondition_filter_ne by done.
    destruct (GetCondition cs t); [done|]. simpl.
    destruct (String.eqb_spec (cd_Type c) t); congruence.
  - intros Hwf. unfold well_formed. rewrite map_app. apply NoDup_app. split_and!.
    + by apply filterOut_well_formed.
    + intros t. rewrite list_elem_of_In, in_map_iff. intros (d & <- & Hd).
      apply list_elem_of_In, filterOut_subseteq in Hd. set_solver.
    + apply NoDup_singleton.
Qed.

Lemma SetCondition_cases cs c :
  (exists cur, GetCondition cs (cd_Type c) = Some cur /\ cd_Status cur = cd_Status c
               /\ cd_Reason cur = cd_Reason c /\ SetCondition cs c = cs)
  \/ (exists c', cd_Type c' = cd_Type c /\ cd_Status c' = cd_Status c
                 /\ cd_Reason c' = cd_Reason c
                 /\ SetCondition cs c = filterOutCondition cs (cd_Type c) ++ [c']).
Proof.
  unfold SetCondition. destruct (GetCondition cs (cd_Type c)) as [cur|] eqn:E; [|right; eauto].
  destruct (String.eqb_spec (cd_Status cur) (cd_Status c)) as [Hs|]; simpl; [|right; eauto].
  destruct (String.eqb_spec (cd_Reason cur) (cd_Reason c)); [left; eauto|right].
  by eexists (set_LastTransitionTime _ c).
Qed.

(** ** Properties *)

(** C40. [SetCondition] establishes the condition's status and reason for its type,
    leaves the conditions of every other type as they were, and keeps at most
    one condition per type. *)
Theorem SetCondition_correct cs c :
  sets_condition cs c (SetCondition cs c)
  /\ (well_formed cs -> well_formed (SetCondition cs c)).
Proof.
  destruct (SetCondition_cases cs c) as [(cur & Hg & Hs & Hr & ->)|(c' & Ht & Hs & Hr & ->)].
  - split; [split; [by exists cur|done]|done].
  - destruct (replace_condition cs c' (cd_Type c) Ht) as [[(d & Hd & Hds & Hdr) Ho] Hw].
    split; [|done]. split.
    + exists d. rewrite Ht in Hd. by rewrite <- Hs, <- Hr.
    + intros t Hne. apply Ho. congruence.
Qed.

(** The transition time of a condition changes only when its status does:
    setting a condition whose status is the current one keeps the recorded
    [LastTransitionTime], whatever its reason. *)
Theorem SetCondition_transition_time cs c cur :
  GetCondition cs (cd_Type c) = Some cur ->
  exists c', GetCondition (SetCondition cs c) (cd_Type c) = Some c'
    /\ cd_LastTransitionTime c' =
         if String.eqb (cd_Status cur) (cd_Status c)
         then cd_LastTransitionTime cur else cd_LastTransitionTime c.
Proof.
  intros E. unfold SetCondition. rewrite E.
  destruct (String.eqb (cd_Status cur) (cd_Status c)); simpl;
    [destruct (String.eqb (cd_Reason cur) (cd_Reason c)); [by exists cur|]|].
  all: eexists; rewrite GetCondition_app, GetCondition_filter_eq; simpl;
    rewrite String.eqb_refl; done.
Qed.

Lemma SetCondition_transition_time_witness :
  GetCondition [ready_at 5] ConditionTypeReady = Some (ready_at 5)
  /\ exists c', GetCondition (SetCondition [ready_at 5] (ready_at 9)) ConditionTypeReady = Some c'
     /\ cd_LastTransitionTime c' = 5%Z.
Proof.
  split; [reflexivity|].
  apply (SetCondition_transition_time [ready_at 5] (ready_at 9) (ready_at 5)). reflexivity.
Defined.

(** Re-asserting a condition does not record its update time: when status and
    reason are the current ones the whole list is returned unchanged, the
    assignment of [LastUpdateTime] going to a copy. *)
Theorem SetCondition_update_time_lost cs c cur :
  GetCondition cs (cd_Type c) = Some cur ->
  cd_Status cur = cd_Status c -> cd_Reason cur = cd_Reason c ->
  GetCondition (SetCondition cs c) (cd_Type c) = Some cur.
Proof.
  intros E Hs Hr. unfold SetCondition. rewrite E, Hs, Hr, !String.eqb_refl. done.
Qed.

Lemma SetCondition_update_time_lost_witness :
  cd_LastUpdateTime (ready_at 9) = 9%Z
  /\ GetCondition (SetCondition [ready_at 5] (ready_at 9)) ConditionTypeReady = Some (ready_at 5).
Proof.
  split; [reflexivity|].
  apply (SetCondition_update_time_lost [ready_at 5] (ready_at 9) (ready_at 5)); reflexivity.
Defined.
