(* ===== verification/ApiTypes.v ===== *)
(** * apis/v1alpha1: the GreptimeDBCluster and GreptimeDBStandalone resources

    greptimedbcluster_types.go and greptimedbstandalone_types.go: the specs and
    statuses, their nil-safe getters, and the replica count.  A getter takes the
    receiver as a pointer ([option]); the two methods without a nil check take
    the object. *)

From stdpp Require Import base gmap strings list fin_maps.
From Stdlib Require Import ZArith.
From S2P Require Import Prelude GoLib K8s ApiCommon Conditions.

(** ** Components *)

Record ComponentSpec := mkComponentSpec {
  cs_Replicas : option Z;
  cs_Config : string;
  cs_Template : option PodTemplateSpec;
  cs_Logging : option LoggingSpec;
  cs_Tracing : option TracingSpec }.
#[export] Instance ComponentSpec_eq_dec : EqDecision ComponentSpec.
Proof. solve_decision. Defined.

(** *** Meta *)

Record EtcdStorage := mkEtcdStorage {
  et_Endpoints : list string;
  et_EnableCheckEtcdService : bool;
  et_StoreKeyPrefix : string }.
#[export] Instance EtcdStorage_eq_dec : EqDecision EtcdStorage.
Proof. solve_decision. Defined.

Definition EtcdStorage_GetEndpoints : option EtcdStorage -> list string := nil_or [] et_Endpoints.
Definition EtcdStorage_IsEnableCheckEtcdService : option EtcdStorage -> bool :=
  nil_or false et_EnableCheckEtcdService.
Definition EtcdStorage_GetStoreKeyPrefix : option EtcdStorage -> string :=
  nil_or "" et_StoreKeyPrefix.

Record MySQLStorage := mkMySQLStorage {
  my_Host : string;
  my_Port : Z;
  my_CredentialsSecretName : string;
  my_Database : string;
  my_Table : string }.
#[export] Instance MySQLStorage_eq_dec : EqDecision MySQLStorage.
Proof. solve_decision. Defined.
Definition MySQLStorage_GetCredentialsSecretName : option MySQLStorage -> string :=
  nil_or "" my_CredentialsSecretName.

Record PostgreSQLStorage := mkPostgreSQLStorage {
  pg_Host : string;
  pg_Port : Z;
  pg_CredentialsSecretName : string;
  pg_Database : string;
  pg_Table : string;
  pg_ElectionLockID : Z }.
#[export] Instance PostgreSQLStorage_eq_dec : EqDecision PostgreSQLStorage.
Proof. solve_decision. Defined.
Definition PostgreSQLStorage_GetCredentialsSecretName : option PostgreSQLStorage -> string :=
  nil_or "" pg_CredentialsSecretName.

Record BackendStorage := mkBackendStorage {
  bs_EtcdStorage : option EtcdStorage;
  bs_MySQLStorage : option MySQLStorage;
  bs_PostgreSQLStorage : option PostgreSQLStorage }.
#[export] Instance BackendStorage_eq_dec : EqDecision BackendStorage.
Proof. solve_decision. Defined.

Definition backendStorageCount (b : BackendStorage) : Z :=
  (count_set (bs_EtcdStorage b) + count_set (bs_MySQLStorage b)
   + count_set (bs_PostgreSQLStorage b))%Z.
Definition BackendStorage_GetEtcdStorage : option BackendStorage -> option EtcdStorage :=
  nil_or None bs_EtcdStorage.
Definition BackendStorage_GetMySQLStorage : option BackendStorage -> option MySQLStorage :=
  nil_or None bs_MySQLStorage.
Definition BackendStorage_GetPostgreSQLStorage : option BackendStorage -> option PostgreSQLStorage :=
  nil_or None bs_PostgreSQLStorage.

Record MetaSpec := mkMetaSpec {
  me_ComponentSpec : ComponentSpec;
  me_RPCPort : Z;
  me_HTTPPort : Z;
  me_BackendStorage : option BackendStorage;
  me_EnableRegionFailover : option bool;
  me_RollingUpdate : option RollingUpdateDeployment }.
#[export] Instance MetaSpec_eq_dec : EqDecision MetaSpec.
Proof. solve_decision. Defined.

Definition MetaSpec_GetBackendStorage : option MetaSpec -> option BackendStorage :=
  nil_or None me_BackendStorage.
Definition MetaSpec_GetReplicas : option MetaSpec -> option Z :=
  nil_or None (fun m => cs_Replicas (me_ComponentSpec m)).
Definition MetaSpec_GetConfig : option MetaSpec -> string :=
  nil_or "" (fun m => cs_Config (me_ComponentSpec m)).
Definition MetaSpec_GetLogging : option MetaSpec -> option LoggingSpec :=
  nil_or None (fun m => cs_Logging (me_ComponentSpec m)).
Definition MetaSpec_GetTracing : option MetaSpec -> option TracingSpec :=
  nil_or None (fun m => cs_Tracing (me_ComponentSpec m)).
Definition MetaSpec_IsEnableRegionFailover : option MetaSpec -> bool :=
  nil_or false (fun m => is_true_ptr (me_EnableRegionFailover m)).

(** *** Frontend *)

Record FrontendSpec := mkFrontendSpec {
  fe_ComponentSpec : ComponentSpec;
  fe_Name : string;
  fe_RPCPort : Z;
  fe_HTTPPort : Z;
  fe_HTTPAPIServerPort : Z;
  fe_EnableHTTPAPIServer : option bool;
  fe_MySQLPort : Z;
  fe_PostgreSQLPort : Z;
  fe_InternalPort : Z;
  fe_Service : option ServiceSpec;
  fe_TLS : option TLSSpec;
  fe_RollingUpdate : option RollingUpdateDeployment;
  fe_SlowQuery : option SlowQuery;
  fe_EnableObjectStorage : option bool;
  fe_AuditLog : option AuditLogSpec }.
#[export] Instance FrontendSpec_eq_dec : EqDecision FrontendSpec.
Proof. solve_decision. Defined.

Definition FrontendSpec_GetReplicas : option FrontendSpec -> option Z :=
  nil_or None (fun f => cs_Replicas (fe_ComponentSpec f)).
Definition FrontendSpec_GetTLS : option FrontendSpec -> option TLSSpec := nil_or None fe_TLS.
Definition FrontendSpec_GetService : option FrontendSpec -> option ServiceSpec :=
  nil_or None fe_Service.
Definition FrontendSpec_GetConfig : option FrontendSpec -> string :=
  nil_or "" (fun f => cs_Config (fe_ComponentSpec f)).
Definition FrontendSpec_ShouldInjectObjectStorage : option FrontendSpec -> bool :=
  nil_or false (fun f => is_true_ptr (fe_EnableObjectStorage f)).
Definition FrontendSpec_IsEnableHTTPAPIServer (f : option FrontendSpec) : bool :=
  match f with
  | None => true
  | Some f => match fe_EnableHTTPAPIServer f with None => true | Some b => b end
  end.
Definition FrontendSpec_GetName : option FrontendSpec -> string := nil_or "" fe_Name.
Definition FrontendSpec_GetLogging : option FrontendSpec -> option LoggingSpec :=
  nil_or None (fun f => cs_Logging (fe_ComponentSpec f)).
Definition FrontendSpec_GetTracing : option FrontendSpec -> option TracingSpec :=
  nil_or None (fun f => cs_Tracing (fe_ComponentSpec f)).
Definition FrontendSpec_GetSlowQuery : option FrontendSpec -> option SlowQuery :=
  nil_or None fe_SlowQuery.
Definition FrontendSpec_GetAuditLog : option FrontendSpec -> option AuditLogSpec :=
  nil_or None fe_AuditLog.

(** *** Datanode *)

Record DatanodeSpec := mkDatanodeSpec {
  dn_ComponentSpec : ComponentSpec;
  dn_Name : string;
  dn_RPCPort : Z;
  dn_HTTPPort : Z;
  dn_Storage : option DatanodeStorageSpec;
  dn_RollingUpdate : option RollingUpdateStatefulSetStrategy;
  dn_StartNodeID : option Z }.
#[export] Instance DatanodeSpec_eq_dec : EqDecision DatanodeSpec.
Proof. solve_decision. Defined.

Definition DatanodeSpec_GetName : option DatanodeSpec -> string := nil_or "" dn_Name.
Definition DatanodeSpec_GetReplicas : option DatanodeSpec -> option Z :=
  nil_or None (fun d => cs_Replicas (dn_ComponentSpec d)).
Definition DatanodeSpec_GetConfig : option DatanodeSpec -> string :=
  nil_or "" (fun d => cs_Config (dn_ComponentSpec d)).
Definition DatanodeSpec_GetLogging : option DatanodeSpec -> option LoggingSpec :=
  nil_or None (fun d => cs_Logging (dn_ComponentSpec d)).
Definition DatanodeSpec_GetTracing : option DatanodeSpec -> option TracingSpec :=
  nil_or None (fun d => cs_Tracing (dn_ComponentSpec d)).
Definition DatanodeSpec_GetFileStorage (d : option DatanodeSpec) : option FileStorage :=
  match d with
  | Some d => nil_or None dst_FileStorage (dn_Storage d)
  | None => None
  end.
Definition DatanodeSpec_GetDataHome (d : option DatanodeSpec) : string :=
  match d with
  | Some d => nil_or "" dst_DataHome (dn_Storage d)
  | None => ""
  end.
Definition DatanodeSpec_GetStartNodeID : option DatanodeSpec -> option Z :=
  nil_or None dn_StartNodeID.

(** *** Flownode *)

Record FlownodeSpec := mkFlownodeSpec {
  fl_ComponentSpec : ComponentSpec;
  fl_RPCPort : Z;
  fl_HTTPPort : Z;
  fl_RollingUpdate : option RollingUpdateStatefulSetStrategy;
  fl_StartNodeID : option Z }.
#[export] Instance FlownodeSpec_eq_dec : EqDecision FlownodeSpec.
Proof. solve_decision. Defined.

Definition FlownodeSpec_GetReplicas : option FlownodeSpec -> option Z :=
  nil_or None (fun f => cs_Replicas (fl_ComponentSpec f)).
Definition FlownodeSpec_GetConfig : option FlownodeSpec -> string :=
  nil_or "" (fun f => cs_Config (fl_ComponentSpec f)).
Definition FlownodeSpec_GetLogging : option FlownodeSpec -> option LoggingSpec :=
  nil_or None (fun f => cs_Logging (fl_ComponentSpec f)).
Definition FlownodeSpec_GetTracing : option FlownodeSpec -> option TracingSpec :=
  nil_or None (fun f => cs_Tracing (fl_ComponentSpec f)).
Definition FlownodeSpec_GetStartNodeID : option FlownodeSpec -> option Z :=
  nil_or None fl_StartNodeID.

(** *** The RoleSpec interface and its four implementations *)

Inductive RoleSpec :=
  | RSMeta (s : option MetaSpec)
  | RSFrontend (s : option FrontendSpec)
  | RSDatanode (s : option DatanodeSpec)
  | RSFlownode (s : option FlownodeSpec).

Definition GetRoleKind (r : RoleSpec) : RoleKind :=
  match r with
  | RSMeta _ => MetaRoleKind
  | RSFrontend _ => FrontendRoleKind
  | RSDatanode _ => DatanodeRoleKind
  | RSFlownode _ => FlownodeRoleKind
  end.

Definition RoleSpec_GetName (r : RoleSpec) : string :=
  match r with
  | RSMeta _ => ""
  | RSFrontend s => FrontendSpec_GetName s
  | RSDatanode s => DatanodeSpec_GetName s
  | RSFlownode _ => ""
  end.

(** ** Standalone *)

Record InitializerSpec := mkInitializerSpec { in_Image : string }.
#[export] Instance InitializerSpec_eq_dec : EqDecision InitializerSpec.
Proof. solve_decision. Defined.

Record GreptimeDBStandaloneSpec := mkGreptimeDBStandaloneSpec {
  sa_Base : option PodTemplateSpec;
  sa_Service : option ServiceSpec;
  sa_TLS : option TLSSpec;
  sa_HTTPPort : Z;
  sa_HTTPAPIServerPort : Z;
  sa_EnableHTTPAPIServer : option bool;
  sa_RPCPort : Z;
  sa_MySQLPort : Z;
  sa_PostgreSQLPort : Z;
  sa_PrometheusMonitor : option PrometheusMonitorSpec;
  sa_Version : string;
  sa_Replicas : option Z;
  sa_Initializer : option InitializerSpec;
  sa_ObjectStorageProvider : option ObjectStorageProviderSpec;
  sa_DatanodeStorage : option DatanodeStorageSpec;
  sa_WALProvider : option WALProviderSpec;
  sa_Config : string;
  sa_Logging : option LoggingSpec;
  sa_RollingUpdate : option RollingUpdateStatefulSetStrategy;
  sa_SlowQuery : option SlowQuery;
  sa_Tracing : option TracingSpec;
  sa_ConfigMergeStrategy : ConfigMergeStrategy;
  sa_EnableIPv6 : bool }.
#[export] Instance GreptimeDBStandaloneSpec_eq_dec : EqDecision GreptimeDBStandaloneSpec.
Proof. solve_decision. Defined.

Record GreptimeDBStandaloneStatus := mkGreptimeDBStandaloneStatus {
  sas_Replicas : Z;
  sas_ReadyReplicas : Z;
  sas_Version : string;
  sas_StandalonePhase : Phase;
  sas_Conditions : list Condition;
  sas_ObservedGeneration : Z }.
#[export] Instance GreptimeDBStandaloneStatus_eq_dec : EqDecision GreptimeDBStandaloneStatus.
Proof. solve_decision. Defined.

Record GreptimeDBStandalone := mkGreptimeDBStandalone {
  sa_ObjectMeta : ObjectMeta;
  sa_Spec : GreptimeDBStandaloneSpec;
  sa_Status : GreptimeDBStandaloneStatus }.
#[export] Instance GreptimeDBStandalone_eq_dec : EqDecision GreptimeDBStandalone.
Proof. solve_decision. Defined.

Definition StandaloneSpec_IsEnableHTTPAPIServer (s : option GreptimeDBStandaloneSpec) : bool :=
  match s with
  | None => true
  | Some s => match sa_EnableHTTPAPIServer s with None => true | Some b => b end
  end.

Section standalone_getters.
Variable i : option GreptimeDBStandalone.

Definition Standalone_GetConfig : string := nil_or "" (fun s => sa_Config (sa_Spec s)) i.
Definition Standalone_GetBaseMainContainer : option MainContainerSpec :=
  match i with
  | Some s => nil_or None tp_MainContainer (sa_Base (sa_Spec s))
  | None => None
  end.
Definition Standalone_GetVersion : string := nil_or "" (fun s => sa_Version (sa_Spec s)) i.
Definition Standalone_GetPrometheusMonitor : option PrometheusMonitorSpec :=
  nil_or None (fun s => sa_PrometheusMonitor (sa_Spec s)) i.
Definition Standalone_GetTLS : option TLSSpec := nil_or None (fun s => sa_TLS (sa_Spec s)) i.
Definition Standalone_GetWALProvider : option WALProviderSpec :=
  nil_or None (fun s => sa_WALProvider (sa_Spec s)) i.
Definition Standalone_GetObjectStorageProvider : option ObjectStorageProviderSpec :=
  nil_or None (fun s => sa_ObjectStorageProvider (sa_Spec s)) i.

(** Panics when a raft-engine WAL has no file storage. *)
Definition Standalone_GetWALDir : res string :=
  match i with
  | None => Ok ""
  | Some s =>
      match sa_WALProvider (sa_Spec s) ≫= wp_RaftEngineWAL with
      | Some re => fs_MountPath <$> deref (re_FileStorage re)
      | None =>
          match sa_DatanodeStorage (sa_Spec s) with
          | Some d => if decide (dst_DataHome d = "") then Ok ""
                      else Ok (dst_DataHome d +:+ "/wal")
          | None => Ok ""
          end
      end
  end.

Definition Standalone_GetDatanodeFileStorage : option FileStorage :=
  match i with
  | Some s => nil_or None dst_FileStorage (sa_DatanodeStorage (sa_Spec s))
  | None => None
  end.
Definition Standalone_GetDataHome : string :=
  match i with
  | Some s => nil_or "" dst_DataHome (sa_DatanodeStorage (sa_Spec s))
  | None => ""
  end.
Definition Standalone_GetLogging : option LoggingSpec :=
  nil_or None (fun s => sa_Logging (sa_Spec s)) i.
Definition Standalone_GetTracing : option TracingSpec :=
  nil_or None (fun s => sa_Tracing (sa_Spec s)) i.
Definition Standalone_GetSlowQuery : option SlowQuery :=
  nil_or None (fun s => sa_SlowQuery (sa_Spec s)) i.
End standalone_getters.

(** ** Cluster *)

Record LogPipeline := mkLogPipeline { lp_Data : string }.
#[export] Instance LogPipeline_eq_dec : EqDecision LogPipeline.
Proof. solve_decision. Defined.
Definition LogPipeline_GetData : option LogPipeline -> string := nil_or "" lp_Data.

Record LogsCollectionSpec := mkLogsCollectionSpec { lc_Pipeline : option LogPipeline }.
#[export] Instance LogsCollectionSpec_eq_dec : EqDecision LogsCollectionSpec.
Proof. solve_decision. Defined.
Definition LogsCollectionSpec_GetPipeline : option LogsCollectionSpec -> option LogPipeline :=
  nil_or None lc_Pipeline.

Record VectorSpec := mkVectorSpec {
  ve_Image : string;
  ve_Resources : ResourceRequirements }.
#[export] Instance VectorSpec_eq_dec : EqDecision VectorSpec.
Proof. solve_decision. Defined.

Record MonitoringSpec := mkMonitoringSpec {
  mo_Enabled : bool;
  mo_TTL : string;
  mo_Standalone : option GreptimeDBStandaloneSpec;
  mo_LogsCollection : option LogsCollectionSpec;
  mo_Vector : option VectorSpec }.
#[export] Instance MonitoringSpec_eq_dec : EqDecision MonitoringSpec.
Proof. solve_decision. Defined.

Definition MonitoringSpec_IsEnabled : option MonitoringSpec -> bool := nil_or false mo_Enabled.
Definition MonitoringSpec_GetStandalone : option MonitoringSpec -> option GreptimeDBStandaloneSpec :=
  nil_or None mo_Standalone.
Definition MonitoringSpec_GetLogsCollection : option MonitoringSpec -> option LogsCollectionSpec :=
  nil_or None mo_LogsCollection.
Definition MonitoringSpec_GetVector : option MonitoringSpec -> option VectorSpec :=
  nil_or None mo_Vector.

Record GreptimeDBClusterSpec := mkGreptimeDBClusterSpec {
  cl_Base : option PodTemplateSpec;
  cl_Frontend : option FrontendSpec;
  cl_Meta : option MetaSpec;
  cl_Datanode : option DatanodeSpec;
  cl_DatanodeGroups : list DatanodeSpec;
  cl_Flownode : option FlownodeSpec;
  cl_FrontendGroups : list FrontendSpec;
  cl_HTTPPort : Z;
  cl_RPCPort : Z;
  cl_MySQLPort : Z;
  cl_PostgreSQLPort : Z;
  cl_PrometheusMonitor : option PrometheusMonitorSpec;
  cl_Version : string;
  cl_Initializer : option InitializerSpec;
  cl_ObjectStorageProvider : option ObjectStorageProviderSpec;
  cl_WALProvider : option WALProviderSpec;
  cl_Logging : option LoggingSpec;
  cl_Monitoring : option MonitoringSpec;
  cl_Tracing : option TracingSpec;
  cl_ConfigMergeStrategy : ConfigMergeStrategy;
  cl_EnableIPv6 : bool }.
#[export] Instance GreptimeDBClusterSpec_eq_dec : EqDecision GreptimeDBClusterSpec.
Proof. solve_decision. Defined.

Record ComponentStatus := mkComponentStatus {
  cst_Replicas : Z;
  cst_ReadyReplicas : Z }.
#[export] Instance ComponentStatus_eq_dec : EqDecision ComponentStatus.
Proof. solve_decision. Defined.

Record MetaStatus := mkMetaStatus {
  ms_Replicas : Z;
  ms_ReadyReplicas : Z;
  ms_MaintenanceMode : bool }.
#[export] Instance MetaStatus_eq_dec : EqDecision MetaStatus.
Proof. solve_decision. Defined.

Record GreptimeDBClusterStatus := mkGreptimeDBClusterStatus {
  gst_Frontend : ComponentStatus;
  gst_Meta : MetaStatus;
  gst_Datanode : ComponentStatus;
  gst_Flownode : ComponentStatus;
  gst_MonitoringInternalDNSName : string;
  gst_Version : string;
  gst_ClusterPhase : Phase;
  gst_Conditions : list Condition;
  gst_ObservedGeneration : Z }.
#[export] Instance GreptimeDBClusterStatus_eq_dec : EqDecision GreptimeDBClusterStatus.
Proof. solve_decision. Defined.

Record GreptimeDBCluster := mkGreptimeDBCluster {
  gc_ObjectMeta : ObjectMeta;
  gc_Spec : GreptimeDBClusterSpec;
  gc_Status : GreptimeDBClusterStatus }.
#[export] Instance GreptimeDBCluster_eq_dec : EqDecision GreptimeDBCluster.
Proof. solve_decision. Defined.

(** The loop body of [GetDatanodeReplicas]: Go's [int32] addition wraps around. *)
Definition add_group_replicas (count : Z) (datanodeGroup : DatanodeSpec) : Z :=
  match DatanodeSpec_GetReplicas (Some datanodeGroup) with
  | Some replicas => int32 (count + replicas)
  | None => count
  end.

(** [GetFlownode] has no nil check. *)
Definition GetFlownode (c : GreptimeDBCluster) : option FlownodeSpec := cl_Flownode (gc_Spec c).

Section cluster_getters.
Variable i : option GreptimeDBCluster.

Definition GetBaseMainContainer : option MainContainerSpec :=
  match i with
  | Some c => nil_or None tp_MainContainer (cl_Base (gc_Spec c))
  | None => None
  end.
Definition GetVersion : string := nil_or "" (fun c => cl_Version (gc_Spec c)) i.
Definition GetLogging : option LoggingSpec := nil_or None (fun c => cl_Logging (gc_Spec c)) i.
Definition GetTracing : option TracingSpec := nil_or None (fun c => cl_Tracing (gc_Spec c)) i.
Definition GetFrontend : option FrontendSpec :=
  nil_or None (fun c => cl_Frontend (gc_Spec c)) i.
Definition GetFrontendGroups : list FrontendSpec :=
  nil_or [] (fun c => cl_FrontendGroups (gc_Spec c)) i.
Definition GetMeta : option MetaSpec := nil_or None (fun c => cl_Meta (gc_Spec c)) i.
Definition GetDatanode : option DatanodeSpec :=
  nil_or None (fun c => cl_Datanode (gc_Spec c)) i.
Definition GetDatanodeGroups : list DatanodeSpec :=
  nil_or [] (fun c => cl_DatanodeGroups (gc_Spec c)) i.
Definition GetWALProvider : option WALProviderSpec :=
  nil_or None (fun c => cl_WALProvider (gc_Spec c)) i.

(** Panics when a raft-engine WAL has no file storage. *)
Definition GetWALDir : res string :=
  match i with
  | None => Ok ""
  | Some c =>
      match cl_WALProvider (gc_Spec c) ≫= wp_RaftEngineWAL with
      | Some re => fs_MountPath <$> deref (re_FileStorage re)
      | None =>
          match cl_Datanode (gc_Spec c) ≫= dn_Storage with
          | Some d => if decide (dst_DataHome d = "") then Ok ""
                      else Ok (dst_DataHome d +:+ "/wal")
          | None => Ok ""
          end
      end
  end.

Definition GetObjectStorageProvider : option ObjectStorageProviderSpec :=
  nil_or None (fun c => cl_ObjectStorageProvider (gc_Spec c)) i.
Definition GetPrometheusMonitor : option PrometheusMonitorSpec :=
  nil_or None (fun c => cl_PrometheusMonitor (gc_Spec c)) i.
Definition GetMonitoring : option MonitoringSpec :=
  nil_or None (fun c => cl_Monitoring (gc_Spec c)) i.

Definition GetDatanodeReplicas : Z :=
  match DatanodeSpec_GetReplicas GetDatanode with
  | Some replicas => replicas
  | None => fold_left add_group_replicas GetDatanodeGroups 0%Z
  end.
End cluster_getters.

(** The sum of the groups' replicas, without the machine width. *)
Fixpoint total_replicas (l : list DatanodeSpec) : Z :=
  match l with
  | [] => 0%Z
  | g :: l => (default 0 (DatanodeSpec_GetReplicas (Some g)) + total_replicas l)%Z
  end.

(** Go's zero values of the specs, and clusters made from them for the
    witnesses. *)
Definition zero_ComponentSpec : ComponentSpec := mkComponentSpec None "" None None None.
Definition zero_DatanodeSpec : DatanodeSpec :=
  mkDatanodeSpec zero_ComponentSpec "" 0 0 None None None.
Definition zero_FrontendSpec : FrontendSpec :=
  mkFrontendSpec zero_ComponentSpec "" 0 0 0 None 0 0 0 None None None None None None.
Definition zero_MetaSpec : MetaSpec := mkMetaSpec zero_ComponentSpec 0 0 None None None.
Definition zero_FlownodeSpec : FlownodeSpec := mkFlownodeSpec zero_ComponentSpec 0 0 None None.
Definition zero_ClusterSpec : GreptimeDBClusterSpec :=
  mkGreptimeDBClusterSpec None None None None [] None [] 0 0 0 0 None "" None None None None None
    None "" false.
Definition zero_ClusterStatus : GreptimeDBClusterStatus :=
  mkGreptimeDBClusterStatus (mkComponentStatus 0 0) (mkMetaStatus 0 0 false)
    (mkComponentStatus 0 0) (mkComponentStatus 0 0) "" "" "" [] 0.
Definition zero_StandaloneSpec : GreptimeDBStandaloneSpec :=
  mkGreptimeDBStandaloneSpec None None None 0 0 None 0 0 0 None "" None None None None None "" None
    None None None "" false.
Definition zero_StandaloneStatus : GreptimeDBStandaloneStatus :=
  mkGreptimeDBStandaloneStatus 0 0 "" "" [] 0.

Definition with_replicas (d : DatanodeSpec) (n : Z) : DatanodeSpec :=
  mkDatanodeSpec (mkComponentSpec (Some n) "" None None None) (dn_Name d) (dn_RPCPort d)
    (dn_HTTPPort d) (dn_Storage d) (dn_RollingUpdate d) (dn_StartNodeID d).
Definition groups_cluster (replicas : list Z) : GreptimeDBCluster :=
  mkGreptimeDBCluster (meta_of "default" "c" None ∅)
    (mkGreptimeDBClusterSpec None None None None (map (with_replicas zero_DatanodeSpec) replicas)
       None [] 0 0 0 0 None "" None None None None None None "" false)
    zero_ClusterStatus.

Definition non_negative_replicas (g : DatanodeSpec) : Prop :=
  (0 <= default 0 (DatanodeSpec_GetReplicas (Some g)))%Z.

(** ** Lemmas *)

Lemma count_set_range {A} (p : option A) : (0 <= count_set p <= 1)%Z.
Proof. destruct p; simpl; done. Qed.

Lemma total_replicas_nonneg l : Forall non_negative_replicas l -> (0 <= total_replicas l)%Z.
Proof. unfold non_negative_replicas. induction 1 as [|g l Hg _ IH]; cbn in *; lia. Qed.

Lemma fold_replicas l acc :
  Forall non_negative_replicas l -> (0 <= acc)%Z -> (acc + total_replicas l < 2 ^ 31)%Z ->
  fold_left add_group_replicas l acc = (acc + total_replicas l)%Z.
Proof.
  intros Hl. revert acc. induction Hl as [|g l Hg Hl IH]; intros acc Hacc Hlt; cbn in *; [lia|].
  pose proof (total_replicas_nonneg _ Hl). unfold non_negative_replicas in Hg. cbn in Hg.
  unfold add_group_replicas at 2. cbn.
  destruct (cs_Replicas (dn_ComponentSpec g)) as [r|]; cbn in *.
  - rewrite int32_small by (unfold is_int32; lia). rewrite IH by lia. lia.
  - rewrite IH by lia. lia.
Qed.

(** With datanode groups, the replica count the status reports is the exact sum
    of the groups' replicas as long as it fits in an int32. *)
Theorem GetDatanodeReplicas_groups c :
  cl_Datanode (gc_Spec c) = None ->
  Forall non_negative_replicas (cl_DatanodeGroups (gc_Spec c)) ->
  (total_replicas (cl_DatanodeGroups (gc_Spec c)) < 2 ^ 31)%Z ->
  GetDatanodeReplicas (Some c) = total_replicas (cl_DatanodeGroups (gc_Spec c)).
Proof.
  intros Hd Hpos Hlt. unfold GetDatanodeReplicas, GetDatanode, GetDatanodeGroups. cbn.
  rewrite Hd. cbn. by rewrite fold_replicas.
Qed.


Lemma GetDatanodeReplicas_groups_witness :
  GetDatanodeReplicas (Some (groups_cluster [3; 5]%Z)) = 8%Z.
Proof.
  apply (GetDatanodeReplicas_groups (groups_cluster [3; 5]%Z)); cbn; [reflexivity| |lia].
  repeat constructor; unfold non_negative_replicas; cbn; lia.
Defined.
