(* ===== verification/Client.v ===== *)
(** * Effects: the Kubernetes API client and the other services

    The operator talks to the API server, to the metasrv HTTP endpoint, to the
    event recorder and to the clock.  None of these is under src/: a program
    is a tree of requests ([prog]) and an arbitrary environment answers each
    request.  [M S A] adds Go's mutable memory [S] (the object being
    reconciled, the deployer's fields), which survives an error return, and the
    [(A, error)] result.  [exec] runs a program against an environment and logs
    every request with its answer; theorems hold for every environment. *)

From stdpp Require Import base gmap strings list fin_maps.
From Stdlib Require Import ZArith.
From S2P Require Import Prelude K8s ApiTypes.

(** ** Objects by kind *)

Inductive kind :=
  | KService | KConfigMap | KStatefulSet | KDeployment | KPodMonitor | KPVC
  | KSecret | KCRD | KStandalone | KCluster.
#[export] Instance kind_eq_dec : EqDecision kind.
Proof. solve_decision. Defined.

(** The Go type of each kind; of a CRD the operator only asks for existence. *)
Definition obj (k : kind) : Type :=
  match k with
  | KService => Service
  | KConfigMap => ConfigMap
  | KStatefulSet => StatefulSet
  | KDeployment => Deployment
  | KPodMonitor => PodMonitor
  | KPVC => PersistentVolumeClaim
  | KSecret => Secret
  | KCRD => ObjectMeta
  | KStandalone => GreptimeDBStandalone
  | KCluster => GreptimeDBCluster
  end.

Record object := Object { o_kind : kind; o_val : obj o_kind }.

(** [client.Object]'s metadata accessors. *)
Definition obj_meta {k : kind} : obj k -> ObjectMeta :=
  match k with
  | KService => svc_ObjectMeta
  | KConfigMap => cm_ObjectMeta
  | KStatefulSet => sts_ObjectMeta
  | KDeployment => dep_ObjectMeta
  | KPodMonitor => pmon_ObjectMeta
  | KPVC => pvc_ObjectMeta
  | KSecret => sec_ObjectMeta
  | KCRD => fun m => m
  | KStandalone => sa_ObjectMeta
  | KCluster => gc_ObjectMeta
  end.

Definition with_meta {k : kind} : (ObjectMeta -> ObjectMeta) -> obj k -> obj k :=
  match k with
  | KService => fun f o => mkService (f (svc_ObjectMeta o)) (svc_Spec o)
  | KConfigMap => fun f o => mkConfigMap (f (cm_ObjectMeta o)) (cm_Data o)
  | KStatefulSet => fun f o => mkStatefulSet (f (sts_ObjectMeta o)) (sts_Spec o) (sts_Status o)
  | KDeployment => fun f o => mkDeployment (f (dep_ObjectMeta o)) (dep_Spec o) (dep_Status o)
  | KPodMonitor => fun f o => mkPodMonitor (f (pmon_ObjectMeta o)) (pmon_Spec o)
  | KPVC => fun f o => mkPersistentVolumeClaim (f (pvc_ObjectMeta o)) (pvc_Spec o)
  | KSecret => fun f o => mkSecret (f (sec_ObjectMeta o)) (sec_Data o)
  | KCRD => fun f o => f o
  | KStandalone => fun f o => mkGreptimeDBStandalone (f (sa_ObjectMeta o)) (sa_Spec o) (sa_Status o)
  | KCluster => fun f o => mkGreptimeDBCluster (f (gc_ObjectMeta o)) (gc_Spec o) (gc_Status o)
  end.

Lemma obj_meta_with_meta {k : kind} f (o : obj k) : obj_meta (with_meta f o) = f (obj_meta o).
Proof. by destruct k. Qed.

Definition meta_of_object (o : object) : ObjectMeta := obj_meta (o_val o).
Definition object_key (o : object) : NamespacedName := key_of (meta_of_object o).

(** metav1.LabelSelector with the two operators the sources use. *)
Inductive SelectorOp := OpIn | OpNotIn.
Record LabelSelectorRequirement := mkRequirement {
  rq_Key : string;
  rq_Operator : SelectorOp;
  rq_Values : list string }.
Record LabelSelector := mkLabelSelector {
  ls_MatchLabels : strmap;
  ls_MatchExpressions : list LabelSelectorRequirement }.

(** The documented meaning of a label selector: every pair of [MatchLabels] is
    a label; [In] asks for a listed value, [NotIn] also accepts a missing key. *)
Definition requirement_matches (labels : strmap) (r : LabelSelectorRequirement) : bool :=
  match rq_Operator r, labels !! rq_Key r with
  | OpIn, Some v => bool_decide (v ∈ rq_Values r)
  | OpIn, None => false
  | OpNotIn, Some v => bool_decide (v ∉ rq_Values r)
  | OpNotIn, None => true
  end.
Definition selector_matches (sel : LabelSelector) (labels : strmap) : bool :=
  bool_decide (ls_MatchLabels sel ⊆ labels)
  && forallb (requirement_matches labels) (ls_MatchExpressions sel).

(** go-sql-driver's [mysql.Config], the fields that are set. *)
Record MySQLConfig := mkMySQLConfig {
  my_Net : string;
  my_Addr : string;
  my_DBName : string;
  my_AllowNativePasswords : bool;
  my_TimeoutSeconds : Z }.

(** The answer to a POST with a body: how many bytes of the body the transport read,
    and the status code with the response's body, whose reading may fail as well. *)
Record PostAnswer := mkPostAnswer {
  pa_Read : nat;
  pa_Response : res (Z * res string) }.

(** The float that a histogram observes: [d.Seconds()] of a duration in nanoseconds,
    or [float64(n)]. *)
Inductive observed :=
  | Seconds (d : Z)
  | Float64 (n : Z).

(** ** Requests and answers *)

Inductive req :=
  | QNewClient
  | QGet (k : kind) (key : NamespacedName)
  | QList (k : kind) (ns : string) (sel : LabelSelector)
  | QCreate (o : object)
  | QUpdate (k : kind) (o : obj k)
  | QPatch (o old : object)
  | QDelete (o : object)
  | QStatusUpdate (o : object)
  | QPost (url : string)
  | QPostBody (url contentType body : string)
  | QBoundary
  | QSQLOpen (cfg : MySQLConfig)
  | QSQLQuery (cfg : MySQLConfig) (query : string) (args : list string)
  | QListPods (ns : string) (labels fields : strmap)
  | QListEvents (ns : string) (fields : strmap)
  | QObserve (metric : string) (labels : list (string * string)) (value : observed)
  | QEvent (eventtype reason : string)
  | QEtcdStatus (endpoints : list string)
  | QNow.

(** An update answers with the object the server stored; a POST with the status
    code; an etcd status with the errors it lists.  A multipart writer draws a random
    boundary.  A query answers with the rows that [Next] reaches, each with what [Scan]
    makes of it.  Pods and events are listed with field selectors too. *)
Definition resp (q : req) : Type :=
  match q with
  | QNewClient => res unit
  | QGet k _ => res (obj k)
  | QList k _ _ => res (list (obj k))
  | QCreate _ => res unit
  | QUpdate k _ => res (obj k)
  | QPatch _ _ => res unit
  | QDelete _ => res unit
  | QStatusUpdate _ => res unit
  | QPost _ => res Z
  | QPostBody _ _ _ => PostAnswer
  | QBoundary => string
  | QSQLOpen _ => res unit
  | QSQLQuery _ _ _ => res (list (res string))
  | QListPods _ _ _ => res (list Pod)
  | QListEvents _ _ => res (list CoreEvent)
  | QObserve _ _ _ => unit
  | QEvent _ _ => unit
  | QEtcdStatus _ => res (list string)
  | QNow => Z
  end.

Definition event : Type := { q : req & resp q }.
Definition ev (q : req) (r : resp q) : event := existT q r.

(** ** Programs *)

Inductive prog (A : Type) : Type :=
  | Ret (a : A)
  | Vis (q : req) (k : resp q -> prog A).
Global Arguments Ret {A} a.
Global Arguments Vis {A} q k.

Fixpoint prog_bind {A B} (f : A -> prog B) (p : prog A) : prog B :=
  match p with
  | Ret a => f a
  | Vis q k => Vis q (fun r => prog_bind f (k r))
  end.

Definition M (S A : Type) : Type := S -> prog (res A * S).

Global Instance M_ret {S} : MRet (M S) := fun A a s => Ret (Ok a, s).
Global Instance M_bind {S} : MBind (M S) := fun A B f m s =>
  prog_bind (fun '(r, s') => match r with
                             | Ok a => f a s'
                             | Err e => Ret (Err e, s')
                             | Panic => Ret (Panic, s')
                             end) (m s).

(** A request; its answer as a value. *)
Definition ask {S} (q : req) : M S (resp q) := fun s => Vis q (fun r => Ret (Ok r, s)).
(** A result as a computation: [return ..., err] on an error. *)
Definition lift {S A} (r : res A) : M S A := fun s => Ret (r, s).
(** [err := f(...)]: the error as a value; a panic still unwinds. *)
Definition try {S A} (m : M S A) : M S (res A) := fun s =>
  prog_bind (fun '(r, s') => match r with
                             | Panic => Ret (Panic, s')
                             | _ => Ret (Ok r, s')
                             end) (m s).
Definition get {S} : M S S := fun s => Ret (Ok s, s).
Definition put {S} (s : S) : M S unit := fun _ => Ret (Ok tt, s).
Definition modify {S} (f : S -> S) : M S unit := fun s => Ret (Ok tt, f s).
(** A computation on a local variable [s0] of its own. *)
Definition run_local {S T A} (m : M T A) (s0 : T) : M S A := fun s =>
  prog_bind (fun '(r, _) => Ret (r, s)) (m s0).
(** A computation on a part of the memory: [into] reads it, [back] writes it
    back, also when the computation fails. *)
Definition zoom {S T A} (into : S -> T) (back : S -> T -> S) (m : M T A) : M S A := fun s =>
  prog_bind (fun '(r, t) => Ret (r, back s t)) (m (into s)).
(** [defer d()]: [d] runs however [m] ends; its own error is its business. *)
Definition defer {S A} (d : M S unit) (m : M S A) : M S A := fun s =>
  prog_bind (fun '(r, s') =>
    prog_bind (fun '(r', s'') => Ret (match r' with Panic => Panic | _ => r end, s'')) (d s')) (m s).
(** [if cond { m }]. *)
Definition when {S} (c : bool) (m : M S unit) : M S unit := if c then m else mret tt.
(** [for _, x := range l { if err := f(x); err != nil { return err } }]. *)
Fixpoint range {S A} (f : A -> M S unit) (l : list A) : M S unit :=
  match l with
  | [] => mret tt
  | x :: l => f x ≫= fun _ => range f l
  end.

(** [if err := m(); err != nil { klog.Errorf(...) }]: the error is only logged. *)
Definition log_err {S} (m : M S unit) : M S unit := _ ← try m; mret tt.

(** A request that answers [(value, error)] as one Go call. *)
Definition Get {S} (k : kind) (key : NamespacedName) : M S (obj k) := ask (QGet k key) ≫= lift.
Definition ListObjects {S} (k : kind) (ns : string) (sel : LabelSelector) : M S (list (obj k)) :=
  ask (QList k ns sel) ≫= lift.
Definition Create {S} (o : object) : M S unit := ask (QCreate o) ≫= lift.
Definition Update {S} (k : kind) (o : obj k) : M S (obj k) := ask (QUpdate k o) ≫= lift.
Definition Patch {S} (o old : object) : M S unit := ask (QPatch o old) ≫= lift.
Definition Delete {S} (o : object) : M S unit := ask (QDelete o) ≫= lift.
Definition StatusUpdate {S} (o : object) : M S unit := ask (QStatusUpdate o) ≫= lift.
Definition Event {S} (eventtype reason : string) : M S unit :=
  ask (QEvent eventtype reason) ≫= fun _ => mret tt.

(** ** Execution against an environment *)

Record outcome (S W A : Type) : Type := Outcome {
  out_res : res A;
  out_st : S;
  out_world : W;
  out_log : list event }.
Global Arguments Outcome {S W A} out_res out_st out_world out_log.
Global Arguments out_res {S W A} o.
Global Arguments out_st {S W A} o.
Global Arguments out_world {S W A} o.
Global Arguments out_log {S W A} o.

(** An environment answers a request from its own state. *)
Definition environment (W : Type) : Type := forall q : req, W -> resp q * W.

Fixpoint run {S W A} (env : environment W) (p : prog (res A * S)) (w : W) (log : list event)
    : outcome S W A :=
  match p with
  | Ret (r, s) => Outcome r s w log
  | Vis q k => let '(r, w') := env q w in run env (k r) w' (log ++ [ev q r])
  end.

Definition exec {S W A} (env : environment W) (m : M S A) (s : S) (w : W) : outcome S W A :=
  run env (m s) w [].

Global Arguments exec {S W A} env m s w : simpl never.

(** Continuing after an outcome: its log comes first. *)
Definition prepend {S W A} (log : list event) (o : outcome S W A) : outcome S W A :=
  Outcome (out_res o) (out_st o) (out_world o) (log ++ out_log o).

(** ** Lemmas *)

Section exec_lemmas.
Context {W : Type} (env : environment W).

Lemma run_log {S A} (p : prog (res A * S)) w log :
  run env p w log = prepend log (run env p w []).
Proof.
  revert w log. induction p as [[r s]|q k IH]; intros w log; simpl.
  - unfold prepend. simpl. by rewrite app_nil_r.
  - destruct (env q w) as [r w']. rewrite (IH r w' (log ++ [ev q r])), (IH r w' [ev q r]).
    unfold prepend. simpl. by rewrite <- app_assoc.
Qed.

Lemma run_prog_bind {S T A B} (f : res A * S -> prog (res B * T)) p w :
  run env (prog_bind f p) w [] =
    let o := run env p w [] in
    prepend (out_log o) (run env (f (out_res o, out_st o)) (out_world o) []).
Proof.
  revert w. induction p as [[r s]|q k IH]; intros w; simpl.
  - unfold prepend. simpl. by destruct (run env (f (r, s)) w []).
  - destruct (env q w) as [r w']. rewrite (run_log _ w' [ev q r]), IH. simpl.
    rewrite (run_log (k r) w' [ev q r]). unfold prepend. simpl. reflexivity.
Qed.

Lemma exec_ret {S A} (a : A) (s : S) w : exec env (mret a) s w = Outcome (Ok a) s w [].
Proof. reflexivity. Qed.

Lemma exec_lift {S A} (r : res A) (s : S) w : exec env (lift r) s w = Outcome r s w [].
Proof. reflexivity. Qed.

Lemma exec_get {S} (s : S) w : exec env get s w = Outcome (Ok s) s w [].
Proof. reflexivity. Qed.

Lemma exec_put {S} (s s' : S) w : exec env (put s') s w = Outcome (Ok tt) s' w [].
Proof. reflexivity. Qed.

Lemma exec_modify {S} f (s : S) w : exec env (modify f) s w = Outcome (Ok tt) (f s) w [].
Proof. reflexivity. Qed.

Lemma exec_ask {S} q (s : S) w :
  exec env (ask q) s w =
    Outcome (Ok (env q w).1) s (env q w).2 [ev q (env q w).1].
Proof. unfold exec. cbn. by destruct (env q w). Qed.

Lemma exec_bind {S A B} (m : M S A) (f : A -> M S B) s w :
  exec env (m ≫= f) s w =
    let o := exec env m s w in
    match out_res o with
    | Ok a => prepend (out_log o) (exec env (f a) (out_st o) (out_world o))
    | Err e => Outcome (Err e) (out_st o) (out_world o) (out_log o)
    | Panic => Outcome Panic (out_st o) (out_world o) (out_log o)
    end.
Proof.
  unfold exec, mbind, M_bind. rewrite run_prog_bind. simpl.
  destruct (run env (m s) w []) as [[a|e|] s' w' l]; simpl; [done|..];
    unfold prepend; simpl; by rewrite app_nil_r.
Qed.

Lemma exec_try {S A} (m : M S A) s w :
  exec env (try m) s w =
    let o := exec env m s w in
    match out_res o with
    | Panic => Outcome Panic (out_st o) (out_world o) (out_log o)
    | r => Outcome (Ok r) (out_st o) (out_world o) (out_log o)
    end.
Proof.
  unfold exec, try. rewrite run_prog_bind. simpl.
  destruct (run env (m s) w []) as [[a|e|] s' w' l]; simpl;
    unfold prepend; simpl; by rewrite app_nil_r.
Qed.

Lemma exec_run_local {S T A} (m : M T A) (t : T) (s : S) w :
  exec env (run_local m t) s w =
    let o := exec env m t w in Outcome (out_res o) s (out_world o) (out_log o).
Proof.
  unfold exec, run_local. rewrite run_prog_bind. simpl.
  destruct (run env (m t) w []) as [r t' w' l]; simpl.
  unfold prepend; simpl; by rewrite app_nil_r.
Qed.

Lemma exec_zoom {S T A} into back (m : M T A) (s : S) w :
  exec env (zoom into back m) s w =
    let o := exec env m (into s) w in
    Outcome (out_res o) (back s (out_st o)) (out_world o) (out_log o).
Proof.
  unfold exec, zoom. rewrite run_prog_bind. simpl.
  destruct (run env (m (into s)) w []) as [r t' w' l]; simpl.
  unfold prepend; simpl; by rewrite app_nil_r.
Qed.

Lemma exec_defer {S A} (d : M S unit) (m : M S A) s w :
  exec env (defer d m) s w =
    let o := exec env m s w in
    let o' := exec env d (out_st o) (out_world o) in
    Outcome (match out_res o' with Panic => Panic | _ => out_res o end)
      (out_st o') (out_world o') (out_log o ++ out_log o').
Proof.
  unfold exec, defer. rewrite run_prog_bind. cbn.
  destruct (run env (m s) w []) as [r s' w' l]; cbn. rewrite run_prog_bind. cbn.
  destruct (run env (d s') w' []) as [r' s'' w'' l']; cbn.
  unfold prepend; cbn. by rewrite app_nil_r.
Qed.

(** One call of the client: its answer is the result. *)
Lemma exec_request {S A} q (f : resp q -> M S A) (s : S) w :
  exec env (ask q ≫= f) s w =
    prepend [ev q (env q w).1] (exec env (f (env q w).1) s (env q w).2).
Proof. rewrite exec_bind, exec_ask. reflexivity. Qed.

Lemma exec_Get {S} k key (s : S) w :
  exec env (Get k key) s w =
    Outcome (env (QGet k key) w).1 s (env (QGet k key) w).2
      [ev (QGet k key) (env (QGet k key) w).1].
Proof. unfold exec, Get, mbind, M_bind; cbn. by destruct (env _ w). Qed.

Lemma exec_List {S} k ns sel (s : S) w :
  exec env (ListObjects k ns sel) s w =
    Outcome (env (QList k ns sel) w).1 s (env (QList k ns sel) w).2
      [ev (QList k ns sel) (env (QList k ns sel) w).1].
Proof. unfold exec, ListObjects, mbind, M_bind; cbn. by destruct (env _ w). Qed.

Lemma exec_Create {S} o (s : S) w :
  exec env (Create o) s w =
    Outcome (env (QCreate o) w).1 s (env (QCreate o) w).2 [ev (QCreate o) (env (QCreate o) w).1].
Proof. unfold exec, Create, mbind, M_bind; cbn. by destruct (env _ w). Qed.

Lemma exec_Update {S} k o (s : S) w :
  exec env (Update k o) s w =
    Outcome (env (QUpdate k o) w).1 s (env (QUpdate k o) w).2
      [ev (QUpdate k o) (env (QUpdate k o) w).1].
Proof. unfold exec, Update, mbind, M_bind; cbn. by destruct (env _ w). Qed.

Lemma exec_Patch {S} o old (s : S) w :
  exec env (Patch o old) s w =
    Outcome (env (QPatch o old) w).1 s (env (QPatch o old) w).2
      [ev (QPatch o old) (env (QPatch o old) w).1].
Proof. unfold exec, Patch, mbind, M_bind; cbn. by destruct (env _ w). Qed.

Lemma exec_Delete {S} o (s : S) w :
  exec env (Delete o) s w =
    Outcome (env (QDelete o) w).1 s (env (QDelete o) w).2 [ev (QDelete o) (env (QDelete o) w).1].
Proof. unfold exec, Delete, mbind, M_bind; cbn. by destruct (env _ w). Qed.

Lemma exec_StatusUpdate {S} o (s : S) w :
  exec env (StatusUpdate o) s w =
    Outcome (env (QStatusUpdate o) w).1 s (env (QStatusUpdate o) w).2
      [ev (QStatusUpdate o) (env (QStatusUpdate o) w).1].
Proof. unfold exec, StatusUpdate, mbind, M_bind; cbn. by destruct (env _ w). Qed.

Lemma exec_Event {S} t r (s : S) w :
  exec env (Event t r) s w =
    Outcome (Ok tt) s (env (QEvent t r) w).2 [ev (QEvent t r) (env (QEvent t r) w).1].
Proof. unfold exec, Event, mbind, M_bind; cbn. by destruct (env _ w). Qed.

(** A postcondition on every execution from states satisfying [P]: what the
    result, the memory and the log can be. *)
Definition hoare {S A} (P : S -> Prop) (m : M S A)
    (Q : res A -> S -> list event -> Prop) : Prop :=
  forall s w, P s -> let o := exec env m s w in Q (out_res o) (out_st o) (out_log o).

Lemma hoare_conseq {S A} (P P' : S -> Prop) (m : M S A) (Q Q' : res A -> S -> list event -> Prop) :
  hoare P m Q -> (forall s, P' s -> P s) ->
  (forall r s l, Q r s l -> Q' r s l) -> hoare P' m Q'.
Proof. intros H HP HQ s w Hs. apply HQ, H, HP, Hs. Qed.

(** Sequencing: the first computation establishes [R] on success; an error or
    a panic of it ends the sequence. *)
Lemma hoare_bind {S A B} (P : S -> Prop) (m : M S A) (f : A -> M S B)
    (R : A -> S -> list event -> Prop) (Q : res B -> S -> list event -> Prop) :
  hoare P m (fun r s l => match r with
                          | Ok a => R a s l
                          | Err e => Q (Err e) s l
                          | Panic => Q Panic s l
                          end) ->
  (forall a l, hoare (fun s => R a s l) (f a) (fun r s l' => Q r s (l ++ l'))) ->
  hoare P (m ≫= f) Q.
Proof.
  intros Hm Hf s w Hs. rewrite exec_bind. specialize (Hm s w Hs). cbv zeta in *.
  destruct (exec env m s w) as [[a|e|] s' w' l]; simpl in *; [|done..].
  apply (Hf a l s' w' Hm).
Qed.
End exec_lemmas.

(** The rewriting rules that symbolically execute a program. *)
Create Rewrite HintDb exec.
#[export] Hint Rewrite @exec_ret @exec_lift @exec_get @exec_put @exec_modify @exec_ask
  @exec_bind @exec_try @exec_run_local @exec_zoom @exec_Get @exec_List
  @exec_Create @exec_Update @exec_Patch @exec_Delete @exec_StatusUpdate @exec_Event : exec.

Ltac exec_step := progress (autorewrite with exec; simpl).
Ltac exec_steps := repeat exec_step.

(** Every logged event satisfies a predicate, whatever the environment does. *)
Definition logs_only {S A} (P : event -> Prop) (m : M S A) : Prop :=
  forall W (env : environment W) s w, Forall P (out_log (exec env m s w)).

Lemma logs_only_ret {S A} P (a : A) : logs_only (S := S) P (mret a).
Proof. intros W env s w. constructor. Qed.

Lemma logs_only_lift {S A} P (r : res A) : logs_only (S := S) P (lift r).
Proof. intros W env s w. constructor. Qed.

Lemma logs_only_get {S} P : logs_only (S := S) P get.
Proof. intros W env s w. constructor. Qed.

Lemma logs_only_put {S} P (s : S) : logs_only P (put s).
Proof. intros W env s' w. constructor. Qed.

Lemma logs_only_modify {S} P (f : S -> S) : logs_only P (modify f).
Proof. intros W env s' w. constructor. Qed.

Lemma logs_only_ask {S} (P : event -> Prop) q :
  (forall r, P (ev q r)) -> logs_only (S := S) P (ask q).
Proof. intros H W env s w. rewrite exec_ask. simpl. by constructor. Qed.

(** A request whose answer is the result of the call. *)
Lemma logs_only_call {S A} (P : event -> Prop) q (f : resp q -> M S A) :
  (forall r, P (ev q r)) -> (forall r, logs_only P (f r)) -> logs_only P (ask q ≫= f).
Proof.
  intros Hq Hf W env s w. rewrite exec_request. constructor; [apply Hq|apply Hf].
Qed.

Lemma logs_only_bind {S A B} P (m : M S A) (f : A -> M S B) :
  logs_only P m -> (forall a, logs_only P (f a)) -> logs_only P (m ≫= f).
Proof.
  intros Hm Hf W env s w. rewrite exec_bind. specialize (Hm W env s w). cbv zeta.
  destruct (exec env m s w) as [[a|e|] s' w' l]; simpl in *; [|done..].
  apply Forall_app; split; [done|apply Hf].
Qed.

Lemma logs_only_try {S A} P (m : M S A) : logs_only P m -> logs_only P (try m).
Proof.
  intros Hm W env s w. rewrite exec_try. specialize (Hm W env s w). cbv zeta.
  by destruct (exec env m s w) as [[a|e|] s' w' l].
Qed.

Lemma logs_only_run_local {S T A} P (m : M T A) t :
  logs_only P m -> logs_only (S := S) P (run_local m t).
Proof.
  intros Hm W env s w. rewrite exec_run_local. exact (Hm W env t w).
Qed.

Lemma logs_only_zoom {S T A} P into back (m : M T A) :
  logs_only P m -> logs_only (S := S) P (zoom into back m).
Proof. intros Hm W env s w. rewrite exec_zoom. exact (Hm W env (into s) w). Qed.

Lemma logs_only_when {S} P c (m : M S unit) : logs_only P m -> logs_only P (when c m).
Proof. destruct c; [done|intros _; apply logs_only_ret]. Qed.

Lemma logs_only_range {S A} P (f : A -> M S unit) l :
  (forall x, x ∈ l -> logs_only P (f x)) -> logs_only P (range f l).
Proof.
  induction l as [|x l IH]; intros H; simpl; [apply logs_only_ret|].
  apply logs_only_bind; [apply H; set_solver|]. intros _. apply IH. set_solver.
Qed.

(** An invariant of the world that every request the program may send keeps. *)
Lemma logs_only_world {W} (env : environment W) {S A} (P : event -> Prop) (I : W -> Prop) (m : M S A) :
  logs_only P m -> (forall q w, P (ev q (env q w).1) -> I w -> I (env q w).2) ->
  forall s w, I w -> I (out_world (exec env m s w)).
Proof.
  intros Hm Hq s w. specialize (Hm W env s w). unfold exec in *. revert w Hm.
  induction (m s) as [[r s']|q k IH]; intros w Hm HI; [exact HI|].
  cbn [run] in *. specialize (Hq q w). specialize (IH (env q w).1 (env q w).2).
  destruct (env q w) as [r w']. rewrite run_log in Hm |- *. cbn in *.
  apply Forall_cons in Hm as [Hp Hm]. by apply IH, Hq.
Qed.

(** Decides [logs_only] goals by following the program's structure. *)
Create HintDb logs.
#[export] Hint Resolve logs_only_ret logs_only_lift logs_only_get logs_only_put
  logs_only_modify logs_only_ask logs_only_bind logs_only_try logs_only_run_local logs_only_zoom
  logs_only_when logs_only_range : logs.

(** ** Relations every execution preserves between its memory before and after *)

Definition preserves {S A} (R : S -> S -> Prop) (m : M S A) : Prop :=
  forall W (env : environment W) s w, R s (out_st (exec env m s w)).

Section preserves.
Context {S : Type} (R : S -> S -> Prop) `{!PreOrder R}.

Lemma preserves_ret {A} (a : A) : preserves R (mret a).
Proof. intros W env s w. rewrite exec_ret. reflexivity. Qed.

Lemma preserves_lift {A} (r : res A) : preserves R (lift r).
Proof. intros W env s w. rewrite exec_lift. reflexivity. Qed.

Lemma preserves_get : preserves R get.
Proof. intros W env s w. rewrite exec_get. reflexivity. Qed.

Lemma preserves_ask q : preserves R (ask q).
Proof. intros W env s w. rewrite exec_ask. reflexivity. Qed.

Lemma preserves_modify f : (forall s, R s (f s)) -> preserves R (modify f).
Proof. intros H W env s w. rewrite exec_modify. apply H. Qed.

Lemma preserves_bind {A B} (m : M S A) (f : A -> M S B) :
  preserves R m -> (forall a, preserves R (f a)) -> preserves R (m ≫= f).
Proof.
  intros Hm Hf W env s w. rewrite exec_bind. specialize (Hm W env s w). cbv zeta.
  destruct (exec env m s w) as [[a|e|] s' w' l]; cbn in *; [|done..].
  etransitivity; [exact Hm|apply Hf].
Qed.

Lemma preserves_try {A} (m : M S A) : preserves R m -> preserves R (try m).
Proof.
  intros Hm W env s w. rewrite exec_try. specialize (Hm W env s w). cbv zeta.
  by destruct (exec env m s w) as [[a|e|] s' w' l].
Qed.

Lemma preserves_when c (m : M S unit) : preserves R m -> preserves R (when c m).
Proof. destruct c; [done|intros _; apply preserves_ret]. Qed.

Lemma preserves_range {A} (f : A -> M S unit) l :
  (forall x, preserves R (f x)) -> preserves R (range f l).
Proof.
  intros H. induction l as [|x l IH]; cbn; [apply preserves_ret|]. by apply preserves_bind.
Qed.

(** A request whose answer is the result of the call. *)
Lemma preserves_call {A} q (f : resp q -> M S A) :
  (forall r, preserves R (f r)) -> preserves R (ask q ≫= f).
Proof. intros Hf. exact (preserves_bind (ask q) f (preserves_ask q) Hf). Qed.

Lemma preserves_Get k key : preserves R (Get k key).
Proof. exact (preserves_call (QGet k key) lift preserves_lift). Qed.

Lemma preserves_List k ns sel : preserves R (ListObjects k ns sel).
Proof. exact (preserves_call (QList k ns sel) lift preserves_lift). Qed.

Lemma preserves_Create o : preserves R (Create o).
Proof. exact (preserves_call (QCreate o) lift preserves_lift). Qed.

Lemma preserves_Update k o : preserves R (Update k o).
Proof. exact (preserves_call (QUpdate k o) lift preserves_lift). Qed.

Lemma preserves_Patch o old : preserves R (Patch o old).
Proof. exact (preserves_call (QPatch o old) lift preserves_lift). Qed.

Lemma preserves_Delete o : preserves R (Delete o).
Proof. exact (preserves_call (QDelete o) lift preserves_lift). Qed.

Lemma preserves_StatusUpdate o : preserves R (StatusUpdate o).
Proof. exact (preserves_call (QStatusUpdate o) lift preserves_lift). Qed.

Lemma preserves_Event t r : preserves R (Event t r).
Proof. apply (preserves_call (QEvent t r)). intros _. apply preserves_ret. Qed.

Lemma preserves_log_err m : preserves R m -> preserves R (log_err m).
Proof.
  intros Hm. apply preserves_bind; [by apply preserves_try|]. intros _. apply preserves_ret.
Qed.
End preserves.

(** A local computation leaves the caller's memory alone. *)
Lemma preserves_run_local {S T A} (R : S -> S -> Prop) `{!PreOrder R} (m : M T A) t :
  preserves R (run_local m t).
Proof. intros W env s w. rewrite exec_run_local. reflexivity. Qed.

Create HintDb preserves.
#[export] Hint Resolve preserves_ret preserves_lift preserves_get preserves_ask preserves_modify
  preserves_bind preserves_try preserves_when preserves_range preserves_call preserves_Get
  preserves_List preserves_Create preserves_Update preserves_Patch preserves_Delete
  preserves_StatusUpdate preserves_Event preserves_log_err preserves_run_local : preserves.

(** Proves [preserves] by following the structure of the program; what is left
    are the assignments and the calls of unknown code. *)
Ltac preserves_step :=
  match goal with
  | |- forall _, _ => intro
  | |- PreOrder _ => apply _
  | |- preserves _ (match ?x with _ => _ end) => destruct x
  | |- preserves _ (let _ := _ in _) => cbv zeta
  | |- preserves _ (mret _) => apply preserves_ret
  | |- preserves _ (lift _) => apply preserves_lift
  | |- preserves _ get => apply preserves_get
  | |- preserves _ (ask _ ≫= _) => apply preserves_call
  | |- preserves _ (ask _) => apply preserves_ask
  | |- preserves ?R (Get ?a ?b) => exact (preserves_Get R a b)
  | |- preserves ?R (ListObjects ?a ?b ?c) => exact (preserves_List R a b c)
  | |- preserves _ (Create _) => apply preserves_Create
  | |- preserves ?R (Update ?a ?b) => exact (preserves_Update R a b)
  | |- preserves _ (Patch _ _) => apply preserves_Patch
  | |- preserves _ (Delete _) => apply preserves_Delete
  | |- preserves _ (StatusUpdate _) => apply preserves_StatusUpdate
  | |- preserves _ (Event _ _) => apply preserves_Event
  | |- preserves _ (run_local _ _) => apply preserves_run_local
  | |- preserves _ (when _ _) => apply preserves_when
  | |- preserves _ (range _ _) => apply preserves_range
  | |- preserves _ (log_err _) => apply preserves_log_err
  | |- preserves _ (try _) => apply preserves_try
  | |- preserves _ (_ ≫= _) => apply preserves_bind
  end.
Ltac solve_preserves := repeat preserves_step; eauto with preserves.

(** The same for [logs_only]. *)
Ltac logs_step :=
  match goal with
  | |- forall _, _ => intro
  | |- logs_only _ (match ?x with _ => _ end) => destruct x
  | |- logs_only _ (let _ := _ in _) => cbv zeta
  | |- logs_only _ (mret _) => apply logs_only_ret
  | |- logs_only _ (lift _) => apply logs_only_lift
  | |- logs_only _ get => apply logs_only_get
  | |- logs_only _ (modify _) => apply logs_only_modify
  | |- logs_only _ (put _) => apply logs_only_put
  | |- logs_only _ (ask _ ≫= _) => apply logs_only_call
  | |- logs_only _ (ask _) => apply logs_only_ask
  | |- logs_only _ (Get _ _) => apply logs_only_call
  | |- logs_only _ (ListObjects _ _ _) => apply logs_only_call
  | |- logs_only _ (Create _) => apply logs_only_call
  | |- logs_only _ (Update _ _) => apply logs_only_call
  | |- logs_only _ (Patch _ _) => apply logs_only_call
  | |- logs_only _ (Delete _) => apply logs_only_call
  | |- logs_only _ (StatusUpdate _) => apply logs_only_call
  | |- logs_only _ (Event _ _) => apply logs_only_call
  | |- logs_only _ (run_local _ _) => apply logs_only_run_local
  | |- logs_only _ (zoom _ _ _) => apply logs_only_zoom
  | |- logs_only _ (when _ _) => apply logs_only_when
  | |- logs_only _ (range _ _) => apply logs_only_range
  | |- logs_only _ (log_err _) => unfold log_err
  | |- logs_only _ (try _) => apply logs_only_try
  | |- logs_only _ (_ ≫= _) => apply logs_only_bind
  end.
Ltac solve_logs := repeat logs_step; eauto with logs.

(** ** What every result satisfies, and computations that only read *)

Definition returns {S A} (P : A -> Prop) (m : M S A) : Prop :=
  forall W (env : environment W) s w a, out_res (exec env m s w) = Ok a -> P a.

Lemma returns_ret {S A} (P : A -> Prop) a : P a -> returns (S := S) P (mret a).
Proof. by intros Ha W env s w b [= <-]. Qed.

Lemma returns_lift {S A} (P : A -> Prop) r :
  (forall a, r = Ok a -> P a) -> returns (S := S) P (lift r).
Proof. intros Hr W env s w a. rewrite exec_lift. apply Hr. Qed.

Lemma returns_bind {S A B} (P : A -> Prop) (Q : B -> Prop) (m : M S A) (f : A -> M S B) :
  returns P m -> (forall a, P a -> returns Q (f a)) -> returns Q (m ≫= f).
Proof.
  intros Hm Hf W env s w b. rewrite exec_bind. specialize (Hm W env s w). cbv zeta.
  destruct (exec env m s w) as [[a|e|] s' w' l]; cbn in *; [|done..].
  apply Hf. by apply Hm.
Qed.

Lemma returns_any {S A} (m : M S A) : returns (fun _ => True) m.
Proof. by intros W env s w a _. Qed.

(** What is known of the result and of the log of a computation that succeeds. *)
Definition leaves {S A} (Q : A -> list event -> Prop) (m : M S A) : Prop :=
  forall W (env : environment W) s w a,
    let o := exec env m s w in out_res o = Ok a -> Q a (out_log o).

Lemma leaves_returns {S A} (Q : A -> Prop) (m : M S A) : returns Q m -> leaves (fun a _ => Q a) m.
Proof. intros Hm W env s w a. cbv zeta. apply Hm. Qed.

Lemma leaves_any {S A} (m : M S A) : leaves (fun _ _ => True) m.
Proof. intros W env s w a. cbv zeta. done. Qed.

Lemma leaves_bind {S A B} (R : A -> list event -> Prop) (Q : B -> list event -> Prop)
    (m : M S A) (f : A -> M S B) :
  leaves R m -> (forall a l, R a l -> leaves (fun b l' => Q b (l ++ l')) (f a)) -> leaves Q (m ≫= f).
Proof.
  intros Hm Hf W env s w b. rewrite exec_bind. specialize (Hm W env s w). cbv zeta in *.
  destruct (exec env m s w) as [[a|e|] s1 w1 l1]; cbn [out_res out_st out_world out_log] in *; [|done..].
  intros Hr. exact (Hf a l1 (Hm a eq_refl) W env s1 w1 b Hr).
Qed.

Lemma leaves_ret {S A} (Q : A -> list event -> Prop) a : Q a [] -> leaves (S := S) Q (mret a).
Proof. intros Ha W env s w b. cbv zeta. rewrite exec_ret. by intros [= <-]. Qed.

Lemma leaves_lift {S A} (Q : A -> list event -> Prop) r :
  (forall a, r = Ok a -> Q a []) -> leaves (S := S) Q (lift r).
Proof. intros Hr W env s w a. cbv zeta. rewrite exec_lift. apply Hr. Qed.

(** A step whose own part of the log does not matter. *)
Lemma leaves_then {S A B} (Q : B -> list event -> Prop) (m : M S A) (f : A -> M S B) :
  (forall b l l', Q b l -> Q b (l' ++ l)) -> (forall a, leaves Q (f a)) -> leaves Q (m ≫= f).
Proof.
  intros Hmono Hf. eapply leaves_bind; [apply leaves_any|]. intros a l _ W env s w b o Hb.
  apply Hmono. by apply (Hf a W env s w b).
Qed.

(** A request that answers an error or a value. *)
Lemma leaves_call {S A} (q : req) (to : resp q -> res A) :
  leaves (fun a l => exists r, to r = Ok a /\ l = [ev q r]) (ask (S := S) q ≫= fun r => lift (to r)).
Proof.
  intros W env s w a. rewrite exec_bind, exec_ask. cbn [out_res out_st out_world out_log].
  rewrite exec_lift. unfold prepend. cbn. intros Hr. by exists (env q w).1.
Qed.

Lemma leaves_conseq {S A} (R Q : A -> list event -> Prop) (m : M S A) :
  leaves R m -> (forall a l, R a l -> Q a l) -> leaves Q m.
Proof. intros Hm HQ W env s w a o Hr. by apply HQ, Hm. Qed.

(** As a triple, for a property of the memory that the computation keeps. *)
Lemma hoare_leaves {W} (env : environment W) {S A} (P : S -> Prop) (Q : A -> list event -> Prop) (m : M S A) :
  leaves Q m -> preserves (fun s s' => P s -> P s') m ->
  hoare env P m (fun r s l => P s /\ match r with Ok a => Q a l | _ => True end).
Proof.
  intros Hm Hp s w Hs. specialize (Hp W env s w). cbv zeta in *. cbn in Hp. split; [by apply Hp|].
  specialize (Hm W env s w). cbv zeta in Hm. destruct (out_res _); [by apply Hm|done..].
Qed.

(** The computation succeeds, changes nothing, and only makes requests in [L]. *)
Definition succeeds {W S A} (env : environment W) (w : W) (L : event -> Prop) (P : A -> Prop)
    (m : M S A) : Prop :=
  forall s, exists a l, exec env m s w = Outcome (Ok a) s w l /\ P a /\ Forall L l.

Lemma succeeds_ret {W S A} (env : environment W) w L (P : A -> Prop) a :
  P a -> succeeds (S := S) env w L P (mret a).
Proof. intros Ha s. exists a, []. rewrite exec_ret. auto. Qed.

Lemma succeeds_lift {W S A} (env : environment W) w L (P : A -> Prop) r a :
  r = Ok a -> P a -> succeeds (S := S) env w L P (lift r).
Proof. intros -> Ha s. exists a, []. rewrite exec_lift. auto. Qed.

Lemma succeeds_bind {W S A B} (env : environment W) w L (P : A -> Prop) (Q : B -> Prop)
    (m : M S A) (f : A -> M S B) :
  succeeds env w L P m -> (forall a, P a -> succeeds env w L Q (f a)) ->
  succeeds env w L Q (m ≫= f).
Proof.
  intros Hm Hf s. destruct (Hm s) as (a & l & H1 & Ha & Hl).
  destruct (Hf a Ha s) as (b & l' & H2 & Hb & Hl').
  exists b, (l ++ l'). rewrite exec_bind, H1. cbn. rewrite H2. unfold prepend. cbn.
  split_and!; [done..|]. by apply Forall_app.
Qed.

Lemma succeeds_weaken {W S A} (env : environment W) w L (P Q : A -> Prop) (m : M S A) :
  succeeds env w L P m -> (forall a, P a -> Q a) -> succeeds env w L Q m.
Proof. intros Hm Hpq s. destruct (Hm s) as (a & l & ? & ? & ?). exists a, l. auto. Qed.
