(* ===== verification/ApiServer.v ===== *)
(** * The API server as the operator relies on it

    The server is not part of the repository: [ApiServer] states, as the laws of
    an environment, the documented behaviour the convergence theorems use.  The
    [fake_env] below is one environment that satisfies them; the witnesses run
    the programs against it. *)

From stdpp Require Import base gmap strings list fin_maps.
From Stdlib Require Import ZArith Eqdep_dec.
From S2P Require Import Prelude K8s ApiTypes Client.

(** ** A healthy server

    [stored w k key] is the object the server holds, and [accepts] its admission: whether
    it stores an object in the place of the stored one, if any (a field that must not
    change, a name or a label that is too long are reasons to refuse).  The laws are the
    documented behaviour of the API for a single client: a get reads; a create that is
    accepted stores the new object; the merge patch from the stored object to a new one,
    if accepted, gives it the labels and annotations of the new one; a write touches one
    object; a call never panics.  An empty label map is left out of what is stored. *)
Definition omit_empty (labels : option strmap) : option strmap :=
  if decide (labels = Some ∅) then None else labels.

Class ApiServer {W : Type} (env : environment W) := {
  stored : W -> forall k : kind, NamespacedName -> option (obj k);
  accepts : forall k : kind, option (obj k) -> obj k -> bool;
  server_get w k key :
    env (QGet k key) w =
      (match stored w k key with
       | Some o => Ok o
       | None => Err (ErrNotFound "not found")
       end, w);
  server_create w (o : object) :
    stored w (o_kind o) (object_key o) = None -> accepts (o_kind o) None (o_val o) = true ->
    exists w' o', env (QCreate o) w = (Ok tt, w')
      /\ stored w' (o_kind o) (object_key o) = Some o'
      /\ om_Labels (obj_meta o') = omit_empty (om_Labels (meta_of_object o))
      /\ om_Annotations (obj_meta o') = om_Annotations (meta_of_object o)
      /\ forall k key, (k, key) <> (o_kind o, object_key o) -> stored w' k key = stored w k key;
  server_patch w (o : object) (old : obj (o_kind o)) :
    stored w (o_kind o) (object_key o) = Some old -> accepts (o_kind o) (Some old) (o_val o) = true ->
    exists w' o', env (QPatch o (Object (o_kind o) old)) w = (Ok tt, w')
      /\ stored w' (o_kind o) (object_key o) = Some o'
      /\ om_Labels (obj_meta o') = omit_empty (om_Labels (meta_of_object o))
      /\ om_Annotations (obj_meta o') = om_Annotations (meta_of_object o)
      /\ forall k key, (k, key) <> (o_kind o, object_key o) -> stored w' k key = stored w k key;
  server_status_answers w (o : object) : (env (QStatusUpdate o) w).1 <> Panic }.

(** ** A concrete server: the list of its objects, the latest version first *)

Definition cast {k k' : kind} (e : k = k') (o : obj k) : obj k' := eq_rect k obj o k' e.

Fixpoint find_obj (w : list object) (k : kind) (key : NamespacedName) : option (obj k) :=
  match w with
  | [] => None
  | o :: w =>
      match decide (o_kind o = k) with
      | left e => if decide (object_key o = key) then Some (cast e (o_val o)) else find_obj w k key
      | right _ => find_obj w k key
      end
  end.

(** Whether an object is the one of the kind and key. *)
Definition same_object (k : kind) (key : NamespacedName) (o : object) : bool :=
  bool_decide (o_kind o = k) && bool_decide (object_key o = key).

(** The objects of a kind in a namespace that a selector matches. *)
Fixpoint list_obj (w : list object) (k : kind) (ns : string) (sel : LabelSelector)
    : list (obj k) :=
  match w with
  | [] => []
  | o :: w =>
      let rest := list_obj w k ns sel in
      match decide (o_kind o = k) with
      | left e =>
          if bool_decide (om_Namespace (meta_of_object o) = ns)
             && selector_matches sel (labels_of (meta_of_object o))
          then cast e (o_val o) :: rest else rest
      | right _ => rest
      end
  end.

Definition remove_obj (o : object) (w : list object) : list object :=
  filter (fun x => same_object (o_kind o) (object_key o) x = false) w.

(** An object being deleted exists as long as it has finalizers. *)
Definition gone (m : ObjectMeta) : bool :=
  not_nil (om_DeletionTimestamp m) && bool_decide (om_Finalizers m = []).

(** The copy that is stored has no empty label map. *)
Definition stored_meta (m : ObjectMeta) : ObjectMeta :=
  mkObjectMeta (om_Name m) (om_Namespace m) (omit_empty (om_Labels m)) (om_Annotations m) (om_Finalizers m)
    (om_OwnerReferences m) (om_Generation m) (om_ResourceVersion m) (om_DeletionTimestamp m).
Definition stored_copy (o : object) : object := Object (o_kind o) (with_meta stored_meta (o_val o)).

Definition fake_env : environment (list object) := fun q =>
  match q as q return list object -> resp q * list object with
  | QNewClient => fun w => (Ok tt, w)
  | QGet k key => fun w =>
      (match find_obj w k key with
       | Some o => Ok o
       | None => Err (ErrNotFound "not found")
       end, w)
  | QList k ns sel => fun w => (Ok (list_obj w k ns sel), w)
  | QCreate o => fun w => (Ok tt, stored_copy o :: w)
  | QUpdate k o => fun w => (Ok o, if gone (obj_meta o) then remove_obj (Object k o) w else Object k o :: w)
  | QPatch o _ => fun w => (Ok tt, stored_copy o :: w)
  | QDelete o => fun w => (Ok tt, remove_obj o w)
  | QStatusUpdate o => fun w => (Ok tt, o :: w)
  | QPost _ => fun w => (Ok 200%Z, w)
  | QPostBody _ _ body => fun w => (mkPostAnswer (String.length body) (Ok (200%Z, Ok "")), w)
  | QBoundary => fun w => ("b0", w)
  | QSQLOpen _ => fun w => (Ok tt, w)
  | QSQLQuery _ _ _ => fun w => (Ok [], w)
  | QListPods _ _ _ => fun w => (Ok [], w)
  | QListEvents _ _ => fun w => (Ok [], w)
  | QObserve _ _ _ => fun w => (tt, w)
  | QEvent _ _ => fun w => (tt, w)
  | QEtcdStatus _ => fun w => (Ok [], w)
  | QNow => fun w => (0%Z, w)
  end.

(** ** Lemmas *)

Lemma cast_refl {k : kind} (e : k = k) (o : obj k) : cast e o = o.
Proof. unfold cast. symmetry. apply (eq_rect_eq_dec kind_eq_dec). Qed.

Lemma find_obj_eq o w : find_obj (o :: w) (o_kind o) (object_key o) = Some (o_val o).
Proof.
  cbn. destruct (decide (o_kind o = o_kind o)) as [e|]; [|done].
  rewrite decide_True by done. unfold cast. f_equal. symmetry.
  apply (eq_rect_eq_dec kind_eq_dec).
Qed.

Lemma find_obj_ne o w k key :
  (k, key) <> (o_kind o, object_key o) -> find_obj (o :: w) k key = find_obj w k key.
Proof.
  intros Hne. cbn. destruct (decide (o_kind o = k)) as [<-|]; [|done].
  rewrite decide_False; [done|]. intros <-. done.
Qed.

Lemma find_obj_key w k key (o : obj k) : find_obj w k key = Some o -> key_of (obj_meta o) = key.
Proof.
  induction w as [|x w IH]; [done|]. cbn. destruct (decide (o_kind x = k)) as [<-|]; [|done].
  case_decide as Hk; [|done]. rewrite cast_refl. by intros [= <-].
Qed.

(** What holds of the objects of a list holds of the one that is found. *)
Lemma find_obj_all (P : forall k, obj k -> Prop) w k key o :
  Forall (fun o => P (o_kind o) (o_val o)) w -> find_obj w k key = Some o -> P k o.
Proof.
  induction 1 as [|x w Hx _ IH]; [done|]. cbn. destruct (decide (o_kind x = k)) as [<-|]; [|done].
  case_decide; [|done]. rewrite cast_refl. by intros [= <-].
Qed.

Lemma find_obj_removed o w : find_obj (remove_obj o w) (o_kind o) (object_key o) = None.
Proof.
  induction w as [|x w IH]; [done|]. unfold remove_obj. rewrite filter_cons. case_decide as Hx; [|done].
  cbn. destruct (decide (o_kind x = o_kind o)) as [e|]; [|done]. rewrite decide_False; [done|].
  intros Hk. unfold same_object in Hx. rewrite e, Hk, !bool_decide_eq_true_2 in Hx by done. done.
Qed.

Lemma find_obj_kept o w k key :
  (k, key) <> (o_kind o, object_key o) -> find_obj (remove_obj o w) k key = find_obj w k key.
Proof.
  intros Hne. induction w as [|x w IH]; [done|]. unfold remove_obj. rewrite filter_cons. case_decide as Hx.
  - cbn. rewrite <- IH. done.
  - unfold same_object in Hx. apply not_false_iff_true, andb_true_iff in Hx as [Hk Ho].
    apply bool_decide_eq_true in Hk. apply bool_decide_eq_true in Ho.
    rewrite <- Hk, <- Ho in Hne. destruct x as [kx ox]. rewrite find_obj_ne by done. exact IH.
Qed.

Lemma meta_of_stored_copy o : meta_of_object (stored_copy o) = stored_meta (meta_of_object o).
Proof. apply obj_meta_with_meta. Qed.

Lemma stored_copy_key o : object_key (stored_copy o) = object_key o.
Proof. unfold object_key. by rewrite meta_of_stored_copy. Qed.

(** What a write stores, and what it leaves alone. *)
Lemma find_stored_copy o w :
  let w' := stored_copy o :: w in
  exists o', find_obj w' (o_kind o) (object_key o) = Some o'
    /\ om_Labels (obj_meta o') = omit_empty (om_Labels (meta_of_object o))
    /\ om_Annotations (obj_meta o') = om_Annotations (meta_of_object o)
    /\ forall k key, (k, key) <> (o_kind o, object_key o) -> find_obj w' k key = find_obj w k key.
Proof.
  exists (o_val (stored_copy o)). rewrite <- (stored_copy_key o).
  change (obj_meta (o_val (stored_copy o))) with (meta_of_object (stored_copy o)).
  rewrite meta_of_stored_copy. split; [apply (find_obj_eq (stored_copy o))|]. split; [done|]. split; [done|].
  intros k key. apply (find_obj_ne (stored_copy o)).
Qed.

#[export] Program Instance fake_ApiServer : ApiServer fake_env := {|
  stored w k key := find_obj w k key; accepts _ _ _ := true |}.
Next Obligation. done. Qed.
Next Obligation. intros w o _ _. exists (stored_copy o :: w). destruct (find_stored_copy o w) as (o' & ?). by exists o'. Qed.
Next Obligation. intros w o old _ _. exists (stored_copy o :: w). destruct (find_stored_copy o w) as (o' & ?). by exists o'. Qed.
Next Obligation. done. Qed.

(** Reading from a healthy server. *)
Lemma exec_Get_stored {W} (env : environment W) `{!ApiServer env} {S} k key (s : S) w :
  exists l, exec env (Get k key) s w =
    Outcome (match stored w k key with
             | Some o => Ok o
             | None => Err (ErrNotFound "not found")
             end) s w l.
Proof. rewrite exec_Get, server_get. cbn. eauto. Qed.
