(* ===== verification/K8sUtil.v ===== *)
(** * pkg/util/k8s/k8s.go: helpers on API objects

    Object creation, the comparison of the last applied spec, the readiness of
    workloads, and the reading of secrets. *)

From stdpp Require Import base gmap strings list fin_maps.
From Stdlib Require Import ZArith.
From S2P Require Import Prelude K8s ApiTypes Client.

(** encoding/json: the values [Unmarshal] decodes to (compared by
    [reflect.DeepEqual]) and the text [Marshal] gives an object's spec. *)
Class JsonLib := {
  json : Type;
  json_eq_dec :: EqDecision json;
  json_Unmarshal : string -> res json;
  json_MarshalSpec : object -> res string }.

(** A JSON library whose texts are their own values, for the witnesses. *)
Definition text_json : JsonLib := {|
  json := string;
  json_eq_dec := String.eq_dec;
  json_Unmarshal s := Ok s;
  json_MarshalSpec _ := Ok "spec" |}.

Definition LastAppliedResourceSpec : string := "controller.greptime.io/last-applied-resource-spec".

(** [CreateObjectIfNotExist] returns the existing object, or [nil] when it
    created the new one. *)
Definition CreateObjectIfNotExist {S} (k : kind) (newObject : obj k) : M S (option (obj k)) :=
  err ← try (Get k (key_of (obj_meta newObject)));
  match err with
  | Err e => if IsNotFound e
             then Create (Object k newObject) ≫= fun _ => mret None
             else lift (Err e)
  | Ok source => mret (Some source)
  | Panic => lift Panic
  end.

Section compare.
Context `{JsonLib}.

Definition IsObjectSpecEqual (oldObject newObject : ObjectMeta) (annotationKey : string)
    : res bool :=
  match om_Annotations oldObject !! annotationKey with
  | None => Err (Errorf "the old object does not have annotation")
  | Some oldObjectSpecStr =>
      match om_Annotations newObject !! annotationKey with
      | None => Err (Errorf "the new object does not have annotation")
      | Some newObjectSpecStr =>
          oldObjectSpec ← json_Unmarshal oldObjectSpecStr;
          newObjectSpec ← json_Unmarshal newObjectSpecStr;
          Ok (bool_decide (oldObjectSpec = newObjectSpec))
      end
  end.
End compare.

(** [reflect.DeepEqual]: a nil map is not equal to an empty one. *)
Definition IsObjectLabelsEqual (oldObjectLabels newObjectLabels : option strmap) : bool :=
  bool_decide (oldObjectLabels = newObjectLabels).

(** [*Spec.Replicas] is read only after the reason matched. *)
Fixpoint deployment_conditions_ready (d : Deployment) (conds : list DeploymentCondition)
    : res bool :=
  match conds with
  | [] => Ok false
  | cond :: conds =>
      if String.eqb (dc_Type cond) "Progressing"
         && String.eqb (dc_Reason cond) "NewReplicaSetAvailable"
      then replicas ← deref (ds_Replicas (dep_Spec d));
           if Z.eqb (dt_ReadyReplicas (dep_Status d)) replicas then Ok true
           else deployment_conditions_ready d conds
      else deployment_conditions_ready d conds
  end.

Definition IsDeploymentReady (deployment : option Deployment) : res bool :=
  match deployment with
  | None => Ok false
  | Some d =>
      if negb (Z.eqb (dt_ObservedGeneration (dep_Status d)) (om_Generation (dep_ObjectMeta d)))
      then Ok false
      else deployment_conditions_ready d (dt_Conditions (dep_Status d))
  end.

Definition IsStatefulSetReady (sts : option StatefulSet) : res bool :=
  match sts with
  | None => Ok false
  | Some s =>
      if negb (Z.eqb (st_ObservedGeneration (sts_Status s)) (om_Generation (sts_ObjectMeta s)))
      then Ok false
      else
        replicas ← deref (ss_Replicas (sts_Spec s));
        Ok (Z.eqb (st_ReadyReplicas (sts_Status s)) replicas
            && Z.eqb (st_CurrentReplicas (sts_Status s)) replicas)
  end.

(** [GetK8sResource] builds a client of its own. *)
Definition GetK8sResource {S} (k : kind) (namespace name : string) : M S (obj k) :=
  _ ← (ask QNewClient ≫= lift); Get k (mkNamespacedName namespace name).

(** The values of the keys, in the order asked: a missing key and a nil value
    are both an error. *)
Definition GetSecretsData {S} (namespace name : string) (keys : list string)
    : M S (list string) :=
  secret ← GetK8sResource KSecret namespace name;
  match sec_Data secret with
  | None => lift (Err (Errorf "secret is empty"))
  | Some data =>
      lift (map_res (fun key => match data !! key with
                                | Some (Some value) => Ok value
                                | _ => Err (Errorf "secret does not have key")
                                end) keys)
  end.

(** ** Lemmas *)

Lemma IsObjectSpecEqual_self `{JsonLib} m a s j :
  om_Annotations m !! a = Some s -> json_Unmarshal s = Ok j -> IsObjectSpecEqual m m a = Ok true.
Proof. intros Ha Hj. unfold IsObjectSpecEqual. rewrite Ha. cbn. rewrite Hj. cbn.
  by rewrite bool_decide_eq_true_2. Qed.

Lemma IsObjectSpecEqual_same_annotation `{JsonLib} old new a s j :
  om_Annotations old !! a = Some s -> om_Annotations new !! a = Some s ->
  json_Unmarshal s = Ok j -> IsObjectSpecEqual old new a = Ok true.
Proof.
  intros Ho Hn Hj. unfold IsObjectSpecEqual. rewrite Ho, Hn. cbn. rewrite Hj. cbn.
  by rewrite bool_decide_eq_true_2.
Qed.

Lemma CreateObjectIfNotExist_preserves {S} (R : S -> S -> Prop) `{!PreOrder R} k o :
  preserves R (CreateObjectIfNotExist k o).
Proof. unfold CreateObjectIfNotExist. solve_preserves. Qed.

(** ** Properties *)

(** A StatefulSet is reported ready exactly when its controller has observed the
    current generation and all the replicas asked for are ready and current. *)
Theorem IsStatefulSetReady_spec s n :
  ss_Replicas (sts_Spec s) = Some n ->
  IsStatefulSetReady (Some s) = Ok true <->
    st_ObservedGeneration (sts_Status s) = om_Generation (sts_ObjectMeta s)
    /\ st_ReadyReplicas (sts_Status s) = n /\ st_CurrentReplicas (sts_Status s) = n.
Proof.
  intros Hn. unfold IsStatefulSetReady. rewrite Hn. cbn.
  destruct (Z.eqb_spec (st_ObservedGeneration (sts_Status s)) (om_Generation (sts_ObjectMeta s)));
    cbn; [|naive_solver].
  destruct (Z.eqb_spec (st_ReadyReplicas (sts_Status s)) n), (Z.eqb_spec (st_CurrentReplicas (sts_Status s)) n);
    naive_solver.
Qed.

Lemma deployment_conditions_ready_iff d n conds :
  ds_Replicas (dep_Spec d) = Some n ->
  deployment_conditions_ready d conds = Ok true <->
    dt_ReadyReplicas (dep_Status d) = n
    /\ Exists (fun c => dc_Type c = "Progressing" /\ dc_Reason c = "NewReplicaSetAvailable") conds.
Proof.
  intros Hn. induction conds as [|c conds IH]; cbn.
  - split; [done|intros [_ H]; inversion H].
  - rewrite Exists_cons, Hn. cbn.
    destruct (String.eqb_spec (dc_Type c) "Progressing"), (String.eqb_spec (dc_Reason c) "NewReplicaSetAvailable");
      cbn; try (rewrite IH; naive_solver).
    destruct (Z.eqb_spec (dt_ReadyReplicas (dep_Status d)) n); [naive_solver|].
    rewrite IH. naive_solver.
Qed.

(** A Deployment is reported ready exactly when its controller has observed the
    current generation, a [Progressing] condition reports the new replica set
    available, and all the replicas asked for are ready. *)
Theorem IsDeploymentReady_spec d n :
  ds_Replicas (dep_Spec d) = Some n ->
  IsDeploymentReady (Some d) = Ok true <->
    dt_ObservedGeneration (dep_Status d) = om_Generation (dep_ObjectMeta d)
    /\ dt_ReadyReplicas (dep_Status d) = n
    /\ Exists (fun c => dc_Type c = "Progressing" /\ dc_Reason c = "NewReplicaSetAvailable")
         (dt_Conditions (dep_Status d)).
Proof.
  intros Hn. unfold IsDeploymentReady.
  destruct (Z.eqb_spec (dt_ObservedGeneration (dep_Status d)) (om_Generation (dep_ObjectMeta d)));
    cbn; [|naive_solver].
  rewrite (deployment_conditions_ready_iff d n) by done. naive_solver.
Qed.

Lemma IsStatefulSetReady_spec_witness :
  IsStatefulSetReady (Some (ready_StatefulSet "default" "c-datanode" 3)) = Ok true
  <-> (0 = 0 /\ 3 = 3 /\ 3 = 3)%Z.
Proof.
  apply (IsStatefulSetReady_spec (ready_StatefulSet "default" "c-datanode" 3) 3). reflexivity.
Defined.

Lemma IsDeploymentReady_spec_witness :
  IsDeploymentReady (Some (ready_Deployment "default" "c-meta" 2)) = Ok true
  <-> (0 = 0 /\ 2 = 2)%Z
      /\ Exists (fun c => dc_Type c = "Progressing" /\ dc_Reason c = "NewReplicaSetAvailable")
           [mkDeploymentCondition "Progressing" "NewReplicaSetAvailable"].
Proof.
  pose proof (IsDeploymentReady_spec (ready_Deployment "default" "c-meta" 2) 2 eq_refl) as H.
  rewrite H. cbn. split; [intros (?&?&?)|intros ((?&?)&?)]; split_and!; done.
Defined.
