(* ===== verification/Deployer.v ===== *)
(** * pkg/deployer: the synchronisation framework

    deployer.go: the [ComponentOperator] interface a component implements, the
    template method [DefaultDeployer.Sync] that drives it, and
    [DefaultDeployer.Apply], which creates the generated objects or patches
    those whose last applied spec or labels differ. *)

From stdpp Require Import base gmap strings list fin_maps.
From Stdlib Require Import ZArith.
From S2P Require Import Prelude GoLib K8s ApiTypes Client ApiServer K8sUtil.

(** ** The operations of a component *)

Record ComponentOperator (S : Type) := mkComponentOperator {
  co_Generate : M S (list object);
  co_Apply : list object -> M S unit;
  co_CleanUp : M S unit;
  co_CheckAndUpdateStatus : M S bool;
  co_PreSyncHooks : list (M S unit);
  co_PostSyncHooks : list (M S unit) }.
Global Arguments mkComponentOperator {S}.
Global Arguments co_Generate {S} c.
Global Arguments co_Apply {S} c.
Global Arguments co_CleanUp {S} c.
Global Arguments co_CheckAndUpdateStatus {S} c.
Global Arguments co_PreSyncHooks {S} c.
Global Arguments co_PostSyncHooks {S} c.

(** ** DefaultDeployer *)

Definition onPrevSync {S} (operator : ComponentOperator S) : M S unit :=
  range (fun hook => hook) (co_PreSyncHooks operator).

Definition onPostSync {S} (operator : ComponentOperator S) : M S unit :=
  range (fun hook => hook) (co_PostSyncHooks operator).

Definition Sync {S} (operator : ComponentOperator S) : M S unit :=
  objects ← co_Generate operator;
  if decide (length objects = 0) then mret tt
  else
    _ ← onPrevSync operator;
    _ ← co_Apply operator objects;
    ready ← co_CheckAndUpdateStatus operator;
    if negb ready then lift (Err ErrSyncNotReady)
    else onPostSync operator.

(** [newObject.SetResourceVersion(v)] *)
Definition set_ResourceVersion (v : string) (m : ObjectMeta) : ObjectMeta :=
  mkObjectMeta (om_Name m) (om_Namespace m) (om_Labels m) (om_Annotations m) (om_Finalizers m)
    (om_OwnerReferences m) (om_Generation m) v (om_DeletionTimestamp m).

(** The body of the loop of [DefaultDeployer.Apply]: whether the object was
    patched. *)
Definition apply_object `{JsonLib} {S} (newObject : object) : M S bool :=
  oldObject ← CreateObjectIfNotExist (o_kind newObject) (o_val newObject);
  match oldObject with
  | None => mret false
  | Some old =>
      specEqual ← lift (IsObjectSpecEqual (obj_meta old) (meta_of_object newObject)
                          LastAppliedResourceSpec);
      let labelsEqual := IsObjectLabelsEqual (om_Labels (obj_meta old))
                           (om_Labels (meta_of_object newObject)) in
      if negb specEqual || negb labelsEqual then
        let patched := Object (o_kind newObject)
          (with_meta (set_ResourceVersion (om_ResourceVersion (obj_meta old))) (o_val newObject)) in
        _ ← Patch patched (Object (o_kind newObject) old);
        mret true
      else mret false
  end.

(** The loop over the objects, carrying [updateObject]. *)
Fixpoint apply_loop {S} (body : object -> M S bool) (updateObject : bool) (objects : list object)
    : M S bool :=
  match objects with
  | [] => mret updateObject
  | newObject :: objects =>
      patched ← body newObject;
      apply_loop body (updateObject || patched) objects
  end.

Definition apply_with {S} (body : object -> M S bool) (objects : list object) : M S unit :=
  updateObject ← apply_loop body false objects;
  if (updateObject : bool) then lift (Err ErrSyncNotReady) else mret tt.

Definition DefaultDeployer_Apply `{JsonLib} {S} (objects : list object) : M S unit :=
  apply_with apply_object objects.

(** The other methods of [DefaultDeployer]. *)
Definition DefaultDeployer_Generate {S} : M S (list object) := mret [].
Definition DefaultDeployer_CleanUp {S} : M S unit := mret tt.
Definition DefaultDeployer_CheckAndUpdateStatus {S} : M S bool := mret false.
Definition DefaultDeployer_Hooks {S} : list (M S unit) := [].

(** ** What an up-to-date store is *)

(** The stored copy of an object is up to date. *)
Definition in_sync `{JsonLib} {W} (env : environment W) `{!ApiServer env} (w : W) (o : object)
    : Prop :=
  exists old, stored w (o_kind o) (object_key o) = Some old
    /\ IsObjectSpecEqual (obj_meta old) (meta_of_object o) LastAppliedResourceSpec = Ok true
    /\ om_Labels (obj_meta old) = om_Labels (meta_of_object o).

(** The stored copy, if any, carries a readable last-applied annotation. *)
Definition comparable `{JsonLib} {W} (env : environment W) `{!ApiServer env} (w : W) (o : object)
    : Prop :=
  forall old, stored w (o_kind o) (object_key o) = Some old ->
    exists b, IsObjectSpecEqual (obj_meta old) (meta_of_object o) LastAppliedResourceSpec = Ok b.

(** The server accepts the object, and the copy of it that [Apply] patches with. *)
Definition with_version_of {k : kind} (old o : obj k) : obj k :=
  with_meta (set_ResourceVersion (om_ResourceVersion (obj_meta old))) o.
Definition writable {W} (env : environment W) `{!ApiServer env} (w : W) (o : object) : Prop :=
  match stored w (o_kind o) (object_key o) with
  | None => accepts (o_kind o) None (o_val o) = true
  | Some old => accepts (o_kind o) (Some old) (o_val o) = true
                /\ accepts (o_kind o) (Some old) (with_version_of old (o_val o)) = true
  end.

(** An empty label map, which a stored copy never has, would always look different. *)
Definition labels_settle (o : object) : Prop := om_Labels (meta_of_object o) <> Some ∅.

(** The server can bring the object up to date. *)
Definition appliable `{JsonLib} {W} (env : environment W) `{!ApiServer env} (w : W) (o : object)
    : Prop :=
  comparable env w o /\ writable env w o /\ labels_settle o.

(** The object carries a readable last-applied annotation, as
    [SetControllerAndAnnotation] gives it. *)
Definition annotated `{JsonLib} (o : object) : Prop :=
  exists s j, om_Annotations (meta_of_object o) !! LastAppliedResourceSpec = Some s
    /\ json_Unmarshal s = Ok j.

(** Requests that change nothing at the server. *)
Definition read_only (e : event) : Prop :=
  match projT1 e with QGet _ _ | QList _ _ _ | QNow => True | _ => False end.

Definition is_patch (e : event) : Prop :=
  match projT1 e with QPatch _ _ => True | _ => False end.

(** A patch is justified by a difference between the old and the new object. *)
Definition justified `{JsonLib} (e : event) : Prop :=
  match projT1 e with
  | QPatch o old =>
      IsObjectSpecEqual (meta_of_object old) (meta_of_object o) LastAppliedResourceSpec = Ok false
      \/ om_Labels (meta_of_object old) <> om_Labels (meta_of_object o)
  | _ => True
  end.

(** A config map as the builder annotates it. *)
Definition annotated_cm (spec data : string) : object :=
  Object KConfigMap (mkConfigMap
    (meta_of "default" "c-meta" None {[ LastAppliedResourceSpec := spec ]}) {[ "config.toml" := data ]}).

(** A component that is ready and has one post-sync hook, a POST. *)
Definition posting_operator : ComponentOperator unit :=
  mkComponentOperator (mret [annotated_cm "spec" "data"]) (fun _ => mret tt) (mret tt) (mret true)
    [] [ask (QPost "http://c-meta/done") ≫= fun _ => mret tt].

Definition is_post (e : event) : Prop :=
  match projT1 e with QPost _ => True | _ => False end.

(** Only the object may have changed at the server. *)
Definition untouched {W} (env : environment W) `{!ApiServer env} (w w' : W) (o : object) : Prop :=
  forall k key, (k, key) <> (o_kind o, object_key o) -> stored w' k key = stored w k key.

(** What a body of the loop promises to the loop: an object that is up to date is only
    read; another one, if it [can] be written, is brought up to date, in a state that
    [R] allows, and no other object is touched. *)
Class Converging `{JsonLib} {W} (env : environment W) `{!ApiServer env} {S} (R : S -> S -> Prop)
    (can : S -> W -> object -> Prop) (body : object -> M S bool) := {
  converging_read s w o :
    in_sync env w o ->
    exists log, exec env (body o) s w = Outcome (Ok false) s w log /\ Forall read_only log;
  converging_write s w o :
    annotated o -> appliable env w o -> can s w o ->
    exists b s' w' log, exec env (body o) s w = Outcome (Ok b) s' w' log
      /\ R s s' /\ in_sync env w' o /\ untouched env w w' o;
  converging_can s s' w w' o :
    R s s' -> stored w' (o_kind o) (object_key o) = stored w (o_kind o) (object_key o) ->
    can s w o -> can s' w' o }.

(** ** Lemmas *)

Lemma with_meta_key k rv (o : obj k) :
  key_of (obj_meta (with_meta (set_ResourceVersion rv) o)) = key_of (obj_meta o)
  /\ om_Labels (obj_meta (with_meta (set_ResourceVersion rv) o)) = om_Labels (obj_meta o)
  /\ om_Annotations (obj_meta (with_meta (set_ResourceVersion rv) o)) = om_Annotations (obj_meta o).
Proof. by rewrite obj_meta_with_meta. Qed.

Section exec_deployer.
Context {W : Type} (env : environment W).

(** What [CreateObjectIfNotExist] does on each answer of the server. *)
Lemma exec_CreateObjectIfNotExist {S} k (o : obj k) (s : S) w :
  let key := key_of (obj_meta o) in
  let '(r, w1) := env (QGet k key) w in
  exec env (CreateObjectIfNotExist k o) s w =
    match r with
    | Ok src => Outcome (Ok (Some src)) s w1 [ev (QGet k key) r]
    | Err e =>
        if IsNotFound e then
          let '(c, w2) := env (QCreate (Object k o)) w1 in
          let log := [ev (QGet k key) r; ev (QCreate (Object k o)) c] in
          match c with
          | Ok _ => Outcome (Ok None) s w2 log
          | Err e' => Outcome (Err e') s w2 log
          | Panic => Outcome Panic s w2 log
          end
        else Outcome (Err e) s w1 [ev (QGet k key) r]
    | Panic => Outcome Panic s w1 [ev (QGet k key) r]
    end.
Proof.
  unfold CreateObjectIfNotExist.
  destruct (env (QGet k (key_of (obj_meta o))) w) as [r w1] eqn:E.
  rewrite exec_bind, exec_try, exec_Get, E. cbn.
  destruct r as [src|e|]; cbn; [done| |done].
  destruct (IsNotFound e); cbn; [|done].
  rewrite exec_bind, exec_Create.
  destruct (env (QCreate (Object k o)) w1) as [[[]|e'|] w2]; done.
Qed.

(** What the loop body does on each answer. *)
Lemma apply_object_justified `{JsonLib} {S} o (s : S) w :
  let out := exec env (apply_object o) s w in
  Forall justified (out_log out)
  /\ (out_res out = Ok false -> Forall (fun e => ~ is_patch e) (out_log out)).
Proof.
  unfold apply_object. rewrite exec_bind.
  pose proof (exec_CreateObjectIfNotExist (o_kind o) (o_val o) s w) as Hc. cbv zeta in Hc.
  destruct (env (QGet _ _) w) as [r w1]. rewrite Hc. clear Hc.
  destruct r as [old|e|]; cbn; [|destruct (IsNotFound e); [destruct (env (QCreate _) w1) as [[[]|e'|] w2]|]|];
    cbn; try (split; [repeat constructor|]; intros; repeat constructor; by intros []).
  rewrite exec_bind, exec_lift. cbn.
  destruct (IsObjectSpecEqual _ _ _) as [specEqual|e|] eqn:Hspec; cbn;
    try (split; [repeat constructor|]; intros; repeat constructor; by intros []).
  set (labelsEqual := IsObjectLabelsEqual _ _).
  destruct (negb specEqual || negb labelsEqual) eqn:Hdiff; cbn.
  - rewrite exec_bind, exec_Patch. cbn.
    destruct (env (QPatch _ _) w1) as [[[]|e|] w2]; cbn; (split; [|done]).
    all: apply Forall_cons; split; [exact I|apply Forall_cons; split; [|constructor]].
    all: unfold justified; cbn.
    all: destruct (with_meta_key (o_kind o) (om_ResourceVersion (obj_meta old)) (o_val o))
      as (_ & Hl & Ha).
    all: unfold meta_of_object in *; cbn in *; rewrite Hl.
    all: unfold IsObjectSpecEqual in *; rewrite Ha.
    all: destruct specEqual; cbn in Hdiff; [right|left; done].
    all: apply negb_true_iff in Hdiff; by apply bool_decide_eq_false in Hdiff.
  - split; [repeat constructor|]. intros _. repeat constructor. by intros [].
Qed.

Lemma apply_loop_inv {S} (body : object -> M S bool) (P : event -> Prop) :
  (forall o s w, Forall P (out_log (exec env (body o) s w))) ->
  forall objects b s w, Forall P (out_log (exec env (apply_loop body b objects) s w)).
Proof.
  intros Hbody. induction objects as [|o objects IH]; intros b s w; cbn; [constructor|].
  rewrite exec_bind. specialize (Hbody o s w). cbv zeta.
  destruct (exec env (body o) s w) as [[p|e|] s' w' l]; cbn in *; [|done..].
  apply Forall_app; split; [done|apply IH].
Qed.

Lemma apply_loop_false {S} (body : object -> M S bool) :
  (forall o s w, out_res (exec env (body o) s w) = Ok false ->
     Forall (fun e => ~ is_patch e) (out_log (exec env (body o) s w))) ->
  forall objects b s w,
    out_res (exec env (apply_loop body b objects) s w) = Ok false ->
    b = false /\ Forall (fun e => ~ is_patch e) (out_log (exec env (apply_loop body b objects) s w)).
Proof.
  intros Hbody. induction objects as [|o objects IH]; intros b s w; cbn.
  - intros [= ->]. split; constructor.
  - rewrite exec_bind. specialize (Hbody o s w). cbv zeta.
    destruct (exec env (body o) s w) as [[p|e|] s' w' l]; cbn in *; [|done..].
    intros Hr. destruct (IH _ _ _ Hr) as [Hb Hl].
    apply orb_false_iff in Hb as [-> ->]. split; [done|].
    apply Forall_app. split; [by apply Hbody|done].
Qed.
End exec_deployer.

(** ** Convergence against a healthy server *)

Section healthy.
Context `{JsonLib} {W : Type} (env : environment W) `{!ApiServer env}.

Lemma in_sync_untouched w w' o o' :
  (o_kind o, object_key o) <> (o_kind o', object_key o') ->
  untouched env w w' o' -> in_sync env w o -> in_sync env w' o.
Proof. intros Hne Hu (old & Hs & ?). exists old. by rewrite Hu. Qed.

Lemma appliable_untouched w w' o o' :
  (o_kind o, object_key o) <> (o_kind o', object_key o') ->
  untouched env w w' o' -> appliable env w o -> appliable env w' o.
Proof.
  unfold appliable, comparable, writable. intros Hne Hu (Hc & Hw & Hl).
  rewrite Hu by done. split; [|done]. intros old. rewrite Hu by done. apply Hc.
Qed.

(** A stored copy with the new labels and annotations is up to date. *)
Lemma in_sync_written w o o' :
  annotated o -> om_Labels (meta_of_object o) <> Some ∅ -> stored w (o_kind o) (object_key o) = Some o' ->
  om_Labels (obj_meta o') = omit_empty (om_Labels (meta_of_object o)) ->
  om_Annotations (obj_meta o') = om_Annotations (meta_of_object o) -> in_sync env w o.
Proof.
  intros (a & j & Ha & Hj) Hne Hs Hl Han. unfold omit_empty in Hl. rewrite decide_False in Hl by done.
  exists o'. split_and!; [done| |done].
  eapply IsObjectSpecEqual_same_annotation; [rewrite Han; exact Ha|exact Ha|exact Hj].
Qed.

Lemma exec_apply_in_sync {S} o (s : S) w :
  in_sync env w o ->
  exists log, exec env (apply_object o) s w = Outcome (Ok false) s w log /\ Forall read_only log.
Proof.
  intros (old & Hs & Heq & Hl). unfold apply_object. rewrite exec_bind.
  pose proof (exec_CreateObjectIfNotExist env (o_kind o) (o_val o) s w) as Hc. cbv zeta in Hc.
  unfold object_key, meta_of_object in *. rewrite server_get, Hs in Hc. rewrite Hc. cbn.
  rewrite exec_bind, exec_lift. cbn. unfold meta_of_object. rewrite Heq. cbn.
  unfold IsObjectLabelsEqual. rewrite Hl, bool_decide_eq_true_2 by done. cbn.
  rewrite exec_ret. eexists. split; [done|]. by repeat constructor.
Qed.

(** One iteration brings its object up to date and touches no other. *)
Lemma exec_apply_object {S} o (s : S) w :
  annotated o -> appliable env w o ->
  exists b w' log, exec env (apply_object o) s w = Outcome (Ok b) s w' log
    /\ in_sync env w' o /\ untouched env w w' o.
Proof.
  intros Hann (Hcmp & Hwr & Hne). unfold writable in Hwr.
  pose proof (exec_CreateObjectIfNotExist env (o_kind o) (o_val o) s w) as Hc. cbv zeta in Hc.
  change (key_of (obj_meta (o_val o))) with (object_key o) in Hc.
  rewrite server_get in Hc. unfold apply_object.
  destruct (stored w (o_kind o) (object_key o)) as [old|] eqn:Hs; cbn in Hc.
  - destruct (Hcmp old Hs) as [specEqual Heq]. rewrite exec_bind, Hc. cbn.
    rewrite exec_bind, exec_lift, Heq. cbn. clear Hc.
    set (labelsEqual := IsObjectLabelsEqual _ _).
    destruct (negb specEqual || negb labelsEqual) eqn:Hdiff; cbn.
    + set (patched := Object (o_kind o) _).
      destruct (with_meta_key (o_kind o) (om_ResourceVersion (obj_meta old)) (o_val o))
        as (Hk & Hl & Ha).
      assert (Hkey : object_key patched = object_key o) by exact Hk.
      destruct (server_patch w patched old) as (w' & o' & He & Hs' & Hl' & Ha' & Hu); [|apply Hwr|].
      { change (o_kind patched) with (o_kind o). by rewrite Hkey. }
      change (o_kind patched) with (o_kind o) in *. rewrite Hkey in *.
      rewrite exec_bind, exec_Patch, He. cbn. rewrite exec_ret. cbn.
      do 3 eexists. split; [reflexivity|]. split; [|exact Hu].
      eapply in_sync_written; [done|done|exact Hs'| |by rewrite Ha'].
      rewrite Hl'. unfold meta_of_object. cbn. by rewrite Hl.
    + rewrite exec_ret. cbn. do 3 eexists. split; [reflexivity|]. split; [|done].
      apply orb_false_iff in Hdiff as [H1 H2]. apply negb_false_iff in H1, H2. subst specEqual.
      exists old. split_and!; [done..|]. by apply bool_decide_eq_true in H2.
  - destruct (server_create w o Hs Hwr) as (w' & o' & He & Hs' & Hl' & Ha' & Hu).
    replace (Object (o_kind o) (o_val o)) with o in Hc by (by destruct o). rewrite He in Hc.
    rewrite exec_bind, Hc. cbn. rewrite exec_ret. cbn.
    do 3 eexists. split; [reflexivity|]. split; [|exact Hu].
    by eapply in_sync_written.
Qed.

#[export] Instance apply_object_converging {S} :
  Converging env (S := S) eq (fun _ _ _ => True) apply_object.
Proof.
  split; [intros s w o; apply exec_apply_in_sync| |done]. intros s w o Ha Hc _.
  destruct (exec_apply_object o s w Ha Hc) as (b & w' & log & H1 & H2). exists b, s, w', log. done.
Qed.

Section loop.
Context {S : Type} (R : S -> S -> Prop) `{!PreOrder R} (can : S -> W -> object -> Prop)
  (body : object -> M S bool) `{!Converging env R can body}.

Lemma exec_apply_loop_in_sync objects s w :
  Forall (in_sync env w) objects ->
  exists log, exec env (apply_loop body false objects) s w = Outcome (Ok false) s w log
    /\ Forall read_only log.
Proof.
  induction objects as [|o objects IH]; intros Hall; cbn; [by exists []|].
  apply Forall_cons in Hall as [Ho Hall].
  destruct (converging_read s w o Ho) as (l1 & H1 & Hr1).
  destruct (IH Hall) as (l2 & H2 & Hr2).
  rewrite exec_bind, H1. cbn. rewrite H2. eexists. split; [reflexivity|].
  by apply Forall_app.
Qed.

Lemma exec_apply_loop objects b s w :
  NoDup (map (fun o => (o_kind o, object_key o)) objects) ->
  Forall annotated objects -> Forall (appliable env w) objects -> Forall (can s w) objects ->
  exists b' s' w' log, exec env (apply_loop body b objects) s w = Outcome (Ok b') s' w' log
    /\ R s s' /\ Forall (in_sync env w') objects
    /\ forall o, (o_kind o, object_key o) ∉ map (fun o => (o_kind o, object_key o)) objects ->
         in_sync env w o -> in_sync env w' o.
Proof.
  revert b s w. induction objects as [|o objects IH]; intros b s w Hnd Hann Hcmp Hcan; cbn.
  { exists b, s, w, []. split_and!; [done|done|constructor|auto]. }
  apply Forall_cons in Hann as [Ha Hann]. apply Forall_cons in Hcmp as [Hc Hcmp].
  apply Forall_cons in Hcan as [Hd Hcan].
  cbn in Hnd. apply NoDup_cons in Hnd as [Hnin Hnd].
  destruct (converging_write s w o Ha Hc Hd) as (p & s1 & w1 & l1 & H1 & HR1 & Hs1 & Hu1).
  assert (Hne : forall x, x ∈ objects -> (o_kind x, object_key x) <> (o_kind o, object_key o)).
  { intros x Hx Heq. apply Hnin. rewrite <- Heq. apply list_elem_of_fmap. by exists x. }
  rewrite Forall_forall in Hcmp. rewrite Forall_forall in Hcan.
  destruct (IH (b || p) s1 w1 Hnd Hann) as (b' & s2 & w2 & l2 & H2 & HR2 & Hall & Hkeep).
  { apply Forall_forall. intros x Hx. eapply appliable_untouched; [by apply Hne|exact Hu1|by apply Hcmp]. }
  { apply Forall_forall. intros x Hx. eapply converging_can; [exact HR1|by apply Hu1, Hne|by apply Hcan]. }
  rewrite exec_bind, H1. cbn. rewrite H2. cbn. do 4 eexists. split; [reflexivity|].
  split; [by transitivity s1|]. split.
  - apply Forall_cons. split; [|done]. by apply Hkeep.
  - intros x Hx Hsx. apply not_elem_of_cons in Hx as [Hx1 Hx2]. apply Hkeep; [done|].
    by eapply in_sync_untouched.
Qed.

(** Whatever it reports, the first run leaves every object up to date. *)
Lemma exec_apply_with_in_sync objects s w :
  NoDup (map (fun o => (o_kind o, object_key o)) objects) ->
  Forall annotated objects -> Forall (appliable env w) objects -> Forall (can s w) objects ->
  exists r s' w' log, exec env (apply_with body objects) s w = Outcome r s' w' log
    /\ (r = Ok tt \/ r = Err ErrSyncNotReady) /\ R s s' /\ Forall (in_sync env w') objects.
Proof.
  intros Hnd Hann Hcmp Hcan. unfold apply_with.
  destruct (exec_apply_loop objects false s w Hnd Hann Hcmp Hcan) as (b & s' & w' & log & H1 & HR & Hs & _).
  rewrite exec_bind, H1. cbn. exists (if b then Err ErrSyncNotReady else Ok tt), s', w', log.
  split; [|split; [destruct b; auto|done]].
  destruct b; [rewrite exec_lift|rewrite exec_ret]; unfold prepend; cbn; by rewrite app_nil_r.
Qed.

(** And the next one only reads. *)
Lemma exec_apply_with_again objects s w :
  Forall (in_sync env w) objects ->
  exists log, exec env (apply_with body objects) s w = Outcome (Ok tt) s w log /\ Forall read_only log.
Proof.
  intros Hs. destruct (exec_apply_loop_in_sync objects s w Hs) as (log & H1 & Hr).
  exists log. split; [|done]. unfold apply_with. rewrite exec_bind, H1. cbn. rewrite exec_ret.
  unfold prepend. cbn. by rewrite app_nil_r.
Qed.
End loop.

Lemma exec_Apply_in_sync {S} objects (s : S) w :
  NoDup (map (fun o => (o_kind o, object_key o)) objects) ->
  Forall annotated objects -> Forall (appliable env w) objects ->
  exists r w' log, exec env (DefaultDeployer_Apply objects) s w = Outcome r s w' log
    /\ (r = Ok tt \/ r = Err ErrSyncNotReady) /\ Forall (in_sync env w') objects.
Proof.
  intros Hnd Hann Hcmp.
  destruct (exec_apply_with_in_sync eq (fun _ _ _ => True) apply_object objects s w Hnd Hann Hcmp)
    as (r & s' & w' & log & H1 & Hr & <- & Hs); [by apply Forall_true|]. by exists r, w', log.
Qed.
End healthy.

(** The loop keeps whatever its body keeps. *)
Lemma apply_with_preserves {S} (R : S -> S -> Prop) `{!PreOrder R} (body : object -> M S bool)
    objects :
  (forall o, preserves R (body o)) -> preserves R (apply_with body objects).
Proof.
  intros Hb. assert (Hl : forall u, preserves R (apply_loop body u objects)).
  { induction objects as [|o objects IH]; intros u; cbn; [by apply preserves_ret|].
    apply preserves_bind; [done|apply Hb|]. intros p. apply IH. }
  apply preserves_bind; [done|apply Hl|]. intros []; [by apply preserves_lift|by apply preserves_ret].
Qed.

Lemma DefaultDeployer_Apply_preserves `{JsonLib} {S} (R : S -> S -> Prop) `{!PreOrder R} objects :
  preserves R (DefaultDeployer_Apply objects).
Proof.
  apply apply_with_preserves; [apply _|]. intros o. unfold apply_object.
  apply preserves_bind; [apply _|apply CreateObjectIfNotExist_preserves, _|].
  intros [old|]; solve_preserves.
Qed.

(** A deployer keeps what all its methods keep. *)
Lemma Sync_preserves {S} (R : S -> S -> Prop) `{!PreOrder R} (op : ComponentOperator S) :
  preserves R (co_Generate op) -> (forall os, preserves R (co_Apply op os)) ->
  preserves R (co_CheckAndUpdateStatus op) ->
  Forall (preserves R) (co_PreSyncHooks op) -> Forall (preserves R) (co_PostSyncHooks op) ->
  preserves R (Sync op).
Proof.
  intros Hg Ha Hc Hpre Hpost.
  assert (Hrange : forall hooks, Forall (preserves R) hooks -> preserves R (range (fun hook => hook) hooks)).
  { induction 1 as [|h hs Hh _ IH]; [apply preserves_ret; apply _|].
    apply preserves_bind; [apply _|exact Hh|]. intros _. exact IH. }
  apply preserves_bind; [apply _|exact Hg|]. intros os. case_decide; [apply preserves_ret; apply _|].
  apply preserves_bind; [apply _|by apply Hrange|]. intros _.
  apply preserves_bind; [apply _|apply Ha|]. intros _.
  apply preserves_bind; [apply _|exact Hc|]. intros []; [by apply Hrange|apply preserves_lift; apply _].
Qed.

(** An object the server holds is returned, and nothing is written. *)
Lemma exec_CreateObjectIfNotExist_stored {W} (env : environment W) `{!ApiServer env} {S} k
    (o old : obj k) (s : S) w :
  stored w k (key_of (obj_meta o)) = Some old ->
  exec env (CreateObjectIfNotExist k o) s w =
    Outcome (Ok (Some old)) s w [ev (QGet k (key_of (obj_meta o))) (Ok old)].
Proof.
  intros Hs. pose proof (exec_CreateObjectIfNotExist env k o s w) as Hc. cbv zeta in Hc.
  rewrite server_get, Hs in Hc. exact Hc.
Qed.

(** ** Properties *)


(** An object is patched only when its last applied spec or its labels differ
    from the generated ones, and [Apply] succeeds only when it patched nothing:
    whatever the server answers, a run that changed an existing object never
    reports the component synchronised. *)
Theorem Apply_patches_differences `{JsonLib} {W} (env : environment W) {S} objects (s : S) w :
  let out := exec env (DefaultDeployer_Apply objects) s w in
  Forall justified (out_log out)
  /\ (out_res out = Ok tt -> Forall (fun e => ~ is_patch e) (out_log out)).
Proof.
  unfold DefaultDeployer_Apply, apply_with. cbv zeta. rewrite exec_bind. cbv zeta.
  pose proof (apply_loop_inv env (S := S) apply_object justified
    (fun o s w => proj1 (apply_object_justified env o s w)) objects false s w) as H1.
  pose proof (apply_loop_false env (S := S) apply_object
    (fun o s w => proj2 (apply_object_justified env o s w)) objects false s w) as H2.
  destruct (exec env (apply_loop apply_object false objects) s w) as [[b|e|] s' w' l]; cbn in *; [|done..].
  destruct b; [rewrite exec_lift|rewrite exec_ret]; cbn; rewrite app_nil_r; split; try done.
  intros _. by apply H2.
Qed.

(** An empty label map is never stored, and never equal to a stored one: an object that
    has one, such as the pod monitor of a spec with [labels: {}], is patched by every
    run, and no run succeeds. *)
Theorem empty_labels_never_settle `{JsonLib} {W} (env : environment W) `{!ApiServer env} {S} o old (s : S) w :
  om_Labels (meta_of_object o) = Some ∅ ->
  stored w (o_kind o) (object_key o) = Some old -> om_Labels (obj_meta old) <> Some ∅ ->
  out_res (exec env (DefaultDeployer_Apply [o]) s w) <> Ok tt.
Proof.
  intros Hl Hs Hold. unfold DefaultDeployer_Apply, apply_with, apply_loop, apply_object.
  rewrite exec_bind, exec_bind, exec_bind, (exec_CreateObjectIfNotExist_stored env (o_kind o) (o_val o) old s w Hs).
  cbn [out_res out_st out_world out_log prepend]. rewrite exec_bind, exec_lift.
  destruct (IsObjectSpecEqual _ _ _) as [specEqual|e|]; cbn [out_res out_st out_world out_log prepend]; [|done..].
  unfold IsObjectLabelsEqual. rewrite Hl, (bool_decide_eq_false_2 (_ = _)) by done. rewrite orb_true_r.
  rewrite exec_bind, exec_Patch. cbn [out_res out_st out_world out_log prepend].
  destruct (env (QPatch _ _) w) as [[[]|e|] w']; cbn; try done.
Qed.


(** C12. For a component whose [Generate] returns at least one object, [Sync] runs its
    stages in order, each from the memory and the world that the one before left: the pre-sync hooks, [Apply] on all the generated objects, the status
    check, the post-sync hooks.  The post-sync hooks run, and the result is theirs, when
    the stages before succeeded and the status check answered ready; otherwise no request
    of a hook is sent, and the component is not reported as synchronised. *)
Theorem Sync_post_hooks_when_ready {W} (env : environment W) {S} (op : ComponentOperator S) objects s w :
  let out := exec env (Sync op) s w in
  let generated := exec env (co_Generate op) s w in
  let prepared := exec env (onPrevSync op) (out_st generated) (out_world generated) in
  let applied := exec env (co_Apply op objects) (out_st prepared) (out_world prepared) in
  let checked := exec env (co_CheckAndUpdateStatus op) (out_st applied) (out_world applied) in
  let hooks := exec env (onPostSync op) (out_st checked) (out_world checked) in
  let before := out_log generated ++ out_log prepared ++ out_log applied ++ out_log checked in
  let ready := out_res prepared = Ok tt /\ out_res applied = Ok tt /\ out_res checked = Ok true in
  out_res generated = Ok objects -> objects <> [] ->
  (ready -> out = Outcome (out_res hooks) (out_st hooks) (out_world hooks) (before ++ out_log hooks))
  /\ (~ ready -> out_res out <> Ok tt /\ out_log out `prefix_of` before).
Proof.
  cbv zeta. intros Hg Hne. unfold Sync. rewrite exec_bind.
  destruct (exec env (co_Generate op) s w) as [r s1 w1 l1]. cbn [out_res out_st out_world out_log] in *. subst r.
  rewrite decide_False by (by destruct objects). rewrite exec_bind.
  destruct (exec env (onPrevSync op) s1 w1) as [[[]|e|] s2 w2 l2]; cbn [out_res out_st out_world out_log prepend];
    [|(split; [naive_solver|intros _; split; [done|by apply prefix_app, prefix_app_r]])..].
  rewrite exec_bind.
  destruct (exec env (co_Apply op objects) s2 w2) as [[[]|e|] s3 w3 l3]; cbn [out_res out_st out_world out_log prepend];
    [|(split; [naive_solver|intros _; split; [done|by do 2 apply prefix_app; apply prefix_app_r]])..].
  rewrite exec_bind.
  destruct (exec env (co_CheckAndUpdateStatus op) s3 w3) as [[[]|e|] s4 w4 l4];
    cbn [out_res out_st out_world out_log prepend negb];
    [|rewrite ?exec_lift; cbn [out_res out_st out_world out_log prepend]; rewrite ?app_nil_r;
      (split; [naive_solver|intros _; split; done])..].
  split; [intros _; by rewrite <- !app_assoc|naive_solver].
Qed.

Lemma Sync_post_hooks_when_ready_witness :
  let out := exec fake_env (Sync posting_operator) tt [] in
  out_res out = Ok tt /\ Exists is_post (out_log out).
Proof.
  intros out. subst out.
  destruct (Sync_post_hooks_when_ready fake_env posting_operator [annotated_cm "spec" "data"] tt []
    eq_refl ltac:(discriminate)) as [Hready _].
  rewrite Hready by done. split; [done|]. by constructor.
Defined.
