(* ===== verification/Builder.v ===== *)
(** * pkg/deployer/builder.go: the builder of generated objects

    A component's builder collects objects, and
    [DefaultBuilder.SetControllerAndAnnotation] then makes the resource their
    controller and writes the spec that [DefaultDeployer.Apply] compares later
    into an annotation.  The objects are pointers: an unsupported object leaves
    the loop's variables on the previous one, which is therefore visited twice. *)

From stdpp Require Import base gmap strings list fin_maps.
From Stdlib Require Import ZArith Lia.
From S2P Require Import Prelude GoLib K8s ApiTypes Client ApiServer K8sUtil Deployer.

(** controllerutil.SetControllerReference of controller-runtime, which sets the
    owner references of the controlled object: its new metadata. *)
Class ControllerLib := {
  SetControllerReference : object -> option object -> res ObjectMeta }.

Definition set_OwnerReferences (l : list opaque) (m : ObjectMeta) : ObjectMeta :=
  mkObjectMeta (om_Name m) (om_Namespace m) (om_Labels m) (om_Annotations m) (om_Finalizers m)
    l (om_Generation m) (om_ResourceVersion m) (om_DeletionTimestamp m).

(** Documented: it sets the owner as a controller reference, and that only. *)
Class ControllerLaws `{ControllerLib} := {
  SetControllerReference_keeps owner o m :
    SetControllerReference owner (Some o) = Ok m ->
    m = set_OwnerReferences (om_OwnerReferences m) (meta_of_object o) }.

(** Documented: [Unmarshal] decodes what [Marshal] encoded. *)
Class JsonLaws `{JsonLib} := {
  Unmarshal_Marshal o s : json_MarshalSpec o = Ok s -> exists j, json_Unmarshal s = Ok j }.

(** [object.SetAnnotations(annotations)] *)
Definition SetAnnotations (annotations : strmap) (m : ObjectMeta) : ObjectMeta :=
  mkObjectMeta (om_Name m) (om_Namespace m) (om_Labels m) annotations (om_Finalizers m)
    (om_OwnerReferences m) (om_Generation m) (om_ResourceVersion m) (om_DeletionTimestamp m).

(** Writing an object's metadata. *)
Definition with_object_meta (f : ObjectMeta -> ObjectMeta) (o : object) : object :=
  Object (o_kind o) (with_meta f (o_val o)).

Record DefaultBuilder := mkDefaultBuilder {
  db_Objects : list object;
  db_Owner : object;
  db_Err : option error }.

Definition set_Objects (l : list object) (b : DefaultBuilder) : DefaultBuilder :=
  mkDefaultBuilder l (db_Owner b) (db_Err b).
Definition set_Err (e : error) (b : DefaultBuilder) : DefaultBuilder :=
  mkDefaultBuilder (db_Objects b) (db_Owner b) (Some e).

(** The [Build...] methods of the default builder, which a component overrides. *)
Definition BuildService (b : DefaultBuilder) : DefaultBuilder := b.
Definition BuildDeployment (b : DefaultBuilder) : DefaultBuilder := b.
Definition BuildStatefulSet (b : DefaultBuilder) : DefaultBuilder := b.
Definition BuildConfigMap (b : DefaultBuilder) : DefaultBuilder := b.
Definition BuildPodMonitor (b : DefaultBuilder) : DefaultBuilder := b.
Definition BuildGreptimeDBStandalone (b : DefaultBuilder) : DefaultBuilder := b.

Section builder.
Context `{JsonLib} `{ControllerLib}.

(** The spec is the one of the object [spec], read when the loop assigned its
    variable; without one the interface is nil, and its JSON is [null]. *)
Definition setLastAppliedResourceSpecAnnotation (o : object) (spec : option object)
    : res object :=
  data ← match spec with Some v => json_MarshalSpec v | None => Ok "null" end;
  let annotations := MergeStringMap (om_Annotations (meta_of_object o))
                       {[ LastAppliedResourceSpec := data ]} in
  Ok (with_object_meta (SetAnnotations annotations) o).

(** [controlled] is the index of the object the pointer refers to.  The owner
    references stay set when the annotation fails: the builder and the error. *)
Definition doSetControllerAndAnnotation (b : DefaultBuilder) (controlled : option nat)
    (spec : option object) : res (DefaultBuilder * option error) :=
  let o := i ← controlled; db_Objects b !! i in
  match SetControllerReference (db_Owner b) o with
  | Err err => Ok (b, Some err)
  | Panic => Panic
  | Ok m =>
      i ← deref controlled; o ← deref o;
      let o := with_object_meta (fun _ => m) o in
      let b := set_Objects (<[i := o]> (db_Objects b)) b in
      match setLastAppliedResourceSpecAnnotation o spec with
      | Ok o => Ok (set_Objects (<[i := o]> (db_Objects b)) b, None)
      | Err err => Ok (b, Some err)
      | Panic => Panic
      end
  end.

(** The cases of the type switch. *)
Definition supported (k : kind) : bool :=
  match k with
  | KService | KConfigMap | KStatefulSet | KDeployment | KPodMonitor | KStandalone => true
  | _ => false
  end.

(** [for _, obj := range b.Objects], over the indices, with the two variables
    declared before the loop. *)
Fixpoint annotate_loop (indices : list nat) (spec : option object) (controlled : option nat)
    (b : DefaultBuilder) : res DefaultBuilder :=
  match indices with
  | [] => Ok b
  | i :: indices =>
      obj ← deref (db_Objects b !! i);
      let known := supported (o_kind obj) in
      let spec := if known then Some obj else spec in
      let controlled := if known then Some i else controlled in
      let b := if known then b else set_Err (Errorf "unsupported object type") b in
      '(b, err) ← doSetControllerAndAnnotation b controlled spec;
      match err with
      | Some err => Ok (set_Err err b)
      | None => annotate_loop indices spec controlled b
      end
  end.

Definition SetControllerAndAnnotation (b : DefaultBuilder) : res DefaultBuilder :=
  annotate_loop (seq 0 (length (db_Objects b))) None None b.

(** Go returns both results; every caller looks at the error first. *)
Definition Generate (b : DefaultBuilder) : res (list object) :=
  match db_Err b with Some err => Err err | None => Ok (db_Objects b) end.

(** ** What a generated object is *)

(** The object of the builder, controlled by the owner and annotated with its own
    spec. *)
Definition prepared (owner o : object) : res object :=
  m ← SetControllerReference owner (Some o);
  data ← json_MarshalSpec o;
  Ok (with_object_meta (fun _ => SetAnnotations
        (<[LastAppliedResourceSpec := data]> (om_Annotations m)) m) o).

(** What [Apply] relies on: the generated object keeps the kind, key and labels,
    and carries a readable annotation of the spec it was built with. *)
Definition generated_from (o o' : object) : Prop :=
  annotated o' /\ o_kind o' = o_kind o /\ object_key o' = object_key o
  /\ om_Labels (meta_of_object o') = om_Labels (meta_of_object o)
  /\ exists data, json_MarshalSpec o = Ok data
     /\ om_Annotations (meta_of_object o')
        = <[LastAppliedResourceSpec := data]> (om_Annotations (meta_of_object o)).

(** ** Lemmas *)

Lemma meta_with_object_meta f o :
  supported (o_kind o) = true ->
  meta_of_object (with_object_meta f o) = f (meta_of_object o)
  /\ o_kind (with_object_meta f o) = o_kind o.
Proof. by destruct o as [[] o]. Qed.

Lemma with_object_meta_twice f g o :
  with_object_meta g (with_object_meta f o) = with_object_meta (fun m => g (f m)) o.
Proof. by destruct o as [[] o]. Qed.

Lemma annotate_prepared o m :
  SetAnnotations (MergeStringMap (om_Annotations m) {[ LastAppliedResourceSpec := o ]}) m
  = SetAnnotations (<[LastAppliedResourceSpec := o]> (om_Annotations m)) m.
Proof. by rewrite MergeStringMap_union, <- insert_union_singleton_l. Qed.

(** One object, visited with its own spec. *)
Lemma doSet_prepared b i o :
  db_Objects b !! i = Some o -> supported (o_kind o) = true ->
  match prepared (db_Owner b) o with
  | Ok o' => doSetControllerAndAnnotation b (Some i) (Some o)
             = Ok (set_Objects (<[i := o']> (db_Objects b)) b, None)
  | Err e => exists b', doSetControllerAndAnnotation b (Some i) (Some o) = Ok (b', Some e)
  | Panic => doSetControllerAndAnnotation b (Some i) (Some o) = Panic
  end.
Proof.
  intros Hi Hk. unfold doSetControllerAndAnnotation, prepared. cbn. rewrite Hi.
  destruct (SetControllerReference (db_Owner b) (Some o)) as [m|e|]; cbn; [|by eexists|done].
  unfold setLastAppliedResourceSpecAnnotation. cbn.
  destruct (json_MarshalSpec o) as [data|e|]; cbn; [|by eexists|done].
  rewrite with_object_meta_twice, (proj1 (meta_with_object_meta (fun _ => m) o Hk)).
  cbv beta. unfold set_Objects. cbn [db_Objects db_Owner db_Err].
  change (<[_:=data]> ∅) with ({[ LastAppliedResourceSpec := data ]} : strmap).
  by rewrite annotate_prepared, list_insert_insert_eq.
Qed.

Lemma annotate_loop_supported todo : forall visited spec controlled b,
  db_Objects b = visited ++ todo -> db_Err b = None ->
  Forall (fun o => supported (o_kind o) = true) todo ->
  annotate_loop (seq (length visited) (length todo)) spec controlled b ≫= Generate
  = (objs ← map_res (prepared (db_Owner b)) todo; Ok (visited ++ objs)).
Proof.
  induction todo as [|o todo IH]; intros visited spec controlled b Hb He Hs; cbn.
  - unfold Generate. by rewrite He, Hb.
  - apply Forall_cons in Hs as [Hk Hs].
    assert (Hi : db_Objects b !! length visited = Some o)
      by (rewrite Hb; apply list_lookup_middle; done).
    rewrite Hi. cbn. rewrite Hk.
    pose proof (doSet_prepared b (length visited) o Hi Hk) as Hd.
    destruct (prepared (db_Owner b) o) as [o'|e|] eqn:Hp; [rewrite Hd|destruct Hd as [b' ->]|by rewrite Hd];
      cbn; [|done].
    specialize (IH (visited ++ [o']) (Some o) (Some (length visited))
      (set_Objects (<[length visited := o']> (db_Objects b)) b)).
    rewrite length_app in IH. cbn in IH. rewrite Nat.add_1_r in IH. rewrite IH; [|..|done|done].
    + destruct (map_res _ todo); cbn; [|done..]. by rewrite <- app_assoc.
    + rewrite Hb, insert_app_r_alt by lia. rewrite Nat.sub_diag. cbn. by rewrite <- app_assoc.
Qed.

(** The loop neither changes the kind of an object nor clears an error. *)
Lemma insert_object_kinds (l : list object) i o f :
  l !! i = Some o -> o_kind <$> <[i := with_object_meta f o]> l = o_kind <$> l.
Proof.
  intros Hi. rewrite list_fmap_insert. cbn. apply list_insert_id. by rewrite list_lookup_fmap, Hi.
Qed.

Lemma doSet_kinds b controlled spec b' err :
  doSetControllerAndAnnotation b controlled spec = Ok (b', err) ->
  o_kind <$> db_Objects b' = o_kind <$> db_Objects b /\ db_Err b' = db_Err b.
Proof.
  unfold doSetControllerAndAnnotation.
  destruct (SetControllerReference _ _) as [m|e|]; [|by intros [= <- _]|done].
  destruct controlled as [i|]; cbn; [|done].
  destruct (db_Objects b !! i) as [o|] eqn:Hi; cbn; [|done].
  unfold setLastAppliedResourceSpecAnnotation.
  destruct (match spec with Some _ => _ | None => _ end) as [data|e|]; cbn; [|by intros [= <- _]; cbn; rewrite (insert_object_kinds _ _ o)|done].
  intros [= <- _]. cbn. split; [|done].
  rewrite list_insert_insert_eq, with_object_meta_twice. by apply insert_object_kinds.
Qed.

Lemma annotate_loop_error indices : forall spec controlled b b',
  annotate_loop indices spec controlled b = Ok b' ->
  db_Err b <> None \/ (exists i o, i ∈ indices /\ db_Objects b !! i = Some o
                                   /\ supported (o_kind o) = false) ->
  db_Err b' <> None.
Proof.
  induction indices as [|i indices IH]; intros spec controlled b b'; cbn.
  - intros [= <-] [He|(i & ? & Hi & _)]; [done|by apply elem_of_nil in Hi].
  - destruct (db_Objects b !! i) as [o|] eqn:Hi; cbn; [|done].
    set (b1 := if supported (o_kind o) then b else _).
    intros Hl Hcase. res_inv. destruct x as [b2 err]. apply doSet_kinds in H1 as [Hk He].
    destruct err as [err|]; [by injection H2 as <-|].
    apply IH in H2; [done|]. rewrite He. unfold b1 in *.
    destruct (supported (o_kind o)) eqn:Hs; [|by left].
    destruct Hcase as [Hc|(j & o1 & Hj & Ho1 & Hu)]; [by left|right].
    apply elem_of_cons in Hj as [->|Hj]; [congruence|].
    assert (Hl : (o_kind <$> db_Objects b2) !! j = Some (o_kind o1))
      by (rewrite Hk, list_lookup_fmap, Ho1; done).
    rewrite list_lookup_fmap in Hl. destruct (db_Objects b2 !! j) as [o2|] eqn:Ho2; [|done].
    injection Hl as Hl. exists j, o2. by rewrite Hl.
Qed.

Lemma builder_rejects b objs :
  SetControllerAndAnnotation b ≫= Generate = Ok objs ->
  Forall (fun o => supported (o_kind o) = true) (db_Objects b).
Proof.
  intros Hg. res_inv. rename H1 into Hl, H2 into Hg, x into b'.
  apply Forall_forall. intros o Ho. destruct (supported (o_kind o)) eqn:Hu; [done|].
  apply list_elem_of_lookup in Ho as [i Hi].
  apply annotate_loop_error in Hl.
  - unfold Generate in Hg. by destruct (db_Err b').
  - right. exists i, o. split; [|done]. apply elem_of_seq. apply lookup_lt_Some in Hi. lia.
Qed.

Lemma builder_generates b :
  db_Err b = None -> Forall (fun o => supported (o_kind o) = true) (db_Objects b) ->
  SetControllerAndAnnotation b ≫= Generate = map_res (prepared (db_Owner b)) (db_Objects b).
Proof.
  intros He Hs. unfold SetControllerAndAnnotation.
  rewrite (annotate_loop_supported (db_Objects b) []) by done. by destruct (map_res _ _).
Qed.

(** A prepared object keeps everything but its owner references and gains its
    annotation. *)
Lemma prepared_annotated `{!JsonLaws} `{!ControllerLaws} owner o o' :
  supported (o_kind o) = true -> prepared owner o = Ok o' ->
  generated_from o o'.
Proof.
  intros Hk Hp. unfold prepared in Hp. res_inv. subst o'.
  rename x into m, x0 into data.
  destruct (meta_with_object_meta (fun _ => SetAnnotations
    (<[LastAppliedResourceSpec := data]> (om_Annotations m)) m) o Hk) as [Hm Hkind].
  pose proof (SetControllerReference_keeps owner o m ltac:(done)) as Hkeep.
  unfold generated_from, annotated, object_key, key_of. rewrite Hm. cbn. rewrite Hkeep. cbn.
  destruct (Unmarshal_Marshal o data) as [j Hj]; [done|].
  split_and!; try done.
  - exists data, j. split; [apply lookup_insert_eq|done].
  - by exists data.
Qed.

End builder.

(** ** Instances for the witnesses *)

(** A controller library that appends the owner's name to the references. *)
Definition owner_reference : ControllerLib := {|
  SetControllerReference owner controlled :=
    o ← deref controlled;
    let m := meta_of_object o in
    Ok (set_OwnerReferences (om_OwnerReferences m ++ [om_Name (meta_of_object owner)]) m) |}.

Definition owner_reference_laws : @ControllerLaws owner_reference.
Proof. constructor. intros owner o m [= <-]. reflexivity. Defined.

Definition text_json_laws : @JsonLaws text_json.
Proof. constructor. intros o s _. by exists s. Defined.

Definition sample_builder : DefaultBuilder :=
  mkDefaultBuilder
    [Object KConfigMap (mkConfigMap (meta_of "default" "c-meta" (Some {[ "app" := "c-meta" ]}) ∅)
       {[ "config.toml" := "x = 1" ]});
     Object KService (mkService (meta_of "default" "c-meta" None {[ "user" := "kept" ]})
       (mkCoreServiceSpec "ClusterIP" "" ∅ [] None))]
    (Object KStatefulSet (ready_StatefulSet "default" "c" 1)) None.

(** ** Properties *)

(** The builder of a component that collected objects of the six supported
    kinds without an error generates exactly those objects, in order, each
    controlled by the owner and annotated with its own spec, or the first error
    in that order; with an object of another kind it generates nothing. *)
Theorem Generate_spec `{JsonLib} `{ControllerLib} b :
  db_Err b = None ->
  let generated := SetControllerAndAnnotation b ≫= Generate in
  (Forall (fun o => supported (o_kind o) = true) (db_Objects b) ->
   generated = map_res (prepared (db_Owner b)) (db_Objects b))
  /\ (Exists (fun o => supported (o_kind o) = false) (db_Objects b) ->
      forall objs, generated <> Ok objs).
Proof.
  intros He. split; [by apply builder_generates|].
  intros Hex objs Hg. apply builder_rejects in Hg.
  eapply none_not_Exists; [|exact Hex]. eapply Forall_impl; [exact Hg|]. intros o ->. done.
Qed.

(** The generated objects are fit for [Apply]: each keeps the kind, key and labels
    it was built with and the annotations of the user, and carries a readable
    last-applied annotation of its own spec.  So, provided that no two of them
    share a kind and key and that none has an empty label map, applying them to a healthy
    server that accepts them, and whose copies carry a readable annotation too, leaves
    every one of them up to date. *)
Theorem Generate_then_Apply `{JsonLaws} `{ControllerLaws} b objs :
  SetControllerAndAnnotation b ≫= Generate = Ok objs ->
  db_Err b = None ->
  NoDup (map (fun o => (o_kind o, object_key o)) (db_Objects b)) ->
  Forall2 generated_from (db_Objects b) objs
  /\ forall W (env : environment W) `{!ApiServer env} S (s : S) (w : W),
       Forall (appliable env w) objs ->
       exists r w' log, exec env (DefaultDeployer_Apply objs) s w = Outcome r s w' log
         /\ (r = Ok tt \/ r = Err ErrSyncNotReady) /\ Forall (in_sync env w') objs.
Proof.
  intros Hg He Hnd. pose proof (builder_rejects b objs Hg) as Hs.
  rewrite (builder_generates b He Hs), map_res_Ok in Hg.
  assert (Hall : Forall2 generated_from (db_Objects b) objs).
  { eapply Forall2_Forall_impl; [exact Hg|exact Hs|].
    intros o o' Ho Hk. exact (prepared_annotated _ o o' Hk Ho). }
  split; [exact Hall|]. intros W env ? S s w Hcmp. apply exec_Apply_in_sync; [..|done].
  - replace (map _ objs) with (map (fun o => (o_kind o, object_key o)) (db_Objects b)); [done|].
    clear -Hall. induction Hall as [|o o' l l' (_ & Hk & Hkey & _) _ IH]; cbn; [done|]. by rewrite Hk, Hkey, IH.
  - clear -Hall. induction Hall as [|o o' l l' (Ha & _) _ IH]; by constructor.
Qed.

Lemma Generate_spec_witness :
  let _ := text_json in let _ := owner_reference in
  exists objs, SetControllerAndAnnotation sample_builder ≫= Generate = Ok objs
    /\ length objs = 2.
Proof.
  intros J C.
  destruct (Generate_spec (H := J) (H0 := C) sample_builder eq_refl) as [Hs _].
  rewrite Hs; [|repeat constructor]. eexists. split; reflexivity.
Defined.

Lemma Generate_then_Apply_witness :
  let _ := text_json in let _ := owner_reference in
  exists objs, SetControllerAndAnnotation sample_builder ≫= Generate = Ok objs
    /\ Forall annotated objs
    /\ exists r w' log, exec fake_env (DefaultDeployer_Apply objs) tt [] = Outcome r tt w' log
         /\ (r = Ok tt \/ r = Err ErrSyncNotReady) /\ Forall (in_sync fake_env w') objs.
Proof.
  intros J C. eexists. split; [reflexivity|].
  edestruct (Generate_then_Apply (H := J) (H0 := text_json_laws) (H1 := C)
    (H2 := owner_reference_laws) sample_builder) as [Hall Hr]; [reflexivity..| |split].
  - apply (bool_decide_unpack _). vm_compute. done.
  - eapply Forall2_Forall_r; [exact Hall|]. apply Forall_forall. intros o _ o' [Ho _]. exact Ho.
  - apply (Hr _ fake_env _ unit tt []). repeat constructor; try discriminate; intros old Hold; discriminate Hold.
Defined.
