(* ===== verification/Common.v ===== *)
(** * controllers/common/common.go: names, claims and maintenance mode

    The helpers the two controllers share: resource names, the persistent
    volume claims generated for a file storage and the label selectors that
    find them again, the pod template, and the metasrv maintenance endpoint. *)

From stdpp Require Import base gmap strings list fin_maps.
From Stdlib Require Import ZArith Lia.
From S2P Require Import Prelude GoLib K8s ApiCommon ApiTypes Client.

(** ** Libraries that are not under src/ *)

(** [resource.MustParse] of apimachinery: the canonical text of a quantity, or a
    panic. *)
Class QuantityLib := { MustParse : string -> res string }.

(** [metav1.LabelSelectorAsSelector] refuses some selectors, such as one with a label value
    of more than 63 characters, with an error. *)
Class SelectorLib := { selector_error : LabelSelector -> option error }.

(** retry-go's [retry.Do] with [Attempts(n)], and client-go's
    [retry.RetryOnConflict] with its default backoff. *)
Class RetryLib := {
  retry_Do : forall {S : Type}, nat -> M S unit -> M S unit;
  RetryOnConflict : forall {S : Type}, M S unit -> M S unit }.

(** Their documented behaviour: the operation is run again only after it
    failed, at most [n] times, and nothing else is done in between; the result
    is [nil] exactly when the last attempt succeeded. *)
Class RetryLaws `{RetryLib} := {
  retry_Do_logs {S} n (op : M S unit) P : logs_only P op -> logs_only P (retry_Do n op);
  retry_Do_first {S} n (op : M S unit) W (env : environment W) s w :
    out_res (exec env op s w) = Ok tt ->
    exec env (retry_Do (Datatypes.S n) op) s w = exec env op s w;
  retry_Do_Ok {S} n (op : M S unit) W (env : environment W) s w :
    out_res (exec env (retry_Do n op) s w) = Ok tt ->
    exists s' w', out_res (exec env op s' w') = Ok tt
      /\ out_st (exec env (retry_Do n op) s w) = out_st (exec env op s' w')
      /\ incl (out_log (exec env op s' w')) (out_log (exec env (retry_Do n op) s w));
  retry_Do_preserves {S} n (op : M S unit) (R : S -> S -> Prop) `{!PreOrder R} :
    preserves R op -> preserves R (retry_Do n op);
  retry_Do_returns {S} n (op : M S unit) W (env : environment W) :
    (forall s w, out_res (exec env op s w) <> Panic) ->
    forall s w, out_res (exec env (retry_Do n op) s w) <> Panic;
  RetryOnConflict_Ok {S} (op : M S unit) W (env : environment W) s w :
    out_res (exec env (RetryOnConflict op) s w) = Ok tt ->
    exists s' w', out_res (exec env op s' w') = Ok tt
      /\ out_st (exec env (RetryOnConflict op) s w) = out_st (exec env op s' w')
      /\ incl (out_log (exec env op s' w')) (out_log (exec env (RetryOnConflict op) s w));
  RetryOnConflict_preserves {S} (op : M S unit) (R : S -> S -> Prop) `{!PreOrder R} :
    preserves R op -> preserves R (RetryOnConflict op);
  RetryOnConflict_returns {S} (op : M S unit) W (env : environment W) :
    (forall s w, out_res (exec env op s w) <> Panic) ->
    forall s w, out_res (exec env (RetryOnConflict op) s w) <> Panic;
  RetryOnConflict_logs {S} (op : M S unit) P : logs_only P op -> logs_only P (RetryOnConflict op);
  RetryOnConflict_first {S} (op : M S unit) W (env : environment W) s w :
    out_res (exec env op s w) = Ok tt ->
    exec env (RetryOnConflict op) s w = exec env op s w }.

(** ** Constants (controllers/constant/constant.go, common.go) *)

Definition GreptimeDBComponentName : string := "app.greptime.io/component".
Definition GreptimeDBConfigDir : string := "/etc/greptimedb".
Definition GreptimeDBConfigFileName : string := "config.toml".
Definition ConfigVolumeName : string := "config".
Definition DefaultVectorConfigName : string := "vector-config".
Definition FileStorageTypeLabelKey : string := "app.greptime.io/fileStorageType".

Inductive FileStorageType :=
  | FileStorageTypeDatanode
  | FileStorageTypeWAL
  | FileStorageTypeCache.
#[export] Instance FileStorageType_eq_dec : EqDecision FileStorageType.
Proof. solve_decision. Defined.

Definition string_of_FileStorageType (t : FileStorageType) : string :=
  match t with
  | FileStorageTypeDatanode => "datanode"
  | FileStorageTypeWAL => "wal"
  | FileStorageTypeCache => "cache"
  end.

(** ** Names *)

Fixpoint add_extra_names (baseName : string) (extraNames : list string) : string :=
  match extraNames with
  | [] => baseName
  | extraName :: extraNames =>
      add_extra_names (if decide (extraName <> "") then Join "-" [baseName; extraName] else baseName)
        extraNames
  end.

Definition ResourceName (name : string) (roleKind : RoleKind) (extraNames : list string) : string :=
  add_extra_names (Join "-" [name; roleKind]) extraNames.

Definition MonitoringServiceName (name : string) : string := name +:+ "-monitor".
Definition VectorConfigName (name : string) : string := Join "-" [name; DefaultVectorConfigName].
Definition LogsPipelineName (namespace name : string) : string := Join "-" [namespace; name; "logs"].
Definition AuditLogsPipelineName (namespace name : string) : string :=
  Join "-" [namespace; name; "audit-logs"].

Definition GetBindAddress (enableIPv6 : bool) (port : Z) : string :=
  if enableIPv6 then "[::]:" +:+ fmt_d port else "0.0.0.0:" +:+ fmt_d port.

Definition GetServerAddress (enableIPv6 : bool) (ip : string) (port : Z) : string :=
  if enableIPv6 then "[" +:+ ip +:+ "]:" +:+ fmt_d port else ip +:+ ":" +:+ fmt_d port.

(** ** Generated objects *)

(** [template.Spec.Containers[MainContainerIndex]], updated in place. *)
Definition with_main_container (f : Container -> Container) (l : list Container)
    : res (list Container) :=
  match l with
  | [] => Panic
  | c :: l => Ok (f c :: l)
  end.

Definition add_volume_mount (vm : VolumeMount) (c : Container) : Container :=
  mkContainer (ct_Name c) (ct_Image c) (ct_Command c) (ct_Args c) (ct_WorkingDir c) (ct_Ports c)
    (ct_EnvFrom c) (ct_Env c) (ct_Resources c) (ct_VolumeMounts c ++ [vm]) (ct_LivenessProbe c)
    (ct_ReadinessProbe c) (ct_StartupProbe c) (ct_Lifecycle c) (ct_ImagePullPolicy c)
    (ct_SecurityContext c).

Definition with_containers_volumes (cs : list Container) (vs : list Volume)
    (t : CorePodTemplateSpec) : CorePodTemplateSpec :=
  let p := pt_Spec t in
  mkCorePodTemplateSpec (pt_Annotations t) (pt_Labels t)
    (mkPodSpec cs (ps_InitContainers p) vs (ps_NodeSelector p) (ps_RestartPolicy p)
      (ps_TerminationGracePeriodSeconds p) (ps_ActiveDeadlineSeconds p) (ps_DNSPolicy p)
      (ps_ServiceAccountName p) (ps_HostNetwork p) (ps_ImagePullSecrets p) (ps_Affinity p)
      (ps_SchedulerName p) (ps_Tolerations p) (ps_SecurityContext p)).

Definition MountConfigDir (template : CorePodTemplateSpec) (configMapName : string)
    : res CorePodTemplateSpec :=
  let volumes := ps_Volumes (pt_Spec template)
                 ++ [mkVolume ConfigVolumeName (ConfigMapSource configMapName)] in
  containers ← with_main_container
    (add_volume_mount (mkVolumeMount ConfigVolumeName GreptimeDBConfigDir false))
    (ps_Containers (pt_Spec template));
  Ok (with_containers_volumes containers volumes template).

Definition GenerateConfigMap (namespace resourceName configData : string) : res ConfigMap :=
  Ok (mkConfigMap (meta_of namespace resourceName None ∅) {[ GreptimeDBConfigFileName := configData ]}).

(** [promSpec.Labels] panics on a nil spec. *)
Definition GeneratePodMonitor (namespace resourceName : string)
    (promSpec : option PrometheusMonitorSpec) : res PodMonitor :=
  spec ← deref promSpec;
  Ok (mkPodMonitor (meta_of namespace resourceName (pr_Labels spec) ∅)
    (mkPodMonitorSpec "/metrics" "http" (pr_Interval spec) true
      {[ GreptimeDBComponentName := resourceName ]} [namespace])).

Definition GeneratePodTemplateSpec (kind : RoleKind) (template : option PodTemplateSpec)
    : option CorePodTemplateSpec :=
  match template with
  | None => None
  | Some t =>
      match tp_MainContainer t with
      | None => None
      | Some m =>
          let s := tp_SlimPodSpec t in
          let main := mkContainer kind (mc_Image m) (mc_Command m) (mc_Args m) (mc_WorkingDir m)
            [] (mc_EnvFrom m) (mc_Env m) (mc_Resources m) (mc_VolumeMounts m) (mc_LivenessProbe m)
            (mc_ReadinessProbe m) (mc_StartupProbe m) (mc_Lifecycle m) (mc_ImagePullPolicy m)
            (mc_SecurityContext m) in
          Some (mkCorePodTemplateSpec (tp_Annotations t) (tp_Labels t)
            (mkPodSpec (main :: sl_AdditionalContainers s) (sl_InitContainers s) (sl_Volumes s)
              (sl_NodeSelector s) (sl_RestartPolicy s) (sl_TerminationGracePeriodSeconds s)
              (sl_ActiveDeadlineSeconds s) (sl_DNSPolicy s) (sl_ServiceAccountName s)
              (sl_HostNetwork s) (sl_ImagePullSecrets s) (sl_Affinity s) (sl_SchedulerName s)
              (sl_Tolerations s) (sl_SecurityContext s)))
      end
  end.

(** ** Persistent volume claims *)

(** The labels of a claim before the user's are merged in. *)
Definition pvc_base_labels (clusterName datanodeGroupName : string) (fsType : FileStorageType)
    (kind : RoleKind) : strmap :=
  match fsType with
  | FileStorageTypeWAL =>
      {[ FileStorageTypeLabelKey := string_of_FileStorageType FileStorageTypeWAL;
         GreptimeDBComponentName := ResourceName clusterName kind [datanodeGroupName] ]}
  | FileStorageTypeCache =>
      {[ FileStorageTypeLabelKey := string_of_FileStorageType FileStorageTypeCache;
         GreptimeDBComponentName := ResourceName clusterName kind [datanodeGroupName] ]}
  | _ => {[ GreptimeDBComponentName := ResourceName clusterName kind [datanodeGroupName] ]}
  end.

(** A nil label map and an empty one merge alike. *)
Definition FileStorageToPVC `{QuantityLib} (clusterName datanodeGroupName : string)
    (fs : FileStorage) (fsType : FileStorageType) (kind : RoleKind) : res PersistentVolumeClaim :=
  let labels := MergeStringMap (pvc_base_labels clusterName datanodeGroupName fsType kind)
                  (FileStorage_GetLabels (Some fs)) in
  let annotations := MergeStringMap ∅ (FileStorage_GetAnnotations (Some fs)) in
  storage ← MustParse (FileStorage_GetSize (Some fs));
  Ok (mkPersistentVolumeClaim (meta_of "" (FileStorage_GetName (Some fs)) (Some labels) annotations)
    (mkPVCSpec (FileStorage_GetStorageClassName (Some fs)) ["ReadWriteOnce"]
      {[ "storage" := storage ]})).

(** The selector [GetPVCs] builds for a type of storage. *)
Definition pvc_selector (resourceName : string) (fsType : FileStorageType) : LabelSelector :=
  match fsType with
  | FileStorageTypeDatanode =>
      mkLabelSelector ∅
        [mkRequirement FileStorageTypeLabelKey OpNotIn
           [string_of_FileStorageType FileStorageTypeWAL;
            string_of_FileStorageType FileStorageTypeCache];
         mkRequirement GreptimeDBComponentName OpIn [resourceName]]
  | FileStorageTypeWAL =>
      mkLabelSelector
        {[ FileStorageTypeLabelKey := string_of_FileStorageType FileStorageTypeWAL;
           GreptimeDBComponentName := resourceName ]} []
  | FileStorageTypeCache =>
      mkLabelSelector
        {[ FileStorageTypeLabelKey := string_of_FileStorageType FileStorageTypeCache;
           GreptimeDBComponentName := resourceName ]} []
  end.

(** A selector that is not refused is parsed to one that selects the same labels. *)
Definition LabelSelectorAsSelector `{SelectorLib} (sel : LabelSelector) : res LabelSelector :=
  match selector_error sel with
  | Some e => Err e
  | None => Ok sel
  end.

(** No request is sent with a refused selector.  Both the not-found branch and the other
    errors of the list return the error. *)
Definition GetPVCs `{SelectorLib} {S} (namespace resourceName : string) (fsType : FileStorageType)
    : M S (list PersistentVolumeClaim) :=
  selector ← lift (LabelSelectorAsSelector (pvc_selector resourceName fsType));
  ListObjects KPVC namespace selector.

(** ** Maintenance mode *)

(** [cluster.Spec.Meta.HTTPPort] panics without a meta spec. *)
Definition GetMetaHTTPServiceURL (cluster : GreptimeDBCluster) : res string :=
  meta ← deref (cl_Meta (gc_Spec cluster));
  Ok ("http://" +:+ ResourceName (om_Name (gc_ObjectMeta cluster)) MetaRoleKind []
      +:+ "." +:+ om_Namespace (gc_ObjectMeta cluster) +:+ ":" +:+ fmt_d (me_HTTPPort meta)).

Definition maintenance_endpoint (enabled : bool) : string :=
  if enabled then "/admin/maintenance/enable" else "/admin/maintenance/disable".

(** One attempt: a POST that must answer 200. *)
Definition maintenance_post {S} (requestURL : string) : M S unit :=
  status ← (ask (QPost requestURL) ≫= lift);
  lift (guard_err (negb (Z.eqb status 200)) (Errorf "failed to request metasrv")).

Definition SetMaintenanceMode `{RetryLib} {S} (metaHTTPServiceURL : string) (enabled : bool)
    : M S unit :=
  retry_Do 5 (maintenance_post (metaHTTPServiceURL +:+ maintenance_endpoint enabled)).

(** The requests maintenance mode makes. *)
Definition is_maintenance_post (url : string) (e : event) : Prop :=
  match projT1 e with QPost u => u = url | _ => False end.

(** The metasrv accepted to turn maintenance mode on or off. *)
Definition maintenance_accepted (c : GreptimeDBCluster) (enabled : bool) (e : event) : Prop :=
  exists url, GetMetaHTTPServiceURL c = Ok url
    /\ e = ev (QPost (url +:+ maintenance_endpoint enabled)) (Ok 200%Z).

(** The two label keys the operator reserves. *)
Definition no_reserved_labels (fs : FileStorage) : Prop :=
  fs_Labels fs !! FileStorageTypeLabelKey = None
  /\ fs_Labels fs !! GreptimeDBComponentName = None.

(** A retry library that loops as documented, for the witnesses. *)
Fixpoint retry_loop {S} (again : error -> bool) (n : nat) (op : M S unit) : M S unit :=
  match n with
  | O => lift (Err (Errorf "no attempt left"))
  | Datatypes.S n =>
      r ← try op;
      match r with
      | Ok _ => mret tt
      | Err e => if again e && negb (Nat.eqb n 0) then retry_loop again n op else lift (Err e)
      | Panic => lift Panic
      end
  end.

Definition is_conflict (e : error) : bool := match e with ErrConflict _ => true | _ => false end.

Definition simple_retry : RetryLib := {|
  retry_Do S n op := retry_loop (fun _ => true) n op;
  RetryOnConflict S op := retry_loop is_conflict 4 op |}.

(** A quantity parser that accepts every text, for the witnesses. *)
Definition any_quantity : QuantityLib := {| MustParse s := Ok s |}.

(** A selector library that checks the length of the values, for the witnesses. *)
Definition label_values (sel : LabelSelector) : list string :=
  map snd (map_to_list (ls_MatchLabels sel)) ++ concat (map rq_Values (ls_MatchExpressions sel)).
Definition short_values : SelectorLib := {|
  selector_error sel :=
    if forallb (fun v => String.length v <=? 63) (label_values sel) then None
    else Some (Errorf "must be no more than 63 characters") |}.

(** A file storage with some user labels, for the witnesses. *)
Definition sample_storage (labels : strmap) : FileStorage :=
  mkFileStorage "datanode" None None "10Gi" "/data/greptimedb" StorageRetainPolicyTypeDelete
    labels ∅.

(** ** Lemmas *)

Lemma retry_loop_logs {S} again n (op : M S unit) P :
  logs_only P op -> logs_only P (retry_loop again n op).
Proof.
  intros H. induction n as [|n IH]; cbn; [apply logs_only_lift|].
  apply logs_only_bind; [by apply logs_only_try|].
  intros [a|e|]; [apply logs_only_ret| |apply logs_only_lift].
  destruct (_ && _); [done|apply logs_only_lift].
Qed.

Lemma retry_loop_first {S} again n (op : M S unit) W (env : environment W) s w :
  out_res (exec env op s w) = Ok tt ->
  exec env (retry_loop again (Datatypes.S n) op) s w = exec env op s w.
Proof.
  intros H. cbn. rewrite exec_bind, exec_try. cbv zeta.
  destruct (exec env op s w) as [r s' w' l]. cbn in *. subst r. cbn.
  rewrite exec_ret. unfold prepend. cbn. by rewrite app_nil_r.
Qed.

Lemma retry_loop_Ok {S} again n (op : M S unit) W (env : environment W) s w :
  out_res (exec env (retry_loop again n op) s w) = Ok tt ->
  exists s' w', out_res (exec env op s' w') = Ok tt
    /\ out_st (exec env (retry_loop again n op) s w) = out_st (exec env op s' w')
    /\ incl (out_log (exec env op s' w')) (out_log (exec env (retry_loop again n op) s w)).
Proof.
  revert s w. induction n as [|n IH]; intros s w; cbn; [done|].
  rewrite exec_bind, exec_try. cbv zeta.
  destruct (exec env op s w) as [[[]|e|] s1 w1 l1] eqn:E; cbn.
  - intros _. exists s, w. rewrite E. cbn. rewrite app_nil_r. auto using incl_refl.
  - destruct (again e && negb (Nat.eqb n 0)); cbn; [|done].
    intros H. destruct (IH s1 w1 H) as (s' & w' & H1 & H2 & H3).
    exists s', w'. split_and!; [done..|]. by apply incl_appr.
  - done.
Qed.

Lemma retry_loop_preserves {S} again n (op : M S unit) (R : S -> S -> Prop) `{!PreOrder R} :
  preserves R op -> preserves R (retry_loop again n op).
Proof.
  intros H. induction n as [|n IH]; cbn; [by apply preserves_lift|].
  apply preserves_bind; [done|by apply preserves_try|].
  intros [a|e|]; [by apply preserves_ret| |by apply preserves_lift].
  destruct (_ && _); [done|by apply preserves_lift].
Qed.

Lemma retry_loop_returns {S} again n (op : M S unit) W (env : environment W) :
  (forall s w, out_res (exec env op s w) <> Panic) ->
  forall s w, out_res (exec env (retry_loop again n op) s w) <> Panic.
Proof.
  intros H. induction n as [|n IH]; intros s w; cbn; [done|].
  rewrite exec_bind, exec_try. cbv zeta. specialize (H s w).
  destruct (exec env op s w) as [[[]|e|] s1 w1 l1]; cbn in *; [done| |done].
  destruct (_ && _); cbn; [apply IH|done].
Qed.

Lemma simple_retry_laws : @RetryLaws simple_retry.
Proof.
  constructor.
  - intros S n op P. apply (retry_loop_logs (fun _ => true) n op P).
  - intros S n op. apply (retry_loop_first (fun _ => true) n op).
  - intros S n op. apply (retry_loop_Ok (fun _ => true) n op).
  - intros S n op R ?. apply (retry_loop_preserves (fun _ => true) n op R).
  - intros S n op W env. apply (retry_loop_returns (fun _ => true) n op).
  - intros S op. apply (retry_loop_Ok is_conflict 4 op).
  - intros S op R ?. apply (retry_loop_preserves is_conflict 4 op R).
  - intros S op W env. apply (retry_loop_returns is_conflict 4 op).
  - intros S op P. apply (retry_loop_logs is_conflict 4 op P).
  - intros S op. apply (retry_loop_first is_conflict 3 op).
Qed.

Lemma maintenance_post_Ok {S} W (env : environment W) url (s : S) w :
  out_res (exec env (maintenance_post url) s w) = Ok tt ->
  out_log (exec env (maintenance_post url) s w) = [ev (QPost url) (Ok 200%Z)].
Proof.
  unfold maintenance_post, exec, mbind, M_bind. cbn.
  destruct (env (QPost url) w) as [[code|e|] w']; cbn; [|done..].
  destruct (Z.eqb_spec code 200) as [->|]; done.
Qed.

Lemma SetMaintenanceMode_Ok `{RetryLaws} {S} W (env : environment W) url b (s : S) w :
  out_res (exec env (SetMaintenanceMode url b) s w) = Ok tt ->
  ev (QPost (url +:+ maintenance_endpoint b)) (Ok 200%Z)
    ∈ out_log (exec env (SetMaintenanceMode url b) s w).
Proof.
  intros Hok. apply retry_Do_Ok in Hok as (s' & w' & Hr & _ & Hincl).
  apply maintenance_post_Ok in Hr. rewrite Hr in Hincl.
  apply list_elem_of_In, Hincl. by left.
Qed.

Lemma ResourceName_no_extra name kind : ResourceName name kind [] = name +:+ "-" +:+ kind.
Proof. reflexivity. Qed.

Lemma ResourceName_empty_extra name kind : ResourceName name kind [""] = ResourceName name kind [].
Proof. reflexivity. Qed.

Lemma ResourceName_group name kind g :
  g <> "" -> ResourceName name kind [g] = name +:+ "-" +:+ kind +:+ "-" +:+ g.
Proof.
  intros Hg. unfold ResourceName. cbn [add_extra_names]. rewrite decide_True by done.
  unfold Join. by rewrite !string_app_assoc.
Qed.

(** A group's resource name is never the base one. *)
Lemma ResourceName_group_ne name kind g :
  g <> "" -> ResourceName name kind [g] <> ResourceName name kind [].
Proof.
  intros Hg. rewrite ResourceName_group, ResourceName_no_extra by done. intros H.
  apply (f_equal String.length) in H. rewrite !string_length_app in H. cbn in H. lia.
Qed.

Lemma two_labels_subseteq (k1 k2 v1 v2 : string) (labels : strmap) :
  k1 <> k2 ->
  ({[ k1 := v1; k2 := v2 ]} : strmap) ⊆ labels <-> labels !! k1 = Some v1 /\ labels !! k2 = Some v2.
Proof.
  intros Hne. rewrite map_subseteq_spec. split.
  - intros H. split; apply H; by simplify_map_eq.
  - intros [H1 H2] i x. rewrite lookup_insert_Some, lookup_singleton_Some. naive_solver.
Qed.

Lemma type_not_in_spec (labels : strmap) :
  requirement_matches labels
    (mkRequirement FileStorageTypeLabelKey OpNotIn ["wal"; "cache"]) = true <->
  labels !! FileStorageTypeLabelKey <> Some "wal"
  /\ labels !! FileStorageTypeLabelKey <> Some "cache".
Proof.
  unfold requirement_matches. cbn. destruct (labels !! FileStorageTypeLabelKey) as [v|];
    [|split; [split; congruence|reflexivity]].
  rewrite bool_decide_eq_true, !not_elem_of_cons. split.
  - intros (H1 & H2 & _). split; congruence.
  - intros [H1 H2]. split_and!; [congruence..|apply not_elem_of_nil].
Qed.

Lemma component_in_spec (labels : strmap) rn :
  requirement_matches labels (mkRequirement GreptimeDBComponentName OpIn [rn]) = true <->
  labels !! GreptimeDBComponentName = Some rn.
Proof.
  unfold requirement_matches. cbn. destruct (labels !! GreptimeDBComponentName) as [v|];
    [|split; congruence].
  rewrite bool_decide_eq_true, list_elem_of_singleton. split; congruence.
Qed.

(** What each selector asks of a label map. *)
Lemma pvc_selector_spec rn t labels :
  selector_matches (pvc_selector rn t) labels = true <->
  labels !! GreptimeDBComponentName = Some rn
  /\ match t with
     | FileStorageTypeDatanode =>
         labels !! FileStorageTypeLabelKey <> Some "wal"
         /\ labels !! FileStorageTypeLabelKey <> Some "cache"
     | _ => labels !! FileStorageTypeLabelKey = Some (string_of_FileStorageType t)
     end.
Proof.
  unfold selector_matches. rewrite andb_true_iff, bool_decide_eq_true.
  destruct t; cbn [pvc_selector ls_MatchLabels ls_MatchExpressions forallb].
  - rewrite !andb_true_iff, type_not_in_spec, component_in_spec.
    split; [tauto|]. intros [? ?]. split_and!; try tauto. apply map_empty_subseteq.
  - rewrite two_labels_subseteq by done. tauto.
  - rewrite two_labels_subseteq by done. tauto.
Qed.

(** The labels of a generated claim: the user's first, then the operator's. *)
Lemma FileStorageToPVC_labels `{QuantityLib} cl grp fs t kind pvc k :
  FileStorageToPVC cl grp fs t kind = Ok pvc ->
  labels_of (pvc_ObjectMeta pvc) !! k =
    match fs_Labels fs !! k with Some v => Some v | None => pvc_base_labels cl grp t kind !! k end.
Proof.
  unfold FileStorageToPVC. intros Hp. res_inv. subst pvc. cbn. apply MergeStringMap_lookup.
Qed.

Lemma pvc_base_labels_component cl grp t kind :
  pvc_base_labels cl grp t kind !! GreptimeDBComponentName = Some (ResourceName cl kind [grp]).
Proof. by destruct t. Qed.

Lemma pvc_base_labels_type cl grp t kind :
  pvc_base_labels cl grp t kind !! FileStorageTypeLabelKey =
    match t with FileStorageTypeDatanode => None | t => Some (string_of_FileStorageType t) end.
Proof. by destruct t. Qed.

Lemma claim_selected_iff `{QuantityLib} cl grp fs t kind pvc rn t' :
  FileStorageToPVC cl grp fs t kind = Ok pvc -> no_reserved_labels fs ->
  selector_matches (pvc_selector rn t') (labels_of (pvc_ObjectMeta pvc)) = true
  <-> t' = t /\ rn = ResourceName cl kind [grp].
Proof.
  intros Hp [Hn1 Hn2]. rewrite pvc_selector_spec.
  rewrite !(FileStorageToPVC_labels _ _ _ _ _ _ _ Hp), Hn1, Hn2.
  rewrite pvc_base_labels_component, pvc_base_labels_type.
  destruct t, t'; cbn; naive_solver.
Qed.

(** ** Properties *)

(** The three kinds of storage are kept apart: as long as the user's labels
    leave the reserved keys alone, the selector [GetPVCs] uses for a type and a
    resource matches the claims generated for exactly that type and resource. *)
Theorem pvc_selectors_separate `{QuantityLib} cl grp fs t kind pvc rn t' :
  FileStorageToPVC cl grp fs t kind = Ok pvc -> no_reserved_labels fs ->
  selector_matches (pvc_selector rn t') (labels_of (pvc_ObjectMeta pvc)) = true
  <-> t' = t /\ rn = ResourceName cl kind [grp].
Proof. apply claim_selected_iff. Qed.

(** A user label on the storage-type key wins over the operator's: the claim of
    the data storage is then selected as a write-ahead-log claim. *)
Theorem user_label_changes_storage_type `{QuantityLib} cl grp fs kind pvc :
  FileStorageToPVC cl grp fs FileStorageTypeDatanode kind = Ok pvc ->
  fs_Labels fs !! FileStorageTypeLabelKey = Some "wal" ->
  fs_Labels fs !! GreptimeDBComponentName = None ->
  selector_matches (pvc_selector (ResourceName cl kind [grp]) FileStorageTypeWAL)
    (labels_of (pvc_ObjectMeta pvc)) = true
  /\ selector_matches (pvc_selector (ResourceName cl kind [grp]) FileStorageTypeDatanode)
    (labels_of (pvc_ObjectMeta pvc)) = false.
Proof.
  intros Hp Hw Hn. rewrite <- not_true_iff_false, !pvc_selector_spec.
  rewrite !(FileStorageToPVC_labels _ _ _ _ _ _ _ Hp), Hw, Hn, pvc_base_labels_component.
  split; [done|]. intros (_ & H1 & _). congruence.
Qed.

Lemma pvc_selectors_separate_witness :
  let _ := any_quantity in
  exists pvc,
    FileStorageToPVC "c" "g1" (sample_storage ∅) FileStorageTypeWAL DatanodeRoleKind = Ok pvc
    /\ (selector_matches (pvc_selector "c-datanode" FileStorageTypeWAL)
          (labels_of (pvc_ObjectMeta pvc)) = true
        <-> FileStorageTypeWAL = FileStorageTypeWAL
            /\ "c-datanode" = ResourceName "c" DatanodeRoleKind ["g1"]).
Proof.
  intros Q. eexists. split; [reflexivity|].
  apply (pvc_selectors_separate (H := Q) "c" "g1" (sample_storage ∅) FileStorageTypeWAL
    DatanodeRoleKind); [reflexivity|done].
Defined.

Lemma user_label_changes_storage_type_witness :
  let _ := any_quantity in
  let fs := sample_storage {[ FileStorageTypeLabelKey := "wal" ]} in
  exists pvc, FileStorageToPVC "c" "" fs FileStorageTypeDatanode DatanodeRoleKind = Ok pvc
    /\ selector_matches (pvc_selector "c-datanode" FileStorageTypeWAL)
         (labels_of (pvc_ObjectMeta pvc)) = true
    /\ selector_matches (pvc_selector "c-datanode" FileStorageTypeDatanode)
         (labels_of (pvc_ObjectMeta pvc)) = false.
Proof.
  intros Q fs. eexists. split; [reflexivity|].
  apply (user_label_changes_storage_type (H := Q) "c" "" fs DatanodeRoleKind); reflexivity.
Defined.
