(* ===== verification/NodeId.v ===== *)
(** * cmd/initializer: the node id of a datanode or flownode pod

    config_generator.go's [allocateNodeID]: the pod index is the last
    dash-separated token of the host name, a datanode group id goes into the
    high 32 bits, and the start id is added, all in uint64. *)

From stdpp Require Import base gmap strings list fin_maps.
From Stdlib Require Import ZArith Lia Ascii.
From S2P Require Import Prelude GoLib.

Local Open Scope Z_scope.

Record Options := mkOptions {
  op_ConfigPath : string;
  op_InitConfigPath : string;
  op_Namespace : string;
  op_RoleKind : string;
  op_RPCPort : Z;
  op_DatanodeGroupID : Z;
  op_StartNodeID : Z }.

(** [uint64(c.DatanodeGroupID)<<32 | nodeID] when a group id is given. *)
Definition with_group_id (datanodeGroupID nodeID : Z) : Z :=
  if 0 <=? datanodeGroupID
  then Z.lor (uint64 (Z.shiftl (uint64 datanodeGroupID) 32)) nodeID
  else nodeID.

Definition allocateNodeID (c : Options) (hostname : res string) : res Z :=
  name ← hostname;
  _ ← guard_err (bool_decide (name = "")) (Errorf "the hostname is empty");
  let token := Split "-"%char name in
  _ ← guard_err (bool_decide (length token = 0%nat)) (Errorf "invalid hostname format");
  podIndex ← last_elem token;
  nodeID ← wrap_err (Errorf "invalid hostname format") (ParseUint podIndex);
  let nodeID := with_group_id (op_DatanodeGroupID c) nodeID in
  Ok (uint64 (nodeID + uint64 (op_StartNodeID c))).

(** The host name of the pod of a StatefulSet with an ordinal. *)
Definition pod_name (sts : string) (ordinal : Z) : string := sts +:+ "-" +:+ fmt_d ordinal.

(** The options of a pod of a datanode group, for the witnesses. *)
Definition group_options (group start : Z) : Options :=
  mkOptions "/etc/greptimedb/config.toml" "/etc/greptimedb-init/config.toml" "default" "datanode"
    4001 group start.

(** An int32 that is not negative: a replica count, a pod ordinal, a start id. *)
Definition is_count (x : Z) : Prop := 0 <= x < 2 ^ 31.

(** The intended id: the group in the high word, ordinal and start in the low. *)
Definition node_id (group ordinal start : Z) : Z :=
  if 0 <=? group then group * 2 ^ 32 + (ordinal + start) else ordinal + start.

(** ** Lemmas *)

Lemma pod_name_last sts i :
  0 <= i -> last_elem (Split "-"%char (pod_name sts i)) = Ok (fmt_d i).
Proof.
  intros Hi. unfold last_elem, pod_name.
  change ("-" +:+ fmt_d i) with (String "-"%char (fmt_d i)).
  by rewrite last_Split_app by (by apply fmt_d_no_dash).
Qed.

Lemma pod_name_not_empty sts i : pod_name sts i <> "".
Proof. unfold pod_name. by destruct sts. Qed.

Lemma Split_length c s : length (Split c s) <> 0%nat.
Proof. pose proof (Split_not_nil c s). by destruct (Split c s). Qed.

Lemma with_group_id_spec g i :
  is_int32 g -> 0 <= i < 2 ^ 32 ->
  with_group_id g i = if 0 <=? g then g * 2 ^ 32 + i else i.
Proof.
  unfold is_int32. intros Hg Hi. unfold with_group_id. destruct (Z.leb_spec 0 g); [|done].
  rewrite (uint64_small g) by (unfold is_uint64; lia).
  rewrite uint64_small by (rewrite Z.shiftl_mul_pow2 by lia; unfold is_uint64; lia).
  apply lor_shiftl_add; lia.
Qed.

Lemma allocateNodeID_bounds c h n : allocateNodeID c h = Ok n -> is_uint64 n.
Proof. unfold allocateNodeID. intros H. res_inv. subst n. apply uint64_range. Qed.

Lemma allocateNodeID_pod_name c sts i :
  0 <= i < 2 ^ 64 ->
  allocateNodeID c (Ok (pod_name sts i)) =
    Ok (uint64 (with_group_id (op_DatanodeGroupID c) i + uint64 (op_StartNodeID c))).
Proof.
  intros Hi. unfold allocateNodeID. cbn [mbind res_bind].
  rewrite (bool_decide_eq_false_2 (pod_name sts i = "")) by apply pod_name_not_empty.
  rewrite bool_decide_eq_false_2 by apply Split_length.
  rewrite pod_name_last by lia. cbn [mbind res_bind guard_err wrap_err].
  by rewrite ParseUint_fmt_d.
Qed.

Lemma node_id_injective g1 g2 i1 i2 s1 s2 :
  0 <= g1 < 2 ^ 31 -> 0 <= g2 < 2 ^ 31 ->
  is_count s1 -> is_count s2 -> is_count i1 -> is_count i2 ->
  node_id g1 i1 s1 = node_id g2 i2 s2 -> g1 = g2 /\ i1 + s1 = i2 + s2.
Proof.
  unfold node_id, is_count. intros Hg1 Hg2 Hs1 Hs2 Hi1 Hi2.
  rewrite !(proj2 (Z.leb_le 0 _)) by lia. nia.
Qed.

(** No group id was given. *)
Lemma node_id_base i s : node_id (default (-1) None) i s = i + s.
Proof. reflexivity. Qed.

Lemma allocateNodeID_exact c sts i :
  is_int32 (op_DatanodeGroupID c) -> is_int32 (op_StartNodeID c) -> is_count i ->
  allocateNodeID c (Ok (pod_name sts i)) =
    Ok (uint64 (node_id (op_DatanodeGroupID c) i (op_StartNodeID c))).
Proof.
  unfold is_count. intros Hg Hs Hi. rewrite allocateNodeID_pod_name by lia. f_equal.
  rewrite with_group_id_spec by (done || lia). unfold uint64, node_id.
  rewrite Z.add_mod_idemp_r by lia. f_equal. destruct (Z.leb_spec 0 (op_DatanodeGroupID c)); lia.
Qed.

Lemma node_id_small g i s :
  is_int32 g -> is_int32 s -> is_count i -> 0 <= node_id g i s -> uint64 (node_id g i s) = node_id g i s.
Proof.
  unfold is_int32, is_count, node_id. intros Hg Hs Hi Hn. apply uint64_small. unfold is_uint64.
  destruct (Z.leb_spec 0 g); lia.
Qed.

Lemma allocateNodeID_node_id c sts i :
  is_int32 (op_DatanodeGroupID c) -> is_count (op_StartNodeID c) -> is_count i ->
  allocateNodeID c (Ok (pod_name sts i)) =
    Ok (node_id (op_DatanodeGroupID c) i (op_StartNodeID c)).
Proof.
  intros Hg Hs Hi.
  assert (Hs' : is_int32 (op_StartNodeID c)) by (unfold is_int32, is_count in *; lia).
  rewrite allocateNodeID_exact by done. f_equal. apply node_id_small; [done..|].
  unfold node_id, is_count, is_int32 in *. destruct (Z.leb_spec 0 (op_DatanodeGroupID c)); lia.
Qed.

(** ** Properties *)

(** C39. The pod with an ordinal of any StatefulSet, whatever dashes its name has, gets the
    id with the group in the high word and ordinal plus start in the low one, modulo
    2^64: for every int32 group and start, since neither the CRD nor the webhook bounds
    the start.  Nothing wraps unless that number is negative, so never when the start is
    not; a start of -1 gives pod 0 of a base datanode the id 2^64 - 1. *)
Theorem allocateNodeID_spec c sts i :
  is_int32 (op_DatanodeGroupID c) -> is_int32 (op_StartNodeID c) -> is_count i ->
  let n := node_id (op_DatanodeGroupID c) i (op_StartNodeID c) in
  allocateNodeID c (Ok (pod_name sts i)) = Ok (uint64 n)
  /\ (0 <= n -> uint64 n = n)
  /\ (0 <= op_StartNodeID c -> 0 <= n).
Proof.
  intros Hg Hs Hi n. split; [by apply allocateNodeID_exact|]. split; [by apply node_id_small|].
  unfold n, node_id, is_count, is_int32 in *. destruct (Z.leb_spec 0 (op_DatanodeGroupID c)); lia.
Qed.

(** No two pods of the datanode groups of a cluster share a node id: if two
    pods (any StatefulSet names, any start ids that are not negative) get the same id, they are in the
    same group and have the same ordinal plus start. *)
Theorem allocateNodeID_injective c1 c2 sts1 sts2 i1 i2 n :
  0 <= op_DatanodeGroupID c1 < 2 ^ 31 -> 0 <= op_DatanodeGroupID c2 < 2 ^ 31 ->
  is_count (op_StartNodeID c1) -> is_count (op_StartNodeID c2) -> is_count i1 -> is_count i2 ->
  allocateNodeID c1 (Ok (pod_name sts1 i1)) = Ok n ->
  allocateNodeID c2 (Ok (pod_name sts2 i2)) = Ok n ->
  op_DatanodeGroupID c1 = op_DatanodeGroupID c2
  /\ i1 + op_StartNodeID c1 = i2 + op_StartNodeID c2.
Proof.
  intros Hg1 Hg2 Hs1 Hs2 Hi1 Hi2.
  rewrite !allocateNodeID_node_id by (done || unfold is_int32; lia).
  intros [= H1] [= H2]. eapply node_id_injective; [done..|congruence].
Qed.

(** Without a pod index the allocation fails: an empty host name, or a last
    token that is not a decimal number, is an error, never a default id. *)
Theorem allocateNodeID_rejects c s t :
  has_char "-"%char t = false -> (forall n, ParseUint t <> Ok n) ->
  exists e, allocateNodeID c (Ok (s +:+ String "-"%char t)) = Err e.
Proof.
  intros Ht Hp. unfold allocateNodeID. cbn [mbind res_bind].
  rewrite (bool_decide_eq_false_2 (s +:+ String "-" t = "")) by (by destruct s).
  rewrite bool_decide_eq_false_2 by apply Split_length.
  unfold last_elem. rewrite last_Split_app by done. cbn [mbind res_bind guard_err deref].
  assert (Hw : exists e, ParseUint t = Err e).
  { unfold ParseUint in *. destruct t; [eauto|].
    destruct (DecimalString.NilEmpty.uint_of_string _); [|eauto].
    destruct (_ <=? _); [eauto|]. exfalso. eapply Hp. reflexivity. }
  destruct Hw as [e ->]. cbn. eauto.
Qed.


Lemma allocateNodeID_spec_witness :
  allocateNodeID (group_options 2 10) (Ok (pod_name "my-cluster-datanode-write" 3))
  = Ok (2 * 2 ^ 32 + 13)
  /\ allocateNodeID (group_options (-1) (-1)) (Ok (pod_name "c-datanode" 0)) = Ok (2 ^ 64 - 1).
Proof.
  split.
  - destruct (allocateNodeID_spec (group_options 2 10) "my-cluster-datanode-write" 3) as (-> & -> & _);
      try (unfold is_int32, is_count; cbn; lia); reflexivity.
  - destruct (allocateNodeID_spec (group_options (-1) (-1)) "c-datanode" 0) as (-> & _);
      try (unfold is_int32, is_count; cbn; lia); reflexivity.
Defined.

Lemma allocateNodeID_injective_witness :
  allocateNodeID (group_options 1 5) (Ok (pod_name "c-datanode-a" 2)) = Ok 4294967303
  /\ (1 = 1 /\ 2 + 5 = 7 + 0).
Proof.
  split; [vm_compute; reflexivity|].
  apply (allocateNodeID_injective (group_options 1 5) (group_options 1 0)
           "c-datanode-a" "c-datanode-b" 2 7 4294967303); unfold is_count; cbn;
    first [lia | vm_compute; reflexivity].
Defined.

Lemma allocateNodeID_rejects_witness :
  exists e, allocateNodeID (group_options 1 0) (Ok "my-pod-x") = Err e.
Proof.
  apply (allocateNodeID_rejects (group_options 1 0) "my-pod" "x"); [reflexivity|].
  intros n. vm_compute. discriminate.
Defined.
