(* ===== verification/Validate.v ===== *)
(** * apis/v1alpha1/validate.go and the two webhooks: what a spec must satisfy

    [Validate] checks a spec on its own; [Check] asks the API server for the
    secrets and the custom resource definition the spec refers to.  Both the
    webhooks and the controllers call them. *)

From stdpp Require Import base gmap strings list fin_maps.
From Stdlib Require Import ZArith Lia.
From S2P Require Import Prelude GoLib K8s ApiCommon ApiTypes Client ApiServer.

(** go-toml's [toml.Unmarshal] into a map: only its error is used. *)
Class TomlUnmarshal := { toml_Unmarshal : string -> res unit }.

(** ** Secret keys (constants.go) *)

Definition TLSCrtSecretKey : string := "tls.crt".
Definition TLSKeySecretKey : string := "tls.key".
Definition AccessKeyIDSecretKey : string := "access-key-id".
Definition SecretAccessKeySecretKey : string := "secret-access-key".
Definition AccessKeySecretSecretKey : string := "access-key-secret".
Definition ServiceAccountKey : string := "service-account-key".
Definition AccountName : string := "account-name".
Definition AccountKey : string := "account-key".
Definition MetaDatabaseUsernameKey : string := "username".
Definition MetaDatabasePasswordKey : string := "password".

(** ** Validation of a spec *)

Section validate.
Context `{TomlUnmarshal}.

Definition validateTomlConfig (input : string) : res unit :=
  if decide (input = "") then Ok tt else toml_Unmarshal input.

Definition validateFileStorage (input : option FileStorage) : res unit :=
  match input with
  | None => Ok tt
  | Some _ =>
      _ ← guard_err (bool_decide (FileStorage_GetName input = ""))
            (Errorf "name is required in file storage");
      _ ← guard_err (bool_decide (FileStorage_GetMountPath input = ""))
            (Errorf "mountPath is required in file storage");
      guard_err (bool_decide (FileStorage_GetSize input = ""))
        (Errorf "storageSize is required in file storage")
  end.

(** [validateFileStorage(fs)] behind [fs != nil] is [validateFileStorage] of the
    pointer. *)
Definition validateWALProvider (input : option WALProviderSpec) : res unit :=
  match input with
  | None => Ok tt
  | Some _ =>
      _ ← guard_err (not_nil (WALProviderSpec_GetRaftEngineWAL input)
                     && not_nil (WALProviderSpec_GetKafkaWAL input))
            (Errorf "only one of 'raftEngine' or 'kafka' can be set");
      match RaftEngineWAL_GetFileStorage (WALProviderSpec_GetRaftEngineWAL input) with
      | Some fs => validateFileStorage (Some fs)
      | None => Ok tt
      end
  end.

Definition validateObjectStorageProvider (input : option ObjectStorageProviderSpec) : res unit :=
  match input with
  | None => Ok tt
  | Some o =>
      _ ← guard_err (Z.ltb 1 (getSetObjectStorageCount o))
            (Errorf "only one storage provider can be set");
      match GetCacheFileStorage input with
      | Some fs => validateFileStorage (Some fs)
      | None => Ok tt
      end
  end.

Definition validateFrontend (i : option GreptimeDBCluster) : res unit :=
  wrap_err (Errorf "invalid frontend toml config")
    (validateTomlConfig (FrontendSpec_GetConfig (GetFrontend i))).

Definition validateFrontendGroups (i : option GreptimeDBCluster) : res unit :=
  for_each (fun frontend =>
    _ ← guard_err (bool_decide (FrontendSpec_GetName (Some frontend) = ""))
          (Errorf "the frontend name must be specified");
    wrap_err (Errorf "invalid frontend toml config")
      (validateTomlConfig (FrontendSpec_GetConfig (Some frontend)))) (GetFrontendGroups i).

Definition validateDatanodeGroups (i : option GreptimeDBCluster) : res unit :=
  for_each (fun datanode =>
    _ ← guard_err (bool_decide (DatanodeSpec_GetName (Some datanode) = ""))
          (Errorf "the datanode group name must be specified");
    wrap_err (Errorf "invalid datanode toml config")
      (validateTomlConfig (DatanodeSpec_GetConfig (Some datanode)))) (GetDatanodeGroups i).

Definition validateMetaBackendStorage (i : option GreptimeDBCluster) : res unit :=
  match MetaSpec_GetBackendStorage (GetMeta i) with
  | None => Ok tt
  | Some backendStorage =>
      guard_err (Z.ltb 1 (backendStorageCount backendStorage))
        (Errorf "only one of the backend storage can be set")
  end.

Definition validateMeta (i : option GreptimeDBCluster) : res unit :=
  _ ← wrap_err (Errorf "invalid meta toml config")
        (validateTomlConfig (MetaSpec_GetConfig (GetMeta i)));
  validateMetaBackendStorage i.

Definition validateDatanode (i : option GreptimeDBCluster) : res unit :=
  _ ← match DatanodeSpec_GetFileStorage (GetDatanode i) with
      | Some fs =>
          guard_err (FileStorage_IsUseEmptyDir (Some fs)
                     && not_nil (FileStorage_GetStorageClassName (Some fs)))
            (Errorf "cannot set storageClassName when useEmptyDir is true")
      | None => Ok tt
      end;
  wrap_err (Errorf "invalid datanode toml config")
    (validateTomlConfig (DatanodeSpec_GetConfig (GetDatanode i))).

Definition validateFlownode (c : GreptimeDBCluster) : res unit :=
  wrap_err (Errorf "invalid flownode toml config")
    (validateTomlConfig (FlownodeSpec_GetConfig (GetFlownode c))).

Definition Cluster_Validate (i : option GreptimeDBCluster) : res unit :=
  match i with
  | None => Ok tt
  | Some c =>
      _ ← validateFrontend i;
      _ ← validateFrontendGroups i;
      _ ← validateMeta i;
      _ ← guard_err (not_nil (GetDatanode i) && Nat.ltb 0 (length (GetDatanodeGroups i)))
            (Errorf "datanode and datanodeGroups cannot be set at the same time");
      _ ← validateDatanode i;
      _ ← validateDatanodeGroups i;
      _ ← (if not_nil (GetFlownode c) then validateFlownode c else Ok tt);
      _ ← (match GetWALProvider i with
           | Some wal => validateWALProvider (Some wal)
           | None => Ok tt
           end);
      match GetObjectStorageProvider i with
      | Some osp => validateObjectStorageProvider (Some osp)
      | None => Ok tt
      end
  end.

Definition Standalone_Validate (i : option GreptimeDBStandalone) : res unit :=
  match i with
  | None => Ok tt
  | Some _ =>
      _ ← wrap_err (Errorf "invalid standalone toml config")
            (validateTomlConfig (Standalone_GetConfig i));
      _ ← (match Standalone_GetWALProvider i with
           | Some wal => validateWALProvider (Some wal)
           | None => Ok tt
           end);
      match Standalone_GetObjectStorageProvider i with
      | Some osp => validateObjectStorageProvider (Some osp)
      | None => Ok tt
      end
  end.

(** ** The admission webhooks

    The registered validator [r] is the empty object the manager was set up
    with; the object under admission is [obj]. *)

Inductive runtimeObject :=
  | OCluster (c : GreptimeDBCluster)
  | OStandalone (s : GreptimeDBStandalone)
  | OOther.

Definition Cluster_ValidateCreate (r : option GreptimeDBCluster) (obj : runtimeObject) : res unit :=
  match obj with
  | OCluster _ => Cluster_Validate r
  | _ => Err (Errorf "BUG: unexpected type")
  end.
Definition Cluster_ValidateUpdate (r : option GreptimeDBCluster) (oldObj newObj : runtimeObject)
    : res unit :=
  match newObj with
  | OCluster _ => Cluster_Validate r
  | _ => Err (Errorf "BUG: unexpected type")
  end.
Definition Cluster_ValidateDelete (r : option GreptimeDBCluster) (obj : runtimeObject) : res unit :=
  Ok tt.

Definition Standalone_ValidateCreate (r : option GreptimeDBStandalone) (obj : runtimeObject)
    : res unit :=
  match obj with
  | OStandalone _ => Standalone_Validate r
  | _ => Err (Errorf "unexpected type")
  end.
Definition Standalone_ValidateUpdate (r : option GreptimeDBStandalone)
    (oldObj newObj : runtimeObject) : res unit :=
  match newObj with
  | OStandalone _ => Standalone_Validate r
  | _ => Err (Errorf "unexpected type")
  end.
Definition Standalone_ValidateDelete (r : option GreptimeDBStandalone) (obj : runtimeObject)
    : res unit := Ok tt.
End validate.

(** ** Checks against the API server *)

Section check.
Context {S : Type}.

Definition checkSecretData (namespace name : string) (keys : list string) : M S unit :=
  secret ← Get KSecret (mkNamespacedName namespace name);
  match sec_Data secret with
  | None => lift (Err (Errorf "the data of secret is empty"))
  | Some data =>
      lift (for_each (fun key =>
        guard_err (negb (not_nil (data !! key))) (Errorf "secret does not have key")) keys)
  end.

Definition checkTLSSecret (namespace name : string) : M S unit :=
  checkSecretData namespace name [TLSCrtSecretKey; TLSKeySecretKey].
Definition checkGCSCredentialsSecret (namespace name : string) : M S unit :=
  checkSecretData namespace name [ServiceAccountKey].
Definition checkOSSCredentialsSecret (namespace name : string) : M S unit :=
  checkSecretData namespace name [AccessKeyIDSecretKey; AccessKeySecretSecretKey].
Definition checkS3CredentialsSecret (namespace name : string) : M S unit :=
  checkSecretData namespace name [AccessKeyIDSecretKey; SecretAccessKeySecretKey].
Definition checkAZBlobCredentialsSecret (namespace name : string) : M S unit :=
  checkSecretData namespace name [AccountName; AccountKey].

Definition podmonitors_crd : NamespacedName :=
  mkNamespacedName "" "podmonitors.monitoring.coreos.com".

Definition checkPodMonitorExists : M S unit :=
  _ ← Get KCRD podmonitors_crd; mret tt.

(** [if secretName := ...; secretName != "" { if err := check(secretName); ... }]. *)
Definition if_secret (secretName : string) (check : string -> M S unit) : M S unit :=
  if decide (secretName = "") then mret tt else check secretName.

Definition Cluster_Check (c : GreptimeDBCluster) : M S unit :=
  let i := Some c in
  let ns := om_Namespace (gc_ObjectMeta c) in
  let osp := GetObjectStorageProvider i in
  let backend := MetaSpec_GetBackendStorage (GetMeta i) in
  _ ← if_secret (TLSSpec_GetSecretName (FrontendSpec_GetTLS (GetFrontend i))) (checkTLSSecret ns);
  _ ← when (IsEnablePrometheusMonitor (GetPrometheusMonitor i)) checkPodMonitorExists;
  _ ← if_secret (S3Storage_GetSecretName (GetS3Storage osp)) (checkS3CredentialsSecret ns);
  _ ← if_secret (OSSStorage_GetSecretName (GetOSSStorage osp)) (checkOSSCredentialsSecret ns);
  _ ← if_secret (GCSStorage_GetSecretName (GetGCSStorage osp)) (checkGCSCredentialsSecret ns);
  _ ← if_secret (AZBlobStorage_GetSecretName (GetAZBlobStorage osp))
        (checkAZBlobCredentialsSecret ns);
  _ ← if_secret (MySQLStorage_GetCredentialsSecretName (BackendStorage_GetMySQLStorage backend))
        (fun n => checkSecretData ns n [MetaDatabaseUsernameKey; MetaDatabasePasswordKey]);
  if_secret
    (PostgreSQLStorage_GetCredentialsSecretName (BackendStorage_GetPostgreSQLStorage backend))
    (fun n => checkSecretData ns n [MetaDatabaseUsernameKey; MetaDatabasePasswordKey]).

Definition Standalone_Check (s : GreptimeDBStandalone) : M S unit :=
  let i := Some s in
  let ns := om_Namespace (sa_ObjectMeta s) in
  let osp := Standalone_GetObjectStorageProvider i in
  _ ← if_secret (TLSSpec_GetSecretName (Standalone_GetTLS i)) (checkTLSSecret ns);
  _ ← when (IsEnablePrometheusMonitor (Standalone_GetPrometheusMonitor i)) checkPodMonitorExists;
  _ ← if_secret (S3Storage_GetSecretName (GetS3Storage osp)) (checkS3CredentialsSecret ns);
  _ ← if_secret (OSSStorage_GetSecretName (GetOSSStorage osp)) (checkOSSCredentialsSecret ns);
  _ ← if_secret (GCSStorage_GetSecretName (GetGCSStorage osp)) (checkGCSCredentialsSecret ns);
  if_secret (AZBlobStorage_GetSecretName (GetAZBlobStorage osp)) (checkAZBlobCredentialsSecret ns).
End check.

(** ** Specifications *)

(** A set pointer excludes every other of the list. *)
Definition exclusive (l : list bool) : Prop :=
  forall i j, l !! i = Some true -> l !! j = Some true -> i = j.

Definition count_true (l : list bool) : nat := foldr (fun b n => (Nat.b2n b + n)%nat) 0%nat l.

Definition complete_storage (fs : FileStorage) : Prop :=
  fs_Name fs <> "" /\ fs_MountPath fs <> "" /\ fs_StorageSize fs <> "".

(** A property of what a pointer points to. *)
Definition if_set {A} (P : A -> Prop) (p : option A) : Prop := forall a, p = Some a -> P a.

Definition valid_wal (w : WALProviderSpec) : Prop :=
  exclusive [not_nil (wp_RaftEngineWAL w); not_nil (wp_KafkaWAL w)]
  /\ if_set (fun re => if_set complete_storage (re_FileStorage re)) (wp_RaftEngineWAL w).

Definition valid_object_storage (o : ObjectStorageProviderSpec) : Prop :=
  exclusive [not_nil (os_S3 o); not_nil (os_OSS o); not_nil (os_GCS o); not_nil (os_AZBlob o)]
  /\ if_set (fun ca => if_set complete_storage (ca_FileStorage ca)) (os_Cache o).

Definition valid_backend (b : BackendStorage) : Prop :=
  exclusive [not_nil (bs_EtcdStorage b); not_nil (bs_MySQLStorage b);
             not_nil (bs_PostgreSQLStorage b)].

(** An emptyDir has no storage class. *)
Definition no_class_for_emptyDir (fs : FileStorage) : Prop :=
  is_true_ptr (fs_UseEmptyDir fs) = true -> fs_StorageClassName fs = None.

Section valid.
Context `{TomlUnmarshal}.

Definition valid_toml (s : string) : Prop := s = "" \/ toml_Unmarshal s = Ok tt.
Definition valid_config (c : ComponentSpec) : Prop := valid_toml (cs_Config c).

(** The declarative reading of [Validate], field by field. *)
Record valid_cluster (c : GreptimeDBClusterSpec) : Prop := {
  vl_frontend : if_set (fun f => valid_config (fe_ComponentSpec f)) (cl_Frontend c);
  vl_frontendGroups :
    Forall (fun f => fe_Name f <> "" /\ valid_config (fe_ComponentSpec f)) (cl_FrontendGroups c);
  vl_meta : if_set (fun m => valid_config (me_ComponentSpec m)
                             /\ if_set valid_backend (me_BackendStorage m)) (cl_Meta c);
  vl_one_datanode : cl_Datanode c = None \/ cl_DatanodeGroups c = [];
  vl_datanode :
    if_set (fun d => valid_config (dn_ComponentSpec d)
                     /\ if_set (fun st => if_set no_class_for_emptyDir (dst_FileStorage st))
                          (dn_Storage d)) (cl_Datanode c);
  vl_datanodeGroups :
    Forall (fun d => dn_Name d <> "" /\ valid_config (dn_ComponentSpec d)) (cl_DatanodeGroups c);
  vl_flownode : if_set (fun f => valid_config (fl_ComponentSpec f)) (cl_Flownode c);
  vl_wal : if_set valid_wal (cl_WALProvider c);
  vl_object_storage : if_set valid_object_storage (cl_ObjectStorageProvider c) }.

Definition valid_standalone (s : GreptimeDBStandaloneSpec) : Prop :=
  valid_toml (sa_Config s)
  /\ if_set valid_wal (sa_WALProvider s)
  /\ if_set valid_object_storage (sa_ObjectStorageProvider s).
End valid.

(** The secrets a cluster and a standalone refer to, with the keys each needs. *)
Definition storage_secrets (o : option ObjectStorageProviderSpec) : list (string * list string) :=
  [(S3Storage_GetSecretName (GetS3Storage o), [AccessKeyIDSecretKey; SecretAccessKeySecretKey]);
   (OSSStorage_GetSecretName (GetOSSStorage o), [AccessKeyIDSecretKey; AccessKeySecretSecretKey]);
   (GCSStorage_GetSecretName (GetGCSStorage o), [ServiceAccountKey]);
   (AZBlobStorage_GetSecretName (GetAZBlobStorage o), [AccountName; AccountKey])].

Definition cluster_secrets (c : GreptimeDBCluster) : list (string * list string) :=
  let backend := MetaSpec_GetBackendStorage (GetMeta (Some c)) in
  (TLSSpec_GetSecretName (FrontendSpec_GetTLS (GetFrontend (Some c))),
    [TLSCrtSecretKey; TLSKeySecretKey])
  :: storage_secrets (GetObjectStorageProvider (Some c))
  ++ [(MySQLStorage_GetCredentialsSecretName (BackendStorage_GetMySQLStorage backend),
        [MetaDatabaseUsernameKey; MetaDatabasePasswordKey]);
      (PostgreSQLStorage_GetCredentialsSecretName (BackendStorage_GetPostgreSQLStorage backend),
        [MetaDatabaseUsernameKey; MetaDatabasePasswordKey])].

Definition standalone_secrets (s : GreptimeDBStandalone) : list (string * list string) :=
  (TLSSpec_GetSecretName (Standalone_GetTLS (Some s)), [TLSCrtSecretKey; TLSKeySecretKey])
  :: storage_secrets (Standalone_GetObjectStorageProvider (Some s)).

Section server.
Context {W : Type} (env : environment W) `{!ApiServer env}.

(** The server holds the secret with all the keys; no name asks for nothing. *)
Definition secret_holds (ns : string) (w : W) (need : string * list string) : Prop :=
  need.1 = "" \/
  exists secret data, stored w KSecret (mkNamespacedName ns need.1) = Some secret
    /\ sec_Data secret = Some data /\ Forall (fun k => is_Some (data !! k)) need.2.

Definition monitor_crd_holds (p : option PrometheusMonitorSpec) (w : W) : Prop :=
  IsEnablePrometheusMonitor p = true -> is_Some (stored w KCRD podmonitors_crd).

(** A check reads the server and decides a property of what it holds. *)
Definition decides {S} (m : M S unit) (P : W -> Prop) : Prop :=
  forall s w, let o := exec env m s w in
    out_world o = w /\ out_st o = s /\ (out_res o = Ok tt <-> P w).
End server.

(** Sample resources: a raft-engine WAL without storage, and a TLS secret that
    the server does not hold. *)
Definition nil_wal_cluster : GreptimeDBCluster :=
  mkGreptimeDBCluster (meta_of "default" "c" None ∅)
    (mkGreptimeDBClusterSpec None None None None [] None [] 0 0 0 0 None "" None None
       (Some (mkWALProviderSpec (Some (mkRaftEngineWAL None)) None)) None None None "" false)
    zero_ClusterStatus.
Definition tls_standalone : GreptimeDBStandalone :=
  mkGreptimeDBStandalone (meta_of "default" "s" None ∅)
    (mkGreptimeDBStandaloneSpec None None (Some (mkTLSSpec "tls")) 0 0 None 0 0 0 None "" None None
       None None None "" None None None None "" false)
    zero_StandaloneStatus.

(** ** Lemmas *)

Lemma count_true_0 l : count_true l = 0%nat <-> forall i, l !! i <> Some true.
Proof.
  induction l as [|b l IH]; [split; [intros _ i; by destruct i|done]|].
  destruct b.
  - split; [intros [=]|]. intros H. by destruct (H 0%nat).
  - change (count_true (false :: l)) with (count_true l). rewrite IH.
    split; intros H i; [destruct i; cbn; [done|apply H]|apply (H (S i))].
Qed.

Lemma exclusive_count l : exclusive l <-> (count_true l <= 1)%nat.
Proof.
  unfold exclusive. induction l as [|b l IH]; [split; [cbn; lia|naive_solver]|].
  destruct b.
  - change (count_true (true :: l)) with (S (count_true l)).
    transitivity (count_true l = 0)%nat; [|lia]. rewrite count_true_0. split; intros He.
    + intros i Hi. specialize (He 0%nat (S i) eq_refl Hi). lia.
    + intros [|i] [|j]; cbn; naive_solver.
  - change (count_true (false :: l)) with (count_true l). rewrite <- IH. split; intros He.
    + intros i j Hi Hj. by injection (He (S i) (S j) Hi Hj).
    + intros [|i] [|j]; cbn; [done..|]. intros Hi Hj. f_equal. by apply He.
Qed.

Lemma decide_guard (P : Prop) `{!Decision P} e : guard_err (bool_decide P) e = Ok tt <-> ~ P.
Proof. rewrite guard_err_Ok, bool_decide_eq_false. done. Qed.

Lemma seq_Ok (m k : res unit) : (m ≫= fun _ => k) = Ok tt <-> m = Ok tt /\ k = Ok tt.
Proof. destruct m as [[]| |]; cbn; naive_solver. Qed.

Lemma if_set_Some {A} (P : A -> Prop) a : if_set P (Some a) <-> P a.
Proof. unfold if_set. split; [eauto|by intros ? ? [= <-]]. Qed.

Lemma if_set_None {A} (P : A -> Prop) : if_set P None <-> True.
Proof. unfold if_set. split; [done|intros _ a [=]]. Qed.

(** [if p := ...; p != nil { if err := f(p); ... }] *)
Lemma if_set_Ok {A} (f : A -> res unit) P (p : option A) :
  (forall a, f a = Ok tt <-> P a) ->
  match p with Some a => f a | None => Ok tt end = Ok tt <-> if_set P p.
Proof. unfold if_set. intros Hf. destruct p; [rewrite Hf|]; naive_solver. Qed.

Lemma validateFileStorage_iff fs : validateFileStorage (Some fs) = Ok tt <-> complete_storage fs.
Proof. unfold validateFileStorage, complete_storage. rewrite !seq_Ok, !decide_guard. done. Qed.

Lemma validateWALProvider_iff w : validateWALProvider (Some w) = Ok tt <-> valid_wal w.
Proof.
  destruct w as [re kafka]. unfold validateWALProvider, valid_wal. rewrite seq_Ok, guard_err_Ok.
  f_equiv.
  - rewrite exclusive_count. destruct re, kafka; cbn; split; (done || lia).
  - destruct re as [[fs]|]; cbn; rewrite ?if_set_None, ?if_set_Some; [|done].
    apply (if_set_Ok _ _ _ validateFileStorage_iff).
Qed.

Lemma validateObjectStorageProvider_iff o :
  validateObjectStorageProvider (Some o) = Ok tt <-> valid_object_storage o.
Proof.
  destruct o as [s3 oss gcs az ca]. unfold validateObjectStorageProvider, valid_object_storage.
  rewrite seq_Ok, guard_err_Ok. f_equiv.
  - rewrite exclusive_count. destruct s3, oss, gcs, az; cbn; split; (done || lia).
  - destruct ca as [[fs cap]|]; cbn; rewrite ?if_set_None, ?if_set_Some; [|done].
    apply (if_set_Ok _ _ _ validateFileStorage_iff).
Qed.

Section toml.
Context `{TomlUnmarshal}.

Lemma validateTomlConfig_iff s : validateTomlConfig s = Ok tt <-> valid_toml s.
Proof. unfold validateTomlConfig, valid_toml. destruct (decide (s = "")); naive_solver. Qed.

Lemma wrapped_toml_iff e s : wrap_err e (validateTomlConfig s) = Ok tt <-> valid_toml s.
Proof. by rewrite wrap_err_Ok, validateTomlConfig_iff. Qed.

(** The configuration of a component whose spec is optional. *)
Lemma optional_toml_iff {A} e (f : A -> ComponentSpec) (p : option A) :
  wrap_err e (validateTomlConfig (nil_or "" (fun a => cs_Config (f a)) p)) = Ok tt
  <-> if_set (fun a => valid_config (f a)) p.
Proof.
  rewrite wrapped_toml_iff. unfold if_set, valid_config.
  destruct p; cbn; [naive_solver|]. unfold valid_toml. naive_solver.
Qed.

Lemma validateMeta_iff c :
  validateMeta (Some c) = Ok tt <->
  if_set (fun m => valid_config (me_ComponentSpec m) /\ if_set valid_backend (me_BackendStorage m))
    (cl_Meta (gc_Spec c)).
Proof.
  unfold validateMeta, validateMetaBackendStorage, MetaSpec_GetConfig, GetMeta.
  rewrite seq_Ok, optional_toml_iff. cbn. destruct (cl_Meta _) as [m|]; cbn; rewrite ?if_set_None, ?if_set_Some;
    [|naive_solver].
  destruct (me_BackendStorage m) as [[et my pg]|]; cbn; rewrite ?if_set_None, ?if_set_Some;
    [|naive_solver].
  assert (Hb : guard_err (Z.ltb 1 (backendStorageCount (mkBackendStorage et my pg)))
                 (Errorf "only one of the backend storage can be set") = Ok tt
               <-> valid_backend (mkBackendStorage et my pg)).
  { rewrite guard_err_Ok. unfold valid_backend. rewrite exclusive_count.
    destruct et, my, pg; cbn; split; (done || lia). }
  rewrite Hb. naive_solver.
Qed.

Lemma validateDatanode_iff c :
  validateDatanode (Some c) = Ok tt <->
  if_set (fun d => valid_config (dn_ComponentSpec d)
                   /\ if_set (fun st => if_set no_class_for_emptyDir (dst_FileStorage st))
                        (dn_Storage d)) (cl_Datanode (gc_Spec c)).
Proof.
  unfold validateDatanode, DatanodeSpec_GetConfig, GetDatanode.
  rewrite seq_Ok, optional_toml_iff. cbn. destruct (cl_Datanode _) as [d|]; cbn; rewrite ?if_set_None, ?if_set_Some;
    [|naive_solver].
  destruct (dn_Storage d) as [[home [fs|]]|]; cbn; rewrite ?if_set_None, ?if_set_Some; cbn;
    rewrite ?if_set_None, ?if_set_Some; [|naive_solver..].
  rewrite guard_err_Ok, andb_false_iff.
  assert (Hb : (is_true_ptr (fs_UseEmptyDir fs) = false \/ not_nil (fs_StorageClassName fs) = false)
               <-> no_class_for_emptyDir fs).
  { unfold no_class_for_emptyDir. destruct (is_true_ptr _), (fs_StorageClassName fs); naive_solver. }
  rewrite Hb. naive_solver.
Qed.

Lemma one_datanode_iff (d : option DatanodeSpec) (gs : list DatanodeSpec) e :
  guard_err (not_nil d && Nat.ltb 0 (length gs)) e = Ok tt <-> d = None \/ gs = [].
Proof. rewrite guard_err_Ok. destruct d, gs; cbn; naive_solver. Qed.

Lemma validateFrontendGroups_iff c :
  validateFrontendGroups (Some c) = Ok tt <->
  Forall (fun f => fe_Name f <> "" /\ valid_config (fe_ComponentSpec f))
    (cl_FrontendGroups (gc_Spec c)).
Proof.
  unfold validateFrontendGroups. rewrite for_each_Ok. apply Forall_proper; [|done].
  intros f. by rewrite seq_Ok, decide_guard, wrapped_toml_iff.
Qed.

Lemma validateDatanodeGroups_iff c :
  validateDatanodeGroups (Some c) = Ok tt <->
  Forall (fun d => dn_Name d <> "" /\ valid_config (dn_ComponentSpec d))
    (cl_DatanodeGroups (gc_Spec c)).
Proof.
  unfold validateDatanodeGroups. rewrite for_each_Ok. apply Forall_proper; [|done].
  intros f. by rewrite seq_Ok, decide_guard, wrapped_toml_iff.
Qed.

Lemma validateFlownode_iff c :
  (if not_nil (GetFlownode c) then validateFlownode c else Ok tt) = Ok tt <->
  if_set (fun f => valid_config (fl_ComponentSpec f)) (cl_Flownode (gc_Spec c)).
Proof.
  unfold validateFlownode, FlownodeSpec_GetConfig. rewrite <- (optional_toml_iff (Errorf "invalid flownode toml config")).
  unfold GetFlownode. by destruct (cl_Flownode _).
Qed.
End toml.

(** Sequencing checks: both properties must hold of the one world. *)
Section reads.
Context {W : Type} (env : environment W) `{!ApiServer env}.

Lemma decides_bind {S} (m k : M S unit) P Q :
  decides env m P -> decides env k Q ->
  decides env (m ≫= fun _ => k) (fun w => P w /\ Q w).
Proof.
  intros Hm Hk s w. rewrite exec_bind. destruct (Hm s w) as (Hw & Hs & Hr).
  destruct (exec env m s w) as [[[]|e|] s' w' l]; cbn in *; subst; [|naive_solver..].
  destruct (Hk s w) as (Hw & Hs & Hk'). cbn. naive_solver.
Qed.

Lemma decides_conseq {S} (m : M S unit) P Q :
  decides env m P -> (forall w, P w <-> Q w) -> decides env m Q.
Proof. intros Hm H s w. destruct (Hm s w) as (?&?&Hr). refine (conj _ (conj _ _)); [done..|].
  etransitivity; [exact Hr|apply H].
Qed.

Lemma checkSecretData_decides {S} ns n keys :
  decides env (checkSecretData (S := S) ns n keys)
    (fun w => exists secret data, stored w KSecret (mkNamespacedName ns n) = Some secret
      /\ sec_Data secret = Some data /\ Forall (fun k => is_Some (data !! k)) keys).
Proof.
  intros s w. unfold checkSecretData. rewrite exec_bind.
  destruct (exec_Get_stored env KSecret (mkNamespacedName ns n) s w) as [l Hget].
  change (@exec S W Secret) with (@exec S W (obj KSecret)). rewrite Hget. cbn [out_res].
  destruct (stored w KSecret (mkNamespacedName ns n)) as [secret|]; [|cbn; naive_solver].
  destruct (sec_Data secret) as [data|] eqn:E; rewrite exec_lift; cbn;
    refine (conj eq_refl (conj eq_refl _)); [|naive_solver].
  rewrite for_each_Ok. transitivity (Forall (fun k => is_Some (data !! k)) keys).
  - apply Forall_proper; [|done]. intros k. rewrite guard_err_Ok, negb_false_iff. apply not_nil_is_Some.
  - naive_solver.
Qed.

Lemma if_secret_decides {S} ns n keys (check : string -> M S unit) :
  (forall x, check x = checkSecretData ns x keys) ->
  decides env (if_secret n check) (fun w => secret_holds env ns w (n, keys)).
Proof.
  intros Hc. unfold if_secret, secret_holds. cbn. destruct (decide (n = "")) as [->|Hn].
  - intros s w. cbn. naive_solver.
  - rewrite Hc. eapply decides_conseq; [apply checkSecretData_decides|]. naive_solver.
Qed.

Lemma podmonitor_decides {S} p :
  decides env (when (S := S) (IsEnablePrometheusMonitor p) checkPodMonitorExists)
    (monitor_crd_holds env p).
Proof.
  unfold monitor_crd_holds. destruct (IsEnablePrometheusMonitor p); cbn.
  - intros s w. unfold checkPodMonitorExists. rewrite exec_bind.
    destruct (exec_Get_stored env KCRD podmonitors_crd s w) as [l Hget].
    change (@exec S W ObjectMeta) with (@exec S W (obj KCRD)). rewrite Hget. cbn [out_res].
    destruct (stored w KCRD podmonitors_crd); cbn;
      refine (conj eq_refl (conj eq_refl _)); [naive_solver eauto|].
    split; [done|]. intros H. by destruct (H eq_refl).
  - intros s w. cbn. naive_solver.
Qed.
End reads.

Section cluster_checks.
Context {W : Type} (env : environment W) `{!ApiServer env}.

Lemma storage_checks_decide {S} o ns k P :
  decides env k P ->
  decides (S := S) env
    (_ ← if_secret (S3Storage_GetSecretName (GetS3Storage o)) (checkS3CredentialsSecret ns);
     _ ← if_secret (OSSStorage_GetSecretName (GetOSSStorage o)) (checkOSSCredentialsSecret ns);
     _ ← if_secret (GCSStorage_GetSecretName (GetGCSStorage o)) (checkGCSCredentialsSecret ns);
     _ ← if_secret (AZBlobStorage_GetSecretName (GetAZBlobStorage o))
           (checkAZBlobCredentialsSecret ns);
     k)
    (fun w => Forall (secret_holds env ns w) (storage_secrets o) /\ P w).
Proof.
  intros Hk. eapply decides_conseq.
  - repeat (apply decides_bind; [by eapply if_secret_decides|]). exact Hk.
  - intros w. unfold storage_secrets. rewrite !Forall_cons, Forall_nil. tauto.
Qed.

Lemma storage_checks_end {S} o ns :
  decides (S := S) env
    (_ ← if_secret (S3Storage_GetSecretName (GetS3Storage o)) (checkS3CredentialsSecret ns);
     _ ← if_secret (OSSStorage_GetSecretName (GetOSSStorage o)) (checkOSSCredentialsSecret ns);
     _ ← if_secret (GCSStorage_GetSecretName (GetGCSStorage o)) (checkGCSCredentialsSecret ns);
     if_secret (AZBlobStorage_GetSecretName (GetAZBlobStorage o))
       (checkAZBlobCredentialsSecret ns))
    (fun w => Forall (secret_holds env ns w) (storage_secrets o)).
Proof.
  eapply decides_conseq.
  - repeat (apply decides_bind; [by eapply if_secret_decides|]). by eapply if_secret_decides.
  - intros w. unfold storage_secrets. rewrite !Forall_cons, Forall_nil. tauto.
Qed.

Lemma Cluster_Check_decides {S} c :
  decides (S := S) env (Cluster_Check c) (fun w =>
    Forall (secret_holds env (om_Namespace (gc_ObjectMeta c)) w) (cluster_secrets c)
    /\ monitor_crd_holds env (cl_PrometheusMonitor (gc_Spec c)) w).
Proof.
  eapply decides_conseq.
  - apply decides_bind; [by eapply if_secret_decides|].
    apply decides_bind; [by eapply podmonitor_decides|].
    apply storage_checks_decide. apply decides_bind; by eapply if_secret_decides.
  - intros w. unfold cluster_secrets.
    rewrite Forall_cons, Forall_app, !Forall_cons, Forall_nil. tauto.
Qed.

Lemma Standalone_Check_decides {S} s :
  decides (S := S) env (Standalone_Check s) (fun w =>
    Forall (secret_holds env (om_Namespace (sa_ObjectMeta s)) w) (standalone_secrets s)
    /\ monitor_crd_holds env (sa_PrometheusMonitor (sa_Spec s)) w).
Proof.
  eapply decides_conseq.
  - apply decides_bind; [by eapply if_secret_decides|].
    apply decides_bind; [by eapply podmonitor_decides|]. apply storage_checks_end.
  - intros w. unfold standalone_secrets. rewrite Forall_cons. tauto.
Qed.
End cluster_checks.

(** ** Properties *)

(** C15. [Validate] accepts a cluster exactly when it is valid field by field: every
    injected config parses, groups are named, at most one backend, WAL and
    object storage is set, datanode and datanodeGroups exclude each other. *)
Theorem Cluster_Validate_iff `{TomlUnmarshal} c :
  Cluster_Validate (Some c) = Ok tt <-> valid_cluster (gc_Spec c).
Proof.
  unfold Cluster_Validate, validateFrontend, FrontendSpec_GetConfig.
  rewrite !seq_Ok, optional_toml_iff, validateFrontendGroups_iff, validateMeta_iff,
    one_datanode_iff, validateDatanode_iff, validateDatanodeGroups_iff, validateFlownode_iff,
    (if_set_Ok _ _ _ validateWALProvider_iff),
    (if_set_Ok _ _ _ validateObjectStorageProvider_iff).
  split; [intros (?&?&?&?&?&?&?&?&?); by constructor|intros []; tauto].
Qed.

(** The standalone resource is accepted exactly when its config parses and its
    WAL and object storage are valid. *)
Theorem Standalone_Validate_iff `{TomlUnmarshal} s :
  Standalone_Validate (Some s) = Ok tt <-> valid_standalone (sa_Spec s).
Proof.
  unfold Standalone_Validate, valid_standalone.
  rewrite !seq_Ok, wrapped_toml_iff, (if_set_Ok _ _ _ validateWALProvider_iff),
    (if_set_Ok _ _ _ validateObjectStorageProvider_iff). done.
Qed.

(** [Check] succeeds exactly when the server holds every secret the cluster
    names, with all the keys its use needs, and the PodMonitor definition when
    monitoring is on; it changes nothing on the server. *)
Theorem Cluster_Check_iff {W} (env : environment W) `{!ApiServer env} c (w : W) :
  let o := exec env (Cluster_Check (S := unit) c) tt w in
  out_world o = w
  /\ (out_res o = Ok tt <->
      Forall (secret_holds env (om_Namespace (gc_ObjectMeta c)) w) (cluster_secrets c)
      /\ monitor_crd_holds env (cl_PrometheusMonitor (gc_Spec c)) w).
Proof. by destruct (Cluster_Check_decides env c tt w) as (? & _ & ?). Qed.

(** The same of a standalone. *)
Theorem Standalone_Check_iff {W} (env : environment W) `{!ApiServer env} s (w : W) :
  let o := exec env (Standalone_Check (S := unit) s) tt w in
  out_world o = w
  /\ (out_res o = Ok tt <->
      Forall (secret_holds env (om_Namespace (sa_ObjectMeta s)) w) (standalone_secrets s)
      /\ monitor_crd_holds env (sa_PrometheusMonitor (sa_Spec s)) w).
Proof. by destruct (Standalone_Check_decides env s tt w) as (? & _ & ?). Qed.

(** The admission verdict does not depend on the object under admission: both
    webhooks validate their own receiver. *)
Theorem webhook_ignores_object `{TomlUnmarshal} r c1 c2 old1 old2 :
  Cluster_ValidateCreate r (OCluster c1) = Cluster_ValidateCreate r (OCluster c2)
  /\ Cluster_ValidateUpdate r old1 (OCluster c1) = Cluster_ValidateUpdate r old2 (OCluster c2).
Proof. done. Qed.

(** [Validate] accepts specs on which the operator panics: [GetWALDir] panics
    exactly on a raft-engine WAL without file storage, and there is such a cluster
    that [Validate] accepts. *)
Theorem nil_wal_storage_accepted `{TomlUnmarshal} :
  (forall c, GetWALDir (Some c) = Panic <->
     exists kafka, cl_WALProvider (gc_Spec c) =
       Some (mkWALProviderSpec (Some (mkRaftEngineWAL None)) kafka))
  /\ exists c, Cluster_Validate (Some c) = Ok tt /\ GetWALDir (Some c) = Panic.
Proof.
  split; [|by exists nil_wal_cluster].
  intros c. unfold GetWALDir. destruct (cl_WALProvider _) as [[[[[fs|]]|] kafka]|]; cbn;
    [split; [done|naive_solver]|split; [eauto|done]|..];
    (destruct (_ ≫= dn_Storage); [destruct (decide _)|]; naive_solver).
Qed.

Lemma Cluster_Check_iff_witness :
  out_res (exec fake_env (Cluster_Check (S := unit) (groups_cluster [1%Z])) tt []) = Ok tt
  /\ (out_res (exec fake_env (Cluster_Check (S := unit) (groups_cluster [1%Z])) tt []) = Ok tt <->
      Forall (secret_holds fake_env "default" []) (cluster_secrets (groups_cluster [1%Z]))
      /\ monitor_crd_holds fake_env None []).
Proof.
  split; [reflexivity|]. apply (Cluster_Check_iff fake_env (groups_cluster [1%Z]) []).
Defined.

Lemma Standalone_Check_iff_witness :
  out_res (exec fake_env (Standalone_Check (S := unit) tls_standalone) tt [])
    = Err (ErrNotFound "not found")
  /\ out_world (exec fake_env (Standalone_Check (S := unit) tls_standalone) tt []) = [].
Proof.
  split; [reflexivity|]. apply (Standalone_Check_iff fake_env tls_standalone []).
Defined.
