(* ===== verification/Toml.v ===== *)
(** * pkg/dbconfig/dbconfig.go: merging a generated config into a TOML tree

    [mergeConfig] walks a config struct by reflection and sets each tagged field
    in the tree of the user's config, under one of two strategies.  A struct is
    the list of its fields with their tags, in order; go-toml's tree is a
    parameter. *)

From stdpp Require Import base gmap strings list fin_maps.
From Stdlib Require Import ZArith Lia Ascii.
From S2P Require Import Prelude GoLib K8s ApiCommon.

(** ** TOML values and trees *)

(** A Go value in a [map[string]interface{}]. *)
Inductive gvalue :=
  | GBool (b : bool)
  | GInt (n : Z)
  | GString (s : string)
  | GMap (m : list (string * gvalue)).

(** What [Set] stores in a tree, by the type of the Go value. *)
Inductive tvalue (Tree Float : Type) :=
  | VUint (n : Z)
  | VInt (n : Z)
  | VFloat (f : Float)
  | VString (s : string)
  | VBool (b : bool)
  | VStrings (l : list string)
  | VTree (t : Tree)
  | VTrees (l : list Tree).
Global Arguments VUint {Tree Float} n.
Global Arguments VInt {Tree Float} n.
Global Arguments VFloat {Tree Float} f.
Global Arguments VString {Tree Float} s.
Global Arguments VBool {Tree Float} b.
Global Arguments VStrings {Tree Float} l.
Global Arguments VTree {Tree Float} t.
Global Arguments VTrees {Tree Float} l.

(** go-toml and strconv's floating-point numbers. *)
Class TomlLib := {
  Float : Type;
  ParseFloat : string -> res Float;
  float_one : Float;
  Tree : Type;
  toml_Load : string -> res Tree;
  toml_String : Tree -> string;
  toml_Has : Tree -> string -> bool;
  toml_Get : Tree -> string -> option (tvalue Tree Float);
  toml_Set : Tree -> string -> tvalue Tree Float -> Tree;
  TreeFromMap : list (string * gvalue) -> res Tree }.

(** A key is a dotted path; two keys are unrelated when neither path leads to the
    other. *)
Definition key_path (key : string) : list string := Split "." key.
Definition unrelated (k k' : string) : Prop :=
  ~ key_path k `prefix_of` key_path k' /\ ~ key_path k' `prefix_of` key_path k.
#[export] Instance unrelated_dec k k' : Decision (unrelated k k').
Proof. unfold unrelated. apply _. Defined.

(** The documented behaviour: [Has] and [Get] agree; [Set] writes the value at the
    end of its path and nothing else, as long as no scalar is in the way
    ([settable]); a map of booleans, integers, strings and maps has a tree. *)
Class TomlLaws `{TomlLib} := {
  settable : Tree -> string -> Prop;
  Has_Get t k : toml_Has t k = not_nil (toml_Get t k);
  Get_Set t k v : settable t k -> toml_Get (toml_Set t k v) k = Some v;
  Get_Set_other t k k' v :
    settable t k -> unrelated k k' -> toml_Get (toml_Set t k v) k' = toml_Get t k';
  settable_Set t k k' v :
    settable t k -> settable t k' -> k = k' \/ unrelated k k' -> settable (toml_Set t k v) k';
  TreeFromMap_Ok m : exists t, TreeFromMap m = Ok t }.

(** ** Structs as reflection sees them *)

Section merge.
Context `{TomlLib}.
Notation value := (tvalue Tree Float).

(** What a pointer field refers to: a kind that [mergeConfig] knows or another. *)
Inductive scalar :=
  | SUint (n : Z)
  | SInt (n : Z)
  | SFloat (f : Float)
  | SString (s : string)
  | SBool (b : bool)
  | SMap (m : strmap)
  | SUnsupported.

Inductive field :=
  | FPtr (p : option scalar)
  | FStrings (l : list string)
  | FMaps (l : list (list (string * gvalue)))
  | FMap (m : option strmap)
  | FStruct (fields : list (string * field))
  | FUnsupported.

Definition InlinedFieldTag : string := ",inline".

(** The loops that copy a [map[string]string] into a [map[string]interface{}]. *)
Definition map_interface (m : strmap) : list (string * gvalue) :=
  map (fun kv => (kv.1, GString kv.2)) (map_to_list m).

Definition set_map (input : Tree) (tag : string) (m : strmap) : res Tree :=
  if decide (0 < size m)%nat then
    tree ← TreeFromMap (map_interface m);
    Ok (toml_Set input tag (VTree tree))
  else Ok input.

Definition set_scalar (input : Tree) (tag : string) (elem : scalar) : res Tree :=
  match elem with
  | SUint n => Ok (toml_Set input tag (VUint n))
  | SInt n => Ok (toml_Set input tag (VInt n))
  | SFloat f => Ok (toml_Set input tag (VFloat f))
  | SString s => Ok (toml_Set input tag (VString s))
  | SBool b => Ok (toml_Set input tag (VBool b))
  | SMap m => set_map input tag m
  | SUnsupported => Err (Errorf "tag with this type is not supported")
  end.

(** The [switch field.Kind()] of a field that is not inlined. *)
Definition set_field (input : Tree) (tag : string) (f : field) : res Tree :=
  match f with
  | FPtr None => Ok input
  | FPtr (Some elem) => set_scalar input tag elem
  | FStrings l => if decide (0 < length l)%nat then Ok (toml_Set input tag (VStrings l)) else Ok input
  | FMaps l => if decide (0 < length l)%nat
               then trees ← map_res TreeFromMap l; Ok (toml_Set input tag (VTrees trees))
               else Ok input
  | FMap None => Ok input
  | FMap (Some m) => set_map input tag m
  | FStruct _ | FUnsupported => Err (Errorf "field is not a pointer type")
  end.

(** One iteration of the loop over the fields; an inlined field recurses into its
    struct ([NumField] panics on anything else). *)
Fixpoint merge_field (strategy : ConfigMergeStrategy) (tag : string) (f : field) (input : Tree)
    : res Tree :=
  if decide (tag = "") then Ok input
  else if toml_Has input tag && String.eqb strategy ConfigMergeStrategyInjectedDataFirst
  then Ok input
  else if decide (tag = InlinedFieldTag) then
    match f with
    | FStruct fields =>
        (fix merge_fields (l : list (string * field)) (input : Tree) : res Tree :=
           match l with
           | [] => Ok input
           | (tag, f) :: l => input ← merge_field strategy tag f input; merge_fields l input
           end) fields input
    | _ => Panic
    end
  else set_field input tag f.

(** The loop of [mergeConfig]. *)
Fixpoint merge_fields (strategy : ConfigMergeStrategy) (fields : list (string * field))
    (input : Tree) : res Tree :=
  match fields with
  | [] => Ok input
  | (tag, f) :: fields =>
      input ← merge_field strategy tag f input; merge_fields strategy fields input
  end.

Definition mergeConfig (input : Tree) (fields : list (string * field))
    (strategy : ConfigMergeStrategy) : res string :=
  input ← merge_fields strategy fields input; Ok (toml_String input).

(** ** The specification: what a struct generates *)

(** The value a field has in the tree, if any. *)
Definition map_value (m : strmap) : res (option value) :=
  if decide (0 < size m)%nat then
    tree ← TreeFromMap (map_interface m);
    Ok (Some (VTree tree))
  else Ok None.

Definition field_value (f : field) : res (option value) :=
  match f with
  | FPtr None | FMap None => Ok None
  | FPtr (Some (SUint n)) => Ok (Some (VUint n))
  | FPtr (Some (SInt n)) => Ok (Some (VInt n))
  | FPtr (Some (SFloat n)) => Ok (Some (VFloat n))
  | FPtr (Some (SString s)) => Ok (Some (VString s))
  | FPtr (Some (SBool b)) => Ok (Some (VBool b))
  | FPtr (Some (SMap m)) | FMap (Some m) => map_value m
  | FStrings l => Ok (if decide (0 < length l)%nat then Some (VStrings l) else None)
  | FMaps l => if decide (0 < length l)%nat
               then trees ← map_res TreeFromMap l; Ok (Some (VTrees trees))
               else Ok None
  | FPtr (Some SUnsupported) => Err (Errorf "tag with this type is not supported")
  | FStruct _ | FUnsupported => Err (Errorf "field is not a pointer type")
  end.

Definition entry : Type := (string * value)%type.

(** The fields a struct sets, the inlined structs' included; an inlined field that
    is no struct is one without a value. *)
Fixpoint leaves_of (tag : string) (f : field) : list (string * field) :=
  if decide (tag = "") then []
  else if decide (tag = InlinedFieldTag) then
    match f with
    | FStruct fields =>
        (fix leaves (l : list (string * field)) : list (string * field) :=
           match l with
           | [] => []
           | (tag, f) :: l => leaves_of tag f ++ leaves l
           end) fields
    | _ => [(tag, FUnsupported)]
    end
  else [(tag, f)].

Fixpoint leaves (fields : list (string * field)) : list (string * field) :=
  match fields with
  | [] => []
  | (tag, f) :: fields => leaves_of tag f ++ leaves fields
  end.

(** The key-value pairs of the fields that have a value. *)
Fixpoint values (l : list (string * field)) : res (list entry) :=
  match l with
  | [] => Ok []
  | (tag, f) :: l =>
      v ← field_value f; es ← values l;
      Ok (match v with Some v => [(tag, v)] | None => [] end ++ es)
  end.

Definition generated (fields : list (string * field)) : res (list entry) := values (leaves fields).

(** Whether the user's key wins over the operator's. *)
Definition user_wins (strategy : ConfigMergeStrategy) (t : Tree) (key : string) : bool :=
  toml_Has t key && String.eqb strategy ConfigMergeStrategyInjectedDataFirst.

Definition apply_entry (strategy : ConfigMergeStrategy) (t : Tree) (e : entry) : Tree :=
  if user_wins strategy t e.1 then t else toml_Set t e.1 e.2.

(** The keys that may be set together: none leads to another. *)
Fixpoint all_unrelated (keys : list string) : Prop :=
  match keys with
  | [] => True
  | k :: keys => Forall (unrelated k) keys /\ all_unrelated keys
  end.
#[export] Instance all_unrelated_dec keys : Decision (all_unrelated keys).
Proof. induction keys; cbn; apply _. Defined.

(** ** Lemmas *)

Lemma set_field_value input tag f :
  set_field input tag f = (v ← field_value f;
                           Ok match v with Some v => toml_Set input tag v | None => input end).
Proof.
  destruct f as [[[]|]|l|l|[m|]| |]; cbn; try done;
    unfold set_map, map_value; try case_decide; try done.
  - by destruct (TreeFromMap _).
  - by destruct (map_res TreeFromMap _).
  - by destruct (TreeFromMap _).
Qed.

Lemma values_app l l' es :
  values (l ++ l') = Ok es <->
  exists es1 es2, values l = Ok es1 /\ values l' = Ok es2 /\ es = es1 ++ es2.
Proof.
  revert es. induction l as [|[tag f] l IH]; intros es; cbn.
  - split; [intros He; by exists [], es|]. by intros (? & ? & [= <-] & ? & ->).
  - split.
    + intros He. res_inv. subst es. apply IH in H1 as (es1 & es2 & H1 & H2 & ->).
      rewrite H0, H1. cbn. rewrite H2. eexists _, _. split_and!; [done..|].
      by rewrite app_assoc.
    + intros (es1 & es2 & H1 & H2 & ->). res_inv. subst es1. rewrite H0. cbn.
      rewrite (proj2 (IH (x0 ++ es2))) by eauto. cbn. by rewrite app_assoc.
Qed.

(** A field without a value for sure: a nil or empty map. *)
Definition empty_map (f : field) : bool :=
  match f with
  | FMap None => true
  | FMap (Some m) => bool_decide (m = ∅)
  | _ => false
  end.

(** The keys that may be generated. *)
Definition possible_keys (fields : list (string * field)) : list string :=
  map fst (filter (fun kf => empty_map kf.2 = false) (leaves fields)).

Lemma values_keys l es :
  values l = Ok es ->
  map fst es `sublist_of` map fst (filter (fun kf => empty_map kf.2 = false) l).
Proof.
  revert es. induction l as [|[tag f] l IH]; intros es; cbn [values].
  - intros [= <-]. constructor.
  - intros Hv. res_inv. subst es. destruct (empty_map f) eqn:He.
    + rewrite filter_cons_False by (cbn [snd]; congruence).
      replace x with (@None value); [by apply IH|].
      destruct f as [| | |[m|]| |]; try discriminate He; cbn in *; [|congruence].
      apply bool_decide_eq_true in He as ->. unfold map_value in *.
      rewrite decide_False in * by (rewrite map_size_empty; lia). congruence.
    + rewrite filter_cons_True by done. cbn [map fst].
      destruct x as [v|]; cbn [map fst app]; [by apply sublist_skip, IH|by apply sublist_cons, IH].
Qed.

Lemma unrelated_sym k k' : unrelated k k' -> unrelated k' k.
Proof. unfold unrelated. tauto. Qed.

Lemma unrelated_ne k k' : unrelated k k' -> k <> k'.
Proof. intros [Hn _] ->. by apply Hn. Qed.

Lemma all_unrelated_sublist keys keys' :
  keys' `sublist_of` keys -> all_unrelated keys -> all_unrelated keys'.
Proof.
  induction 1 as [|k l1 l2 Hs IH|k l1 l2 Hs IH]; cbn; [done| |]; intros [Hf Ha].
  - split; [|auto]. apply Forall_forall; intros x Hx; rewrite Forall_forall in Hf; apply Hf; by eapply elem_of_sublist.
  - auto.
Qed.

Section laws.
Context `{!TomlLaws}.

Lemma Has_Set_other t k k' v :
  settable t k -> unrelated k k' -> toml_Has (toml_Set t k v) k' = toml_Has t k'.
Proof. intros Hs Hu. by rewrite !Has_Get, Get_Set_other. Qed.

(** ** Fields with a value merge *)

Definition has_value (f : field) : Prop := exists v, field_value f = Ok v.

Lemma map_value_Ok m : exists v, map_value m = Ok v.
Proof.
  unfold map_value. case_decide; [|eauto].
  destruct (TreeFromMap_Ok (map_interface m)) as [t ->]. cbn. eauto.
Qed.

Lemma FMaps_has_value l : has_value (FMaps l).
Proof.
  unfold has_value. cbn. case_decide; [|eauto].
  destruct (map_res_total TreeFromMap l) as [ts ->]; [|cbn; eauto].
  intros m _. apply TreeFromMap_Ok.
Qed.

Lemma values_total l : Forall (fun kf => has_value kf.2) l -> exists es, values l = Ok es.
Proof.
  induction 1 as [|[tag f] l [v Hv] _ [es He]]; cbn in *; [eauto|].
  rewrite Hv. cbn. rewrite He. cbn. eauto.
Qed.

Lemma merge_field_total strategy f : forall tag t,
  Forall (fun kf => has_value kf.2) (leaves_of tag f) ->
  exists t', merge_field strategy tag f t = Ok t'.
Proof.
  revert f. fix IH 1. intros f tag t Hf.
  destruct (decide (tag = "")) as [->|Hne]; [destruct f; cbn; eauto|].
  destruct (decide (tag = InlinedFieldTag)) as [->|Hni].
  - destruct f as [| | | |fields|];
      try (exfalso; cbn in Hf; rewrite decide_False, decide_True in Hf by done;
           apply Forall_cons in Hf as [[? [=]] _]).
    cbn in Hf |- *. rewrite decide_False, decide_True in Hf by done.
    rewrite decide_False, decide_True by done.
    destruct (toml_Has t InlinedFieldTag && _); [eauto|]. clear Hne. revert t.
    induction fields as [|[tag f] fields IHl]; intros t; [eauto|].
    apply Forall_app in Hf as [Hf Hfs]. destruct (IH f tag t Hf) as [t1 ->]. cbn. by apply IHl.
  - replace (leaves_of tag f) with [(tag, f)] in Hf
      by (destruct f; cbn; by rewrite ?decide_False by done).
    apply Forall_cons in Hf as [[v Hv] _].
    assert (Hm : exists t', set_field t tag f = Ok t').
    { rewrite set_field_value. cbn in Hv. rewrite Hv. cbn. eauto. }
    destruct f; cbn; rewrite ?decide_False by done;
      (destruct (toml_Has t tag && _); [eauto|exact Hm]).
Qed.

Lemma merge_fields_total strategy fields t :
  Forall (fun kf => has_value kf.2) (leaves fields) ->
  exists t', merge_fields strategy fields t = Ok t'.
Proof.
  revert t. induction fields as [|[tag f] fields IH]; intros t Hf; cbn; [eauto|].
  apply Forall_app in Hf as [Hf Hfs].
  destruct (merge_field_total strategy f tag t Hf) as [t1 ->]. cbn. by apply IH.
Qed.

(** ** Walking the struct is applying what it generates *)

Section walk.
Variables (strategy : ConfigMergeStrategy) (keys : list string).
Hypothesis Hkeys : forall k k', k ∈ keys -> k' ∈ keys -> k = k' \/ unrelated k k'.
Hypothesis Hinline : Forall (fun k => unrelated k InlinedFieldTag) keys.

Definition ready (t : Tree) : Prop :=
  Forall (settable t) keys /\ toml_Has t InlinedFieldTag = false.

Lemma ready_apply t e : e.1 ∈ keys -> ready t -> ready (apply_entry strategy t e).
Proof.
  intros Hk [Hs Hi]. unfold apply_entry. destruct (user_wins _ _ _); [done|].
  rewrite Forall_forall in Hs, Hinline. split.
  - apply Forall_forall. intros k' Hk'. apply settable_Set; auto.
  - by rewrite Has_Set_other by auto.
Qed.

Lemma merge_field_apply f : forall tag es t,
  values (leaves_of tag f) = Ok es -> Forall (fun e => e.1 ∈ keys) es -> ready t ->
  merge_field strategy tag f t = Ok (fold_left (apply_entry strategy) es t)
  /\ ready (fold_left (apply_entry strategy) es t).
Proof.
  revert f. fix IH 1. intros f tag es t Hg Hes Ht.
  destruct (decide (tag = "")) as [->|Hne].
  { destruct f; cbn in *; injection Hg as <-; done. }
  destruct (decide (tag = InlinedFieldTag)) as [->|Hni].
  - destruct f as [| | | |fields|];
      try (exfalso; cbn in Hg; by rewrite decide_False, decide_True in Hg by done).
    cbn in Hg |- *. rewrite decide_False, decide_True in Hg by done.
    rewrite decide_False, decide_True by done. rewrite (proj2 Ht). cbn.
    clear Hne. revert es t Hg Hes Ht.
    induction fields as [|[tag f] fields IHl]; intros es t Hg Hes Ht.
    + injection Hg as <-. done.
    + apply values_app in Hg as (es1 & es2 & H1 & H2 & ->). apply Forall_app in Hes as [Hes1 Hes2].
      destruct (IH f tag es1 t H1 Hes1 Ht) as [-> Ht']. cbn.
      rewrite fold_left_app. by apply IHl.
  - assert (Hm : merge_field strategy tag f t
                 = if user_wins strategy t tag then Ok t else set_field t tag f).
    { destruct f; cbn; rewrite ?decide_False by done; done. }
    replace (leaves_of tag f) with [(tag, f)] in Hg
      by (destruct f; cbn; by rewrite ?decide_False by done).
    cbn in Hg. rewrite Hm, set_field_value. res_inv. rewrite H1. cbn.
    destruct x as [v|]; subst es; cbn in *.
    + apply Forall_cons in Hes as [Hk _].
      split; [|by apply (ready_apply t (tag, v))].
      unfold apply_entry. cbn. by destruct (user_wins _ _ _).
    + split; [by destruct (user_wins _ _ _)|done].
Qed.

Lemma merge_fields_apply fields : forall es t,
  generated fields = Ok es -> Forall (fun e => e.1 ∈ keys) es -> ready t ->
  merge_fields strategy fields t = Ok (fold_left (apply_entry strategy) es t).
Proof.
  induction fields as [|[tag f] fields IH]; intros es t Hg Hes Ht.
  - injection Hg as <-. done.
  - apply values_app in Hg as (es1 & es2 & H1 & H2 & ->). apply Forall_app in Hes as [Hes1 Hes2].
    destruct (merge_field_apply f tag es1 t) as [Hm Ht']; [done..|]. cbn. rewrite Hm.
    cbn. rewrite fold_left_app. by apply IH.
Qed.
End walk.

(** ** What the tree holds after the entries *)

Lemma apply_entry_other strategy t e k :
  settable t e.1 -> unrelated e.1 k ->
  toml_Get (apply_entry strategy t e) k = toml_Get t k
  /\ user_wins strategy (apply_entry strategy t e) k = user_wins strategy t k
  /\ (settable t k -> settable (apply_entry strategy t e) k).
Proof.
  intros Hs Hu. unfold apply_entry. destruct (user_wins strategy t e.1); [done|].
  unfold user_wins. rewrite Get_Set_other, Has_Set_other by done. auto using settable_Set.
Qed.

Lemma apply_entries_other strategy es : forall t k,
  all_unrelated (map fst es) -> Forall (fun e => settable t e.1) es ->
  Forall (fun e => unrelated e.1 k) es ->
  toml_Get (fold_left (apply_entry strategy) es t) k = toml_Get t k.
Proof.
  induction es as [|e es IH]; intros t k Hu Hs Hk; cbn; [done|].
  cbn in Hu. destruct Hu as [Hue Hu].
  apply Forall_cons in Hs as [Hse Hs]. apply Forall_cons in Hk as [Hke Hk].
  rewrite IH; [by apply apply_entry_other|done| |done].
  rewrite Forall_forall in Hs. rewrite Forall_forall in Hue. apply Forall_forall. intros e' He'.
  apply apply_entry_other; [done| |by apply Hs].
  apply Hue, list_elem_of_fmap. eauto.
Qed.

Lemma apply_entries_get strategy es : forall t k v,
  all_unrelated (map fst es) -> Forall (fun e => settable t e.1) es -> (k, v) ∈ es ->
  toml_Get (fold_left (apply_entry strategy) es t) k
  = if user_wins strategy t k then toml_Get t k else Some v.
Proof.
  induction es as [|e es IH]; intros t k v Hu Hs Hk; cbn; [by apply elem_of_nil in Hk|].
  cbn in Hu. destruct Hu as [Hue Hu]. apply Forall_cons in Hs as [Hse Hs].
  assert (Hs' : Forall (fun e' => settable (apply_entry strategy t e) e'.1) es).
  { rewrite Forall_forall in Hs. rewrite Forall_forall in Hue. apply Forall_forall. intros e' He'.
    apply apply_entry_other; [done| |by apply Hs]. apply Hue, list_elem_of_fmap. eauto. }
  apply elem_of_cons in Hk as [<-|Hk].
  - rewrite apply_entries_other; [|done|done|].
    + unfold apply_entry. cbn. destruct (user_wins strategy t k); [done|]. by apply Get_Set.
    + rewrite Forall_forall in Hue. apply Forall_forall. intros e' He'. apply unrelated_sym, (Hue e'.1).
      apply list_elem_of_fmap. eauto.
  - rewrite (IH _ k v) by done. rewrite Forall_forall in Hue.
    assert (Hek : unrelated e.1 k) by (apply Hue, list_elem_of_fmap; by exists (k, v)).
    destruct (apply_entry_other strategy t e k Hse Hek) as (-> & -> & _). done.
Qed.

(** The keys of a generated config, and a tree that can take them. *)
Definition mergeable (t : Tree) (es : list entry) : Prop :=
  all_unrelated (map fst es)
  /\ Forall (fun e => settable t e.1 /\ unrelated e.1 InlinedFieldTag) es
  /\ toml_Has t InlinedFieldTag = false.

Lemma all_unrelated_elem keys k k' :
  all_unrelated keys -> k ∈ keys -> k' ∈ keys -> k = k' \/ unrelated k k'.
Proof.
  induction keys as [|a keys IH]; cbn; [intros _ Hk; by apply elem_of_nil in Hk|].
  rewrite Forall_forall. intros [Ha Hu] Hk Hk'.
  apply elem_of_cons in Hk as [->|Hk]; apply elem_of_cons in Hk' as [->|Hk']; auto.
  right. by apply unrelated_sym, Ha.
Qed.

Lemma merge_fields_entries strategy fields es t :
  generated fields = Ok es -> mergeable t es ->
  merge_fields strategy fields t = Ok (fold_left (apply_entry strategy) es t).
Proof.
  intros Hg (Hu & Hs & Hi). rewrite Forall_forall in Hs.
  apply (merge_fields_apply strategy (map fst es)).
  - intros k k'. by apply all_unrelated_elem.
  - apply Forall_forall. intros k (e & -> & He)%list_elem_of_fmap. by apply Hs.
  - done.
  - apply Forall_forall. intros e He. apply list_elem_of_fmap. eauto.
  - split; [|done]. apply Forall_forall. intros k (e & -> & He)%list_elem_of_fmap. by apply Hs.
Qed.

Lemma merge_fields_get strategy fields es t t' :
  generated fields = Ok es -> mergeable t es -> merge_fields strategy fields t = Ok t' ->
  (forall k v, (k, v) ∈ es ->
     toml_Get t' k = if user_wins strategy t k then toml_Get t k else Some v)
  /\ (forall k, Forall (fun e => unrelated e.1 k) es -> toml_Get t' k = toml_Get t k).
Proof.
  intros Hg Hm Hf. rewrite (merge_fields_entries strategy fields es t Hg Hm) in Hf.
  injection Hf as <-. destruct Hm as (Hu & Hs & _).
  assert (Hs' : Forall (fun e => settable t e.1) es) by (eapply Forall_impl; [exact Hs|by intros ? []]).
  split; intros; [by apply apply_entries_get|by apply apply_entries_other].
Qed.
End laws.
End merge.

(** ** A tree for the witnesses: the list of its keys with their values *)

Inductive flat_tree := Flat (l : list (string * tvalue flat_tree string)).

Definition flat_list (t : flat_tree) : list (string * tvalue flat_tree string) :=
  let '(Flat l) := t in l.

Fixpoint flat_get (l : list (string * tvalue flat_tree string)) (k : string)
    : option (tvalue flat_tree string) :=
  match l with
  | [] => None
  | (k', v) :: l => if decide (k' = k) then Some v else flat_get l k
  end.

Fixpoint flat_value (v : gvalue) : tvalue flat_tree string :=
  match v with
  | GBool b => VBool b
  | GInt n => VInt n
  | GString s => VString s
  | GMap m => VTree (Flat (map (fun kv => (kv.1, flat_value kv.2)) m))
  end.

(** Its texts: one key set to its own name, or nothing. *)
Definition flat_toml : TomlLib := {|
  Float := string;
  ParseFloat s := if decide (s = "") then Err (Errorf "invalid syntax") else Ok s;
  float_one := "1.0";
  Tree := flat_tree;
  toml_Load s := Ok (Flat (if decide (s = "") then [] else [(s, VString s)]));
  toml_String t := Join "," (map fst (flat_list t));
  toml_Has t k := not_nil (flat_get (flat_list t) k);
  toml_Get t k := flat_get (flat_list t) k;
  toml_Set t k v := Flat ((k, v) :: flat_list t);
  TreeFromMap m := Ok (Flat (map (fun kv => (kv.1, flat_value kv.2)) m)) |}.

Definition flat_toml_laws : @TomlLaws flat_toml.
Proof.
  refine {| settable := fun _ _ => True |}; cbn; try done.
  - intros t k v _. by rewrite decide_True.
  - intros t k k' v _ Hu. rewrite decide_False; [done|]. by apply unrelated_ne.
  - intros m. eauto.
Defined.
