(* ===== verification/DbConfig.v ===== *)
(** * pkg/dbconfig: the configuration files of the components

    The config structs of common.go and of the five components, what their
    [Configure...] methods take from a resource and its secrets, and the texts
    [FromCluster] and [FromStandalone] generate.  The structs' tags are the keys of
    the TOML file; [fields] lists them in the order of the declaration. *)

From stdpp Require Import base gmap strings list fin_maps.
From Stdlib Require Import ZArith Lia Ascii.
From S2P Require Import Prelude GoLib K8s ApiCommon ApiTypes Client ApiServer.
From S2P Require Import K8sUtil Validate Toml.

(** ** encoding/base64: the standard encoding with padding *)

Definition base64_digit (n : N) : ascii :=
  ascii_of_N (if (n <? 26)%N then 65 + n
              else if (n <? 52)%N then 97 + (n - 26)
              else if (n <? 62)%N then 48 + (n - 52)
              else if (n =? 62)%N then 43 else 47).

Definition base64_quad (n : N) : ascii * ascii * ascii * ascii :=
  let d i := base64_digit (N.land (N.shiftr n i) 63) in (d 18, d 12, d 6, d 0)%N.

Definition base64_bits (a b c : ascii) : N :=
  (N.shiftl (N_of_ascii a) 16 + N.shiftl (N_of_ascii b) 8 + N_of_ascii c)%N.

Fixpoint EncodeToString (s : string) : string :=
  match s with
  | EmptyString => EmptyString
  | String a EmptyString =>
      let '(w, x, _, _) := base64_quad (base64_bits a zero zero) in
      String w (String x "==")
  | String a (String b EmptyString) =>
      let '(w, x, y, _) := base64_quad (base64_bits a b zero) in
      String w (String x (String y "="))
  | String a (String b (String c s)) =>
      let '(w, x, y, z) := base64_quad (base64_bits a b c) in
      String w (String x (String y (String z (EncodeToString s))))
  end.

Example EncodeToString_1 : EncodeToString "Man" = "TWFu". Proof. reflexivity. Qed.
Example EncodeToString_2 : EncodeToString "light w" = "bGlnaHQgdw==". Proof. reflexivity. Qed.
Example EncodeToString_3 : EncodeToString "~~" = "fn4=". Proof. reflexivity. Qed.

(** ** The config structs *)

Record StorageConfig := mkStorageConfig {
  StorageType : option string;
  StorageDataHome : option string;
  StorageAccessKeyID : option string;
  StorageSecretAccessKey : option string;
  StorageAccessKeySecret : option string;
  StorageBucket : option string;
  StorageRoot : option string;
  StorageRegion : option string;
  StorageEndpoint : option string;
  StorageScope : option string;
  StorageCredential : option string;
  st_Container : option string;
  st_AccountName : option string;
  st_AccountKey : option string;
  CacheCapacity : option string;
  CachePath : option string;
  EnableVirtualHostStyle : option bool }.
Definition zero_StorageConfig : StorageConfig :=
  mkStorageConfig None None None None None None None None None None None None None None None None
    None.

Record WALConfig := mkWALConfig {
  WalDir : option string;
  WalProvider : option string;
  WalBrokerEndpoints : list string;
  WalSASLType : option string;
  WalSASLUsername : option string;
  WalSASLPassword : option string;
  WalTLS : option strmap;
  WalTLSServerCACertPath : option string;
  WalTLSClientCertPath : option string;
  WalTLSClientKeyPath : option string }.
Definition zero_WALConfig : WALConfig :=
  mkWALConfig None None [] None None None None None None None.

Record PluginConfig := mkPluginConfig { Plugins : list (list (string * gvalue)) }.

Record LoggingConfig := mkLoggingConfig {
  lc_Dir : option string;
  lc_Level : option string;
  lc_LogFormat : option string;
  lc_EnableFileLogging : option bool;
  lc_MaxLogFiles : option Z;
  lc_MaxLogDirSize : option string }.
Definition zero_LoggingConfig : LoggingConfig := mkLoggingConfig None None None None None None.

Section configs.
Context `{TomlLib}.

Record TracingConfig := mkTracingConfig {
  tc_Enabled : option bool;
  tc_Endpoint : option string;
  tc_SampleRatio : option Float;
  tc_Headers : option strmap;
  tc_ExportProtocol : option string }.
Definition zero_TracingConfig : TracingConfig := mkTracingConfig None None None None None.

Record SlowQueryConfig := mkSlowQueryConfig {
  qc_Enabled : option bool;
  qc_RecordType : option string;
  qc_Threshold : option string;
  qc_SampleRatio : option Float;
  qc_TTL : option string }.
Definition zero_SlowQueryConfig : SlowQueryConfig := mkSlowQueryConfig None None None None None.

Record MetaConfig := mkMetaConfig {
  mtc_EnableRegionFailover : option bool;
  mtc_StoreKeyPrefix : option string;
  mtc_StoreAddrs : list string;
  mtc_MetaTableName : option string;
  mtc_MetaElectionLockID : option Z;
  mtc_Backend : option string;
  mtc_WALConfig : WALConfig;
  mtc_LoggingConfig : LoggingConfig;
  mtc_TracingConfig : TracingConfig;
  mtc_InputConfig : string }.

Record DatanodeConfig := mkDatanodeConfig {
  dnc_NodeID : option Z;
  dnc_RPCBindAddr : option string;
  dnc_RPCServerAddr : option string;
  dnc_StorageConfig : StorageConfig;
  dnc_WALConfig : WALConfig;
  dnc_LoggingConfig : LoggingConfig;
  dnc_TracingConfig : TracingConfig;
  dnc_InputConfig : string }.

Record FrontendConfig := mkFrontendConfig {
  fec_StorageConfig : StorageConfig;
  fec_LoggingConfig : LoggingConfig;
  fec_SlowQueryConfig : SlowQueryConfig;
  fec_TracingConfig : TracingConfig;
  fec_PluginConfig : PluginConfig;
  fec_InputConfig : string }.

Record FlownodeConfig := mkFlownodeConfig {
  flc_NodeID : option Z;
  flc_RPCBindAddr : option string;
  flc_RPCServerAddr : option string;
  flc_LoggingConfig : LoggingConfig;
  flc_TracingConfig : TracingConfig;
  flc_InputConfig : string }.

Record StandaloneConfig := mkStandaloneConfig {
  sac_StorageConfig : StorageConfig;
  sac_WALConfig : WALConfig;
  sac_LoggingConfig : LoggingConfig;
  sac_SlowQueryConfig : SlowQueryConfig;
  sac_TracingConfig : TracingConfig;
  sac_InputConfig : string }.

(** ** Their fields, with the tags *)

Definition PString (p : option string) : field := FPtr (SString <$> p).
Definition PBool (p : option bool) : field := FPtr (SBool <$> p).
Definition PUint (p : option Z) : field := FPtr (SUint <$> p).
Definition PInt (p : option Z) : field := FPtr (SInt <$> p).
Definition PFloat (p : option Float) : field := FPtr (SFloat <$> p).

Definition StorageConfig_fields (c : StorageConfig) : list (string * field) :=
  [("storage.type", PString (StorageType c));
   ("storage.data_home", PString (StorageDataHome c));
   ("storage.access_key_id", PString (StorageAccessKeyID c));
   ("storage.secret_access_key", PString (StorageSecretAccessKey c));
   ("storage.access_key_secret", PString (StorageAccessKeySecret c));
   ("storage.bucket", PString (StorageBucket c));
   ("storage.root", PString (StorageRoot c));
   ("storage.region", PString (StorageRegion c));
   ("storage.endpoint", PString (StorageEndpoint c));
   ("storage.scope", PString (StorageScope c));
   ("storage.credential", PString (StorageCredential c));
   ("storage.container", PString (st_Container c));
   ("storage.account_name", PString (st_AccountName c));
   ("storage.account_key", PString (st_AccountKey c));
   ("storage.cache_capacity", PString (CacheCapacity c));
   ("storage.cache_path", PString (CachePath c));
   ("storage.enable_virtual_host_style", PBool (EnableVirtualHostStyle c))].

Definition WALConfig_fields (c : WALConfig) : list (string * field) :=
  [("wal.dir", PString (WalDir c));
   ("wal.provider", PString (WalProvider c));
   ("wal.broker_endpoints", FStrings (WalBrokerEndpoints c));
   ("wal.sasl.type", PString (WalSASLType c));
   ("wal.sasl.username", PString (WalSASLUsername c));
   ("wal.sasl.password", PString (WalSASLPassword c));
   ("wal.tls", FMap (WalTLS c));
   ("wal.tls.server_ca_cert_path", PString (WalTLSServerCACertPath c));
   ("wal.tls.client_cert_path", PString (WalTLSClientCertPath c));
   ("wal.tls.client_key_path", PString (WalTLSClientKeyPath c))].

Definition PluginConfig_fields (c : PluginConfig) : list (string * field) :=
  [("plugins", FMaps (Plugins c))].

Definition LoggingConfig_fields (c : LoggingConfig) : list (string * field) :=
  [("logging.dir", PString (lc_Dir c));
   ("logging.level", PString (lc_Level c));
   ("logging.log_format", PString (lc_LogFormat c));
   ("logging.enable_file_logging", PBool (lc_EnableFileLogging c));
   ("logging.max_log_files", PInt (lc_MaxLogFiles c));
   ("logging.max_log_dir_size", PString (lc_MaxLogDirSize c))].

Definition TracingConfig_fields (c : TracingConfig) : list (string * field) :=
  [("logging.enable_otlp_tracing", PBool (tc_Enabled c));
   ("logging.otlp_endpoint", PString (tc_Endpoint c));
   ("logging.tracing_sample_ratio.default_ratio", PFloat (tc_SampleRatio c));
   ("logging.otlp_headers", FPtr (SMap <$> tc_Headers c));
   ("logging.otlp_export_protocol", PString (tc_ExportProtocol c))].

Definition SlowQueryConfig_fields (c : SlowQueryConfig) : list (string * field) :=
  [("slow_query.enable", PBool (qc_Enabled c));
   ("slow_query.record_type", PString (qc_RecordType c));
   ("slow_query.threshold", PString (qc_Threshold c));
   ("slow_query.sample_ratio", PFloat (qc_SampleRatio c));
   ("slow_query.ttl", PString (qc_TTL c))].

Definition inlined (fields : list (string * field)) : string * field :=
  (InlinedFieldTag, FStruct fields).

(** [InputConfig] has no tag. *)
Definition InputConfig_field : string * field := ("", FUnsupported).

Definition MetaConfig_fields (c : MetaConfig) : list (string * field) :=
  [("enable_region_failover", PBool (mtc_EnableRegionFailover c));
   ("store_key_prefix", PString (mtc_StoreKeyPrefix c));
   ("store_addrs", FStrings (mtc_StoreAddrs c));
   ("meta_table_name", PString (mtc_MetaTableName c));
   ("meta_election_lock_id", PUint (mtc_MetaElectionLockID c));
   ("backend", PString (mtc_Backend c));
   inlined (WALConfig_fields (mtc_WALConfig c));
   inlined (LoggingConfig_fields (mtc_LoggingConfig c));
   inlined (TracingConfig_fields (mtc_TracingConfig c));
   InputConfig_field].

Definition DatanodeConfig_fields (c : DatanodeConfig) : list (string * field) :=
  [("node_id", PUint (dnc_NodeID c));
   ("grpc.bind_addr", PString (dnc_RPCBindAddr c));
   ("grpc.server_addr", PString (dnc_RPCServerAddr c));
   inlined (StorageConfig_fields (dnc_StorageConfig c));
   inlined (WALConfig_fields (dnc_WALConfig c));
   inlined (LoggingConfig_fields (dnc_LoggingConfig c));
   inlined (TracingConfig_fields (dnc_TracingConfig c));
   InputConfig_field].

Definition FrontendConfig_fields (c : FrontendConfig) : list (string * field) :=
  [inlined (StorageConfig_fields (fec_StorageConfig c));
   inlined (LoggingConfig_fields (fec_LoggingConfig c));
   inlined (SlowQueryConfig_fields (fec_SlowQueryConfig c));
   inlined (TracingConfig_fields (fec_TracingConfig c));
   inlined (PluginConfig_fields (fec_PluginConfig c));
   InputConfig_field].

Definition FlownodeConfig_fields (c : FlownodeConfig) : list (string * field) :=
  [("node_id", PUint (flc_NodeID c));
   ("grpc.bind_addr", PString (flc_RPCBindAddr c));
   ("grpc.server_addr", PString (flc_RPCServerAddr c));
   inlined (LoggingConfig_fields (flc_LoggingConfig c));
   inlined (TracingConfig_fields (flc_TracingConfig c));
   InputConfig_field].

Definition StandaloneConfig_fields (c : StandaloneConfig) : list (string * field) :=
  [inlined (StorageConfig_fields (sac_StorageConfig c));
   inlined (WALConfig_fields (sac_WALConfig c));
   inlined (LoggingConfig_fields (sac_LoggingConfig c));
   inlined (SlowQueryConfig_fields (sac_SlowQueryConfig c));
   inlined (TracingConfig_fields (sac_TracingConfig c));
   InputConfig_field].

(** ** StorageConfig *)

(** [data[i]] of the values of a secret. *)
Definition secret_value (data : list string) (i : nat) : res string := deref (data !! i).

(** The two values of a secret, or the fields' own values without a secret. *)
Definition secret_pair {S} (namespace name k1 k2 : string) (old : option string * option string)
    : M S (option string * option string) :=
  if decide (name <> "") then
    data ← GetSecretsData namespace name [k1; k2];
    a ← lift (secret_value data 0);
    b ← lift (secret_value data 1);
    mret (Some a, Some b)
  else mret old.

Definition configureCacheStorage (c : StorageConfig) (cacheStorage : CacheStorage)
    : StorageConfig :=
  let mountPath := FileStorage_GetMountPath (CacheStorage_GetFileStorage (Some cacheStorage)) in
  mkStorageConfig (StorageType c) (StorageDataHome c) (StorageAccessKeyID c)
    (StorageSecretAccessKey c) (StorageAccessKeySecret c) (StorageBucket c) (StorageRoot c)
    (StorageRegion c) (StorageEndpoint c) (StorageScope c) (StorageCredential c) (st_Container c)
    (st_AccountName c) (st_AccountKey c)
    (if decide (ca_CacheCapacity cacheStorage <> "") then Some (ca_CacheCapacity cacheStorage)
     else CacheCapacity c)
    (if decide (mountPath <> "") then Some mountPath else CachePath c)
    (EnableVirtualHostStyle c).

Definition configureS3 {S} (c : StorageConfig) (namespace : string) (s3 : S3Storage)
    : M S StorageConfig :=
  '(id, key) ← secret_pair namespace (s3_SecretName s3) AccessKeyIDSecretKey
                 SecretAccessKeySecretKey (StorageAccessKeyID c, StorageSecretAccessKey c);
  mret (mkStorageConfig (Some "S3") (StorageDataHome c) id key (StorageAccessKeySecret c)
    (Some (s3_Bucket s3)) (Some (s3_Root s3)) (Some (s3_Region s3)) (Some (s3_Endpoint s3))
    (StorageScope c) (StorageCredential c) (st_Container c) (st_AccountName c) (st_AccountKey c)
    (CacheCapacity c) (CachePath c)
    (if s3_EnableVirtualHostStyle s3 then Some (s3_EnableVirtualHostStyle s3)
     else EnableVirtualHostStyle c)).

Definition configureOSS {S} (c : StorageConfig) (namespace : string) (oss : OSSStorage)
    : M S StorageConfig :=
  '(id, secret) ← secret_pair namespace (oss_SecretName oss) AccessKeyIDSecretKey
                    AccessKeySecretSecretKey (StorageAccessKeyID c, StorageAccessKeySecret c);
  mret (mkStorageConfig (Some "Oss") (StorageDataHome c) id (StorageSecretAccessKey c) secret
    (Some (oss_Bucket oss)) (Some (oss_Root oss)) (Some (oss_Region oss))
    (Some (oss_Endpoint oss)) (StorageScope c) (StorageCredential c) (st_Container c)
    (st_AccountName c) (st_AccountKey c) (CacheCapacity c) (CachePath c)
    (EnableVirtualHostStyle c)).

Definition configureGCS {S} (c : StorageConfig) (namespace : string) (gcs : GCSStorage)
    : M S StorageConfig :=
  credential ←
    (if decide (gcs_SecretName gcs <> "") then
       data ← GetSecretsData namespace (gcs_SecretName gcs) [ServiceAccountKey];
       serviceAccountKey ← lift (secret_value data 0);
       mret (if decide (serviceAccountKey <> "") then Some (EncodeToString serviceAccountKey)
             else StorageCredential c)
     else mret (StorageCredential c));
  mret (mkStorageConfig (Some "Gcs") (StorageDataHome c) (StorageAccessKeyID c)
    (StorageSecretAccessKey c) (StorageAccessKeySecret c) (Some (gcs_Bucket gcs))
    (Some (gcs_Root gcs)) (StorageRegion c) (Some (gcs_Endpoint gcs)) (Some (gcs_Scope gcs))
    credential (st_Container c) (st_AccountName c) (st_AccountKey c) (CacheCapacity c)
    (CachePath c) (EnableVirtualHostStyle c)).

Definition configureAZBlob {S} (c : StorageConfig) (namespace : string) (azblob : AZBlobStorage)
    : M S StorageConfig :=
  '(name, key) ← secret_pair namespace (az_SecretName azblob) AccountName AccountKey
                   (st_AccountName c, st_AccountKey c);
  mret (mkStorageConfig (Some "Azblob") (StorageDataHome c) (StorageAccessKeyID c)
    (StorageSecretAccessKey c) (StorageAccessKeySecret c) (StorageBucket c)
    (Some (az_Root azblob)) (StorageRegion c) (Some (az_Endpoint azblob)) (StorageScope c)
    (StorageCredential c) (Some (az_Container azblob)) name key (CacheCapacity c) (CachePath c)
    (EnableVirtualHostStyle c)).

Definition ConfigureObjectStorage {S} (c : StorageConfig) (namespace : string)
    (accessor : option ObjectStorageProviderSpec) : M S StorageConfig :=
  c ← match GetS3Storage accessor with
      | Some s3 => configureS3 c namespace s3
      | None =>
          match GetOSSStorage accessor with
          | Some oss => configureOSS c namespace oss
          | None =>
              match GetGCSStorage accessor with
              | Some gcs => configureGCS c namespace gcs
              | None =>
                  match GetAZBlobStorage accessor with
                  | Some blob => configureAZBlob c namespace blob
                  | None => mret c
                  end
              end
          end
      end;
  mret match GetCacheStorage accessor with
       | Some cacheStorage => configureCacheStorage c cacheStorage
       | None => c
       end.

Definition set_DataHome (dataHome : string) (c : StorageConfig) : StorageConfig :=
  mkStorageConfig (StorageType c) (Some dataHome) (StorageAccessKeyID c)
    (StorageSecretAccessKey c) (StorageAccessKeySecret c) (StorageBucket c) (StorageRoot c)
    (StorageRegion c) (StorageEndpoint c) (StorageScope c) (StorageCredential c) (st_Container c)
    (st_AccountName c) (st_AccountKey c) (CacheCapacity c) (CachePath c)
    (EnableVirtualHostStyle c).

(** ** WALConfig *)

Definition set_WalDir (dir : string) (c : WALConfig) : WALConfig :=
  mkWALConfig (Some dir) (WalProvider c) (WalBrokerEndpoints c) (WalSASLType c)
    (WalSASLUsername c) (WalSASLPassword c) (WalTLS c) (WalTLSServerCACertPath c)
    (WalTLSClientCertPath c) (WalTLSClientKeyPath c).

(** [if s != "" { field = ptr.To(s) }]. *)
Definition set_if (s : string) (old : option string) : option string :=
  if decide (s <> "") then Some s else old.

Definition configureKafka {S} (c : WALConfig) (namespace : string) (kafka : KafkaWAL)
    : M S WALConfig :=
  let k := Some kafka in
  '(type, (username, password)) ←
    match KafkaWAL_GetSASL k with
    | None => mret (WalSASLType c, (WalSASLUsername c, WalSASLPassword c))
    | Some sasl =>
        let username := set_if (ks_Username sasl) (WalSASLUsername c) in
        let password := set_if (ks_Password sasl) (WalSASLPassword c) in
        credentials ←
          match ks_SecretRef sasl with
          | None => mret (username, password)
          | Some secretRef =>
              data ← GetSecretsData namespace (kr_Name secretRef)
                       [kr_UsernameKey secretRef; kr_PasswordKey secretRef];
              a ← lift (secret_value data 0);
              b ← lift (secret_value data 1);
              mret (Some a, Some b)
          end;
        mret (set_if (ks_Type sasl) (WalSASLType c), credentials)
    end;
  mret (match KafkaWAL_GetTLS k with
        | None =>
            mkWALConfig (WalDir c) (Some "kafka") (KafkaWAL_GetBrokerEndpoints k) type username
              password (WalTLS c) (WalTLSServerCACertPath c) (WalTLSClientCertPath c)
              (WalTLSClientKeyPath c)
        | Some tls =>
            mkWALConfig (WalDir c) (Some "kafka") (KafkaWAL_GetBrokerEndpoints k) type username
              password (Some ∅)
              (set_if (kt_ServerCACertPath tls) (WalTLSServerCACertPath c))
              (set_if (kt_ClientCertPath tls) (WalTLSClientCertPath c))
              (set_if (kt_ClientKeyPath tls) (WalTLSClientKeyPath c))
        end).

(** ** PluginConfig, LoggingConfig, TracingConfig, SlowQueryConfig *)

(** [if s != "" { auditLog[key] = s }]. *)
Definition add_string (key s : string) : list (string * gvalue) :=
  if decide (s <> "") then [(key, GString s)] else [].

Definition ConfigureAuditLog (c : PluginConfig) (spec : option AuditLogSpec) : PluginConfig :=
  match spec with
  | None => c
  | Some spec =>
      let auditLog :=
        [("enable", GBool (al_Enabled spec))]
        ++ add_string "dir" (al_Dir spec)
        ++ add_string "sources" (al_Sources spec)
        ++ add_string "classes" (al_Classes spec)
        ++ add_string "commands" (al_Commands spec)
        ++ add_string "object_types" (al_ObjectTypes spec)
        ++ match al_MaxLogFiles spec with Some n => [("max_log_files", GInt n)] | None => [] end in
      mkPluginConfig (Plugins c ++ [[("audit_log", GMap auditLog)]])
  end.

Definition levelWithFilters (level : string) (filters : list string) : string :=
  if decide (0 < length filters)%nat then level +:+ "," +:+ Join "," filters else level.

Definition ConfigureLogging (c : LoggingConfig) (spec : option LoggingSpec) : LoggingConfig :=
  match spec with
  | None => c
  | Some l =>
      let stdout := LoggingSpec_IsOnlyLogToStdout spec in
      let dir := if decide (lg_LogsDir l <> "") then lg_LogsDir l else "" in
      mkLoggingConfig
        (Some (if stdout then "" else dir))
        (Some (levelWithFilters (lg_Level l) (lg_Filters l)))
        (Some (lg_Format l))
        (Some (negb stdout))
        (if not_nil (LoggingSpec_GetMaxLogFiles spec) then LoggingSpec_GetMaxLogFiles spec
         else lc_MaxLogFiles c)
        (set_if (LoggingSpec_GetMaxLogDirSize spec) (lc_MaxLogDirSize c))
  end.

(** A ratio that does not parse is logged and replaced by 1.0. *)
Definition sample_ratio (s : string) : Float :=
  match ParseFloat s with Ok r => r | _ => float_one end.

Definition ConfigureTracing (c : TracingConfig) (spec : option TracingSpec) : TracingConfig :=
  match spec with
  | None => c
  | Some t =>
      if is_true_ptr (tr_Enabled t) then
        mkTracingConfig (tr_Enabled t) (Some (tr_Endpoint t))
          (Some (sample_ratio (tr_SampleRatio t)))
          (if decide (0 < size (tr_Headers t))%nat then Some (tr_Headers t) else tc_Headers c)
          (set_if (tr_ExportProtocol t) (tc_ExportProtocol c))
      else c
  end.

Definition ConfigureSlowQuery (c : SlowQueryConfig) (spec : option SlowQuery) : SlowQueryConfig :=
  match spec with
  | None => c
  | Some q =>
      mkSlowQueryConfig (Some (SlowQuery_IsEnabled spec)) (Some (sq_RecordType q))
        (Some (sq_Threshold q)) (Some (sample_ratio (sq_SampleRatio q))) (Some (sq_TTL q))
  end.

(** ** MetaConfig *)

Definition connection_string (scheme : string) (data : list string) (host : string) (port : Z)
    (database : string) : res string :=
  username ← secret_value data 0;
  password ← secret_value data 1;
  Ok (scheme +:+ "://" +:+ username +:+ ":" +:+ password +:+ "@" +:+ host +:+ ":" +:+ fmt_d port
      +:+ "/" +:+ database).

Definition generateMySQLConnectionString {S} (mysql : MySQLStorage) (namespace : string)
    : M S string :=
  data ← GetSecretsData namespace (my_CredentialsSecretName mysql)
           [MetaDatabaseUsernameKey; MetaDatabasePasswordKey];
  lift (connection_string "mysql" data (my_Host mysql) (my_Port mysql) (my_Database mysql)).

Definition generatePostgreSQLConnectionString {S} (postgresql : PostgreSQLStorage)
    (namespace : string) : M S string :=
  data ← GetSecretsData namespace (pg_CredentialsSecretName postgresql)
           [MetaDatabaseUsernameKey; MetaDatabasePasswordKey];
  lift (connection_string "postgres" data (pg_Host postgresql) (pg_Port postgresql)
          (pg_Database postgresql)).

(** The five fields of the backend. *)
Definition with_backend (c : MetaConfig) (backend : string) (addrs : list string)
    (prefix table : option string) (lock : option Z) : MetaConfig :=
  mkMetaConfig (mtc_EnableRegionFailover c) prefix addrs table lock (Some backend)
    (mtc_WALConfig c) (mtc_LoggingConfig c) (mtc_TracingConfig c) (mtc_InputConfig c).

Definition configureBackendStorage {S} (c : MetaConfig) (spec : option MetaSpec)
    (namespace : string) : M S MetaConfig :=
  let backend := MetaSpec_GetBackendStorage spec in
  let c := match BackendStorage_GetEtcdStorage backend with
           | Some etcd =>
               with_backend c "etcd_store" (EtcdStorage_GetEndpoints (Some etcd))
                 (set_if (EtcdStorage_GetStoreKeyPrefix (Some etcd)) (mtc_StoreKeyPrefix c))
                 (mtc_MetaTableName c) (mtc_MetaElectionLockID c)
           | None => c
           end in
  c ← match BackendStorage_GetMySQLStorage backend with
      | Some mysql =>
          conn ← generateMySQLConnectionString mysql namespace;
          mret (with_backend c "mysql_store" [conn] (mtc_StoreKeyPrefix c)
                  (Some (my_Table mysql)) (mtc_MetaElectionLockID c))
      | None => mret c
      end;
  match BackendStorage_GetPostgreSQLStorage backend with
  | Some postgresql =>
      conn ← generatePostgreSQLConnectionString postgresql namespace;
      mret (with_backend c "postgres_store" [conn] (mtc_StoreKeyPrefix c)
              (Some (pg_Table postgresql)) (Some (pg_ElectionLockID postgresql)))
  | None => mret c
  end.

(** ** The Config interface and its five implementations *)

Inductive Config :=
  | CMeta (c : MetaConfig)
  | CDatanode (c : DatanodeConfig)
  | CFrontend (c : FrontendConfig)
  | CFlownode (c : FlownodeConfig)
  | CStandalone (c : StandaloneConfig).

Definition zero_MetaConfig : MetaConfig :=
  mkMetaConfig None None [] None None None zero_WALConfig zero_LoggingConfig zero_TracingConfig "".
Definition zero_DatanodeConfig : DatanodeConfig :=
  mkDatanodeConfig None None None zero_StorageConfig zero_WALConfig zero_LoggingConfig
    zero_TracingConfig "".
Definition zero_FrontendConfig : FrontendConfig :=
  mkFrontendConfig zero_StorageConfig zero_LoggingConfig zero_SlowQueryConfig zero_TracingConfig
    (mkPluginConfig []) "".
Definition zero_FlownodeConfig : FlownodeConfig :=
  mkFlownodeConfig None None None zero_LoggingConfig zero_TracingConfig "".
Definition zero_StandaloneConfig : StandaloneConfig :=
  mkStandaloneConfig zero_StorageConfig zero_WALConfig zero_LoggingConfig zero_SlowQueryConfig
    zero_TracingConfig "".

Definition NewFromRoleKind (kind : RoleKind) : res Config :=
  if decide (kind = MetaRoleKind) then Ok (CMeta zero_MetaConfig)
  else if decide (kind = DatanodeRoleKind) then Ok (CDatanode zero_DatanodeConfig)
  else if decide (kind = FrontendRoleKind) then Ok (CFrontend zero_FrontendConfig)
  else if decide (kind = FlownodeRoleKind) then Ok (CFlownode zero_FlownodeConfig)
  else if decide (kind = StandaloneRoleKind) then Ok (CStandalone zero_StandaloneConfig)
  else Err (Errorf "unknown component kind").

Definition fields (c : Config) : list (string * field) :=
  match c with
  | CMeta c => MetaConfig_fields c
  | CDatanode c => DatanodeConfig_fields c
  | CFrontend c => FrontendConfig_fields c
  | CFlownode c => FlownodeConfig_fields c
  | CStandalone c => StandaloneConfig_fields c
  end.

Definition GetInputConfig (c : Config) : string :=
  match c with
  | CMeta c => mtc_InputConfig c
  | CDatanode c => dnc_InputConfig c
  | CFrontend c => fec_InputConfig c
  | CFlownode c => flc_InputConfig c
  | CStandalone c => sac_InputConfig c
  end.

Definition SetInputConfig (input : string) (c : Config) : Config :=
  match c with
  | CMeta c => CMeta (mkMetaConfig (mtc_EnableRegionFailover c) (mtc_StoreKeyPrefix c)
      (mtc_StoreAddrs c) (mtc_MetaTableName c) (mtc_MetaElectionLockID c) (mtc_Backend c)
      (mtc_WALConfig c) (mtc_LoggingConfig c) (mtc_TracingConfig c) input)
  | CDatanode c => CDatanode (mkDatanodeConfig (dnc_NodeID c) (dnc_RPCBindAddr c)
      (dnc_RPCServerAddr c) (dnc_StorageConfig c) (dnc_WALConfig c) (dnc_LoggingConfig c)
      (dnc_TracingConfig c) input)
  | CFrontend c => CFrontend (mkFrontendConfig (fec_StorageConfig c) (fec_LoggingConfig c)
      (fec_SlowQueryConfig c) (fec_TracingConfig c) (fec_PluginConfig c) input)
  | CFlownode c => CFlownode (mkFlownodeConfig (flc_NodeID c) (flc_RPCBindAddr c)
      (flc_RPCServerAddr c) (flc_LoggingConfig c) (flc_TracingConfig c) input)
  | CStandalone c => CStandalone (mkStandaloneConfig (sac_StorageConfig c) (sac_WALConfig c)
      (sac_LoggingConfig c) (sac_SlowQueryConfig c) (sac_TracingConfig c) input)
  end.

Definition Marshal (config : Config) (strategy : ConfigMergeStrategy) : res string :=
  tree ← toml_Load (GetInputConfig config);
  mergeConfig tree (fields config) strategy.

(** [if cfg := spec.GetConfig(); cfg != "" { SetInputConfig(cfg) }]. *)
Definition input_or (cfg old : string) : string := if decide (cfg <> "") then cfg else old.

(** [if kafka := ...GetKafkaWAL(); kafka != nil { configureKafka }]. *)
Definition with_kafka {S} (c : WALConfig) (namespace : string) (wal : option WALProviderSpec)
    : M S WALConfig :=
  match WALProviderSpec_GetKafkaWAL wal with
  | Some kafka => configureKafka c namespace kafka
  | None => mret c
  end.

(** [if objectStorage := ...; objectStorage != nil { ConfigureObjectStorage }]. *)
Definition with_object_storage {S} (c : StorageConfig) (namespace : string)
    (provider : option ObjectStorageProviderSpec) : M S StorageConfig :=
  if not_nil provider then ConfigureObjectStorage c namespace provider else mret c.

(** [if GetKafkaWAL() == nil && GetWALDir() != "" { WalDir = GetWALDir() }]; the
    directory is asked for only without Kafka. *)
Definition with_wal_dir (c : WALConfig) (wal : option WALProviderSpec) (dir : res string)
    : res WALConfig :=
  if not_nil (WALProviderSpec_GetKafkaWAL wal) then Ok c
  else dir ← dir; Ok (if decide (dir <> "") then set_WalDir dir c else c).

Definition with_data_home (c : StorageConfig) (dataHome : string) : StorageConfig :=
  if decide (dataHome <> "") then set_DataHome dataHome c else c.

Definition configure_meta {S} (c : MetaConfig) (cluster : GreptimeDBCluster)
    (metaSpec : option MetaSpec) : M S MetaConfig :=
  let ns := om_Namespace (gc_ObjectMeta cluster) in
  let c := mkMetaConfig (Some (MetaSpec_IsEnableRegionFailover metaSpec)) (mtc_StoreKeyPrefix c)
             (mtc_StoreAddrs c) (mtc_MetaTableName c) (mtc_MetaElectionLockID c) (mtc_Backend c)
             (mtc_WALConfig c) (mtc_LoggingConfig c) (mtc_TracingConfig c) (mtc_InputConfig c) in
  c ← configureBackendStorage c metaSpec ns;
  wal ← with_kafka (mtc_WALConfig c) ns (GetWALProvider (Some cluster));
  mret (mkMetaConfig (mtc_EnableRegionFailover c) (mtc_StoreKeyPrefix c) (mtc_StoreAddrs c)
    (mtc_MetaTableName c) (mtc_MetaElectionLockID c) (mtc_Backend c) wal
    (ConfigureLogging (mtc_LoggingConfig c) (MetaSpec_GetLogging metaSpec))
    (ConfigureTracing (mtc_TracingConfig c) (MetaSpec_GetTracing metaSpec))
    (input_or (MetaSpec_GetConfig metaSpec) (mtc_InputConfig c))).

Definition configure_datanode {S} (c : DatanodeConfig) (cluster : GreptimeDBCluster)
    (datanodeSpec : option DatanodeSpec) : M S DatanodeConfig :=
  let ns := om_Namespace (gc_ObjectMeta cluster) in
  let wal := GetWALProvider (Some cluster) in
  storage ← with_object_storage (dnc_StorageConfig c) ns (GetObjectStorageProvider (Some cluster));
  w ← lift (with_wal_dir (dnc_WALConfig c) wal (GetWALDir (Some cluster)));
  w ← with_kafka w ns wal;
  mret (mkDatanodeConfig (dnc_NodeID c) (dnc_RPCBindAddr c) (dnc_RPCServerAddr c)
    (with_data_home storage (DatanodeSpec_GetDataHome datanodeSpec)) w
    (ConfigureLogging (dnc_LoggingConfig c) (DatanodeSpec_GetLogging datanodeSpec))
    (ConfigureTracing (dnc_TracingConfig c) (DatanodeSpec_GetTracing datanodeSpec))
    (input_or (DatanodeSpec_GetConfig datanodeSpec) (dnc_InputConfig c))).

Definition configure_frontend {S} (c : FrontendConfig) (cluster : GreptimeDBCluster)
    (frontendSpec : option FrontendSpec) : M S FrontendConfig :=
  storage ←
    (if FrontendSpec_ShouldInjectObjectStorage frontendSpec
     then with_object_storage (fec_StorageConfig c) (om_Namespace (gc_ObjectMeta cluster))
            (GetObjectStorageProvider (Some cluster))
     else mret (fec_StorageConfig c));
  mret (mkFrontendConfig storage
    (ConfigureLogging (fec_LoggingConfig c) (FrontendSpec_GetLogging frontendSpec))
    (ConfigureSlowQuery (fec_SlowQueryConfig c) (FrontendSpec_GetSlowQuery frontendSpec))
    (ConfigureTracing (fec_TracingConfig c) (FrontendSpec_GetTracing frontendSpec))
    (ConfigureAuditLog (fec_PluginConfig c) (FrontendSpec_GetAuditLog frontendSpec))
    (input_or (FrontendSpec_GetConfig frontendSpec) (fec_InputConfig c))).

(** The logging and tracing are the cluster's flownode's, not the argument's. *)
Definition configure_flownode (c : FlownodeConfig) (cluster : GreptimeDBCluster)
    (flownodeSpec : option FlownodeSpec) : FlownodeConfig :=
  mkFlownodeConfig (flc_NodeID c) (flc_RPCBindAddr c) (flc_RPCServerAddr c)
    (ConfigureLogging (flc_LoggingConfig c) (FlownodeSpec_GetLogging (GetFlownode cluster)))
    (ConfigureTracing (flc_TracingConfig c) (FlownodeSpec_GetTracing (GetFlownode cluster)))
    (input_or (FlownodeSpec_GetConfig flownodeSpec) (flc_InputConfig c)).

(** Each method rejects a spec of another role. *)
Definition ConfigureByCluster {S} (c : Config) (cluster : GreptimeDBCluster) (roleSpec : RoleSpec)
    : M S Config :=
  match c, roleSpec with
  | CMeta c, RSMeta spec => c ← configure_meta c cluster spec; mret (CMeta c)
  | CDatanode c, RSDatanode spec => c ← configure_datanode c cluster spec; mret (CDatanode c)
  | CFrontend c, RSFrontend spec => c ← configure_frontend c cluster spec; mret (CFrontend c)
  | CFlownode c, RSFlownode spec => mret (CFlownode (configure_flownode c cluster spec))
  | CStandalone c, _ => mret (CStandalone c)
  | _, _ => lift (Err (Errorf "invalid role kind"))
  end.

Definition configure_standalone {S} (c : StandaloneConfig) (standalone : GreptimeDBStandalone)
    : M S StandaloneConfig :=
  let i := Some standalone in
  let ns := om_Namespace (sa_ObjectMeta standalone) in
  let wal := Standalone_GetWALProvider i in
  storage ← with_object_storage (sac_StorageConfig c) ns (Standalone_GetObjectStorageProvider i);
  w ← lift (with_wal_dir (sac_WALConfig c) wal (Standalone_GetWALDir i));
  w ← with_kafka w ns wal;
  mret (mkStandaloneConfig (with_data_home storage (Standalone_GetDataHome i)) w
    (ConfigureLogging (sac_LoggingConfig c) (Standalone_GetLogging i))
    (ConfigureSlowQuery (sac_SlowQueryConfig c) (Standalone_GetSlowQuery i))
    (ConfigureTracing (sac_TracingConfig c) (Standalone_GetTracing i))
    (input_or (Standalone_GetConfig i) (sac_InputConfig c))).

Definition ConfigureByStandalone {S} (c : Config) (standalone : GreptimeDBStandalone)
    : M S Config :=
  match c with
  | CStandalone c => c ← configure_standalone c standalone; mret (CStandalone c)
  | _ => mret c
  end.

Definition FromCluster {S} (cluster : GreptimeDBCluster) (roleSpec : RoleSpec) : M S string :=
  cfg ← lift (NewFromRoleKind (GetRoleKind roleSpec));
  cfg ← ConfigureByCluster cfg cluster roleSpec;
  lift (Marshal cfg (cl_ConfigMergeStrategy (gc_Spec cluster))).

Definition FromStandalone {S} (standalone : GreptimeDBStandalone) : M S string :=
  cfg ← lift (NewFromRoleKind StandaloneRoleKind);
  cfg ← ConfigureByStandalone cfg standalone;
  lift (Marshal cfg (sa_ConfigMergeStrategy (sa_Spec standalone))).

(** ** Specifications *)

(** The WAL section of a config, and whether its [wal.tls] is without keys. *)
Definition config_wal (c : Config) : option WALConfig :=
  match c with
  | CMeta c => Some (mtc_WALConfig c)
  | CDatanode c => Some (dnc_WALConfig c)
  | CStandalone c => Some (sac_WALConfig c)
  | CFrontend _ | CFlownode _ => None
  end.
Definition no_tls_keys (c : WALConfig) : Prop := WalTLS c = None \/ WalTLS c = Some ∅.
Definition regular (c : Config) : Prop := forall w, config_wal c = Some w -> no_tls_keys w.

(** A tree that can take the keys of a config: no scalar stands where the operator
    needs a table, and no key is the inlining tag itself. *)
Definition accepts `{!TomlLaws} (t : Tree) (c : Config) : Prop :=
  toml_Has t InlinedFieldTag = false /\ Forall (settable t) (possible_keys (fields c)).

Definition role_config (r : RoleSpec) : string :=
  match r with
  | RSMeta s => MetaSpec_GetConfig s
  | RSFrontend s => FrontendSpec_GetConfig s
  | RSDatanode s => DatanodeSpec_GetConfig s
  | RSFlownode s => FlownodeSpec_GetConfig s
  end.

(** The secrets, with their keys, that generating a role's config reads. *)
Definition if_named (need : string * list string) : list (string * list string) :=
  if decide (need.1 <> "") then [need] else [].

Definition provider_secrets (o : option ObjectStorageProviderSpec) : list (string * list string) :=
  match GetS3Storage o, GetOSSStorage o, GetGCSStorage o, GetAZBlobStorage o with
  | Some s3, _, _, _ => if_named (s3_SecretName s3, [AccessKeyIDSecretKey; SecretAccessKeySecretKey])
  | _, Some oss, _, _ =>
      if_named (oss_SecretName oss, [AccessKeyIDSecretKey; AccessKeySecretSecretKey])
  | _, _, Some gcs, _ => if_named (gcs_SecretName gcs, [ServiceAccountKey])
  | _, _, _, Some blob => if_named (az_SecretName blob, [AccountName; AccountKey])
  | _, _, _, _ => []
  end.

Definition kafka_secrets (wal : option WALProviderSpec) : list (string * list string) :=
  match KafkaWAL_GetSASL (WALProviderSpec_GetKafkaWAL wal) ≫= ks_SecretRef with
  | Some r => [(kr_Name r, [kr_UsernameKey r; kr_PasswordKey r])]
  | None => []
  end.

Definition backend_secrets (b : option BackendStorage) : list (string * list string) :=
  let keys := [MetaDatabaseUsernameKey; MetaDatabasePasswordKey] in
  match BackendStorage_GetMySQLStorage b with
  | Some m => [(my_CredentialsSecretName m, keys)]
  | None => []
  end ++
  match BackendStorage_GetPostgreSQLStorage b with
  | Some p => [(pg_CredentialsSecretName p, keys)]
  | None => []
  end.

Definition role_secrets (cluster : GreptimeDBCluster) (r : RoleSpec) : list (string * list string) :=
  let wal := GetWALProvider (Some cluster) in
  let osp := GetObjectStorageProvider (Some cluster) in
  match r with
  | RSMeta s => backend_secrets (MetaSpec_GetBackendStorage s) ++ kafka_secrets wal
  | RSDatanode _ => provider_secrets osp ++ kafka_secrets wal
  | RSFrontend s => if FrontendSpec_ShouldInjectObjectStorage s then provider_secrets osp else []
  | RSFlownode _ => []
  end.

(** The server holds the secret, with a value under each of the keys. *)
Definition filled {W} (env : environment W) `{!ApiServer env} (ns : string) (w : W)
    (need : string * list string) : Prop :=
  exists secret data, stored w KSecret (mkNamespacedName ns need.1) = Some secret
    /\ sec_Data secret = Some data
    /\ Forall (fun k => exists v, data !! k = Some (Some v)) need.2.

(** The requests config generation makes. *)
Definition secret_read (e : event) : Prop :=
  match projT1 e with QNewClient => True | QGet k _ => k = KSecret | _ => False end.

(** ** Lemmas on the fields *)

Lemma PString_has_value p : has_value (PString p).
Proof. unfold has_value. destruct p; cbn; eauto. Qed.
Lemma PBool_has_value p : has_value (PBool p).
Proof. unfold has_value. destruct p; cbn; eauto. Qed.
Lemma PUint_has_value p : has_value (PUint p).
Proof. unfold has_value. destruct p; cbn; eauto. Qed.
Lemma PInt_has_value p : has_value (PInt p).
Proof. unfold has_value. destruct p; cbn; eauto. Qed.
Lemma PFloat_has_value p : has_value (PFloat p).
Proof. unfold has_value. destruct p; cbn; eauto. Qed.
Lemma FStrings_has_value l : has_value (FStrings l).
Proof. unfold has_value. cbn. eauto. Qed.

Section with_laws.
Context `{!TomlLaws}.

Lemma FMap_has_value m : has_value (FMap m).
Proof. unfold has_value. destruct m; cbn; [apply map_value_Ok|eauto]. Qed.
Lemma PMap_has_value (p : option strmap) : has_value (FPtr (SMap <$> p)).
Proof. unfold has_value. destruct p; cbn; [apply map_value_Ok|eauto]. Qed.

Hint Resolve PString_has_value PBool_has_value PUint_has_value PInt_has_value PFloat_has_value
  FStrings_has_value FMap_has_value PMap_has_value FMaps_has_value : core.

(** The leaves of the five structs. *)
Lemma fields_leaves c :
  leaves (fields c) =
    match c with
    | CMeta c => take 6 (MetaConfig_fields c) ++ WALConfig_fields (mtc_WALConfig c)
        ++ LoggingConfig_fields (mtc_LoggingConfig c)
        ++ TracingConfig_fields (mtc_TracingConfig c)
    | CDatanode c => take 3 (DatanodeConfig_fields c)
        ++ StorageConfig_fields (dnc_StorageConfig c) ++ WALConfig_fields (dnc_WALConfig c)
        ++ LoggingConfig_fields (dnc_LoggingConfig c)
        ++ TracingConfig_fields (dnc_TracingConfig c)
    | CFrontend c => StorageConfig_fields (fec_StorageConfig c)
        ++ LoggingConfig_fields (fec_LoggingConfig c)
        ++ SlowQueryConfig_fields (fec_SlowQueryConfig c)
        ++ TracingConfig_fields (fec_TracingConfig c)
        ++ PluginConfig_fields (fec_PluginConfig c)
    | CFlownode c => take 3 (FlownodeConfig_fields c)
        ++ LoggingConfig_fields (flc_LoggingConfig c)
        ++ TracingConfig_fields (flc_TracingConfig c)
    | CStandalone c => StorageConfig_fields (sac_StorageConfig c)
        ++ WALConfig_fields (sac_WALConfig c) ++ LoggingConfig_fields (sac_LoggingConfig c)
        ++ SlowQueryConfig_fields (sac_SlowQueryConfig c)
        ++ TracingConfig_fields (sac_TracingConfig c)
    end.
Proof. destruct c; reflexivity. Qed.

Lemma fields_have_values c : Forall (fun kf => has_value kf.2) (leaves (fields c)).
Proof.
  rewrite fields_leaves.
  destruct c; cbn [app take MetaConfig_fields DatanodeConfig_fields FlownodeConfig_fields
    StorageConfig_fields WALConfig_fields LoggingConfig_fields TracingConfig_fields
    SlowQueryConfig_fields PluginConfig_fields];
    repeat (apply Forall_cons; split); cbn [snd]; auto.
Qed.

(** No key of a config leads to another, nor to the inlining tag. *)
Lemma config_keys c :
  regular c ->
  all_unrelated (possible_keys (fields c))
  /\ Forall (fun k => unrelated k InlinedFieldTag) (possible_keys (fields c)).
Proof.
  intros Hr. unfold possible_keys. rewrite fields_leaves. unfold regular, no_tls_keys in Hr.
  destruct c; cbn [config_wal] in Hr; try specialize (Hr _ eq_refl);
    unfold WALConfig_fields; try destruct Hr as [-> | ->];
    split; apply (bool_decide_unpack _); vm_compute; exact I.
Qed.

Lemma config_mergeable c t es :
  regular c -> accepts t c -> generated (fields c) = Ok es -> mergeable t es.
Proof.
  intros Hr [Hi Hs] Hg. apply config_keys in Hr as [Hu Hn].
  apply values_keys in Hg. fold (possible_keys (fields c)) in Hg.
  split_and!; [by eapply all_unrelated_sublist| |done].
  rewrite Forall_forall in Hs. rewrite Forall_forall in Hn. apply Forall_forall. intros e He.
  assert (Hk : e.1 ∈ possible_keys (fields c)).
  { eapply elem_of_sublist; [|exact Hg]. apply list_elem_of_fmap. eauto. }
  auto.
Qed.

Lemma Marshal_merges c strategy t :
  regular c -> toml_Load (GetInputConfig c) = Ok t -> accepts t c ->
  exists es t', generated (fields c) = Ok es /\ Marshal c strategy = Ok (toml_String t')
    /\ (forall k v, (k, v) ∈ es ->
          toml_Get t' k = if user_wins strategy t k then toml_Get t k else Some v)
    /\ (forall k, Forall (fun e => unrelated e.1 k) es -> toml_Get t' k = toml_Get t k).
Proof.
  intros Hr Hl Ha. destruct (values_total (leaves (fields c)) (fields_have_values c)) as [es Hes].
  pose proof (config_mergeable c t es Hr Ha Hes) as Hm.
  pose proof (merge_fields_entries strategy (fields c) es t Hes Hm) as Hmf.
  eexists es, _. split; [exact Hes|]. unfold Marshal, mergeConfig. rewrite Hl. cbn. rewrite Hmf.
  cbn. split; [done|]. by eapply merge_fields_get.
Qed.
End with_laws.

(** ** Lemmas on the Configure methods *)

Lemma secret_pair_any {S} ns n k1 k2 old : returns (S := S) (fun _ => True) (secret_pair ns n k1 k2 old).
Proof. apply returns_any. Qed.

Lemma configureKafka_regular {S} c ns kafka :
  no_tls_keys c -> returns (S := S) no_tls_keys (configureKafka c ns kafka).
Proof.
  intros Hc. unfold configureKafka.
  eapply returns_bind; [apply returns_any|]. intros [type [username password]] _.
  apply returns_ret. unfold no_tls_keys. destruct (KafkaWAL_GetTLS _); cbn; auto.
Qed.

Lemma with_kafka_regular {S} c ns wal :
  no_tls_keys c -> returns (S := S) no_tls_keys (with_kafka c ns wal).
Proof.
  intros Hc. unfold with_kafka. destruct (WALProviderSpec_GetKafkaWAL wal).
  - by apply configureKafka_regular.
  - by apply returns_ret.
Qed.

Lemma with_wal_dir_regular c wal dir c' :
  no_tls_keys c -> with_wal_dir c wal dir = Ok c' -> no_tls_keys c'.
Proof.
  unfold with_wal_dir. intros Hc Hw. destruct (not_nil _); [congruence|].
  res_inv. subst c'. by destruct (decide _).
Qed.

Lemma configureBackendStorage_keeps {S} c spec ns :
  returns (S := S) (fun c' => mtc_WALConfig c' = mtc_WALConfig c
                              /\ mtc_InputConfig c' = mtc_InputConfig c)
    (configureBackendStorage c spec ns).
Proof.
  unfold configureBackendStorage. set (c1 := match BackendStorage_GetEtcdStorage (MetaSpec_GetBackendStorage spec) with
    Some _ => _ | None => c end).
  assert (Hc1 : mtc_WALConfig c1 = mtc_WALConfig c /\ mtc_InputConfig c1 = mtc_InputConfig c)
    by (unfold c1; by destruct (BackendStorage_GetEtcdStorage (MetaSpec_GetBackendStorage spec))).
  eapply returns_bind with (P := fun c' => mtc_WALConfig c' = mtc_WALConfig c
                              /\ mtc_InputConfig c' = mtc_InputConfig c).
  - destruct (BackendStorage_GetMySQLStorage (MetaSpec_GetBackendStorage spec)); [|by apply returns_ret].
    eapply returns_bind; [apply returns_any|]. intros conn _. by apply returns_ret.
  - intros c2 Hc2. destruct (BackendStorage_GetPostgreSQLStorage (MetaSpec_GetBackendStorage spec)); [|by apply returns_ret].
    eapply returns_bind; [apply returns_any|]. intros conn _. by apply returns_ret.
Qed.

(** Configuring keeps a config regular and takes the role's own text. *)
Lemma ConfigureByCluster_regular {S} c cluster role :
  regular c -> NewFromRoleKind (GetRoleKind role) = Ok c ->
  returns (S := S) (fun c' => regular c' /\ GetInputConfig c' = role_config role)
    (ConfigureByCluster c cluster role).
Proof.
  intros Hr Hnew. assert (Hin : forall s, input_or s "" = s)
    by (intros s; unfold input_or; destruct (decide (s <> "")) as [?|Hs]; [done|by apply dec_stable in Hs as ->]).
  destruct role as [spec|spec|spec|spec]; injection Hnew as <-; cbn;
    try specialize (Hr _ eq_refl); cbn in Hr.
  - eapply returns_bind; [|intros c' Hc'; apply returns_ret; exact Hc'].
    unfold configure_meta. cbv zeta.
    eapply returns_bind; [apply configureBackendStorage_keeps|]. intros c' [Hw Hi].
    eapply returns_bind; [apply with_kafka_regular; by rewrite Hw|]. intros w Hw'.
    apply returns_ret. unfold regular. cbn. rewrite Hi. cbn. rewrite Hin. split; [|done].
    by intros ? [= <-].
  - eapply returns_bind; [|intros c' Hc'; apply returns_ret; exact Hc'].
    unfold configure_frontend. eapply returns_bind; [apply returns_any|]. intros storage _.
    apply returns_ret. unfold regular. cbn. rewrite Hin. done.
  - eapply returns_bind; [|intros c' Hc'; apply returns_ret; exact Hc'].
    unfold configure_datanode. cbv zeta.
    eapply returns_bind; [apply returns_any|]. intros storage _.
    eapply returns_bind; [apply returns_lift; intros w Hw; by eapply with_wal_dir_regular|].
    intros w Hw. eapply returns_bind; [by apply with_kafka_regular|]. intros w' Hw'.
    apply returns_ret. unfold regular. cbn. rewrite Hin. split; [|done]. by intros ? [= <-].
  - apply returns_ret. unfold configure_flownode, regular. cbn. by rewrite Hin.
Qed.

Lemma NewFromRoleKind_regular kind c : NewFromRoleKind kind = Ok c -> regular c.
Proof.
  unfold NewFromRoleKind, regular, no_tls_keys. intros Hc.
  repeat destruct (decide _); try discriminate Hc; injection Hc as <-; cbn; intros ? [= <-];
    cbn; auto.
Qed.

(** Generating a config reads secrets and does nothing else. *)
Lemma GetSecretsData_preserves {S} (R : S -> S -> Prop) `{!PreOrder R} ns n keys :
  preserves R (GetSecretsData ns n keys).
Proof. unfold GetSecretsData, GetK8sResource. solve_preserves. Qed.

Lemma FromCluster_preserves {S} (R : S -> S -> Prop) `{!PreOrder R} c role :
  preserves R (FromCluster c role).
Proof.
  unfold FromCluster, ConfigureByCluster, configure_meta, configure_datanode, configure_frontend,
    configureBackendStorage, generateMySQLConnectionString, generatePostgreSQLConnectionString,
    with_object_storage, with_kafka, ConfigureObjectStorage, configureS3, configureOSS, configureGCS,
    configureAZBlob, configureKafka, secret_pair.
  repeat preserves_step; apply GetSecretsData_preserves, _.
Qed.

Lemma GetSecretsData_logs {S} ns n keys : logs_only (S := S) secret_read (GetSecretsData ns n keys).
Proof. unfold GetSecretsData, GetK8sResource. solve_logs; by cbn. Qed.

Lemma FromCluster_logs {S} c role : logs_only (S := S) secret_read (FromCluster c role).
Proof.
  unfold FromCluster, ConfigureByCluster, configure_meta, configure_datanode, configure_frontend,
    configureBackendStorage, generateMySQLConnectionString, generatePostgreSQLConnectionString,
    with_object_storage, with_kafka, ConfigureObjectStorage, configureS3, configureOSS, configureGCS,
    configureAZBlob, configureKafka, secret_pair.
  repeat logs_step; apply GetSecretsData_logs.
Qed.

Lemma FromStandalone_preserves {S} (R : S -> S -> Prop) `{!PreOrder R} s :
  preserves R (FromStandalone s).
Proof.
  unfold FromStandalone, ConfigureByStandalone, configure_standalone, with_object_storage,
    with_kafka, configureKafka, ConfigureObjectStorage, configureS3, configureOSS, configureGCS, configureAZBlob, secret_pair.
  repeat preserves_step; apply GetSecretsData_preserves, _.
Qed.

Lemma FromStandalone_logs {S} s : logs_only (S := S) secret_read (FromStandalone s).
Proof.
  unfold FromStandalone, ConfigureByStandalone, configure_standalone, with_object_storage,
    with_kafka, configureKafka, ConfigureObjectStorage, configureS3, configureOSS, configureGCS, configureAZBlob, secret_pair.
  repeat logs_step; apply GetSecretsData_logs.
Qed.

(** ** Reading the secrets of a healthy server *)

Section healthy.
Context {W : Type} (env : environment W) `{!ApiServer env} (ns : string) (w : W).
Hypothesis Hclient : env QNewClient w = (Ok tt, w).

Lemma exec_new_client {S} (s : S) :
  exec env (ask QNewClient ≫= lift) s w = Outcome (Ok tt) s w [ev QNewClient (Ok tt)].
Proof. unfold exec, mbind, M_bind, ask. cbn. by rewrite Hclient. Qed.

Lemma succeeds_GetSecretsData {S} name keys :
  filled env ns w (name, keys) ->
  succeeds (S := S) env w secret_read (fun data => length data = length keys)
    (GetSecretsData ns name keys).
Proof.
  intros (secret & data & Hs & Hd & Hk) s. cbn in Hs, Hk.
  unfold GetSecretsData, GetK8sResource.
  rewrite exec_bind, exec_bind, exec_new_client. cbn.
  change (@exec S W Secret) with (@exec S W (obj KSecret)).
  rewrite exec_Get, server_get, Hs. cbn. rewrite Hd, exec_lift.
  destruct (map_res_total (fun key => match data !! key with
    | Some (Some value) => Ok value | _ => Err (Errorf "secret does not have key") end) keys)
    as [values Hv].
  { intros k Hin. rewrite Forall_forall in Hk. destruct (Hk k Hin) as [v ->]. eauto. }
  cbn in Hv. rewrite Hv. eexists _, _. split; [reflexivity|]. split.
  - apply map_res_Ok in Hv. by apply Forall2_length in Hv.
  - repeat constructor.
Qed.

Lemma secret_value_Ok data n i : length data = n -> (i < n)%nat -> exists v, secret_value data i = Ok v.
Proof.
  intros <- Hi. unfold secret_value. destruct (lookup_lt_is_Some_2 data i Hi) as [v ->]. by exists v.
Qed.

Lemma succeeds_secret_pair {S} name k1 k2 old :
  Forall (filled env ns w) (if_named (name, [k1; k2])) ->
  succeeds (S := S) env w secret_read (fun _ => True) (secret_pair ns name k1 k2 old).
Proof.
  unfold if_named, secret_pair. cbn. destruct (decide (name <> "")); [|by intros _; apply succeeds_ret].
  intros Hf. apply Forall_cons in Hf as [Hf _].
  eapply succeeds_bind; [by apply succeeds_GetSecretsData|]. intros data Hl.
  destruct (secret_value_Ok data 2 0) as [a Ha]; [done|lia|].
  destruct (secret_value_Ok data 2 1) as [b Hb]; [done|lia|].
  eapply succeeds_bind; [by apply succeeds_lift with (P := fun _ => True) (a := a)|]. intros a' _.
  eapply succeeds_bind; [by apply succeeds_lift with (P := fun _ => True) (a := b)|]. intros b' _.
  by apply succeeds_ret.
Qed.

Lemma succeeds_object_storage {S} c o :
  Forall (filled env ns w) (provider_secrets o) ->
  succeeds (S := S) env w secret_read (fun _ => True) (with_object_storage c ns o).
Proof.
  intros Hf. unfold with_object_storage. destruct (not_nil o); [|by apply succeeds_ret].
  unfold ConfigureObjectStorage, provider_secrets in *.
  eapply succeeds_bind with (P := fun _ => True); [|intros; by apply succeeds_ret].
  destruct (GetS3Storage o) as [s3|].
  { eapply succeeds_bind; [by apply succeeds_secret_pair|]. intros [] _. by apply succeeds_ret. }
  destruct (GetOSSStorage o) as [oss|].
  { eapply succeeds_bind; [by apply succeeds_secret_pair|]. intros [] _. by apply succeeds_ret. }
  destruct (GetGCSStorage o) as [gcs|].
  { eapply succeeds_bind with (P := fun _ => True); [|intros; by apply succeeds_ret].
    unfold if_named in Hf. cbn in Hf. destruct (decide (gcs_SecretName gcs <> ""));
      [|by apply succeeds_ret].
    apply Forall_cons in Hf as [Hf _].
    eapply succeeds_bind; [by apply succeeds_GetSecretsData|]. intros data Hl.
    destruct (secret_value_Ok data 1 0) as [a Ha]; [done|lia|].
    eapply succeeds_bind; [by apply succeeds_lift with (P := fun _ => True) (a := a)|]. intros a' _.
    by apply succeeds_ret. }
  destruct (GetAZBlobStorage o) as [blob|]; [|by apply succeeds_ret].
  eapply succeeds_bind; [by apply succeeds_secret_pair|]. intros [] _. by apply succeeds_ret.
Qed.

Lemma succeeds_kafka {S} c wal :
  Forall (filled env ns w) (kafka_secrets wal) ->
  succeeds (S := S) env w secret_read (fun _ => True) (with_kafka c ns wal).
Proof.
  intros Hf. unfold with_kafka, kafka_secrets in *.
  destruct (WALProviderSpec_GetKafkaWAL wal) as [kafka|]; [|by apply succeeds_ret].
  unfold configureKafka. eapply succeeds_bind with (P := fun _ => True);
    [|intros [? []] _; by apply succeeds_ret].
  destruct (KafkaWAL_GetSASL (Some kafka)) as [sasl|]; [|by apply succeeds_ret].
  eapply succeeds_bind with (P := fun _ => True); [|intros; by apply succeeds_ret].
  cbn in Hf. destruct (ks_SecretRef sasl) as [r|]; [|by apply succeeds_ret].
  apply Forall_cons in Hf as [Hf _].
  eapply succeeds_bind; [by apply succeeds_GetSecretsData|]. intros data Hl.
  destruct (secret_value_Ok data 2 0) as [a Ha]; [done|lia|].
  destruct (secret_value_Ok data 2 1) as [b Hb]; [done|lia|].
  eapply succeeds_bind; [by apply succeeds_lift with (P := fun _ => True) (a := a)|]. intros a' _.
  eapply succeeds_bind; [by apply succeeds_lift with (P := fun _ => True) (a := b)|]. intros b' _.
  by apply succeeds_ret.
Qed.

(** The connection string of a filled credentials secret. *)
Lemma succeeds_connection {S} name scheme host port database :
  filled env ns w (name, [MetaDatabaseUsernameKey; MetaDatabasePasswordKey]) ->
  succeeds (S := S) env w secret_read (fun _ => True)
    (data ← GetSecretsData ns name [MetaDatabaseUsernameKey; MetaDatabasePasswordKey];
     lift (connection_string scheme data host port database)).
Proof.
  intros Hf. eapply succeeds_bind; [by apply succeeds_GetSecretsData|]. intros data Hl.
  destruct (secret_value_Ok data 2 0) as [a Ha]; [done|lia|].
  destruct (secret_value_Ok data 2 1) as [b Hb]; [done|lia|].
  eapply succeeds_lift; [|done]. unfold connection_string. rewrite Ha. cbn. rewrite Hb. done.
Qed.

Lemma succeeds_backend {S} c spec :
  Forall (filled env ns w) (backend_secrets (MetaSpec_GetBackendStorage spec)) ->
  succeeds (S := S) env w secret_read (fun _ => True) (configureBackendStorage c spec ns).
Proof.
  intros Hf. unfold configureBackendStorage, backend_secrets in *. apply Forall_app in Hf as [Hm Hp].
  eapply succeeds_bind with (P := fun _ => True).
  - destruct (BackendStorage_GetMySQLStorage (MetaSpec_GetBackendStorage spec)); [|by apply succeeds_ret].
    apply Forall_cons in Hm as [Hm _].
    eapply succeeds_bind; [by apply succeeds_connection|]. intros conn _. by apply succeeds_ret.
  - intros c2 _. destruct (BackendStorage_GetPostgreSQLStorage (MetaSpec_GetBackendStorage spec)); [|by apply succeeds_ret].
    apply Forall_cons in Hp as [Hp _].
    eapply succeeds_bind; [by apply succeeds_connection|]. intros conn _. by apply succeeds_ret.
Qed.
Lemma GetWALDir_Ok c : GetWALDir (Some c) <> Panic -> exists dir, GetWALDir (Some c) = Ok dir.
Proof.
  unfold GetWALDir. destruct (_ ≫= wp_RaftEngineWAL) as [[[fs|]]|]; cbn; [eauto|done|].
  destruct (_ ≫= dn_Storage); [|eauto]. destruct (decide _); eauto.
Qed.

Lemma succeeds_ConfigureByCluster {S} c cluster role :
  ns = om_Namespace (gc_ObjectMeta cluster) ->
  NewFromRoleKind (GetRoleKind role) = Ok c ->
  Forall (filled env ns w) (role_secrets cluster role) -> GetWALDir (Some cluster) <> Panic ->
  succeeds (S := S) env w secret_read (fun _ => True) (ConfigureByCluster c cluster role).
Proof.
  intros Hns Hnew Hf Hdir.
  destruct role as [spec|spec|spec|spec]; injection Hnew as <-; cbn in *.
  - eapply succeeds_bind with (P := fun _ => True); [|intros; by apply succeeds_ret].
    unfold configure_meta. cbv zeta. rewrite <- Hns. apply Forall_app in Hf as [Hb Hk].
    eapply succeeds_bind; [by apply succeeds_backend|]. intros c' _.
    eapply succeeds_bind; [by apply succeeds_kafka|]. intros w' _. by apply succeeds_ret.
  - eapply succeeds_bind with (P := fun _ => True); [|intros; by apply succeeds_ret].
    unfold configure_frontend. rewrite <- Hns.
    eapply succeeds_bind with (P := fun _ => True); [|intros; by apply succeeds_ret].
    destruct (FrontendSpec_ShouldInjectObjectStorage spec); [|by apply succeeds_ret].
    by apply succeeds_object_storage.
  - eapply succeeds_bind with (P := fun _ => True); [|intros; by apply succeeds_ret].
    unfold configure_datanode. cbv zeta. rewrite <- Hns. apply Forall_app in Hf as [Hb Hk].
    eapply succeeds_bind; [by apply succeeds_object_storage|]. intros storage _.
    destruct (GetWALDir_Ok cluster Hdir) as [dir Hd].
    assert (Hw : exists wal, with_wal_dir (dnc_WALConfig zero_DatanodeConfig)
                   (GetWALProvider (Some cluster)) (GetWALDir (Some cluster)) = Ok wal).
    { unfold with_wal_dir. rewrite Hd. destruct (not_nil _); cbn; eauto. }
    destruct Hw as [wal Hw]. eapply succeeds_bind with (P := fun _ => True).
    { eapply succeeds_lift; [exact Hw|done]. }
    intros w' _. eapply succeeds_bind; [by apply succeeds_kafka|]. intros w'' _.
    by apply succeeds_ret.
  - by apply succeeds_ret.
Qed.

Lemma NewFromRoleKind_role role : exists c, NewFromRoleKind (GetRoleKind role) = Ok c.
Proof. destruct role; eexists; reflexivity. Qed.

(** With the secrets in place a role's config is generated, reading only them. *)
Lemma FromCluster_total `{!TomlLaws} {S} cluster role t :
  ns = om_Namespace (gc_ObjectMeta cluster) ->
  Forall (filled env ns w) (role_secrets cluster role) -> GetWALDir (Some cluster) <> Panic ->
  toml_Load (role_config role) = Ok t ->
  succeeds (S := S) env w secret_read (fun _ => True) (FromCluster cluster role).
Proof.
  intros Hns Hf Hdir Hl. unfold FromCluster.
  destruct (NewFromRoleKind_role role) as [c Hnew].
  pose proof (ConfigureByCluster_regular (S := S) c cluster role
    (NewFromRoleKind_regular _ _ Hnew) Hnew) as Hr.
  eapply succeeds_bind with (P := fun c' => c' = c); [by eapply succeeds_lift|]. intros _ ->.
  intros s. destruct (succeeds_ConfigureByCluster c cluster role Hns Hnew Hf Hdir s)
    as (c' & l & Hc & _ & Hlog).
  destruct (Hr W env s w c') as [_ Hin]; [by rewrite Hc|].
  assert (Hm : exists text, Marshal c' (cl_ConfigMergeStrategy (gc_Spec cluster)) = Ok text).
  { unfold Marshal, mergeConfig. rewrite Hin, Hl. cbn.
    destruct (merge_fields_total (cl_ConfigMergeStrategy (gc_Spec cluster)) (fields c') t)
      as [t' ->]; [apply fields_have_values|]. cbn. eauto. }
  destruct Hm as [text Hm]. exists text, (l ++ []).
  rewrite exec_bind, Hc. cbn. rewrite exec_lift, Hm. split_and!; [done..|].
  by rewrite app_nil_r.
Qed.

(** ** What [Check] has made sure of *)

(** No secret of the namespace has a key without a value. *)
Definition no_nil_values : Prop :=
  forall name secret data k, stored w KSecret (mkNamespacedName ns name) = Some secret ->
    sec_Data secret = Some data -> data !! k <> Some None.

Lemma secret_holds_filled need :
  no_nil_values -> need.1 <> "" -> secret_holds env ns w need -> filled env ns w need.
Proof.
  intros Hnil Hne [He|(secret & data & Hs & Hd & Hk)]; [done|].
  exists secret, data. split_and!; [done..|]. eapply Forall_impl; [exact Hk|].
  intros k [[v|] Hv]; [eauto|]. exfalso. by eapply Hnil.
Qed.

Lemma provider_secrets_filled o :
  no_nil_values -> Forall (secret_holds env ns w) (storage_secrets o) ->
  Forall (filled env ns w) (provider_secrets o).
Proof.
  intros Hnil Hf. unfold storage_secrets, provider_secrets, if_named in *.
  apply Forall_cons in Hf as [H1 Hf]. apply Forall_cons in Hf as [H2 Hf].
  apply Forall_cons in Hf as [H3 Hf]. apply Forall_cons in Hf as [H4 _].
  destruct (GetS3Storage o); [|destruct (GetOSSStorage o);
    [|destruct (GetGCSStorage o); [|destruct (GetAZBlobStorage o); [|constructor]]]];
    cbn in *; (destruct (decide _); [|constructor]);
    (apply Forall_cons; split; [by apply secret_holds_filled|constructor]).
Qed.

(** The credentials secrets of the backends are named. *)
Definition named_backends (b : option BackendStorage) : Prop :=
  Forall (fun need => need.1 <> "") (backend_secrets b).

Lemma backend_secrets_filled b :
  no_nil_values -> named_backends b ->
  secret_holds env ns w (MySQLStorage_GetCredentialsSecretName (BackendStorage_GetMySQLStorage b),
    [MetaDatabaseUsernameKey; MetaDatabasePasswordKey]) ->
  secret_holds env ns w
    (PostgreSQLStorage_GetCredentialsSecretName (BackendStorage_GetPostgreSQLStorage b),
     [MetaDatabaseUsernameKey; MetaDatabasePasswordKey]) ->
  Forall (filled env ns w) (backend_secrets b).
Proof.
  intros Hnil Hn Hm Hp. unfold named_backends, backend_secrets in *.
  apply Forall_app in Hn as [Hn1 Hn2]. apply Forall_app. split.
  - destruct (BackendStorage_GetMySQLStorage b); [|constructor].
    apply Forall_cons in Hn1 as [Hn1 _]. apply Forall_cons; split; [|constructor].
    by apply secret_holds_filled.
  - destruct (BackendStorage_GetPostgreSQLStorage b); [|constructor].
    apply Forall_cons in Hn2 as [Hn2 _]. apply Forall_cons; split; [|constructor].
    by apply secret_holds_filled.
Qed.

(** The roles of a cluster: the meta spec is the cluster's own. *)
Definition role_of (c : GreptimeDBCluster) (r : RoleSpec) : Prop :=
  match r with RSMeta s => s = GetMeta (Some c) | _ => True end.

Lemma checked_secrets_filled c r :
  ns = om_Namespace (gc_ObjectMeta c) -> role_of c r -> no_nil_values ->
  Forall (secret_holds env ns w) (cluster_secrets c) ->
  named_backends (MetaSpec_GetBackendStorage (GetMeta (Some c))) ->
  Forall (filled env ns w) (kafka_secrets (GetWALProvider (Some c))) ->
  Forall (filled env ns w) (role_secrets c r).
Proof.
  intros Hns Hr Hnil Hh Hn Hk. unfold cluster_secrets in Hh.
  apply Forall_cons in Hh as [_ Hh]. apply Forall_app in Hh as [Hst Hb].
  apply Forall_cons in Hb as [Hm Hb]. apply Forall_cons in Hb as [Hp _].
  pose proof (provider_secrets_filled _ Hnil Hst) as Hprov.
  destruct r as [spec|spec|spec|spec]; cbn in *.
  - subst spec. apply Forall_app. split; [by apply backend_secrets_filled|done].
  - by destruct (FrontendSpec_ShouldInjectObjectStorage spec).
  - by apply Forall_app.
  - constructor.
Qed.
End healthy.
End configs.

(** ** Samples for the witnesses *)

(** A cluster that keeps its data in S3, with the credentials in a secret. *)
Definition s3_spec (wal : option WALProviderSpec) : GreptimeDBClusterSpec :=
  mkGreptimeDBClusterSpec None None None
    (Some (mkDatanodeSpec (mkComponentSpec None "storage.type" None None None) "" 4001 4000
             (Some (mkDatanodeStorageSpec "/data/greptimedb" None)) None None))
    [] None [] 0 0 0 0 None "" None
    (Some (mkObjectStorageProviderSpec (Some (mkS3Storage "bucket" "us-west-2" "s3" "root"
             "s3.amazonaws.com" false)) None None None None))
    wal None None None ConfigMergeStrategyInjectedDataFirst false.
Definition s3_cluster (wal : option WALProviderSpec) : GreptimeDBCluster :=
  mkGreptimeDBCluster (meta_of "default" "c" None ∅) (s3_spec wal) zero_ClusterStatus.
Definition s3_secret : object :=
  Object KSecret (mkSecret (meta_of "default" "s3" None ∅)
    (Some {[ "access-key-id" := Some "id"; "secret-access-key" := Some "key" ]})).

(** Kafka with its SASL credentials in a secret. *)
Definition kafka_wal : WALProviderSpec :=
  mkWALProviderSpec None (Some (mkKafkaWAL ["broker:9092"]
    (Some (mkKafkaSASL "PLAIN" "" "" (Some (mkKafkaSASLSecretRef "sasl" "user" "password"))))
    None)).

(** ** Properties *)

(** C28. What [FromCluster] generates: when it succeeds, the text is the tree of the
    role's own config into which the generated entries were merged.  With the
    cluster's strategy InjectedDataFirst a key the user gave keeps the user's
    value, with any other strategy the operator's value replaces it, and every key
    that is unrelated to the generated ones is the user's.  What is said of the keys
    takes a config of the user that has no scalar where a key of the role's config needs a
    table (with [storage = x], a scalar, the key [storage.type] cannot be set), and no
    key spelled like the tag of inlined fields. *)
Theorem FromCluster_merges `{TomlLaws} {W} (env : environment W) {S} cluster role (s : S) w text :
  out_res (exec env (FromCluster cluster role) s w) = Ok text ->
  exists c0 cfg t es,
    NewFromRoleKind (GetRoleKind role) = Ok c0
    /\ out_res (exec env (ConfigureByCluster c0 cluster role) s w) = Ok cfg
    /\ toml_Load (role_config role) = Ok t /\ generated (fields cfg) = Ok es
    /\ (accepts t cfg -> exists t',
          text = toml_String t'
          /\ (forall k v, (k, v) ∈ es -> toml_Get t' k =
                if user_wins (cl_ConfigMergeStrategy (gc_Spec cluster)) t k
                then toml_Get t k else Some v)
          /\ (forall k, Forall (fun e => unrelated e.1 k) es -> toml_Get t' k = toml_Get t k)).
Proof.
  unfold FromCluster. destruct (NewFromRoleKind_role role) as [c0 Hnew].
  rewrite exec_bind, exec_lift, Hnew. cbn. rewrite exec_bind.
  pose proof (ConfigureByCluster_regular (S := S) c0 cluster role
    (NewFromRoleKind_regular _ _ Hnew) Hnew W env s w) as Hr. cbv zeta.
  destruct (exec env (ConfigureByCluster c0 cluster role) s w) as [[cfg|e|] s' w' l] eqn:Hc;
    cbn; [|done..].
  rewrite exec_lift. cbn. intros Hm. destruct (Hr cfg eq_refl) as [Hreg Hin].
  destruct (toml_Load (role_config role)) as [t|e|] eqn:Hl;
    [|unfold Marshal in Hm; rewrite Hin, Hl in Hm; discriminate Hm..].
  destruct (values_total _ (fields_have_values cfg)) as [es Hes].
  exists c0, cfg, t, es. split_and!; [done|by rewrite Hc|done..|]. intros Ha. rewrite <- Hin in Hl.
  destruct (Marshal_merges cfg (cl_ConfigMergeStrategy (gc_Spec cluster)) t Hreg Hl Ha)
    as (es' & t' & Hes' & Hm' & Hget). rewrite Hm in Hm'. injection Hm' as ->.
  unfold generated in Hes'. rewrite Hes in Hes'. injection Hes' as <-. by exists t'.
Qed.

(** C29. Once [Check] has succeeded, generating a config cannot fail for want of a
    secret: on a healthy server whose secrets have no empty value, the config of
    every role of the cluster is generated, by reading secrets only.  What [Check]
    leaves out is assumed: the role's own config parses as TOML, the secret of Kafka's
    credentials exists, a backend's credentials secret has a name, and a raft-engine
    WAL has its storage. *)
Theorem FromCluster_after_Check `{TomlLaws} {W} (env : environment W) `{!ApiServer env} {S}
    c role t (s : S) w :
  let ns := om_Namespace (gc_ObjectMeta c) in
  env QNewClient w = (Ok tt, w) ->
  out_res (exec env (Cluster_Check c) s w) = Ok tt ->
  no_nil_values env ns w -> role_of c role ->
  named_backends (MetaSpec_GetBackendStorage (GetMeta (Some c))) ->
  Forall (filled env ns w) (kafka_secrets (GetWALProvider (Some c))) ->
  GetWALDir (Some c) <> Panic -> toml_Load (role_config role) = Ok t ->
  exists text log, exec env (FromCluster c role) s w = Outcome (Ok text) s w log
    /\ Forall secret_read log.
Proof.
  intros ns Hclient Hcheck Hnil Hrole Hn Hk Hdir Hl.
  apply (Cluster_Check_decides env c s w) in Hcheck as [Hh _].
  destruct (FromCluster_total env ns w Hclient (S := S) c role t eq_refl
    (checked_secrets_filled env ns w c role eq_refl Hrole Hnil Hh Hn Hk) Hdir Hl s)
    as (text & log & Hx & _ & Hlog). by exists text, log.
Qed.

(** The secret of Kafka's credentials is not checked: a cluster that passes
    [Check] and whose datanode config cannot be generated. *)
Theorem kafka_secret_unchecked :
  let _ := flat_toml in
  let c := s3_cluster (Some kafka_wal) in
  out_res (exec fake_env (Cluster_Check (S := unit) c) tt [s3_secret]) = Ok tt
  /\ out_res (exec fake_env (FromCluster (S := unit) c (RSDatanode (GetDatanode (Some c)))) tt
                [s3_secret]) = Err (ErrNotFound "not found").
Proof. split; vm_compute; reflexivity. Qed.

(** The text of the sample: the keys of the tree, the last one set first. *)
Definition s3_text : string :=
  "wal.dir,storage.endpoint,storage.region,storage.root,storage.bucket,"
  +:+ "storage.secret_access_key,storage.access_key_id,storage.data_home,storage.type".

Lemma FromCluster_merges_witness :
  let _ := flat_toml in
  let c := s3_cluster None in
  out_res (exec fake_env (FromCluster c (RSDatanode (GetDatanode (Some c)))) tt [s3_secret])
    = Ok s3_text
  /\ exists t', s3_text = toml_String t'
       /\ toml_Get t' "storage.type" = Some (VString "storage.type")
       /\ toml_Get t' "storage.access_key_id" = Some (VString "id").
Proof.
  intros T c. split; [vm_compute; reflexivity|].
  destruct (FromCluster_merges (H := T) (H0 := flat_toml_laws) fake_env c
    (RSDatanode (GetDatanode (Some c))) tt [s3_secret] s3_text)
    as (c0 & cfg & t & es & H1 & H2 & H3 & H4 & H5); [vm_compute; reflexivity|].
  vm_compute in H1. injection H1 as <-. vm_compute in H2. injection H2 as <-.
  vm_compute in H3. injection H3 as <-. vm_compute in H4. injection H4 as <-.
  destruct H5 as (t' & Ht & Hget & _).
  { split; [reflexivity|]. apply Forall_forall. intros k _. exact I. }
  exists t'. split; [exact Ht|]. split.
  - rewrite (Hget "storage.type" (VString "S3")); [vm_compute; reflexivity|].
    repeat (apply elem_of_cons; (by left) || right).
  - rewrite (Hget "storage.access_key_id" (VString "id")); [vm_compute; reflexivity|].
    repeat (apply elem_of_cons; (by left) || right).
Defined.

Lemma FromCluster_after_Check_witness :
  let _ := flat_toml in
  let c := s3_cluster None in
  exists text log,
    exec fake_env (FromCluster c (RSDatanode (GetDatanode (Some c)))) tt [s3_secret]
      = Outcome (Ok text) tt [s3_secret] log /\ Forall secret_read log.
Proof.
  intros T c.
  apply (FromCluster_after_Check (H := T) (H0 := flat_toml_laws) fake_env c
    (RSDatanode (GetDatanode (Some c))) (Flat [("storage.type", VString "storage.type")])).
  - reflexivity.
  - vm_compute. reflexivity.
  - intros name secret data k Hs Hd. cbn in Hs.
    destruct (decide (_ = mkNamespacedName _ name)) as [e|]; [|discriminate Hs].
    injection Hs as <-. injection Hd as <-. intros Hk.
    rewrite lookup_insert_Some, lookup_singleton_Some in Hk. naive_solver.
  - exact I.
  - constructor.
  - constructor.
  - vm_compute. discriminate.
  - reflexivity.
Defined.
