(* ===== verification/Initializer.v ===== *)
(** * cmd/initializer: the config file of a datanode or flownode pod

    config_generator.go: the init container reads the config that the operator
    mounted, adds the node id and the addresses of the pod, which only the pod
    knows, and writes the file the database reads.  The process's files, host name
    and environment variables are a record. *)

From stdpp Require Import base gmap strings list fin_maps.
From Stdlib Require Import ZArith Lia Ascii.
From Stdlib Require Import DecimalString DecimalZ DecimalFacts.
From S2P Require Import Prelude GoLib K8s ApiCommon Common NodeId Toml DbConfig.

Definition EnvPodIP : string := "POD_IP".
Definition EnvPodName : string := "POD_NAME".
Definition EnvPodNamespace : string := "POD_NAMESPACE".
Definition EnvRole : string := "ROLE".
Definition EnvEnableIPv6 : string := "ENABLE_IPV6".

(** ** The command line (main.go) *)

(** spf13/pflag: the flags of a command line, by name, given the declared ones, and
    the value of an int32 flag. *)
Class FlagLib := {
  pflag_Parse : list string -> list string -> res strmap;
  parse_int32 : string -> res Z }.

(** A command line that gives some flags a value, one after the other. *)
Definition flag_line (l : list (string * string)) : list string :=
  concat (map (fun f => ["--" +:+ f.1; f.2]) l).

(** Documented: declared flags that are given once, each followed by its value; a
    decimal number is read back. *)
Class FlagLaws `{FlagLib} := {
  pflag_Parse_line declared l :
    NoDup (map fst l) -> Forall (fun f => f.1 ∈ declared) l ->
    pflag_Parse declared (flag_line l) = Ok (list_to_map l);
  parse_int32_fmt_d n : is_int32 n -> parse_int32 (fmt_d n) = Ok n }.

Definition initializer_flags : list string :=
  ["config-path"; "init-config-path"; "component-kind"; "rpc-port"; "datanode-group-id";
   "start-node-id"].

Definition int32_flag `{FlagLib} (flags : strmap) (name : string) (value : Z) : res Z :=
  match flags !! name with Some s => parse_int32 s | None => Ok value end.

(** The options [main] hands to the generator, with the flags' defaults. *)
Definition main_options `{FlagLib} (args : list string) : res Options :=
  flags ← pflag_Parse initializer_flags args;
  rpcPort ← int32_flag flags "rpc-port" 4001;
  groupID ← int32_flag flags "datanode-group-id" (-1);
  startNodeID ← int32_flag flags "start-node-id" 0;
  Ok (mkOptions (default "/etc/greptimedb/config.toml" (flags !! "config-path"))
        (default "/etc/greptimedb/init-config.toml" (flags !! "init-config-path")) ""
        (default "" (flags !! "component-kind")) rpcPort groupID startNodeID).

(** The command line the operator writes, read back. *)
Definition initializer_line (kind : RoleKind) (config init : string) (rpcPort : Z)
    (groupID startNodeID : option Z) : list (string * string) :=
  [("config-path", config); ("init-config-path", init); ("rpc-port", fmt_d rpcPort);
   ("component-kind", kind)]
  ++ match groupID with Some id => [("datanode-group-id", fmt_d id)] | None => [] end
  ++ match startNodeID with Some id => [("start-node-id", fmt_d id)] | None => [] end.

Lemma main_options_line `{FlagLaws} kind config init rpcPort groupID startNodeID :
  is_int32 rpcPort -> is_int32 (default (-1)%Z groupID) -> is_int32 (default 0%Z startNodeID) ->
  main_options (flag_line (initializer_line kind config init rpcPort groupID startNodeID))
  = Ok (mkOptions config init "" kind rpcPort (default (-1)%Z groupID) (default 0%Z startNodeID)).
Proof.
  intros Hr Hg Hs. unfold main_options. rewrite pflag_Parse_line.
  - unfold int32_flag, initializer_line.
    destruct groupID as [g|], startNodeID as [n|]; cbn [app list_to_map foldr fst snd uncurry mbind res_bind];
      simplify_map_eq; rewrite !parse_int32_fmt_d by done; reflexivity.
  - destruct groupID, startNodeID; apply (bool_decide_unpack _); vm_compute; done.
  - unfold initializer_line. destruct groupID, startNodeID; cbn [app];
      repeat (apply Forall_cons_2; [apply (bool_decide_unpack _); vm_compute; done|]);
      apply Forall_nil_2.
Qed.

(** A parser of such lines, for the witnesses. *)
Fixpoint plain_flags (args : list string) : res strmap :=
  match args with
  | [] => Ok ∅
  | String _ (String _ name) :: value :: args => m ← plain_flags args; Ok (<[name := value]> m)
  | _ => Err (Errorf "unknown flag")
  end.

Definition plain_int (s : string) : res Z :=
  match s with
  | String "-" s => n ← ParseUint s; Ok (- n)%Z
  | s => ParseUint s
  end.

Lemma plain_int_fmt_d n : (- 2 ^ 64 < n < 2 ^ 64)%Z -> plain_int (fmt_d n) = Ok n.
Proof.
  intros Hn. unfold plain_int. destruct (decide (0 <= n)%Z) as [H0|H0].
  - pose proof (fmt_d_no_dash n H0) as Hd. pose proof (ParseUint_fmt_d n) as Hp.
    destruct (fmt_d n) as [|a s]; [apply Hp; unfold is_uint64; lia|].
    cbn in Hd. assert (a <> "-"%char) by (intros ->; discriminate).
    rewrite <- Hp by (unfold is_uint64; lia).
    destruct a as [[] [] [] [] [] [] [] []]; try reflexivity. done.
  - destruct n as [|q|q]; [lia|lia|].
    change (fmt_d (Z.neg q)) with (String "-" (fmt_d (Z.pos q))).
    cbn [mbind]. rewrite ParseUint_fmt_d by (unfold is_uint64; lia). reflexivity.
Qed.

Definition plain_pflag : FlagLib := {|
  pflag_Parse _ args := plain_flags args;
  parse_int32 := plain_int |}.

#[export] Instance plain_pflag_laws : @FlagLaws plain_pflag.
Proof.
  constructor.
  - intros declared l. induction l as [|[name value] l IH]; intros Hnd Hin; [reflexivity|].
    cbn [map fst] in Hnd. apply NoDup_cons in Hnd as [_ Hnd]. apply Forall_cons in Hin as [_ Hin].
    cbn. specialize (IH Hnd Hin). cbn in IH. unfold flag_line in *. rewrite IH. reflexivity.
  - intros n Hn. apply plain_int_fmt_d. unfold is_int32 in Hn. lia.
Qed.

(** os.ReadFile, os.WriteFile, os.Hostname and os.Getenv (empty when unset). *)
Record Process := mkProcess {
  os_ReadFile : string -> res string;
  os_WriteFile : string -> string -> res unit;
  os_hostname : res string;
  os_Getenv : string -> string }.

Section initializer.
Context `{TomlLib}.

(** [klog.Fatalf] ends the process: nothing is written. *)
Definition fatal {A} (r : res A) : res A :=
  match r with Err _ => Panic | _ => r end.

(** The node id, the bind address and the server address. *)
Definition pod_identity (c : Options) (p : Process) : res (Z * string * string) :=
  nodeID ← fatal (allocateNodeID c (os_hostname p));
  let podIP := os_Getenv p EnvPodIP in
  _ ← guard_err (bool_decide (podIP = "")) (Errorf "empty pod ip");
  let enableIPv6 := String.eqb (os_Getenv p EnvEnableIPv6) "true" in
  let podName := os_Getenv p EnvPodName in
  _ ← guard_err (bool_decide (podName = "")) (Errorf "empty pod name");
  Ok (nodeID, GetBindAddress enableIPv6 (op_RPCPort c),
      GetServerAddress enableIPv6 podIP (op_RPCPort c)).

Definition generateDatanodeConfig (c : Options) (p : Process) (initConfig : string) : res string :=
  cfg ← NewFromRoleKind DatanodeRoleKind;
  match SetInputConfig initConfig cfg with
  | CDatanode d =>
      '(nodeID, bindAddr, serverAddr) ← pod_identity c p;
      Marshal (CDatanode (mkDatanodeConfig (Some nodeID) (Some bindAddr) (Some serverAddr)
        (dnc_StorageConfig d) (dnc_WALConfig d) (dnc_LoggingConfig d) (dnc_TracingConfig d)
        (dnc_InputConfig d))) ConfigMergeStrategyOperatorFirst
  | _ => Err (Errorf "cfg is not datanode config")
  end.

Definition generateFlownodeConfig (c : Options) (p : Process) (initConfig : string) : res string :=
  cfg ← NewFromRoleKind FlownodeRoleKind;
  match SetInputConfig initConfig cfg with
  | CFlownode d =>
      '(nodeID, bindAddr, serverAddr) ← pod_identity c p;
      Marshal (CFlownode (mkFlownodeConfig (Some nodeID) (Some bindAddr) (Some serverAddr)
        (flc_LoggingConfig d) (flc_TracingConfig d) (flc_InputConfig d)))
        ConfigMergeStrategyOperatorFirst
  | _ => Err (Errorf "cfg is not flownode config")
  end.

(** The file and the text that were written. *)
Definition ConfigGenerator_Generate (c : Options) (p : Process) : res (string * string) :=
  initConfig ← os_ReadFile p (op_InitConfigPath c);
  configData ←
    (if decide (op_RoleKind c = DatanodeRoleKind) then generateDatanodeConfig c p initConfig
     else if decide (op_RoleKind c = FlownodeRoleKind) then generateFlownodeConfig c p initConfig
     else Err (Errorf "unknown role kind"));
  _ ← os_WriteFile p (op_ConfigPath c) configData;
  Ok (op_ConfigPath c, configData).

(** ** Specifications *)

(** What a pod's config holds under the three keys. *)
Definition identity_entries (id : Z * string * string) : list entry :=
  let '(nodeID, bindAddr, serverAddr) := id in
  [("node_id", VUint nodeID); ("grpc.bind_addr", VString bindAddr);
   ("grpc.server_addr", VString serverAddr)].

(** The roles whose pods run the initializer. *)
Definition initialized_role (kind : RoleKind) : Prop :=
  kind = DatanodeRoleKind \/ kind = FlownodeRoleKind.

(** A tree that can take the keys of any datanode or flownode config. *)
Definition accepts_identity `{!TomlLaws} (t : Tree) : Prop :=
  accepts t (CDatanode zero_DatanodeConfig).

(** A pod of a datanode group. *)
Definition sample_process (config : string) : Process :=
  mkProcess (fun _ => Ok config) (fun _ _ => Ok tt) (Ok "c-datanode-read-2")
    (fun v => if String.eqb v EnvPodIP then "10.0.0.7"
              else if String.eqb v EnvPodName then "c-datanode-read-2" else "").

(** ** Lemmas *)

(** The two generated configs: an identity on top of an empty config. *)
Definition identity_config (kind : RoleKind) (id : Z * string * string) (input : string) : Config :=
  let '(nodeID, bindAddr, serverAddr) := id in
  if decide (kind = DatanodeRoleKind) then
    CDatanode (mkDatanodeConfig (Some nodeID) (Some bindAddr) (Some serverAddr)
      zero_StorageConfig zero_WALConfig zero_LoggingConfig zero_TracingConfig input)
  else CFlownode (mkFlownodeConfig (Some nodeID) (Some bindAddr) (Some serverAddr)
      zero_LoggingConfig zero_TracingConfig input).

Lemma Generate_identity c p :
  initialized_role (op_RoleKind c) ->
  ConfigGenerator_Generate c p =
    (initConfig ← os_ReadFile p (op_InitConfigPath c);
     id ← pod_identity c p;
     text ← Marshal (identity_config (op_RoleKind c) id initConfig) ConfigMergeStrategyOperatorFirst;
     _ ← os_WriteFile p (op_ConfigPath c) text;
     Ok (op_ConfigPath c, text)).
Proof.
  intros Hr. unfold ConfigGenerator_Generate. destruct (os_ReadFile p _) as [s|e|]; cbn; try done.
  destruct Hr as [-> | ->].
  - rewrite decide_True by done. unfold generateDatanodeConfig. cbn.
    destruct (pod_identity c p) as [[[id bind] srv]|e|]; cbn; try done.
  - rewrite decide_False, decide_True by done. unfold generateFlownodeConfig. cbn.
    destruct (pod_identity c p) as [[[id bind] srv]|e|]; cbn; try done.
Qed.

Lemma identity_config_generated kind id input :
  generated (fields (identity_config kind id input)) = Ok (identity_entries id).
Proof.
  destruct id as [[nodeID bindAddr] serverAddr]. unfold identity_config, generated.
  destruct (decide (kind = DatanodeRoleKind)); rewrite fields_leaves; reflexivity.
Qed.

Lemma identity_config_regular kind id input : regular (identity_config kind id input).
Proof.
  destruct id as [[nodeID bindAddr] serverAddr]. unfold identity_config, regular, no_tls_keys.
  destruct (decide (kind = DatanodeRoleKind)); cbn; [intros w [= <-]; by left|done].
Qed.

Lemma identity_config_input kind id input :
  GetInputConfig (identity_config kind id input) = input.
Proof. destruct id as [[? ?] ?]. unfold identity_config. by destruct (decide _). Qed.

Lemma possible_keys_flownode c :
  possible_keys (fields (CFlownode c)) `sublist_of` possible_keys (fields (CDatanode zero_DatanodeConfig)).
Proof.
  unfold possible_keys. rewrite !fields_leaves.
  vm_compute. repeat first [apply sublist_skip | apply sublist_cons | apply sublist_nil].
Qed.

Lemma accepts_identity_config `{!TomlLaws} t kind id input :
  accepts_identity t -> accepts t (identity_config kind id input).
Proof.
  intros [Hi Hs]. split; [done|]. destruct id as [[nodeID bindAddr] serverAddr].
  unfold identity_config. destruct (decide (kind = DatanodeRoleKind)).
  - replace (possible_keys _) with (possible_keys (fields (CDatanode zero_DatanodeConfig))); [done|].
    unfold possible_keys. rewrite !fields_leaves. reflexivity.
  - rewrite Forall_forall in Hs. apply Forall_forall. intros k Hk. apply Hs.
    eapply elem_of_sublist; [exact Hk|apply possible_keys_flownode].
Qed.
End initializer.

(** ** Properties *)

(** C30. The config a datanode or flownode pod starts with: the mounted config with the
    pod's own node id and addresses under [node_id], [grpc.bind_addr] and
    [grpc.server_addr], whatever value the mounted config has there, and every key
    unrelated to those three as it was mounted.  What is said of the keys takes a mounted
    config that has no scalar where a key of a datanode's config needs a table ([grpc],
    [storage], [wal], [logging]), and no key spelled like the tag of inlined fields. *)
Theorem Generate_sets_identity `{TomlLaws} c p path text :
  initialized_role (op_RoleKind c) -> ConfigGenerator_Generate c p = Ok (path, text) ->
  exists initConfig nodeID bindAddr serverAddr t,
    os_ReadFile p (op_InitConfigPath c) = Ok initConfig /\ path = op_ConfigPath c
    /\ allocateNodeID c (os_hostname p) = Ok nodeID
    /\ pod_identity c p = Ok (nodeID, bindAddr, serverAddr)
    /\ toml_Load initConfig = Ok t
    /\ (accepts_identity t -> exists t',
          text = toml_String t'
          /\ toml_Get t' "node_id" = Some (VUint nodeID)
          /\ toml_Get t' "grpc.bind_addr" = Some (VString bindAddr)
          /\ toml_Get t' "grpc.server_addr" = Some (VString serverAddr)
          /\ forall k, unrelated "node_id" k -> unrelated "grpc.bind_addr" k ->
               unrelated "grpc.server_addr" k -> toml_Get t' k = toml_Get t k).
Proof.
  intros Hrole Hg. rewrite (Generate_identity c p Hrole) in Hg.
  apply bind_Ok in Hg as (initConfig & Hread & Hg).
  apply bind_Ok in Hg as ([[nodeID bindAddr] serverAddr] & Hid & Hg).
  apply bind_Ok in Hg as (text' & Hm & Hg). res_inv. subst path text'.
  assert (Hnode : allocateNodeID c (os_hostname p) = Ok nodeID).
  { clear -Hid. unfold pod_identity in Hid. res_inv.
    destruct (allocateNodeID c (os_hostname p)); cbn in *; congruence. }
  pose proof (identity_config_input (op_RoleKind c) (nodeID, bindAddr, serverAddr) initConfig) as Hin.
  destruct (toml_Load initConfig) as [t|e|] eqn:Hl;
    [|unfold Marshal in Hm; rewrite Hin, Hl in Hm; discriminate Hm..].
  exists initConfig, nodeID, bindAddr, serverAddr, t. split_and!; [done..|]. intros Ha.
  rewrite <- Hin in Hl.
  destruct (Marshal_merges _ ConfigMergeStrategyOperatorFirst t
    (identity_config_regular _ _ _) Hl (accepts_identity_config t _ _ _ Ha))
    as (es & t' & Hes & Hm' & Hget & Hother).
  rewrite identity_config_generated in Hes. injection Hes as <-.
  rewrite Hm in Hm'. injection Hm' as ->.
  assert (Hop : forall k, user_wins ConfigMergeStrategyOperatorFirst t k = false)
    by (intros k; unfold user_wins; apply andb_false_r).
  exists t'. split; [done|].
  split; [rewrite (Hget "node_id" (VUint nodeID)), Hop by (cbn; set_solver); done|].
  split; [rewrite (Hget "grpc.bind_addr" (VString bindAddr)), Hop by (cbn; set_solver); done|].
  split; [rewrite (Hget "grpc.server_addr" (VString serverAddr)), Hop by (cbn; set_solver); done|].
  intros k ? ? ?. apply Hother. by rewrite !Forall_cons, Forall_nil.
Qed.

(** Without a pod name or address, without a host name that ends in an ordinal, or
    for another role, no config is written. *)
Theorem Generate_refuses `{TomlLib} c p :
  os_Getenv p EnvPodIP = "" \/ os_Getenv p EnvPodName = ""
  \/ is_Ok (allocateNodeID c (os_hostname p)) = false \/ ~ initialized_role (op_RoleKind c) ->
  is_Ok (ConfigGenerator_Generate c p) = false.
Proof.
  intros Hbad. destruct (decide (initialized_role (op_RoleKind c))) as [Hr|Hr].
  - rewrite Generate_identity by done. destruct (os_ReadFile p _); cbn; [|done..].
    assert (Hid : is_Ok (pod_identity c p) = false).
    { unfold pod_identity. destruct (allocateNodeID c (os_hostname p)) as [id|e|]; cbn; [|done..].
      destruct Hbad as [Hb|[Hb|[?|?]]]; [| |done..]; repeat case_bool_decide; done. }
    destruct (pod_identity c p); [discriminate Hid|done..].
  - unfold ConfigGenerator_Generate. destruct (os_ReadFile p _); cbn; [|done..].
    unfold initialized_role in Hr. rewrite !decide_False by tauto. done.
Qed.

Lemma Generate_sets_identity_witness :
  let _ := flat_toml in
  let c := group_options 1 100 in
  let p := sample_process "node_id" in
  exists t, ConfigGenerator_Generate c p
              = Ok ("/etc/greptimedb/config.toml", "grpc.server_addr,grpc.bind_addr,node_id,node_id")
    /\ toml_Get t "node_id" = Some (VUint (2 ^ 32 + 102)).
Proof.
  intros T c p.
  assert (Hg : ConfigGenerator_Generate c p
    = Ok ("/etc/greptimedb/config.toml", "grpc.server_addr,grpc.bind_addr,node_id,node_id"))
    by (vm_compute; reflexivity).
  destruct (Generate_sets_identity (H := T) (H0 := flat_toml_laws) c p _ _ (or_introl eq_refl) Hg)
    as (initConfig & id & bind & srv & t & Hread & _ & Hid & _ & Hl & Ht).
  injection Hread as <-. injection Hl as <-.
  destruct Ht as (t' & _ & Hn & _).
  { split; [reflexivity|]. apply Forall_forall. intros k _. exact I. }
  exists t'. split; [exact Hg|].
  rewrite Hn. vm_compute in Hid. injection Hid as <-. reflexivity.
Defined.

Lemma Generate_refuses_witness :
  let _ := flat_toml in
  is_Ok (ConfigGenerator_Generate (group_options 1 100)
           (mkProcess (fun _ => Ok "") (fun _ _ => Ok tt) (Ok "c-datanode-2") (fun _ => ""))) = false.
Proof. intros T. apply (Generate_refuses (H := T)). left. reflexivity. Defined.
