(* ===== verification/Pods.v ===== *)
(** * Pod templates: what the five builders do to them

    The steps by which the builders of the components edit the pod template that
    [GeneratePodTemplateSpec] made (controllers/greptimedbcluster/deployers/common.go
    and the same code in the other builders), and when a template is closed: each
    mount refers to a volume of the pod or to a claim. *)

From stdpp Require Import base gmap strings list fin_maps.
From Stdlib Require Import ZArith Lia.
From S2P Require Import Prelude GoLib Hash K8s ApiCommon ApiTypes Common.

(** ** Constants (controllers/constant/constant.go, constants.go) *)

Definition GreptimeDBTLSDir : string := "/etc/greptimedb/tls".
Definition GreptimeDBInitConfigDir : string := "/etc/greptimedb-init".
Definition InitConfigVolumeName : string := "init-config".
Definition TLSVolumeName : string := "tls".
Definition DefaultTLSMode : string := "prefer".
Definition DefaultLogsVolumeName : string := "logs".
Definition DefaultAuditLogsVolumeName : string := "audit-logs".
Definition ConfigHash : string := "controller.greptime.io/config-hash".
Definition ProtocolTCP : string := "TCP".

(** [path.Join] of a clean absolute directory and a file name. *)
Definition path_Join (dir file : string) : string := dir +:+ "/" +:+ file.
Definition config_file : string := path_Join GreptimeDBConfigDir GreptimeDBConfigFileName.

(** ** Edits *)

(** [template.Spec.Containers[MainContainerIndex]], assigned to. *)
Definition on_main (f : Container -> Container) (t : CorePodTemplateSpec)
    : res CorePodTemplateSpec :=
  containers ← with_main_container f (ps_Containers (pt_Spec t));
  Ok (with_containers_volumes containers (ps_Volumes (pt_Spec t)) t).

Definition set_Args (args : list string) (c : Container) : Container :=
  mkContainer (ct_Name c) (ct_Image c) (ct_Command c) args (ct_WorkingDir c) (ct_Ports c)
    (ct_EnvFrom c) (ct_Env c) (ct_Resources c) (ct_VolumeMounts c) (ct_LivenessProbe c)
    (ct_ReadinessProbe c) (ct_StartupProbe c) (ct_Lifecycle c) (ct_ImagePullPolicy c)
    (ct_SecurityContext c).
Definition set_Ports (ports : list ContainerPort) (c : Container) : Container :=
  mkContainer (ct_Name c) (ct_Image c) (ct_Command c) (ct_Args c) (ct_WorkingDir c) ports
    (ct_EnvFrom c) (ct_Env c) (ct_Resources c) (ct_VolumeMounts c) (ct_LivenessProbe c)
    (ct_ReadinessProbe c) (ct_StartupProbe c) (ct_Lifecycle c) (ct_ImagePullPolicy c)
    (ct_SecurityContext c).
Definition append_Env (env : list EnvVar) (c : Container) : Container :=
  mkContainer (ct_Name c) (ct_Image c) (ct_Command c) (ct_Args c) (ct_WorkingDir c) (ct_Ports c)
    (ct_EnvFrom c) (ct_Env c ++ env) (ct_Resources c) (ct_VolumeMounts c) (ct_LivenessProbe c)
    (ct_ReadinessProbe c) (ct_StartupProbe c) (ct_Lifecycle c) (ct_ImagePullPolicy c)
    (ct_SecurityContext c).

(** [append(template.Spec.Volumes, v)] and [append(template.Spec.Containers, c)]. *)
Definition add_volume (v : Volume) (t : CorePodTemplateSpec) : CorePodTemplateSpec :=
  with_containers_volumes (ps_Containers (pt_Spec t)) (ps_Volumes (pt_Spec t) ++ [v]) t.
Definition add_container (c : Container) (t : CorePodTemplateSpec) : CorePodTemplateSpec :=
  with_containers_volumes (ps_Containers (pt_Spec t) ++ [c]) (ps_Volumes (pt_Spec t)) t.

Definition add_init_container (c : Container) (t : CorePodTemplateSpec) : CorePodTemplateSpec :=
  let p := pt_Spec t in
  mkCorePodTemplateSpec (pt_Annotations t) (pt_Labels t)
    (mkPodSpec (ps_Containers p) (ps_InitContainers p ++ [c]) (ps_Volumes p) (ps_NodeSelector p)
      (ps_RestartPolicy p) (ps_TerminationGracePeriodSeconds p) (ps_ActiveDeadlineSeconds p)
      (ps_DNSPolicy p) (ps_ServiceAccountName p) (ps_HostNetwork p) (ps_ImagePullSecrets p)
      (ps_Affinity p) (ps_SchedulerName p) (ps_Tolerations p) (ps_SecurityContext p)).

(** The component label of a pod, and the annotation with its config's hash. *)
Definition label_pod (name : string) (t : CorePodTemplateSpec) : CorePodTemplateSpec :=
  mkCorePodTemplateSpec (pt_Annotations t)
    (MergeStringMap (pt_Labels t) {[ GreptimeDBComponentName := name ]}) (pt_Spec t).
Definition annotate_hash (config : string) (t : CorePodTemplateSpec) : CorePodTemplateSpec :=
  mkCorePodTemplateSpec
    (MergeStringMap (pt_Annotations t) {[ ConfigHash := CalculateConfigHash config ]})
    (pt_Labels t) (pt_Spec t).

(** How every builder starts: [GeneratePodTemplateSpec(kind, spec.Template)], which is
    nil without a main container, and [spec.Template.MainContainer]. *)
Definition start_pod (kind : RoleKind) (template : option PodTemplateSpec)
    : res (MainContainerSpec * CorePodTemplateSpec) :=
  tpl ← deref template;
  main ← deref (tp_MainContainer tpl);
  t ← deref (GeneratePodTemplateSpec kind template);
  Ok (main, t).

(** [if len(MainContainer.Args) == 0 { Args = append(args, ExtraArgs...) }] *)
Definition with_args (main : MainContainerSpec) (args : res (list string))
    (t : CorePodTemplateSpec) : res CorePodTemplateSpec :=
  if decide (mc_Args main = []) then
    args ← args;
    on_main (set_Args (args ++ mc_ExtraArgs main)) t
  else Ok t.

(** A volume and its mount in the main container. *)
Definition mount_main (m : VolumeMount) (t : CorePodTemplateSpec) : res CorePodTemplateSpec :=
  on_main (add_volume_mount m) t.

(** The mount of a file storage, if there is one. *)
Definition mount_storage (fs : option FileStorage) (t : CorePodTemplateSpec)
    : res CorePodTemplateSpec :=
  match fs with
  | Some _ => mount_main (mkVolumeMount (FileStorage_GetName fs) (FileStorage_GetMountPath fs) false) t
  | None => Ok t
  end.

(** The config directory as an empty volume, which the initializer fills. *)
Definition mountConfigDir (t : CorePodTemplateSpec) : res CorePodTemplateSpec :=
  mount_main (mkVolumeMount ConfigVolumeName GreptimeDBConfigDir false)
    (add_volume (mkVolume ConfigVolumeName (EmptyDirSource None)) t).

Definition addInitConfigDirVolume (configMapName : string) (t : CorePodTemplateSpec)
    : CorePodTemplateSpec :=
  add_volume (mkVolume InitConfigVolumeName (ConfigMapSource configMapName)) t.

Definition mountTLSSecret (secretName : string) (t : CorePodTemplateSpec)
    : res CorePodTemplateSpec :=
  mount_main (mkVolumeMount TLSVolumeName GreptimeDBTLSDir true)
    (add_volume (mkVolume TLSVolumeName (SecretSource secretName)) t).

(** [resource.MustParse] of the storage's size may panic. *)
Definition addEmptyDirAsStorage `{QuantityLib} (fs : option FileStorage) (t : CorePodTemplateSpec)
    : res CorePodTemplateSpec :=
  storageSize ← MustParse (FileStorage_GetSize fs);
  Ok (add_volume (mkVolume (FileStorage_GetName fs) (EmptyDirSource (Some storageSize))) t).

Definition AddLogsVolume (mountPath : string) (t : CorePodTemplateSpec) : res CorePodTemplateSpec :=
  mount_main (mkVolumeMount DefaultLogsVolumeName mountPath false)
    (add_volume (mkVolume DefaultLogsVolumeName (EmptyDirSource None)) t).

Definition has_volume (name : string) (t : CorePodTemplateSpec) : bool :=
  existsb (fun v => bool_decide (vo_Name v = name)) (ps_Volumes (pt_Spec t)).

Definition AddAuditLogsVolumeForVector (t : CorePodTemplateSpec) : CorePodTemplateSpec :=
  if has_volume DefaultAuditLogsVolumeName t then t
  else add_volume (mkVolume DefaultAuditLogsVolumeName (EmptyDirSource None)) t.

Definition AddAuditLogsVolume (mountPath : string) (t : CorePodTemplateSpec)
    : res CorePodTemplateSpec :=
  mount_main (mkVolumeMount DefaultAuditLogsVolumeName mountPath false)
    (AddAuditLogsVolumeForVector t).

(** A container of the pod that is not the main one, as a literal. *)
Definition plain_container (name image : string) (command args : list string) (env : list EnvVar)
    (resources : ResourceRequirements) (mounts : list VolumeMount) : Container :=
  mkContainer name image command args "" [] [] env resources mounts None None None "" "" "".

(** ** Closed templates *)

(** Every container, the init containers included, mounts volumes of the pod or
    claims only: otherwise the API server rejects the pod. *)
Definition mounts_in (names : list string) (c : Container) : Prop :=
  Forall (fun m => vm_Name m ∈ names) (ct_VolumeMounts c).

Definition pod_volumes (t : CorePodTemplateSpec) : list string :=
  map vo_Name (ps_Volumes (pt_Spec t)).

Definition pod_containers (t : CorePodTemplateSpec) : list Container :=
  ps_Containers (pt_Spec t) ++ ps_InitContainers (pt_Spec t).

Definition closed (claims : list string) (t : CorePodTemplateSpec) : Prop :=
  Forall (mounts_in (pod_volumes t ++ claims)) (pod_containers t).

(** The user's template is closed on its own. *)
Definition template_closed (claims : list string) (kind : RoleKind) (t : option PodTemplateSpec)
    : Prop :=
  forall pod, GeneratePodTemplateSpec kind t = Some pod -> closed claims pod.

#[export] Instance mounts_in_dec names c : Decision (mounts_in names c).
Proof. unfold mounts_in. apply _. Defined.
#[export] Instance closed_dec claims t : Decision (closed claims t).
Proof. unfold closed. apply _. Defined.
#[export] Instance template_closed_dec claims kind t : Decision (template_closed claims kind t).
Proof.
  unfold template_closed. destruct (GeneratePodTemplateSpec kind t) as [pod|]; [|by left].
  destruct (decide (closed claims pod)) as [H|H]; [left; by intros ? [= <-]|right; eauto].
Defined.

(** ** Lemmas *)

Lemma mounts_in_subset l l' c : l ⊆ l' -> mounts_in l c -> mounts_in l' c.
Proof. intros Hl Hc. eapply Forall_impl; [exact Hc|]. intros m. cbn. set_solver. Qed.

Lemma closed_with_claims claims claims' t : claims ⊆ claims' -> closed claims t -> closed claims' t.
Proof.
  intros Hc Ht. eapply Forall_impl; [exact Ht|]. intros c. apply mounts_in_subset. set_solver.
Qed.

Lemma closed_add_volume claims v t : closed claims t -> closed claims (add_volume v t).
Proof.
  intros Ht. eapply Forall_impl; [exact Ht|]. intros c. apply mounts_in_subset.
  unfold pod_volumes. cbn. rewrite map_app. set_solver.
Qed.

Lemma closed_add_container claims c t :
  closed claims t -> mounts_in (pod_volumes t ++ claims) c -> closed claims (add_container c t).
Proof.
  unfold closed, pod_containers. cbn. rewrite !Forall_app. intros [H1 H2] Hc.
  split_and!; [done|by constructor|done].
Qed.

Lemma closed_add_init_container claims c t :
  closed claims t -> mounts_in (pod_volumes t ++ claims) c -> closed claims (add_init_container c t).
Proof.
  unfold closed, pod_containers. cbn. rewrite !Forall_app. intros [H1 H2] Hc.
  split_and!; [done|done|by constructor].
Qed.

Lemma on_main_Ok f t t' :
  on_main f t = Ok t' ->
  exists c cs, ps_Containers (pt_Spec t) = c :: cs
    /\ t' = with_containers_volumes (f c :: cs) (ps_Volumes (pt_Spec t)) t.
Proof.
  unfold on_main, with_main_container.
  destruct (ps_Containers (pt_Spec t)) as [|c cs] eqn:Hc; cbn; [done|]. intros [= <-]. eauto.
Qed.

Lemma closed_on_main claims f t t' :
  on_main f t = Ok t' -> closed claims t ->
  (forall c, mounts_in (pod_volumes t ++ claims) c -> mounts_in (pod_volumes t ++ claims) (f c)) ->
  closed claims t'.
Proof.
  intros Ho Ht Hf. apply on_main_Ok in Ho as (c & cs & Hc & ->).
  unfold closed, pod_containers, pod_volumes in *. cbn. rewrite Hc in Ht. cbn in Ht.
  apply Forall_cons in Ht as [H1 H2]. constructor; [by apply Hf|done].
Qed.

Lemma mounts_in_add names m c :
  vm_Name m ∈ names -> mounts_in names c -> mounts_in names (add_volume_mount m c).
Proof. intros Hm Hc. apply Forall_app. split; [done|by constructor]. Qed.

Lemma closed_mount_main claims m t t' :
  mount_main m t = Ok t' -> closed claims t -> vm_Name m ∈ pod_volumes t ++ claims ->
  closed claims t'.
Proof.
  intros Hm Ht Hin. eapply closed_on_main; [exact Hm|exact Ht|]. intros c. by apply mounts_in_add.
Qed.

Lemma pod_volumes_add v t : pod_volumes (add_volume v t) = pod_volumes t ++ [vo_Name v].
Proof. unfold pod_volumes. cbn. by rewrite map_app. Qed.

Lemma has_volume_true name t : has_volume name t = true <-> name ∈ pod_volumes t.
Proof.
  unfold has_volume, pod_volumes. rewrite existsb_exists, list_elem_of_fmap.
  setoid_rewrite bool_decide_eq_true. setoid_rewrite list_elem_of_In. naive_solver.
Qed.

(** ** Steps that keep a template closed *)

(** Volumes are only added, and a closed template stays closed. *)
Definition extends (claims : list string) (t t' : CorePodTemplateSpec) : Prop :=
  pod_volumes t ⊆ pod_volumes t' /\ (closed claims t -> closed claims t').

#[export] Instance extends_preorder claims : PreOrder (extends claims).
Proof.
  split; [by intros t|]. intros t1 t2 t3 [H1 H1'] [H2 H2']. split; [set_solver|auto].
Qed.

(** Every step at once: a result that extends its argument. *)
Lemma extends_bind claims t (r : res CorePodTemplateSpec) (f : CorePodTemplateSpec -> res CorePodTemplateSpec) t' :
  r ≫= f = Ok t' ->
  (forall t1, r = Ok t1 -> extends claims t t1) ->
  (forall t1, r = Ok t1 -> f t1 = Ok t' -> extends claims t1 t') -> extends claims t t'.
Proof.
  intros Hb H1 H2. apply bind_Ok in Hb as (t1 & Hr & Hf).
  transitivity t1; [by apply H1|by apply H2].
Qed.

Lemma pod_volumes_on_main f t t' : on_main f t = Ok t' -> pod_volumes t' = pod_volumes t.
Proof. by intros (c & cs & _ & ->)%on_main_Ok. Qed.

Lemma extends_add_volume claims v t : extends claims t (add_volume v t).
Proof. split; [rewrite pod_volumes_add; set_solver|apply closed_add_volume]. Qed.

Lemma extends_on_main claims f t t' :
  on_main f t = Ok t' -> (forall c, ct_VolumeMounts (f c) = ct_VolumeMounts c) -> extends claims t t'.
Proof.
  intros Ho Hf. split; [by rewrite (pod_volumes_on_main f t t' Ho)|]. intros Ht.
  eapply closed_on_main; [exact Ho|exact Ht|]. intros c. unfold mounts_in. by rewrite Hf.
Qed.

Lemma extends_mount_main claims m t t' :
  mount_main m t = Ok t' -> vm_Name m ∈ pod_volumes t ++ claims -> extends claims t t'.
Proof.
  intros Hm Hin. split; [by rewrite (pod_volumes_on_main _ t t' Hm)|]. intros Ht.
  by eapply closed_mount_main.
Qed.

(** A volume and the mount of it. *)
Lemma extends_volume_mount claims v m t t' :
  mount_main m (add_volume v t) = Ok t' -> vm_Name m = vo_Name v -> extends claims t t'.
Proof.
  intros Hm Hn. transitivity (add_volume v t); [apply extends_add_volume|].
  eapply extends_mount_main; [exact Hm|]. rewrite pod_volumes_add, Hn. set_solver.
Qed.

Lemma extends_mount_storage claims fs t t' :
  mount_storage fs t = Ok t' ->
  (fs <> None -> FileStorage_GetName fs ∈ pod_volumes t ++ claims) -> extends claims t t'.
Proof.
  unfold mount_storage. destruct fs as [fs|]; [|by intros [= ->] _].
  intros Hm Hin. eapply extends_mount_main; [exact Hm|]. by apply Hin.
Qed.

Lemma extends_mountConfigDir claims t t' : mountConfigDir t = Ok t' -> extends claims t t'.
Proof. intros Hm. by eapply extends_volume_mount; [exact Hm|]. Qed.

Lemma extends_AddLogsVolume claims p t t' : AddLogsVolume p t = Ok t' -> extends claims t t'.
Proof. intros Hm. by eapply extends_volume_mount; [exact Hm|]. Qed.

Lemma extends_mountTLSSecret claims s t t' : mountTLSSecret s t = Ok t' -> extends claims t t'.
Proof. intros Hm. by eapply extends_volume_mount; [exact Hm|]. Qed.

Lemma extends_MountConfigDir claims s t t' : MountConfigDir t s = Ok t' -> extends claims t t'.
Proof.
  intros Hm. apply (extends_volume_mount claims (mkVolume ConfigVolumeName (ConfigMapSource s))
    (mkVolumeMount ConfigVolumeName GreptimeDBConfigDir false)); [|done].
  unfold MountConfigDir in Hm. res_inv. subst t'. unfold mount_main, on_main. cbn. by rewrite H.
Qed.

Lemma extends_addEmptyDir `{QuantityLib} claims fs t t' :
  addEmptyDirAsStorage fs t = Ok t' ->
  extends claims t t' /\ FileStorage_GetName fs ∈ pod_volumes t'.
Proof.
  unfold addEmptyDirAsStorage. intros He. res_inv. subst t'.
  split; [apply extends_add_volume|]. rewrite pod_volumes_add. set_solver.
Qed.

Lemma extends_audit_volume claims t : extends claims t (AddAuditLogsVolumeForVector t).
Proof. unfold AddAuditLogsVolumeForVector. destruct (has_volume _ t); [done|apply extends_add_volume]. Qed.

Lemma audit_volume_in t : DefaultAuditLogsVolumeName ∈ pod_volumes (AddAuditLogsVolumeForVector t).
Proof.
  unfold AddAuditLogsVolumeForVector. destruct (has_volume _ t) eqn:Hv; [by apply has_volume_true|].
  rewrite pod_volumes_add. set_solver.
Qed.

Lemma extends_AddAuditLogsVolume claims p t t' :
  AddAuditLogsVolume p t = Ok t' -> extends claims t t'.
Proof.
  intros Hm. transitivity (AddAuditLogsVolumeForVector t); [apply extends_audit_volume|].
  eapply extends_mount_main; [exact Hm|]. pose proof (audit_volume_in t). cbn [vm_Name]. set_solver.
Qed.

(** Labels and annotations do not matter. *)
Lemma extends_label claims name t : extends claims t (label_pod name t).
Proof. by split. Qed.
Lemma extends_hash claims config t : extends claims t (annotate_hash config t).
Proof. by split. Qed.

Lemma extends_add_container claims c t :
  mounts_in (pod_volumes t ++ claims) c -> extends claims t (add_container c t).
Proof. intros Hc. split; [done|]. intros Ht. by apply closed_add_container. Qed.

Lemma extends_add_init_container claims c t :
  mounts_in (pod_volumes t ++ claims) c -> extends claims t (add_init_container c t).
Proof. intros Hc. split; [done|]. intros Ht. by apply closed_add_init_container. Qed.

(** The initializer mounts the two config volumes. *)
Lemma extends_initializer claims i t :
  map vm_Name (ct_VolumeMounts i) = [ConfigVolumeName; InitConfigVolumeName] ->
  ConfigVolumeName ∈ pod_volumes t -> InitConfigVolumeName ∈ pod_volumes t ->
  extends claims t (add_init_container i t).
Proof.
  intros Hm Hv1 Hv2. apply extends_add_init_container. unfold mounts_in.
  apply (proj1 (Forall_map vm_Name (fun n => n ∈ pod_volumes t ++ claims) _)). rewrite Hm.
  repeat apply Forall_cons_2; set_solver.
Qed.

(** A claim that turns out to be a volume. *)
Lemma closed_drop claims name t :
  name ∈ pod_volumes t -> closed (name :: claims) t -> closed claims t.
Proof.
  intros Hn Ht. eapply Forall_impl; [exact Ht|]. intros c. apply mounts_in_subset. set_solver.
Qed.

Lemma volume_mount_in v m t t' :
  mount_main m (add_volume v t) = Ok t' -> vo_Name v ∈ pod_volumes t'.
Proof.
  intros Hm. rewrite (pod_volumes_on_main _ _ _ Hm), pod_volumes_add. set_solver.
Qed.

Lemma mountConfigDir_in t t' : mountConfigDir t = Ok t' -> ConfigVolumeName ∈ pod_volumes t'.
Proof. apply (volume_mount_in (mkVolume ConfigVolumeName (EmptyDirSource None))). Qed.

Lemma AddLogsVolume_in p t t' : AddLogsVolume p t = Ok t' -> DefaultLogsVolumeName ∈ pod_volumes t'.
Proof. apply (volume_mount_in (mkVolume DefaultLogsVolumeName (EmptyDirSource None))). Qed.

Lemma extends_args claims args t t' : on_main (set_Args args) t = Ok t' -> extends claims t t'.
Proof. intros Ho. by eapply extends_on_main. Qed.
Lemma extends_ports claims ports t t' : on_main (set_Ports ports) t = Ok t' -> extends claims t t'.
Proof. intros Ho. by eapply extends_on_main. Qed.
Lemma extends_env claims env t t' : on_main (append_Env env) t = Ok t' -> extends claims t t'.
Proof. intros Ho. by eapply extends_on_main. Qed.

Lemma extends_with_args claims main args t t' :
  with_args main args t = Ok t' -> extends claims t t'.
Proof.
  unfold with_args. destruct (decide _); [|by intros [= ->]].
  intros (l & _ & Ho)%bind_Ok. by eapply extends_args.
Qed.

Lemma start_pod_Ok kind template main t :
  start_pod kind template = Ok (main, t) -> GeneratePodTemplateSpec kind template = Some t.
Proof.
  unfold start_pod. intros (tpl & _ & Hs)%bind_Ok. apply bind_Ok in Hs as (main' & _ & Hs).
  apply bind_Ok in Hs as (t' & Ht & [= _ ->]). by destruct (GeneratePodTemplateSpec _ _); simplify_eq/=.
Qed.

Lemma extends_volumes claims name t t' :
  extends claims t t' -> name ∈ pod_volumes t -> name ∈ pod_volumes t'.
Proof. intros [Hv _]. apply Hv. Qed.

Lemma extends_eq claims t t' : Ok t = Ok t' -> extends claims t t'.
Proof. by intros [= ->]. Qed.

(** *** Steps that keep a container in a template *)

Definition has_main (t : CorePodTemplateSpec) : Prop := ps_Containers (pt_Spec t) <> [].

Lemma has_main_on_main f t t' : on_main f t = Ok t' -> has_main t'.
Proof.
  unfold on_main. intros (l & Hl & [= <-])%bind_Ok. unfold has_main. cbn.
  destruct (ps_Containers (pt_Spec t)); [done|]. by injection Hl as <-.
Qed.

Lemma has_main_mount_storage fs t t' : mount_storage fs t = Ok t' -> has_main t -> has_main t'.
Proof.
  unfold mount_storage. destruct fs; [|by intros [= ->]]. intros Hm _. by eapply has_main_on_main.
Qed.

Lemma has_main_add_volume v t : has_main t -> has_main (add_volume v t).
Proof. done. Qed.

Lemma has_main_add_container c t : has_main (add_container c t).
Proof. unfold has_main. cbn. by destruct (ps_Containers (pt_Spec t)). Qed.

Create HintDb extends.
#[export] Hint Resolve extends_eq extends_with_args extends_ports extends_env extends_add_volume
  extends_mountConfigDir extends_MountConfigDir extends_AddLogsVolume extends_mountTLSSecret
  extends_audit_volume extends_AddAuditLogsVolume extends_label extends_hash extends_volumes
  mountConfigDir_in AddLogsVolume_in : extends.

(** Proves a step from its equation, by cases on the condition it is under. *)
Ltac extends_step H :=
  repeat match type of H with
  | (if ?b then _ else _) = Ok _ => destruct b eqn:?
  | match ?x with _ => _ end = Ok _ => destruct x eqn:?
  | _ ≫= _ = Ok _ => apply bind_Ok in H as (? & _ & H)
  end; eauto with extends.

Lemma label_pod_lookup name t : pt_Labels (label_pod name t) !! GreptimeDBComponentName = Some name.
Proof. unfold label_pod. cbn. rewrite MergeStringMap_lookup. by simplify_map_eq. Qed.

(** Steps that leave the labels of a pod alone. *)
Lemma on_main_labels f t t' : on_main f t = Ok t' -> pt_Labels t' = pt_Labels t.
Proof. by intros (c & cs & _ & ->)%on_main_Ok. Qed.
Lemma MountConfigDir_labels s t t' : MountConfigDir t s = Ok t' -> pt_Labels t' = pt_Labels t.
Proof. unfold MountConfigDir. intros Hm. res_inv. by subst t'. Qed.
Lemma AddLogsVolume_labels p t t' : AddLogsVolume p t = Ok t' -> pt_Labels t' = pt_Labels t.
Proof. by intros ->%on_main_labels. Qed.
Lemma AddAuditLogsVolume_labels p t t' : AddAuditLogsVolume p t = Ok t' -> pt_Labels t' = pt_Labels t.
Proof.
  intros ->%on_main_labels. unfold AddAuditLogsVolumeForVector. by destruct (has_volume _ t).
Qed.
Lemma mountTLSSecret_labels s t t' : mountTLSSecret s t = Ok t' -> pt_Labels t' = pt_Labels t.
Proof. by intros ->%on_main_labels. Qed.

Create HintDb labels.
#[export] Hint Resolve on_main_labels MountConfigDir_labels AddLogsVolume_labels
  AddAuditLogsVolume_labels mountTLSSecret_labels : labels.
