(* ===== verification/Mergo.v ===== *)
(** * dario.cat/mergo: what the defaulting relies on

    mergo is not part of the repository.  Its documentation says what [Merge]
    does to a destination and a source of the same type: it sets the zero-valued
    fields of the destination from the source, recursively in structs, behind
    pointers and in maps; a non-empty slice is kept; a transformer registered for
    a type replaces the rule for that type.  [fill] writes this documented
    behaviour down for the types the operator merges, [MergoLib] is the library
    and [MergoLaws] says that it behaves as documented.

    The flag of [fill] says whether defaulting.go's [intOrStringTransformer] is
    registered. *)

From stdpp Require Import base gmap strings list fin_maps.
From Stdlib Require Import ZArith.
From S2P Require Import Prelude GoLib K8s ApiCommon ApiTypes.

Class Fill (T : Type) := { fill : bool -> T -> T -> T }.

(** ** Leaves *)

#[export] Instance string_Fill : Fill string := {|
  fill _ d s := if decide (d = "") then s else d |}.
#[export] Instance Z_Fill : Fill Z := {|
  fill _ d s := if decide (d = 0%Z) then s else d |}.
#[export] Instance bool_Fill : Fill bool := {| fill _ d s := d || s |}.
#[export] Instance list_Fill {A} : Fill (list A) := {|
  fill _ d s := match d with [] => s | _ => d end |}.
#[export] Instance option_Fill `{Fill A} : Fill (option A) := {|
  fill tr d s := match d, s with
                 | None, _ => s
                 | Some d, None => Some d
                 | Some d, Some s => Some (fill tr d s)
                 end |}.

(** A key whose value is missing or empty takes the source's value. *)
Definition fill_value (d s : option string) : option string :=
  match d, s with
  | None, _ => s
  | Some d, None => Some d
  | Some d, Some s => Some (if decide (d = "") then s else d)
  end.
#[export] Instance strmap_Fill : Fill strmap := {| fill _ d s := merge fill_value d s |}.

(** ** IntOrString

    defaulting.go: the kind of the destination is kept, and only its content is
    filled in; it is registered for pointers.  Without it the struct is filled
    field by field, [Int] being the zero of its type. *)

Definition Transformer (dstVal srcVal : IntOrString) : IntOrString :=
  match is_Type dstVal with
  | TInt => mkIntOrString TInt
              (if decide (is_IntVal dstVal = 0%Z) then is_IntVal srcVal else is_IntVal dstVal) ""
  | TString => mkIntOrString TString 0
                 (if decide (is_StrVal dstVal = "") then is_StrVal srcVal else is_StrVal dstVal)
  end.

#[export] Instance IntOrStringType_Fill : Fill IntOrStringType := {|
  fill _ d s := match d with TInt => s | TString => TString end |}.
#[export] Instance IntOrString_Fill : Fill IntOrString := {|
  fill tr d s := mkIntOrString (fill tr (is_Type d) (is_Type s)) (fill tr (is_IntVal d) (is_IntVal s))
                   (fill tr (is_StrVal d) (is_StrVal s)) |}.

(** A nil destination takes the source's pointer before any transformer runs. *)
Definition fill_IntOrString_ptr (tr : bool) (d s : option IntOrString) : option IntOrString :=
  match d, s with
  | None, _ => s
  | Some d, None => Some d
  | Some d, Some s => Some (if tr then Transformer d s else fill false d s)
  end.

(** ** Structs

    Sub-structures carried as text are merged by mergo's recursion, which is a
    parameter here. *)
Class OpaqueMerge := {
  merge_opaque : opaque -> opaque -> opaque;
  merge_opaque_again d s : merge_opaque (merge_opaque d s) s = merge_opaque d s;
  merge_opaque_set d s : merge_opaque d s = "" -> d = "" }.

Section fill.
Context `{OpaqueMerge}.

Definition fill_opaque (tr : bool) (d s : opaque) : opaque :=
  if decide (d = "") then s else if decide (s = "") then d else merge_opaque d s.

#[export] Instance HTTPGetAction_Fill : Fill HTTPGetAction := {|
  fill tr d s :=
    mkHTTPGetAction (fill tr (hg_Path d) (hg_Path s)) (fill tr (hg_Port d) (hg_Port s))
      (fill tr (hg_Host d) (hg_Host s)) (fill tr (hg_Scheme d) (hg_Scheme s))
      (fill tr (hg_HTTPHeaders d) (hg_HTTPHeaders s)) |}.

#[export] Instance Probe_Fill : Fill Probe := {|
  fill tr d s :=
    mkProbe (fill_opaque tr (pb_Exec d) (pb_Exec s)) (fill tr (pb_HTTPGet d) (pb_HTTPGet s))
      (fill_opaque tr (pb_TCPSocket d) (pb_TCPSocket s)) (fill_opaque tr (pb_GRPC d) (pb_GRPC s))
      (fill tr (pb_InitialDelaySeconds d) (pb_InitialDelaySeconds s))
      (fill tr (pb_TimeoutSeconds d) (pb_TimeoutSeconds s))
      (fill tr (pb_PeriodSeconds d) (pb_PeriodSeconds s))
      (fill tr (pb_SuccessThreshold d) (pb_SuccessThreshold s))
      (fill tr (pb_FailureThreshold d) (pb_FailureThreshold s))
      (fill tr (pb_TerminationGracePeriodSeconds d) (pb_TerminationGracePeriodSeconds s)) |}.

#[export] Instance ResourceRequirements_Fill : Fill ResourceRequirements := {|
  fill tr d s :=
    mkResourceRequirements (fill tr (rr_Limits d) (rr_Limits s))
      (fill tr (rr_Requests d) (rr_Requests s)) (fill tr (rr_Claims d) (rr_Claims s)) |}.

#[export] Instance MainContainerSpec_Fill : Fill MainContainerSpec := {|
  fill tr d s :=
    mkMainContainerSpec (fill tr (mc_Image d) (mc_Image s))
      (fill tr (mc_Resources d) (mc_Resources s)) (fill tr (mc_Command d) (mc_Command s))
      (fill tr (mc_Args d) (mc_Args s)) (fill tr (mc_ExtraArgs d) (mc_ExtraArgs s))
      (fill tr (mc_WorkingDir d) (mc_WorkingDir s)) (fill tr (mc_Env d) (mc_Env s))
      (fill tr (mc_EnvFrom d) (mc_EnvFrom s)) (fill tr (mc_LivenessProbe d) (mc_LivenessProbe s))
      (fill tr (mc_ReadinessProbe d) (mc_ReadinessProbe s))
      (fill tr (mc_StartupProbe d) (mc_StartupProbe s))
      (fill_opaque tr (mc_Lifecycle d) (mc_Lifecycle s))
      (fill tr (mc_ImagePullPolicy d) (mc_ImagePullPolicy s))
      (fill tr (mc_VolumeMounts d) (mc_VolumeMounts s))
      (fill_opaque tr (mc_SecurityContext d) (mc_SecurityContext s)) |}.

#[export] Instance SlimPodSpec_Fill : Fill SlimPodSpec := {|
  fill tr d s :=
    mkSlimPodSpec (fill tr (sl_NodeSelector d) (sl_NodeSelector s))
      (fill tr (sl_InitContainers d) (sl_InitContainers s))
      (fill tr (sl_RestartPolicy d) (sl_RestartPolicy s))
      (fill tr (sl_TerminationGracePeriodSeconds d) (sl_TerminationGracePeriodSeconds s))
      (fill tr (sl_ActiveDeadlineSeconds d) (sl_ActiveDeadlineSeconds s))
      (fill tr (sl_DNSPolicy d) (sl_DNSPolicy s))
      (fill tr (sl_ServiceAccountName d) (sl_ServiceAccountName s))
      (fill tr (sl_HostNetwork d) (sl_HostNetwork s))
      (fill tr (sl_ImagePullSecrets d) (sl_ImagePullSecrets s))
      (fill_opaque tr (sl_Affinity d) (sl_Affinity s))
      (fill tr (sl_Tolerations d) (sl_Tolerations s))
      (fill tr (sl_SchedulerName d) (sl_SchedulerName s))
      (fill tr (sl_AdditionalContainers d) (sl_AdditionalContainers s))
      (fill tr (sl_Volumes d) (sl_Volumes s))
      (fill_opaque tr (sl_SecurityContext d) (sl_SecurityContext s)) |}.

#[export] Instance PodTemplateSpec_Fill : Fill PodTemplateSpec := {|
  fill tr d s :=
    mkPodTemplateSpec (fill tr (tp_Annotations d) (tp_Annotations s))
      (fill tr (tp_Labels d) (tp_Labels s)) (fill tr (tp_MainContainer d) (tp_MainContainer s))
      (fill tr (tp_SlimPodSpec d) (tp_SlimPodSpec s)) |}.

#[export] Instance FileStorage_Fill : Fill FileStorage := {|
  fill tr d s :=
    mkFileStorage (fill tr (fs_Name d) (fs_Name s))
      (fill tr (fs_UseEmptyDir d) (fs_UseEmptyDir s))
      (fill tr (fs_StorageClassName d) (fs_StorageClassName s))
      (fill tr (fs_StorageSize d) (fs_StorageSize s)) (fill tr (fs_MountPath d) (fs_MountPath s))
      (fill tr (fs_StorageRetainPolicy d) (fs_StorageRetainPolicy s))
      (fill tr (fs_Labels d) (fs_Labels s)) (fill tr (fs_Annotations d) (fs_Annotations s)) |}.

#[export] Instance RaftEngineWAL_Fill : Fill RaftEngineWAL := {|
  fill tr d s :=
    mkRaftEngineWAL (fill tr (re_FileStorage d) (re_FileStorage s)) |}.

#[export] Instance KafkaSASLSecretRef_Fill : Fill KafkaSASLSecretRef := {|
  fill tr d s :=
    mkKafkaSASLSecretRef (fill tr (kr_Name d) (kr_Name s))
      (fill tr (kr_UsernameKey d) (kr_UsernameKey s))
      (fill tr (kr_PasswordKey d) (kr_PasswordKey s)) |}.

#[export] Instance KafkaSASL_Fill : Fill KafkaSASL := {|
  fill tr d s :=
    mkKafkaSASL (fill tr (ks_Type d) (ks_Type s)) (fill tr (ks_Username d) (ks_Username s))
      (fill tr (ks_Password d) (ks_Password s)) (fill tr (ks_SecretRef d) (ks_SecretRef s)) |}.

#[export] Instance KafkaTLS_Fill : Fill KafkaTLS := {|
  fill tr d s :=
    mkKafkaTLS (fill tr (kt_ServerCACertPath d) (kt_ServerCACertPath s))
      (fill tr (kt_ClientCertPath d) (kt_ClientCertPath s))
      (fill tr (kt_ClientKeyPath d) (kt_ClientKeyPath s)) |}.

#[export] Instance KafkaWAL_Fill : Fill KafkaWAL := {|
  fill tr d s :=
    mkKafkaWAL (fill tr (kw_BrokerEndpoints d) (kw_BrokerEndpoints s))
      (fill tr (kw_SASL d) (kw_SASL s)) (fill tr (kw_TLS d) (kw_TLS s)) |}.

#[export] Instance WALProviderSpec_Fill : Fill WALProviderSpec := {|
  fill tr d s :=
    mkWALProviderSpec (fill tr (wp_RaftEngineWAL d) (wp_RaftEngineWAL s))
      (fill tr (wp_KafkaWAL d) (wp_KafkaWAL s)) |}.

#[export] Instance LoggingSpec_Fill : Fill LoggingSpec := {|
  fill tr d s :=
    mkLoggingSpec (fill tr (lg_Level d) (lg_Level s)) (fill tr (lg_Filters d) (lg_Filters s))
      (fill tr (lg_LogsDir d) (lg_LogsDir s))
      (fill tr (lg_PersistentWithData d) (lg_PersistentWithData s))
      (fill tr (lg_OnlyLogToStdout d) (lg_OnlyLogToStdout s))
      (fill tr (lg_Format d) (lg_Format s)) (fill tr (lg_MaxLogFiles d) (lg_MaxLogFiles s))
      (fill tr (lg_MaxLogDirSize d) (lg_MaxLogDirSize s)) |}.

#[export] Instance TracingSpec_Fill : Fill TracingSpec := {|
  fill tr d s :=
    mkTracingSpec (fill tr (tr_Enabled d) (tr_Enabled s))
      (fill tr (tr_Endpoint d) (tr_Endpoint s)) (fill tr (tr_SampleRatio d) (tr_SampleRatio s))
      (fill tr (tr_Headers d) (tr_Headers s))
      (fill tr (tr_ExportProtocol d) (tr_ExportProtocol s)) |}.

#[export] Instance AuditLogSpec_Fill : Fill AuditLogSpec := {|
  fill tr d s :=
    mkAuditLogSpec (fill tr (al_Enabled d) (al_Enabled s)) (fill tr (al_Dir d) (al_Dir s))
      (fill tr (al_Sources d) (al_Sources s)) (fill tr (al_Classes d) (al_Classes s))
      (fill tr (al_Commands d) (al_Commands s)) (fill tr (al_ObjectTypes d) (al_ObjectTypes s))
      (fill tr (al_MaxLogFiles d) (al_MaxLogFiles s)) |}.

#[export] Instance ServiceSpec_Fill : Fill ServiceSpec := {|
  fill tr d s :=
    mkServiceSpec (fill tr (sv_Type d) (sv_Type s))
      (fill tr (sv_Annotations d) (sv_Annotations s)) (fill tr (sv_Labels d) (sv_Labels s))
      (fill tr (sv_LoadBalancerClass d) (sv_LoadBalancerClass s))
      (fill tr (sv_Ports d) (sv_Ports s)) |}.

#[export] Instance TLSSpec_Fill : Fill TLSSpec := {|
  fill tr d s :=
    mkTLSSpec (fill tr (tl_SecretName d) (tl_SecretName s)) |}.

#[export] Instance CacheStorage_Fill : Fill CacheStorage := {|
  fill tr d s :=
    mkCacheStorage (fill tr (ca_FileStorage d) (ca_FileStorage s))
      (fill tr (ca_CacheCapacity d) (ca_CacheCapacity s)) |}.

#[export] Instance S3Storage_Fill : Fill S3Storage := {|
  fill tr d s :=
    mkS3Storage (fill tr (s3_Bucket d) (s3_Bucket s)) (fill tr (s3_Region d) (s3_Region s))
      (fill tr (s3_SecretName d) (s3_SecretName s)) (fill tr (s3_Root d) (s3_Root s))
      (fill tr (s3_Endpoint d) (s3_Endpoint s))
      (fill tr (s3_EnableVirtualHostStyle d) (s3_EnableVirtualHostStyle s)) |}.

#[export] Instance OSSStorage_Fill : Fill OSSStorage := {|
  fill tr d s :=
    mkOSSStorage (fill tr (oss_Bucket d) (oss_Bucket s)) (fill tr (oss_Region d) (oss_Region s))
      (fill tr (oss_SecretName d) (oss_SecretName s)) (fill tr (oss_Root d) (oss_Root s))
      (fill tr (oss_Endpoint d) (oss_Endpoint s)) |}.

#[export] Instance GCSStorage_Fill : Fill GCSStorage := {|
  fill tr d s :=
    mkGCSStorage (fill tr (gcs_Bucket d) (gcs_Bucket s)) (fill tr (gcs_Root d) (gcs_Root s))
      (fill tr (gcs_SecretName d) (gcs_SecretName s)) (fill tr (gcs_Scope d) (gcs_Scope s))
      (fill tr (gcs_Endpoint d) (gcs_Endpoint s)) |}.

#[export] Instance AZBlobStorage_Fill : Fill AZBlobStorage := {|
  fill tr d s :=
    mkAZBlobStorage (fill tr (az_Container d) (az_Container s))
      (fill tr (az_SecretName d) (az_SecretName s)) (fill tr (az_Root d) (az_Root s))
      (fill tr (az_Endpoint d) (az_Endpoint s)) |}.

#[export] Instance ObjectStorageProviderSpec_Fill : Fill ObjectStorageProviderSpec := {|
  fill tr d s :=
    mkObjectStorageProviderSpec (fill tr (os_S3 d) (os_S3 s)) (fill tr (os_OSS d) (os_OSS s))
      (fill tr (os_GCS d) (os_GCS s)) (fill tr (os_AZBlob d) (os_AZBlob s))
      (fill tr (os_Cache d) (os_Cache s)) |}.

#[export] Instance DatanodeStorageSpec_Fill : Fill DatanodeStorageSpec := {|
  fill tr d s :=
    mkDatanodeStorageSpec (fill tr (dst_DataHome d) (dst_DataHome s))
      (fill tr (dst_FileStorage d) (dst_FileStorage s)) |}.

#[export] Instance PrometheusMonitorSpec_Fill : Fill PrometheusMonitorSpec := {|
  fill tr d s :=
    mkPrometheusMonitorSpec (fill tr (pr_Enabled d) (pr_Enabled s))
      (fill tr (pr_Labels d) (pr_Labels s)) (fill tr (pr_Interval d) (pr_Interval s)) |}.

#[export] Instance SlowQuery_Fill : Fill SlowQuery := {|
  fill tr d s :=
    mkSlowQuery (fill tr (sq_Enabled d) (sq_Enabled s))
      (fill tr (sq_RecordType d) (sq_RecordType s)) (fill tr (sq_Threshold d) (sq_Threshold s))
      (fill tr (sq_SampleRatio d) (sq_SampleRatio s)) (fill tr (sq_TTL d) (sq_TTL s)) |}.

#[export] Instance RollingUpdateDeployment_Fill : Fill RollingUpdateDeployment := {|
  fill tr d s :=
    mkRollingUpdateDeployment
      (fill_IntOrString_ptr tr (rd_MaxUnavailable d) (rd_MaxUnavailable s))
      (fill_IntOrString_ptr tr (rd_MaxSurge d) (rd_MaxSurge s)) |}.

#[export] Instance RollingUpdateStatefulSetStrategy_Fill : Fill RollingUpdateStatefulSetStrategy := {|
  fill tr d s :=
    mkRollingUpdateStatefulSetStrategy (fill tr (rs_Partition d) (rs_Partition s))
      (fill_IntOrString_ptr tr (rs_MaxUnavailable d) (rs_MaxUnavailable s)) |}.

#[export] Instance ComponentSpec_Fill : Fill ComponentSpec := {|
  fill tr d s :=
    mkComponentSpec (fill tr (cs_Replicas d) (cs_Replicas s))
      (fill tr (cs_Config d) (cs_Config s)) (fill tr (cs_Template d) (cs_Template s))
      (fill tr (cs_Logging d) (cs_Logging s)) (fill tr (cs_Tracing d) (cs_Tracing s)) |}.

#[export] Instance EtcdStorage_Fill : Fill EtcdStorage := {|
  fill tr d s :=
    mkEtcdStorage (fill tr (et_Endpoints d) (et_Endpoints s))
      (fill tr (et_EnableCheckEtcdService d) (et_EnableCheckEtcdService s))
      (fill tr (et_StoreKeyPrefix d) (et_StoreKeyPrefix s)) |}.

#[export] Instance MySQLStorage_Fill : Fill MySQLStorage := {|
  fill tr d s :=
    mkMySQLStorage (fill tr (my_Host d) (my_Host s)) (fill tr (my_Port d) (my_Port s))
      (fill tr (my_CredentialsSecretName d) (my_CredentialsSecretName s))
      (fill tr (my_Database d) (my_Database s)) (fill tr (my_Table d) (my_Table s)) |}.

#[export] Instance PostgreSQLStorage_Fill : Fill PostgreSQLStorage := {|
  fill tr d s :=
    mkPostgreSQLStorage (fill tr (pg_Host d) (pg_Host s)) (fill tr (pg_Port d) (pg_Port s))
      (fill tr (pg_CredentialsSecretName d) (pg_CredentialsSecretName s))
      (fill tr (pg_Database d) (pg_Database s)) (fill tr (pg_Table d) (pg_Table s))
      (fill tr (pg_ElectionLockID d) (pg_ElectionLockID s)) |}.

#[export] Instance BackendStorage_Fill : Fill BackendStorage := {|
  fill tr d s :=
    mkBackendStorage (fill tr (bs_EtcdStorage d) (bs_EtcdStorage s))
      (fill tr (bs_MySQLStorage d) (bs_MySQLStorage s))
      (fill tr (bs_PostgreSQLStorage d) (bs_PostgreSQLStorage s)) |}.

#[export] Instance MetaSpec_Fill : Fill MetaSpec := {|
  fill tr d s :=
    mkMetaSpec (fill tr (me_ComponentSpec d) (me_ComponentSpec s))
      (fill tr (me_RPCPort d) (me_RPCPort s)) (fill tr (me_HTTPPort d) (me_HTTPPort s))
      (fill tr (me_BackendStorage d) (me_BackendStorage s))
      (fill tr (me_EnableRegionFailover d) (me_EnableRegionFailover s))
      (fill tr (me_RollingUpdate d) (me_RollingUpdate s)) |}.

#[export] Instance FrontendSpec_Fill : Fill FrontendSpec := {|
  fill tr d s :=
    mkFrontendSpec (fill tr (fe_ComponentSpec d) (fe_ComponentSpec s))
      (fill tr (fe_Name d) (fe_Name s)) (fill tr (fe_RPCPort d) (fe_RPCPort s))
      (fill tr (fe_HTTPPort d) (fe_HTTPPort s))
      (fill tr (fe_HTTPAPIServerPort d) (fe_HTTPAPIServerPort s))
      (fill tr (fe_EnableHTTPAPIServer d) (fe_EnableHTTPAPIServer s))
      (fill tr (fe_MySQLPort d) (fe_MySQLPort s))
      (fill tr (fe_PostgreSQLPort d) (fe_PostgreSQLPort s))
      (fill tr (fe_InternalPort d) (fe_InternalPort s)) (fill tr (fe_Service d) (fe_Service s))
      (fill tr (fe_TLS d) (fe_TLS s)) (fill tr (fe_RollingUpdate d) (fe_RollingUpdate s))
      (fill tr (fe_SlowQuery d) (fe_SlowQuery s))
      (fill tr (fe_EnableObjectStorage d) (fe_EnableObjectStorage s))
      (fill tr (fe_AuditLog d) (fe_AuditLog s)) |}.

#[export] Instance DatanodeSpec_Fill : Fill DatanodeSpec := {|
  fill tr d s :=
    mkDatanodeSpec (fill tr (dn_ComponentSpec d) (dn_ComponentSpec s))
      (fill tr (dn_Name d) (dn_Name s)) (fill tr (dn_RPCPort d) (dn_RPCPort s))
      (fill tr (dn_HTTPPort d) (dn_HTTPPort s)) (fill tr (dn_Storage d) (dn_Storage s))
      (fill tr (dn_RollingUpdate d) (dn_RollingUpdate s))
      (fill tr (dn_StartNodeID d) (dn_StartNodeID s)) |}.

#[export] Instance FlownodeSpec_Fill : Fill FlownodeSpec := {|
  fill tr d s :=
    mkFlownodeSpec (fill tr (fl_ComponentSpec d) (fl_ComponentSpec s))
      (fill tr (fl_RPCPort d) (fl_RPCPort s)) (fill tr (fl_HTTPPort d) (fl_HTTPPort s))
      (fill tr (fl_RollingUpdate d) (fl_RollingUpdate s))
      (fill tr (fl_StartNodeID d) (fl_StartNodeID s)) |}.

#[export] Instance InitializerSpec_Fill : Fill InitializerSpec := {|
  fill tr d s :=
    mkInitializerSpec (fill tr (in_Image d) (in_Image s)) |}.

#[export] Instance GreptimeDBStandaloneSpec_Fill : Fill GreptimeDBStandaloneSpec := {|
  fill tr d s :=
    mkGreptimeDBStandaloneSpec (fill tr (sa_Base d) (sa_Base s))
      (fill tr (sa_Service d) (sa_Service s)) (fill tr (sa_TLS d) (sa_TLS s))
      (fill tr (sa_HTTPPort d) (sa_HTTPPort s))
      (fill tr (sa_HTTPAPIServerPort d) (sa_HTTPAPIServerPort s))
      (fill tr (sa_EnableHTTPAPIServer d) (sa_EnableHTTPAPIServer s))
      (fill tr (sa_RPCPort d) (sa_RPCPort s)) (fill tr (sa_MySQLPort d) (sa_MySQLPort s))
      (fill tr (sa_PostgreSQLPort d) (sa_PostgreSQLPort s))
      (fill tr (sa_PrometheusMonitor d) (sa_PrometheusMonitor s))
      (fill tr (sa_Version d) (sa_Version s)) (fill tr (sa_Replicas d) (sa_Replicas s))
      (fill tr (sa_Initializer d) (sa_Initializer s))
      (fill tr (sa_ObjectStorageProvider d) (sa_ObjectStorageProvider s))
      (fill tr (sa_DatanodeStorage d) (sa_DatanodeStorage s))
      (fill tr (sa_WALProvider d) (sa_WALProvider s)) (fill tr (sa_Config d) (sa_Config s))
      (fill tr (sa_Logging d) (sa_Logging s)) (fill tr (sa_RollingUpdate d) (sa_RollingUpdate s))
      (fill tr (sa_SlowQuery d) (sa_SlowQuery s)) (fill tr (sa_Tracing d) (sa_Tracing s))
      (fill tr (sa_ConfigMergeStrategy d) (sa_ConfigMergeStrategy s))
      (fill tr (sa_EnableIPv6 d) (sa_EnableIPv6 s)) |}.

#[export] Instance LogPipeline_Fill : Fill LogPipeline := {|
  fill tr d s :=
    mkLogPipeline (fill tr (lp_Data d) (lp_Data s)) |}.

#[export] Instance LogsCollectionSpec_Fill : Fill LogsCollectionSpec := {|
  fill tr d s :=
    mkLogsCollectionSpec (fill tr (lc_Pipeline d) (lc_Pipeline s)) |}.

#[export] Instance VectorSpec_Fill : Fill VectorSpec := {|
  fill tr d s :=
    mkVectorSpec (fill tr (ve_Image d) (ve_Image s)) (fill tr (ve_Resources d) (ve_Resources s)) |}.

#[export] Instance MonitoringSpec_Fill : Fill MonitoringSpec := {|
  fill tr d s :=
    mkMonitoringSpec (fill tr (mo_Enabled d) (mo_Enabled s)) (fill tr (mo_TTL d) (mo_TTL s))
      (fill tr (mo_Standalone d) (mo_Standalone s))
      (fill tr (mo_LogsCollection d) (mo_LogsCollection s)) (fill tr (mo_Vector d) (mo_Vector s)) |}.

#[export] Instance GreptimeDBClusterSpec_Fill : Fill GreptimeDBClusterSpec := {|
  fill tr d s :=
    mkGreptimeDBClusterSpec (fill tr (cl_Base d) (cl_Base s))
      (fill tr (cl_Frontend d) (cl_Frontend s)) (fill tr (cl_Meta d) (cl_Meta s))
      (fill tr (cl_Datanode d) (cl_Datanode s))
      (fill tr (cl_DatanodeGroups d) (cl_DatanodeGroups s))
      (fill tr (cl_Flownode d) (cl_Flownode s))
      (fill tr (cl_FrontendGroups d) (cl_FrontendGroups s))
      (fill tr (cl_HTTPPort d) (cl_HTTPPort s)) (fill tr (cl_RPCPort d) (cl_RPCPort s))
      (fill tr (cl_MySQLPort d) (cl_MySQLPort s))
      (fill tr (cl_PostgreSQLPort d) (cl_PostgreSQLPort s))
      (fill tr (cl_PrometheusMonitor d) (cl_PrometheusMonitor s))
      (fill tr (cl_Version d) (cl_Version s)) (fill tr (cl_Initializer d) (cl_Initializer s))
      (fill tr (cl_ObjectStorageProvider d) (cl_ObjectStorageProvider s))
      (fill tr (cl_WALProvider d) (cl_WALProvider s)) (fill tr (cl_Logging d) (cl_Logging s))
      (fill tr (cl_Monitoring d) (cl_Monitoring s)) (fill tr (cl_Tracing d) (cl_Tracing s))
      (fill tr (cl_ConfigMergeStrategy d) (cl_ConfigMergeStrategy s))
      (fill tr (cl_EnableIPv6 d) (cl_EnableIPv6 s)) |}.
End fill.

(** ** The library *)

(** [mergo.Merge(dst, src, opts...)]; the flag tells whether the transformer is
    among the options.  [mergo_nil_src] is what it does with a nil source. *)
Class MergoLib := {
  mergo_Merge : forall T `{Fill T}, bool -> T -> T -> res T;
  mergo_nil_src : res unit }.
Global Arguments mergo_Merge {_} {T} {_} transformer dst src.

Class MergoLaws `{MergoLib} := {
  mergo_documented T `{Fill T} tr (dst src : T) : mergo_Merge tr dst src = Ok (fill tr dst src) }.

(** A library that is its documentation, for the witnesses. *)
Definition documented_mergo : MergoLib := {|
  mergo_Merge T _ tr dst src := Ok (fill tr dst src);
  mergo_nil_src := Err (Errorf "src and dst must not be nil") |}.
Definition keep_opaque : OpaqueMerge.
Proof. by refine {| merge_opaque d s := d |}. Defined.

(** ** Lemmas: filling again from the same source changes nothing

    The source must be a fixed point of filling, which excludes an [IntOrString]
    with content of the other kind. *)

Definition settled `{Fill T} (tr : bool) (s : T) : Prop := fill tr s s = s.

Class FillLaws (T : Type) `{Fill T} := {
  fill_again tr (d s : T) : settled tr s -> fill tr (fill tr d s) s = fill tr d s }.

Lemma documented_mergo_laws : @MergoLaws documented_mergo.
Proof. done. Qed.

Lemma settled_string tr (s : string) : settled tr s.
Proof. unfold settled; cbn. by case_decide. Qed.
Lemma settled_Z tr (s : Z) : settled tr s.
Proof. unfold settled; cbn. by case_decide. Qed.
Lemma settled_bool tr (s : bool) : settled tr s.
Proof. by destruct s. Qed.
Lemma settled_list {A} tr (s : list A) : settled tr s.
Proof. by destruct s. Qed.
Lemma settled_strmap tr (s : strmap) : settled tr s.
Proof.
  apply map_eq. intros i. cbn. rewrite lookup_merge. destruct (s !! i); cbn; [|done].
  by case_decide.
Qed.

Lemma settled_Some `{Fill T} tr (s : T) : settled tr (Some s) <-> settled tr s.
Proof. unfold settled. cbn. split; [by intros [= ->]|by intros ->]. Qed.

#[export] Instance string_FillLaws : FillLaws string.
Proof. split; intros tr d s _; cbn; repeat case_decide; congruence. Qed.
#[export] Instance Z_FillLaws : FillLaws Z.
Proof. split; intros tr d s _; cbn; repeat case_decide; congruence. Qed.
#[export] Instance bool_FillLaws : FillLaws bool.
Proof. split; intros tr [] [] _; reflexivity. Qed.
#[export] Instance list_FillLaws {A} : FillLaws (list A).
Proof. split; intros tr [] [] _; reflexivity. Qed.
#[export] Instance option_FillLaws `{FillLaws A} : FillLaws (option A).
Proof.
  split. intros tr d [s|] Hs; [|by destruct d]. apply (proj1 (settled_Some tr s)) in Hs.
  destruct d as [d|]; cbn; f_equal; [exact (fill_again tr d s Hs)|exact Hs].
Qed.
#[export] Instance strmap_FillLaws : FillLaws strmap.
Proof.
  split. intros tr d s _. apply map_eq. intros i. cbn. rewrite !lookup_merge.
  destruct (d !! i), (s !! i); cbn; try done; repeat case_decide; congruence.
Qed.
#[export] Instance IntOrStringType_FillLaws : FillLaws IntOrStringType.
Proof. split; intros tr [] []; done. Qed.

#[export] Instance IntOrString_FillLaws : FillLaws IntOrString.
Proof.
  split. intros tr d s Hs. cbn [fill IntOrString_Fill].
  f_equal; apply fill_again; [exact (f_equal is_Type Hs)|exact (f_equal is_IntVal Hs)|].
  exact (f_equal is_StrVal Hs).
Qed.

(** Filling keeps the kind, so it is stable as well. *)
Lemma fill_IntOrString_ptr_again tr d s :
  fill_IntOrString_ptr tr s s = s ->
  fill_IntOrString_ptr tr (fill_IntOrString_ptr tr d s) s = fill_IntOrString_ptr tr d s.
Proof.
  destruct s as [s|]; [|by destruct d]. destruct d as [d|]; [|done].
  unfold fill_IntOrString_ptr. destruct tr; cbn [fill_IntOrString_ptr]; intros [= Hs]; f_equal;
    [|exact (fill_again false d s Hs)].
  destruct d as [[] i t]; unfold Transformer; cbn; repeat case_decide; congruence.
Qed.

Section laws.
Context `{OpaqueMerge}.

Lemma fill_opaque_again tr d s :
  fill_opaque tr s s = s -> fill_opaque tr (fill_opaque tr d s) s = fill_opaque tr d s.
Proof.
  unfold fill_opaque. intros Hs. repeat case_decide; try congruence;
    first [apply merge_opaque_again|exfalso; eauto using merge_opaque_set].
Qed.

(** A struct is filled field by field. *)
Tactic Notation "fill_record" reference(I) :=
  split; intros tr d s Hs; cbn [fill I]; f_equal;
  first [apply fill_again | apply fill_opaque_again | apply fill_IntOrString_ptr_again];
  match goal with |- settled _ (?f s) => exact (f_equal f Hs)
                | |- _ = ?f s => exact (f_equal f Hs) end.

#[export] Instance HTTPGetAction_FillLaws : FillLaws HTTPGetAction.
Proof. fill_record HTTPGetAction_Fill. Qed.

#[export] Instance Probe_FillLaws : FillLaws Probe.
Proof. fill_record Probe_Fill. Qed.

#[export] Instance ResourceRequirements_FillLaws : FillLaws ResourceRequirements.
Proof. fill_record ResourceRequirements_Fill. Qed.

#[export] Instance MainContainerSpec_FillLaws : FillLaws MainContainerSpec.
Proof. fill_record MainContainerSpec_Fill. Qed.

#[export] Instance SlimPodSpec_FillLaws : FillLaws SlimPodSpec.
Proof. fill_record SlimPodSpec_Fill. Qed.

#[export] Instance PodTemplateSpec_FillLaws : FillLaws PodTemplateSpec.
Proof. fill_record PodTemplateSpec_Fill. Qed.

#[export] Instance FileStorage_FillLaws : FillLaws FileStorage.
Proof. fill_record FileStorage_Fill. Qed.

#[export] Instance RaftEngineWAL_FillLaws : FillLaws RaftEngineWAL.
Proof. fill_record RaftEngineWAL_Fill. Qed.

#[export] Instance KafkaSASLSecretRef_FillLaws : FillLaws KafkaSASLSecretRef.
Proof. fill_record KafkaSASLSecretRef_Fill. Qed.

#[export] Instance KafkaSASL_FillLaws : FillLaws KafkaSASL.
Proof. fill_record KafkaSASL_Fill. Qed.

#[export] Instance KafkaTLS_FillLaws : FillLaws KafkaTLS.
Proof. fill_record KafkaTLS_Fill. Qed.

#[export] Instance KafkaWAL_FillLaws : FillLaws KafkaWAL.
Proof. fill_record KafkaWAL_Fill. Qed.

#[export] Instance WALProviderSpec_FillLaws : FillLaws WALProviderSpec.
Proof. fill_record WALProviderSpec_Fill. Qed.

#[export] Instance LoggingSpec_FillLaws : FillLaws LoggingSpec.
Proof. fill_record LoggingSpec_Fill. Qed.

#[export] Instance TracingSpec_FillLaws : FillLaws TracingSpec.
Proof. fill_record TracingSpec_Fill. Qed.

#[export] Instance AuditLogSpec_FillLaws : FillLaws AuditLogSpec.
Proof. fill_record AuditLogSpec_Fill. Qed.

#[export] Instance ServiceSpec_FillLaws : FillLaws ServiceSpec.
Proof. fill_record ServiceSpec_Fill. Qed.

#[export] Instance TLSSpec_FillLaws : FillLaws TLSSpec.
Proof. fill_record TLSSpec_Fill. Qed.

#[export] Instance CacheStorage_FillLaws : FillLaws CacheStorage.
Proof. fill_record CacheStorage_Fill. Qed.

#[export] Instance S3Storage_FillLaws : FillLaws S3Storage.
Proof. fill_record S3Storage_Fill. Qed.

#[export] Instance OSSStorage_FillLaws : FillLaws OSSStorage.
Proof. fill_record OSSStorage_Fill. Qed.

#[export] Instance GCSStorage_FillLaws : FillLaws GCSStorage.
Proof. fill_record GCSStorage_Fill. Qed.

#[export] Instance AZBlobStorage_FillLaws : FillLaws AZBlobStorage.
Proof. fill_record AZBlobStorage_Fill. Qed.

#[export] Instance ObjectStorageProviderSpec_FillLaws : FillLaws ObjectStorageProviderSpec.
Proof. fill_record ObjectStorageProviderSpec_Fill. Qed.

#[export] Instance DatanodeStorageSpec_FillLaws : FillLaws DatanodeStorageSpec.
Proof. fill_record DatanodeStorageSpec_Fill. Qed.

#[export] Instance PrometheusMonitorSpec_FillLaws : FillLaws PrometheusMonitorSpec.
Proof. fill_record PrometheusMonitorSpec_Fill. Qed.

#[export] Instance SlowQuery_FillLaws : FillLaws SlowQuery.
Proof. fill_record SlowQuery_Fill. Qed.

#[export] Instance RollingUpdateDeployment_FillLaws : FillLaws RollingUpdateDeployment.
Proof. fill_record RollingUpdateDeployment_Fill. Qed.

#[export] Instance RollingUpdateStatefulSetStrategy_FillLaws : FillLaws RollingUpdateStatefulSetStrategy.
Proof. fill_record RollingUpdateStatefulSetStrategy_Fill. Qed.

#[export] Instance ComponentSpec_FillLaws : FillLaws ComponentSpec.
Proof. fill_record ComponentSpec_Fill. Qed.

#[export] Instance EtcdStorage_FillLaws : FillLaws EtcdStorage.
Proof. fill_record EtcdStorage_Fill. Qed.

#[export] Instance MySQLStorage_FillLaws : FillLaws MySQLStorage.
Proof. fill_record MySQLStorage_Fill. Qed.

#[export] Instance PostgreSQLStorage_FillLaws : FillLaws PostgreSQLStorage.
Proof. fill_record PostgreSQLStorage_Fill. Qed.

#[export] Instance BackendStorage_FillLaws : FillLaws BackendStorage.
Proof. fill_record BackendStorage_Fill. Qed.

#[export] Instance MetaSpec_FillLaws : FillLaws MetaSpec.
Proof. fill_record MetaSpec_Fill. Qed.

#[export] Instance FrontendSpec_FillLaws : FillLaws FrontendSpec.
Proof. fill_record FrontendSpec_Fill. Qed.

#[export] Instance DatanodeSpec_FillLaws : FillLaws DatanodeSpec.
Proof. fill_record DatanodeSpec_Fill. Qed.

#[export] Instance FlownodeSpec_FillLaws : FillLaws FlownodeSpec.
Proof. fill_record FlownodeSpec_Fill. Qed.

#[export] Instance InitializerSpec_FillLaws : FillLaws InitializerSpec.
Proof. fill_record InitializerSpec_Fill. Qed.

#[export] Instance GreptimeDBStandaloneSpec_FillLaws : FillLaws GreptimeDBStandaloneSpec.
Proof. fill_record GreptimeDBStandaloneSpec_Fill. Qed.

#[export] Instance LogPipeline_FillLaws : FillLaws LogPipeline.
Proof. fill_record LogPipeline_Fill. Qed.

#[export] Instance LogsCollectionSpec_FillLaws : FillLaws LogsCollectionSpec.
Proof. fill_record LogsCollectionSpec_Fill. Qed.

#[export] Instance VectorSpec_FillLaws : FillLaws VectorSpec.
Proof. fill_record VectorSpec_Fill. Qed.

#[export] Instance MonitoringSpec_FillLaws : FillLaws MonitoringSpec.
Proof. fill_record MonitoringSpec_Fill. Qed.

#[export] Instance GreptimeDBClusterSpec_FillLaws : FillLaws GreptimeDBClusterSpec.
Proof. fill_record GreptimeDBClusterSpec_Fill. Qed.
End laws.

(** ** Absorption: a second, weaker source adds nothing to a filled value *)

Section absorbs.
Context `{Fill T} (tr : bool).

Definition absorbs (s' s : T) : Prop :=
  (forall d, fill tr (fill tr d s) s' = fill tr d s) /\ fill tr s s' = s.

Lemma absorbs_same `{!FillLaws T} (s : T) : settled tr s -> absorbs s s.
Proof. intros Hs. split; [intros d; by apply fill_again|exact Hs]. Qed.
End absorbs.

Lemma absorbs_None `{Fill T} tr (s : option T) : absorbs tr None s.
Proof. split; [intros [d|]|]; by destruct s. Qed.

Lemma absorbs_Some `{Fill T} tr (s' s : T) : absorbs tr s' s -> absorbs tr (Some s') (Some s).
Proof. intros [H1 H2]. split; [intros [d|]|]; cbn; by rewrite ?H1, ?H2. Qed.

(** A struct absorbs field by field. *)
Tactic Notation "absorb_record" reference(I) :=
  split; [intros d|]; cbn [fill I]; f_equal.
