(* ===== verification/Defaulting.v ===== *)
(** * apis/v1alpha1/defaulting.go: default values and template merging

    [SetDefaults] fills a spec from a default spec computed from it; the
    reconciler calls it on every reconciliation and writes the object back when it
    changed something.  The [Merge...] functions then copy the base template and
    the global logging and tracing into the components, in memory only.

    A method that mutates its receiver returns the new value; a failing mergo
    call is a [res] error, and what it leaves behind is not modelled. *)

From stdpp Require Import base gmap strings list fin_maps.
From Stdlib Require Import ZArith Ascii.
From S2P Require Import Prelude GoLib K8s ApiCommon ApiTypes Common Mergo.

(** ** Constants (constants.go) *)

Definition DefaultVersion : string := "Unknown".
Definition DefaultHealthEndpoint : string := "/health".
Definition DefaultHTTPPort : Z := 4000.
Definition DefaultRPCPort : Z := 4001.
Definition DefaultMySQLPort : Z := 4002.
Definition DefaultPostgreSQLPort : Z := 4003.
Definition DefaultHTTPAPIServerPort : Z := 4006.
Definition DefaultMetaRPCPort : Z := 3002.
Definition DefaultFrontendInternalRPCPort : Z := 4010.
Definition DefaultReplicas : Z := 1.
Definition DefaultDataSize : string := "10Gi".
Definition DefaultDataSizeForMonitoring : string := "30Gi".
Definition DefaultDataHome : string := "/data/greptimedb".
Definition DefaultDatanodeFileStorageName : string := "datanode".
Definition DefaultLogsDir : string := DefaultDataHome +:+ "/logs".
Definition DefaultAuditLogsDir : string := DefaultDataHome +:+ "/audit-logs".
Definition DefaultStorageRetainPolicyType : StorageRetainPolicyType := StorageRetainPolicyTypeRetain.
Definition DefaultInitializerImage : string := "greptime/greptimedb-initializer:latest".
Definition DefaultGreptimeDBImage : string := "greptime/greptimedb:latest".
Definition DefaultLoggingLevel : string := LoggingLevelInfo.
Definition DefaultMaxLogFiles : Z := 720.
Definition DefaultMaxLogDirSize : string := "0B".
Definition DefaultOTLPExportProtocol : string := "http".
Definition DefaultVectorImage : string := "timberio/vector:0.49.0-debian".
Definition DefaultVectorCPURequest : string := "50m".
Definition DefaultVectorMemoryRequest : string := "64Mi".
Definition DefaultVectorCPULimit : string := "200m".
Definition DefaultVectorMemoryLimit : string := "256Mi".
Definition DefaultMonitoringTTL : string := "30d".
Definition ServiceTypeClusterIP : string := "ClusterIP".

(** ** Default values *)

(** The tag after the last colon-free part: exactly one colon in the last
    path element. *)
Definition getVersionFromImage (imageURL : string) : string :=
  match last (Split "/"%char imageURL) with
  | Some imageTag =>
      match Split ":"%char imageTag with
      | [_; tag] => tag
      | _ => DefaultVersion
      end
  | None => DefaultVersion
  end.

Definition http_probe (periodSeconds failureThreshold : Z) : Probe :=
  mkProbe "" (Some (mkHTTPGetAction DefaultHealthEndpoint (FromInt32 DefaultHTTPPort) "" "" []))
    "" "" 0 0 periodSeconds 0 failureThreshold None.
Definition defaultStartupProbe : Probe := http_probe 5 60.
Definition defaultLivenessProbe : Probe := http_probe 5 10.
Definition defaultReadinessProbe : Probe := http_probe 5 10.

Definition quarter : option IntOrString := Some (mkIntOrString TString 0 "25%").
Definition defaultRollingUpdateForDeployment : RollingUpdateDeployment :=
  mkRollingUpdateDeployment quarter quarter.
Definition defaultRollingUpdateForStatefulSet : RollingUpdateStatefulSetStrategy :=
  mkRollingUpdateStatefulSetStrategy (Some 0%Z) (Some (mkIntOrString TInt 1 "")).

Definition default_file_storage (size : string) : FileStorage :=
  mkFileStorage DefaultDatanodeFileStorageName None None size DefaultDataHome
    DefaultStorageRetainPolicyType ∅ ∅.
Definition defaultDatanodeStorage : DatanodeStorageSpec :=
  mkDatanodeStorageSpec DefaultDataHome (Some (default_file_storage DefaultDataSize)).

(** At a format: the two callers start from the text one. *)
Definition default_logging (format : string) : LoggingSpec :=
  mkLoggingSpec DefaultLoggingLevel [] DefaultLogsDir (Some false) (Some false) format
    (Some DefaultMaxLogFiles) DefaultMaxLogDirSize.
Definition defaultLogging : LoggingSpec := default_logging LogFormatText.
Definition defaultSlowQuery : SlowQuery :=
  mkSlowQuery true SlowQueryRecordTypeSystemTable "30s" "1.0" "90d".
Definition defaultAuditLog : AuditLogSpec :=
  mkAuditLogSpec true DefaultAuditLogsDir "all" "all" "all" "all" (Some 30%Z).

Definition zero_SlimPodSpec : SlimPodSpec :=
  mkSlimPodSpec ∅ [] "" None None "" "" false [] "" [] "" [] [] "".
Definition zero_PodTemplateSpec : PodTemplateSpec := mkPodTemplateSpec ∅ ∅ None zero_SlimPodSpec.
Definition zero_LoggingSpec : LoggingSpec := mkLoggingSpec "" [] "" None None "" None "".
Definition zero_TracingSpec : TracingSpec := mkTracingSpec None "" "" ∅ "".

(** A main container with the three default probes and an image. *)
Definition default_main_container (image : string) : MainContainerSpec :=
  mkMainContainerSpec image zero_ResourceRequirements [] [] [] "" [] [] (Some defaultLivenessProbe)
    (Some defaultReadinessProbe) (Some defaultStartupProbe) "" "" [] "".
Definition default_base (image : string) : PodTemplateSpec :=
  mkPodTemplateSpec ∅ ∅ (Some (default_main_container image)) zero_SlimPodSpec.

Definition cluster_ip_service : ServiceSpec := mkServiceSpec ServiceTypeClusterIP ∅ ∅ None [].

(** [ComponentSpec{Template: &..., Logging: &..., Tracing: &...}] and the replicas. *)
Definition default_component (replicas : option Z) : ComponentSpec :=
  mkComponentSpec replicas "" (Some zero_PodTemplateSpec) (Some zero_LoggingSpec)
    (Some zero_TracingSpec).

(** [if ...GetReplicas() == nil { defaultSpec.Replicas = ptr.To(DefaultReplicas) }]. *)
Definition default_replicas (current : option Z) : option Z :=
  match current with None => Some DefaultReplicas | Some _ => None end.

Section cluster.
Variable i : GreptimeDBCluster.

Definition defaultFrontend : FrontendSpec :=
  mkFrontendSpec (default_component (default_replicas (FrontendSpec_GetReplicas (GetFrontend (Some i)))))
    "" DefaultRPCPort DefaultHTTPPort DefaultHTTPAPIServerPort None DefaultMySQLPort
    DefaultPostgreSQLPort DefaultFrontendInternalRPCPort (Some cluster_ip_service) None
    (Some defaultRollingUpdateForDeployment) (Some defaultSlowQuery) None
    (match FrontendSpec_GetAuditLog (GetFrontend (Some i)) with
     | Some auditLog => if al_Enabled auditLog then Some defaultAuditLog else None
     | None => None
     end).

Definition defaultMeta : MetaSpec :=
  mkMetaSpec (default_component (default_replicas (MetaSpec_GetReplicas (GetMeta (Some i)))))
    DefaultMetaRPCPort DefaultHTTPPort None (Some false) (Some defaultRollingUpdateForDeployment).

Definition defaultDatanode : DatanodeSpec :=
  mkDatanodeSpec (default_component (default_replicas (DatanodeSpec_GetReplicas (GetDatanode (Some i)))))
    "" DefaultRPCPort DefaultHTTPPort (Some defaultDatanodeStorage)
    (Some defaultRollingUpdateForStatefulSet) None.

Definition defaultFlownode : FlownodeSpec :=
  mkFlownodeSpec (default_component (default_replicas (FlownodeSpec_GetReplicas (GetFlownode i))))
    DefaultRPCPort DefaultHTTPPort None None.
End cluster.

(** The default spec of a standalone with a replica count: a receiver is read
    for nothing else. *)
Definition standalone_defaults (replicas : option Z) : GreptimeDBStandaloneSpec :=
  mkGreptimeDBStandaloneSpec (Some (default_base "")) (Some cluster_ip_service) None DefaultHTTPPort
    DefaultHTTPAPIServerPort None DefaultRPCPort DefaultMySQLPort DefaultPostgreSQLPort None
    DefaultVersion (default_replicas replicas) None None (Some defaultDatanodeStorage) None ""
    (Some defaultLogging) (Some defaultRollingUpdateForStatefulSet) (Some defaultSlowQuery) None ""
    false.
Definition Standalone_defaultSpec (s : GreptimeDBStandalone) : GreptimeDBStandaloneSpec :=
  standalone_defaults (sa_Replicas (sa_Spec s)).

(** The defaults of a new standalone with the monitoring's image, address family
    and storage. *)
Definition defaultMonitoringStandaloneSpec (i : GreptimeDBCluster) : GreptimeDBStandaloneSpec :=
  let image := match MainContainerSpec_GetImage (GetBaseMainContainer (Some i)) with
               | EmptyString => DefaultGreptimeDBImage
               | image => image
               end in
  mkGreptimeDBStandaloneSpec (Some (default_base image)) (Some cluster_ip_service) None
    DefaultHTTPPort DefaultHTTPAPIServerPort None DefaultRPCPort DefaultMySQLPort
    DefaultPostgreSQLPort None (getVersionFromImage image) (Some DefaultReplicas) None None
    (Some (mkDatanodeStorageSpec DefaultDataHome
             (Some (default_file_storage DefaultDataSizeForMonitoring))))
    None "" (Some defaultLogging) (Some defaultRollingUpdateForStatefulSet) (Some defaultSlowQuery)
    None "" (cl_EnableIPv6 (gc_Spec i)).

Section defaulting.
Context `{QuantityLib}.

Definition default_vector_resources : res ResourceRequirements :=
  cpuRequest ← MustParse DefaultVectorCPURequest;
  memoryRequest ← MustParse DefaultVectorMemoryRequest;
  cpuLimit ← MustParse DefaultVectorCPULimit;
  memoryLimit ← MustParse DefaultVectorMemoryLimit;
  Ok (mkResourceRequirements {[ "cpu" := cpuLimit; "memory" := memoryLimit ]}
        {[ "cpu" := cpuRequest; "memory" := memoryRequest ]} []).

Definition default_monitoring (i : GreptimeDBCluster) : res (option MonitoringSpec) :=
  if MonitoringSpec_IsEnabled (GetMonitoring (Some i)) then
    resources ← default_vector_resources;
    Ok (Some (mkMonitoringSpec false DefaultMonitoringTTL (Some (defaultMonitoringStandaloneSpec i))
                (Some (mkLogsCollectionSpec None))
                (Some (mkVectorSpec DefaultVectorImage resources))))
  else Ok None.

(** [ttl]: the monitoring's own, or the default one. *)
Definition tracing_ttl (m : option MonitoringSpec) : string :=
  let ttl := nil_or "" mo_TTL m in if decide (ttl = "") then DefaultMonitoringTTL else ttl.

Definition default_tracing (i : GreptimeDBCluster) : option TracingSpec :=
  if MonitoringSpec_IsEnabled (GetMonitoring (Some i))
  then Some (mkTracingSpec None "" "" {[ "x-greptime-hint-ttl" := tracing_ttl (GetMonitoring (Some i)) ]}
               DefaultOTLPExportProtocol)
  else None.

Definition defaultSpec (i : GreptimeDBCluster) : res GreptimeDBClusterSpec :=
  monitoring ← default_monitoring i;
  Ok (mkGreptimeDBClusterSpec (Some (default_base ""))
        (if not_nil (GetFrontend (Some i)) then Some (defaultFrontend i) else None)
        (Some (defaultMeta i))
        (if not_nil (GetDatanode (Some i)) then Some (defaultDatanode i) else None)
        (map (fun _ => defaultDatanode i) (GetDatanodeGroups (Some i)))
        (if not_nil (GetFlownode i) then Some (defaultFlownode i) else None)
        (map (fun _ => defaultFrontend i) (GetFrontendGroups (Some i)))
        DefaultHTTPPort DefaultRPCPort DefaultMySQLPort DefaultPostgreSQLPort None DefaultVersion
        (Some (mkInitializerSpec DefaultInitializerImage)) None None
        (Some (default_logging (if MonitoringSpec_IsEnabled (GetMonitoring (Some i))
                                then LogFormatJSON else LogFormatText)))
        monitoring (default_tracing i) "" false).
End defaulting.

(** ** Assignments to the spec *)

Definition set_Spec (spec : GreptimeDBClusterSpec) (c : GreptimeDBCluster) : GreptimeDBCluster :=
  mkGreptimeDBCluster (gc_ObjectMeta c) spec (gc_Status c).

Definition set_Version (v : string) (s : GreptimeDBClusterSpec) : GreptimeDBClusterSpec :=
  mkGreptimeDBClusterSpec (cl_Base s) (cl_Frontend s) (cl_Meta s) (cl_Datanode s)
    (cl_DatanodeGroups s) (cl_Flownode s) (cl_FrontendGroups s) (cl_HTTPPort s) (cl_RPCPort s)
    (cl_MySQLPort s) (cl_PostgreSQLPort s) (cl_PrometheusMonitor s) v (cl_Initializer s)
    (cl_ObjectStorageProvider s) (cl_WALProvider s) (cl_Logging s) (cl_Monitoring s) (cl_Tracing s)
    (cl_ConfigMergeStrategy s) (cl_EnableIPv6 s).

Definition set_ConfigMergeStrategy (v : ConfigMergeStrategy) (s : GreptimeDBClusterSpec)
    : GreptimeDBClusterSpec :=
  mkGreptimeDBClusterSpec (cl_Base s) (cl_Frontend s) (cl_Meta s) (cl_Datanode s)
    (cl_DatanodeGroups s) (cl_Flownode s) (cl_FrontendGroups s) (cl_HTTPPort s) (cl_RPCPort s)
    (cl_MySQLPort s) (cl_PostgreSQLPort s) (cl_PrometheusMonitor s) (cl_Version s)
    (cl_Initializer s) (cl_ObjectStorageProvider s) (cl_WALProvider s) (cl_Logging s)
    (cl_Monitoring s) (cl_Tracing s) v (cl_EnableIPv6 s).

(** The six components at once. *)
Definition set_components (frontend : option FrontendSpec) (meta : option MetaSpec)
    (datanode : option DatanodeSpec) (datanodeGroups : list DatanodeSpec)
    (flownode : option FlownodeSpec) (frontendGroups : list FrontendSpec)
    (s : GreptimeDBClusterSpec) : GreptimeDBClusterSpec :=
  mkGreptimeDBClusterSpec (cl_Base s) frontend meta datanode datanodeGroups flownode frontendGroups
    (cl_HTTPPort s) (cl_RPCPort s) (cl_MySQLPort s) (cl_PostgreSQLPort s) (cl_PrometheusMonitor s)
    (cl_Version s) (cl_Initializer s) (cl_ObjectStorageProvider s) (cl_WALProvider s) (cl_Logging s)
    (cl_Monitoring s) (cl_Tracing s) (cl_ConfigMergeStrategy s) (cl_EnableIPv6 s).

Definition set_fe_component (c : ComponentSpec) (f : FrontendSpec) : FrontendSpec :=
  mkFrontendSpec c (fe_Name f) (fe_RPCPort f) (fe_HTTPPort f) (fe_HTTPAPIServerPort f)
    (fe_EnableHTTPAPIServer f) (fe_MySQLPort f) (fe_PostgreSQLPort f) (fe_InternalPort f)
    (fe_Service f) (fe_TLS f) (fe_RollingUpdate f) (fe_SlowQuery f) (fe_EnableObjectStorage f)
    (fe_AuditLog f).
Definition set_me_component (c : ComponentSpec) (m : MetaSpec) : MetaSpec :=
  mkMetaSpec c (me_RPCPort m) (me_HTTPPort m) (me_BackendStorage m) (me_EnableRegionFailover m)
    (me_RollingUpdate m).
Definition set_dn_component (c : ComponentSpec) (d : DatanodeSpec) : DatanodeSpec :=
  mkDatanodeSpec c (dn_Name d) (dn_RPCPort d) (dn_HTTPPort d) (dn_Storage d) (dn_RollingUpdate d)
    (dn_StartNodeID d).
Definition set_fl_component (c : ComponentSpec) (f : FlownodeSpec) : FlownodeSpec :=
  mkFlownodeSpec c (fl_RPCPort f) (fl_HTTPPort f) (fl_RollingUpdate f) (fl_StartNodeID f).

(** An update behind a pointer, and of the component of each spec type; the
    update also gets the component's HTTP port. *)
Definition on_ptr {A} (f : A -> res A) (p : option A) : res (option A) :=
  match p with None => Ok None | Some a => Some <$> f a end.

Section update.
Variable f : Z -> ComponentSpec -> res ComponentSpec.

Definition update_frontend (x : FrontendSpec) : res FrontendSpec :=
  c ← f (fe_HTTPPort x) (fe_ComponentSpec x); Ok (set_fe_component c x).
Definition update_meta (x : MetaSpec) : res MetaSpec :=
  c ← f (me_HTTPPort x) (me_ComponentSpec x); Ok (set_me_component c x).
Definition update_datanode (x : DatanodeSpec) : res DatanodeSpec :=
  c ← f (dn_HTTPPort x) (dn_ComponentSpec x); Ok (set_dn_component c x).
Definition update_flownode (x : FlownodeSpec) : res FlownodeSpec :=
  c ← f (fl_HTTPPort x) (fl_ComponentSpec x); Ok (set_fl_component c x).

(** In the order of [getAllLoggingSpecs] and [getAllTracingSpecs]. *)
Definition update_all_specs (s : GreptimeDBClusterSpec) : res GreptimeDBClusterSpec :=
  meta ← on_ptr update_meta (cl_Meta s);
  flownode ← on_ptr update_flownode (cl_Flownode s);
  datanode ← on_ptr update_datanode (cl_Datanode s);
  datanodeGroups ← map_res update_datanode (cl_DatanodeGroups s);
  frontend ← on_ptr update_frontend (cl_Frontend s);
  frontendGroups ← map_res update_frontend (cl_FrontendGroups s);
  Ok (set_components frontend meta datanode datanodeGroups flownode frontendGroups s).
End update.

(** ** SetDefaults *)

Section merging.
Context `{QuantityLib} `{OpaqueMerge} `{MergoLib}.

(** The spec after [mergo.Merge(&in.Spec, in.defaultSpec(), ...)]. *)
Definition merge_default_spec (c : GreptimeDBCluster) : res GreptimeDBCluster :=
  defaults ← defaultSpec c;
  spec ← mergo_Merge true (gc_Spec c) defaults;
  Ok (set_Spec spec c).

Definition mergeDefaultGroups (c : GreptimeDBCluster) : res GreptimeDBCluster :=
  datanodeGroups ← map_res (fun datanodeGroup => mergo_Merge false datanodeGroup (defaultDatanode c))
                     (GetDatanodeGroups (Some c));
  frontendGroups ← map_res (fun frontend => mergo_Merge false frontend (defaultFrontend c))
                     (GetFrontendGroups (Some c));
  let s := gc_Spec c in
  Ok (set_Spec (set_components (cl_Frontend s) (cl_Meta s) (cl_Datanode s) datanodeGroups
                  (cl_Flownode s) frontendGroups s) c).

Definition Cluster_SetDefaults (c : GreptimeDBCluster) : res GreptimeDBCluster :=
  let version := getVersionFromImage (MainContainerSpec_GetImage (GetBaseMainContainer (Some c))) in
  c ← merge_default_spec (set_Spec (set_Version version (gc_Spec c)) c);
  c ← mergeDefaultGroups c;
  Ok (set_Spec (set_ConfigMergeStrategy ConfigMergeStrategyInjectedDataFirst (gc_Spec c)) c).

Definition set_sa_version (v : string) (s : GreptimeDBStandaloneSpec) : GreptimeDBStandaloneSpec :=
  mkGreptimeDBStandaloneSpec (sa_Base s) (sa_Service s) (sa_TLS s) (sa_HTTPPort s)
    (sa_HTTPAPIServerPort s) (sa_EnableHTTPAPIServer s) (sa_RPCPort s) (sa_MySQLPort s)
    (sa_PostgreSQLPort s) (sa_PrometheusMonitor s) v (sa_Replicas s) (sa_Initializer s)
    (sa_ObjectStorageProvider s) (sa_DatanodeStorage s) (sa_WALProvider s) (sa_Config s)
    (sa_Logging s) (sa_RollingUpdate s) (sa_SlowQuery s) (sa_Tracing s) (sa_ConfigMergeStrategy s)
    (sa_EnableIPv6 s).
Definition set_sa_strategy (v : ConfigMergeStrategy) (s : GreptimeDBStandaloneSpec)
    : GreptimeDBStandaloneSpec :=
  mkGreptimeDBStandaloneSpec (sa_Base s) (sa_Service s) (sa_TLS s) (sa_HTTPPort s)
    (sa_HTTPAPIServerPort s) (sa_EnableHTTPAPIServer s) (sa_RPCPort s) (sa_MySQLPort s)
    (sa_PostgreSQLPort s) (sa_PrometheusMonitor s) (sa_Version s) (sa_Replicas s)
    (sa_Initializer s) (sa_ObjectStorageProvider s) (sa_DatanodeStorage s) (sa_WALProvider s)
    (sa_Config s) (sa_Logging s) (sa_RollingUpdate s) (sa_SlowQuery s) (sa_Tracing s) v
    (sa_EnableIPv6 s).
Definition set_sa_Spec (spec : GreptimeDBStandaloneSpec) (s : GreptimeDBStandalone)
    : GreptimeDBStandalone := mkGreptimeDBStandalone (sa_ObjectMeta s) spec (sa_Status s).

Definition Standalone_SetDefaults (s : GreptimeDBStandalone) : res GreptimeDBStandalone :=
  let version := getVersionFromImage (MainContainerSpec_GetImage (Standalone_GetBaseMainContainer (Some s))) in
  let s := set_sa_Spec (set_sa_version version (sa_Spec s)) s in
  spec ← mergo_Merge true (sa_Spec s) (Standalone_defaultSpec s);
  Ok (set_sa_Spec (set_sa_strategy ConfigMergeStrategyInjectedDataFirst spec) s).

(** ** Template, logging and tracing *)

(** [probe.HTTPGet.Port = port]: panics on a nil probe or a nil HTTPGet. *)
Definition set_probe_port (port : Z) (p : option Probe) : res (option Probe) :=
  probe ← deref p;
  httpGet ← deref (pb_HTTPGet probe);
  Ok (Some (mkProbe (pb_Exec probe)
    (Some (mkHTTPGetAction (hg_Path httpGet) (FromInt32 port) (hg_Host httpGet) (hg_Scheme httpGet)
             (hg_HTTPHeaders httpGet)))
    (pb_TCPSocket probe) (pb_GRPC probe) (pb_InitialDelaySeconds probe) (pb_TimeoutSeconds probe)
    (pb_PeriodSeconds probe) (pb_SuccessThreshold probe) (pb_FailureThreshold probe)
    (pb_TerminationGracePeriodSeconds probe))).

Definition configureProbePort (spec : PodTemplateSpec) (port : Z) : res PodTemplateSpec :=
  m ← deref (tp_MainContainer spec);
  startup ← set_probe_port port (mc_StartupProbe m);
  liveness ← set_probe_port port (mc_LivenessProbe m);
  readiness ← set_probe_port port (mc_ReadinessProbe m);
  Ok (mkPodTemplateSpec (tp_Annotations spec) (tp_Labels spec)
        (Some (mkMainContainerSpec (mc_Image m) (mc_Resources m) (mc_Command m) (mc_Args m)
           (mc_ExtraArgs m) (mc_WorkingDir m) (mc_Env m) (mc_EnvFrom m) liveness readiness startup
           (mc_Lifecycle m) (mc_ImagePullPolicy m) (mc_VolumeMounts m) (mc_SecurityContext m)))
        (tp_SlimPodSpec spec)).

(** A nil base is passed to mergo as it is.  When the component has no
    template, the merged one is assigned to the parameter [dst] and dropped: the
    component keeps none. *)
Definition doMergeWithBaseTemplate (base dst : option PodTemplateSpec) (port : Z)
    : res (option PodTemplateSpec) :=
  let local := default zero_PodTemplateSpec dst in
  src ← match base with Some b => Ok b | None => _ ← mergo_nil_src; Ok zero_PodTemplateSpec end;
  merged ← mergo_Merge false local src;
  merged ← configureProbePort merged port;
  Ok (match dst with Some _ => Some merged | None => None end).

Definition merge_template (base : option PodTemplateSpec) (port : Z) (c : ComponentSpec)
    : res ComponentSpec :=
  t ← doMergeWithBaseTemplate base (cs_Template c) port;
  Ok (mkComponentSpec (cs_Replicas c) (cs_Config c) t (cs_Logging c) (cs_Tracing c)).

(** In the order of the four merge functions. *)
Definition MergeWithBaseTemplate (c : GreptimeDBCluster) : res GreptimeDBCluster :=
  let s := gc_Spec c in
  let f := merge_template (cl_Base s) in
  frontendGroups ← map_res (update_frontend f) (cl_FrontendGroups s);
  frontend ← on_ptr (update_frontend f) (cl_Frontend s);
  meta ← on_ptr (update_meta f) (cl_Meta s);
  datanodeGroups ← map_res (update_datanode f) (cl_DatanodeGroups s);
  datanode ← on_ptr (update_datanode f) (cl_Datanode s);
  flownode ← on_ptr (update_flownode f) (cl_Flownode s);
  Ok (set_Spec (set_components frontend meta datanode datanodeGroups flownode frontendGroups s) c).

Definition set_Format (format : string) (l : LoggingSpec) : LoggingSpec :=
  mkLoggingSpec (lg_Level l) (lg_Filters l) (lg_LogsDir l) (lg_PersistentWithData l)
    (lg_OnlyLogToStdout l) format (lg_MaxLogFiles l) (lg_MaxLogDirSize l).

Definition merge_logging (global : LoggingSpec) (json : bool) (_ : Z) (c : ComponentSpec)
    : res ComponentSpec :=
  logging ← on_ptr (fun spec =>
    spec ← mergo_Merge false spec global;
    Ok (if json then set_Format LogFormatJSON spec else spec)) (cs_Logging c);
  Ok (mkComponentSpec (cs_Replicas c) (cs_Config c) (cs_Template c) logging (cs_Tracing c)).

Definition MergeWithGlobalLogging (c : GreptimeDBCluster) : res GreptimeDBCluster :=
  match GetLogging (Some c) with
  | None => Ok c
  | Some global =>
      spec ← update_all_specs
               (merge_logging global (MonitoringSpec_IsEnabled (GetMonitoring (Some c)))) (gc_Spec c);
      Ok (set_Spec spec c)
  end.

Definition merge_tracing (global : TracingSpec) (_ : Z) (c : ComponentSpec) : res ComponentSpec :=
  tracing ← on_ptr (fun spec => mergo_Merge false spec global) (cs_Tracing c);
  Ok (mkComponentSpec (cs_Replicas c) (cs_Config c) (cs_Template c) (cs_Logging c) tracing).

Definition MergeWithGlobalTracing (c : GreptimeDBCluster) : res GreptimeDBCluster :=
  match GetTracing (Some c) with
  | None => Ok c
  | Some global => spec ← update_all_specs (merge_tracing global) (gc_Spec c); Ok (set_Spec spec c)
  end.
End merging.

(** ** Specifications *)

(** The image whose tag is the cluster's version. *)
Definition base_image (c : GreptimeDBCluster) : string :=
  MainContainerSpec_GetImage (GetBaseMainContainer (Some c)).

(** ** Lemmas on the defaults *)

(** Closes a field of an absorbed struct. *)
Ltac absorb_field :=
  first
    [ reflexivity
    | apply fill_again; reflexivity
    | exact (proj1 (absorbs_None _ _) _) | exact (proj2 (absorbs_None _ _))
    | match goal with H : absorbs _ _ _ |- _ => first [exact (proj1 H _) | exact (proj2 H)] end ].

Section absorption.
Context `{OpaqueMerge} (tr : bool).

Lemma absorbs_component r : absorbs tr (default_component None) (default_component r).
Proof. unfold default_component. absorb_record ComponentSpec_Fill; absorb_field. Qed.

Lemma settled_component r : settled tr (default_component r).
Proof.
  unfold settled, default_component. cbn [fill ComponentSpec_Fill]. f_equal; try reflexivity.
  destruct r as [r|]; [|reflexivity]. apply settled_Some, settled_Z.
Qed.

Lemma settled_deployment_strategy : settled tr defaultRollingUpdateForDeployment.
Proof. by destruct tr. Qed.
Lemma settled_statefulset_strategy : settled tr defaultRollingUpdateForStatefulSet.
Proof. by destruct tr. Qed.

(** Replicas present the second time: the default asks for none. *)
Lemma absorbs_meta c c' :
  MetaSpec_GetReplicas (GetMeta (Some c')) <> None ->
  absorbs tr (defaultMeta c') (defaultMeta c).
Proof.
  intros Hr. unfold defaultMeta. destruct (MetaSpec_GetReplicas (GetMeta (Some c'))); [|done].
  pose proof (absorbs_component (default_replicas (MetaSpec_GetReplicas (GetMeta (Some c))))).
  pose proof (absorbs_same tr _ settled_deployment_strategy) as Hs.
  apply absorbs_Some in Hs. absorb_record MetaSpec_Fill; absorb_field.
Qed.

Lemma absorbs_datanode c c' :
  DatanodeSpec_GetReplicas (GetDatanode (Some c')) <> None ->
  absorbs tr (defaultDatanode c') (defaultDatanode c).
Proof.
  intros Hr. unfold defaultDatanode. destruct (DatanodeSpec_GetReplicas (GetDatanode (Some c'))); [|done].
  pose proof (absorbs_component (default_replicas (DatanodeSpec_GetReplicas (GetDatanode (Some c))))).
  pose proof (absorbs_same tr _ settled_statefulset_strategy) as Hs.
  apply absorbs_Some in Hs. absorb_record DatanodeSpec_Fill; absorb_field.
Qed.

Lemma absorbs_flownode c c' :
  FlownodeSpec_GetReplicas (GetFlownode c') <> None ->
  absorbs tr (defaultFlownode c') (defaultFlownode c).
Proof.
  intros Hr. unfold defaultFlownode. destruct (FlownodeSpec_GetReplicas (GetFlownode c')); [|done].
  pose proof (absorbs_component (default_replicas (FlownodeSpec_GetReplicas (GetFlownode c)))).
  absorb_record FlownodeSpec_Fill; absorb_field.
Qed.

Definition audit_default (c : GreptimeDBCluster) : option AuditLogSpec :=
  match FrontendSpec_GetAuditLog (GetFrontend (Some c)) with
  | Some auditLog => if al_Enabled auditLog then Some defaultAuditLog else None
  | None => None
  end.

Lemma absorbs_audit c : absorbs tr (audit_default c) (audit_default c).
Proof.
  refine (absorbs_same tr _ _). unfold audit_default.
  destruct (FrontendSpec_GetAuditLog (GetFrontend (Some c))) as [a|]; [destruct (al_Enabled a)|];
    unfold settled; reflexivity.
Qed.

Lemma absorbs_frontend c c' :
  FrontendSpec_GetReplicas (GetFrontend (Some c')) <> None -> audit_default c' = audit_default c ->
  absorbs tr (defaultFrontend c') (defaultFrontend c).
Proof.
  intros Hr Ha. unfold defaultFrontend. fold (audit_default c'). fold (audit_default c). rewrite Ha.
  destruct (FrontendSpec_GetReplicas (GetFrontend (Some c'))); [|done].
  pose proof (absorbs_component (default_replicas (FrontendSpec_GetReplicas (GetFrontend (Some c))))).
  pose proof (absorbs_same tr _ settled_deployment_strategy) as Hs.
  apply absorbs_Some in Hs. pose proof (absorbs_audit c).
  absorb_record FrontendSpec_Fill; absorb_field.
Qed.

Lemma settled_frontend c : settled tr (defaultFrontend c).
Proof.
  unfold settled, defaultFrontend. fold (audit_default c). cbn [fill FrontendSpec_Fill].
  f_equal; first [apply settled_component | exact (proj2 (absorbs_audit c))
    | exact (f_equal Some settled_deployment_strategy) | reflexivity].
Qed.

Lemma settled_datanode c : settled tr (defaultDatanode c).
Proof.
  unfold settled, defaultDatanode. cbn [fill DatanodeSpec_Fill].
  f_equal; first [apply settled_component
    | exact (f_equal Some settled_statefulset_strategy) | reflexivity].
Qed.

(** A default base template, at any image. *)
Lemma settled_base image : settled tr (default_base image).
Proof.
  unfold settled, default_base. cbn [fill PodTemplateSpec_Fill]. f_equal; try reflexivity.
  apply settled_Some. unfold settled, default_main_container. cbn [fill MainContainerSpec_Fill].
  f_equal; first [reflexivity | apply settled_string].
Qed.

Lemma settled_monitoring_standalone c : settled tr (defaultMonitoringStandaloneSpec c).
Proof.
  unfold settled, defaultMonitoringStandaloneSpec. cbn [fill GreptimeDBStandaloneSpec_Fill].
  f_equal; first [reflexivity | apply settled_string | apply settled_bool
    | exact (f_equal Some (settled_base _)) | exact (f_equal Some settled_statefulset_strategy)].
Qed.

Lemma settled_vector_resources `{QuantityLib} r :
  default_vector_resources = Ok r -> settled tr r.
Proof.
  unfold default_vector_resources. intros Hr. res_inv. subst r. unfold settled.
  cbn [fill ResourceRequirements_Fill]. f_equal; first [apply settled_strmap | reflexivity].
Qed.

Lemma settled_monitoring `{QuantityLib} c m : default_monitoring c = Ok m -> settled tr m.
Proof.
  unfold default_monitoring. destruct (MonitoringSpec_IsEnabled _); intros Hm; res_inv; subst m;
    [|unfold settled; reflexivity]. apply settled_Some. unfold settled. cbn [fill MonitoringSpec_Fill].
  f_equal; first [reflexivity | exact (f_equal Some (settled_monitoring_standalone c)) | idtac].
  apply settled_Some. unfold settled. cbn [fill VectorSpec_Fill]. f_equal.
  by eapply settled_vector_resources.
Qed.

Lemma settled_tracing c : settled tr (default_tracing c).
Proof.
  unfold default_tracing. destruct (MonitoringSpec_IsEnabled _); [|unfold settled; reflexivity].
  apply settled_Some. unfold settled. cbn [fill TracingSpec_Fill].
  f_equal; first [reflexivity | apply settled_strmap].
Qed.

Lemma settled_logging format : settled tr (default_logging format).
Proof.
  unfold settled, default_logging. cbn [fill LoggingSpec_Fill].
  f_equal; first [reflexivity | apply settled_string].
Qed.
End absorption.

(** ** SetDefaults, with mergo as documented *)

Section documented.
Context `{QuantityLib} `{OpaqueMerge} `{MergoLaws}.

Lemma map_res_pure {A B} (f : A -> res B) (g : A -> B) l :
  (forall x, f x = Ok (g x)) -> map_res f l = Ok (map g l).
Proof. intros Hf. induction l as [|x l IH]; cbn; [done|]. by rewrite Hf, IH. Qed.

Definition versioned (c : GreptimeDBCluster) : GreptimeDBCluster :=
  set_Spec (set_Version (getVersionFromImage (base_image c)) (gc_Spec c)) c.

Definition filled_groups (c : GreptimeDBCluster) : GreptimeDBClusterSpec :=
  let s := gc_Spec c in
  set_ConfigMergeStrategy ConfigMergeStrategyInjectedDataFirst
    (set_components (cl_Frontend s) (cl_Meta s) (cl_Datanode s)
       (map (fun g => fill false g (defaultDatanode c)) (cl_DatanodeGroups s)) (cl_Flownode s)
       (map (fun g => fill false g (defaultFrontend c)) (cl_FrontendGroups s)) s).

Lemma SetDefaults_eq c :
  Cluster_SetDefaults c =
    (d ← defaultSpec (versioned c);
     Ok (set_Spec (filled_groups (set_Spec (fill true (gc_Spec (versioned c)) d) c)) c)).
Proof.
  unfold Cluster_SetDefaults, merge_default_spec. fold (base_image c). fold (versioned c).
  destruct (defaultSpec (versioned c)) as [d|e|]; [|done..]. cbn [mbind res_bind].
  rewrite mergo_documented. cbn [mbind res_bind]. unfold mergeDefaultGroups.
  rewrite (map_res_pure _ _ _ (fun g => mergo_documented _ false g _)). cbn [mbind res_bind].
  rewrite (map_res_pure _ _ _ (fun g => mergo_documented _ false g _)). done.
Qed.

(** What the defaults read survives the filling. *)
Definition image_of (b : option PodTemplateSpec) : string :=
  MainContainerSpec_GetImage (nil_or None tp_MainContainer b).

Lemma image_of_filled b : image_of (fill true b (Some (default_base ""))) = image_of b.
Proof.
  destruct b as [[an lb [m|] sl]|]; [|done..]. cbn. by case_decide.
Qed.

Lemma enabled_filled c d m :
  default_monitoring c = Ok d -> m = cl_Monitoring (gc_Spec c) ->
  MonitoringSpec_IsEnabled (fill true m d) = MonitoringSpec_IsEnabled m.
Proof.
  unfold default_monitoring. change (GetMonitoring (Some c)) with (cl_Monitoring (gc_Spec c)).
  intros Hd ->. destruct (cl_Monitoring (gc_Spec c)) as [m|]; cbn in *; [|by injection Hd as <-].
  destruct m as [[] ttl sa lc ve]; cbn in *; res_inv; by subst d.
Qed.

Lemma ttl_filled c d m :
  default_monitoring c = Ok d -> m = cl_Monitoring (gc_Spec c) ->
  MonitoringSpec_IsEnabled m = true -> tracing_ttl (fill true m d) = tracing_ttl m.
Proof.
  unfold default_monitoring. change (GetMonitoring (Some c)) with (cl_Monitoring (gc_Spec c)).
  intros Hd -> He. rewrite He in Hd. res_inv. subst d.
  destruct (cl_Monitoring (gc_Spec c)) as [m|]; [|done]. unfold tracing_ttl. cbn.
  by repeat case_decide.
Qed.

(** After the filling, a component that gets defaults has its replicas. *)
Lemma meta_replicas c :
  MetaSpec_GetReplicas (fill true (GetMeta (Some c)) (Some (defaultMeta c))) <> None.
Proof.
  unfold defaultMeta. destruct (GetMeta (Some c)) as [x|]; [|done]. cbn.
  by destruct (cs_Replicas (me_ComponentSpec x)).
Qed.

Lemma datanode_replicas c x :
  GetDatanode (Some c) = Some x ->
  DatanodeSpec_GetReplicas (fill true (Some x) (Some (defaultDatanode c))) <> None.
Proof.
  unfold defaultDatanode. intros ->. cbn. by destruct (cs_Replicas (dn_ComponentSpec x)).
Qed.

Lemma flownode_replicas c x :
  GetFlownode c = Some x ->
  FlownodeSpec_GetReplicas (fill true (Some x) (Some (defaultFlownode c))) <> None.
Proof.
  unfold defaultFlownode. intros ->. cbn. by destruct (cs_Replicas (fl_ComponentSpec x)).
Qed.

Lemma frontend_replicas c x :
  GetFrontend (Some c) = Some x ->
  FrontendSpec_GetReplicas (fill true (Some x) (Some (defaultFrontend c))) <> None.
Proof.
  unfold defaultFrontend. intros ->. cbn. by destruct (cs_Replicas (fe_ComponentSpec x)).
Qed.

(** The default spec, once the monitoring's is known. *)
Lemma defaultSpec_Ok c d :
  defaultSpec c = Ok d ->
  exists m, default_monitoring c = Ok m /\
  d = mkGreptimeDBClusterSpec (Some (default_base ""))
        (if not_nil (GetFrontend (Some c)) then Some (defaultFrontend c) else None)
        (Some (defaultMeta c))
        (if not_nil (GetDatanode (Some c)) then Some (defaultDatanode c) else None)
        (map (fun _ => defaultDatanode c) (GetDatanodeGroups (Some c)))
        (if not_nil (GetFlownode c) then Some (defaultFlownode c) else None)
        (map (fun _ => defaultFrontend c) (GetFrontendGroups (Some c)))
        DefaultHTTPPort DefaultRPCPort DefaultMySQLPort DefaultPostgreSQLPort None DefaultVersion
        (Some (mkInitializerSpec DefaultInitializerImage)) None None
        (Some (default_logging (if MonitoringSpec_IsEnabled (GetMonitoring (Some c))
                                then LogFormatJSON else LogFormatText)))
        m (default_tracing c) "" false.
Proof. unfold defaultSpec. intros Hd. res_inv. eauto. Qed.

(** A slice default is only as long as the slice it fills. *)
Lemma groups_filled {A} (x y : A) (f : A -> A) (l : list A) :
  let l' := map f (fill true l (map (fun _ => x) l)) in
  fill true l' (map (fun _ => y) l') = l'.
Proof. by destruct l. Qed.

Lemma fill_list_same {A} tr (l : list A) (x : A) : fill tr l (map (fun _ => x) l) = l.
Proof. by destruct l. Qed.

Section second_pass.
Variables (c : GreptimeDBCluster) (d : GreptimeDBClusterSpec).
Hypothesis (Hd : defaultSpec (versioned c) = Ok d).

Let s : GreptimeDBClusterSpec := fill true (gc_Spec (versioned c)) d.
Let c' : GreptimeDBCluster := set_Spec (filled_groups (set_Spec s c)) c.

Lemma second_image : base_image c' = base_image c.
Proof.
  destruct (defaultSpec_Ok _ _ Hd) as (m & _ & Hd'). unfold c', s. rewrite Hd'.
  exact (image_of_filled (cl_Base (gc_Spec c))).
Qed.

Lemma second_enabled :
  MonitoringSpec_IsEnabled (GetMonitoring (Some (versioned c')))
  = MonitoringSpec_IsEnabled (GetMonitoring (Some (versioned c))).
Proof.
  destruct (defaultSpec_Ok _ _ Hd) as (m & Hm & Hd').
  transitivity (MonitoringSpec_IsEnabled (fill true (cl_Monitoring (gc_Spec c)) m)).
  - unfold c', s. by rewrite Hd'.
  - by apply (enabled_filled (versioned c)).
Qed.

Lemma second_standalone :
  defaultMonitoringStandaloneSpec (versioned c') = defaultMonitoringStandaloneSpec (versioned c).
Proof.
  unfold defaultMonitoringStandaloneSpec.
  change (MainContainerSpec_GetImage (GetBaseMainContainer (Some (versioned c')))) with (base_image c').
  change (MainContainerSpec_GetImage (GetBaseMainContainer (Some (versioned c)))) with (base_image c).
  rewrite second_image. f_equal.
  destruct (defaultSpec_Ok _ _ Hd) as (m & _ & Hd'). unfold c', s. rewrite Hd'. cbn.
  apply orb_false_r.
Qed.

Lemma second_monitoring : default_monitoring (versioned c') = default_monitoring (versioned c).
Proof. unfold default_monitoring. by rewrite second_enabled, second_standalone. Qed.

Lemma second_tracing : default_tracing (versioned c') = default_tracing (versioned c).
Proof.
  unfold default_tracing. rewrite second_enabled.
  destruct (MonitoringSpec_IsEnabled (GetMonitoring (Some (versioned c)))) eqn:He; [|done].
  assert (Ht : tracing_ttl (GetMonitoring (Some (versioned c')))
               = tracing_ttl (GetMonitoring (Some (versioned c)))); [|by rewrite Ht].
  destruct (defaultSpec_Ok _ _ Hd) as (m & Hm & Hd').
  transitivity (tracing_ttl (fill true (cl_Monitoring (gc_Spec c)) m)).
  - unfold c', s. by rewrite Hd'.
  - by apply (ttl_filled (versioned c)).
Qed.

Let t : GreptimeDBClusterSpec := gc_Spec c'.

(** A field filled again from the same default. *)
Ltac refill H :=
  unfold t, c', s; match goal with Hd' : d = _ |- _ => rewrite Hd' end; exact (fill_again true _ _ H).

(** The six components of the second pass. *)

Lemma second_meta : fill true (cl_Meta t) (Some (defaultMeta (versioned c'))) = cl_Meta t.
Proof.
  destruct (defaultSpec_Ok _ _ Hd) as (m & _ & Hd').
  assert (Ht : cl_Meta t = fill true (cl_Meta (gc_Spec c)) (Some (defaultMeta (versioned c))))
    by (unfold t, c', s; by rewrite Hd').
  assert (Hr : MetaSpec_GetReplicas (GetMeta (Some (versioned c'))) <> None).
  { change (GetMeta (Some (versioned c'))) with (cl_Meta t). rewrite Ht.
    apply (meta_replicas (versioned c)). }
  rewrite Ht. exact (proj1 (absorbs_Some true _ _ (absorbs_meta true _ _ Hr)) _).
Qed.

Lemma second_datanode :
  fill true (cl_Datanode t)
    (if not_nil (GetDatanode (Some (versioned c'))) then Some (defaultDatanode (versioned c')) else None)
  = cl_Datanode t.
Proof.
  destruct (defaultSpec_Ok _ _ Hd) as (m & _ & Hd').
  change (GetDatanode (Some (versioned c'))) with (cl_Datanode t).
  assert (Ht : cl_Datanode t = fill true (GetDatanode (Some (versioned c)))
    (if not_nil (GetDatanode (Some (versioned c))) then Some (defaultDatanode (versioned c)) else None))
    by (unfold t, c', s; by rewrite Hd').
  rewrite Ht. destruct (GetDatanode (Some (versioned c))) as [x|] eqn:Hx; [|done].
  refine (proj1 (absorbs_Some true _ _ (absorbs_datanode true _ _ _)) _).
  change (GetDatanode (Some (versioned c'))) with (cl_Datanode t). rewrite Ht.
  by apply datanode_replicas.
Qed.

Lemma second_flownode :
  fill true (cl_Flownode t)
    (if not_nil (GetFlownode (versioned c')) then Some (defaultFlownode (versioned c')) else None)
  = cl_Flownode t.
Proof.
  destruct (defaultSpec_Ok _ _ Hd) as (m & _ & Hd').
  change (GetFlownode (versioned c')) with (cl_Flownode t).
  assert (Ht : cl_Flownode t = fill true (GetFlownode (versioned c))
    (if not_nil (GetFlownode (versioned c)) then Some (defaultFlownode (versioned c)) else None))
    by (unfold t, c', s; by rewrite Hd').
  rewrite Ht. destruct (GetFlownode (versioned c)) as [x|] eqn:Hx; [|done].
  refine (proj1 (absorbs_Some true _ _ (absorbs_flownode true _ _ _)) _).
  change (GetFlownode (versioned c')) with (cl_Flownode t). rewrite Ht.
  by apply flownode_replicas.
Qed.

Lemma second_frontend :
  fill true (cl_Frontend t)
    (if not_nil (GetFrontend (Some (versioned c'))) then Some (defaultFrontend (versioned c')) else None)
  = cl_Frontend t.
Proof.
  destruct (defaultSpec_Ok _ _ Hd) as (m & _ & Hd').
  change (GetFrontend (Some (versioned c'))) with (cl_Frontend t).
  assert (Ht : cl_Frontend t = fill true (GetFrontend (Some (versioned c)))
    (if not_nil (GetFrontend (Some (versioned c))) then Some (defaultFrontend (versioned c)) else None))
    by (unfold t, c', s; by rewrite Hd').
  rewrite Ht. destruct (GetFrontend (Some (versioned c))) as [x|] eqn:Hx; [|done].
  refine (proj1 (absorbs_Some true _ _ (absorbs_frontend true _ _ _ _)) _).
  - change (GetFrontend (Some (versioned c'))) with (cl_Frontend t). rewrite Ht.
    by apply frontend_replicas.
  - unfold audit_default. change (GetFrontend (Some (versioned c'))) with (cl_Frontend t).
    rewrite Ht, Hx. unfold defaultFrontend. rewrite Hx. cbn.
    destruct (fe_AuditLog x) as [[[] ? ? ? ? ? ?]|]; done.
Qed.

Lemma second_defaults :
  exists d', defaultSpec (versioned c') = Ok d'
    /\ fill true (gc_Spec (versioned c')) d' = filled_groups (set_Spec s c).
Proof.
  destruct (defaultSpec_Ok _ _ Hd) as (m & Hm & Hd').
  unfold defaultSpec. rewrite second_monitoring, Hm. cbn [mbind res_bind].
  eexists. split; [reflexivity|]. rewrite second_tracing, second_enabled.
  change (gc_Spec (versioned c')) with (set_Version (getVersionFromImage (base_image c')) t).
  rewrite second_image. change (filled_groups (set_Spec s c)) with t.
  transitivity (mkGreptimeDBClusterSpec (cl_Base t) (cl_Frontend t) (cl_Meta t) (cl_Datanode t)
    (cl_DatanodeGroups t) (cl_Flownode t) (cl_FrontendGroups t) (cl_HTTPPort t) (cl_RPCPort t)
    (cl_MySQLPort t) (cl_PostgreSQLPort t) (cl_PrometheusMonitor t) (cl_Version t)
    (cl_Initializer t) (cl_ObjectStorageProvider t) (cl_WALProvider t) (cl_Logging t)
    (cl_Monitoring t) (cl_Tracing t) (cl_ConfigMergeStrategy t) (cl_EnableIPv6 t)); [|by destruct t].
  cbn [fill GreptimeDBClusterSpec_Fill]. f_equal.
  - refill (proj2 (settled_Some true _) (settled_base true "")).
  - exact second_frontend.
  - exact second_meta.
  - exact second_datanode.
  - unfold t, c', s. rewrite Hd'. exact (groups_filled _ _ _ _).
  - exact second_flownode.
  - unfold t, c', s. rewrite Hd'. exact (groups_filled _ _ _ _).
  - refill (settled_Z true DefaultHTTPPort).
  - refill (settled_Z true DefaultRPCPort).
  - refill (settled_Z true DefaultMySQLPort).
  - refill (settled_Z true DefaultPostgreSQLPort).
  - exact (proj1 (absorbs_None true _) _).
  - unfold t, c', s. by rewrite Hd'.
  - refill (proj2 (settled_Some true (mkInitializerSpec DefaultInitializerImage)) eq_refl).
  - exact (proj1 (absorbs_None true _) _).
  - exact (proj1 (absorbs_None true _) _).
  - refill (proj2 (settled_Some true _) (settled_logging true
      (if MonitoringSpec_IsEnabled (GetMonitoring (Some (versioned c)))
       then LogFormatJSON else LogFormatText))).
  - refill (settled_monitoring true _ _ Hm).
  - refill (settled_tracing true (versioned c)).
  - apply orb_false_r.
Qed.
End second_pass.

(** Filling the groups reads the base components and writes the groups. *)
Lemma filled_groups_again s c :
  let t := filled_groups (set_Spec s c) in filled_groups (set_Spec t (set_Spec t c)) = t.
Proof.
  intros t. set (c' := set_Spec s c).
  transitivity (set_ConfigMergeStrategy ConfigMergeStrategyInjectedDataFirst
    (set_components (cl_Frontend s) (cl_Meta s) (cl_Datanode s)
       (map (fun g => fill false g (defaultDatanode c'))
          (map (fun g => fill false g (defaultDatanode c')) (cl_DatanodeGroups s))) (cl_Flownode s)
       (map (fun g => fill false g (defaultFrontend c'))
          (map (fun g => fill false g (defaultFrontend c')) (cl_FrontendGroups s))) s));
    [reflexivity|].
  unfold t, filled_groups. change (gc_Spec c') with s. f_equal. f_equal.
  - rewrite map_map. apply map_ext. intros g. apply fill_again, settled_datanode.
  - rewrite map_map. apply map_ext. intros g. apply fill_again, settled_frontend.
Qed.


(** *** The standalone *)

(** The spec of a defaulted standalone whose image has the version [v]. *)
Definition standalone_filled (v : string) (spec : GreptimeDBStandaloneSpec) : GreptimeDBStandaloneSpec :=
  set_sa_strategy ConfigMergeStrategyInjectedDataFirst
    (fill true (set_sa_version v spec) (standalone_defaults (sa_Replicas spec))).
Definition standalone_version (s : GreptimeDBStandalone) : string :=
  getVersionFromImage (MainContainerSpec_GetImage (Standalone_GetBaseMainContainer (Some s))).

Lemma Standalone_SetDefaults_eq s :
  Standalone_SetDefaults s = Ok (set_sa_Spec (standalone_filled (standalone_version s) (sa_Spec s)) s).
Proof. unfold Standalone_SetDefaults. rewrite mergo_documented. reflexivity. Qed.

Lemma fill_empty tr (d : string) : fill tr d "" = d.
Proof. cbn. by case_decide. Qed.

Lemma standalone_filled_again v spec :
  standalone_filled v (standalone_filled v spec) = standalone_filled v spec.
Proof.
  assert (Hr : fill true (sa_Replicas (standalone_filled v spec))
    (default_replicas (sa_Replicas (standalone_filled v spec))) = sa_Replicas (standalone_filled v spec)).
  { cbn. by destruct (sa_Replicas spec). }
  set (t := standalone_filled v spec) in *. unfold standalone_filled at 1.
  cbn [fill GreptimeDBStandaloneSpec_Fill set_sa_strategy set_sa_version standalone_defaults
    sa_Base sa_Service sa_TLS sa_HTTPPort sa_HTTPAPIServerPort sa_EnableHTTPAPIServer sa_RPCPort
    sa_MySQLPort sa_PostgreSQLPort sa_PrometheusMonitor sa_Version sa_Replicas sa_Initializer
    sa_ObjectStorageProvider sa_DatanodeStorage sa_WALProvider sa_Config sa_Logging sa_RollingUpdate
    sa_SlowQuery sa_Tracing sa_ConfigMergeStrategy sa_EnableIPv6].
  transitivity (mkGreptimeDBStandaloneSpec (sa_Base t) (sa_Service t) (sa_TLS t) (sa_HTTPPort t)
    (sa_HTTPAPIServerPort t) (sa_EnableHTTPAPIServer t) (sa_RPCPort t) (sa_MySQLPort t)
    (sa_PostgreSQLPort t) (sa_PrometheusMonitor t) (sa_Version t) (sa_Replicas t) (sa_Initializer t)
    (sa_ObjectStorageProvider t) (sa_DatanodeStorage t) (sa_WALProvider t) (sa_Config t)
    (sa_Logging t) (sa_RollingUpdate t) (sa_SlowQuery t) (sa_Tracing t) (sa_ConfigMergeStrategy t)
    (sa_EnableIPv6 t)); [|by destruct t].
  unfold set_sa_strategy at 1. cbn [sa_Base sa_Service sa_TLS sa_HTTPPort sa_HTTPAPIServerPort
    sa_EnableHTTPAPIServer sa_RPCPort sa_MySQLPort sa_PostgreSQLPort sa_PrometheusMonitor sa_Version
    sa_Replicas sa_Initializer sa_ObjectStorageProvider sa_DatanodeStorage sa_WALProvider sa_Config
    sa_Logging sa_RollingUpdate sa_SlowQuery sa_Tracing sa_ConfigMergeStrategy sa_EnableIPv6].
  f_equal; first
    [ exact Hr
    | exact (fill_again true _ _ (proj2 (settled_Some true _) (settled_base true "")))
    | exact (fill_again true _ _ (f_equal Some (settled_statefulset_strategy true)))
    | exact (fill_again true _ _ (f_equal Some (settled_logging true LogFormatText)))
    | exact (proj1 (absorbs_None true _) _)
    | exact (fill_again true _ _ (settled_Z true _))
    | exact (fill_again true _ _ (f_equal Some eq_refl))
    | apply orb_false_r | reflexivity
    | exact (fill_empty true _) | idtac ].
  - exact (fill_again true (sa_Service spec) (Some cluster_ip_service) eq_refl).
  - exact (fill_again true (sa_DatanodeStorage spec) (Some defaultDatanodeStorage) eq_refl).
  - exact (fill_again true (sa_Logging spec) (Some defaultLogging)
      (proj2 (settled_Some true _) (settled_logging true LogFormatText))).
  - exact (fill_again true (sa_RollingUpdate spec) (Some defaultRollingUpdateForStatefulSet)
      (proj2 (settled_Some true _) (settled_statefulset_strategy true))).
  - exact (fill_again true (sa_SlowQuery spec) (Some defaultSlowQuery) eq_refl).
Qed.

(** Defaulting a standalone always succeeds and is idempotent. *)
Theorem Standalone_SetDefaults_idempotent s :
  exists s1, Standalone_SetDefaults s = Ok s1 /\ Standalone_SetDefaults s1 = Ok s1.
Proof.
  rewrite Standalone_SetDefaults_eq. eexists. split; [reflexivity|].
  rewrite Standalone_SetDefaults_eq. f_equal.
  assert (Hv : standalone_version (set_sa_Spec (standalone_filled (standalone_version s) (sa_Spec s)) s)
               = standalone_version s).
  { unfold standalone_version at 1 3. f_equal. exact (image_of_filled (sa_Base (sa_Spec s))). }
  rewrite Hv. cbn [sa_Spec set_sa_Spec]. rewrite standalone_filled_again. reflexivity.
Qed.

(** *** Totality *)

(** The quantities of the vector defaults parse. *)
Definition quantities_parse : Prop := exists r, default_vector_resources = Ok r.

Lemma SetDefaults_total c : quantities_parse -> exists c1, Cluster_SetDefaults c = Ok c1.
Proof.
  intros [r Hr]. rewrite SetDefaults_eq. unfold defaultSpec, default_monitoring. rewrite Hr.
  destruct (MonitoringSpec_IsEnabled _); eexists; reflexivity.
Qed.

(** *** The probes of the merged templates *)

(** Every component runs [P] on its HTTP port and component spec. *)
Definition all_components (P : Z -> ComponentSpec -> Prop) (s : GreptimeDBClusterSpec) : Prop :=
  Forall (fun x => P (fe_HTTPPort x) (fe_ComponentSpec x)) (cl_FrontendGroups s)
  /\ Forall (fun x => P (fe_HTTPPort x) (fe_ComponentSpec x)) (option_list (cl_Frontend s))
  /\ Forall (fun x => P (me_HTTPPort x) (me_ComponentSpec x)) (option_list (cl_Meta s))
  /\ Forall (fun x => P (dn_HTTPPort x) (dn_ComponentSpec x)) (cl_DatanodeGroups s)
  /\ Forall (fun x => P (dn_HTTPPort x) (dn_ComponentSpec x)) (option_list (cl_Datanode s))
  /\ Forall (fun x => P (fl_HTTPPort x) (fl_ComponentSpec x)) (option_list (cl_Flownode s)).

(** The port of an HTTP probe, and those of a template's three probes. *)
Definition http_port (p : option Probe) : option IntOrString :=
  p ← p; h ← pb_HTTPGet p; Some (hg_Port h).
Definition probe_ports (t : PodTemplateSpec) : list (option IntOrString) :=
  match tp_MainContainer t with
  | Some m => map http_port [mc_StartupProbe m; mc_LivenessProbe m; mc_ReadinessProbe m]
  | None => [None]
  end.
Definition with_probes (t : PodTemplateSpec) : Prop := Forall is_Some (probe_ports t).
Definition probed (port : Z) (c : ComponentSpec) : Prop :=
  exists t, cs_Template c = Some t /\ Forall (.= Some (FromInt32 port)) (probe_ports t).

Lemma set_probe_port_Ok port p :
  is_Some (http_port p) ->
  exists p', set_probe_port port p = Ok p' /\ http_port p' = Some (FromInt32 port).
Proof.
  destruct p as [p|]; [|by intros []]. unfold http_port, set_probe_port. cbn.
  destruct (pb_HTTPGet p) as [h|]; [|by intros []]. intros _. eexists. split; reflexivity.
Qed.

Lemma configureProbePort_Ok t port :
  with_probes t ->
  exists t', configureProbePort t port = Ok t'
    /\ Forall (.= Some (FromInt32 port)) (probe_ports t').
Proof.
  unfold with_probes, probe_ports, configureProbePort.
  destruct (tp_MainContainer t) as [m|]; cbn; [|by intros [[? [=]] _]%Forall_cons].
  intros ((? & -> & ?)%(set_probe_port_Ok port) & Hp)%Forall_cons.
  apply Forall_cons in Hp as ((? & -> & ?)%(set_probe_port_Ok port) & Hp).
  apply Forall_cons in Hp as ((? & -> & ?)%(set_probe_port_Ok port) & _).
  cbn. eexists. split; [reflexivity|]. cbn. by repeat constructor.
Qed.

Lemma http_port_filled tr (d s : option Probe) :
  is_Some (http_port s) -> is_Some (http_port (fill tr d s)).
Proof.
  destruct s as [s|]; [|by intros []]. destruct d as [d|]; [|done]. unfold http_port. cbn.
  destruct (pb_HTTPGet s) as [h|]; [|by intros []]. by destruct (pb_HTTPGet d).
Qed.

Lemma with_probes_filled tr d s : with_probes s -> with_probes (fill tr d s).
Proof.
  unfold with_probes, probe_ports. cbn.
  destruct (tp_MainContainer s) as [m|]; [|by intros [[? [=]] _]%Forall_cons].
  destruct (tp_MainContainer d) as [m'|]; cbn; [|done].
  intros (Hs & (Hl & (Hr & _)%Forall_cons)%Forall_cons)%Forall_cons.
  repeat constructor; by apply http_port_filled.
Qed.

(** *** Merging the base template *)

Lemma on_ptr_Ok {A} (P : A -> Prop) (f : A -> res A) (p : option A) :
  Forall (fun a => exists a', f a = Ok a' /\ P a') (option_list p) ->
  exists p', on_ptr f p = Ok p' /\ Forall P (option_list p').
Proof.
  destruct p as [a|]; cbn; [|by exists None].
  intros [(a' & -> & Ha) _]%Forall_cons. exists (Some a'). by repeat constructor.
Qed.

Lemma map_res_post {A B} (P : B -> Prop) (f : A -> res B) l :
  Forall (fun a => exists b, f a = Ok b /\ P b) l -> exists l', map_res f l = Ok l' /\ Forall P l'.
Proof.
  induction 1 as [|a l (b & Hb & HP) _ (l' & Hl & Hl')]; cbn; [by exists []|].
  rewrite Hb, Hl. eexists. split; [done|]. by constructor.
Qed.

Lemma merge_template_probed b port c :
  with_probes b -> is_Some (cs_Template c) ->
  exists c', merge_template (Some b) port c = Ok c' /\ probed port c'.
Proof.
  intros Hb [t Ht]. unfold merge_template, doMergeWithBaseTemplate. rewrite Ht.
  cbn [mbind res_bind default id]. rewrite mergo_documented. cbn [mbind res_bind].
  destruct (configureProbePort_Ok (fill false t b) port) as (t' & -> & Hp).
  { by apply with_probes_filled. }
  eexists. split; [reflexivity|]. by exists t'.
Qed.

(** An update that gives every component spec [P] gives it to the component. *)
Lemma updated {A} (port : A -> Z) (comp : A -> ComponentSpec) (set : ComponentSpec -> A -> A)
    (P Q : Z -> ComponentSpec -> Prop) (f : Z -> ComponentSpec -> res ComponentSpec) l :
  (forall x c, port (set c x) = port x /\ comp (set c x) = c) ->
  (forall p c, P p c -> exists c', f p c = Ok c' /\ Q p c') ->
  Forall (fun x => P (port x) (comp x)) l ->
  Forall (fun x => exists x', (c ← f (port x) (comp x); Ok (set c x)) = Ok x'
                              /\ Q (port x') (comp x')) l.
Proof.
  intros Hset Hf Hl. eapply Forall_impl; [exact Hl|]. intros x (c' & -> & Hc')%Hf. eexists. split; [reflexivity|].
  by destruct (Hset x c') as [-> ->].
Qed.

Local Ltac update_step P0 Q0 port comp set :=
  let Q := constr:(fun x => Q0 (port x) (comp x)) in
  match goal with
  | |- context [map_res ?f ?l] => destruct (map_res_post Q f l) as (? & -> & ?)
  | |- context [on_ptr ?f ?p] => destruct (on_ptr_Ok Q f p) as (? & -> & ?)
  end; [by apply (updated port comp set P0 Q0)|];
  cbn [mbind res_bind].

Local Ltac update_steps P0 Q0 :=
  repeat first
    [ update_step P0 Q0 fe_HTTPPort fe_ComponentSpec set_fe_component
    | update_step P0 Q0 me_HTTPPort me_ComponentSpec set_me_component
    | update_step P0 Q0 dn_HTTPPort dn_ComponentSpec set_dn_component
    | update_step P0 Q0 fl_HTTPPort fl_ComponentSpec set_fl_component ].

(** What [MergeWithBaseTemplate] needs, and what it gives. *)
Lemma MergeWithBaseTemplate_probed c b :
  cl_Base (gc_Spec c) = Some b -> with_probes b ->
  all_components (fun _ x => is_Some (cs_Template x)) (gc_Spec c) ->
  exists c', MergeWithBaseTemplate c = Ok c' /\ all_components probed (gc_Spec c').
Proof.
  intros Hb Hp (Hfg & Hf & Hm & Hdg & Hd & Hfl). unfold MergeWithBaseTemplate. rewrite Hb.
  pose proof (fun port x => merge_template_probed b port x Hp) as Hc.
  update_steps (fun (_ : Z) x => is_Some (cs_Template x)) probed.
  eexists. split; [reflexivity|]. by unfold all_components.
Qed.

Lemma template_filled tr c r : is_Some (cs_Template (fill tr c (default_component r))).
Proof. destruct c as [? ? [t|] ? ?]; cbn; eauto. Qed.

Lemma base_with_probes tr p :
  exists b, fill tr p (Some (default_base "")) = Some b /\ with_probes b.
Proof.
  assert (with_probes (default_base "")) by (repeat constructor; eexists; reflexivity).
  destruct p as [t|]; cbn [fill option_Fill]; eexists; split; try reflexivity; [|done].
  by apply with_probes_filled.
Qed.

(** A property that filling from the component default gives holds of every
    component of a defaulted cluster. *)
Lemma SetDefaults_components (P : ComponentSpec -> Prop) c c1 :
  (forall tr x r, P (fill tr x (default_component r))) -> (forall r, P (default_component r)) ->
  Cluster_SetDefaults c = Ok c1 -> all_components (fun _ x => P x) (gc_Spec c1).
Proof.
  intros Hfill Hdefault. rewrite SetDefaults_eq.
  destruct (defaultSpec (versioned c)) as [d|e|] eqn:Hd; cbn [mbind res_bind]; [|done..].
  intros <-%(inj Ok). apply defaultSpec_Ok in Hd as (m & _ & ->). unfold all_components. split_and!.
  - apply Forall_map, Forall_true. intros g. apply (Hfill false).
  - change (Forall (fun x => P (fe_ComponentSpec x))
      (option_list (fill true (GetFrontend (Some c)) (if not_nil (GetFrontend (Some c))
         then Some (defaultFrontend (versioned c)) else None)))).
    destruct (GetFrontend (Some c)); constructor; [apply (Hfill true)|done].
  - change (Forall (fun x => P (me_ComponentSpec x))
      (option_list (fill true (GetMeta (Some c)) (Some (defaultMeta (versioned c)))))).
    destruct (GetMeta (Some c)); repeat constructor; [apply (Hfill true)|apply Hdefault].
  - apply Forall_map, Forall_true. intros g. apply (Hfill false).
  - change (Forall (fun x => P (dn_ComponentSpec x))
      (option_list (fill true (GetDatanode (Some c)) (if not_nil (GetDatanode (Some c))
         then Some (defaultDatanode (versioned c)) else None)))).
    destruct (GetDatanode (Some c)); constructor; [apply (Hfill true)|done].
  - change (Forall (fun x => P (fl_ComponentSpec x))
      (option_list (fill true (GetFlownode c) (if not_nil (GetFlownode c)
         then Some (defaultFlownode (versioned c)) else None)))).
    destruct (GetFlownode c); constructor; [apply (Hfill true)|done].
Qed.

Lemma SetDefaults_base c c1 :
  Cluster_SetDefaults c = Ok c1 -> exists b, cl_Base (gc_Spec c1) = Some b /\ with_probes b.
Proof.
  rewrite SetDefaults_eq. destruct (defaultSpec (versioned c)) as [d|e|] eqn:Hd;
    cbn [mbind res_bind]; [|done..]. intros <-%(inj Ok).
  apply defaultSpec_Ok in Hd as (m & _ & ->). exact (base_with_probes true (cl_Base (gc_Spec c))).
Qed.

(** C9. After [SetDefaults], [MergeWithBaseTemplate] never dereferences a nil
    template, container or probe: it returns, and in every component (groups
    included) the startup, liveness and readiness probes ask the component's own
    HTTP port, whatever port the user's template or the base named. *)
Theorem SetDefaults_then_MergeWithBaseTemplate c c1 :
  Cluster_SetDefaults c = Ok c1 ->
  exists c2, MergeWithBaseTemplate c1 = Ok c2 /\ all_components probed (gc_Spec c2).
Proof.
  intros Hc. destruct (SetDefaults_base _ _ Hc) as (b & Hb & Hp).
  eapply MergeWithBaseTemplate_probed; [done|done|].
  refine (SetDefaults_components (fun x => is_Some (cs_Template x)) _ _ template_filled _ Hc).
  intros r. eexists. reflexivity.
Qed.

(** *** What the defaults are *)

(** A field's value after defaulting, and an optional count's. *)
Definition or_default {A} `{EqDecision A} (zero d a : A) : A := if decide (a = zero) then d else a.

(** The spec of a defaulted cluster, with the default spec it was filled from. *)
Lemma SetDefaults_from c c1 :
  Cluster_SetDefaults c = Ok c1 ->
  exists m, c1 = set_Spec (filled_groups (set_Spec (fill true (gc_Spec (versioned c))
    (mkGreptimeDBClusterSpec (Some (default_base ""))
       (if not_nil (GetFrontend (Some c)) then Some (defaultFrontend c) else None)
       (Some (defaultMeta c))
       (if not_nil (GetDatanode (Some c)) then Some (defaultDatanode c) else None)
       (map (fun _ => defaultDatanode c) (GetDatanodeGroups (Some c)))
       (if not_nil (GetFlownode c) then Some (defaultFlownode c) else None)
       (map (fun _ => defaultFrontend c) (GetFrontendGroups (Some c)))
       DefaultHTTPPort DefaultRPCPort DefaultMySQLPort DefaultPostgreSQLPort None DefaultVersion
       (Some (mkInitializerSpec DefaultInitializerImage)) None None
       (Some (default_logging (if MonitoringSpec_IsEnabled (GetMonitoring (Some c))
                               then LogFormatJSON else LogFormatText)))
       m (default_tracing c) "" false)) c)) c.
Proof.
  rewrite SetDefaults_eq. destruct (defaultSpec (versioned c)) as [d|e|] eqn:Hd;
    cbn [mbind res_bind]; [|done..]. intros <-%(inj Ok).
  apply defaultSpec_Ok in Hd as (m & _ & ->). by exists m.
Qed.

(** What [SetDefaults] gives: unset ports take their defaults and set ones
    stay, the version is the base image's tag, the meta exists even when the user
    declared none, the other components exist exactly when declared, every base
    component has a replica count (the user's, zero included, or one), the merge
    strategy is always InjectedDataFirst; metadata and status are untouched. *)
Theorem SetDefaults_spec c c1 :
  Cluster_SetDefaults c = Ok c1 ->
  let s := gc_Spec c in let s1 := gc_Spec c1 in
  gc_ObjectMeta c1 = gc_ObjectMeta c /\ gc_Status c1 = gc_Status c
  /\ cl_HTTPPort s1 = or_default 0%Z DefaultHTTPPort (cl_HTTPPort s)
  /\ cl_RPCPort s1 = or_default 0%Z DefaultRPCPort (cl_RPCPort s)
  /\ cl_MySQLPort s1 = or_default 0%Z DefaultMySQLPort (cl_MySQLPort s)
  /\ cl_PostgreSQLPort s1 = or_default 0%Z DefaultPostgreSQLPort (cl_PostgreSQLPort s)
  /\ cl_Version s1 = or_default "" DefaultVersion (getVersionFromImage (base_image c))
  /\ cl_ConfigMergeStrategy s1 = ConfigMergeStrategyInjectedDataFirst
  /\ MetaSpec_GetReplicas (cl_Meta s1) = Some (default 1%Z (MetaSpec_GetReplicas (cl_Meta s)))
  /\ FrontendSpec_GetReplicas (cl_Frontend s1)
     = (_ ← cl_Frontend s; Some (default 1%Z (FrontendSpec_GetReplicas (cl_Frontend s))))
  /\ DatanodeSpec_GetReplicas (cl_Datanode s1)
     = (_ ← cl_Datanode s; Some (default 1%Z (DatanodeSpec_GetReplicas (cl_Datanode s))))
  /\ FlownodeSpec_GetReplicas (cl_Flownode s1)
     = (_ ← cl_Flownode s; Some (default 1%Z (FlownodeSpec_GetReplicas (cl_Flownode s))))
  /\ length (cl_DatanodeGroups s1) = length (cl_DatanodeGroups s)
  /\ length (cl_FrontendGroups s1) = length (cl_FrontendGroups s).
Proof.
  intros [m ->]%SetDefaults_from. cbn zeta. split_and!; try reflexivity.
  - cbn. unfold defaultMeta. change (GetMeta (Some c)) with (cl_Meta (gc_Spec c)).
    destruct (cl_Meta (gc_Spec c)) as [x|]; [|done]. cbn. by destruct (cs_Replicas _).
  - cbn. unfold defaultFrontend. change (GetFrontend (Some c)) with (cl_Frontend (gc_Spec c)).
    destruct (cl_Frontend (gc_Spec c)) as [x|]; [|done]. cbn. by destruct (cs_Replicas _).
  - cbn. unfold defaultDatanode. change (GetDatanode (Some c)) with (cl_Datanode (gc_Spec c)).
    destruct (cl_Datanode (gc_Spec c)) as [x|]; [|done]. cbn. by destruct (cs_Replicas _).
  - cbn. unfold defaultFlownode. change (GetFlownode c) with (cl_Flownode (gc_Spec c)).
    destruct (cl_Flownode (gc_Spec c)) as [x|]; [|done]. cbn. by destruct (cs_Replicas _).
  - cbn. rewrite length_map. change (GetDatanodeGroups (Some c)) with (cl_DatanodeGroups (gc_Spec c)).
    by destruct (cl_DatanodeGroups (gc_Spec c)).
  - cbn. rewrite length_map. change (GetFrontendGroups (Some c)) with (cl_FrontendGroups (gc_Spec c)).
    by destruct (cl_FrontendGroups (gc_Spec c)).
Qed.

(** The groups after defaulting: each filled from the base component's default. *)
Lemma SetDefaults_groups c c1 :
  Cluster_SetDefaults c = Ok c1 ->
  cl_DatanodeGroups (gc_Spec c1)
    = map (fun g => fill false g (defaultDatanode (set_Spec (gc_Spec c1) c))) (cl_DatanodeGroups (gc_Spec c))
  /\ cl_FrontendGroups (gc_Spec c1)
    = map (fun g => fill false g (defaultFrontend (set_Spec (gc_Spec c1) c))) (cl_FrontendGroups (gc_Spec c)).
Proof.
  intros [m ->]%SetDefaults_from.
  change (GetDatanodeGroups (Some c)) with (cl_DatanodeGroups (gc_Spec c)).
  change (GetFrontendGroups (Some c)) with (cl_FrontendGroups (gc_Spec c)).
  split.
  - exact (f_equal (map _) (fill_list_same true (cl_DatanodeGroups (gc_Spec c)) (defaultDatanode c))).
  - exact (f_equal (map _) (fill_list_same true (cl_FrontendGroups (gc_Spec c)) (defaultFrontend c))).
Qed.

(** In a cluster of datanode groups, a group's unset replica count becomes
    one, and so does a group the user scaled to zero: the count behind the
    pointer is merged as an empty value. *)
Theorem group_replicas_zero_overwritten c c1 :
  Cluster_SetDefaults c = Ok c1 -> cl_Datanode (gc_Spec c) = None ->
  Forall2 (fun g g1 => cs_Replicas (dn_ComponentSpec g1)
      = Some (or_default 0%Z 1%Z (default 0%Z (cs_Replicas (dn_ComponentSpec g)))))
    (cl_DatanodeGroups (gc_Spec c)) (cl_DatanodeGroups (gc_Spec c1)).
Proof.
  intros Hc Hd. assert (Hd1 : cl_Datanode (gc_Spec c1) = None).
  { apply SetDefaults_from in Hc as [m ->].
    change (fill true (cl_Datanode (gc_Spec c)) (if not_nil (cl_Datanode (gc_Spec c))
      then Some (defaultDatanode c) else None) = None). by rewrite Hd. }
  apply SetDefaults_groups in Hc as [-> _]. apply Forall2_fmap_r, Forall_Forall2_diag, Forall_true.
  intros g. unfold defaultDatanode.
  change (GetDatanode (Some (set_Spec (gc_Spec c1) c))) with (cl_Datanode (gc_Spec c1)).
  rewrite Hd1. cbn. destruct (cs_Replicas (dn_ComponentSpec g)) as [n|]; [|done].
  unfold or_default. cbn. by case_decide.
Qed.

(** Slow queries cannot be switched off: every frontend of a defaulted
    cluster records them, even one that says [enabled: false]. *)
Theorem slow_query_forced c c1 :
  Cluster_SetDefaults c = Ok c1 ->
  Forall (fun f => sq_Enabled <$> fe_SlowQuery f = Some true)
    (option_list (cl_Frontend (gc_Spec c1)) ++ cl_FrontendGroups (gc_Spec c1)).
Proof.
  assert (Hf : forall tr f c, sq_Enabled <$> fe_SlowQuery (fill tr f (defaultFrontend c)) = Some true).
  { intros tr f x. cbn. destruct (fe_SlowQuery f) as [[[] ? ? ? ?]|]; done. }
  intros Hc. apply Forall_app. split.
  - apply SetDefaults_from in Hc as [m ->].
    change (Forall (fun f => sq_Enabled <$> fe_SlowQuery f = Some true)
      (option_list (fill true (cl_Frontend (gc_Spec c)) (if not_nil (cl_Frontend (gc_Spec c))
         then Some (defaultFrontend c) else None)))).
    destruct (cl_Frontend (gc_Spec c)) as [f|]; constructor; [apply (Hf true)|done].
  - apply SetDefaults_groups in Hc as [_ ->]. apply Forall_map, Forall_true. intros f. apply Hf.
Qed.

(** A frontend group's rolling-update bound given as a count becomes a
    percentage: the groups are merged without the transformer that protects an
    integer bound of the base frontend. *)
Theorem group_rolling_update_overwritten c c1 g g1 r n :
  Cluster_SetDefaults c = Ok c1 ->
  cl_FrontendGroups (gc_Spec c) = [g] -> cl_FrontendGroups (gc_Spec c1) = [g1] ->
  fe_RollingUpdate g = Some r -> rd_MaxUnavailable r = Some (mkIntOrString TInt n "") ->
  (rd_MaxUnavailable <$> fe_RollingUpdate g1) = Some (Some (mkIntOrString TString n "25%")).
Proof.
  intros Hc Hg Hg1 Hr Hn. apply SetDefaults_groups in Hc as [_ Hl]. rewrite Hg1, Hg in Hl.
  injection Hl as ->. cbn. rewrite Hr. cbn. rewrite Hn. cbn. by destruct (decide (n = 0%Z)) as [->|].
Qed.

(** ... and the base frontend's keeps the count. *)
Theorem base_rolling_update_kept c c1 f r n :
  Cluster_SetDefaults c = Ok c1 -> n <> 0%Z ->
  cl_Frontend (gc_Spec c) = Some f ->
  fe_RollingUpdate f = Some r -> rd_MaxUnavailable r = Some (mkIntOrString TInt n "") ->
  (f1 ← cl_Frontend (gc_Spec c1); r1 ← fe_RollingUpdate f1; rd_MaxUnavailable r1)
  = Some (mkIntOrString TInt n "").
Proof.
  intros [m ->]%SetDefaults_from Hn Hf Hr Hu.
  change ((f1 ← fill true (cl_Frontend (gc_Spec c)) (if not_nil (cl_Frontend (gc_Spec c))
      then Some (defaultFrontend c) else None);
    r1 ← fe_RollingUpdate f1; rd_MaxUnavailable r1) = Some (mkIntOrString TInt n "")).
  rewrite Hf. cbn.
  rewrite Hr. cbn. rewrite Hu. cbn. unfold Transformer. cbn. by case_decide.
Qed.

(** *** Global logging *)

Definition logged (json : bool) (c : ComponentSpec) : Prop :=
  exists l, cs_Logging c = Some l /\ lg_Level l <> "" /\ (json = true -> lg_Format l = LogFormatJSON).

Lemma logging_filled tr c r : is_Some (cs_Logging (fill tr c (default_component r))).
Proof. destruct c as [? ? ? [l|] ?]; cbn; eauto. Qed.

Lemma merge_logging_logged global json port c :
  lg_Level global <> "" -> is_Some (cs_Logging c) ->
  exists c', merge_logging global json port c = Ok c' /\ logged json c'.
Proof.
  intros Hg [l Hl]. unfold merge_logging. rewrite Hl. cbn [on_ptr].
  rewrite mergo_documented. cbn. eexists. split; [reflexivity|].
  assert (Hlevel : lg_Level (fill false l global) <> "") by (cbn; by case_decide).
  eexists. split; [reflexivity|]. by destruct json.
Qed.

(** After [SetDefaults], [MergeWithGlobalLogging] returns and gives every
    component (groups included) a logging spec with a level; with monitoring
    enabled all of them log JSON, which the log collector parses. *)
Theorem SetDefaults_then_MergeWithGlobalLogging c c1 :
  Cluster_SetDefaults c = Ok c1 ->
  exists c2, MergeWithGlobalLogging c1 = Ok c2
    /\ all_components (fun _ => logged (MonitoringSpec_IsEnabled (GetMonitoring (Some c1)))) (gc_Spec c2).
Proof.
  intros Hc.
  assert (Hg : exists g, GetLogging (Some c1) = Some g /\ lg_Level g <> "").
  { destruct (SetDefaults_from _ _ Hc) as [m ->].
    exists (fill true (default zero_LoggingSpec (cl_Logging (gc_Spec c))) (default_logging
      (if MonitoringSpec_IsEnabled (GetMonitoring (Some c)) then LogFormatJSON else LogFormatText))).
    split; [|cbn; by case_decide].
    change (fill true (cl_Logging (gc_Spec c)) (Some (default_logging
      (if MonitoringSpec_IsEnabled (GetMonitoring (Some c)) then LogFormatJSON else LogFormatText)))
      = Some (fill true (default zero_LoggingSpec (cl_Logging (gc_Spec c))) (default_logging
      (if MonitoringSpec_IsEnabled (GetMonitoring (Some c)) then LogFormatJSON else LogFormatText)))).
    by destruct (cl_Logging (gc_Spec c)). }
  destruct Hg as (g & Hg & Hlevel). unfold MergeWithGlobalLogging. rewrite Hg.
  set (json := MonitoringSpec_IsEnabled (GetMonitoring (Some c1))).
  destruct (SetDefaults_components (fun x => is_Some (cs_Logging x)) c c1) as (Hfg & Hf & Hm & Hdg & Hd & Hfl);
    [apply logging_filled|intros r; eexists; reflexivity|exact Hc|].
  pose proof (fun port x => merge_logging_logged g json port x Hlevel) as Hl.
  unfold update_all_specs.
  update_steps (fun (_ : Z) x => is_Some (cs_Logging x)) (fun (_ : Z) => logged json).
  eexists. split; [reflexivity|]. by unfold all_components.
Qed.
End documented.

(** ** The version *)

Lemma last_Split_slash path name :
  has_char "/"%char name = false -> path = "" \/ (exists p, path = p +:+ "/") ->
  last (Split "/"%char (path +:+ name)) = Some name.
Proof.
  intros Hn [->|[p ->]]; [by cbn; rewrite Split_no_sep|].
  rewrite string_app_assoc. by apply last_Split_app.
Qed.

(** Splitting at a separator that occurs gives more than one part. *)
Lemma Split_sep sep s : has_char sep s = true -> forall x, Split sep s <> [x].
Proof.
  induction s as [|a s IH]; cbn; [done|]. intros Hs x. destruct (Ascii.eqb a sep).
  - intros [= _ Hl]. by destruct (Split_not_nil sep s).
  - destruct (Split sep s) as [|y l] eqn:E; [by destruct (Split_not_nil sep s)|]. intros [= _ ->].
    by apply (IH Hs y).
Qed.

(** The version of an image [path/name:tag] is its tag, whatever the path
    (a registry's port included); an image without a tag, or with a tag and a
    digest, has no known version. *)
Theorem getVersionFromImage_tag path name tag :
  path = "" \/ (exists p, path = p +:+ "/") ->
  has_char "/"%char (name +:+ ":" +:+ tag) = false -> has_char "/"%char name = false ->
  has_char ":"%char name = false ->
  getVersionFromImage (path +:+ name) = DefaultVersion
  /\ (has_char ":"%char tag = false -> getVersionFromImage (path +:+ name +:+ ":" +:+ tag) = tag)
  /\ (has_char ":"%char tag = true ->
      getVersionFromImage (path +:+ name +:+ ":" +:+ tag) = DefaultVersion).
Proof.
  intros Hp Hs Hn Hc. unfold getVersionFromImage.
  change (":" +:+ tag) with (String ":"%char tag) in *. split_and!.
  - rewrite last_Split_slash by done. by rewrite (Split_no_sep ":"%char).
  - intros Ht. rewrite last_Split_slash by done. rewrite (Split_cons_sep ":"%char) by done.
    by rewrite (Split_no_sep ":"%char tag).
  - intros Ht. rewrite last_Split_slash by done. rewrite (Split_cons_sep ":"%char) by done.
    destruct (Split ":"%char tag) as [|x [|y l]] eqn:E; [done| |done].
    by destruct (Split_sep ":"%char tag Ht x).
Qed.

(** A registry with a port, and an image with a tag and a digest. *)
Lemma getVersionFromImage_tag_witness :
  getVersionFromImage "localhost:5000/greptime/greptimedb:v0.12.0" = "v0.12.0"
  /\ getVersionFromImage "greptime/greptimedb:v0.12.0@sha256:f00d" = "Unknown".
Proof.
  split.
  - refine (proj1 (proj2 (getVersionFromImage_tag "localhost:5000/greptime/" "greptimedb" "v0.12.0"
      _ _ _ _)) _); [by right; exists "localhost:5000/greptime"|reflexivity..].
  - refine (proj2 (proj2 (getVersionFromImage_tag "greptime/" "greptimedb" "v0.12.0@sha256:f00d"
      _ _ _ _)) _); [by right; exists "greptime"|reflexivity..].
Defined.

(** ** Witnesses *)



(** A cluster of two frontends, one scaled to zero group of datanodes and one
    frontend group that opts out of the slow queries. *)
Definition quiet_frontend : FrontendSpec :=
  mkFrontendSpec zero_ComponentSpec "g" 0 0 0 None 0 0 0 None None
    (Some (mkRollingUpdateDeployment (Some (mkIntOrString TInt 3 "")) None))
    (Some (mkSlowQuery false "" "" "" "")) None None.
Definition undefaulted : GreptimeDBCluster :=
  mkGreptimeDBCluster zero_ObjectMeta
    (mkGreptimeDBClusterSpec None (Some quiet_frontend) None None [with_replicas zero_DatanodeSpec 0]
       None [quiet_frontend] 0 0 0 0 None "" None None None None None None ConfigMergeStrategyOperatorFirst false)
    zero_ClusterStatus.
Definition defaulted : GreptimeDBCluster :=
  match @Cluster_SetDefaults any_quantity keep_opaque documented_mergo undefaulted with
  | Ok c => c
  | _ => undefaulted
  end.

Section witnesses.
#[local] Existing Instances any_quantity keep_opaque documented_mergo documented_mergo_laws.

Lemma undefaulted_defaults : Cluster_SetDefaults undefaulted = Ok defaulted.
Proof. vm_compute. reflexivity. Qed.


Lemma SetDefaults_spec_witness :
  cl_HTTPPort (gc_Spec defaulted) = 4000%Z /\ cl_ConfigMergeStrategy (gc_Spec defaulted) = ConfigMergeStrategyInjectedDataFirst.
Proof.
  destruct (SetDefaults_spec undefaulted defaulted undefaulted_defaults)
    as (_ & _ & Hp & _ & _ & _ & _ & Hs & _). exact (conj Hp Hs).
Defined.

Lemma SetDefaults_then_MergeWithBaseTemplate_witness :
  exists c2, MergeWithBaseTemplate defaulted = Ok c2 /\ all_components probed (gc_Spec c2).
Proof. exact (SetDefaults_then_MergeWithBaseTemplate undefaulted defaulted undefaulted_defaults). Defined.

Lemma SetDefaults_then_MergeWithGlobalLogging_witness :
  exists c2, MergeWithGlobalLogging defaulted = Ok c2 /\ all_components (fun _ => logged false) (gc_Spec c2).
Proof. exact (SetDefaults_then_MergeWithGlobalLogging undefaulted defaulted undefaulted_defaults). Defined.

Lemma group_replicas_zero_overwritten_witness :
  map (fun g => cs_Replicas (dn_ComponentSpec g)) (cl_DatanodeGroups (gc_Spec undefaulted)) = [Some 0%Z]
  /\ Forall (fun g => cs_Replicas (dn_ComponentSpec g) = Some 1%Z) (cl_DatanodeGroups (gc_Spec defaulted)).
Proof.
  split; [reflexivity|].
  pose proof (group_replicas_zero_overwritten undefaulted defaulted undefaulted_defaults eq_refl) as H.
  change (cl_DatanodeGroups (gc_Spec undefaulted)) with [with_replicas zero_DatanodeSpec 0] in H.
  inversion H as [|? ? ? l H1 H2]. by inversion H2; subst; repeat constructor.
Defined.

Lemma slow_query_forced_witness :
  map (fun f => sq_Enabled <$> fe_SlowQuery f) (cl_FrontendGroups (gc_Spec undefaulted)) = [Some false]
  /\ Forall (fun f => sq_Enabled <$> fe_SlowQuery f = Some true)
       (option_list (cl_Frontend (gc_Spec defaulted)) ++ cl_FrontendGroups (gc_Spec defaulted)).
Proof.
  split; [reflexivity|]. exact (slow_query_forced undefaulted defaulted undefaulted_defaults).
Defined.

Lemma group_rolling_update_overwritten_witness :
  exists g1, cl_FrontendGroups (gc_Spec defaulted) = [g1]
    /\ (rd_MaxUnavailable <$> fe_RollingUpdate g1) = Some (Some (mkIntOrString TString 3 "25%")).
Proof.
  eexists. split; [vm_compute; reflexivity|].
  eapply (group_rolling_update_overwritten undefaulted defaulted quiet_frontend);
    [exact undefaulted_defaults|reflexivity|vm_compute; reflexivity|reflexivity|reflexivity].
Defined.

Lemma base_rolling_update_kept_witness :
  (f1 ← cl_Frontend (gc_Spec defaulted); r1 ← fe_RollingUpdate f1; rd_MaxUnavailable r1)
  = Some (mkIntOrString TInt 3 "").
Proof.
  by eapply (base_rolling_update_kept undefaulted defaulted quiet_frontend _ 3);
    [exact undefaulted_defaults|done|reflexivity..].
Defined.

Lemma Standalone_SetDefaults_idempotent_witness :
  let s := mkGreptimeDBStandalone zero_ObjectMeta zero_StandaloneSpec zero_StandaloneStatus in
  exists s1, Standalone_SetDefaults s = Ok s1 /\ Standalone_SetDefaults s1 = Ok s1.
Proof.
  exact (Standalone_SetDefaults_idempotent
    (mkGreptimeDBStandalone zero_ObjectMeta zero_StandaloneSpec zero_StandaloneStatus)).
Defined.
End witnesses.
