(* ===== verification/Cluster.v ===== *)
(** * controllers/greptimedbcluster/deployers/common.go: the shared state

    What the five deployers of a cluster share: the cluster object under
    reconciliation, which every deployer mutates, and [UpdateStatus].  A
    deployer's [GetCluster] always succeeds here: the model passes a
    GreptimeDBCluster where the code passes a [client.Object]. *)

From stdpp Require Import base gmap sets strings list fin_maps.
From Stdlib Require Import ZArith.
From S2P Require Import Prelude GoLib K8s ApiCommon Conditions ApiTypes Client ApiServer K8sUtil.
From S2P Require Import Common Mergo Defaulting.

(** ** Memory

    [c_cluster] is the object the reconciler read and passes by pointer;
    [c_maintenance] is the keys of the datanode deployer's [sync.Map], which
    lives as long as the operator. *)
Record CState := mkCState {
  c_cluster : GreptimeDBCluster;
  c_maintenance : gset NamespacedName }.

Definition cluster_key (c : GreptimeDBCluster) : NamespacedName := key_of (gc_ObjectMeta c).

(** Assignments to fields of the cluster. *)
Definition set_Status (st : GreptimeDBClusterStatus) (c : GreptimeDBCluster) : GreptimeDBCluster :=
  mkGreptimeDBCluster (gc_ObjectMeta c) (gc_Spec c) st.
Definition set_ClusterMeta (m : ObjectMeta) (c : GreptimeDBCluster) : GreptimeDBCluster :=
  mkGreptimeDBCluster m (gc_Spec c) (gc_Status c).

Definition set_FrontendStatus (x : ComponentStatus) (s : GreptimeDBClusterStatus) :=
  mkGreptimeDBClusterStatus x (gst_Meta s) (gst_Datanode s) (gst_Flownode s)
    (gst_MonitoringInternalDNSName s) (gst_Version s) (gst_ClusterPhase s) (gst_Conditions s)
    (gst_ObservedGeneration s).
Definition set_MetaStatus (x : MetaStatus) (s : GreptimeDBClusterStatus) :=
  mkGreptimeDBClusterStatus (gst_Frontend s) x (gst_Datanode s) (gst_Flownode s)
    (gst_MonitoringInternalDNSName s) (gst_Version s) (gst_ClusterPhase s) (gst_Conditions s)
    (gst_ObservedGeneration s).
Definition set_DatanodeStatus (x : ComponentStatus) (s : GreptimeDBClusterStatus) :=
  mkGreptimeDBClusterStatus (gst_Frontend s) (gst_Meta s) x (gst_Flownode s)
    (gst_MonitoringInternalDNSName s) (gst_Version s) (gst_ClusterPhase s) (gst_Conditions s)
    (gst_ObservedGeneration s).
Definition set_FlownodeStatus (x : ComponentStatus) (s : GreptimeDBClusterStatus) :=
  mkGreptimeDBClusterStatus (gst_Frontend s) (gst_Meta s) (gst_Datanode s) x
    (gst_MonitoringInternalDNSName s) (gst_Version s) (gst_ClusterPhase s) (gst_Conditions s)
    (gst_ObservedGeneration s).
(** The version, the phase and the observed generation change together. *)
Definition set_Phase (version : string) (phase : Phase) (generation : Z)
    (s : GreptimeDBClusterStatus) :=
  mkGreptimeDBClusterStatus (gst_Frontend s) (gst_Meta s) (gst_Datanode s) (gst_Flownode s)
    (gst_MonitoringInternalDNSName s) version phase (gst_Conditions s) generation.
Definition set_Conditions (cs : list Condition) (s : GreptimeDBClusterStatus) :=
  mkGreptimeDBClusterStatus (gst_Frontend s) (gst_Meta s) (gst_Datanode s) (gst_Flownode s)
    (gst_MonitoringInternalDNSName s) (gst_Version s) (gst_ClusterPhase s) cs
    (gst_ObservedGeneration s).

Definition GreptimeDBClusterStatus_GetCondition (conditionType : ConditionType)
    (s : GreptimeDBClusterStatus) : option Condition := GetCondition (gst_Conditions s) conditionType.
Definition GreptimeDBClusterStatus_SetCondition (condition : Condition) (s : GreptimeDBClusterStatus)
    : GreptimeDBClusterStatus := set_Conditions (SetCondition (gst_Conditions s) condition) s.

Definition update_cluster (f : GreptimeDBCluster -> GreptimeDBCluster) : M CState unit :=
  modify (fun s => mkCState (f (c_cluster s)) (c_maintenance s)).
Definition update_status (f : GreptimeDBClusterStatus -> GreptimeDBClusterStatus) : M CState unit :=
  update_cluster (fun c => set_Status (f (gc_Status c)) c).
Definition get_cluster : M CState GreptimeDBCluster := s ← get; mret (c_cluster s).

(** ** Operations *)

(** The retried function reads the object again and writes the status the
    caller computed; the caller's own object is left alone (a deep copy). *)
Definition UpdateStatus `{RetryLib} {S} (input : GreptimeDBCluster) : M S unit :=
  RetryOnConflict (cluster ← Get KCluster (cluster_key input);
                   StatusUpdate (Object KCluster (set_Status (gc_Status input) cluster))).

Definition audit_log_on (f : FrontendSpec) : bool :=
  match FrontendSpec_GetAuditLog (Some f) with
  | Some auditLog => al_Enabled auditLog
  | None => false
  end.

Definition IsAuditLogEnabled (cluster : GreptimeDBCluster) : bool :=
  nil_or false audit_log_on (GetFrontend (Some cluster))
  || existsb audit_log_on (GetFrontendGroups (Some cluster)).

(** A workload's status: [None] when it is not found. *)
Definition GetIfFound {S} (k : kind) (key : NamespacedName) : M S (option (obj k)) :=
  err ← try (Get k key);
  match err with
  | Ok o => mret (Some o)
  | Err e => if IsNotFound e then mret None else lift (Err e)
  | Panic => lift Panic
  end.

(** ** The maps that the spec shares with the generated objects

    A generated pod template takes the label and annotation maps of the spec's
    template by reference, a service those of the spec's service, and
    [MergeStringMap] writes to a map that is not nil.  So generating writes to the
    cluster in memory.  (Maps that are nil and maps that are empty are one value
    here; an empty map is taken for a nil one, which [MergeStringMap] copies.) *)

Definition share_map (shared merged : strmap) : strmap := if decide (shared = ∅) then ∅ else merged.

Definition share_template (pod : CorePodTemplateSpec) (t : PodTemplateSpec) : PodTemplateSpec :=
  mkPodTemplateSpec (share_map (tp_Annotations t) (pt_Annotations pod))
    (share_map (tp_Labels t) (pt_Labels pod)) (tp_MainContainer t) (tp_SlimPodSpec t).

Definition share_service (m : ObjectMeta) (s : ServiceSpec) : ServiceSpec :=
  mkServiceSpec (sv_Type s) (share_map (sv_Annotations s) (om_Annotations m))
    (share_map (sv_Labels s) (labels_of m)) (sv_LoadBalancerClass s) (sv_Ports s).

Definition on_template (f : PodTemplateSpec -> PodTemplateSpec) (c : ComponentSpec) : ComponentSpec :=
  mkComponentSpec (cs_Replicas c) (cs_Config c) (f <$> cs_Template c) (cs_Logging c) (cs_Tracing c).

Definition on_service (f : ServiceSpec -> ServiceSpec) (x : FrontendSpec) : FrontendSpec :=
  mkFrontendSpec (fe_ComponentSpec x) (fe_Name x) (fe_RPCPort x) (fe_HTTPPort x)
    (fe_HTTPAPIServerPort x) (fe_EnableHTTPAPIServer x) (fe_MySQLPort x) (fe_PostgreSQLPort x)
    (fe_InternalPort x) (f <$> fe_Service x) (fe_TLS x) (fe_RollingUpdate x) (fe_SlowQuery x)
    (fe_EnableObjectStorage x) (fe_AuditLog x).

Definition on_meta (f : ComponentSpec -> ComponentSpec) (x : MetaSpec) : MetaSpec :=
  set_me_component (f (me_ComponentSpec x)) x.
Definition on_datanode (f : ComponentSpec -> ComponentSpec) (x : DatanodeSpec) : DatanodeSpec :=
  set_dn_component (f (dn_ComponentSpec x)) x.
Definition on_frontend (f : ComponentSpec -> ComponentSpec) (x : FrontendSpec) : FrontendSpec :=
  set_fe_component (f (fe_ComponentSpec x)) x.
Definition on_flownode (f : ComponentSpec -> ComponentSpec) (x : FlownodeSpec) : FlownodeSpec :=
  set_fl_component (f (fl_ComponentSpec x)) x.

(** Where the pointer of a role's spec points: the field of the cluster, or an
    element of its groups. *)
Inductive slot :=
  | SMeta | SDatanode | SDatanodeGroup (i : nat) | SFrontend | SFrontendGroup (i : nat) | SFlownode.

(** Writing to the component, or to the frontend, that a pointer points to. *)
Definition at_component (p : slot) (f : ComponentSpec -> ComponentSpec) (s : GreptimeDBClusterSpec)
    : GreptimeDBClusterSpec :=
  match p with
  | SMeta => set_components (cl_Frontend s) (on_meta f <$> cl_Meta s) (cl_Datanode s)
               (cl_DatanodeGroups s) (cl_Flownode s) (cl_FrontendGroups s) s
  | SDatanode => set_components (cl_Frontend s) (cl_Meta s) (on_datanode f <$> cl_Datanode s)
                   (cl_DatanodeGroups s) (cl_Flownode s) (cl_FrontendGroups s) s
  | SDatanodeGroup i => set_components (cl_Frontend s) (cl_Meta s) (cl_Datanode s)
                   (alter (on_datanode f) i (cl_DatanodeGroups s)) (cl_Flownode s)
                   (cl_FrontendGroups s) s
  | SFrontend => set_components (on_frontend f <$> cl_Frontend s) (cl_Meta s) (cl_Datanode s)
                   (cl_DatanodeGroups s) (cl_Flownode s) (cl_FrontendGroups s) s
  | SFrontendGroup i => set_components (cl_Frontend s) (cl_Meta s) (cl_Datanode s)
                   (cl_DatanodeGroups s) (cl_Flownode s)
                   (alter (on_frontend f) i (cl_FrontendGroups s)) s
  | SFlownode => set_components (cl_Frontend s) (cl_Meta s) (cl_Datanode s)
                   (cl_DatanodeGroups s) (on_flownode f <$> cl_Flownode s) (cl_FrontendGroups s) s
  end.

Definition at_service (p : slot) (f : ServiceSpec -> ServiceSpec) (s : GreptimeDBClusterSpec)
    : GreptimeDBClusterSpec :=
  match p with
  | SFrontend => set_components (on_service f <$> cl_Frontend s) (cl_Meta s) (cl_Datanode s)
                   (cl_DatanodeGroups s) (cl_Flownode s) (cl_FrontendGroups s) s
  | SFrontendGroup i => set_components (cl_Frontend s) (cl_Meta s) (cl_Datanode s)
                   (cl_DatanodeGroups s) (cl_Flownode s)
                   (alter (on_service f) i (cl_FrontendGroups s)) s
  | _ => s
  end.

(** The spec without the maps that may be shared. *)
Definition no_maps_template (t : PodTemplateSpec) : PodTemplateSpec :=
  mkPodTemplateSpec ∅ ∅ (tp_MainContainer t) (tp_SlimPodSpec t).
Definition no_maps_service (s : ServiceSpec) : ServiceSpec :=
  mkServiceSpec (sv_Type s) ∅ ∅ (sv_LoadBalancerClass s) (sv_Ports s).
Definition no_maps (x : ComponentSpec) : ComponentSpec := on_template no_maps_template x.
Definition no_maps_frontend (x : FrontendSpec) : FrontendSpec :=
  on_service no_maps_service (on_frontend no_maps x).

Definition spec_core (s : GreptimeDBClusterSpec) : GreptimeDBClusterSpec :=
  set_components (no_maps_frontend <$> cl_Frontend s) (on_meta no_maps <$> cl_Meta s)
    (on_datanode no_maps <$> cl_Datanode s) (on_datanode no_maps <$> cl_DatanodeGroups s)
    (on_flownode no_maps <$> cl_Flownode s) (no_maps_frontend <$> cl_FrontendGroups s) s.

(** What a computation leaves alone: the cluster's identity, its spec up to the
    shared maps, and its phase. *)
Definition same_cluster (c c' : GreptimeDBCluster) : Prop :=
  gc_ObjectMeta c' = gc_ObjectMeta c /\ spec_core (gc_Spec c') = spec_core (gc_Spec c)
  /\ gst_ClusterPhase (gc_Status c') = gst_ClusterPhase (gc_Status c).

Definition keeps_cluster {A} (m : M CState A) : Prop :=
  preserves (fun s s' => same_cluster (c_cluster s) (c_cluster s')) m.

(** A cluster is written nowhere but by a status update. *)
Definition not_cluster_write (e : event) : Prop :=
  match projT1 e with
  | QUpdate KCluster _ => False
  | QPatch o _ | QCreate o | QDelete o => o_kind o <> KCluster
  | _ => True
  end.

(** ** Lemmas *)

Lemma fmap_alter_same {A B} (g : A -> B) (f : A -> A) i (l : list A) :
  (forall x, g (f x) = g x) -> g <$> alter f i l = g <$> l.
Proof.
  intros Hf. revert i. induction l as [|x l IH]; intros [|i]; cbn; try done.
  - by rewrite Hf.
  - f_equal. apply IH.
Qed.

Lemma no_maps_share pod x : no_maps (on_template (share_template pod) x) = no_maps x.
Proof. destruct x as [? ? [[]|]]; reflexivity. Qed.

Lemma no_maps_service_share m x :
  no_maps_frontend (on_service (share_service m) x) = no_maps_frontend x.
Proof. by destruct x as [? ? ? ? ? ? ? ? ? [[]|]]. Qed.

Lemma fmap_fmap_same {A B} (g : A -> B) (f : A -> A) (o : option A) :
  (forall x, g (f x) = g x) -> g <$> (f <$> o) = g <$> o.
Proof. intros Hf. destruct o; cbn; [by rewrite Hf|done]. Qed.

Lemma spec_core_share_template p pod s :
  spec_core (at_component p (on_template (share_template pod)) s) = spec_core s.
Proof.
  destruct p; unfold spec_core, at_component, set_components; cbn; f_equal;
    (apply fmap_fmap_same || apply fmap_alter_same); intros [];
    unfold on_meta, on_datanode, on_flownode, no_maps_frontend, on_frontend, on_service; cbn;
    by rewrite no_maps_share.
Qed.

Lemma spec_core_share_service p m s :
  spec_core (at_service p (share_service m) s) = spec_core s.
Proof.
  destruct p; try done; unfold spec_core, at_service, set_components; cbn; f_equal;
    (apply fmap_fmap_same || apply fmap_alter_same); apply no_maps_service_share.
Qed.

#[export] Instance same_cluster_preorder : PreOrder same_cluster.
Proof.
  split; [by intros c|]. intros a b c (?&?&?) (?&?&?). unfold same_cluster. split_and!; congruence.
Qed.

#[export] Instance keeps_preorder :
  PreOrder (fun s s' => same_cluster (c_cluster s) (c_cluster s')).
Proof.
  split; [intros s; reflexivity|]. intros a b c Hab Hbc.
  exact (transitivity (R := same_cluster) Hab Hbc).
Qed.

Lemma keeps_update_status f :
  (forall st, gst_ClusterPhase (f st) = gst_ClusterPhase st) -> keeps_cluster (update_status f).
Proof.
  intros H. apply preserves_modify. intros s. unfold same_cluster; cbn. by rewrite H.
Qed.

Lemma keeps_get_cluster : keeps_cluster get_cluster.
Proof. unfold keeps_cluster, get_cluster. solve_preserves. Qed.

Lemma exec_get_cluster {W} (env : environment W) s w :
  exec env get_cluster s w = Outcome (Ok (c_cluster s)) s w [].
Proof. reflexivity. Qed.

Lemma exec_update_status W (env : environment W) f s w :
  exec env (update_status f) s w =
    Outcome (Ok tt) (mkCState (set_Status (f (gc_Status (c_cluster s))) (c_cluster s))
                       (c_maintenance s)) w [].
Proof. done. Qed.

Section retry.
Context `{RetryLaws}.

Lemma UpdateStatus_preserves {S} (R : S -> S -> Prop) `{!PreOrder R} c :
  preserves R (UpdateStatus c).
Proof.
  apply RetryOnConflict_preserves; [done|]. solve_preserves.
Qed.

(** On a healthy server a status update returns, if only with an error. *)
Lemma UpdateStatus_returns {S W} (env : environment W) `{!ApiServer env} c (s : S) w :
  out_res (exec env (log_err (UpdateStatus c)) s w) = Ok tt.
Proof.
  unfold log_err. rewrite exec_bind, exec_try.
  assert (Hp : out_res (exec env (UpdateStatus c) s w) <> Panic).
  { revert s w. apply RetryOnConflict_returns. intros s w. rewrite exec_bind.
    destruct (exec_Get_stored env KCluster (cluster_key c) s w) as [l Hget].
    change (@exec S W GreptimeDBCluster) with (@exec S W (obj KCluster)). rewrite Hget.
    cbn [out_res out_st out_world]. destruct (stored w KCluster (cluster_key c)); [|done].
    rewrite exec_StatusUpdate. cbn. apply server_status_answers. }
  destruct (exec env (UpdateStatus c) s w) as [[[]|e|] s1 w1 l1]; done.
Qed.

Lemma SetMaintenanceMode_preserves {S} (R : S -> S -> Prop) `{!PreOrder R} url b :
  preserves R (SetMaintenanceMode url b).
Proof. apply retry_Do_preserves; [done|]. unfold maintenance_post. solve_preserves. Qed.
Lemma SetMaintenanceMode_state {S} W (env : environment W) url b (s : S) w :
  out_st (exec env (SetMaintenanceMode url b) s w) = s.
Proof. symmetry. apply (SetMaintenanceMode_preserves (S := S) eq). Qed.

(** Calling the metasrv and then assigning the flag: either nothing changed, or
    the metasrv accepted. *)
Lemma switch_outcome {S} W (env : environment W) c b (f : M S unit) g (s : S) w :
  (forall s w, exec env f s w = Outcome (Ok tt) (g s) w []) ->
  let o := exec env (url ← lift (GetMetaHTTPServiceURL c); _ ← SetMaintenanceMode url b; f) s w in
  (out_res o <> Ok tt /\ out_st o = s)
  \/ (out_res o = Ok tt /\ out_st o = g s /\ Exists (maintenance_accepted c b) (out_log o)).
Proof.
  intros Hf. cbv zeta. rewrite exec_bind, exec_lift. cbn [out_res out_st out_log out_world].
  destruct (GetMetaHTTPServiceURL c) as [url|e|] eqn:Hurl; [|by left..].
  rewrite exec_bind. pose proof (SetMaintenanceMode_state W env url b s w) as Hs.
  pose proof (SetMaintenanceMode_Ok W env url b s w) as Hlog.
  destruct (exec env (SetMaintenanceMode url b) s w) as [[[]|e|] s' w' l]; cbn in *; subst s';
    [right|by left..].
  rewrite Hf. cbn. split_and!; [done..|]. rewrite app_nil_r. apply Exists_exists.
  eexists. split; [by apply Hlog|]. by exists url.
Qed.

End retry.

Lemma preserves_GetIfFound {S} (R : S -> S -> Prop) `{!PreOrder R} k key :
  preserves R (GetIfFound k key).
Proof. unfold GetIfFound. solve_preserves. Qed.

Lemma exec_GetIfFound {W} (env : environment W) `{!ApiServer env} {S} k key (s : S) w :
  exists l, exec env (GetIfFound k key) s w = Outcome (Ok (stored w k key)) s w l.
Proof.
  unfold GetIfFound. rewrite exec_bind, exec_try.
  destruct (exec_Get_stored env k key s w) as [l ->]. cbn.
  destruct (stored w k key); cbn; rewrite exec_ret; cbn; eexists; unfold prepend; cbn; done.
Qed.
