(* ===== verification/Generator.v ===== *)
(** * The generators: what the builders of the components share

    A component's [Generate] collects objects in a [DefaultBuilder], one [Build...]
    method after the other, and annotates them.  The memory of a builder is the
    deployer's memory and the [DefaultBuilder]; the cluster that the builder reads
    is the one it was created with: it writes to nothing but the maps that the spec
    shares with the objects (Cluster), each after its last read.

    controllers/greptimedbcluster/deployers/common.go: the [CommonBuilder]. *)

From stdpp Require Import base gmap sets strings list fin_maps.
From Stdlib Require Import ZArith Lia.
From S2P Require Import Prelude GoLib Hash K8s ApiCommon ApiTypes Client ApiServer K8sUtil.
From S2P Require Import Deployer Builder Common NodeId Validate Toml DbConfig Initializer Pods.
From S2P Require Import Mergo Defaulting Cluster.

(** ** Libraries that are not under src/ *)

(** The vector configuration: the embedded template file, and text/template's
    [Parse] and [Execute] on it. *)
Class VectorLib := {
  vectorConfigTemplate : res string;
  template_Execute : string -> strmap -> res string }.

(** ** The builder's memory *)

Section builder.
Context {S : Type}.

(** [b.Objects = append(b.Objects, o)] *)
Definition append_object (o : object) : M (S * DefaultBuilder) unit :=
  modify (fun s => (s.1, set_Objects (db_Objects s.2 ++ [o]) s.2)).

(** An error of the body becomes [b.Err]; the objects so far stay. *)
Definition catch (body : M (S * DefaultBuilder) unit) : M (S * DefaultBuilder) unit :=
  r ← try body;
  match r with
  | Err e => modify (fun s => (s.1, set_Err e s.2))
  | _ => mret tt
  end.

(** A [Build...] method: nothing is done after an error. *)
Definition build (body : M (S * DefaultBuilder) unit) : M (S * DefaultBuilder) unit :=
  s ← get;
  match db_Err s.2 with
  | Some _ => mret tt
  | None => catch body
  end.

(** The end of the chain: [SetControllerAndAnnotation().Generate()].  The annotations
    may be written to maps that the deployer's memory holds as well. *)
Definition finish_on `{JsonLib} `{ControllerLib} (shared : DefaultBuilder -> S -> S)
    : M (S * DefaultBuilder) (list object) :=
  s ← get;
  b ← lift (SetControllerAndAnnotation s.2);
  _ ← put (shared b s.1, b);
  lift (Generate b).

Definition finish `{JsonLib} `{ControllerLib} : M (S * DefaultBuilder) (list object) :=
  finish_on (fun _ s => s).

(** A builder of its own, on the deployer's memory. *)
Definition with_builder {A} (owner : object) (m : M (S * DefaultBuilder) A) : M S A :=
  zoom (fun s => (s, mkDefaultBuilder [] owner None)) (fun _ p => p.1) m.

(** [b.Err = err; return b]: the caller goes on with what it has. *)
Definition or_set_err {A B} (r : res A) (b : B) (k : A -> M (S * DefaultBuilder) B)
    : M (S * DefaultBuilder) B :=
  match r with
  | Ok a => k a
  | Err e => _ ← modify (fun s => (s.1, set_Err e s.2)); mret b
  | Panic => lift Panic
  end.

(** Writing to the deployer's memory. *)
Definition write (f : S -> S) : M (S * DefaultBuilder) unit := modify (fun s => (f s.1, s.2)).
End builder.

(** Writing to the spec of the cluster in memory. *)
Definition on_spec (f : GreptimeDBClusterSpec -> GreptimeDBClusterSpec) (s : CState) : CState :=
  let c := c_cluster s in
  mkCState (mkGreptimeDBCluster (gc_ObjectMeta c) (f (gc_Spec c)) (gc_Status c)) (c_maintenance s).
Definition write_spec (f : GreptimeDBClusterSpec -> GreptimeDBClusterSpec)
    : M (CState * DefaultBuilder) unit := write (on_spec f).

Definition share_pod_maps (p : slot) (pod : CorePodTemplateSpec) : M (CState * DefaultBuilder) unit :=
  write_spec (at_component p (on_template (share_template pod))).

Definition share_service_maps (p : slot) (m : ObjectMeta) : M (CState * DefaultBuilder) unit :=
  write_spec (at_service p (share_service m)).

(** ** CommonBuilder *)

Section common.
Variable c : GreptimeDBCluster.
Notation cluster := (Some c).

Definition cluster_name : string := om_Name (gc_ObjectMeta c).
Definition cluster_namespace : string := om_Namespace (gc_ObjectMeta c).

(** [common.ResourceName(b.Cluster.Name, kind, names...)] *)
Definition resource (kind : RoleKind) (names : list string) : string :=
  ResourceName cluster_name kind names.

Definition CommonBuilder_VectorConfigName : string := VectorConfigName cluster_name.

(** [b.Cluster.GetMonitoring().IsEnabled() && b.Cluster.GetMonitoring().GetVector() != nil] *)
Definition vector_enabled : bool :=
  MonitoringSpec_IsEnabled (GetMonitoring cluster)
  && not_nil (MonitoringSpec_GetVector (GetMonitoring cluster)).

Definition CommonBuilder_GenerateConfigMap `{TomlLib} {S} (roleSpec : RoleSpec) : M S ConfigMap :=
  configData ← FromCluster c roleSpec;
  lift (Common.GenerateConfigMap cluster_namespace
          (resource (GetRoleKind roleSpec) [RoleSpec_GetName roleSpec]) configData).

Definition CommonBuilder_GeneratePodMonitor (resourceName : string) : res PodMonitor :=
  Common.GeneratePodMonitor cluster_namespace resourceName (GetPrometheusMonitor cluster).

Definition AddVectorConfigVolume (t : CorePodTemplateSpec) : CorePodTemplateSpec :=
  add_volume (mkVolume DefaultVectorConfigName (ConfigMapSource CommonBuilder_VectorConfigName)) t.

Definition field_env (name path : string) : EnvVar := mkEnvVar name "" (Some (FieldRef path)).

Definition env (kind : RoleKind) : list EnvVar :=
  [field_env EnvPodIP "status.podIP"; field_env EnvPodName "metadata.name";
   field_env EnvPodNamespace "metadata.namespace"; mkEnvVar EnvRole kind None]
  ++ (if MonitoringSpec_IsEnabled (GetMonitoring cluster)
      then [mkEnvVar "OTEL_EXPORTER_OTLP_TRACES_HEADERS"
              "x-greptime-pipeline-name=greptime_trace_v1" None]
      else [])
  ++ (if cl_EnableIPv6 (gc_Spec c) then [mkEnvVar EnvEnableIPv6 "true" None] else []).

(** [Spec.Monitoring.Vector] is dereferenced. *)
Definition AddVectorSidecar (kind : RoleKind) (t : CorePodTemplateSpec) : res CorePodTemplateSpec :=
  let volumeMounts :=
    [mkVolumeMount DefaultLogsVolumeName "/logs" false;
     mkVolumeMount DefaultVectorConfigName "/etc/vector" false]
    ++ (if has_volume DefaultAuditLogsVolumeName t
        then [mkVolumeMount DefaultAuditLogsVolumeName "/audit-logs" false] else []) in
  monitoring ← deref (cl_Monitoring (gc_Spec c));
  vector ← deref (mo_Vector monitoring);
  Ok (add_container (plain_container "vector" (ve_Image vector) []
        ["--config"; "/etc/vector/vector.yaml"] (env kind) (ve_Resources vector) volumeMounts) t).

Definition LogsTableName : string := "_gt_logs".
Definition AuditLogsTableName : string := "_gt_audit_logs".

(** The variables of the template. *)
Definition vector_vars (ttl : string) : strmap :=
  let standaloneName := ResourceName (cluster_name +:+ "-monitor") StandaloneRoleKind [] in
  let svc := standaloneName +:+ "." +:+ cluster_namespace +:+ ".svc.cluster.local" in
  let service := "http://" +:+ svc +:+ ":" +:+ fmt_d DefaultHTTPPort in
  {[ "ClusterName" := cluster_name;
     "LogsTableName" := LogsTableName;
     "LogsPipelineName" := LogsPipelineName cluster_namespace cluster_name;
     "LoggingService" := service;
     "AuditLogsTableName" := AuditLogsTableName;
     "AuditLogsPipelineName" := AuditLogsPipelineName cluster_namespace cluster_name;
     "MetricService" := service +:+ "/v1/prometheus/write?db=public";
     "TTL" := ttl;
     "PodIP" := "${POD_IP}";
     "EnableAuditLogs" := (if IsAuditLogEnabled c then "true" else "false");
     "MetricsEndpoint" := (if cl_EnableIPv6 (gc_Spec c) then "http://[${POD_IP}]:"
                           else "http://${POD_IP}:") +:+ fmt_d DefaultHTTPPort +:+ "/metrics" ]}.

Definition GenerateVectorConfigMap `{VectorLib} : res ConfigMap :=
  monitoring ← deref (GetMonitoring cluster);
  vectorConfigTemplate ← vectorConfigTemplate;
  data ← template_Execute vectorConfigTemplate (vector_vars (mo_TTL monitoring));
  Ok (mkConfigMap (meta_of cluster_namespace CommonBuilder_VectorConfigName None ∅)
        {[ "vector.yaml" := data ]}).

(** A service, and the metadata of an object with the component label. *)
Definition component_label (name : string) : strmap := {[ GreptimeDBComponentName := name ]}.
Definition labelled_meta (name : string) : ObjectMeta :=
  meta_of cluster_namespace name (Some (component_label name)) ∅.

(** The objects that several builders generate. *)
Definition append_configmap `{TomlLib} (roleSpec : RoleSpec) : M (CState * DefaultBuilder) unit :=
  cm ← CommonBuilder_GenerateConfigMap roleSpec;
  append_object (Object KConfigMap cm).

Definition append_vector_configmap `{VectorLib} : M (CState * DefaultBuilder) unit :=
  cm ← lift GenerateVectorConfigMap;
  append_object (Object KConfigMap cm).

Definition append_podmonitor (resourceName : string) : M (CState * DefaultBuilder) unit :=
  pm ← lift (CommonBuilder_GeneratePodMonitor resourceName);
  append_object (Object KPodMonitor pm).

Definition service_port (name : string) (port : Z) : ServicePort :=
  mkServicePort name ProtocolTCP port (mkIntOrString TInt 0 "").
Definition container_port (name : string) (port : Z) : ContainerPort :=
  mkContainerPort name ProtocolTCP port.
End common.

(** The vector side car with its volumes. *)
Definition add_vector (c : GreptimeDBCluster) (kind : RoleKind) (t : CorePodTemplateSpec)
    : res CorePodTemplateSpec :=
  AddVectorSidecar c kind (AddAuditLogsVolumeForVector (AddVectorConfigVolume c t)).

(** Metasrv and flownodes append vector's config map while they generate their
    template; an error leaves the template as it was. *)
Definition with_vector `{VectorLib} (c : GreptimeDBCluster) (kind : RoleKind) (t : CorePodTemplateSpec)
    (rest : CorePodTemplateSpec -> res CorePodTemplateSpec)
    : M (CState * DefaultBuilder) CorePodTemplateSpec :=
  if vector_enabled c then
    or_set_err (GenerateVectorConfigMap c) t (fun cm =>
      _ ← append_object (Object KConfigMap cm);
      t ← lift (add_vector c kind t);
      lift (rest t))
  else lift (rest t).

(** A workload from its template: the config's hash is added. *)
Definition append_hashed `{TomlLib} (c : GreptimeDBCluster) (p : slot) (role : RoleSpec)
    (workload : CorePodTemplateSpec -> object) (template : CorePodTemplateSpec)
    : M (CState * DefaultBuilder) unit :=
  _ ← share_pod_maps p template;
  configData ← FromCluster c role;
  let template := annotate_hash configData template in
  _ ← share_pod_maps p template;
  append_object (workload template).

(** The server address of a pod, as the container's shell expands it. *)
Definition pod_ip_var : string := "$(" +:+ EnvPodIP +:+ ")".

(** ** What a builder builds *)

Section builds.
Context {S : Type}.

(** [m] appends objects as listed, or ends with an error, or with [b.Err] set. *)
Definition builds {A} (specs : list (object -> Prop)) (m : M (S * DefaultBuilder) A) : Prop :=
  forall W (env : environment W) s w a,
    let o := exec env m s w in
    out_res o = Ok a -> db_Err (out_st o).2 = None ->
    db_Err s.2 = None /\ db_Owner (out_st o).2 = db_Owner s.2
    /\ exists objs, db_Objects (out_st o).2 = db_Objects s.2 ++ objs
         /\ Forall2 (fun P x => P x) specs objs.

Lemma builds_bind {A B} l1 l2 (m : M (S * DefaultBuilder) A) (f : A -> M (S * DefaultBuilder) B) :
  builds l1 m -> (forall a, builds l2 (f a)) -> builds (l1 ++ l2) (m ≫= f).
Proof.
  intros Hm Hf W env s w b. rewrite exec_bind. specialize (Hm W env s w). cbv zeta in *.
  destruct (exec env m s w) as [[a|e|] s1 w1 log1]; cbn [out_res out_st out_world out_log] in *;
    [|done..].
  unfold prepend; cbn. intros Hr He. destruct (Hf a W env s1 w1 b Hr He) as (He1 & Ho & os & Hos & HP).
  destruct (Hm a eq_refl He1) as (He0 & Ho0 & os0 & Hos0 & HP0).
  split_and!; [done|congruence|]. exists (os0 ++ os). split.
  - rewrite Hos, Hos0. by rewrite app_assoc.
  - by apply Forall2_app.
Qed.

(** What builds nothing but may use a result, and its continuation. *)
Lemma builds_then {A B} (P : A -> Prop) l (m : M (S * DefaultBuilder) A)
    (f : A -> M (S * DefaultBuilder) B) :
  builds [] m -> returns P m -> (forall a, P a -> builds l (f a)) -> builds l (m ≫= f).
Proof.
  intros Hm Hp Hf W env s w b. rewrite exec_bind. specialize (Hm W env s w). specialize (Hp W env s w).
  cbv zeta in *.
  destruct (exec env m s w) as [[a|e|] s1 w1 log1]; cbn [out_res out_st out_world out_log] in *;
    [|done..].
  unfold prepend; cbn. intros Hr He.
  destruct (Hf a (Hp a eq_refl) W env s1 w1 b Hr He) as (He1 & Ho & os & Hos & HP).
  destruct (Hm a eq_refl He1) as (He0 & Ho0 & os0 & Hos0 & HP0). inversion HP0; subst os0.
  rewrite app_nil_r in Hos0. split_and!; [done|congruence|]. exists os. by rewrite <- Hos0.
Qed.

Lemma builds_last {A B} l (m : M (S * DefaultBuilder) A) (f : A -> M (S * DefaultBuilder) B) :
  builds l m -> (forall a, builds [] (f a)) -> builds l (m ≫= f).
Proof. intros Hm Hf. rewrite <- (app_nil_r l). by apply builds_bind. Qed.

(** Code that leaves the builder alone. *)
Lemma builds_quiet {A} (m : M (S * DefaultBuilder) A) :
  preserves (fun s s' => s'.2 = s.2) m -> builds [] m.
Proof.
  intros Hm W env s w a. specialize (Hm W env s w). cbv zeta. cbn in Hm. intros _ He.
  rewrite Hm in *. split_and!; [done..|]. exists []. by rewrite app_nil_r.
Qed.

Lemma builds_ret {A} (a : A) : builds [] (mret a).
Proof. apply builds_quiet. by intros W env s w. Qed.

Lemma builds_lift {A} (r : res A) : builds [] (lift r).
Proof. apply builds_quiet. by intros W env s w. Qed.

(** A result that is at hand. *)
Lemma builds_lift_bind {A B} l (r : res A) (f : A -> M (S * DefaultBuilder) B) :
  (forall a, r = Ok a -> builds l (f a)) -> builds l (lift r ≫= f).
Proof.
  intros Hf W env s w b. rewrite exec_bind, exec_lift. cbn [out_res out_st out_world out_log].
  destruct r as [a|e|]; [|done..]. unfold prepend. cbn. apply (Hf a eq_refl W env s w b).
Qed.

Lemma builds_write f : builds [] (write f).
Proof. apply builds_quiet. by intros W env s w. Qed.

Lemma builds_append o : builds [eq o] (append_object o).
Proof.
  intros W env s w a. cbv zeta. unfold append_object. rewrite exec_modify. cbn.
  intros _ He. split_and!; [done..|]. exists [o]. split; [done|by repeat constructor].
Qed.

Lemma builds_weaken {A} l l' (m : M (S * DefaultBuilder) A) :
  builds l m -> Forall2 (fun P Q : object -> Prop => forall o, P o -> Q o) l l' -> builds l' m.
Proof.
  intros Hm Hl W env s w a. specialize (Hm W env s w a). cbv zeta in *. intros Hr He.
  destruct (Hm Hr He) as (? & ? & os & ? & Hos). split_and!; [done..|].
  exists os. split; [done|]. clear -Hl Hos. revert os Hos.
  induction Hl as [|P Q l l' HPQ _ IH]; intros os Hos; inversion Hos; subst; constructor; auto.
Qed.

(** One object that a predicate describes. *)
Lemma builds_such (P : object -> Prop) o : P o -> builds [P] (append_object o).
Proof.
  intros Ho. eapply builds_weaken; [apply builds_append|]. repeat constructor. by intros ? <-.
Qed.

Lemma builds_catch l (m : M (S * DefaultBuilder) unit) : builds l m -> builds l (catch m).
Proof.
  intros Hm W env s w a. unfold catch. rewrite exec_bind, exec_try. specialize (Hm W env s w).
  cbv zeta in *. destruct (exec env m s w) as [[x|e|] s1 w1 log1];
    cbn [out_res out_st out_world out_log] in *; [| |done].
  - rewrite exec_ret. unfold prepend; cbn. intros _ He. by apply (Hm x eq_refl).
  - rewrite exec_modify. unfold prepend; cbn. done.
Qed.

Lemma builds_build l (m : M (S * DefaultBuilder) unit) : builds l m -> builds l (build m).
Proof.
  intros Hm W env s w a. unfold build. rewrite exec_bind, exec_get.
  cbn [out_res out_st out_world out_log]. destruct (db_Err s.2) eqn:Hs.
  - rewrite exec_ret. unfold prepend; cbn. congruence.
  - unfold prepend; cbn. intros Hr He. rewrite <- Hs at 1. exact (builds_catch l m Hm W env s w a Hr He).
Qed.

Lemma builds_when (b : bool) l (m : M (S * DefaultBuilder) unit) :
  builds l m -> builds (if b then l else []) (when b m).
Proof. destruct b; [done|]. intros _. apply builds_ret. Qed.

(** With an error noted nothing has to be built. *)
Lemma builds_or_set_err {A B} l (r : res A) (b : B) (k : A -> M (S * DefaultBuilder) B) :
  (forall a, r = Ok a -> builds l (k a)) -> builds l (or_set_err r b k).
Proof.
  unfold or_set_err. destruct r as [a|e|]; intros Hk W env s w b'; [by apply (Hk a)| |done].
  rewrite exec_bind, exec_modify. cbn [out_res out_st out_world out_log]. rewrite exec_ret.
  unfold prepend; cbn. done.
Qed.

(** A result that is as specified unless an error was noted. *)
Definition results {A} (P : A -> Prop) (m : M (S * DefaultBuilder) A) : Prop :=
  forall W (env : environment W) s w a,
    let o := exec env m s w in out_res o = Ok a -> db_Err (out_st o).2 = None -> P a.

Lemma results_or_set_err {A B} P (r : res A) (b : B) (k : A -> M (S * DefaultBuilder) B) :
  (forall a, r = Ok a -> results P (k a)) -> results P (or_set_err r b k).
Proof.
  unfold or_set_err. destruct r as [a|e|]; intros Hk W env s w b'; [by apply (Hk a)| |done].
  rewrite exec_bind, exec_modify. cbn [out_res out_st out_world out_log]. rewrite exec_ret.
  unfold prepend; cbn. done.
Qed.

Lemma results_bind {A B} (P : B -> Prop) (m : M (S * DefaultBuilder) A) (f : A -> M (S * DefaultBuilder) B) :
  (forall a, results P (f a)) -> results P (m ≫= f).
Proof.
  intros Hf W env s w b. cbv zeta. rewrite exec_bind.
  destruct (exec env m s w) as [[a|e|] s1 w1 log1]; cbn [out_res out_st out_world out_log]; [|done..].
  unfold prepend; cbn. intros Hr He. exact (Hf a W env s1 w1 b Hr He).
Qed.

Lemma results_returns {A} (P : A -> Prop) (m : M (S * DefaultBuilder) A) :
  returns P m -> results P m.
Proof. intros Hp W env s w a o Hr _. by eapply Hp. Qed.

(** The result of the first step is used by the second, which never forgets an
    error. *)
Lemma builds_pass {A B} (P : A -> Prop) l1 l2 (m : M (S * DefaultBuilder) A)
    (f : A -> M (S * DefaultBuilder) B) :
  builds l1 m -> results P m -> (forall a, exists l, builds l (f a)) ->
  (forall a, P a -> builds l2 (f a)) -> builds (l1 ++ l2) (m ≫= f).
Proof.
  intros Hm Hp Hany Hf W env s w b. rewrite exec_bind. specialize (Hm W env s w). specialize (Hp W env s w).
  cbv zeta in *.
  destruct (exec env m s w) as [[a|e|] s1 w1 log1]; cbn [out_res out_st out_world out_log] in *;
    [|done..].
  unfold prepend; cbn. intros Hr He.
  assert (He1 : db_Err s1.2 = None) by (destruct (Hany a) as [l Hl]; by apply (Hl W env s1 w1 b)).
  destruct (Hf a (Hp a eq_refl He1) W env s1 w1 b Hr He) as (_ & Ho & os & Hos & HP).
  destruct (Hm a eq_refl He1) as (He0 & Ho0 & os0 & Hos0 & HP0).
  split_and!; [done|congruence|]. exists (os0 ++ os). split.
  - rewrite Hos, Hos0. by rewrite app_assoc.
  - by apply Forall2_app.
Qed.

Lemma builds_range {A} (spec : A -> list (object -> Prop)) f (l : list A) :
  (forall x, x ∈ l -> builds (spec x) (f x)) -> builds (concat (map spec l)) (range f l).
Proof.
  induction l as [|x l IH]; intros H; cbn; [apply builds_ret|].
  apply builds_bind; [apply H; set_solver|]. intros _. apply IH. set_solver.
Qed.

Lemma builds_map {A} (spec : A -> object -> Prop) (f : A -> M (S * DefaultBuilder) unit) l :
  (forall x, x ∈ l -> builds [spec x] (f x)) -> builds (map spec l) (range f l).
Proof.
  intros Hf. replace (map spec l) with (concat (map (fun x => [spec x]) l)).
  - by apply builds_range.
  - clear. induction l as [|x l IH]; cbn; congruence.
Qed.

(** The chain of a component, from an empty builder: the objects are those listed,
    prepared with their owner and annotation. *)
Lemma with_builder_finish `{JsonLib} `{ControllerLib} l (m : M (S * DefaultBuilder) unit) owner shared
    W (env : environment W) s w objs :
  builds l m ->
  (forall o P, P ∈ l -> P o -> supported (o_kind o) = true) ->
  out_res (exec env (with_builder owner (_ ← m; finish_on shared)) s w) = Ok objs ->
  exists raw, Forall2 (fun P x => P x) l raw /\ Forall2 (fun o o' => prepared owner o = Ok o') raw objs.
Proof.
  intros Hm Hk. unfold with_builder. rewrite exec_zoom, exec_bind.
  specialize (Hm W env (s, mkDefaultBuilder [] owner None) w).
  cbv zeta in *. cbn [out_res].
  destruct (exec env m _ w) as [[[]|e|] s1 w1 log1]; cbn [out_res out_st out_world out_log] in *;
    [|done..].
  unfold finish_on, prepend. rewrite exec_bind, exec_get. cbn [out_res out_st out_world out_log].
  rewrite exec_bind, exec_lift. cbn [out_res out_st out_world out_log].
  destruct (SetControllerAndAnnotation s1.2) as [b|e|] eqn:Hb; cbn [out_res prepend]; [|done..].
  rewrite exec_bind, exec_put. cbn [out_res out_st out_world out_log prepend].
  rewrite exec_lift. cbn [out_res prepend]. intros Hg.
  assert (Hs : SetControllerAndAnnotation s1.2 ≫= Generate = Ok objs) by by rewrite Hb.
  destruct (db_Err s1.2) eqn:He.
  { exfalso. unfold SetControllerAndAnnotation in Hb.
    eapply annotate_loop_error in Hb; [|left; congruence].
    unfold Generate in Hg. by destruct (db_Err b). }
  destruct (Hm tt eq_refl eq_refl) as (_ & Ho & raw & Hraw & HP). cbn in Ho, Hraw.
  rewrite builder_generates in Hs; [|done|].
  - rewrite Ho, Hraw in Hs. apply map_res_Ok in Hs. eauto.
  - rewrite Hraw. apply Forall_forall. intros o Hin.
    apply list_elem_of_lookup in Hin as [i Hi].
    destruct (Forall2_lookup_r _ _ _ _ _ HP Hi) as (P & HPi & HPo).
    eapply Hk; [by eapply list_elem_of_lookup_2|done].
Qed.
End builds.

(** ** What the shared steps build *)

(** A text that [FromCluster] can return for a role. *)
Definition config_of `{TomlLib} (c : GreptimeDBCluster) (role : RoleSpec) (text : string) : Prop :=
  exists (S W : Type) (env : environment W) (s : S) (w : W),
    out_res (exec env (FromCluster c role) s w) = Ok text.

Definition configmap_for `{TomlLib} (c : GreptimeDBCluster) (role : RoleSpec) (o : object) : Prop :=
  exists text, config_of c role text
    /\ o = Object KConfigMap (mkConfigMap
             (meta_of (cluster_namespace c) (resource c (GetRoleKind role) [RoleSpec_GetName role]) None ∅)
             {[ GreptimeDBConfigFileName := text ]}).

Definition vector_configmap `{VectorLib} (c : GreptimeDBCluster) (o : object) : Prop :=
  exists cm, GenerateVectorConfigMap c = Ok cm /\ o = Object KConfigMap cm.

Definition podmonitor_for (c : GreptimeDBCluster) (name : string) (o : object) : Prop :=
  exists pm, CommonBuilder_GeneratePodMonitor c name = Ok pm /\ o = Object KPodMonitor pm.

Lemma builds_FromCluster `{TomlLib} {S A} c role l (f : string -> M (S * DefaultBuilder) A) :
  (forall text, config_of c role text -> builds l (f text)) -> builds l (FromCluster c role ≫= f).
Proof.
  apply builds_then.
  - apply builds_quiet, FromCluster_preserves. split; [by intros s|intros s1 s2 s3; congruence].
  - intros W env s w text Ht. by eexists _, W, env, s, w.
Qed.

Lemma builds_configmap `{TomlLib} c role : builds [configmap_for c role] (append_configmap c role).
Proof.
  unfold append_configmap, CommonBuilder_GenerateConfigMap.
  eapply (builds_then (fun cm => configmap_for c role (Object KConfigMap cm))).
  - apply builds_FromCluster. intros text _. apply builds_lift.
  - apply (returns_bind (config_of c role)).
    + intros W env s w text Ht. by eexists _, W, env, s, w.
    + intros text Ht. apply returns_lift. intros cm [= <-]. exists text. by split.
  - intros cm Hcm. by apply builds_such.
Qed.

Lemma builds_vector_configmap `{VectorLib} c : builds [vector_configmap c] (append_vector_configmap c).
Proof.
  apply builds_lift_bind. intros cm Hcm. apply builds_such. by exists cm.
Qed.

Lemma builds_podmonitor c name : builds [podmonitor_for c name] (append_podmonitor c name).
Proof.
  apply builds_lift_bind. intros pm Hpm. apply builds_such. by exists pm.
Qed.

(** The template that [with_vector] returns without an error. *)
Definition vector_pod (c : GreptimeDBCluster) (kind : RoleKind) (t : CorePodTemplateSpec)
    : res CorePodTemplateSpec :=
  if vector_enabled c then add_vector c kind t else Ok t.

Lemma builds_with_vector `{VectorLib} c kind t rest :
  builds (if vector_enabled c then [vector_configmap c] else []) (with_vector c kind t rest).
Proof.
  unfold with_vector. destruct (vector_enabled c); [|apply builds_lift].
  apply builds_or_set_err. intros cm Hcm. apply builds_last.
  - apply builds_such. by exists cm.
  - intros _. apply (builds_bind [] []); [apply builds_lift|]. intros t'. apply builds_lift.
Qed.

Lemma results_with_vector `{VectorLib} c kind t rest :
  results (fun t' => vector_pod c kind t ≫= rest = Ok t') (with_vector c kind t rest).
Proof.
  unfold with_vector, vector_pod. destruct (vector_enabled c).
  - apply results_or_set_err. intros cm _. apply results_bind. intros _. apply results_returns.
    apply (returns_bind (fun t1 => add_vector c kind t = Ok t1)); [by apply returns_lift|].
    intros t1 ->. by apply returns_lift.
  - apply results_returns. by apply returns_lift.
Qed.

(** A workload made of a template, with the hash of a config of its role. *)
Definition hashed `{TomlLib} (c : GreptimeDBCluster) (role : RoleSpec)
    (workload : CorePodTemplateSpec -> object) (template : res CorePodTemplateSpec) (o : object) : Prop :=
  exists t text, template = Ok t /\ config_of c role text /\ o = workload (annotate_hash text t).

Lemma builds_hashed `{TomlLib} c p role workload t :
  builds [hashed c role workload (Ok t)] (append_hashed c p role workload t).
Proof.
  unfold append_hashed. apply builds_then with (P := fun _ => True); [apply builds_write|by intros ?|].
  intros _ _. apply builds_FromCluster. intros text Htext.
  apply builds_then with (P := fun _ => True); [apply builds_write|by intros ?|].
  intros _ _. apply builds_such. by exists t, text.
Qed.

(** ** The side car keeps a template closed where the logs volume is declared *)

Lemma extends_sidecar claims c kind t t' :
  AddVectorSidecar c kind t = Ok t' ->
  DefaultLogsVolumeName ∈ pod_volumes t ++ claims ->
  DefaultVectorConfigName ∈ pod_volumes t ++ claims -> extends claims t t'.
Proof.
  unfold AddVectorSidecar. intros Ha Hl Hv. res_inv. subst t'. apply extends_add_container.
  unfold mounts_in. cbn [plain_container ct_VolumeMounts].
  destruct (has_volume DefaultAuditLogsVolumeName t) eqn:Hau; cbn [app];
    repeat (apply Forall_cons_2; [cbn [vm_Name]|]); try apply Forall_nil_2; try done.
  apply has_volume_true in Hau. set_solver.
Qed.

Lemma AddVectorSidecar_labels c kind t t' :
  AddVectorSidecar c kind (AddVectorConfigVolume c t) = Ok t' -> pt_Labels t' = pt_Labels t.
Proof. unfold AddVectorSidecar. intros Ha. res_inv. by subst t'. Qed.
#[export] Hint Resolve AddVectorSidecar_labels : labels.

(** With the volumes that vector needs. *)
Lemma extends_vector claims c kind t t' :
  add_vector c kind t = Ok t' ->
  DefaultLogsVolumeName ∈ pod_volumes t ++ claims -> extends claims t t'.
Proof.
  intros Ha Hl. set (t1 := AddVectorConfigVolume c t) in *.
  assert (H1 : extends claims t t1) by apply extends_add_volume.
  assert (H2 : extends claims t1 (AddAuditLogsVolumeForVector t1)) by apply extends_audit_volume.
  transitivity t1; [done|]. etransitivity; [exact H2|].
  destruct H1 as [H1 _], H2 as [H2 _].
  assert (Hv : DefaultVectorConfigName ∈ pod_volumes t1)
    by (unfold t1, AddVectorConfigVolume; rewrite pod_volumes_add; set_solver).
  eapply extends_sidecar; [exact Ha|set_solver..].
Qed.

Lemma extends_vector_pod claims c kind t t' :
  vector_pod c kind t = Ok t' ->
  (vector_enabled c = true -> DefaultLogsVolumeName ∈ pod_volumes t) -> extends claims t t'.
Proof.
  unfold vector_pod. destruct (vector_enabled c); [|by intros [= ->] _]. intros Ht Hl.
  eapply extends_vector; [exact Ht|]. apply elem_of_app. left. by apply Hl.
Qed.

(** ** Generated objects: names, selectors and pods *)

Definition claim_names (claims : list PersistentVolumeClaim) : list string :=
  map (fun p => om_Name (pvc_ObjectMeta p)) claims.

(** The pod template of a workload, with the claims that come with each pod. *)
Definition workload_of (o : object) : option (CorePodTemplateSpec * list PersistentVolumeClaim) :=
  match o with
  | Object k v =>
      match k return obj k -> _ with
      | KStatefulSet => fun s => Some (ss_Template (sts_Spec s), ss_VolumeClaimTemplates (sts_Spec s))
      | KDeployment => fun d => Some (ds_Template (dep_Spec d), [])
      | _ => fun _ => None
      end v
  end.

(** The labels by which a service, a workload or a pod monitor finds its pods. *)
Definition selector_of (o : object) : option strmap :=
  match o with
  | Object k v =>
      match k return obj k -> _ with
      | KService => fun s => Some (se_Selector (svc_Spec s))
      | KStatefulSet => fun s => Some (ss_MatchLabels (sts_Spec s))
      | KDeployment => fun d => Some (ds_MatchLabels (dep_Spec d))
      | KPodMonitor => fun p => Some (pm_MatchLabels (pmon_Spec p))
      | _ => fun _ => None
      end v
  end.

Definition object_name (o : object) : string := om_Name (meta_of_object o).

(** The host name of the pod of a workload with an ordinal: its own name (that of a
    StatefulSet's pod, which is also a label value, fits a host name), or its node's name
    when the pod uses the node's network. *)
Definition pod_hostname (node : string) (o : object) (t : CorePodTemplateSpec) (ordinal : Z) : string :=
  if ps_HostNetwork (pt_Spec t) then node else pod_name (object_name o) ordinal.

(** The node id that the last init container of a workload, the initializer, gives to
    the pod with an ordinal that runs on a node. *)
Definition pod_node_id `{FlagLib} (node : string) (o : object) (ordinal : Z) : res Z :=
  match workload_of o with
  | Some (t, _) =>
      initializer ← deref (last (ps_InitContainers (pt_Spec t)));
      opts ← main_options (ct_Args initializer);
      allocateNodeID opts (Ok (pod_hostname node o t ordinal))
  | None => Err (Errorf "not a workload")
  end.

(** The pods of a workload have a network, and so a host name, of their own. *)
Definition own_hostnames (o : object) : bool :=
  match workload_of o with
  | Some (t, _) => negb (ps_HostNetwork (pt_Spec t))
  | None => true
  end.

(** The pods of a workload are closed: the API server can create them. *)
Definition workload_closed (o : object) : Prop :=
  forall t claims, workload_of o = Some (t, claims) -> closed (claim_names claims) t.

#[export] Instance workload_closed_dec o : Decision (workload_closed o).
Proof.
  unfold workload_closed. destruct (workload_of o) as [[t claims]|]; [|by left].
  destruct (decide (closed (claim_names claims) t)) as [H|H]; [left|right; eauto].
  by intros t' claims' [= <- <-].
Defined.

(** An object finds pods by its own name, and a workload's pods carry it. *)
Definition addressed (o : object) : Prop :=
  (forall sel, selector_of o = Some sel -> sel = component_label (object_name o))
  /\ (forall t claims, workload_of o = Some (t, claims) ->
        pt_Labels t !! GreptimeDBComponentName = Some (object_name o)).

(** A selector matches the pods of a workload. *)
Definition selects (o w : object) : Prop :=
  exists sel t claims, selector_of o = Some sel /\ workload_of w = Some (t, claims)
    /\ sel ⊆ pt_Labels t.

(** Every selector among the objects matches the pods of exactly one workload among
    them: the one of the object's own name. *)
Definition well_addressed (objs : list object) : Prop :=
  forall o, o ∈ objs -> selector_of o <> None ->
    exists w, w ∈ objs /\ selects o w /\ object_name w = object_name o
      /\ forall w', w' ∈ objs -> selects o w' -> w' = w.

(** Preparing an object changes its metadata only. *)
Lemma prepared_keeps `{JsonLib} `{ControllerLib} owner o o' :
  prepared owner o = Ok o' ->
  o_kind o' = o_kind o /\ workload_of o' = workload_of o /\ selector_of o' = selector_of o.
Proof.
  unfold prepared. intros Hp. res_inv. subst o'. by destruct o as [[] v].
Qed.

(** What holds of the pods of the workloads holds of the prepared ones. *)
Definition every_pod (P : list PersistentVolumeClaim -> CorePodTemplateSpec -> Prop) (o : object) : Prop :=
  forall t claims, workload_of o = Some (t, claims) -> P claims t.

Lemma prepared_pods `{JsonLib} `{ControllerLib} P owner raw objs :
  Forall2 (fun o o' => prepared owner o = Ok o') raw objs -> Forall (every_pod P) raw ->
  Forall (every_pod P) objs.
Proof.
  intros Hp Hraw. induction Hp as [|o o' raw objs Ho _ IH]; [constructor|].
  apply Forall_cons in Hraw as [Ho1 Hraw]. constructor; [|by apply IH].
  unfold every_pod. by destruct (prepared_keeps _ _ _ Ho) as (_ & -> & _).
Qed.

Lemma prepared_closed `{JsonLib} `{ControllerLib} owner raw objs :
  Forall2 (fun o o' => prepared owner o = Ok o') raw objs -> Forall workload_closed raw ->
  Forall workload_closed objs.
Proof. exact (prepared_pods (fun claims => closed (claim_names claims)) owner raw objs). Qed.

Lemma prepared_name `{JsonLib} `{ControllerLib} `{!ControllerLaws} owner o o' :
  supported (o_kind o) = true -> prepared owner o = Ok o' ->
  object_key o' = object_key o /\ object_name o' = object_name o.
Proof.
  intros Hk Hp. unfold prepared in Hp. res_inv. subst o'.
  pose proof (SetControllerReference_keeps owner o x ltac:(done)) as Hkeep.
  unfold object_key, object_name, key_of. destruct (meta_with_object_meta (fun _ => SetAnnotations
    (<[LastAppliedResourceSpec := x0]> (om_Annotations x)) x) o Hk) as [-> _].
  rewrite Hkeep. by destruct (meta_of_object o).
Qed.

(** Preparing an object keeps its labels. *)
Lemma prepared_labels `{JsonLib} `{ControllerLib} `{!ControllerLaws} owner o o' :
  supported (o_kind o) = true -> prepared owner o = Ok o' ->
  om_Labels (meta_of_object o') = om_Labels (meta_of_object o).
Proof.
  intros Hk Hp. unfold prepared in Hp. res_inv. subst o'.
  pose proof (SetControllerReference_keeps owner o x ltac:(done)) as Hkeep.
  destruct (meta_with_object_meta (fun _ => SetAnnotations
    (<[LastAppliedResourceSpec := x0]> (om_Annotations x)) x) o Hk) as [-> _].
  rewrite Hkeep. by destruct (meta_of_object o).
Qed.

Lemma labelled_settle (name : string) : Some (component_label name) <> Some ∅.
Proof. intros Hl%(inj Some). by apply (f_equal (lookup GreptimeDBComponentName)) in Hl. Qed.

Lemma prepared_node_id `{JsonLib} `{ControllerLib} `{!ControllerLaws} `{FlagLib} owner o o' node k :
  supported (o_kind o) = true -> prepared owner o = Ok o' -> pod_node_id node o' k = pod_node_id node o k.
Proof.
  intros Hs Hp. unfold pod_node_id, pod_hostname. destruct (prepared_keeps owner o o' Hp) as (_ & -> & _).
  by destruct (prepared_name owner o o' Hs Hp) as [_ ->].
Qed.

Lemma addressed_selects o w t claims :
  addressed o -> addressed w -> selector_of o <> None -> workload_of w = Some (t, claims) ->
  (selects o w <-> object_name w = object_name o).
Proof.
  intros [Ho _] [_ Hw] Hs Hwl. destruct (selector_of o) as [sel|] eqn:Hsel; [|done].
  rewrite (Ho sel eq_refl) in Hsel. specialize (Hw t claims Hwl). unfold selects, component_label in *.
  split.
  - intros (sel' & t' & claims' & Hsel' & Hwl' & Hsub). simplify_eq.
    apply map_singleton_subseteq_l in Hsub. congruence.
  - intros Hn. eexists _, t, claims. split_and!; [done..|].
    apply map_singleton_subseteq_l. congruence.
Qed.

(** Objects that are addressed by name, whose workloads have distinct names and
    whose other names are names of workloads. *)
Lemma addressed_well (objs : list object) :
  Forall addressed objs ->
  (forall w w', w ∈ objs -> w' ∈ objs -> workload_of w <> None -> workload_of w' <> None ->
     object_name w = object_name w' -> w = w') ->
  (forall o, o ∈ objs -> selector_of o <> None ->
     exists w, w ∈ objs /\ workload_of w <> None /\ object_name w = object_name o) ->
  well_addressed objs.
Proof.
  intros Ha Hd Hn o Ho Hs. rewrite Forall_forall in Ha.
  destruct (Hn o Ho Hs) as (w & Hw & Hwl & Hname).
  destruct (workload_of w) as [[t claims]|] eqn:Hwe; [|done].
  exists w. split_and!; [done| |done|].
  - by eapply addressed_selects; eauto.
  - intros w' Hw' Hsel. destruct Hsel as (sel & t' & claims' & Hsel & Hwl' & Hsub).
    apply Hd; [done..|congruence|congruence|].
    rewrite Hname. eapply addressed_selects; eauto. by exists sel, t', claims'.
Qed.

(** *** Keys *)

(** How the API server tells objects apart. *)
Definition kind_key (o : object) : kind * NamespacedName := (o_kind o, object_key o).

(** All objects that a description allows have this key. *)
Definition keyed (P : object -> Prop) (k : kind * NamespacedName) : Prop :=
  forall o, P o -> kind_key o = k.

Lemma described_keys l raw keys :
  Forall2 keyed l keys -> Forall2 (fun P x => P x) l raw -> map kind_key raw = keys.
Proof.
  intros Hk. revert raw. induction Hk as [|P k l keys HP _ IH]; intros raw Hr; inversion Hr; subst;
    cbn; [done|]. f_equal; [by apply HP|by apply IH].
Qed.

Lemma described_all (Q : object -> Prop) l raw :
  Forall (fun P : object -> Prop => forall o, P o -> Q o) l -> Forall2 (fun P x => P x) l raw ->
  Forall Q raw.
Proof.
  intros Hl Hr. induction Hr as [|P o l raw HP _ IH]; [constructor|].
  apply Forall_cons in Hl as [HPQ Hl]. constructor; auto.
Qed.

Lemma keyed_map {A} (f : A -> object -> Prop) (g : A -> kind * NamespacedName) l :
  (forall x, x ∈ l -> keyed (f x) (g x)) -> Forall2 keyed (map f l) (map g l).
Proof.
  intros H. induction l as [|x l IH]; cbn; constructor; [apply H|apply IH; intros; apply H]; set_solver.
Qed.

Lemma prepared_keys `{JsonLib} `{ControllerLib} `{!ControllerLaws} owner raw objs :
  Forall2 (fun o o' => prepared owner o = Ok o') raw objs ->
  Forall (fun o => supported (o_kind o) = true) raw ->
  map kind_key objs = map kind_key raw.
Proof.
  intros Hp Hs. induction Hp as [|o o' raw objs Ho _ IH]; [done|].
  apply Forall_cons in Hs as [Hk Hs]. cbn. f_equal; [|by apply IH].
  unfold kind_key. destruct (prepared_keeps owner o o' Ho) as [-> _].
  by destruct (prepared_name owner o o' Hk Ho) as [-> _].
Qed.

Lemma prepared_addressed `{JsonLib} `{ControllerLib} `{!ControllerLaws} owner raw objs :
  Forall2 (fun o o' => prepared owner o = Ok o') raw objs ->
  Forall (fun o => supported (o_kind o) = true /\ addressed o) raw -> Forall addressed objs.
Proof.
  intros Hp Hs. induction Hp as [|o o' raw objs Ho _ IH]; [constructor|].
  apply Forall_cons in Hs as [[Hk Ha] Hs]. constructor; [|by apply IH].
  destruct (prepared_keeps owner o o' Ho) as (_ & Hwl & Hsel).
  destruct (prepared_name owner o o' Hk Ho) as [_ Hn].
  unfold addressed. by rewrite Hwl, Hsel, Hn.
Qed.

Lemma kind_key_inj (objs : list object) o o' :
  NoDup (map kind_key objs) -> o ∈ objs -> o' ∈ objs -> kind_key o = kind_key o' -> o = o'.
Proof.
  intros Hd Ho Ho' He. apply list_elem_of_lookup in Ho as [i Hi].
  apply list_elem_of_lookup in Ho' as [j Hj].
  assert (i = j) as ->; [|congruence].
  eapply NoDup_lookup; [exact Hd|rewrite list_lookup_fmap, Hi; done|].
  rewrite list_lookup_fmap, Hj. cbn. by rewrite He.
Qed.

(** The workloads of a component are of one kind and of one namespace. *)
Definition workload_kind (k : kind) : Prop := k = KStatefulSet \/ k = KDeployment.

Lemma keys_well_addressed (objs : list object) wk ns :
  Forall addressed objs -> NoDup (map kind_key objs) -> workload_kind wk ->
  (forall k n, (k, n) ∈ map kind_key objs ->
     nn_Namespace n = ns /\ (workload_kind k -> k = wk)
     /\ (k <> KConfigMap -> (wk, n) ∈ map kind_key objs)) ->
  well_addressed objs.
Proof.
  intros Ha Hd Hwk Hk.
  assert (Hin : forall o, o ∈ objs -> kind_key o ∈ map kind_key objs)
    by (intros o Ho; apply list_elem_of_fmap; eauto).
  assert (Hw : forall w, workload_of w <> None -> workload_kind (o_kind w))
    by (intros [[] v]; unfold workload_kind; cbn; auto; by intros []).
  apply addressed_well; [done|..].
  - intros w w' Hw1 Hw2 Hwl1 Hwl2 Hn. apply (kind_key_inj objs); [done..|].
    pose proof (Hk _ _ (Hin w Hw1)) as (Hns1 & Hkd1 & _).
    pose proof (Hk _ _ (Hin w' Hw2)) as (Hns2 & Hkd2 & _).
    unfold kind_key, object_name in *. rewrite (Hkd1 (Hw _ Hwl1)), (Hkd2 (Hw _ Hwl2)).
    unfold object_key, key_of in *. cbn in *. congruence.
  - intros o Ho Hs. assert (Hnc : o_kind o <> KConfigMap) by (by destruct o as [[] v]).
    pose proof (Hk _ _ (Hin o Ho)) as (_ & _ & Hex). specialize (Hex Hnc).
    apply list_elem_of_fmap in Hex as (w & Hkw & Hw'). exists w.
    injection Hkw as Hkw Hnw. split_and!; [done| |].
    + destruct w as [kw vw]. cbn in Hkw. subst kw. destruct Hwk as [-> | ->]; done.
    + unfold object_name. unfold object_key, key_of in Hnw. congruence.
Qed.

(** The shared objects. *)
Lemma keyed_configmap `{TomlLib} c role :
  keyed (configmap_for c role)
    (KConfigMap, mkNamespacedName (cluster_namespace c)
       (resource c (GetRoleKind role) [RoleSpec_GetName role])).
Proof. by intros o (text & _ & ->). Qed.

Lemma keyed_vector_configmap `{VectorLib} c :
  keyed (vector_configmap c)
    (KConfigMap, mkNamespacedName (cluster_namespace c) (CommonBuilder_VectorConfigName c)).
Proof.
  intros o (cm & Hcm & ->). unfold GenerateVectorConfigMap in Hcm. res_inv. by subst cm.
Qed.

Lemma keyed_podmonitor c name :
  keyed (podmonitor_for c name) (KPodMonitor, mkNamespacedName (cluster_namespace c) name).
Proof.
  intros o (pm & Hpm & ->). unfold CommonBuilder_GeneratePodMonitor, GeneratePodMonitor in Hpm.
  res_inv. by subst pm.
Qed.

Lemma addressed_configmap (cm : ConfigMap) : addressed (Object KConfigMap cm).
Proof. by split. Qed.

Lemma addressed_podmonitor c name o : podmonitor_for c name o -> addressed o.
Proof.
  intros (pm & Hpm & ->). unfold CommonBuilder_GeneratePodMonitor, GeneratePodMonitor in Hpm.
  res_inv. subst pm. split; [by intros sel [= <-]|done].
Qed.

(** *** Names of groups *)

Lemma string_app_inj_l (a b c : string) : a +:+ b = a +:+ c -> b = c.
Proof. induction a as [|x a IH]; cbn; [done|]. by intros [= H%IH]. Qed.

Lemma resource_shape c kind names :
  names = [] \/ (exists n, names = [n]) ->
  exists s, resource c kind names = cluster_name c +:+ "-" +:+ kind +:+ s.
Proof.
  unfold resource. intros [->|[n ->]].
  - exists "". by rewrite ResourceName_no_extra, string_app_nil_r.
  - destruct (decide (n = "")) as [->|Hn].
    + exists "". by rewrite ResourceName_empty_extra, ResourceName_no_extra, string_app_nil_r.
    + exists ("-" +:+ n). by rewrite ResourceName_group.
Qed.

Lemma resource_kind_ne c kind names :
  (forall s, kind +:+ s <> DefaultVectorConfigName) -> names = [] \/ (exists n, names = [n]) ->
  resource c kind names <> CommonBuilder_VectorConfigName c.
Proof.
  intros Hk Hn. destruct (resource_shape c kind names Hn) as [s ->].
  unfold CommonBuilder_VectorConfigName, VectorConfigName, Join. intros He.
  apply string_app_inj_l in He. injection He as He. by apply (Hk s).
Qed.

Lemma resource_inj c kind n n' : resource c kind [n] = resource c kind [n'] -> n = n'.
Proof.
  unfold resource. destruct (decide (n = "")) as [->|Hn], (decide (n' = "")) as [->|Hn']; [done|..].
  - rewrite ResourceName_empty_extra. intros He. by apply (ResourceName_group_ne (cluster_name c) kind n') in Hn'.
  - rewrite ResourceName_empty_extra. intros He. by apply (ResourceName_group_ne (cluster_name c) kind n) in Hn.
  - rewrite !ResourceName_group by done. intros He.
    do 2 (apply string_app_inj_l in He). apply string_app_inj_l in He. by apply string_app_inj_l in He.
Qed.

(** *** Objects by kind *)

(** The keys of objects that are listed kind by kind, with their names. *)
Definition object_keys (ns : string) (segments : list (kind * list string))
    : list (kind * NamespacedName) :=
  concat (map (fun s : kind * list string => map (fun n => (s.1, mkNamespacedName ns n)) s.2) segments).

Lemma elem_of_object_keys ns segments k n :
  (k, n) ∈ object_keys ns segments <->
  nn_Namespace n = ns /\ exists l, (k, l) ∈ segments /\ nn_Name n ∈ l.
Proof.
  unfold object_keys. rewrite list_elem_of_In, in_concat. split.
  - intros (x & Hx & Hin). apply in_map_iff in Hx as ([k' l] & <- & Hs).
    apply in_map_iff in Hin as (y & [= <- <-] & Hy). split; [done|].
    exists l. by rewrite !list_elem_of_In.
  - intros [Hn (l & Hs & Hin)]. rewrite list_elem_of_In in Hs. rewrite list_elem_of_In in Hin.
    exists (map (fun n => (k, mkNamespacedName ns n)) l). split.
    + apply in_map_iff. by exists (k, l).
    + apply in_map_iff. exists (nn_Name n). split; [|done]. subst ns. by destruct n.
Qed.

Lemma NoDup_object_keys ns segments :
  NoDup (map fst segments) -> Forall (fun s => NoDup s.2) segments ->
  NoDup (object_keys ns segments).
Proof.
  induction segments as [|[k l] segments IH]; cbn; [constructor|].
  intros [Hk Hd]%NoDup_cons [Hl Hs]%Forall_cons. cbn in Hl. apply NoDup_app. split_and!.
  - apply (NoDup_fmap_2_strong (fun n => (k, mkNamespacedName ns n))); [|done]. by intros x y _ _ [=].
  - intros x Hx Hin. apply list_elem_of_fmap in Hx as (n & -> & _).
    apply elem_of_object_keys in Hin as (_ & l' & Hl' & _). apply Hk.
    apply list_elem_of_fmap. by exists (k, l').
  - by apply IH.
Qed.

(** Objects listed by kind find their pods by name, when the names of each kind are
    distinct and every name is a workload's. *)
Lemma segments_well_addressed (objs : list object) ns segments wk names :
  map kind_key objs = object_keys ns segments -> Forall addressed objs -> workload_kind wk ->
  NoDup (map fst segments) -> Forall (fun s => NoDup s.2) segments -> (wk, names) ∈ segments ->
  (forall k l, (k, l) ∈ segments ->
     (workload_kind k -> k = wk) /\ (k <> KConfigMap -> l ⊆ names)) ->
  NoDup (map kind_key objs) /\ well_addressed objs.
Proof.
  intros Hk Ha Hwk Hd1 Hd2 Hw Hs.
  assert (Hnd : NoDup (map kind_key objs)) by (rewrite Hk; by apply NoDup_object_keys).
  split; [done|]. apply (keys_well_addressed objs wk ns); [done..|].
  intros k n. rewrite Hk, !elem_of_object_keys. intros (Hn & l & Hl & Hin).
  destruct (Hs k l Hl) as [Hk1 Hk2]. split_and!; [done..|]. intros Hc. split; [done|].
  exists names. split; [done|]. by apply Hk2.
Qed.

(** What a chain generates, by the descriptions of its objects. *)
Lemma generated_objects `{JsonLib} `{ControllerLib} `{!ControllerLaws} l keys owner raw objs :
  Forall2 keyed l keys ->
  Forall (fun P : object -> Prop => forall o, P o -> supported (o_kind o) = true /\ addressed o) l ->
  Forall2 (fun P x => P x) l raw -> Forall2 (fun o o' => prepared owner o = Ok o') raw objs ->
  map kind_key objs = keys /\ Forall addressed objs.
Proof.
  intros Hk Ha Hr Hp.
  assert (Hs : Forall (fun o => supported (o_kind o) = true /\ addressed o) raw)
    by (by eapply described_all).
  split.
  - rewrite (prepared_keys owner raw objs Hp); [by eapply described_keys|].
    eapply Forall_impl; [exact Hs|]. by intros o [].
  - by eapply prepared_addressed.
Qed.

(** *** A component

    What the four components of a cluster generate has one shape: services, config
    maps (with vector's), workloads and pod monitors. *)

Record component := mkComponent {
  co_workload : kind;
  co_names : list string;
  co_services : list (object -> Prop);
  co_configs : list RoleSpec;
  co_workloads : list (object -> Prop);
  co_monitors : list string }.

Section component.
Context `{TomlLib} `{VectorLib}.
Variable c : GreptimeDBCluster.
Notation ns := (cluster_namespace c).
Variable x : component.

Definition monitored : bool := IsEnablePrometheusMonitor (GetPrometheusMonitor (Some c)).
Definition config_name (role : RoleSpec) : string :=
  resource c (GetRoleKind role) [RoleSpec_GetName role].

(** A component that the spec does not name generates nothing. *)
Definition component_objects : list (object -> Prop) :=
  if decide (co_names x = []) then [] else
  co_services x ++ map (configmap_for c) (co_configs x)
  ++ (if vector_enabled c then [vector_configmap c] else [])
  ++ co_workloads x ++ (if monitored then map (podmonitor_for c) (co_monitors x) else []).

(** The names of the generated objects, kind by kind. *)
Definition component_segments : list (kind * list string) :=
  if decide (co_names x = []) then [] else
  [(KService, co_names x);
   (KConfigMap, map config_name (co_configs x)
                ++ (if vector_enabled c then [CommonBuilder_VectorConfigName c] else []));
   (co_workload x, co_names x); (KPodMonitor, if monitored then co_monitors x else [])].

(** The objects of a description have this kind and name, are addressed by it and have labels. *)
Definition named (k : kind) (P : object -> Prop) (name : string) : Prop :=
  forall o, P o -> kind_key o = (k, mkNamespacedName ns name) /\ addressed o /\ labels_settle o.

Definition component_named : Prop :=
  workload_kind (co_workload x)
  /\ Forall2 (named KService) (co_services x) (co_names x)
  /\ Forall2 (named (co_workload x)) (co_workloads x) (co_names x).

(** The names tell the objects apart. *)
Definition component_distinct : Prop :=
  NoDup (co_names x) /\ NoDup (map config_name (co_configs x))
  /\ Forall (fun role => forall s, GetRoleKind role +:+ s <> DefaultVectorConfigName) (co_configs x)
  /\ co_monitors x = co_names x.

Lemma elem_of_component_objects P :
  P ∈ component_objects ->
  P ∈ co_services x \/ (exists role, P = configmap_for c role) \/ P = vector_configmap c
  \/ P ∈ co_workloads x \/ (exists n, P = podmonitor_for c n).
Proof.
  unfold component_objects. destruct (decide _) as [_|_]; [by intros ?%elem_of_nil|].
  rewrite !elem_of_app, list_elem_of_fmap. intros [?|[(role & -> & _)|[Hv|[?|Hm]]]]; eauto.
  - destruct (vector_enabled c); [|by apply elem_of_nil in Hv].
    apply list_elem_of_singleton in Hv. eauto.
  - destruct monitored; [|by apply elem_of_nil in Hm].
    apply list_elem_of_fmap in Hm as (nm & -> & _). eauto 7.
Qed.

(** By cases on what an object is. *)
Lemma component_objects_all (Q : object -> Prop) :
  (forall P o, P ∈ co_services x \/ P ∈ co_workloads x -> P o -> Q o) ->
  (forall cm, addressed (Object KConfigMap cm) -> Q (Object KConfigMap cm)) ->
  (forall pm, addressed (Object KPodMonitor pm) -> Q (Object KPodMonitor pm)) ->
  Forall (fun P : object -> Prop => forall o, P o -> Q o) component_objects.
Proof.
  intros Hsw Hcm Hpm. apply Forall_forall. intros P HP o Ho.
  apply elem_of_component_objects in HP as [HP|[(role & ->)|[->|[HP|(n & ->)]]]]; eauto.
  - destruct Ho as (text & _ & ->). by apply Hcm.
  - destruct Ho as (cm & _ & ->). by apply Hcm.
  - pose proof (addressed_podmonitor c n o Ho) as Ha. destruct Ho as (pm & _ & ->). by apply Hpm.
Qed.

Lemma named_all k Ps names P o :
  Forall2 (named k) Ps names -> P ∈ Ps -> P o -> o_kind o = k /\ addressed o /\ labels_settle o.
Proof.
  intros Hn HP Ho. apply list_elem_of_lookup in HP as [i Hi].
  destruct (Forall2_lookup_l _ _ _ _ _ Hn Hi) as (n & _ & Hnm).
  destruct (Hnm o Ho) as [[= ->] ?]. done.
Qed.

Lemma component_supported : component_named ->
  forall o P, P ∈ component_objects -> P o -> supported (o_kind o) = true.
Proof.
  intros (Hk & Hs & Hw) o P HP Ho. revert P HP o Ho. rewrite <- Forall_forall.
  apply component_objects_all; [|done..]. intros P o [HP|HP] Ho.
  - by destruct (named_all _ _ _ _ _ Hs HP Ho) as [-> _].
  - destruct (named_all _ _ _ _ _ Hw HP Ho) as [-> _]. by destruct Hk as [-> | ->].
Qed.

Lemma component_addressed : component_named ->
  Forall (fun P : object -> Prop => forall o, P o -> supported (o_kind o) = true /\ addressed o)
    component_objects.
Proof.
  intros Hn. apply Forall_forall. intros P HP o Ho. split; [by eapply component_supported|].
  destruct Hn as (Hk & Hs & Hw). revert P HP o Ho. rewrite <- Forall_forall.
  apply component_objects_all; [|done..].
  intros P o [HP|HP] Ho; [by apply (named_all _ _ _ _ _ Hs HP)|by apply (named_all _ _ _ _ _ Hw HP)].
Qed.

(** The labels of what is generated are those of the description. *)
Lemma component_labels_settle `{JsonLib} `{ControllerLib} `{!ControllerLaws} owner raw objs :
  (forall p, GetPrometheusMonitor (Some c) = Some p -> pr_Labels p <> Some ∅) -> component_named ->
  Forall2 (fun P o => P o) component_objects raw ->
  Forall2 (fun o o' => prepared owner o = Ok o') raw objs -> Forall labels_settle objs.
Proof.
  intros Hmon Hn Hr Hp.
  assert (Hraw : Forall (fun o => supported (o_kind o) = true /\ labels_settle o) raw).
  { eapply described_all; [|exact Hr]. apply Forall_forall. intros P HP o Ho.
    split; [by eapply component_supported|].
    apply elem_of_component_objects in HP as [HP|[(role & ->)|[->|[HP|(n & ->)]]]].
    - by apply (named_all _ _ _ _ _ (proj1 (proj2 Hn)) HP).
    - by destruct Ho as (text & _ & ->).
    - destruct Ho as (cm & Hcm & ->). unfold GenerateVectorConfigMap in Hcm. res_inv. by subst cm.
    - by apply (named_all _ _ _ _ _ (proj2 (proj2 Hn)) HP).
    - destruct Ho as (pm & Hpm & ->). unfold CommonBuilder_GeneratePodMonitor, Common.GeneratePodMonitor in Hpm.
      apply bind_Ok in Hpm as (p & Hp0 & [= <-]). apply Hmon. destruct (GetPrometheusMonitor _); [|done]. by injection Hp0 as ->. }
  clear Hr Hmon Hn. induction Hp as [|o o' raw objs Ho _ IH]; [constructor|].
  apply Forall_cons in Hraw as [[Hk Hl] Hraw]. constructor; [|by apply IH].
  unfold labels_settle. by rewrite (prepared_labels owner o o' Hk Ho).
Qed.

Lemma Forall2_named_keyed k Ps names :
  Forall2 (named k) Ps names -> Forall2 keyed Ps (map (fun n => (k, mkNamespacedName ns n)) names).
Proof. induction 1 as [|P n Ps names HP _ IH]; constructor; [intros o Ho; by apply HP|done]. Qed.

Lemma component_keyed : component_named ->
  Forall2 keyed component_objects (object_keys ns component_segments).
Proof.
  intros (_ & Hs & Hw). unfold component_objects, component_segments.
  destruct (decide _) as [_|_]; [constructor|]. unfold object_keys. cbn [map concat fst snd].
  rewrite map_app, map_map, app_nil_r, <- app_assoc.
  repeat apply Forall2_app; try by apply Forall2_named_keyed.
  - apply keyed_map. intros role _. apply keyed_configmap.
  - destruct (vector_enabled c); [|constructor]. repeat constructor. apply keyed_vector_configmap.
  - destruct monitored; [|constructor]. apply keyed_map. intros nm _. apply keyed_podmonitor.
Qed.

Lemma component_segments_distinct objs :
  workload_kind (co_workload x) -> component_distinct ->
  map kind_key objs = object_keys ns component_segments -> Forall addressed objs ->
  NoDup (map kind_key objs) /\ well_addressed objs.
Proof.
  intros Hwk (Hn & Hc & Hv & Hm) Hk Ha. unfold component_segments in Hk. destruct (decide _) as [_|_].
  { destruct objs; [|done]. split; [constructor|]. by intros o ?%elem_of_nil. }
  eapply (segments_well_addressed objs ns _ (co_workload x) (co_names x)); [exact Hk|exact Ha|exact Hwk|..].
  - destruct Hwk as [-> | ->]; apply (bool_decide_unpack _); vm_compute; done.
  - repeat apply Forall_cons_2; cbn [snd]; [done| |done|..|constructor].
    + apply NoDup_app. split_and!; [done| |destruct (vector_enabled c); [apply NoDup_singleton|constructor]].
      intros n Hin Hv'. apply list_elem_of_fmap in Hin as (role & -> & Hr).
      destruct (vector_enabled c); [|by apply elem_of_nil in Hv'].
      apply list_elem_of_singleton in Hv'. revert Hv'. apply resource_kind_ne; [|eauto].
      rewrite Forall_forall in Hv. by apply Hv.
    + destruct monitored; [by rewrite Hm|constructor].
  - apply elem_of_cons; right. apply elem_of_cons; right. apply elem_of_cons; left. reflexivity.
  - intros k l. rewrite !elem_of_cons, elem_of_nil. unfold workload_kind.
    intros [[= -> ->]|[[= -> ->]|[[= -> ->]|[[= -> ->]|[]]]]]; (split; [by intros [|]|]); intros Hne;
      [reflexivity|done|reflexivity|].
    destruct monitored; [by rewrite Hm|set_solver].
Qed.

(** The chain of a component generates the objects of its description. *)
Lemma component_builds `{JsonLib} `{ControllerLib} {S} (m : M (S * DefaultBuilder) unit) owner shared
    {W} (env : environment W) s w objs :
  component_named -> builds component_objects m ->
  out_res (exec env (with_builder owner (_ ← m; finish_on shared)) s w) = Ok objs ->
  exists raw, Forall2 (fun P o => P o) component_objects raw
    /\ Forall2 (fun o o' => prepared owner o = Ok o') raw objs.
Proof. intros Hn Hm. apply with_builder_finish; [done|]. by apply component_supported. Qed.

(** The keys of what a chain generates, and that its selectors find their pods. *)
Lemma component_generated `{JsonLib} `{ControllerLib} `{!ControllerLaws} owner raw objs :
  component_named ->
  Forall2 (fun P o => P o) component_objects raw ->
  Forall2 (fun o o' => prepared owner o = Ok o') raw objs ->
  map kind_key objs = object_keys ns component_segments
  /\ (component_distinct -> NoDup (map kind_key objs) /\ well_addressed objs).
Proof.
  intros Hn Hr Hp.
  destruct (generated_objects _ _ _ _ _ (component_keyed Hn) (component_addressed Hn) Hr Hp) as [Hk Ha].
  split; [done|]. intros Hd. apply component_segments_distinct; [apply Hn|done..].
Qed.

Lemma component_pods `{JsonLib} `{ControllerLib} Q owner raw objs :
  component_named ->
  Forall2 (fun P o => P o) component_objects raw ->
  Forall2 (fun o o' => prepared owner o = Ok o') raw objs ->
  (forall P o, P ∈ co_workloads x -> P o -> every_pod Q o) -> Forall (every_pod Q) objs.
Proof.
  intros (_ & Hs & _) Hr Hp Hw. eapply prepared_pods; [exact Hp|].
  eapply described_all; [|exact Hr]. apply component_objects_all; [|done..].
  intros P o [HP|HP] Ho; [|by eapply Hw].
  destruct (named_all _ _ _ _ _ Hs HP Ho) as [Hk _]. intros t claims. by destruct o as [[] v].
Qed.

Lemma component_closed `{JsonLib} `{ControllerLib} owner raw objs :
  component_named ->
  Forall2 (fun P o => P o) component_objects raw ->
  Forall2 (fun o o' => prepared owner o = Ok o') raw objs ->
  (forall P o, P ∈ co_workloads x -> P o -> workload_closed o) -> Forall workload_closed objs.
Proof. exact (component_pods (fun claims => closed (claim_names claims)) owner raw objs). Qed.

(** *** Positions of the workloads: after the services and the config maps. *)
Definition workload_offset : nat :=
  length (co_services x) + length (co_configs x) + (if vector_enabled c then 1 else 0).

Lemma component_objects_workload a P o :
  component_named -> component_objects !! a = Some P -> P o -> workload_of o <> None ->
  exists i, a = (workload_offset + i)%nat /\ co_workloads x !! i = Some P.
Proof.
  intros (_ & Hs & _). unfold component_objects, workload_offset. destruct (decide _) as [_|_]; [done|]. intros Ha HP Hw.
  apply lookup_app_Some in Ha as [Ha|[Hl1 Ha]].
  { apply list_elem_of_lookup_2 in Ha. destruct (named_all _ _ _ _ _ Hs Ha HP) as [Hk _].
    by destruct o as [[] v]. }
  apply lookup_app_Some in Ha as [Ha|[Hl2 Ha]].
  { apply list_lookup_fmap_Some in Ha as (role & -> & _). by destruct HP as (text & _ & ->). }
  apply lookup_app_Some in Ha as [Ha|[Hl3 Ha]].
  { destruct (vector_enabled c); [|done]. apply list_lookup_singleton_Some in Ha as [_ <-].
    by destruct HP as (cm & _ & ->). }
  apply lookup_app_Some in Ha as [Ha|[Hl4 Ha]].
  { eexists. split; [|exact Ha]. rewrite !length_map in *. destruct (vector_enabled c); cbn in *; lia. }
  destruct monitored; [|done].
  apply list_lookup_fmap_Some in Ha as (nm & -> & _). by destruct HP as (pm & _ & ->).
Qed.
End component.

(** A workload with the component label of its name on its pods. *)
Lemma named_hashed `{TomlLib} c k role workload template name :
  (forall t, kind_key (workload t) = (k, mkNamespacedName (cluster_namespace c) name)
     /\ selector_of (workload t) = Some (component_label name)
     /\ labels_settle (workload t) /\ exists claims, workload_of (workload t) = Some (t, claims)) ->
  (forall t, template = Ok t -> pt_Labels t !! GreptimeDBComponentName = Some name) ->
  named c k (hashed c role workload template) name.
Proof.
  intros Hw Hl o (t & text & Ht & _ & ->). destruct (Hw (annotate_hash text t)) as (Hk & Hs & Hlab & claims & Hc).
  split; [done|]. split; [|exact Hlab]. assert (Hn : object_name (workload (annotate_hash text t)) = name).
  { unfold kind_key, object_key, key_of in Hk. by injection Hk as _ _ Hk. }
  unfold addressed. rewrite Hs, Hc, Hn. split; [by intros sel [= <-]|].
  intros t' claims' [= <- _]. exact (Hl t Ht).
Qed.

(** A service with the component label of its name is addressed by it. *)
Lemma named_service c name (svc : Service) :
  svc_ObjectMeta svc = labelled_meta c name -> se_Selector (svc_Spec svc) = component_label name ->
  named c KService (eq (Object KService svc)) name.
Proof.
  intros Hm Hs o <-. split; [|split].
  - unfold kind_key, object_key, key_of. cbn. by rewrite Hm.
  - unfold addressed, object_name. cbn. rewrite Hm, Hs. by split; [intros sel [= <-]|].
  - unfold labels_settle. cbn. rewrite Hm. apply labelled_settle.
Qed.

(** *** Memory and requests *)

(** A builder keeps the deployer's memory related. *)
Definition on_memory {S} (R : S -> S -> Prop) (p p' : S * DefaultBuilder) : Prop := R p.1 p'.1.
#[export] Instance on_memory_preorder {S} (R : S -> S -> Prop) `{!PreOrder R} :
  PreOrder (on_memory R).
Proof.
  unfold on_memory. split; [intros p; reflexivity|]. intros p1 p2 p3 H1 H2.
  by transitivity p2.1.
Qed.

Section memory.
Context {S : Type} (R : S -> S -> Prop) `{!PreOrder R}.

Lemma preserves_append o : preserves (on_memory R) (append_object o).
Proof. apply preserves_modify. intros s. unfold on_memory. reflexivity. Qed.

Lemma preserves_catch m : preserves (on_memory R) m -> preserves (on_memory R) (catch m).
Proof.
  intros Hm. apply preserves_bind; [apply _|by apply preserves_try|].
  intros [a|e|]; [by apply preserves_ret, _| |by apply preserves_ret, _].
  apply preserves_modify. intros s. unfold on_memory. reflexivity.
Qed.

Lemma preserves_build m : preserves (on_memory R) m -> preserves (on_memory R) (build m).
Proof.
  intros Hm. apply preserves_bind; [apply _|apply preserves_get, _|]. intros s.
  destruct (db_Err s.2); [apply preserves_ret, _|by apply preserves_catch].
Qed.

Lemma preserves_finish_on `{JsonLib} `{ControllerLib} shared :
  (forall b s, R s (shared b s)) -> preserves (on_memory R) (finish_on shared).
Proof.
  intros Hs W env s w. unfold finish_on. rewrite exec_bind, exec_get. cbn [out_res out_st out_world out_log].
  rewrite exec_bind, exec_lift. cbn [out_res out_st out_world out_log].
  destruct (SetControllerAndAnnotation s.2) as [b|e|]; unfold prepend; cbn;
    unfold on_memory; [apply Hs|reflexivity..].
Qed.

Lemma preserves_finish `{JsonLib} `{ControllerLib} : preserves (on_memory R) finish.
Proof. apply preserves_finish_on. reflexivity. Qed.

Lemma preserves_or_set_err {A B} (r : res A) (b : B) (k : A -> M (S * DefaultBuilder) B) :
  (forall a, preserves (on_memory R) (k a)) -> preserves (on_memory R) (or_set_err r b k).
Proof.
  intros Hk. destruct r as [a|e|]; [apply Hk| |apply preserves_lift, _].
  apply preserves_bind; [apply _| |intros _; apply preserves_ret, _].
  apply preserves_modify. intros s. unfold on_memory. reflexivity.
Qed.

Lemma preserves_with_builder {A} owner (m : M (S * DefaultBuilder) A) :
  preserves (on_memory R) m -> preserves R (with_builder owner m).
Proof.
  intros Hm W env s w. unfold with_builder. rewrite exec_zoom. cbn [out_st].
  exact (Hm W env (s, mkDefaultBuilder [] owner None) w).
Qed.
End memory.

Notation keeps_builder := (preserves (on_memory (fun s s' => same_cluster (c_cluster s) (c_cluster s')))).

Lemma keeps_share_pod_maps p t : keeps_builder (share_pod_maps p t).
Proof.
  apply preserves_modify. intros s. unfold on_memory, same_cluster. cbn.
  by rewrite spec_core_share_template.
Qed.

Lemma keeps_share_service_maps p m : keeps_builder (share_service_maps p m).
Proof.
  apply preserves_modify. intros s. unfold on_memory, same_cluster. cbn.
  by rewrite spec_core_share_service.
Qed.

(** Follows a builder down to its assignments. *)
Ltac keeps_step :=
  match goal with
  | |- preserves _ (build _) => apply preserves_build; [apply _|]
  | |- preserves _ (catch _) => apply preserves_catch; [apply _|]
  | |- preserves _ (append_object _) => apply preserves_append; apply _
  | |- preserves _ (share_pod_maps _ _) => apply keeps_share_pod_maps
  | |- preserves _ (share_service_maps _ _) => apply keeps_share_service_maps
  | |- preserves _ (FromCluster _ _) => apply FromCluster_preserves; apply _
  | |- preserves _ finish => apply preserves_finish; apply _
  | |- preserves _ (or_set_err _ _ _) => apply preserves_or_set_err; [apply _|]; intros ?
  | |- preserves _ (append_configmap _ _) => unfold append_configmap, CommonBuilder_GenerateConfigMap
  | |- preserves _ (append_vector_configmap _) => unfold append_vector_configmap
  | |- preserves _ (append_podmonitor _ _) => unfold append_podmonitor
  | |- preserves _ (append_hashed _ _ _ _ _) => unfold append_hashed
  | |- preserves _ (with_vector _ _ _ _) => unfold with_vector
  | _ => preserves_step
  end.
Ltac solve_keeps := repeat keeps_step; eauto with preserves.

(** Generating asks for secrets only. *)
Lemma logs_with_builder {S A} P owner (m : M (S * DefaultBuilder) A) :
  logs_only P m -> logs_only P (with_builder owner m).
Proof. apply logs_only_zoom. Qed.

(** Follows a builder down to the configs. *)
Ltac gen_logs_step :=
  match goal with
  | |- logs_only _ (build _) => unfold build
  | |- logs_only _ (catch _) => unfold catch
  | |- logs_only _ (append_object _) => apply logs_only_modify
  | |- logs_only _ (share_pod_maps _ _) => apply logs_only_modify
  | |- logs_only _ (share_service_maps _ _) => apply logs_only_modify
  | |- logs_only _ (FromCluster _ _) => apply FromCluster_logs
  | |- logs_only _ finish => unfold finish
  | |- logs_only _ (finish_on _) => unfold finish_on
  | |- logs_only _ (or_set_err ?r _ _) => unfold or_set_err; destruct r
  | |- logs_only _ (append_configmap _ _) => unfold append_configmap, CommonBuilder_GenerateConfigMap
  | |- logs_only _ (append_vector_configmap _) => unfold append_vector_configmap
  | |- logs_only _ (append_podmonitor _ _) => unfold append_podmonitor
  | |- logs_only _ (append_hashed _ _ _ _ _) => unfold append_hashed
  | |- logs_only _ (with_vector _ _ _ _) => unfold with_vector
  | |- logs_only _ (with_builder _ _) => apply logs_with_builder
  | |- logs_only _ get_cluster => unfold get_cluster
  | _ => logs_step
  end.
Ltac solve_gen_logs := repeat gen_logs_step; eauto with logs.

(** *** Samples for the witnesses *)

(** A vector configuration that shows one of its variables. *)
Definition plain_vector : VectorLib := {|
  vectorConfigTemplate := Ok "vector";
  template_Execute text vars := Ok (text +:+ ": " +:+ default "" (vars !! "ClusterName")) |}.

Definition sample_main : MainContainerSpec :=
  mkMainContainerSpec "greptimedb:v1" zero_ResourceRequirements [] [] ["--verbose"] "" [] [] None
    None None "" "" [] "".
Definition sample_template : PodTemplateSpec :=
  mkPodTemplateSpec ∅ {[ "team" := "db" ]} (Some sample_main)
    (mkSlimPodSpec ∅ [] "" None None "" "" false [] "" [] "" [] [] "").
Definition sample_logging : LoggingSpec :=
  mkLoggingSpec "info" [] "/data/greptimedb/logs" (Some false) (Some false) "text" None "".
Definition sample_component (replicas : Z) : ComponentSpec :=
  mkComponentSpec (Some replicas) "" (Some sample_template) (Some sample_logging) None.

(** A datanode group with a claim of its own. *)
Definition sample_group (name : string) (start : Z) : DatanodeSpec :=
  mkDatanodeSpec (sample_component 3) name 4001 4000
    (Some (mkDatanodeStorageSpec "/data/greptimedb" (Some (sample_storage ∅)))) None (Some start).

Definition sample_frontend (name : string) : FrontendSpec :=
  mkFrontendSpec (sample_component 1) name 4001 4000 4006 None 4002 4003 4010
    (Some (mkServiceSpec "ClusterIP" {[ "lb" := "internal" ]} {[ "team" := "db" ]} None []))
    (Some (mkTLSSpec "tls-secret")) None None None (Some (mkAuditLogSpec true "/audit" "" "" "" "" None)).

(** Two datanode groups, monitored. *)
Definition sample_cluster (monitored : bool) : GreptimeDBCluster :=
  mkGreptimeDBCluster (meta_of "default" "c" None ∅)
    (mkGreptimeDBClusterSpec None (Some (sample_frontend ""))
       (Some (mkMetaSpec (sample_component 1) 3002 4000 None None None)) None
       [sample_group "read" 0; sample_group "write" 100]
       (Some (mkFlownodeSpec (sample_component 2) 4004 4005 None (Some 7%Z)))
       [sample_frontend "ingest"] 4000 4001 4002 4003
       (Some (mkPrometheusMonitorSpec true None "30s")) "" (Some (mkInitializerSpec "init:v1")) None
       None None
       (Some (mkMonitoringSpec monitored "7d" None None
                (Some (mkVectorSpec "vector:v1" zero_ResourceRequirements)))) None
       ConfigMergeStrategyInjectedDataFirst false)
    zero_ClusterStatus.
