(* ===== verification/Datanode.v ===== *)
(** * controllers/greptimedbcluster/deployers/datanode.go: the datanode deployer

    Its [CleanUp] of the storage, its status check, and its own [Apply], which
    puts the metasrv into maintenance mode around a restart of the pods; that [Apply]
    keeps the promise of [Converging]. *)

From stdpp Require Import base gmap sets strings list fin_maps.
From Stdlib Require Import ZArith.
From S2P Require Import Prelude GoLib K8s ApiCommon ApiTypes Client ApiServer K8sUtil Deployer.
From S2P Require Import Common Cluster.

Definition datanode_resource (c : GreptimeDBCluster) (group : string) : string :=
  ResourceName (om_Name (gc_ObjectMeta c)) DatanodeRoleKind [group].

(** [common.ResourceName(cluster.Name, v1alpha1.DatanodeRoleKind)] *)
Definition datanode_base_resource (c : GreptimeDBCluster) : string :=
  ResourceName (om_Name (gc_ObjectMeta c)) DatanodeRoleKind [].

(** ** CleanUp *)

Definition deleteStorage `{SelectorLib} {S} (namespace resourceName : string) (fsType : FileStorageType)
    : M S unit :=
  claims ← GetPVCs namespace resourceName fsType;
  range (fun pvc : PersistentVolumeClaim => Delete (Object KPVC pvc)) claims.

Definition delete_policy (fs : option FileStorage) : bool :=
  String.eqb (FileStorage_GetPolicy fs) StorageRetainPolicyTypeDelete.

(** The body of the loop over the groups. *)
Definition cleanup_group `{SelectorLib} {S} (cluster : GreptimeDBCluster) (datanodeGroup : DatanodeSpec)
    : M S unit :=
  match DatanodeSpec_GetFileStorage (Some datanodeGroup) with
  | None => mret tt
  | Some fs =>
      if FileStorage_IsUseEmptyDir (Some fs) then mret tt
      else when (delete_policy (Some fs))
             (deleteStorage (om_Namespace (gc_ObjectMeta cluster))
                (datanode_resource cluster (DatanodeSpec_GetName (Some datanodeGroup)))
                FileStorageTypeDatanode)
  end.

(** What follows the first [if]: the groups, the WAL and the cache. *)
Definition cleanup_rest `{SelectorLib} {S} (cluster : GreptimeDBCluster) : M S unit :=
  let i := Some cluster in
  let ns := om_Namespace (gc_ObjectMeta cluster) in
  _ ← range (cleanup_group cluster) (GetDatanodeGroups i);
  _ ← when (delete_policy (RaftEngineWAL_GetFileStorage
              (WALProviderSpec_GetRaftEngineWAL (GetWALProvider i))))
        (deleteStorage ns (datanode_base_resource cluster) FileStorageTypeWAL);
  when (delete_policy (GetCacheFileStorage (GetObjectStorageProvider i)))
    (deleteStorage ns (datanode_base_resource cluster) FileStorageTypeCache).

(** An emptyDir of the base datanode returns early. *)
Definition Datanode_CleanUp `{SelectorLib} : M CState unit :=
  cluster ← get_cluster;
  match DatanodeSpec_GetFileStorage (GetDatanode (Some cluster)) with
  | Some fs =>
      if FileStorage_IsUseEmptyDir (Some fs) then mret tt
      else
        _ ← when (delete_policy (Some fs))
              (deleteStorage (om_Namespace (gc_ObjectMeta cluster))
                 (datanode_base_resource cluster) FileStorageTypeDatanode);
        cleanup_rest cluster
  | None => cleanup_rest cluster
  end.

(** ** Status *)

Definition getStatefulSetStatus {S} (namespace resourceName : string) : M S (bool * Z) :=
  found ← GetIfFound KStatefulSet (mkNamespacedName namespace resourceName);
  match found with
  | None => mret (false, 0%Z)
  | Some sts =>
      ready ← lift (IsStatefulSetReady (Some sts));
      mret (ready, st_ReadyReplicas (sts_Status sts))
  end.

Section deployer.
Context `{JsonLib} `{RetryLib}.

Definition publish_datanode_status (readyReplicas : Z) : M CState unit :=
  cluster ← get_cluster;
  _ ← update_status (set_DatanodeStatus
        (mkComponentStatus (GetDatanodeReplicas (Some cluster)) readyReplicas));
  cluster ← get_cluster;
  log_err (UpdateStatus cluster).

Definition checkDatanodeStatus (namespace resourceName : string) : M CState bool :=
  status ← getStatefulSetStatus namespace resourceName;
  _ ← publish_datanode_status status.2;
  mret status.1.

(** The loop over the groups: how many are ready, and the sum of their ready
    replicas, both in int32. *)
Fixpoint count_ready {S} (cluster : GreptimeDBCluster) (groups : list DatanodeSpec)
    (readyCount totalReadyReplicas : Z) : M S (Z * Z) :=
  match groups with
  | [] => mret (readyCount, totalReadyReplicas)
  | spec :: groups =>
      status ← getStatefulSetStatus (om_Namespace (gc_ObjectMeta cluster))
                 (datanode_resource cluster (DatanodeSpec_GetName (Some spec)));
      count_ready cluster groups
        (if (status : bool * Z).1 then int32 (readyCount + 1) else readyCount)
        (int32 (totalReadyReplicas + status.2))
  end.

Definition checkDatanodeGroupsStatus : M CState bool :=
  cluster ← get_cluster;
  counts ← count_ready cluster (GetDatanodeGroups (Some cluster)) 0 0;
  _ ← publish_datanode_status counts.2;
  mret (Z.eqb counts.1 (int32 (Z.of_nat (length (GetDatanodeGroups (Some cluster)))))).

Definition Datanode_CheckAndUpdateStatus : M CState bool :=
  cluster ← get_cluster;
  if not_nil (GetDatanode (Some cluster)) then
    checkDatanodeStatus (om_Namespace (gc_ObjectMeta cluster)) (datanode_base_resource cluster)
  else if Nat.ltb 0 (length (GetDatanodeGroups (Some cluster))) then checkDatanodeGroupsStatus
  else mret true.

(** ** Maintenance mode *)

Definition shouldUseMaintenanceMode (cluster : GreptimeDBCluster) : bool :=
  MetaSpec_IsEnableRegionFailover (GetMeta (Some cluster)).

(** [l[0]]: panics on an empty slice. *)
Definition index0 {A} (l : list A) : res A := deref (head l).

(** Whether replacing [old] by [new] restarts the running pods: two nil-or-empty
    maps and slices are the same here. *)
Definition isOldPodRestart (new old : StatefulSet) : res bool :=
  let newPodTemplate := ss_Template (sts_Spec new) in
  let oldPodTemplate := ss_Template (sts_Spec old) in
  if bool_decide (pt_Annotations newPodTemplate <> pt_Annotations oldPodTemplate) then Ok true
  else
    newInit ← index0 (ps_InitContainers (pt_Spec newPodTemplate));
    oldInit ← index0 (ps_InitContainers (pt_Spec oldPodTemplate));
    if bool_decide (ct_Image newInit <> ct_Image oldInit) then Ok true
    else if bool_decide (ps_Tolerations (pt_Spec newPodTemplate)
                           <> ps_Tolerations (pt_Spec oldPodTemplate))
         || bool_decide (ps_Affinity (pt_Spec newPodTemplate)
                           <> ps_Affinity (pt_Spec oldPodTemplate))
         || bool_decide (ps_NodeSelector (pt_Spec newPodTemplate)
                           <> ps_NodeSelector (pt_Spec oldPodTemplate))
    then Ok true
    else
      newMain ← index0 (ps_Containers (pt_Spec newPodTemplate));
      oldMain ← index0 (ps_Containers (pt_Spec oldPodTemplate));
      if bool_decide (ct_Image newMain <> ct_Image oldMain) then Ok true
      else Ok (bool_decide (ct_Command newMain <> ct_Command oldMain)
               || bool_decide (ct_Args newMain <> ct_Args oldMain)
               || bool_decide (ct_Env newMain <> ct_Env oldMain)
               || bool_decide (ct_VolumeMounts newMain <> ct_VolumeMounts oldMain)
               || bool_decide (ct_Ports newMain <> ct_Ports oldMain)
               || bool_decide (ct_Resources newMain <> ct_Resources oldMain)).

(** [d.maintenanceMode.Store(key, true)] and [d.maintenanceMode.Delete(key)]. *)
Definition arm (key : NamespacedName) : M CState unit :=
  modify (fun s => mkCState (c_cluster s) ({[ key ]} ∪ c_maintenance s)).
Definition disarm (key : NamespacedName) : M CState unit :=
  modify (fun s => mkCState (c_cluster s) (c_maintenance s ∖ {[ key ]})).

Definition turnOnMaintenanceMode (newSts : StatefulSet) : M CState unit :=
  oldSts ← Get KStatefulSet (key_of (sts_ObjectMeta newSts));
  s ← get;
  let cluster := c_cluster s in
  let key := cluster_key cluster in
  if decide (key ∈ c_maintenance s) then mret tt
  else
    restart ← lift (isOldPodRestart newSts oldSts);
    if (restart : bool) then
      url ← lift (GetMetaHTTPServiceURL cluster);
      _ ← SetMaintenanceMode url true;
      arm key
    else mret tt.

Definition turnOffMaintenanceMode : M CState unit :=
  s ← get;
  let cluster := c_cluster s in
  let key := cluster_key cluster in
  if bool_decide (key ∈ c_maintenance s) && shouldUseMaintenanceMode cluster then
    url ← lift (GetMetaHTTPServiceURL cluster);
    _ ← SetMaintenanceMode url false;
    disarm key
  else mret tt.

Definition Datanode_PostSyncHooks : list (M CState unit) := [turnOffMaintenanceMode].

(** ** Apply *)

(** The patched object is a StatefulSet and failover is enabled. *)
Definition before_patch (newObject : object) : M CState unit :=
  match newObject with
  | Object KStatefulSet sts =>
      cluster ← get_cluster;
      when (shouldUseMaintenanceMode cluster) (turnOnMaintenanceMode sts)
  | _ => mret tt
  end.

Definition datanode_apply_object (newObject : object) : M CState bool :=
  oldObject ← CreateObjectIfNotExist (o_kind newObject) (o_val newObject);
  match oldObject with
  | None => mret false
  | Some old =>
      specEqual ← lift (IsObjectSpecEqual (obj_meta old) (meta_of_object newObject)
                          LastAppliedResourceSpec);
      let labelsEqual := IsObjectLabelsEqual (om_Labels (obj_meta old))
                           (om_Labels (meta_of_object newObject)) in
      if negb specEqual || negb labelsEqual then
        _ ← before_patch newObject;
        _ ← Patch newObject (Object (o_kind newObject) old);
        mret true
      else mret false
  end.

Definition Datanode_Apply (objects : list object) : M CState unit :=
  apply_with datanode_apply_object objects.
End deployer.

(** ** Specifications *)

(** The claims [CleanUp] is to delete: a resource name and a storage type. *)
Definition target : Type := string * FileStorageType.

Definition storage_target (fs : option FileStorage) (t : target) : list target :=
  if delete_policy fs then [t] else [].

Definition group_targets (c : GreptimeDBCluster) (g : DatanodeSpec) : list target :=
  match DatanodeSpec_GetFileStorage (Some g) with
  | None => []
  | Some fs => if FileStorage_IsUseEmptyDir (Some fs) then []
               else storage_target (Some fs) (datanode_resource c (dn_Name g), FileStorageTypeDatanode)
  end.

Definition rest_targets (c : GreptimeDBCluster) : list target :=
  concat (map (group_targets c) (GetDatanodeGroups (Some c)))
  ++ storage_target (RaftEngineWAL_GetFileStorage
       (WALProviderSpec_GetRaftEngineWAL (GetWALProvider (Some c))))
       (datanode_base_resource c, FileStorageTypeWAL)
  ++ storage_target (GetCacheFileStorage (GetObjectStorageProvider (Some c)))
       (datanode_base_resource c, FileStorageTypeCache).

Definition cleanup_targets (c : GreptimeDBCluster) : list target :=
  match DatanodeSpec_GetFileStorage (GetDatanode (Some c)) with
  | Some fs => if FileStorage_IsUseEmptyDir (Some fs) then []
               else storage_target (Some fs) (datanode_base_resource c, FileStorageTypeDatanode)
                    ++ rest_targets c
  | None => rest_targets c
  end.

Definition list_event (ns : string) (t : target) (r : res (list PersistentVolumeClaim)) : event :=
  ev (QList KPVC ns (pvc_selector t.1 t.2)) r.
Definition delete_event (r : res unit) (pvc : PersistentVolumeClaim) : event :=
  ev (QDelete (Object KPVC pvc)) r.

(** The runs a cleanup of a list of targets may have: it lists the claims of each
    target in turn and deletes every claim listed; it ends with the first answer that is
    not a success, or, before a list whose selector is refused, with that error. *)
Inductive cleanup_run `{SelectorLib} (ns : string) : list target -> list event -> res unit -> Prop :=
  | run_done : cleanup_run ns [] [] (Ok tt)
  | run_refused t ts e :
      selector_error (pvc_selector t.1 t.2) = Some e -> cleanup_run ns (t :: ts) [] (Err e)
  | run_list_fails t ts r r' :
      selector_error (pvc_selector t.1 t.2) = None ->
      is_Ok r = false -> r' = (x ← r; Ok tt) -> cleanup_run ns (t :: ts) [list_event ns t r] r'
  | run_delete_fails t ts claims pvc rest r :
      selector_error (pvc_selector t.1 t.2) = None -> r <> Ok tt ->
      cleanup_run ns (t :: ts)
        (list_event ns t (Ok (claims ++ pvc :: rest))
         :: map (delete_event (Ok tt)) claims ++ [delete_event r pvc]) r
  | run_target t ts claims log r :
      selector_error (pvc_selector t.1 t.2) = None -> cleanup_run ns ts log r ->
      cleanup_run ns (t :: ts)
        (list_event ns t (Ok claims) :: map (delete_event (Ok tt)) claims ++ log) r.

(** The selectors of the targets are accepted. *)
Definition selectors_accepted `{SelectorLib} (ts : list target) : Prop :=
  Forall (fun t => selector_error (pvc_selector t.1 t.2) = None) ts.

(** A computation is a cleanup of a list of targets, on every environment. *)
Definition cleans `{SelectorLib} {S} (ns : string) (ts : list target) (m : M S unit) : Prop :=
  forall W (env : environment W) s w, let o := exec env m s w in
    cleanup_run ns ts (out_log o) (out_res o) /\ out_st o = s.

(** The StatefulSets that the status check looks for, by the names it computes. *)
Definition datanode_resources (c : GreptimeDBCluster) : list string :=
  if not_nil (GetDatanode (Some c)) then [datanode_base_resource c]
  else map (fun g => datanode_resource c (dn_Name g)) (GetDatanodeGroups (Some c)).

Section server.
Context {W : Type} (env : environment W) `{!ApiServer env}.

Definition stored_sts (c : GreptimeDBCluster) (w : W) (name : string) : option StatefulSet :=
  stored w KStatefulSet (mkNamespacedName (om_Namespace (gc_ObjectMeta c)) name).

(** The API server defaults [spec.replicas]: it is never nil. *)
Definition replicas_set (c : GreptimeDBCluster) (w : W) : Prop :=
  forall name sts, stored_sts c w name = Some sts -> is_Some (ss_Replicas (sts_Spec sts)).

Definition sts_ready (c : GreptimeDBCluster) (w : W) (name : string) : bool :=
  bool_decide (IsStatefulSetReady (stored_sts c w name) = Ok true).
End server.

(** Only the status of the cluster under reconciliation and its own flag may
    change. *)
Definition own_flag (s s' : CState) : Prop :=
  same_cluster (c_cluster s) (c_cluster s')
  /\ forall k, k <> cluster_key (c_cluster s) ->
       (k ∈ c_maintenance s' <-> k ∈ c_maintenance s).

(** A metasrv that accepts what it is asked; that leaves the objects of the server alone. *)
Class MetasrvServer {W} (env : environment W) `{!ApiServer env} :=
  metasrv_accepts url w :
    exists w', env (QPost url) w = (Ok 200%Z, w') /\ forall k key, stored w' k key = stored w k key.

#[export] Instance fake_MetasrvServer : MetasrvServer fake_env.
Proof. intros url w. by exists w. Qed.

(** A pod has an initializer and a main container. *)
Definition complete_pod (t : CorePodTemplateSpec) : Prop :=
  ps_InitContainers (pt_Spec t) <> [] /\ ps_Containers (pt_Spec t) <> [].

(** Under failover, the pods of a StatefulSet and of its stored copy can be compared. *)
Definition restartable {W} (env : environment W) `{!ApiServer env} (s : CState) (w : W) (o : object)
    : Prop :=
  match o with
  | Object KStatefulSet sts =>
      shouldUseMaintenanceMode (c_cluster s) = true ->
      complete_pod (ss_Template (sts_Spec sts))
      /\ forall old, stored w KStatefulSet (key_of (sts_ObjectMeta sts)) = Some old ->
           complete_pod (ss_Template (sts_Spec old))
  | _ => True
  end.

(** *** Samples for the witnesses *)

Definition sample_container (name image : string) : Container :=
  mkContainer name image [] [] "" [] [] [] zero_ResourceRequirements [] None None None "" "" "".

(** The datanodes' StatefulSet at an image, with its applied spec recorded. *)
Definition sample_sts (image : string) : StatefulSet :=
  mkStatefulSet (meta_of "default" "c-datanode" None {[ LastAppliedResourceSpec := image ]})
    (mkStatefulSetSpec "" "" (Some 1%Z) ∅
       (mkCorePodTemplateSpec ∅ ∅
          (mkPodSpec [sample_container "datanode" image] [sample_container "init" "init:1"] [] ∅ ""
             None None "" "" false [] "" "" [] "")) [] "" None)
    (mkStatefulSetStatus 0 1 1).

(** A cluster with region failover, and one whose data is in an emptyDir. *)
Definition failover_cluster : GreptimeDBCluster :=
  mkGreptimeDBCluster (meta_of "default" "c" None ∅)
    (mkGreptimeDBClusterSpec None None
       (Some (mkMetaSpec zero_ComponentSpec 3002 4000 None (Some true) None))
       (Some zero_DatanodeSpec) [] None [] 0 0 0 0 None "" None None None None None None "" false)
    zero_ClusterStatus.

Definition emptyDir_storage : FileStorage :=
  mkFileStorage "datanode" (Some true) None "10Gi" "/data/greptimedb" StorageRetainPolicyTypeRetain
    ∅ ∅.
Definition emptyDir_cluster : GreptimeDBCluster :=
  mkGreptimeDBCluster (meta_of "default" "c" None ∅)
    (mkGreptimeDBClusterSpec None None None
       (Some (mkDatanodeSpec zero_ComponentSpec "" 0 0
                (Some (mkDatanodeStorageSpec "/data/greptimedb" (Some emptyDir_storage))) None None))
       [] None [] 0 0 0 0 None "" None None
       (Some (mkWALProviderSpec (Some (mkRaftEngineWAL (Some (sample_storage ∅)))) None))
       None None None "" false)
    zero_ClusterStatus.

(** A cluster of datanode groups whose WAL is to be deleted with it. *)
Definition wal_groups_cluster : GreptimeDBCluster :=
  mkGreptimeDBCluster (meta_of "default" "c" None ∅)
    (mkGreptimeDBClusterSpec None None None None
       [mkDatanodeSpec zero_ComponentSpec "g1" 0 0 None None None] None [] 0 0 0 0 None "" None None
       (Some (mkWALProviderSpec (Some (mkRaftEngineWAL (Some (sample_storage ∅)))) None))
       None None None "" false)
    zero_ClusterStatus.

Definition named_group (name : string) : DatanodeSpec :=
  mkDatanodeSpec zero_ComponentSpec name 0 0 None None None.

(** ** Lemmas on cleanup *)

Lemma cleanup_run_app `{SelectorLib} ns ts1 ts2 l1 l2 r :
  cleanup_run ns ts1 l1 (Ok tt) -> cleanup_run ns ts2 l2 r ->
  cleanup_run ns (ts1 ++ ts2) (l1 ++ l2) r.
Proof.
  intros H1 H2. remember (Ok tt) as r1 eqn:Hr. induction H1 as [| |t ts q r' ? Hq ->|t ts cs p rest q ? Hq|];
    cbn; [done|done|by destruct q|by subst|].
  rewrite <- app_assoc. apply run_target; auto.
Qed.

Lemma cleanup_run_stop `{SelectorLib} ns ts1 ts2 l r :
  cleanup_run ns ts1 l r -> r <> Ok tt -> cleanup_run ns (ts1 ++ ts2) l r.
Proof. induction 1; intros Hr; cbn; [done|constructor; auto..]. Qed.

Section cleans.
Context `{SelectorLib} {S : Type} (ns : string).

Lemma cleans_ret : cleans (S := S) ns [] (mret tt).
Proof. intros W env s w. rewrite exec_ret. split; [constructor|done]. Qed.

Lemma cleans_bind ts1 ts2 (m1 m2 : M S unit) :
  cleans ns ts1 m1 -> cleans ns ts2 m2 -> cleans ns (ts1 ++ ts2) (m1 ≫= fun _ => m2).
Proof.
  intros H1 H2 W env s w. rewrite exec_bind. destruct (H1 W env s w) as [Hr Hs].
  destruct (exec env m1 s w) as [[[]|e|] s' w' l]; cbn in *; subst.
  - destruct (H2 W env s w') as [Hr2 Hs2]. split; [|done]. by apply cleanup_run_app.
  - split; [|done]. by apply cleanup_run_stop.
  - split; [|done]. by apply cleanup_run_stop.
Qed.

Lemma cleans_range {A} (f : A -> M S unit) g l :
  (forall x, cleans ns (g x) (f x)) -> cleans ns (concat (map g l)) (range f l).
Proof.
  intros Hf. induction l as [|x l IH]; cbn; [apply cleans_ret|]. by apply cleans_bind.
Qed.

(** Deleting the claims of a list one after the other. *)
Lemma deletes_run W (env : environment W) (claims : list PersistentVolumeClaim) (s : S) w :
  let o := exec env (range (fun pvc : PersistentVolumeClaim => Delete (Object KPVC pvc)) claims) s w in
  out_st o = s /\
  ((out_res o = Ok tt /\ out_log o = map (delete_event (Ok tt)) claims)
   \/ exists pre pvc post r, claims = pre ++ pvc :: post /\ r <> Ok tt /\ out_res o = r
        /\ out_log o = map (delete_event (Ok tt)) pre ++ [delete_event r pvc]).
Proof.
  revert w. induction claims as [|pvc claims IH]; intros w; cbn [range].
  { rewrite exec_ret. split; [done|]. by left. }
  rewrite exec_bind, exec_Delete. cbn.
  destruct (env (QDelete (Object KPVC pvc)) w) as [[[]|e|] w1]; cbn.
  - destruct (IH w1) as [Hs [[Hr Hl]|(pre & x & post & r & -> & Hr & Hr' & Hl)]];
      (split; [done|]); [left|right].
    + by rewrite Hr, Hl.
    + exists (pvc :: pre), x, post, r. by rewrite Hl.
  - split; [done|]. right. by exists [], pvc, claims, (Err e).
  - split; [done|]. right. by exists [], pvc, claims, Panic.
Qed.

Lemma deleteStorage_cleans n t : cleans ns [(n, t)] (deleteStorage (S := S) ns n t).
Proof.
  intros W env s w. unfold deleteStorage. rewrite exec_bind. unfold GetPVCs, LabelSelectorAsSelector.
  rewrite exec_bind, exec_lift.
  destruct (selector_error (pvc_selector n t)) as [e|] eqn:Hsel; cbn [out_res out_st out_world out_log prepend app].
  { split; [|done]. by apply (run_refused ns (n, t)). }
  change (list PersistentVolumeClaim) with (list (obj KPVC)). rewrite exec_List.
  cbn. destruct (env (QList KPVC ns (pvc_selector n t)) w) as [[claims|e|] w1]; cbn.
  - pose proof (deletes_run W env claims s w1) as Hd. cbv zeta in Hd.
    destruct Hd as [Hs [[Hr Hl]|(pre & x & post & r & -> & Hr & Hr' & Hl)]]; (split; [|done]).
    + rewrite Hr, Hl. rewrite <- (app_nil_r (map _ _)).
      apply (run_target ns (n, t)); [done|constructor].
    + rewrite Hr', Hl. by apply (run_delete_fails ns (n, t)).
  - split; [|done]. by apply (run_list_fails ns (n, t) _ (Err e)).
  - split; [|done]. by apply (run_list_fails ns (n, t) _ Panic).
Qed.

Lemma cleans_when fs n t :
  cleans ns (storage_target fs (n, t)) (when (S := S) (delete_policy fs) (deleteStorage ns n t)).
Proof.
  unfold storage_target. destruct (delete_policy fs); [apply deleteStorage_cleans|apply cleans_ret].
Qed.
End cleans.

Lemma cleanup_group_cleans `{SelectorLib} {S} c g :
  cleans (S := S) (om_Namespace (gc_ObjectMeta c)) (group_targets c g) (cleanup_group c g).
Proof.
  unfold cleanup_group, group_targets. destruct (DatanodeSpec_GetFileStorage _) as [fs|];
    [|apply cleans_ret]. destruct (FileStorage_IsUseEmptyDir _); [apply cleans_ret|].
  apply cleans_when.
Qed.

Lemma cleanup_rest_cleans `{SelectorLib} {S} c :
  cleans (S := S) (om_Namespace (gc_ObjectMeta c)) (rest_targets c) (cleanup_rest c).
Proof.
  apply cleans_bind; [apply cleans_range, cleanup_group_cleans|].
  apply cleans_bind; apply cleans_when.
Qed.

(** Every target other than the datanodes' own storage is searched for with the
    base resource name. *)
Lemma cleanup_targets_shape c :
  Forall (fun tg : target => tg.2 = FileStorageTypeDatanode \/ tg.1 = datanode_base_resource c)
    (cleanup_targets c).
Proof.
  assert (Hst : forall fs t, (t.2 = FileStorageTypeDatanode \/ t.1 = datanode_base_resource c) ->
    Forall (fun tg : target => tg.2 = FileStorageTypeDatanode \/ tg.1 = datanode_base_resource c)
      (storage_target fs t)).
  { intros fs t Ht. unfold storage_target. destruct (delete_policy fs); [|constructor].
    by apply Forall_singleton. }
  assert (Hr : Forall (fun tg : target => tg.2 = FileStorageTypeDatanode
                         \/ tg.1 = datanode_base_resource c) (rest_targets c)).
  { unfold rest_targets. rewrite !Forall_app. split_and!; [|apply Hst; by right..].
    apply Forall_concat, Forall_map, Forall_true. intros g. unfold group_targets.
    destruct (DatanodeSpec_GetFileStorage _); [|done]. destruct (FileStorage_IsUseEmptyDir _); [done|].
    apply Hst. by left. }
  unfold cleanup_targets. destruct (DatanodeSpec_GetFileStorage _); [|done].
  destruct (FileStorage_IsUseEmptyDir _); [done|]. apply Forall_app. split; [|done]. apply Hst. by left.
Qed.

(** ** Lemmas on status *)

Section status.
Context {W : Type} (env : environment W) `{!ApiServer env}.

Lemma exec_getStatefulSetStatus {S} ns n (s : S) w :
  (forall sts, stored w KStatefulSet (mkNamespacedName ns n) = Some sts ->
     is_Some (ss_Replicas (sts_Spec sts))) ->
  exists l, exec env (getStatefulSetStatus ns n) s w =
    Outcome (Ok (bool_decide (IsStatefulSetReady (stored w KStatefulSet (mkNamespacedName ns n)) = Ok true),
                 default 0%Z ((fun sts => st_ReadyReplicas (sts_Status sts))
                                <$> stored w KStatefulSet (mkNamespacedName ns n)))) s w l.
Proof.
  intros Hr. unfold getStatefulSetStatus. rewrite exec_bind.
  destruct (exec_GetIfFound env KStatefulSet (mkNamespacedName ns n) s w) as [l Hget].
  change (option StatefulSet) with (option (obj KStatefulSet)). rewrite Hget. cbn [out_res out_log].
  destruct (stored w KStatefulSet (mkNamespacedName ns n)) as [sts|]; cbn [out_st out_world].
  - destruct (Hr sts eq_refl) as [n' Hn].
    cbn [obj] in *.
    assert (Hb : exists b, IsStatefulSetReady (Some sts) = Ok b).
    { unfold IsStatefulSetReady. rewrite Hn. destruct (negb _); cbn; eauto. }
    destruct Hb as [b Hb]. revert Hb. generalize (IsStatefulSetReady (Some sts)). intros r ->.
    rewrite exec_bind, exec_lift. unfold exec, prepend. cbn. eexists. by destruct b.
  - eexists. reflexivity.
Qed.

(** Whether a resource's StatefulSet is ready, by name. *)
Let ready (c : GreptimeDBCluster) (w : W) (g : DatanodeSpec) : bool :=
  sts_ready env c w (datanode_resource c (dn_Name g)).

Lemma exec_count_ready {S} c w (s : S) gs a b :
  replicas_set env c w -> (0 <= a)%Z -> (a + Z.of_nat (length gs) < 2 ^ 31)%Z ->
  exists b' l, exec env (count_ready c gs a b) s w =
    Outcome (Ok (a + Z.of_nat (length (filter (fun g => ready c w g = true) gs)), b')%Z) s w l.
Proof.
  intros Hr. revert a b. induction gs as [|g gs IH]; intros a b Ha Hlt.
  { cbn [count_ready]. rewrite exec_ret. cbn. rewrite Z.add_0_r. eauto. }
  cbn [count_ready]. rewrite exec_bind.
  change (DatanodeSpec_GetName (Some g)) with (dn_Name g).
  destruct (exec_getStatefulSetStatus (om_Namespace (gc_ObjectMeta c))
    (datanode_resource c (dn_Name g)) s w (Hr _)) as [l ->]. cbn [out_res out_st out_world out_log].
  cbn [fst snd].
  change (bool_decide (IsStatefulSetReady _ = Ok true)) with (ready c w g).
  cbn [length] in Hlt. match goal with |- context [count_ready c gs ?x ?y] =>
    assert (Hx : x = (a + if ready c w g then 1 else 0)%Z);
      [|destruct (IH x y) as (b' & l' & ->)] end.
  { destruct (ready c w g); [rewrite int32_small by (unfold is_int32; lia)|]; lia. }
  { destruct (ready c w g); lia. }
  { destruct (ready c w g); lia. }
  exists b'. eexists. unfold prepend. cbn [out_res out_st out_world out_log].
  f_equal. f_equal. f_equal. rewrite filter_cons, Hx. destruct (ready c w g).
  - rewrite decide_True by done. cbn [length]. lia.
  - rewrite decide_False by done. lia.
Qed.

(** Every group counts when all are ready, and only then. *)
Lemma all_ready_count c w gs :
  Z.eqb (0 + Z.of_nat (length (filter (fun g => ready c w g = true) gs))) (Z.of_nat (length gs))
  = forallb (sts_ready env c w) (map (fun g => datanode_resource c (dn_Name g)) gs).
Proof.
  rewrite Z.add_0_l. induction gs as [|g gs IH]; [done|]. rewrite filter_cons. cbn [map forallb].
  change (sts_ready env c w (datanode_resource c (dn_Name g))) with (ready c w g).
  pose proof (length_filter (fun g => ready c w g = true) gs) as Hle.
  destruct (ready c w g).
  - rewrite decide_True by done. rewrite <- IH. cbn [length andb].
    destruct (Z.eqb_spec (Z.of_nat (length (filter (fun g => ready c w g = true) gs))) (Z.of_nat (length gs)));
      [apply Z.eqb_eq|apply Z.eqb_neq]; lia.
  - rewrite decide_False by done. cbn [andb]. apply Z.eqb_neq. cbn [length]. lia.
Qed.
End status.

Lemma publish_returns `{RetryLaws} {W} (env : environment W) `{!ApiServer env} n s w :
  out_res (exec env (publish_datanode_status n) s w) = Ok tt.
Proof.
  unfold publish_datanode_status. rewrite exec_bind, exec_get_cluster.
  cbn [out_res out_st out_world out_log prepend app]. rewrite exec_bind. cbn. rewrite exec_bind.
  rewrite exec_get_cluster. cbn. by apply UpdateStatus_returns.
Qed.

(** On a healthy server the check answers for the StatefulSets it looks for. *)
Lemma Datanode_status_spec `{RetryLaws} {W} (env : environment W) `{!ApiServer env} s w :
  let c := c_cluster s in
  replicas_set env c w -> (Z.of_nat (length (cl_DatanodeGroups (gc_Spec c))) < 2 ^ 31)%Z ->
  out_res (exec env Datanode_CheckAndUpdateStatus s w) =
    Ok (forallb (sts_ready env c w) (datanode_resources c)).
Proof.
  intros c Hr Hlen. subst c. unfold Datanode_CheckAndUpdateStatus. rewrite exec_bind, exec_get_cluster.
  cbn [out_res out_st out_world out_log prepend app]. unfold datanode_resources.
  destruct (not_nil (GetDatanode (Some (c_cluster s)))).
  - unfold checkDatanodeStatus. rewrite exec_bind.
    destruct (exec_getStatefulSetStatus env (om_Namespace (gc_ObjectMeta (c_cluster s)))
      (datanode_base_resource (c_cluster s)) s w (Hr _)) as [l ->]. cbn [out_res out_st out_world out_log fst snd].
    rewrite exec_bind. set (n := default _ _).
    pose proof (publish_returns env n s w) as Hp.
    destruct (exec env (publish_datanode_status n) s w) as [r s1 w1 l1]. cbn in Hp. subst r.
    cbn. by rewrite andb_true_r.
  - unfold checkDatanodeGroupsStatus, GetDatanodeGroups. cbn [nil_or].
    destruct (cl_DatanodeGroups (gc_Spec (c_cluster s))) as [|g gs] eqn:Hg; [done|].
    cbn [length Nat.ltb Nat.leb]. rewrite exec_bind, exec_get_cluster.
    cbn [out_res out_st out_world out_log prepend app]. rewrite exec_bind, Hg.
    destruct (exec_count_ready env (c_cluster s) w s (g :: gs) 0 0 Hr) as (b & l & ->); [lia|exact Hlen|].
    cbn [out_res out_st out_world out_log prepend app fst snd]. rewrite exec_bind.
    pose proof (publish_returns env b s w) as Hp.
    destruct (exec env (publish_datanode_status b) s w) as [r s1 w1 l1]. cbn in Hp. subst r.
    cbn [out_res out_st out_world out_log prepend app]. rewrite exec_ret. cbn [out_res].
    rewrite int32_small by (unfold is_int32; lia). by rewrite all_ready_count.
Qed.

Lemma CleanUp_run `{SelectorLib} {W} (env : environment W) s w :
  let o := exec env Datanode_CleanUp s w in
  cleanup_run (om_Namespace (gc_ObjectMeta (c_cluster s))) (cleanup_targets (c_cluster s))
    (out_log o) (out_res o)
  /\ out_st o = s.
Proof.
  revert W env s w.
  assert (Hc : forall c, cleans (om_Namespace (gc_ObjectMeta c)) (cleanup_targets c)
    (match DatanodeSpec_GetFileStorage (GetDatanode (Some c)) with
     | Some fs =>
         if FileStorage_IsUseEmptyDir (Some fs) then mret tt
         else
           _ ← when (delete_policy (Some fs))
                 (deleteStorage (om_Namespace (gc_ObjectMeta c))
                    (datanode_base_resource c) FileStorageTypeDatanode);
           cleanup_rest (S := CState) c
     | None => cleanup_rest c
     end)).
  { intros c. unfold cleanup_targets. destruct (DatanodeSpec_GetFileStorage _) as [fs|];
      [|apply cleanup_rest_cleans]. destruct (FileStorage_IsUseEmptyDir _); [apply cleans_ret|].
    apply cleans_bind; [apply cleans_when|apply cleanup_rest_cleans]. }
  intros W env s w. unfold Datanode_CleanUp. rewrite exec_bind, exec_get_cluster.
  exact (Hc (c_cluster s) W env s w).
Qed.

Lemma CleanUp_state `{SelectorLib} {W} (env : environment W) s w : out_st (exec env Datanode_CleanUp s w) = s.
Proof. apply CleanUp_run. Qed.

(** ** Properties of cleanup *)

(** C10. On every environment, [CleanUp] takes the storages whose retain policy is Delete in
    order: it builds the storage's selector, lists the claims that it matches and deletes
    every claim listed.  It stops at the first failure with that failure, and that
    failure may be a refused selector, before any list; it sends no other request and
    leaves the deployer's memory alone. *)
Theorem CleanUp_refines `{SelectorLib} {W} (env : environment W) s w :
  let o := exec env Datanode_CleanUp s w in
  cleanup_run (om_Namespace (gc_ObjectMeta (c_cluster s))) (cleanup_targets (c_cluster s))
    (out_log o) (out_res o)
  /\ out_st o = s.
Proof. apply CleanUp_run. Qed.

(** With an emptyDir for the base datanode, [CleanUp] sends no request at all: the
    WAL and cache claims stay, whatever their retain policy says. *)
Theorem CleanUp_emptyDir_keeps_everything `{SelectorLib} {W} (env : environment W) s w fs :
  DatanodeSpec_GetFileStorage (GetDatanode (Some (c_cluster s))) = Some fs ->
  FileStorage_IsUseEmptyDir (Some fs) = true ->
  exec env Datanode_CleanUp s w = Outcome (Ok tt) s w [].
Proof.
  intros Hfs He. unfold Datanode_CleanUp. rewrite exec_bind, exec_get_cluster. cbn [out_res].
  by rewrite Hfs, He.
Qed.

(** The WAL and cache claims of a named datanode group are matched by no selector
    of [CleanUp]: they are labelled with the group's resource name and searched
    for with the base one. *)
Theorem group_wal_claims_survive `{QuantityLib} c g fs t pvc :
  t <> FileStorageTypeDatanode -> dn_Name g <> "" -> no_reserved_labels fs ->
  FileStorageToPVC (om_Name (gc_ObjectMeta c)) (dn_Name g) fs t DatanodeRoleKind = Ok pvc ->
  Forall (fun target => selector_matches (pvc_selector target.1 target.2)
                          (labels_of (pvc_ObjectMeta pvc)) = false) (cleanup_targets c).
Proof.
  intros Ht Hg Hn Hp.
  eapply Forall_impl; [apply cleanup_targets_shape|]. intros [rn t'] H1. cbn in H1.
  rewrite <- not_true_iff_false, (claim_selected_iff _ _ _ _ _ _ _ _ Hp Hn). cbn.
  intros [-> ->]. destruct H1 as [->|H1]; [done|].
  by apply (ResourceName_group_ne _ _ _ Hg) in H1.
Qed.
(** ** Lemmas on maintenance mode *)

#[export] Instance own_flag_preorder : PreOrder own_flag.
Proof.
  split; [by intros s|]. intros a b c [Hk1 H1] [Hk2 H2]. split; [by transitivity (c_cluster b)|].
  intros k Hk. rewrite H2; [by apply H1|]. unfold cluster_key in *. by destruct Hk1 as [-> _].
Qed.

Section maintenance.
Context `{RetryLaws}.

Lemma exec_arm W (env : environment W) k s w :
  exec env (arm k) s w = Outcome (Ok tt) (mkCState (c_cluster s) ({[ k ]} ∪ c_maintenance s)) w [].
Proof. done. Qed.

Lemma exec_disarm W (env : environment W) k s w :
  exec env (disarm k) s w = Outcome (Ok tt) (mkCState (c_cluster s) (c_maintenance s ∖ {[ k ]})) w [].
Proof. done. Qed.

(** Arming and disarming the flag of the cluster at hand touches no other. *)
Lemma own_flag_arm s :
  own_flag s (mkCState (c_cluster s) ({[ cluster_key (c_cluster s) ]} ∪ c_maintenance s)).
Proof. split; [done|]. intros k Hk. cbn. set_solver. Qed.

Lemma own_flag_disarm s :
  own_flag s (mkCState (c_cluster s) (c_maintenance s ∖ {[ cluster_key (c_cluster s) ]})).
Proof. split; [done|]. intros k Hk. cbn. set_solver. Qed.

Lemma turnOff_own_flag : preserves own_flag turnOffMaintenanceMode.
Proof.
  intros W env s w. unfold turnOffMaintenanceMode. rewrite exec_bind, exec_get.
  cbn [out_res out_st out_world out_log]. destruct (_ && _); cbn; [|done].
  destruct (switch_outcome W env (c_cluster s) false _ _ s w (exec_disarm W env (cluster_key (c_cluster s))))
    as [[_ ->]|(_ & -> & _)]; [done|apply own_flag_disarm].
Qed.

Lemma turnOn_own_flag sts : preserves own_flag (turnOnMaintenanceMode sts).
Proof.
  intros W env s w. unfold turnOnMaintenanceMode. rewrite exec_bind.
  change (@exec CState W StatefulSet) with (@exec CState W (obj KStatefulSet)). rewrite exec_Get.
  destruct (env (QGet KStatefulSet _) w) as [[old|e|] w']; cbn [out_res out_st out_world out_log fst snd];
    [|done..].
  rewrite exec_bind, exec_get. cbn [out_res out_st out_world out_log prepend app].
  destruct (decide _); [done|]. rewrite exec_bind, exec_lift.
  cbn [out_res out_st out_world out_log]. destruct (isOldPodRestart sts old) as [[|]|e|]; [|done..].
  cbn [prepend out_st].
  destruct (switch_outcome W env (c_cluster s) true _ _ s w' (exec_arm W env (cluster_key (c_cluster s))))
    as [[_ ->]|(_ & -> & _)]; [done|apply own_flag_arm].
Qed.

Lemma before_patch_own_flag o : preserves own_flag (before_patch o).
Proof.
  destruct o as [[] v]; cbn [before_patch]; try apply preserves_ret, _.
  apply preserves_bind; [apply _|unfold get_cluster; solve_preserves|]. intros c.
  apply preserves_when; [apply _|apply turnOn_own_flag].
Qed.

Lemma getStatefulSetStatus_preserves {S} (R : S -> S -> Prop) `{!PreOrder R} ns n :
  preserves R (getStatefulSetStatus ns n).
Proof. unfold getStatefulSetStatus, GetIfFound. solve_preserves. Qed.

Lemma publish_own_flag n : preserves own_flag (publish_datanode_status n).
Proof.
  unfold publish_datanode_status, get_cluster. repeat preserves_step.
  - apply preserves_modify. done.
  - apply UpdateStatus_preserves, _.
Qed.

Lemma Datanode_status_own_flag : preserves own_flag Datanode_CheckAndUpdateStatus.
Proof.
  assert (Hc : forall c gs a b, preserves (S := CState) own_flag (count_ready c gs a b)).
  { intros c gs. induction gs as [|g gs IH]; intros a b; cbn [count_ready]; [apply preserves_ret, _|].
    apply preserves_bind; [apply _|apply getStatefulSetStatus_preserves, _|]. intros st. apply IH. }
  unfold Datanode_CheckAndUpdateStatus, checkDatanodeGroupsStatus, checkDatanodeStatus, get_cluster.
  repeat preserves_step; eauto using getStatefulSetStatus_preserves, publish_own_flag, own_flag_preorder.
Qed.

Lemma Datanode_Apply_own_flag `{JsonLib} objects : preserves own_flag (Datanode_Apply objects).
Proof.
  apply apply_with_preserves; [apply _|]. intros o. unfold datanode_apply_object.
  apply preserves_bind; [apply _|apply CreateObjectIfNotExist_preserves, _|]. intros [old|];
    [|apply preserves_ret, _].
  apply preserves_bind; [apply _|apply preserves_lift, _|]. intros se. cbv zeta.
  destruct (negb se || _); [|apply preserves_ret, _].
  apply preserves_bind; [apply _|apply before_patch_own_flag|]. solve_preserves.
Qed.

(** Restarting the pods of a stored StatefulSet arms the flag first. *)
Lemma turnOn_restart {W} (env : environment W) `{!ApiServer env} sts old s w :
  stored w KStatefulSet (key_of (sts_ObjectMeta sts)) = Some old ->
  isOldPodRestart sts old = Ok true ->
  let o := exec env (turnOnMaintenanceMode sts) s w in
  out_res o = Ok tt ->
  cluster_key (c_cluster s) ∈ c_maintenance (out_st o)
  /\ (cluster_key (c_cluster s) ∉ c_maintenance s ->
      Exists (maintenance_accepted (c_cluster s) true) (out_log o)).
Proof.
  intros Hs Hr. cbv zeta. unfold turnOnMaintenanceMode. rewrite exec_bind.
  destruct (exec_Get_stored env KStatefulSet (key_of (sts_ObjectMeta sts)) s w) as [l Hget].
  change (@exec CState W StatefulSet) with (@exec CState W (obj KStatefulSet)).
  rewrite Hget, Hs. cbn [out_res out_st out_world out_log].
  rewrite exec_bind, exec_get. cbn [out_res out_st out_world out_log prepend app].
  destruct (decide _) as [Hin|Hnin]; [done|].
  rewrite exec_bind, exec_lift, Hr. cbn [out_res out_st out_world out_log prepend app].
  pose proof (switch_outcome W env (c_cluster s) true _ _ s w
    (exec_arm W env (cluster_key (c_cluster s)))) as Hsw. cbv zeta in Hsw.
  destruct Hsw as [[? _]|(_ & -> & Hlog)]; [done|]. intros _. split; [cbn; set_solver|].
  intros _. apply Exists_app. by right.
Qed.

(** *** The deployer's own [Apply] converges too *)

Lemma isOldPodRestart_returns new old :
  complete_pod (ss_Template (sts_Spec new)) -> complete_pod (ss_Template (sts_Spec old)) ->
  exists b, isOldPodRestart new old = Ok b.
Proof.
  intros [Hi Hc] [Hi' Hc']. unfold isOldPodRestart, index0.
  destruct (ps_InitContainers (pt_Spec (ss_Template (sts_Spec new)))); [done|].
  destruct (ps_InitContainers (pt_Spec (ss_Template (sts_Spec old)))); [done|].
  destruct (ps_Containers (pt_Spec (ss_Template (sts_Spec new)))); [done|].
  destruct (ps_Containers (pt_Spec (ss_Template (sts_Spec old)))); [done|].
  cbn [head deref mbind res_bind]. repeat case_match; eauto.
Qed.

Definition same_cluster_object (s s' : CState) : Prop := c_cluster s' = c_cluster s.

#[export] Instance same_cluster_object_preorder : PreOrder same_cluster_object.
Proof. split; [by intros s|]. intros a b c H1 H2. unfold same_cluster_object in *. congruence. Qed.

Section apply.
Context `{JsonLib} {W : Type} (env : environment W) `{!ApiServer env} `{!MetasrvServer env}.

Lemma exec_SetMaintenanceMode_accepted {S} url b (s : S) w :
  exists w' l, exec env (SetMaintenanceMode url b) s w = Outcome (Ok tt) s w' l
    /\ forall k key, stored w' k key = stored w k key.
Proof.
  destruct (metasrv_accepts (url +:+ maintenance_endpoint b) w) as (w' & He & Hst).
  assert (Hop : exists l, exec env (maintenance_post (url +:+ maintenance_endpoint b)) s w
                          = Outcome (Ok tt) s w' l).
  { unfold maintenance_post. rewrite !exec_bind.
    pose proof (exec_ask env (QPost (url +:+ maintenance_endpoint b)) s w) as Ha. rewrite He in Ha.
    cbn [resp] in Ha. rewrite Ha. eexists. reflexivity. }
  destruct Hop as [l Hop]. exists w', l. split; [|exact Hst]. unfold SetMaintenanceMode.
  rewrite retry_Do_first; [exact Hop|by rewrite Hop].
Qed.

(** Before the patch of a stored object, the metasrv is in maintenance mode if need be. *)
Lemma exec_before_patch o s w :
  restartable env s w o -> is_Some (stored w (o_kind o) (object_key o)) ->
  exists s' w' l, exec env (before_patch o) s w = Outcome (Ok tt) s' w' l
    /\ same_cluster_object s s' /\ forall k key, stored w' k key = stored w k key.
Proof.
  destruct o as [[] sts]; cbn [before_patch o_kind]; intros Hr [old Hold]; try by exists s, w, [].
  rewrite exec_bind, exec_get_cluster. cbn [out_res out_st out_world out_log].
  destruct (shouldUseMaintenanceMode (c_cluster s)) eqn:Hf; [|by exists s, w, []].
  destruct (Hr Hf) as [Hnew Hstored]. specialize (Hstored old Hold).
  destruct (isOldPodRestart_returns sts old Hnew Hstored) as [restart Hrestart].
  cbn [when]. unfold turnOnMaintenanceMode. rewrite exec_bind.
  change (@exec CState W StatefulSet) with (@exec CState W (obj KStatefulSet)).
  destruct (exec_Get_stored env KStatefulSet (key_of (sts_ObjectMeta sts)) s w) as [l ->].
  change (stored w KStatefulSet (key_of (sts_ObjectMeta sts)) = Some old) in Hold. rewrite Hold.
  cbn [out_res out_st out_world out_log]. rewrite exec_bind, exec_get.
  cbn [out_res out_st out_world out_log prepend app]. destruct (decide _); [by eexists _, _, _|].
  rewrite exec_bind, exec_lift, Hrestart. cbn [out_res out_st out_world out_log].
  destruct restart; [|by eexists _, _, _]. rewrite exec_bind, exec_lift.
  assert (Hurl : exists url, GetMetaHTTPServiceURL (c_cluster s) = Ok url).
  { unfold shouldUseMaintenanceMode, GetMeta in Hf. unfold GetMetaHTTPServiceURL.
    cbn in Hf. destruct (cl_Meta (gc_Spec (c_cluster s))); [by eexists|done]. }
  destruct Hurl as [url ->]. cbn [out_res out_st out_world out_log]. rewrite exec_bind.
  destruct (exec_SetMaintenanceMode_accepted url true s w) as (w' & l' & -> & Hst).
  cbn [out_res out_st out_world out_log]. rewrite exec_arm. eexists _, _, _. split; [reflexivity|].
  by split.
Qed.

#[export] Instance datanode_apply_converging :
  Converging env same_cluster_object (restartable env) datanode_apply_object.
Proof.
  split.
  - intros s w o (old & Hs & Heq & Hl). unfold datanode_apply_object. rewrite exec_bind.
    rewrite (exec_CreateObjectIfNotExist_stored env (o_kind o) (o_val o) old s w Hs).
    cbn [out_res out_st out_world out_log]. rewrite exec_bind, exec_lift, Heq.
    cbn [out_res out_st out_world out_log]. unfold IsObjectLabelsEqual.
    rewrite Hl, bool_decide_eq_true_2 by done. eexists. split; [reflexivity|]. by repeat constructor.
  - intros s w o Hann (Hcmp & Hw & Hemp) Hr. unfold writable in Hw.
    pose proof (exec_CreateObjectIfNotExist env (o_kind o) (o_val o) s w) as Hc. cbv zeta in Hc.
    change (key_of (obj_meta (o_val o))) with (object_key o) in Hc.
    rewrite server_get in Hc. unfold datanode_apply_object. rewrite exec_bind.
    destruct (stored w (o_kind o) (object_key o)) as [old|] eqn:Hs; cbn [fst snd] in Hc.
    + destruct (Hcmp old Hs) as [specEqual Heq]. destruct Hw as [Hw _]. rewrite Hc.
      cbn [out_res out_st out_world out_log]. rewrite exec_bind, exec_lift, Heq.
      cbn [out_res out_st out_world out_log]. set (labelsEqual := IsObjectLabelsEqual _ _).
      destruct (negb specEqual || negb labelsEqual) eqn:Hdiff.
      * rewrite exec_bind.
        destruct (exec_before_patch o s w Hr) as (s1 & w1 & l1 & -> & HR & Hst); [by eexists|].
        cbn [out_res out_st out_world out_log].
        destruct (server_patch w1 o old) as (w' & o' & He & Hs' & Hl' & Ha' & Hu); [by rewrite Hst|done|].
        rewrite exec_bind, exec_Patch, He. cbn [out_res out_st out_world out_log fst snd].
        rewrite exec_ret. eexists _, _, _, _. split; [reflexivity|].
        cbn [out_st out_world]. split; [exact HR|]. split.
        -- eapply in_sync_written; [done|done|exact Hs'|done|done].
        -- intros k key Hne. by rewrite Hu, Hst.
      * rewrite exec_ret. eexists _, _, _, _. split; [reflexivity|]. split; [done|]. split; [|done].
        apply orb_false_iff in Hdiff as [Hd1 Hd2]. apply negb_false_iff in Hd1, Hd2. subst specEqual.
        exists old. split_and!; [done..|]. by apply bool_decide_eq_true in Hd2.
    + destruct (server_create w o Hs Hw) as (w' & o' & He & Hs' & Hl' & Ha' & Hu).
      replace (Object (o_kind o) (o_val o)) with o in Hc by (by destruct o). rewrite He in Hc.
      rewrite Hc. cbn. rewrite exec_ret. eexists _, _, _, _. split; [reflexivity|]. split; [done|].
      split; [by eapply in_sync_written|exact Hu].
  - intros s s' w w' [[] sts] HR Hst; cbn [restartable o_kind] in *; try done.
    rewrite HR. intros Hr Hf. destruct (Hr Hf) as [Hn Hold]. split; [done|]. intros old Ho.
    apply Hold. rewrite <- Ho. symmetry. exact Hst.
Qed.
End apply.

(** With the flag armed the metasrv is not asked for anything: a flag that is left
    over lets the pods restart outside of maintenance mode. *)
Theorem armed_flag_skips_maintenance {W} (env : environment W) sts s w :
  cluster_key (c_cluster s) ∈ c_maintenance s ->
  let read := QGet KStatefulSet (key_of (sts_ObjectMeta sts)) in
  exec env (turnOnMaintenanceMode sts) s w
  = Outcome (_ ← (env read w).1; Ok tt) s (env read w).2 [ev read (env read w).1].
Proof.
  intros Hin read. unfold turnOnMaintenanceMode. rewrite exec_bind.
  change (@exec CState W StatefulSet) with (@exec CState W (obj KStatefulSet)). rewrite exec_Get.
  fold read. cbn [out_res out_st out_world out_log]. destruct (env read w).1; [|done..].
  cbn [out_res out_st out_world out_log]. rewrite exec_bind, exec_get.
  cbn [out_res out_st out_world out_log]. by rewrite decide_True.
Qed.
End maintenance.

(** ** Properties of maintenance mode *)

(** C13. No operation of the deployer for one cluster changes the maintenance flag of
    another: the flags of the clusters do not interfere. *)
Theorem maintenance_isolated `{JsonLib} `{RetryLaws} `{SelectorLib} objects :
  preserves own_flag (Datanode_Apply objects)
  /\ Forall (preserves own_flag) Datanode_PostSyncHooks
  /\ preserves own_flag Datanode_CheckAndUpdateStatus
  /\ preserves own_flag Datanode_CleanUp.
Proof.
  split_and!.
  - apply Datanode_Apply_own_flag.
  - apply Forall_singleton, turnOff_own_flag.
  - apply Datanode_status_own_flag.
  - intros W env s w. by rewrite CleanUp_state.
Qed.

(** C6. On a healthy server, when failover is enabled, a patch of a StatefulSet that restarts
    its pods and is accepted is the last request, sent only with the cluster's maintenance
    flag armed; if it was not armed, the metasrv accepted to enter maintenance mode before
    the patch. *)
Theorem restart_under_maintenance `{JsonLib} `{RetryLaws} {W} (env : environment W)
    `{!ApiServer env} sts old s w :
  let o := exec env (datanode_apply_object (Object KStatefulSet sts)) s w in
  stored w KStatefulSet (key_of (sts_ObjectMeta sts)) = Some old ->
  shouldUseMaintenanceMode (c_cluster s) = true ->
  isOldPodRestart sts old = Ok true ->
  out_res o = Ok true ->
  cluster_key (c_cluster s) ∈ c_maintenance (out_st o)
  /\ exists before, out_log o = before ++ [ev (QPatch (Object KStatefulSet sts)
                                                    (Object KStatefulSet old)) (Ok tt)]
     /\ (cluster_key (c_cluster s) ∉ c_maintenance s ->
         Exists (maintenance_accepted (c_cluster s) true) before).
Proof.
  intros o Hs Hf Hr. subst o. unfold datanode_apply_object.
  rewrite exec_bind. cbn [o_kind o_val].
  rewrite (exec_CreateObjectIfNotExist_stored env KStatefulSet sts old) by done.
  cbn [out_res out_st out_world out_log prepend].
  rewrite exec_bind, exec_lift. cbn [out_res out_st out_world out_log].
  destruct (IsObjectSpecEqual _ _ _) as [se|e|]; [|done..]. cbn [prepend app].
  destruct (negb se || _); [|done]. cbn [before_patch].
  rewrite exec_bind, exec_bind, exec_get_cluster. cbn [out_res out_st out_world out_log]. rewrite Hf.
  cbn [when]. pose proof (turnOn_restart env sts old s w Hs Hr) as Ht. cbv zeta in Ht.
  destruct (exec env (turnOnMaintenanceMode sts) s w) as [[[]|e|] s1 w1 l1]; [|done..].
  cbn [out_res out_st out_world out_log prepend app] in *.
  destruct (Ht eq_refl) as [Hin Hlog]. rewrite exec_bind, exec_Patch.
  destruct (env (QPatch _ _) w1) as [[[]|e|] w2]; cbn [out_res fst]; [|done..]. intros _.
  cbn [prepend out_st out_log exec]. rewrite exec_ret. cbn. split; [done|].
  eexists (_ :: l1). split; [done|]. intros Hn. by right; apply Hlog.
Qed.

(** The hook after a synchronisation leaves maintenance mode exactly when the
    cluster's flag is armed and failover is still enabled; it then disarms the
    flag only if the metasrv accepted.  Otherwise it sends nothing. *)
Theorem turnOff_spec `{RetryLaws} {W} (env : environment W) s w :
  let o := exec env turnOffMaintenanceMode s w in
  let key := cluster_key (c_cluster s) in
  if decide (key ∈ c_maintenance s /\ shouldUseMaintenanceMode (c_cluster s) = true)
  then (out_res o <> Ok tt /\ out_st o = s)
       \/ (out_res o = Ok tt
           /\ out_st o = mkCState (c_cluster s) (c_maintenance s ∖ {[ key ]})
           /\ Exists (maintenance_accepted (c_cluster s) false) (out_log o))
  else o = Outcome (Ok tt) s w [].
Proof.
  cbv zeta. unfold turnOffMaintenanceMode. rewrite exec_bind, exec_get.
  cbn [out_res out_st out_world out_log prepend app].
  destruct (decide _) as [[Hin Hf]|Hno].
  - rewrite bool_decide_eq_true_2, Hf by done. cbn [andb].
    exact (switch_outcome W env (c_cluster s) false _ _ s w
             (exec_disarm W env (cluster_key (c_cluster s)))).
  - replace (_ && _) with false; [done|]. symmetry. apply not_true_iff_false.
    rewrite andb_true_iff, bool_decide_eq_true. exact Hno.
Qed.

(** *** Witnesses *)

Lemma CleanUp_emptyDir_keeps_everything_witness :
  delete_policy (RaftEngineWAL_GetFileStorage
    (WALProviderSpec_GetRaftEngineWAL (GetWALProvider (Some emptyDir_cluster)))) = true
  /\ let _ := short_values in exec fake_env Datanode_CleanUp (mkCState emptyDir_cluster ∅) []
    = Outcome (Ok tt) (mkCState emptyDir_cluster ∅) [] [].
Proof.
  split; [reflexivity|].
  apply (CleanUp_emptyDir_keeps_everything (H := short_values) fake_env (mkCState emptyDir_cluster ∅) [] emptyDir_storage);
    reflexivity.
Defined.

Lemma group_wal_claims_survive_witness :
  let _ := any_quantity in
  exists pvc,
    FileStorageToPVC "c" "g1" (sample_storage ∅) FileStorageTypeWAL DatanodeRoleKind = Ok pvc
    /\ Forall (fun target => selector_matches (pvc_selector target.1 target.2)
                               (labels_of (pvc_ObjectMeta pvc)) = false)
         (cleanup_targets wal_groups_cluster).
Proof.
  intros Q. eexists. split; [reflexivity|].
  apply (group_wal_claims_survive (H := Q) wal_groups_cluster
    (named_group "g1") (sample_storage ∅) FileStorageTypeWAL); try done.
Defined.

Lemma maintenance_isolated_witness :
  let _ := text_json in let _ := simple_retry in
  preserves own_flag (Datanode_Apply [Object KStatefulSet (sample_sts "v2")]).
Proof.
  intros J R.
  exact (proj1 (maintenance_isolated (H := J) (H0 := R) (H1 := simple_retry_laws) (H2 := short_values) _)).
Defined.

Lemma restart_under_maintenance_witness :
  let _ := text_json in let _ := simple_retry in
  let s := mkCState failover_cluster ∅ in
  let o := exec fake_env (datanode_apply_object (Object KStatefulSet (sample_sts "v2"))) s
             [Object KStatefulSet (sample_sts "v1")] in
  isOldPodRestart (sample_sts "v2") (sample_sts "v1") = Ok true
  /\ cluster_key failover_cluster ∈ c_maintenance (out_st o)
  /\ exists before, out_log o = before ++ [ev (QPatch (Object KStatefulSet (sample_sts "v2"))
                                                     (Object KStatefulSet (sample_sts "v1"))) (Ok tt)]
     /\ (cluster_key failover_cluster ∉ (∅ : gset NamespacedName) ->
         Exists (maintenance_accepted failover_cluster true) before).
Proof.
  intros J R s o. split; [vm_compute; reflexivity|].
  apply (restart_under_maintenance (H := J) (H0 := R) (H1 := simple_retry_laws) fake_env
    (sample_sts "v2") (sample_sts "v1") s); vm_compute; reflexivity.
Defined.

Lemma turnOff_spec_witness :
  let _ := simple_retry in
  let s := mkCState failover_cluster {[ cluster_key failover_cluster ]} in
  let o := exec fake_env turnOffMaintenanceMode s [] in
  out_res o = Ok tt
  /\ if decide (cluster_key failover_cluster ∈ c_maintenance s
                /\ shouldUseMaintenanceMode failover_cluster = true)
     then (out_res o <> Ok tt /\ out_st o = s)
          \/ (out_res o = Ok tt
              /\ out_st o = mkCState failover_cluster
                              (c_maintenance s ∖ {[ cluster_key failover_cluster ]})
              /\ Exists (maintenance_accepted failover_cluster false) (out_log o))
     else o = Outcome (Ok tt) s [] [].
Proof.
  intros R s o. split; [vm_compute; reflexivity|].
  apply (turnOff_spec (H := R) (H0 := simple_retry_laws) fake_env s []).
Defined.

