(* ===== verification/Claims.v ===== *)
(** * Claims: the storages of a datanode or a standalone

    What the two builders generate for the three kinds of storage (data, WAL, cache):
    the mounts of the main container, and the claims; and which of the claims a
    clean-up selects.  The same text in deployers/datanode.go and in the standalone's
    deployer.go. *)

From stdpp Require Import base gmap strings list fin_maps.
From S2P Require Import Prelude GoLib K8s ApiCommon ApiTypes Client Common Pods Cluster Generator Datanode.

Section storages.
Variables (data wal cache : option FileStorage).

(** The mounts, in this order. *)
Definition mount_storages (t : CorePodTemplateSpec) : res CorePodTemplateSpec :=
  t ← mount_storage data t;
  t ← mount_storage wal t;
  mount_storage cache t.

(** The storages that there are. *)
Definition storages : list (FileStorage * FileStorageType) :=
  option_list ((fun fs => (fs, FileStorageTypeDatanode)) <$> data)
  ++ option_list ((fun fs => (fs, FileStorageTypeWAL)) <$> wal)
  ++ option_list ((fun fs => (fs, FileStorageTypeCache)) <$> cache).

(** One claim per storage, in this order. *)
Definition generate_claims `{QuantityLib} (name group : string) (kind : RoleKind)
    : res (list PersistentVolumeClaim) :=
  map_res (fun '(fs, t) => FileStorageToPVC name group fs t kind) storages.

(** No claims with an emptyDir. *)
Definition claims_unless_emptyDir `{QuantityLib} (name group : string) (kind : RoleKind)
    : res (list PersistentVolumeClaim) :=
  if FileStorage_IsUseEmptyDir data then Ok [] else generate_claims name group kind.

(** What a clean-up is to delete for one resource. *)
Definition storage_targets (rn : string) : list target :=
  storage_target data (rn, FileStorageTypeDatanode) ++ storage_target wal (rn, FileStorageTypeWAL)
  ++ storage_target cache (rn, FileStorageTypeCache).

(** ** Lemmas *)

Lemma elem_of_storages fs t :
  (fs, t) ∈ storages <->
  (t = FileStorageTypeDatanode /\ data = Some fs) \/ (t = FileStorageTypeWAL /\ wal = Some fs)
  \/ (t = FileStorageTypeCache /\ cache = Some fs).
Proof.
  unfold storages. destruct data, wal, cache; cbn;
    rewrite ?elem_of_cons, ?elem_of_nil; naive_solver.
Qed.

Lemma elem_of_storage_target fs n t n' t' :
  (n, t) ∈ storage_target fs (n', t') <-> n = n' /\ t = t' /\ delete_policy fs = true.
Proof.
  unfold storage_target. destruct (delete_policy fs); [rewrite list_elem_of_singleton|rewrite elem_of_nil];
    naive_solver.
Qed.

Lemma elem_of_storage_targets rn t :
  (rn, t) ∈ storage_targets rn <-> exists fs, (fs, t) ∈ storages /\ delete_policy (Some fs) = true.
Proof.
  unfold storage_targets. rewrite !elem_of_app, !elem_of_storage_target.
  setoid_rewrite elem_of_storages. destruct data, wal, cache; naive_solver.
Qed.

Lemma generate_claims_storages `{QuantityLib} name group kind claims :
  generate_claims name group kind = Ok claims ->
  Forall2 (fun s pvc => FileStorageToPVC name group s.1 s.2 kind = Ok pvc) storages claims.
Proof.
  intros Hc%map_res_Ok. eapply Forall2_impl; [exact Hc|]. by intros [fs t] pvc.
Qed.

(** The claims carry the names of the storages. *)
Lemma claims_names `{QuantityLib} name group kind claims fs :
  claims_unless_emptyDir name group kind = Ok claims -> FileStorage_IsUseEmptyDir data = false ->
  fs ∈ [data; wal; cache] -> fs <> None -> FileStorage_GetName fs ∈ claim_names claims.
Proof.
  unfold claims_unless_emptyDir. intros Hc He. rewrite He in Hc. apply generate_claims_storages in Hc.
  rewrite !elem_of_cons, elem_of_nil. intros Hin Hn.
  assert (Hs : exists fs' t, fs = Some fs' /\ (fs', t) ∈ storages).
  { destruct fs as [fs|]; [|done]. setoid_rewrite elem_of_storages. naive_solver. }
  destruct Hs as (fs' & t & -> & Hs). apply list_elem_of_lookup in Hs as [i Hi].
  destruct (Forall2_lookup_l _ _ _ _ _ Hc Hi) as (pvc & Hp & Hpvc). cbn in Hpvc.
  apply list_elem_of_fmap. exists pvc. split; [|by eapply list_elem_of_lookup_2].
  unfold FileStorageToPVC in Hpvc. res_inv. by subst pvc.
Qed.

Lemma has_main_mount_storages t t' : mount_storages t = Ok t' -> has_main t -> has_main t'.
Proof.
  unfold mount_storages. intros (t1 & H1 & (t2 & H2 & H3)%bind_Ok)%bind_Ok Ht.
  eauto using has_main_mount_storage.
Qed.

Lemma extends_mount_storages names t t' :
  mount_storages t = Ok t' ->
  (forall fs, fs ∈ [data; wal; cache] -> fs <> None -> FileStorage_GetName fs ∈ names) ->
  extends names t t'.
Proof.
  unfold mount_storages. intros Hm Hin.
  assert (Hone : forall fs t t', fs ∈ [data; wal; cache] -> mount_storage fs t = Ok t' -> extends names t t').
  { intros fs t0 t1 Hfs H0. eapply extends_mount_storage; [exact H0|].
    intros Hf. apply elem_of_app. right. by apply Hin. }
  apply bind_Ok in Hm as (t1 & H1 & Hm). apply bind_Ok in Hm as (t2 & H2 & H3).
  transitivity t1; [|transitivity t2]; eapply Hone; [|exact H1| |exact H2| |exact H3]; set_solver.
Qed.

(** What a pod that mounts its storages needs besides its own volumes: the claims, or
    the emptyDir of its data when that is the only storage. *)
Lemma closed_with_storages `{QuantityLib} name group kind claims pod t :
  claims_unless_emptyDir name group kind = Ok claims ->
  (FileStorage_IsUseEmptyDir data = true -> wal = None /\ cache = None) ->
  (forall names, (forall fs, fs ∈ [data; wal; cache] -> fs <> None -> FileStorage_GetName fs ∈ names) ->
     extends names pod t) ->
  (FileStorage_IsUseEmptyDir data = true -> FileStorage_GetName data ∈ pod_volumes t) ->
  closed (claim_names claims) pod -> closed (claim_names claims) t.
Proof.
  intros Hc Hempty Hext Hvol Hpod. destruct (FileStorage_IsUseEmptyDir data) eqn:He.
  - destruct (Hempty eq_refl) as [-> ->]. eapply closed_drop; [by apply Hvol|].
    apply (Hext (FileStorage_GetName data :: claim_names claims)).
    + intros fs Hfs Hn. rewrite !elem_of_cons in Hfs. destruct Hfs as [->|[->|[->|Hfs]]]; try done; set_solver.
    + eapply closed_with_claims; [|exact Hpod]. set_solver.
  - apply (Hext (claim_names claims)); [|done]. intros fs Hfs Hn. by eapply claims_names.
Qed.

(** The claims that a clean-up selects, when its targets for the resource are the
    storages with the policy Delete. *)
Lemma claims_selected `{QuantityLib} name kind claims targets :
  generate_claims name "" kind = Ok claims -> Forall (fun s => no_reserved_labels s.1) storages ->
  (forall t, (ResourceName name kind [], t) ∈ targets <->
     exists fs, (fs, t) ∈ storages /\ delete_policy (Some fs) = true) ->
  Forall2 (fun s pvc =>
      Exists (fun tg => selector_matches (pvc_selector tg.1 tg.2) (labels_of (pvc_ObjectMeta pvc)) = true)
        targets <-> delete_policy (Some s.1) = true) storages claims.
Proof.
  intros Hc Hl Ht. apply generate_claims_storages in Hc.
  apply Forall2_same_length_lookup_2; [by eapply Forall2_length|].
  intros i [fs t] pvc Hs Hp. pose proof (Forall2_lookup_lr _ _ _ _ _ _ Hc Hs Hp) as Hpvc.
  rewrite Forall_lookup in Hl. specialize (Hl _ _ Hs). cbn in Hpvc, Hl.
  transitivity ((ResourceName name kind [], t) ∈ targets).
  - rewrite Exists_exists. split.
    + intros ([rn t'] & Hin & Hsel). cbn in Hsel.
      apply (claim_selected_iff _ _ _ _ _ _ _ _ Hpvc Hl) in Hsel as [-> ->].
      by rewrite ResourceName_empty_extra in Hin.
    + intros Hin. eexists. split; [exact Hin|]. apply (claim_selected_iff _ _ _ _ _ _ _ _ Hpvc Hl).
      by rewrite ResourceName_empty_extra.
  - rewrite Ht. apply list_elem_of_lookup_2 in Hs.
    split; [|by exists fs]. intros (fs' & Hin & Hdel). rewrite elem_of_storages in *. cbn.
    replace fs with fs'; [done|]. destruct t; naive_solver.
Qed.
End storages.
