(* ===== verification/DatanodeGen.v ===== *)
(** * controllers/greptimedbcluster/deployers/datanode.go: the datanode builder

    The services, config maps, StatefulSets and pod monitors of the datanodes: one
    of each for the base datanode, or one of each per datanode group. *)

From stdpp Require Import base gmap sets strings list fin_maps.
From Stdlib Require Import ZArith Lia.
From S2P Require Import Prelude GoLib Hash K8s ApiCommon ApiTypes Client ApiServer K8sUtil.
From S2P Require Import Deployer Builder Common NodeId Validate Toml DbConfig Initializer Pods.
From S2P Require Import Mergo Defaulting Cluster Generator Datanode Claims.

Section datanode_builder.
Context `{TomlLib} `{VectorLib} `{QuantityLib}.
Variable c : GreptimeDBCluster.
Notation cluster := (Some c).

Definition datanode_name (spec : DatanodeSpec) : string :=
  resource c DatanodeRoleKind [DatanodeSpec_GetName (Some spec)].

(** ** Pod templates *)

(** [Spec.Meta] is dereferenced. *)
Definition datanode_generateMainContainerArgs (spec : DatanodeSpec) : res (list string) :=
  meta ← deref (cl_Meta (gc_Spec c));
  Ok ["datanode"; "start";
      "--metasrv-addrs"; resource c MetaRoleKind [] +:+ "." +:+ cluster_namespace c +:+ ":"
                         +:+ fmt_d (me_RPCPort meta);
      "--http-addr"; GetBindAddress (cl_EnableIPv6 (gc_Spec c)) (dn_HTTPPort spec);
      "--config-file"; config_file].

Definition datanode_containerPorts (spec : DatanodeSpec) : list ContainerPort :=
  [container_port "rpc" (dn_RPCPort spec); container_port "http" (dn_HTTPPort spec)].

Definition datanode_servicePorts (spec : DatanodeSpec) : list ServicePort :=
  [service_port "rpc" (dn_RPCPort spec); service_port "http" (dn_HTTPPort spec)].

(** [Spec.Initializer] is dereferenced. *)
Definition datanode_generateInitializer (spec : DatanodeSpec) (groupID : option Z) : res Container :=
  initializer ← deref (cl_Initializer (gc_Spec c));
  Ok (plain_container "initializer" (in_Image initializer) ["greptimedb-initializer"]
        (["--config-path"; config_file;
          "--init-config-path"; path_Join GreptimeDBInitConfigDir GreptimeDBConfigFileName;
          "--rpc-port"; fmt_d (dn_RPCPort spec); "--component-kind"; DatanodeRoleKind]
         ++ match groupID with Some id => ["--datanode-group-id"; fmt_d id] | None => [] end
         ++ match DatanodeSpec_GetStartNodeID (Some spec) with
            | Some id => ["--start-node-id"; fmt_d id] | None => [] end)
        (env c DatanodeRoleKind) zero_ResourceRequirements
        [mkVolumeMount ConfigVolumeName GreptimeDBConfigDir false;
         mkVolumeMount InitConfigVolumeName GreptimeDBInitConfigDir false]).

(** The file storages that a datanode mounts: its own, the WAL's, the cache's. *)
Definition wal_storage : option FileStorage :=
  RaftEngineWAL_GetFileStorage (WALProviderSpec_GetRaftEngineWAL (GetWALProvider cluster)).
Definition cache_storage : option FileStorage :=
  GetCacheFileStorage (GetObjectStorageProvider cluster).

Definition datanode_addVolumeMounts (spec : DatanodeSpec) (t : CorePodTemplateSpec)
    : res CorePodTemplateSpec :=
  mount_storages (DatanodeSpec_GetFileStorage (Some spec)) wal_storage cache_storage t.

(** [if logging := ...; logging != nil && !OnlyLogToStdout && !PersistentWithData]. *)
Definition datanode_logs_volume (spec : DatanodeSpec) : bool :=
  let logging := DatanodeSpec_GetLogging (Some spec) in
  not_nil logging && negb (LoggingSpec_IsOnlyLogToStdout logging)
  && negb (LoggingSpec_IsPersistentWithData logging).

Definition datanode_generatePodTemplateSpec (spec : DatanodeSpec) (groupID : option Z)
    : res CorePodTemplateSpec :=
  '(main, t) ← start_pod DatanodeRoleKind (cs_Template (dn_ComponentSpec spec));
  t ← with_args main (datanode_generateMainContainerArgs spec) t;
  t ← on_main (set_Ports (datanode_containerPorts spec)) t;
  t ← on_main (append_Env (env c DatanodeRoleKind)) t;
  t ← mountConfigDir t;
  t ← datanode_addVolumeMounts spec t;
  let t := addInitConfigDirVolume (datanode_name spec) t in
  t ← (if FileStorage_IsUseEmptyDir (DatanodeSpec_GetFileStorage (Some spec))
       then addEmptyDirAsStorage (DatanodeSpec_GetFileStorage (Some spec)) t else Ok t);
  t ← (if datanode_logs_volume spec
       then AddLogsVolume (LoggingSpec_GetLogsDir (DatanodeSpec_GetLogging (Some spec))) t
       else Ok t);
  t ← (if vector_enabled c
       then add_vector c DatanodeRoleKind t
       else Ok t);
  initializer ← datanode_generateInitializer spec groupID;
  Ok (label_pod (datanode_name spec) (add_init_container initializer t)).

(** ** Objects *)

Definition datanode_generatePVCs (spec : DatanodeSpec) : res (list PersistentVolumeClaim) :=
  generate_claims (DatanodeSpec_GetFileStorage (Some spec)) wal_storage cache_storage
    (cluster_name c) (DatanodeSpec_GetName (Some spec)) DatanodeRoleKind.

(** The claims are asked for only without an emptyDir. *)
Definition datanode_claims (spec : DatanodeSpec) : res (list PersistentVolumeClaim) :=
  if FileStorage_IsUseEmptyDir (DatanodeSpec_GetFileStorage (Some spec)) then Ok []
  else datanode_generatePVCs spec.

Definition datanode_sts (spec : DatanodeSpec) (template : CorePodTemplateSpec)
    (claims : list PersistentVolumeClaim) : StatefulSet :=
  let resourceName := datanode_name spec in
  mkStatefulSet (labelled_meta c resourceName)
    (mkStatefulSetSpec "Parallel" resourceName (cs_Replicas (dn_ComponentSpec spec))
      (component_label resourceName) template claims "RollingUpdate" (dn_RollingUpdate spec))
    (mkStatefulSetStatus 0 0 0).

Definition generateDatanodeStatefulSet (p : slot) (groupID : option Z) (spec : DatanodeSpec)
    : M (CState * DefaultBuilder) StatefulSet :=
  template ← lift (datanode_generatePodTemplateSpec spec groupID);
  _ ← share_pod_maps p template;
  claims ← lift (datanode_claims spec);
  configData ← FromCluster c (RSDatanode (Some spec));
  let template := annotate_hash configData template in
  _ ← share_pod_maps p template;
  mret (datanode_sts spec template claims).

Definition generateDatanodeService (spec : DatanodeSpec) : Service :=
  let resourceName := datanode_name spec in
  mkService (labelled_meta c resourceName)
    (mkCoreServiceSpec "" "None" (component_label resourceName) (datanode_servicePorts spec) None).

(** ** The methods of the builder *)

Definition no_datanodes : bool :=
  negb (not_nil (GetDatanode cluster)) && bool_decide (GetDatanodeGroups cluster = []).

Definition Datanode_BuildService : M (CState * DefaultBuilder) unit :=
  build (
    if no_datanodes then mret tt
    else match GetDatanode cluster with
         | Some spec => append_object (Object KService (generateDatanodeService spec))
         | None => range (fun spec => append_object (Object KService (generateDatanodeService spec)))
                     (GetDatanodeGroups cluster)
         end).

(** The groups come after the base datanode. *)
Definition Datanode_BuildConfigMap : M (CState * DefaultBuilder) unit :=
  build (
    if no_datanodes then mret tt
    else _ ← match GetDatanode cluster with
             | Some spec => append_configmap c (RSDatanode (Some spec))
             | None => mret tt
             end;
         range (fun spec => append_configmap c (RSDatanode (Some spec))) (GetDatanodeGroups cluster)).

Definition datanode_statefulset (p : slot) (groupID : option Z) (spec : DatanodeSpec)
    : M (CState * DefaultBuilder) unit :=
  sts ← generateDatanodeStatefulSet p groupID spec;
  append_object (Object KStatefulSet sts).

(** The groups with their indices. *)
Definition indexed (l : list DatanodeSpec) : list (nat * DatanodeSpec) := imap pair l.

Definition Datanode_BuildStatefulSet : M (CState * DefaultBuilder) unit :=
  build (
    if no_datanodes then mret tt
    else _ ← when (vector_enabled c) (append_vector_configmap c);
         match GetDatanode cluster with
         | Some spec => datanode_statefulset SDatanode None spec
         | None => range (fun '(i, spec) => datanode_statefulset (SDatanodeGroup i)
                                              (Some (int32 (Z.of_nat i))) spec)
                     (indexed (GetDatanodeGroups cluster))
         end).

Definition Datanode_BuildPodMonitor : M (CState * DefaultBuilder) unit :=
  build (
    if no_datanodes then mret tt
    else if negb (IsEnablePrometheusMonitor (GetPrometheusMonitor cluster)) then mret tt
    else match GetDatanode cluster with
         | Some _ => append_podmonitor c (resource c DatanodeRoleKind [])
         | None => range (fun spec => append_podmonitor c (datanode_name spec))
                     (GetDatanodeGroups cluster)
         end).

Definition datanode_build : M (CState * DefaultBuilder) unit :=
  _ ← Datanode_BuildService;
  _ ← Datanode_BuildConfigMap;
  _ ← Datanode_BuildStatefulSet;
  Datanode_BuildPodMonitor.
End datanode_builder.

Definition Datanode_Generate `{TomlLib} `{VectorLib} `{QuantityLib} `{JsonLib} `{ControllerLib}
    : M CState (list object) :=
  c ← get_cluster;
  with_builder (Object KCluster c) (_ ← datanode_build c; finish).

(** ** What is generated *)

Section spec.
Context `{TomlLib} `{VectorLib} `{QuantityLib}.
Variable c : GreptimeDBCluster.
Notation cluster := (Some c).

(** The datanodes to run: the base datanode hides the groups. *)
Definition datanode_specs : list DatanodeSpec :=
  match GetDatanode cluster with
  | Some spec => [spec]
  | None => GetDatanodeGroups cluster
  end.

(** The same with their group ids. *)
Definition datanode_workloads : list (option Z * DatanodeSpec) :=
  match GetDatanode cluster with
  | Some spec => [(None, spec)]
  | None => map (fun '(i, spec) => (Some (int32 (Z.of_nat i)), spec))
              (indexed (GetDatanodeGroups cluster))
  end.

(** Config maps are generated for the base datanode and for every group. *)
Definition datanode_configs : list DatanodeSpec :=
  option_list (GetDatanode cluster) ++ GetDatanodeGroups cluster.

Definition statefulset_for (w : option Z * DatanodeSpec) (o : object) : Prop :=
  exists template claims text,
    datanode_generatePodTemplateSpec c w.2 w.1 = Ok template
    /\ datanode_claims c w.2 = Ok claims /\ config_of c (RSDatanode (Some w.2)) text
    /\ o = Object KStatefulSet (datanode_sts c w.2 (annotate_hash text template) claims).

(** The pod monitor of the base datanode does not carry its name. *)
Definition datanode_monitors : list string :=
  match GetDatanode cluster with
  | Some _ => [resource c DatanodeRoleKind []]
  | None => map (datanode_name c) (GetDatanodeGroups cluster)
  end.

Definition datanode_component : component :=
  mkComponent KStatefulSet (map (datanode_name c) datanode_specs)
    (map (fun spec => eq (Object KService (generateDatanodeService c spec))) datanode_specs)
    (map (fun spec => RSDatanode (Some spec)) datanode_configs)
    (map statefulset_for datanode_workloads) datanode_monitors.

(** ** Lemmas *)

Lemma builds_statefulset p gid spec :
  builds [statefulset_for (gid, spec)] (datanode_statefulset c p gid spec).
Proof.
  unfold datanode_statefulset, generateDatanodeStatefulSet.
  eapply (builds_then (fun sts => statefulset_for (gid, spec) (Object KStatefulSet sts))).
  - apply builds_lift_bind. intros t _. apply builds_then with (P := fun _ => True); [apply builds_write|by intros ?|].
    intros _ _. apply builds_lift_bind. intros claims _.
    apply builds_FromCluster. intros text _.
    apply builds_then with (P := fun _ => True); [apply builds_write|by intros ?|].
    intros _ _. apply builds_ret.
  - apply (returns_bind (fun t => datanode_generatePodTemplateSpec c spec gid = Ok t));
      [by apply returns_lift|]. intros t Ht.
    apply (returns_bind (fun _ => True)); [apply returns_any|]. intros _ _.
    apply (returns_bind (fun claims => datanode_claims c spec = Ok claims)); [by apply returns_lift|].
    intros claims Hc. apply (returns_bind (config_of c (RSDatanode (Some spec)))).
    + intros W env s w text Ht'. by eexists _, W, env, s, w.
    + intros text Htext. apply (returns_bind (fun _ => True)); [apply returns_any|]. intros _ _.
      apply returns_ret. by exists t, claims, text.
  - intros sts Hs. by apply builds_such.
Qed.

Lemma no_datanodes_specs : no_datanodes c = bool_decide (map (datanode_name c) datanode_specs = []).
Proof.
  unfold no_datanodes, datanode_specs. destruct (GetDatanode cluster); [done|].
  by destruct (GetDatanodeGroups cluster).
Qed.

Lemma datanode_build_builds : builds (component_objects c datanode_component) (datanode_build c).
Proof.
  unfold datanode_build, component_objects, Datanode_BuildService, Datanode_BuildConfigMap,
    Datanode_BuildStatefulSet, Datanode_BuildPodMonitor.
  rewrite no_datanodes_specs. cbn [datanode_component co_names co_services co_configs co_workloads co_monitors].
  destruct (decide _) as [->|Hne].
  { repeat (eapply (builds_bind [] []); [apply builds_build, builds_ret|intros _]).
    apply builds_build, builds_ret. }
  rewrite bool_decide_eq_false_2 by done.
  unfold datanode_specs, datanode_workloads, datanode_configs, datanode_monitors.
  apply builds_bind; [|intros _; apply builds_bind; [|intros _; rewrite app_assoc; apply builds_bind; [|intros _]]];
    apply builds_build.
  - destruct (GetDatanode cluster) as [spec|]; [apply builds_append|].
    apply builds_map. intros x _. apply builds_append.
  - rewrite map_map, map_app. apply builds_bind.
    + destruct (GetDatanode cluster); [apply builds_configmap|apply builds_ret].
    + intros _. apply builds_map. intros x _. apply builds_configmap.
  - apply builds_bind; [apply builds_when, builds_vector_configmap|]. intros _.
    destruct (GetDatanode cluster) as [spec|]; [apply builds_statefulset|].
    rewrite map_map. apply builds_map. intros [i x] _. apply builds_statefulset.
  - unfold monitored. destruct (IsEnablePrometheusMonitor _); cbn [negb]; [|apply builds_ret].
    destruct (GetDatanode cluster) as [spec|]; [apply builds_podmonitor|].
    rewrite map_map. apply builds_map. intros x _. apply builds_podmonitor.
Qed.
End spec.

(** ** The pods *)

Section pods.
Context `{TomlLib} `{VectorLib} `{QuantityLib}.
Variable c : GreptimeDBCluster.

Lemma extends_datanode_initializer spec gid i claims t :
  datanode_generateInitializer c spec gid = Ok i ->
  ConfigVolumeName ∈ pod_volumes t -> InitConfigVolumeName ∈ pod_volumes t ->
  extends claims t (add_init_container i t).
Proof.
  unfold datanode_generateInitializer. intros Hi. res_inv. subst i. by apply extends_initializer.
Qed.

(** What a datanode's pod mounts besides its own volumes: its storages, when they
    are claims; an emptyDir of its data. *)
Lemma extends_datanode_pod spec gid t names :
  datanode_generatePodTemplateSpec c spec gid = Ok t ->
  (forall fs, fs ∈ [DatanodeSpec_GetFileStorage (Some spec); wal_storage c; cache_storage c] ->
     fs <> None -> FileStorage_GetName fs ∈ names) ->
  (vector_enabled c = true -> datanode_logs_volume spec = true) ->
  (forall pod, GeneratePodTemplateSpec DatanodeRoleKind (cs_Template (dn_ComponentSpec spec)) = Some pod ->
     extends names pod t)
  /\ (FileStorage_IsUseEmptyDir (DatanodeSpec_GetFileStorage (Some spec)) = true ->
     FileStorage_GetName (DatanodeSpec_GetFileStorage (Some spec)) ∈ pod_volumes t).
Proof.
  unfold datanode_generatePodTemplateSpec. intros Hg Hnames Hlogs.
  apply bind_Ok in Hg as ([main t0] & Ht0 & Hg). apply bind_Ok in Hg as (t1 & Ht1 & Hg).
  apply bind_Ok in Hg as (t2 & Ht2 & Hg). apply bind_Ok in Hg as (t3 & Ht3 & Hg).
  apply bind_Ok in Hg as (t4 & Ht4 & Hg). apply bind_Ok in Hg as (t5 & Ht5 & Hg).
  cbv zeta in Hg. apply bind_Ok in Hg as (t6 & Ht6 & Hg). apply bind_Ok in Hg as (t7 & Ht7 & Hg).
  apply bind_Ok in Hg as (t8 & Ht8 & Hg). apply bind_Ok in Hg as (i & Hi & [= <-]).
  assert (E1 : extends names t0 t1) by eauto with extends.
  assert (E2 : extends names t1 t3) by (transitivity t2; eauto with extends).
  assert (E4 : extends names t3 t4) by eauto with extends.
  assert (E5 : extends names t4 t5) by (by eapply extends_mount_storages).
  set (t5' := addInitConfigDirVolume (datanode_name c spec) t5) in *.
  assert (E5' : extends names t5 t5') by apply extends_add_volume.
  assert (E6 : extends names t5' t6)
    by (destruct (FileStorage_IsUseEmptyDir _); [by eapply extends_addEmptyDir|eauto with extends]).
  assert (E7 : extends names t6 t7) by extends_step Ht7.
  assert (E8 : extends names t7 t8).
  { destruct (vector_enabled c); [|eauto with extends].
    eapply extends_vector; [exact Ht8|]. rewrite Hlogs in Ht7 by done. apply elem_of_app. left.
    eauto with extends. }
  assert (Hlate : extends names t4 t8) by (do 4 (etransitivity; [eassumption|]); done).
  assert (Hinit : extends names t5' t8) by (do 2 (etransitivity; [eassumption|]); done).
  split.
  - intros pod Hpod. apply start_pod_Ok in Ht0. rewrite Hpod in Ht0. injection Ht0 as ->.
    do 3 (etransitivity; [eassumption|]). transitivity t8; [done|].
    etransitivity; [|apply extends_label]. eapply extends_datanode_initializer; [exact Hi|..].
    + eauto with extends.
    + eapply extends_volumes; [exact Hinit|]. unfold t5', addInitConfigDirVolume.
      rewrite pod_volumes_add. set_solver.
  - intros He. rewrite He in Ht6. apply (extends_addEmptyDir names) in Ht6 as [_ Hin].
    change (pod_volumes _) with (pod_volumes t8).
    eapply extends_volumes; [exact E8|]. by eapply extends_volumes.
Qed.

(** Every datanode pod has its initializer and a main container. *)
Lemma datanode_pod_complete spec gid t :
  datanode_generatePodTemplateSpec c spec gid = Ok t -> complete_pod t.
Proof.
  unfold datanode_generatePodTemplateSpec. intros Hg.
  apply bind_Ok in Hg as ([main t0] & _ & Hg). do 3 apply bind_Ok in Hg as (? & _ & Hg).
  apply bind_Ok in Hg as (t4 & Ht4 & Hg). apply bind_Ok in Hg as (t5 & Ht5 & Hg).
  cbv zeta in Hg. apply bind_Ok in Hg as (t6 & Ht6 & Hg). apply bind_Ok in Hg as (t7 & Ht7 & Hg).
  apply bind_Ok in Hg as (t8 & Ht8 & Hg). apply bind_Ok in Hg as (i & _ & [= <-]).
  assert (H5 : has_main t5) by (eapply has_main_mount_storages; [exact Ht5|by eapply has_main_on_main]).
  assert (H6 : has_main t6).
  { destruct (FileStorage_IsUseEmptyDir _); [|by injection Ht6 as <-].
    unfold addEmptyDirAsStorage in Ht6. by apply bind_Ok in Ht6 as (? & _ & [= <-]). }
  assert (H7 : has_main t7) by (destruct (datanode_logs_volume spec); [by eapply has_main_on_main|by injection Ht7 as <-]).
  assert (H8 : has_main t8).
  { destruct (vector_enabled c); [|by injection Ht8 as <-]. unfold add_vector, AddVectorSidecar in Ht8.
    apply bind_Ok in Ht8 as (? & _ & (? & _ & [= <-])%bind_Ok). apply has_main_add_container. }
  split; [|exact H8]. cbn. by destruct (ps_InitContainers _).
Qed.

Lemma datanode_pod_closed spec gid t claims :
  datanode_generatePodTemplateSpec c spec gid = Ok t -> datanode_claims c spec = Ok claims ->
  template_closed (claim_names claims) DatanodeRoleKind (cs_Template (dn_ComponentSpec spec)) ->
  (FileStorage_IsUseEmptyDir (DatanodeSpec_GetFileStorage (Some spec)) = true ->
     wal_storage c = None /\ cache_storage c = None) ->
  (vector_enabled c = true -> datanode_logs_volume spec = true) ->
  closed (claim_names claims) t.
Proof.
  intros Hg Hc Htpl Hempty Hlogs.
  assert (Hpod : exists pod, GeneratePodTemplateSpec DatanodeRoleKind
                               (cs_Template (dn_ComponentSpec spec)) = Some pod).
  { apply bind_Ok in Hg as ([main pod] & Hp & _). exists pod. by eapply start_pod_Ok. }
  destruct Hpod as [pod Hpod].
  eapply closed_with_storages; [exact Hc|exact Hempty| | |by apply Htpl].
  - intros names Hnames. by apply (extends_datanode_pod spec gid t names Hg).
  - apply (extends_datanode_pod spec gid t (map FileStorage_GetName
      [DatanodeSpec_GetFileStorage (Some spec); wal_storage c; cache_storage c]) Hg); [|done].
    intros fs Hfs _. apply list_elem_of_fmap. by exists fs.
Qed.
End pods.

(** ** Keys and addresses *)

Section keys.
Context `{TomlLib} `{VectorLib} `{QuantityLib}.
Variable c : GreptimeDBCluster.
Notation cluster := (Some c).
Notation ns := (cluster_namespace c).

(** The base datanode has no name of its own, and the groups have names of their
    own. *)
Definition datanode_names_ok : Prop :=
  (forall d, GetDatanode cluster = Some d -> DatanodeSpec_GetName (Some d) = "")
  /\ Forall (fun g => dn_Name g <> "") (GetDatanodeGroups cluster)
  /\ NoDup (map dn_Name (GetDatanodeGroups cluster)).

Lemma datanode_pod_label spec gid t :
  datanode_generatePodTemplateSpec c spec gid = Ok t ->
  pt_Labels t !! GreptimeDBComponentName = Some (datanode_name c spec).
Proof.
  unfold datanode_generatePodTemplateSpec. intros Hg.
  apply bind_Ok in Hg as ([main t0] & _ & Hg). repeat apply bind_Ok in Hg as (? & _ & Hg).
  injection Hg as <-. apply label_pod_lookup.
Qed.

Lemma statefulset_for_named w : named c KStatefulSet (statefulset_for c w) (datanode_name c w.2).
Proof.
  intros o (t & claims & text & Ht & _ & _ & ->). split; [done|].
  split; [|apply labelled_settle]. split; [by intros sel [= <-]|].
  intros t' claims' [= <- <-]. by apply datanode_pod_label in Ht.
Qed.

Lemma datanode_workloads_specs : map snd (datanode_workloads c) = datanode_specs c.
Proof.
  unfold datanode_workloads, datanode_specs. destruct (GetDatanode cluster); [done|].
  rewrite map_map. unfold indexed. apply list_eq. intros i.
  change (map ?f ?l) with (f <$> l). rewrite list_lookup_fmap, list_lookup_imap.
  by destruct (_ !! i).
Qed.

Lemma datanode_component_named : component_named c (datanode_component c).
Proof.
  split; [by left|]. split; cbn [datanode_component co_services co_names co_workload co_workloads].
  - apply Forall2_fmap, Forall_Forall2_diag, Forall_true. intros spec. by apply named_service.
  - rewrite <- datanode_workloads_specs, map_map. apply Forall2_fmap, Forall_Forall2_diag, Forall_true.
    apply statefulset_for_named.
Qed.

Lemma datanode_specs_names : datanode_names_ok -> NoDup (map (datanode_name c) (datanode_specs c)).
Proof.
  intros (_ & _ & Hd). unfold datanode_specs. destruct (GetDatanode cluster).
  - apply NoDup_singleton.
  - rewrite <- (map_map dn_Name (fun n => resource c DatanodeRoleKind [n])).
    apply (NoDup_fmap_2_strong (fun n => resource c DatanodeRoleKind [n])); [|done].
    intros n n' _ _. apply resource_inj.
Qed.

Lemma datanode_configs_names : datanode_names_ok -> NoDup (map (datanode_name c) (datanode_configs c)).
Proof.
  intros (Hb & Hne & Hd). unfold datanode_configs.
  change (map (datanode_name c)) with (map (fun x => resource c DatanodeRoleKind [dn_Name x])).
  rewrite <- (map_map dn_Name (fun n => resource c DatanodeRoleKind [n])).
  apply (NoDup_fmap_2_strong (fun n => resource c DatanodeRoleKind [n]));
    [intros n n' _ _; apply resource_inj|].
  rewrite map_app. apply NoDup_app. split_and!; [|intros n|done].
  - destruct (GetDatanode cluster); cbn; [apply NoDup_singleton|apply NoDup_nil_2].
  - destruct (GetDatanode cluster) as [d|] eqn:Hg; cbn; [|by intros ?%elem_of_nil].
    intros ->%list_elem_of_singleton Hin. apply list_elem_of_fmap in Hin as (g & Hn & Hg').
    rewrite Forall_forall in Hne. apply (Hne g Hg'). rewrite <- Hn. exact (Hb d eq_refl).
Qed.

Lemma datanode_monitors_names :
  datanode_names_ok -> datanode_monitors c = map (datanode_name c) (datanode_specs c).
Proof.
  intros (Hb & _). unfold datanode_monitors, datanode_specs.
  destruct (GetDatanode cluster) as [d|] eqn:Hd; [|done]. cbn [map]. unfold datanode_name.
  by rewrite (Hb d eq_refl).
Qed.

Lemma datanode_component_distinct : datanode_names_ok -> component_distinct c (datanode_component c).
Proof.
  intros Hok. unfold component_distinct.
  cbn [datanode_component co_names co_configs co_monitors]. split_and!.
  - by apply datanode_specs_names.
  - rewrite map_map. by apply datanode_configs_names.
  - apply Forall_map, Forall_true. by intros spec s [=].
  - by apply datanode_monitors_names.
Qed.
End keys.

(** ** Node ids *)

Section node_ids.
Context `{TomlLib} `{VectorLib} `{QuantityLib} `{FlagLib} `{!FlagLaws}.
Variable c : GreptimeDBCluster.

(** The numbers of a StatefulSet are int32s in the source. *)
Definition datanode_int32s (w : option Z * DatanodeSpec) : Prop :=
  is_int32 (dn_RPCPort w.2) /\ is_int32 (default (-1)%Z w.1)
  /\ is_int32 (default 0%Z (dn_StartNodeID w.2)).

(** Besides, the start id is not negative: neither the CRD nor the webhook asks for that. *)
Definition datanode_numbers_ok (w : option Z * DatanodeSpec) : Prop :=
  datanode_int32s w /\ is_count (default 0%Z (dn_StartNodeID w.2)).

Lemma initializer_args spec gid i :
  datanode_generateInitializer c spec gid = Ok i ->
  ct_Args i = flag_line (initializer_line DatanodeRoleKind config_file
    (path_Join GreptimeDBInitConfigDir GreptimeDBConfigFileName) (dn_RPCPort spec) gid
    (dn_StartNodeID spec)).
Proof.
  unfold datanode_generateInitializer. intros Hi. res_inv. subst i.
  cbn [plain_container ct_Args]. by destruct gid, (dn_StartNodeID spec) eqn:E; cbn; rewrite ?E.
Qed.

Lemma initializer_options spec gid i :
  datanode_int32s (gid, spec) -> datanode_generateInitializer c spec gid = Ok i ->
  main_options (ct_Args i) = Ok (mkOptions config_file
    (path_Join GreptimeDBInitConfigDir GreptimeDBConfigFileName) "" DatanodeRoleKind
    (dn_RPCPort spec) (default (-1)%Z gid) (default 0%Z (dn_StartNodeID spec))).
Proof.
  intros (Hr & Hg & Hs) Hi. rewrite (initializer_args spec gid i Hi). by apply main_options_line.
Qed.

Lemma datanode_pod_initializer spec gid t :
  datanode_generatePodTemplateSpec c spec gid = Ok t ->
  exists i, datanode_generateInitializer c spec gid = Ok i /\ last (ps_InitContainers (pt_Spec t)) = Some i.
Proof.
  unfold datanode_generatePodTemplateSpec. intros Hg.
  apply bind_Ok in Hg as ([main t0] & _ & Hg). repeat apply bind_Ok in Hg as (? & ? & Hg).
  injection Hg as <-. eexists. split; [eassumption|]. cbn. by rewrite last_snoc.
Qed.

Lemma statefulset_node_id w o node ordinal :
  datanode_numbers_ok w -> is_count ordinal -> own_hostnames o = true -> statefulset_for c w o ->
  pod_node_id node o ordinal
    = Ok (node_id (default (-1)%Z w.1) ordinal (default 0%Z (dn_StartNodeID w.2))).
Proof.
  destruct w as [gid spec]. intros [Hn Hs] Ho Hown (t & claims & text & Ht & _ & _ & ->).
  apply datanode_pod_initializer in Ht as (i & Hi & Hl). unfold pod_node_id, pod_hostname. cbn in *. rewrite Hl.
  cbn [deref mbind res_bind]. rewrite (initializer_options spec gid i Hn Hi). cbn [mbind res_bind].
  unfold own_hostnames in Hown. cbn in Hown. apply negb_true_iff in Hown. rewrite Hown.
  destruct Hn as (_ & Hg & _). by apply (allocateNodeID_node_id (mkOptions _ _ _ _ _ _ _)).
Qed.
End node_ids.

(** *** Positions *)

Lemma datanode_objects_sts `{TomlLib} `{VectorLib} `{QuantityLib} c a P o :
  component_objects c (datanode_component c) !! a = Some P -> P o -> workload_of o <> None ->
  exists i w, a = (workload_offset c (datanode_component c) + i)%nat
    /\ datanode_workloads c !! i = Some w /\ statefulset_for c w o.
Proof.
  intros Ha HP Hw.
  destruct (component_objects_workload c (datanode_component c) a P o (datanode_component_named c) Ha HP Hw)
    as (i & -> & Hi).
  apply list_lookup_fmap_Some in Hi as (w & -> & Hi). eauto.
Qed.

(** The group id of a workload says where it is. *)
Lemma datanode_workloads_group c i w :
  (Z.of_nat (length (GetDatanodeGroups (Some c))) <= 2 ^ 31)%Z -> datanode_workloads c !! i = Some w ->
  (w.1 = None /\ i = 0%nat /\ datanode_workloads c = [w])
  \/ (w.1 = Some (Z.of_nat i) /\ (Z.of_nat i < 2 ^ 31)%Z).
Proof.
  intros Hlen. unfold datanode_workloads. destruct (GetDatanode (Some c)) as [d|].
  - destruct i as [|i]; [|done]. intros [= <-]. by left.
  - intros Hi. right. unfold indexed in Hi. apply list_lookup_fmap_Some in Hi as ([j g] & -> & Hi).
    rewrite list_lookup_imap in Hi. destruct (GetDatanodeGroups (Some c) !! i) eqn:Hg; [|done].
    injection Hi as <- <-. apply lookup_lt_Some in Hg. cbn.
    rewrite int32_small by (unfold is_int32; lia). split; [done|lia].
Qed.

(** ** Memory and requests *)

Lemma Datanode_Generate_keeps `{TomlLib} `{VectorLib} `{QuantityLib} `{JsonLib} `{ControllerLib} : keeps_cluster Datanode_Generate.
Proof.
  apply preserves_bind; [apply _|apply keeps_get_cluster|]. intros c.
  apply preserves_with_builder. unfold datanode_build, Datanode_BuildService, Datanode_BuildConfigMap,
    Datanode_BuildStatefulSet, Datanode_BuildPodMonitor, datanode_statefulset,
    generateDatanodeStatefulSet. solve_keeps.
Qed.

Lemma Datanode_Generate_logs `{TomlLib} `{VectorLib} `{QuantityLib} `{JsonLib} `{ControllerLib} : logs_only secret_read Datanode_Generate.
Proof. unfold Datanode_Generate, datanode_build, Datanode_BuildService, Datanode_BuildConfigMap,
    Datanode_BuildStatefulSet, Datanode_BuildPodMonitor, datanode_statefulset,
    generateDatanodeStatefulSet. solve_gen_logs. Qed.

(** ** Properties *)

Section properties.
Context `{TomlLib} `{VectorLib} `{QuantityLib} `{JsonLib} `{ControllerLib}.

(** The datanode's pods can be created: the user's template mounts its own volumes
    only, an emptyDir comes without claims, and vector finds the logs volume. *)
Definition datanode_pod_ok (c : GreptimeDBCluster) (spec : DatanodeSpec) : Prop :=
  template_closed [] DatanodeRoleKind (cs_Template (dn_ComponentSpec spec))
  /\ (FileStorage_IsUseEmptyDir (DatanodeSpec_GetFileStorage (Some spec)) = true ->
        wal_storage c = None /\ cache_storage c = None)
  /\ (vector_enabled c = true -> datanode_logs_volume spec = true).

Lemma datanode_generates {W} (env : environment W) s w objs :
  out_res (exec env Datanode_Generate s w) = Ok objs ->
  exists raw, Forall2 (fun P x => P x) (component_objects (c_cluster s) (datanode_component (c_cluster s))) raw
    /\ Forall2 (fun o o' => prepared (Object KCluster (c_cluster s)) o = Ok o') raw objs.
Proof.
  unfold Datanode_Generate. rewrite exec_bind, exec_get_cluster.
  cbn [out_res out_st out_world out_log prepend].
  apply component_builds; [apply datanode_component_named|apply datanode_build_builds].
Qed.

(** C27. Whenever generating succeeds, the objects are, in order, those of the declarative
    list of [datanode_component], computed from the cluster alone (services, config maps,
    the vector configuration, StatefulSets, pod monitors), each prepared with the
    cluster as its controller and with the annotation of its spec; the texts of the
    config maps are configs of their role. *)
Theorem Datanode_Generate_refines {W} (env : environment W) s w objs :
  out_res (exec env Datanode_Generate s w) = Ok objs ->
  exists raw, Forall2 (fun P x => P x) (component_objects (c_cluster s) (datanode_component (c_cluster s))) raw
    /\ Forall2 (fun o o' => prepared (Object KCluster (c_cluster s)) o = Ok o') raw objs.
Proof. apply datanode_generates. Qed.

(** C16. The generated objects have the names of [datanode_component].  When the groups
    have distinct names and the base datanode has none, no two objects share a kind
    and key, and every service, StatefulSet and pod monitor selects the pods of
    exactly one StatefulSet: the one of its own name. *)
Theorem Datanode_Generate_addressed `{!ControllerLaws} {W} (env : environment W) s w objs :
  out_res (exec env Datanode_Generate s w) = Ok objs ->
  map kind_key objs
    = object_keys (cluster_namespace (c_cluster s))
        (component_segments (c_cluster s) (datanode_component (c_cluster s)))
  /\ (datanode_names_ok (c_cluster s) -> NoDup (map kind_key objs) /\ well_addressed objs).
Proof.
  intros (raw & Hr & Hp)%datanode_generates.
  destruct (component_generated _ _ _ raw objs (datanode_component_named (c_cluster s)) Hr Hp) as [Hk Hd].
  split; [done|]. intros Hok. by apply Hd, datanode_component_distinct.
Qed.

(** C19. The API server can create the pods: when the user's template is sound and the
    logs and storages fit together, every mount of every container of a generated
    StatefulSet, the initializer and the vector side car included, refers to a
    volume of the pod or to one of the claims generated with it. *)
Theorem Datanode_Generate_closed {W} (env : environment W) s w objs :
  out_res (exec env Datanode_Generate s w) = Ok objs ->
  Forall (datanode_pod_ok (c_cluster s)) (datanode_specs (c_cluster s)) ->
  Forall workload_closed objs.
Proof.
  intros (raw & Hr & Hp)%datanode_generates Hok. set (c := c_cluster s) in *.
  eapply component_closed; [apply (datanode_component_named c)|exact Hr|exact Hp|].
  intros P o HP Ho. apply list_elem_of_fmap in HP as (x & -> & Hx).
  destruct Ho as (t' & claims' & text & Ht & Hc & _ & ->). intros t claims [= <- <-].
  apply (extends_hash (claim_names claims') text t'). rewrite Forall_forall in Hok.
  destruct (Hok x.2) as (Htpl & He & Hl).
  { rewrite <- datanode_workloads_specs. apply list_elem_of_fmap. eauto. }
  eapply datanode_pod_closed; [exact Ht|done| |done|done]. intros pod Hpod.
  eapply closed_with_claims; [|by apply Htpl]. set_solver.
Qed.

(** The pods of the generated StatefulSets can be compared with the running ones. *)
Lemma datanode_pods_complete {W} (env : environment W) s w objs :
  out_res (exec env Datanode_Generate s w) = Ok objs ->
  Forall (every_pod (fun _ => complete_pod)) objs.
Proof.
  intros (raw & Hr & Hp)%datanode_generates. set (c := c_cluster s) in *.
  eapply component_pods; [apply (datanode_component_named c)|exact Hr|exact Hp|].
  intros P o HP Ho. apply list_elem_of_fmap in HP as (x & -> & _).
  destruct Ho as (t' & claims' & text & Ht & _ & _ & ->). intros t claims [= <- <-].
  exact (datanode_pod_complete c _ _ _ Ht).
Qed.

(** The node ids of the pods of a generated StatefulSet, by its position. *)
Lemma generated_node_id `{!ControllerLaws} `{FlagLib} `{!FlagLaws} c raw objs :
  Forall datanode_numbers_ok (datanode_workloads c) ->
  Forall2 (fun P x => P x) (component_objects c (datanode_component c)) raw ->
  Forall2 (fun o o' => prepared (Object KCluster c) o = Ok o') raw objs ->
  forall a o, objs !! a = Some o -> workload_of o <> None -> own_hostnames o = true ->
    exists i w, a = (workload_offset c (datanode_component c) + i)%nat /\ datanode_workloads c !! i = Some w
      /\ forall node k, is_count k ->
           pod_node_id node o k = Ok (node_id (default (-1)%Z w.1) k (default 0%Z (dn_StartNodeID w.2))).
Proof.
  intros Hnum Hr Hp a o Ha Hw Hown. destruct (Forall2_lookup_r _ _ _ _ _ Hp Ha) as (o0 & Hr0 & Hprep).
  destruct (Forall2_lookup_r _ _ _ _ _ Hr Hr0) as (P & HP & HPo).
  pose proof (prepared_keeps _ _ _ Hprep) as (_ & Hwl & _). rewrite Hwl in Hw.
  unfold own_hostnames in Hown. rewrite Hwl in Hown. fold (own_hostnames o0) in Hown.
  destruct (datanode_objects_sts c a P o0 HP HPo Hw) as (i & w & -> & Hi & Ho).
  exists i, w. split_and!; [done..|]. intros node k Hk.
  assert (Hs : supported (o_kind o0) = true)
    by (eapply (component_supported c _ (datanode_component_named c) o0 P); [by eapply list_elem_of_lookup_2|done]).
  rewrite (prepared_node_id _ o0 o node k Hs Hprep).
  eapply statefulset_node_id; [|done..]. rewrite Forall_lookup in Hnum. by eapply Hnum.
Qed.

(** C26. The initializer of a generated datanode pod reads from its command line what the
    builder wrote on it: the two paths, the role, the RPC port, the group id (absent
    for the base datanode) and the start id, negative ones included. *)
Theorem initializer_roundtrip `{FlagLib} `{!FlagLaws} c spec gid t :
  datanode_generatePodTemplateSpec c spec gid = Ok t -> datanode_int32s (gid, spec) ->
  exists i, last (ps_InitContainers (pt_Spec t)) = Some i
    /\ main_options (ct_Args i) = Ok (mkOptions config_file
         (path_Join GreptimeDBInitConfigDir GreptimeDBConfigFileName) "" DatanodeRoleKind
         (dn_RPCPort spec) (default (-1)%Z gid) (default 0%Z (dn_StartNodeID spec))).
Proof.
  intros Ht Hn. apply datanode_pod_initializer in Ht as (i & Hi & Hl). exists i. split; [done|].
  by eapply initializer_options.
Qed.

(** C17. Every pod of the generated StatefulSets gets a node id of its own: the host name
    and the initializer's command line determine an id, and two pods with the same id
    are the same pod of the same StatefulSet.  This takes start ids that are not negative
    (nothing in the CRD or the webhook asks for it, and negative ones may collide), at
    most 2^31 groups, ordinals that fit an int32, and pods that do not use their node's
    network, whose host name would be the node's. *)
Theorem Datanode_pods_node_ids `{!ControllerLaws} `{FlagLib} `{!FlagLaws} {W} (env : environment W) s w objs :
  let c := c_cluster s in
  out_res (exec env Datanode_Generate s w) = Ok objs ->
  Forall datanode_numbers_ok (datanode_workloads c) ->
  (Z.of_nat (length (GetDatanodeGroups (Some c))) <= 2 ^ 31)%Z ->
  Forall (fun o => own_hostnames o = true) objs ->
  (forall o k node, o ∈ objs -> workload_of o <> None -> is_count k -> exists n, pod_node_id node o k = Ok n)
  /\ (forall a b o o' k k' node node' n, objs !! a = Some o -> objs !! b = Some o' -> is_count k -> is_count k' ->
        pod_node_id node o k = Ok n -> pod_node_id node' o' k' = Ok n -> a = b /\ k = k').
Proof.
  intros c (raw & Hr & Hp)%datanode_generates Hnum Hlen Hown. fold c in Hr, Hp.
  assert (Hsts := generated_node_id c raw objs Hnum Hr Hp). rewrite Forall_lookup in Hown.
  split.
  - intros o k node Ho Hw Hk. apply list_elem_of_lookup in Ho as [a Ha].
    destruct (Hsts a o Ha Hw (Hown a o Ha)) as (i & wl & _ & _ & Hid). eauto.
  - intros a b o o' k k' node node' n Ha Hb Hk Hk' Hn Hn'.
    assert (Hw : workload_of o <> None) by (intros E; unfold pod_node_id in Hn; by rewrite E in Hn).
    assert (Hw' : workload_of o' <> None) by (intros E; unfold pod_node_id in Hn'; by rewrite E in Hn').
    destruct (Hsts a o Ha Hw (Hown a o Ha)) as (i & wl & -> & Hi & Hid),
      (Hsts b o' Hb Hw' (Hown b o' Hb)) as (j & wl' & -> & Hj & Hid').
    rewrite Hid in Hn by done. rewrite Hid' in Hn' by done. rewrite <- Hn' in Hn. injection Hn as Hn.
    rewrite Forall_lookup in Hnum. destruct (Hnum i wl Hi) as [_ Hc], (Hnum j wl' Hj) as [_ Hc'].
    destruct (datanode_workloads_group c i wl Hlen Hi) as [(Hg & -> & Hall)|[Hg Hlt]],
      (datanode_workloads_group c j wl' Hlen Hj) as [(Hg' & -> & Hall')|[Hg' Hlt']]; rewrite Hg, Hg' in Hn.
    + rewrite Hall' in Hi. injection Hi as ->. rewrite (node_id_base k), (node_id_base k') in Hn. split; [done|lia].
    + rewrite Hall in Hj. destruct j; [|done]. injection Hj as ->. congruence.
    + rewrite Hall' in Hi. destruct i; [|done]. injection Hi as ->. congruence.
    + unfold default, from_option, id in Hn. apply node_id_injective in Hn as [Hij Hks]; [|lia|lia|done..].
      assert (i = j) as <- by lia. assert (wl' = wl) as -> by congruence. split; lia.
Qed.

(** The pods of a workload that uses the network of its nodes: the ordinal plays no part. *)
Theorem host_network_ignores_ordinal `{FlagLib} node o k k' :
  own_hostnames o = false -> pod_node_id node o k = pod_node_id node o k'.
Proof.
  unfold own_hostnames, pod_node_id, pod_hostname. destruct (workload_of o) as [[t claims]|]; [|done].
  by intros ->%negb_false_iff.
Qed.

(** A StatefulSet at the server is ready; the other objects are not looked at. *)
Definition found_ready {W} (env : environment W) `{!ApiServer env} (w : W) (o : object) : bool :=
  match o_kind o with
  | KStatefulSet =>
      bool_decide (IsStatefulSetReady (stored w KStatefulSet (object_key o)) = Ok true)
  | _ => true
  end.

Lemma found_ready_keys {W} (env : environment W) `{!ApiServer env} c w objs :
  map kind_key objs = object_keys (cluster_namespace c) (component_segments c (datanode_component c)) ->
  forallb (found_ready env w) objs = forallb (sts_ready env c w) (map (datanode_name c) (datanode_specs c)).
Proof.
  intros Hk. set (ready (key : kind * NamespacedName) := match key.1 with
    | KStatefulSet => bool_decide (IsStatefulSetReady (stored w KStatefulSet key.2) = Ok true)
    | _ => true end).
  transitivity (forallb ready (map kind_key objs)).
  { clear. induction objs as [|o objs IH]; [done|]. cbn [map forallb]. by rewrite <- IH. }
  assert (Hother : forall k names, k <> KStatefulSet ->
    forallb ready (map (fun n => (k, mkNamespacedName (cluster_namespace c) n)) names) = true).
  { intros k names Hne. apply forallb_forall. intros key (n & <- & _)%in_map_iff. by destruct k. }
  rewrite Hk. unfold component_segments. destruct (decide _) as [Hn|_].
  { change (co_names (datanode_component c)) with (map (datanode_name c) (datanode_specs c)) in Hn. by rewrite Hn. }
  unfold object_keys. cbn [map concat fst snd].
  rewrite !forallb_app, (Hother KService), (Hother KConfigMap), (Hother KPodMonitor) by done.
  cbn [datanode_component co_workload co_names forallb andb]. rewrite !andb_true_r.
  generalize (map (datanode_name c) (datanode_specs c)). clear.
  intros names. induction names as [|n names IH]; [done|]. cbn [map forallb]. by rewrite <- IH.
Qed.

(** C38. The status check asks for what the deployer generates: on a healthy server, which
    defaults the replicas of a StatefulSet, the datanodes are reported ready exactly when
    every StatefulSet that [Generate] makes, the base one or each group's, exists and is
    ready.  The base datanode has no name of its own (a named one is never found), and the
    groups are fewer than an int32 counts. *)
Theorem Datanode_ready_iff `{!ControllerLaws} `{RetryLaws} {W W'} (env : environment W) `{!ApiServer env}
    (env' : environment W') s w w' objs :
  let c := c_cluster s in
  (forall d, GetDatanode (Some c) = Some d -> dn_Name d = "") ->
  (Z.of_nat (length (cl_DatanodeGroups (gc_Spec c))) < 2 ^ 31)%Z ->
  replicas_set env c w ->
  out_res (exec env' Datanode_Generate s w') = Ok objs ->
  out_res (exec env Datanode_CheckAndUpdateStatus s w) = Ok (forallb (found_ready env w) objs).
Proof.
  intros c Hd Hlen Hrep (raw & Hr & Hp)%datanode_generates. fold c in Hr, Hp.
  destruct (component_generated c _ (Object KCluster c) raw objs (datanode_component_named c) Hr Hp) as [Hk _].
  rewrite (Datanode_status_spec env s w Hrep Hlen). fold c.
  rewrite (found_ready_keys env c w objs Hk). do 2 f_equal. unfold datanode_resources, datanode_specs.
  destruct (GetDatanode (Some c)) as [d|] eqn:Hg; [|done]. cbn [map not_nil].
  unfold datanode_name. cbn. by rewrite (Hd d eq_refl).
Qed.
End properties.

(** ** Claims *)

Section claims.
Context `{QuantityLib}.
Variable c : GreptimeDBCluster.

(** The storages of a datanode that claims are generated for. *)
Definition datanode_storages (spec : DatanodeSpec) : list (FileStorage * FileStorageType) :=
  storages (DatanodeSpec_GetFileStorage (Some spec)) (wal_storage c) (cache_storage c).

(** The targets of a cluster whose base datanode has no emptyDir. *)
Lemma cleanup_targets_base spec t :
  GetDatanode (Some c) = Some spec ->
  FileStorage_IsUseEmptyDir (DatanodeSpec_GetFileStorage (Some spec)) = false ->
  Forall (fun g => dn_Name g <> "") (GetDatanodeGroups (Some c)) ->
  (datanode_base_resource c, t) ∈ cleanup_targets c
  <-> exists fs, (fs, t) ∈ datanode_storages spec /\ delete_policy (Some fs) = true.
Proof.
  intros Hd He Hg.
  assert (Hgroups : (datanode_base_resource c, t) ∉ concat (map (group_targets c) (GetDatanodeGroups (Some c)))).
  { rewrite list_elem_of_In, in_concat. intros (l & Hl & Hin).
    apply in_map_iff in Hl as (g & <- & Hl). unfold group_targets in Hin.
    destruct (DatanodeSpec_GetFileStorage (Some g)) as [fs|]; [|destruct Hin].
    destruct (FileStorage_IsUseEmptyDir (Some fs)); [destruct Hin|]. unfold storage_target in Hin.
    destruct (delete_policy _); [|destruct Hin]. destruct Hin as [[= Hn _]|[]].
    rewrite Forall_forall in Hg. apply list_elem_of_In, Hg in Hl.
    by apply (ResourceName_group_ne (om_Name (gc_ObjectMeta c)) DatanodeRoleKind) in Hl. }
  unfold datanode_storages. rewrite <- (elem_of_storage_targets _ _ _ (datanode_base_resource c)).
  unfold storage_targets, cleanup_targets, rest_targets. rewrite Hd.
  destruct (DatanodeSpec_GetFileStorage (Some spec)) as [fs|]; [rewrite He|];
    rewrite !elem_of_app; unfold wal_storage, cache_storage; [tauto|].
  assert ((datanode_base_resource c, t) ∉ storage_target None (datanode_base_resource c, FileStorageTypeDatanode))
    by (apply not_elem_of_nil). tauto.
Qed.

(** C18. What is generated is what is cleaned up: of the claims of the base datanode, in the
    order of its storages (data, WAL, cache), [CleanUp] selects exactly those whose
    storage has the retain policy Delete.  This holds for a base datanode that has no name
    of its own and whose data is not in an emptyDir, beside groups that are named, when
    the user's labels on the storages leave the two keys of the operator alone; in the
    other cases a claim may survive, or the wrong one may be selected. *)
Theorem Datanode_claims_cleaned spec claims :
  GetDatanode (Some c) = Some spec -> dn_Name spec = "" ->
  FileStorage_IsUseEmptyDir (DatanodeSpec_GetFileStorage (Some spec)) = false ->
  Forall (fun g => dn_Name g <> "") (GetDatanodeGroups (Some c)) ->
  Forall (fun s => no_reserved_labels s.1) (datanode_storages spec) ->
  datanode_claims c spec = Ok claims ->
  Forall2 (fun s pvc =>
      Exists (fun tg => selector_matches (pvc_selector tg.1 tg.2) (labels_of (pvc_ObjectMeta pvc)) = true)
        (cleanup_targets c)
      <-> delete_policy (Some s.1) = true) (datanode_storages spec) claims.
Proof.
  intros Hd Hname He Hg Hl Hc. unfold datanode_claims, datanode_generatePVCs in Hc.
  cbn [DatanodeSpec_GetName nil_or] in Hc. rewrite He, Hname in Hc.
  eapply claims_selected; [exact Hc|exact Hl|]. intros t. by apply cleanup_targets_base.
Qed.
End claims.

(** ** Witnesses *)

(** The memory that holds the sample cluster. *)
Definition sample_state (c : GreptimeDBCluster) : CState := mkCState c ∅.

#[local] Existing Instances flat_toml plain_vector any_quantity text_json owner_reference plain_pflag.
#[local] Existing Instances flat_toml_laws owner_reference_laws simple_retry_laws.

#[local] Notation s := (sample_state (sample_cluster true)).
#[local] Notation generates := (out_res (exec fake_env Datanode_Generate s [])).

Lemma Datanode_Generate_refines_witness :
  exists objs raw, generates = Ok objs
    /\ Forall2 (fun P x => P x) (component_objects (sample_cluster true) (datanode_component (sample_cluster true))) raw
    /\ Forall2 (fun o o' => prepared (Object KCluster (sample_cluster true)) o = Ok o') raw objs.
Proof.
  assert (Hok : is_Ok generates = true) by (vm_compute; reflexivity).
  destruct generates as [objs|e|] eqn:Hg; [|discriminate Hok..].
  destruct (Datanode_Generate_refines fake_env s [] objs Hg) as (raw & Hr & Hp).
  exists objs, raw. split_and!; [done|exact Hr|exact Hp].
Defined.

Lemma Datanode_Generate_addressed_witness :
  exists objs, generates = Ok objs /\ NoDup (map kind_key objs) /\ well_addressed objs.
Proof.
  assert (Hok : is_Ok generates = true) by (vm_compute; reflexivity).
  destruct generates as [objs|e|] eqn:Hg; [|discriminate Hok..].
  exists objs. split; [done|].
  apply (Datanode_Generate_addressed fake_env s [] objs Hg). split_and!.
  - intros d [=].
  - repeat constructor; discriminate.
  - apply (bool_decide_unpack _). vm_compute. done.
Defined.

Lemma Datanode_Generate_closed_witness :
  exists objs, generates = Ok objs /\ Forall workload_closed objs.
Proof.
  assert (Hok : is_Ok generates = true) by (vm_compute; reflexivity).
  destruct generates as [objs|e|] eqn:Hg; [|discriminate Hok..].
  exists objs. split; [done|].
  apply (Datanode_Generate_closed fake_env s [] objs Hg).
  repeat apply Forall_cons_2; try apply Forall_nil_2;
    (split; [apply (bool_decide_unpack _); vm_compute; done|split; [discriminate|done]]).
Defined.

Lemma Datanode_pods_node_ids_witness :
  exists objs, generates = Ok objs
    /\ forall a b o o' k k' node node' n, objs !! a = Some o -> objs !! b = Some o' -> is_count k -> is_count k' ->
        pod_node_id node o k = Ok n -> pod_node_id node' o' k' = Ok n -> a = b /\ k = k'.
Proof.
  assert (Hok : match generates with
                | Ok objs => bool_decide (Forall (fun o => own_hostnames o = true) objs) | _ => false end = true)
    by (vm_compute; reflexivity).
  destruct generates as [objs|e|] eqn:Hg; [|discriminate Hok..].
  exists objs. split; [done|]. apply bool_decide_eq_true in Hok.
  apply (Datanode_pods_node_ids fake_env s [] objs Hg); [|done|exact Hok].
  repeat constructor; try discriminate.
Defined.

(** The StatefulSets of the two groups are at the server; both are ready. *)
Lemma Datanode_ready_iff_witness :
  let _ := simple_retry in
  let w := [Object KStatefulSet (ready_StatefulSet "default" "c-datanode-read" 1);
            Object KStatefulSet (ready_StatefulSet "default" "c-datanode-write" 1)] in
  exists objs, generates = Ok objs /\ length (filter (fun o => o_kind o = KStatefulSet) objs) = 2
    /\ out_res (exec fake_env Datanode_CheckAndUpdateStatus s w) = Ok (forallb (found_ready fake_env w) objs).
Proof.
  intros R w.
  assert (Hok : match generates with
                | Ok objs => bool_decide (length (filter (fun o => o_kind o = KStatefulSet) objs) = 2)
                | _ => false end = true) by (vm_compute; reflexivity).
  destruct generates as [objs|e|] eqn:Hg; [|discriminate Hok..].
  exists objs. split; [done|]. split; [by apply bool_decide_eq_true in Hok|].
  apply (Datanode_ready_iff fake_env fake_env s w [] objs); [intros d [=]|reflexivity| |exact Hg].
  intros name sts Hsts.
  refine (find_obj_all (fun k => match k with
    | KStatefulSet => fun sts => is_Some (ss_Replicas (sts_Spec sts)) | _ => fun _ => True end)
    w KStatefulSet _ sts _ Hsts).
  repeat constructor; by eexists.
Defined.

Lemma initializer_roundtrip_witness :
  exists t i, datanode_generatePodTemplateSpec (sample_cluster true) (sample_group "write" 100) (Some 1%Z) = Ok t
    /\ last (ps_InitContainers (pt_Spec t)) = Some i
    /\ main_options (ct_Args i) = Ok (mkOptions config_file
         (path_Join GreptimeDBInitConfigDir GreptimeDBConfigFileName) "" DatanodeRoleKind 4001 1 100).
Proof.
  assert (Hok : is_Ok (datanode_generatePodTemplateSpec (sample_cluster true) (sample_group "write" 100)
                         (Some 1%Z)) = true) by (vm_compute; reflexivity).
  destruct (datanode_generatePodTemplateSpec _ _ _) as [t|e|] eqn:Ht; [|discriminate Hok..].
  destruct (initializer_roundtrip (sample_cluster true) (sample_group "write" 100) (Some 1%Z) t Ht)
    as (i & Hl & Hm); [done|]. exists t, i. split_and!; [done|exact Hl|exact Hm].
Defined.

(** A base datanode with two storages: the data is deleted, the WAL retained. *)
Definition wal_file_storage (policy : string) : FileStorage :=
  mkFileStorage "datanode-wal" None None "5Gi" "/data/wal" policy ∅ ∅.
Definition base_cluster (name : string) (policy : string) : GreptimeDBCluster :=
  mkGreptimeDBCluster (meta_of "default" "c" None ∅)
    (mkGreptimeDBClusterSpec None None
       (Some (mkMetaSpec (sample_component 1) 3002 4000 None None None)) (Some (sample_group name 0)) []
       None [] 0 0 0 0 None "" (Some (mkInitializerSpec "init:v1"))
       None (Some (mkWALProviderSpec (Some (mkRaftEngineWAL (Some (wal_file_storage policy)))) None))
       None None None "" false)
    zero_ClusterStatus.

Lemma Datanode_claims_cleaned_witness :
  let c := base_cluster "" StorageRetainPolicyTypeRetain in
  let spec := sample_group "" 0 in
  exists claims, datanode_claims c spec = Ok claims
    /\ Forall2 (fun s pvc =>
      Exists (fun tg => selector_matches (pvc_selector tg.1 tg.2) (labels_of (pvc_ObjectMeta pvc)) = true)
        (cleanup_targets c)
      <-> delete_policy (Some s.1) = true) (datanode_storages c spec) claims.
Proof.
  intros c spec. eexists. split; [reflexivity|].
  apply (Datanode_claims_cleaned c spec); try reflexivity; [constructor|].
  repeat constructor.
Defined.

(** ** What modelling showed *)

(** Monitoring with logs on stdout only: the vector side car mounts the logs volume,
    which the pod does not have. *)
Definition stdout_cluster : GreptimeDBCluster :=
  let logging := mkLoggingSpec "info" [] "" (Some false) (Some true) "text" None "" in
  let g := sample_group "read" 0 in
  let x := dn_ComponentSpec g in
  mkGreptimeDBCluster (gc_ObjectMeta (sample_cluster true))
    (set_components None (cl_Meta (gc_Spec (sample_cluster true))) None
       [set_dn_component (mkComponentSpec (cs_Replicas x) (cs_Config x) (cs_Template x) (Some logging)
                            (cs_Tracing x)) g] None [] (gc_Spec (sample_cluster true)))
    zero_ClusterStatus.

Theorem vector_without_logs :
  exists objs, out_res (exec fake_env Datanode_Generate (sample_state stdout_cluster) []) = Ok objs
    /\ ~ Forall workload_closed objs.
Proof.
  assert (Hok : match out_res (exec fake_env Datanode_Generate (sample_state stdout_cluster) []) with
                | Ok objs => bool_decide (Forall workload_closed objs) | _ => true end = false)
    by (vm_compute; reflexivity).
  destruct (out_res _) as [objs|e|]; [|discriminate Hok..]. exists objs. split; [done|].
  by apply bool_decide_eq_false in Hok.
Qed.

(** Two groups of one name, which [Validate] accepts: their objects have the same keys. *)
Definition twin_cluster : GreptimeDBCluster :=
  let c := sample_cluster false in
  let s := gc_Spec c in
  mkGreptimeDBCluster (gc_ObjectMeta c)
    (set_components (cl_Frontend s) (cl_Meta s) None [sample_group "read" 0; sample_group "read" 3]
       (cl_Flownode s) (cl_FrontendGroups s) s)
    zero_ClusterStatus.

Theorem twin_groups_collide `{TomlUnmarshal} :
  Cluster_Validate (Some twin_cluster) = Ok tt
  /\ exists objs, out_res (exec fake_env Datanode_Generate (sample_state twin_cluster) []) = Ok objs
    /\ ~ NoDup (map kind_key objs).
Proof.
  split; [vm_compute; reflexivity|].
  assert (Hok : match out_res (exec fake_env Datanode_Generate (sample_state twin_cluster) []) with
                | Ok objs => bool_decide (NoDup (map kind_key objs)) | _ => true end = false)
    by (vm_compute; reflexivity).
  destruct (out_res _) as [objs|e|]; [|discriminate Hok..]. exists objs. split; [done|].
  by apply bool_decide_eq_false in Hok.
Qed.

(** A base datanode that has a [name]: its StatefulSet carries it, but the status
    check, the clean-up and the pod monitor look for the name without it. *)
Theorem named_base_datanode_unfound c spec :
  GetDatanode (Some c) = Some spec -> dn_Name spec <> "" ->
  Forall (fun n => n ∉ datanode_resources c /\ n ∉ datanode_monitors c)
    (map (datanode_name c) (datanode_specs c)).
Proof.
  intros Hd Hn. unfold datanode_specs, datanode_resources, datanode_monitors. rewrite Hd. cbn [map not_nil].
  apply Forall_singleton. rewrite !list_elem_of_singleton. unfold datanode_name.
  split; by apply (ResourceName_group_ne (cluster_name c) DatanodeRoleKind).
Qed.

(** Start ids that [Validate] accepts and that make two pods of different groups share an
    id: the second pod of the first group and the first pod of the second. *)
Definition far_starts_cluster : GreptimeDBCluster :=
  let c := sample_cluster false in
  let s := gc_Spec c in
  mkGreptimeDBCluster (gc_ObjectMeta c)
    (set_components (cl_Frontend s) (cl_Meta s) None
       [sample_group "read" 2147483647; sample_group "write" (-2147483648)]
       (cl_Flownode s) (cl_FrontendGroups s) s)
    zero_ClusterStatus.

Theorem far_starts_collide `{TomlUnmarshal} :
  Cluster_Validate (Some far_starts_cluster) = Ok tt
  /\ exists objs, out_res (exec fake_env Datanode_Generate (sample_state far_starts_cluster) []) = Ok objs
    /\ exists a b o o', objs !! a = Some o /\ objs !! b = Some o' /\ a <> b
       /\ pod_node_id "" o 1 = Ok 2147483648%Z /\ pod_node_id "" o' 0 = Ok 2147483648%Z.
Proof.
  split; [vm_compute; reflexivity|].
  set (id (o : option object) k := match o with
    | Some o => match pod_node_id "" o k with Ok n => Z.eqb n 2147483648 | _ => false end
    | None => false end).
  assert (Hid : forall (o : option object) k, id o k = true ->
    exists o', o = Some o' /\ pod_node_id "" o' k = Ok 2147483648%Z).
  { intros [o|] k; [|done]. cbn. destruct (pod_node_id "" o k) as [n|e|] eqn:E; [|done..].
    intros ->%Z.eqb_eq. by exists o. }
  assert (Hok : match out_res (exec fake_env Datanode_Generate (sample_state far_starts_cluster) []) with
                | Ok objs => id (objs !! 4%nat) 1%Z && id (objs !! 5%nat) 0%Z | _ => false end = true)
    by (vm_compute; reflexivity).
  destruct (out_res _) as [objs|e|]; [|discriminate Hok..]. exists objs. split; [done|].
  apply andb_true_iff in Hok as [(o & Ho & Hn)%Hid (o' & Ho' & Hn')%Hid].
  by exists 4%nat, 5%nat, o, o'.
Qed.
