(* ===== verification/MetaGen.v ===== *)
(** * controllers/greptimedbcluster/deployers/meta.go: the metasrv builder

    One service, config map, deployment and pod monitor, and vector's config map. *)

From stdpp Require Import base gmap sets strings list fin_maps.
From Stdlib Require Import ZArith Lia.
From S2P Require Import Prelude GoLib Hash K8s ApiCommon ApiTypes Client ApiServer K8sUtil.
From S2P Require Import Deployer Builder Common NodeId Validate Toml DbConfig Initializer Pods.
From S2P Require Import Mergo Defaulting Cluster Generator.

Section meta_builder.
Context `{TomlLib} `{VectorLib}.
Variable c : GreptimeDBCluster.
Notation cluster := (Some c).

Definition meta_name : string := resource c MetaRoleKind [].

(** ** The pod template *)

Definition meta_generateMainContainerArgs (spec : MetaSpec) : list string :=
  let ipv6 := cl_EnableIPv6 (gc_Spec c) in
  ["metasrv"; "start";
   "--rpc-bind-addr"; GetBindAddress ipv6 (me_RPCPort spec);
   "--http-addr"; GetBindAddress ipv6 (me_HTTPPort spec);
   "--rpc-server-addr"; GetServerAddress ipv6 pod_ip_var (me_RPCPort spec);
   "--config-file"; config_file].

Definition meta_containerPorts (spec : MetaSpec) : list ContainerPort :=
  [container_port "rpc" (me_RPCPort spec); container_port "http" (me_HTTPPort spec)].

Definition meta_servicePorts (spec : MetaSpec) : list ServicePort :=
  [service_port "rpc" (me_RPCPort spec); service_port "http" (me_HTTPPort spec)].

(** [logging != nil && !logging.IsOnlyLogToStdout()] *)
Definition meta_logs_volume (spec : MetaSpec) : bool :=
  let logging := MetaSpec_GetLogging (Some spec) in
  not_nil logging && negb (LoggingSpec_IsOnlyLogToStdout logging).

(** The template up to the logs. *)
Definition meta_pod_base (spec : MetaSpec) : res CorePodTemplateSpec :=
  '(main, t) ← start_pod MetaRoleKind (cs_Template (me_ComponentSpec spec));
  t ← with_args main (Ok (meta_generateMainContainerArgs spec)) t;
  t ← on_main (set_Ports (meta_containerPorts spec)) t;
  t ← on_main (append_Env (env c MetaRoleKind)) t;
  t ← MountConfigDir t meta_name;
  if meta_logs_volume spec
  then AddLogsVolume (LoggingSpec_GetLogsDir (MetaSpec_GetLogging (Some spec))) t
  else Ok t.

Definition meta_generatePodTemplateSpec (spec : MetaSpec)
    : M (CState * DefaultBuilder) CorePodTemplateSpec :=
  t ← lift (meta_pod_base spec);
  with_vector c MetaRoleKind t (fun t => Ok (label_pod meta_name t)).

(** ** The methods of the builder *)

Definition meta_service (spec : MetaSpec) : Service :=
  mkService (labelled_meta c meta_name)
    (mkCoreServiceSpec "ClusterIP" "" (component_label meta_name) (meta_servicePorts spec) None).

Definition meta_deployment (spec : MetaSpec) (template : CorePodTemplateSpec) : object :=
  Object KDeployment (mkDeployment (labelled_meta c meta_name)
    (mkDeploymentSpec (cs_Replicas (me_ComponentSpec spec)) (component_label meta_name) template
      "RollingUpdate" (me_RollingUpdate spec))
    (mkDeploymentStatus 0 0 [])).

(** Nothing is built without a metasrv. *)
Definition with_meta (f : MetaSpec -> M (CState * DefaultBuilder) unit)
    : M (CState * DefaultBuilder) unit :=
  build (match GetMeta cluster with Some spec => f spec | None => mret tt end).

Definition Meta_BuildService : M (CState * DefaultBuilder) unit :=
  with_meta (fun spec => append_object (Object KService (meta_service spec))).

Definition Meta_BuildConfigMap : M (CState * DefaultBuilder) unit :=
  with_meta (fun spec => append_configmap c (RSMeta (Some spec))).

Definition Meta_BuildDeployment : M (CState * DefaultBuilder) unit :=
  with_meta (fun spec =>
    template ← meta_generatePodTemplateSpec spec;
    append_hashed c SMeta (RSMeta (Some spec)) (meta_deployment spec) template).

Definition Meta_BuildPodMonitor : M (CState * DefaultBuilder) unit :=
  with_meta (fun _ =>
    if negb (IsEnablePrometheusMonitor (GetPrometheusMonitor cluster)) then mret tt
    else append_podmonitor c meta_name).

Definition meta_build : M (CState * DefaultBuilder) unit :=
  _ ← Meta_BuildService;
  _ ← Meta_BuildConfigMap;
  _ ← Meta_BuildDeployment;
  Meta_BuildPodMonitor.

(** ** What is generated *)

(** The template when nothing fails. *)
Definition meta_pod (spec : MetaSpec) : res CorePodTemplateSpec :=
  t ← meta_pod_base spec;
  t ← vector_pod c MetaRoleKind t;
  Ok (label_pod meta_name t).

Definition meta_specs : list MetaSpec := option_list (GetMeta cluster).

Definition meta_component : component :=
  mkComponent KDeployment (map (fun _ => meta_name) meta_specs)
    (map (fun spec => eq (Object KService (meta_service spec))) meta_specs)
    (map (fun spec => RSMeta (Some spec)) meta_specs)
    (map (fun spec => hashed c (RSMeta (Some spec)) (meta_deployment spec) (meta_pod spec)) meta_specs)
    (map (fun _ => meta_name) meta_specs).

(** ** Lemmas *)

Lemma builds_meta_deployment spec :
  builds ((if vector_enabled c then [vector_configmap c] else [])
          ++ [hashed c (RSMeta (Some spec)) (meta_deployment spec) (meta_pod spec)])
    (template ← meta_generatePodTemplateSpec spec;
     append_hashed c SMeta (RSMeta (Some spec)) (meta_deployment spec) template).
Proof.
  apply builds_pass with (P := fun t => meta_pod spec = Ok t).
  - apply builds_lift_bind. intros t _. apply builds_with_vector.
  - intros W env s w t. unfold meta_generatePodTemplateSpec, meta_pod. rewrite exec_bind, exec_lift.
    cbn [out_res out_st out_world out_log]. destruct (meta_pod_base spec) as [t0|e|]; [|done..].
    cbn [mbind res_bind]. apply results_with_vector.
  - intros t. eexists. apply builds_hashed.
  - intros t ->. apply builds_hashed.
Qed.

Lemma meta_build_builds : builds (component_objects c meta_component) (meta_build).
Proof.
  unfold meta_build, component_objects, meta_component, meta_specs, Meta_BuildService,
    Meta_BuildConfigMap, Meta_BuildDeployment, Meta_BuildPodMonitor, with_meta.
  destruct (GetMeta cluster) as [spec|]; cbn [option_list map co_names co_services co_configs co_workloads co_monitors].
  - rewrite decide_False by done.
    apply builds_bind; [|intros _; apply builds_bind; [|intros _; rewrite app_assoc; apply builds_bind; [|intros _]]];
      apply builds_build.
    + apply builds_append.
    + apply builds_configmap.
    + apply builds_meta_deployment.
    + unfold monitored. destruct (IsEnablePrometheusMonitor _); cbn [negb];
        [apply builds_podmonitor|apply builds_ret].
  - rewrite decide_True by done.
    repeat (eapply (builds_bind [] []); [apply builds_build, builds_ret|intros _]).
    apply builds_build, builds_ret.
Qed.

Lemma meta_pod_label spec t :
  meta_pod spec = Ok t -> pt_Labels t !! GreptimeDBComponentName = Some meta_name.
Proof.
  unfold meta_pod. intros (t0 & _ & Ht)%bind_Ok. apply bind_Ok in Ht as (t1 & _ & [= <-]).
  apply label_pod_lookup.
Qed.

Lemma meta_component_named : component_named c meta_component.
Proof.
  split; [by right|]. split; cbn [meta_component co_services co_names co_workload co_workloads].
  - apply Forall2_fmap, Forall_Forall2_diag, Forall_true. intros spec. by apply named_service.
  - apply Forall2_fmap, Forall_Forall2_diag, Forall_true. intros spec. apply named_hashed.
    + intros t. split_and!; [done|done|apply labelled_settle|]. by exists [].
    + intros t. apply meta_pod_label.
Qed.

Lemma meta_component_distinct : component_distinct c meta_component.
Proof.
  unfold component_distinct, meta_component, meta_specs.
  destruct (GetMeta cluster); cbn; split_and!; try done; repeat constructor; try apply not_elem_of_nil.
  by intros s [=].
Qed.

Lemma extends_meta_pod claims spec t pod :
  meta_pod spec = Ok t -> (vector_enabled c = true -> meta_logs_volume spec = true) ->
  GeneratePodTemplateSpec MetaRoleKind (cs_Template (me_ComponentSpec spec)) = Some pod ->
  extends claims pod t.
Proof.
  unfold meta_pod, meta_pod_base. intros Ht Hlogs Hpod.
  apply bind_Ok in Ht as (t5 & Hb & Ht). apply bind_Ok in Ht as (t6 & Ht6 & [= <-]).
  apply bind_Ok in Hb as ([main t0] & Ht0 & Hb). apply bind_Ok in Hb as (t1 & Ht1 & Hb).
  apply bind_Ok in Hb as (t2 & Ht2 & Hb). apply bind_Ok in Hb as (t3 & Ht3 & Hb).
  apply bind_Ok in Hb as (t4 & Ht4 & Ht5).
  apply start_pod_Ok in Ht0. rewrite Hpod in Ht0. injection Ht0 as ->.
  transitivity t1; [eauto with extends|]. transitivity t2; [eauto with extends|].
  transitivity t3; [eauto with extends|]. transitivity t4; [eauto with extends|].
  transitivity t5; [extends_step Ht5|]. transitivity t6; [|apply extends_label].
  eapply extends_vector_pod; [exact Ht6|]. intros Hv. rewrite Hlogs in Ht5 by done.
  eauto with extends.
Qed.
End meta_builder.

Definition Meta_Generate `{TomlLib} `{VectorLib} `{JsonLib} `{ControllerLib} : M CState (list object) :=
  c ← get_cluster;
  with_builder (Object KCluster c) (_ ← meta_build c; finish).

(** ** Memory and requests *)

Lemma Meta_Generate_keeps `{TomlLib} `{VectorLib} `{JsonLib} `{ControllerLib} :
  keeps_cluster Meta_Generate.
Proof.
  apply preserves_bind; [apply _|apply keeps_get_cluster|]. intros c.
  apply preserves_with_builder. unfold meta_build, Meta_BuildService, Meta_BuildConfigMap,
    Meta_BuildDeployment, Meta_BuildPodMonitor, with_meta, meta_generatePodTemplateSpec. solve_keeps.
Qed.

Lemma Meta_Generate_logs `{TomlLib} `{VectorLib} `{JsonLib} `{ControllerLib} :
  logs_only secret_read Meta_Generate.
Proof.
  unfold Meta_Generate, meta_build, Meta_BuildService, Meta_BuildConfigMap,
    Meta_BuildDeployment, Meta_BuildPodMonitor, with_meta, meta_generatePodTemplateSpec. solve_gen_logs.
Qed.

(** ** Properties *)

Section properties.
Context `{TomlLib} `{VectorLib} `{JsonLib} `{ControllerLib}.

(** The metasrv's pods can be created: a sound template, and logs for vector. *)
Definition meta_pod_ok (c : GreptimeDBCluster) (spec : MetaSpec) : Prop :=
  template_closed [] MetaRoleKind (cs_Template (me_ComponentSpec spec))
  /\ (vector_enabled c = true -> meta_logs_volume spec = true).

Lemma meta_generates {W} (env : environment W) s w objs :
  out_res (exec env Meta_Generate s w) = Ok objs ->
  exists raw, Forall2 (fun P x => P x) (component_objects (c_cluster s) (meta_component (c_cluster s))) raw
    /\ Forall2 (fun o o' => prepared (Object KCluster (c_cluster s)) o = Ok o') raw objs.
Proof.
  unfold Meta_Generate. rewrite exec_bind, exec_get_cluster.
  cbn [out_res out_st out_world out_log prepend].
  apply component_builds; [apply meta_component_named|apply meta_build_builds].
Qed.

(** C23. Whenever generating the metasrv succeeds, the objects are, in order, those of
    [meta_component] (nothing without a metasrv spec), each prepared with the cluster
    as its controller; no two share a kind and key, every selector finds the pods of
    the metasrv's deployment and of nothing else; and when the user's template is
    sound and vector finds its logs, every mount of the pods has its volume. *)
Theorem Meta_Generate_correct `{!ControllerLaws} {W} (env : environment W) s w objs :
  let c := c_cluster s in
  out_res (exec env Meta_Generate s w) = Ok objs ->
  (exists raw, Forall2 (fun P x => P x) (component_objects c (meta_component c)) raw
     /\ Forall2 (fun o o' => prepared (Object KCluster c) o = Ok o') raw objs)
  /\ map kind_key objs = object_keys (cluster_namespace c) (component_segments c (meta_component c))
  /\ NoDup (map kind_key objs) /\ well_addressed objs
  /\ (Forall (meta_pod_ok c) (meta_specs c) -> Forall workload_closed objs).
Proof.
  intros c Hg. pose proof (meta_generates env s w objs Hg) as (raw & Hr & Hp). fold c in Hr, Hp.
  split; [by exists raw|].
  destruct (component_generated c _ _ raw objs (meta_component_named c) Hr Hp) as [Hk Hd].
  specialize (Hd (meta_component_distinct c)) as [Hd1 Hd2]. split_and!; [done..|].
  intros Hok. eapply component_closed; [apply (meta_component_named c)|exact Hr|exact Hp|].
  intros P o HP Ho. apply list_elem_of_fmap in HP as (spec & -> & Hx).
  rewrite Forall_forall in Hok. destruct (Hok spec Hx) as (Htpl & Hl).
  destruct Ho as (t' & text & Ht & _ & ->). intros t claims [= <- <-].
  apply (extends_hash [] text t').
  assert (Hpod : exists pod, GeneratePodTemplateSpec MetaRoleKind (cs_Template (me_ComponentSpec spec)) = Some pod).
  { unfold meta_pod, meta_pod_base in Ht. apply bind_Ok in Ht as (? & Ht & _).
    apply bind_Ok in Ht as ([main pod] & Hs & _). exists pod. by eapply start_pod_Ok. }
  destruct Hpod as [pod Hpod]. eapply extends_meta_pod; [exact Ht|done|exact Hpod|by apply Htpl].
Qed.
End properties.

#[local] Existing Instances flat_toml plain_vector text_json owner_reference.
#[local] Existing Instances owner_reference_laws.

Lemma Meta_Generate_correct_witness :
  let s := mkCState (sample_cluster true) ∅ in
  exists objs, out_res (exec fake_env Meta_Generate s []) = Ok objs
    /\ length objs = 5 /\ NoDup (map kind_key objs) /\ well_addressed objs /\ Forall workload_closed objs.
Proof.
  intros s.
  assert (Hok : match out_res (exec fake_env Meta_Generate s []) with
                | Ok objs => Nat.eqb (length objs) 5 | _ => false end = true) by (vm_compute; reflexivity).
  destruct (out_res (exec fake_env Meta_Generate s [])) as [objs|e|] eqn:Hg; [|discriminate Hok..].
  apply Nat.eqb_eq in Hok. exists objs.
  destruct (Meta_Generate_correct fake_env s [] objs Hg) as (_ & _ & Hd & Hw & Hc).
  split_and!; [done..|]. apply Hc. repeat apply Forall_cons_2; try apply Forall_nil_2.
  split; [apply (bool_decide_unpack _); vm_compute; done|done].
Defined.
