(* ===== verification/FlownodeGen.v ===== *)
(** * controllers/greptimedbcluster/deployers/flownode.go: the flownode builder

    One headless service, config map, StatefulSet and pod monitor, and vector's config
    map.  Each pod's initializer completes the config. *)

From stdpp Require Import base gmap sets strings list fin_maps.
From Stdlib Require Import ZArith Lia.
From S2P Require Import Prelude GoLib Hash K8s ApiCommon ApiTypes Client ApiServer K8sUtil.
From S2P Require Import Deployer Builder Common NodeId Validate Toml DbConfig Initializer Pods.
From S2P Require Import Mergo Defaulting Cluster Generator.

Section flownode_builder.
Context `{TomlLib} `{VectorLib}.
Variable c : GreptimeDBCluster.
Notation cluster := (Some c).

Definition flownode_name : string := resource c FlownodeRoleKind [].

(** ** The pod template *)

(** [Spec.Meta] is dereferenced. *)
Definition flownode_generateMainContainerArgs (spec : FlownodeSpec) : res (list string) :=
  let ipv6 := cl_EnableIPv6 (gc_Spec c) in
  meta ← deref (cl_Meta (gc_Spec c));
  Ok ["flownode"; "start";
      "--rpc-bind-addr"; GetBindAddress ipv6 (fl_RPCPort spec);
      "--rpc-server-addr"; GetServerAddress ipv6 pod_ip_var (fl_RPCPort spec);
      "--http-addr"; GetBindAddress ipv6 (fl_HTTPPort spec);
      "--metasrv-addrs"; resource c MetaRoleKind [] +:+ "." +:+ cluster_namespace c +:+ ":"
                         +:+ fmt_d (me_RPCPort meta);
      "--config-file"; config_file].

Definition flownode_containerPorts (spec : FlownodeSpec) : list ContainerPort :=
  [container_port "grpc" (fl_RPCPort spec); container_port "http" (fl_HTTPPort spec)].

Definition flownode_servicePorts (spec : FlownodeSpec) : list ServicePort :=
  [service_port "rpc" (fl_RPCPort spec); service_port "http" (fl_HTTPPort spec)].

(** [Spec.Initializer] is dereferenced. *)
Definition flownode_generateInitializer (spec : FlownodeSpec) : res Container :=
  initializer ← deref (cl_Initializer (gc_Spec c));
  Ok (plain_container "initializer" (in_Image initializer) ["greptimedb-initializer"]
        (["--config-path"; config_file;
          "--init-config-path"; path_Join GreptimeDBInitConfigDir GreptimeDBConfigFileName;
          "--rpc-port"; fmt_d (fl_RPCPort spec); "--component-kind"; FlownodeRoleKind]
         ++ match FlownodeSpec_GetStartNodeID (GetFlownode c) with
            | Some id => ["--start-node-id"; fmt_d id] | None => [] end)
        [field_env EnvPodIP "status.podIP"; field_env EnvPodName "metadata.name"]
        zero_ResourceRequirements
        [mkVolumeMount ConfigVolumeName GreptimeDBConfigDir false;
         mkVolumeMount InitConfigVolumeName GreptimeDBInitConfigDir false]).

(** [logging != nil && !logging.IsOnlyLogToStdout()] *)
Definition flownode_logs_volume (spec : FlownodeSpec) : bool :=
  let logging := FlownodeSpec_GetLogging (Some spec) in
  not_nil logging && negb (LoggingSpec_IsOnlyLogToStdout logging).

(** The template up to the logs. *)
Definition flownode_pod_base (spec : FlownodeSpec) : res CorePodTemplateSpec :=
  '(main, t) ← start_pod FlownodeRoleKind (cs_Template (fl_ComponentSpec spec));
  t ← with_args main (flownode_generateMainContainerArgs spec) t;
  t ← on_main (set_Ports (flownode_containerPorts spec)) t;
  t ← on_main (append_Env (env c FlownodeRoleKind)) t;
  t ← mountConfigDir t;
  let t := addInitConfigDirVolume flownode_name t in
  if flownode_logs_volume spec
  then AddLogsVolume (LoggingSpec_GetLogsDir (FlownodeSpec_GetLogging (Some spec))) t
  else Ok t.

(** What follows the side car. *)
Definition flownode_pod_end (spec : FlownodeSpec) (t : CorePodTemplateSpec) : res CorePodTemplateSpec :=
  initializer ← flownode_generateInitializer spec;
  Ok (label_pod flownode_name (add_init_container initializer t)).

Definition flownode_generatePodTemplateSpec (spec : FlownodeSpec)
    : M (CState * DefaultBuilder) CorePodTemplateSpec :=
  t ← lift (flownode_pod_base spec);
  with_vector c FlownodeRoleKind t (flownode_pod_end spec).

(** ** The methods of the builder *)

Definition flownode_service (spec : FlownodeSpec) : Service :=
  mkService (labelled_meta c flownode_name)
    (mkCoreServiceSpec "" "None" (component_label flownode_name) (flownode_servicePorts spec) None).

Definition flownode_sts (spec : FlownodeSpec) (template : CorePodTemplateSpec) : object :=
  Object KStatefulSet (mkStatefulSet (labelled_meta c flownode_name)
    (mkStatefulSetSpec "Parallel" flownode_name (cs_Replicas (fl_ComponentSpec spec))
      (component_label flownode_name) template [] "RollingUpdate" (fl_RollingUpdate spec))
    (mkStatefulSetStatus 0 0 0)).

(** Nothing is built without a flownode spec. *)
Definition with_flownode_spec (f : FlownodeSpec -> M (CState * DefaultBuilder) unit)
    : M (CState * DefaultBuilder) unit :=
  build (match GetFlownode c with Some spec => f spec | None => mret tt end).

Definition Flownode_BuildService : M (CState * DefaultBuilder) unit :=
  with_flownode_spec (fun spec => append_object (Object KService (flownode_service spec))).

Definition Flownode_BuildConfigMap : M (CState * DefaultBuilder) unit :=
  with_flownode_spec (fun spec => append_configmap c (RSFlownode (Some spec))).

Definition Flownode_BuildStatefulSet : M (CState * DefaultBuilder) unit :=
  with_flownode_spec (fun spec =>
    template ← flownode_generatePodTemplateSpec spec;
    append_hashed c SFlownode (RSFlownode (Some spec)) (flownode_sts spec) template).

Definition Flownode_BuildPodMonitor : M (CState * DefaultBuilder) unit :=
  with_flownode_spec (fun _ =>
    if negb (IsEnablePrometheusMonitor (GetPrometheusMonitor cluster)) then mret tt
    else append_podmonitor c flownode_name).

Definition flownode_build : M (CState * DefaultBuilder) unit :=
  _ ← Flownode_BuildService;
  _ ← Flownode_BuildConfigMap;
  _ ← Flownode_BuildStatefulSet;
  Flownode_BuildPodMonitor.

(** ** What is generated *)

(** The template when nothing fails. *)
Definition flownode_pod (spec : FlownodeSpec) : res CorePodTemplateSpec :=
  t ← flownode_pod_base spec;
  t ← vector_pod c FlownodeRoleKind t;
  flownode_pod_end spec t.

Definition flownode_specs : list FlownodeSpec := option_list (GetFlownode c).

Definition flownode_component : component :=
  mkComponent KStatefulSet (map (fun _ => flownode_name) flownode_specs)
    (map (fun spec => eq (Object KService (flownode_service spec))) flownode_specs)
    (map (fun spec => RSFlownode (Some spec)) flownode_specs)
    (map (fun spec => hashed c (RSFlownode (Some spec)) (flownode_sts spec) (flownode_pod spec)) flownode_specs)
    (map (fun _ => flownode_name) flownode_specs).

(** ** Lemmas *)

Lemma builds_flownode_sts spec :
  builds ((if vector_enabled c then [vector_configmap c] else [])
          ++ [hashed c (RSFlownode (Some spec)) (flownode_sts spec) (flownode_pod spec)])
    (template ← flownode_generatePodTemplateSpec spec;
     append_hashed c SFlownode (RSFlownode (Some spec)) (flownode_sts spec) template).
Proof.
  apply builds_pass with (P := fun t => flownode_pod spec = Ok t).
  - apply builds_lift_bind. intros t _. apply builds_with_vector.
  - intros W env s w t. unfold flownode_generatePodTemplateSpec, flownode_pod. rewrite exec_bind, exec_lift.
    cbn [out_res out_st out_world out_log]. destruct (flownode_pod_base spec) as [t0|e|]; [|done..].
    cbn [mbind res_bind]. apply results_with_vector.
  - intros t. eexists. apply builds_hashed.
  - intros t ->. apply builds_hashed.
Qed.

Lemma flownode_build_builds : builds (component_objects c flownode_component) (flownode_build).
Proof.
  unfold flownode_build, component_objects, flownode_component, flownode_specs, Flownode_BuildService,
    Flownode_BuildConfigMap, Flownode_BuildStatefulSet, Flownode_BuildPodMonitor, with_flownode_spec.
  destruct (GetFlownode c) as [spec|]; cbn [option_list map co_names co_services co_configs co_workloads co_monitors].
  - rewrite decide_False by done.
    apply builds_bind; [|intros _; apply builds_bind; [|intros _; rewrite app_assoc; apply builds_bind; [|intros _]]];
      apply builds_build.
    + apply builds_append.
    + apply builds_configmap.
    + apply builds_flownode_sts.
    + unfold monitored. destruct (IsEnablePrometheusMonitor _); cbn [negb];
        [apply builds_podmonitor|apply builds_ret].
  - rewrite decide_True by done.
    repeat (eapply (builds_bind [] []); [apply builds_build, builds_ret|intros _]).
    apply builds_build, builds_ret.
Qed.

Lemma flownode_pod_label spec t :
  flownode_pod spec = Ok t -> pt_Labels t !! GreptimeDBComponentName = Some flownode_name.
Proof.
  unfold flownode_pod. intros (t0 & _ & Ht)%bind_Ok. apply bind_Ok in Ht as (t1 & _ & Ht).
  apply bind_Ok in Ht as (i & _ & [= <-]). apply label_pod_lookup.
Qed.

Lemma flownode_component_named : component_named c flownode_component.
Proof.
  split; [by left|]. split; cbn [flownode_component co_services co_names co_workload co_workloads].
  - apply Forall2_fmap, Forall_Forall2_diag, Forall_true. intros spec. by apply named_service.
  - apply Forall2_fmap, Forall_Forall2_diag, Forall_true. intros spec. apply named_hashed.
    + intros t. split_and!; [done|done|apply labelled_settle|]. by exists [].
    + intros t. apply flownode_pod_label.
Qed.

Lemma flownode_component_distinct : component_distinct c flownode_component.
Proof.
  unfold component_distinct, flownode_component, flownode_specs.
  destruct (GetFlownode c); cbn; split_and!; try done; repeat constructor; try apply not_elem_of_nil.
  by intros s [=].
Qed.

Lemma extends_flownode_initializer spec i claims t :
  flownode_generateInitializer spec = Ok i ->
  ConfigVolumeName ∈ pod_volumes t -> InitConfigVolumeName ∈ pod_volumes t ->
  extends claims t (add_init_container i t).
Proof.
  unfold flownode_generateInitializer. intros Hi. res_inv. subst i. by apply extends_initializer.
Qed.

Lemma extends_flownode_pod claims spec t pod :
  flownode_pod spec = Ok t -> (vector_enabled c = true -> flownode_logs_volume spec = true) ->
  GeneratePodTemplateSpec FlownodeRoleKind (cs_Template (fl_ComponentSpec spec)) = Some pod ->
  extends claims pod t.
Proof.
  unfold flownode_pod, flownode_pod_base. intros Ht Hlogs Hpod.
  apply bind_Ok in Ht as (t5 & Hb & Ht). apply bind_Ok in Ht as (t6 & Ht6 & Ht).
  apply bind_Ok in Ht as (i & Hi & [= <-]).
  apply bind_Ok in Hb as ([main t0] & Ht0 & Hb). apply bind_Ok in Hb as (t1 & Ht1 & Hb).
  apply bind_Ok in Hb as (t2 & Ht2 & Hb). apply bind_Ok in Hb as (t3 & Ht3 & Hb).
  apply bind_Ok in Hb as (t4 & Ht4 & Ht5). cbv zeta in Ht5.
  set (t4' := addInitConfigDirVolume flownode_name t4) in *.
  assert (E4 : extends claims t4 t4') by apply extends_add_volume.
  assert (E5 : extends claims t4' t5) by extends_step Ht5.
  assert (E6 : extends claims t5 t6).
  { eapply extends_vector_pod; [exact Ht6|]. intros Hv. rewrite Hlogs in Ht5 by done. eauto with extends. }
  apply start_pod_Ok in Ht0. rewrite Hpod in Ht0. injection Ht0 as ->.
  transitivity t1; [eauto with extends|]. transitivity t2; [eauto with extends|].
  transitivity t3; [eauto with extends|]. transitivity t4; [eauto with extends|].
  transitivity t6; [by repeat (etransitivity; [eassumption|])|].
  etransitivity; [|apply extends_label]. eapply extends_flownode_initializer; [exact Hi|..];
    eapply extends_volumes; [exact E6| |exact E6|]; eapply extends_volumes; [exact E5| |exact E5|].
  - eapply extends_volumes; [exact E4|]. eauto with extends.
  - unfold t4', addInitConfigDirVolume. rewrite pod_volumes_add. set_solver.
Qed.

(** ** Node ids *)

(** The ports are int32s; the start id is not negative, which nothing in the CRD asks for. *)
Definition flownode_numbers_ok (spec : FlownodeSpec) : Prop :=
  is_int32 (fl_RPCPort spec) /\ is_count (default 0%Z (fl_StartNodeID spec)).

Lemma flownode_initializer_options `{FlagLib} `{!FlagLaws} spec i :
  GetFlownode c = Some spec -> flownode_numbers_ok spec -> flownode_generateInitializer spec = Ok i ->
  main_options (ct_Args i) = Ok (mkOptions config_file
    (path_Join GreptimeDBInitConfigDir GreptimeDBConfigFileName) "" FlownodeRoleKind
    (fl_RPCPort spec) (-1) (default 0%Z (fl_StartNodeID spec))).
Proof.
  unfold flownode_generateInitializer. intros Hg [Hr Hs] Hi. rewrite Hg in Hi. res_inv. subst i.
  rewrite <- (main_options_line FlownodeRoleKind config_file _ (fl_RPCPort spec) None (fl_StartNodeID spec));
    [|done|done|unfold is_count, is_int32 in *; lia].
  cbn [plain_container ct_Args]. by destruct (fl_StartNodeID spec) eqn:E; cbn; rewrite ?E.
Qed.

Lemma flownode_workload_node_id `{FlagLib} `{!FlagLaws} spec o node k :
  GetFlownode c = Some spec -> flownode_numbers_ok spec -> is_count k -> own_hostnames o = true ->
  hashed c (RSFlownode (Some spec)) (flownode_sts spec) (flownode_pod spec) o ->
  pod_node_id node o k = Ok (k + default 0%Z (fl_StartNodeID spec))%Z.
Proof.
  intros Hg Hn Hk Hown (t & text & Ht & _ & ->). unfold flownode_pod, flownode_pod_end in Ht.
  unfold own_hostnames in Hown. cbn in Hown. apply negb_true_iff in Hown.
  apply bind_Ok in Ht as (? & _ & Ht). apply bind_Ok in Ht as (? & _ & Ht).
  apply bind_Ok in Ht as (i & Hi & [= <-]). unfold pod_node_id, pod_hostname. cbn in *. rewrite Hown, last_snoc.
  cbn [deref mbind res_bind]. rewrite (flownode_initializer_options spec i Hg Hn Hi). cbn [mbind res_bind].
  destruct Hn as [_ Hs].
  etransitivity; [apply (allocateNodeID_node_id (mkOptions _ _ _ _ _ _ _)); [|done..]|done].
  unfold is_int32. cbn. lia.
Qed.
End flownode_builder.

Definition Flownode_Generate `{TomlLib} `{VectorLib} `{JsonLib} `{ControllerLib} : M CState (list object) :=
  c ← get_cluster;
  with_builder (Object KCluster c) (_ ← flownode_build c; finish).

(** ** Memory and requests *)

Lemma Flownode_Generate_keeps `{TomlLib} `{VectorLib} `{JsonLib} `{ControllerLib} : keeps_cluster Flownode_Generate.
Proof.
  apply preserves_bind; [apply _|apply keeps_get_cluster|]. intros c.
  apply preserves_with_builder. unfold flownode_build, Flownode_BuildService, Flownode_BuildConfigMap,
    Flownode_BuildStatefulSet, Flownode_BuildPodMonitor, with_flownode_spec, flownode_generatePodTemplateSpec. solve_keeps.
Qed.

Lemma Flownode_Generate_logs `{TomlLib} `{VectorLib} `{JsonLib} `{ControllerLib} : logs_only secret_read Flownode_Generate.
Proof. unfold Flownode_Generate, flownode_build, Flownode_BuildService, Flownode_BuildConfigMap,
    Flownode_BuildStatefulSet, Flownode_BuildPodMonitor, with_flownode_spec, flownode_generatePodTemplateSpec. solve_gen_logs. Qed.

(** ** Properties *)

Section properties.
Context `{TomlLib} `{VectorLib} `{JsonLib} `{ControllerLib}.

(** The flownodes' pods can be created: a sound template, and logs for vector. *)
Definition flownode_pod_ok (c : GreptimeDBCluster) (spec : FlownodeSpec) : Prop :=
  template_closed [] FlownodeRoleKind (cs_Template (fl_ComponentSpec spec))
  /\ (vector_enabled c = true -> flownode_logs_volume spec = true).

Lemma flownode_generates {W} (env : environment W) s w objs :
  out_res (exec env Flownode_Generate s w) = Ok objs ->
  exists raw, Forall2 (fun P x => P x) (component_objects (c_cluster s) (flownode_component (c_cluster s))) raw
    /\ Forall2 (fun o o' => prepared (Object KCluster (c_cluster s)) o = Ok o') raw objs.
Proof.
  unfold Flownode_Generate. rewrite exec_bind, exec_get_cluster.
  cbn [out_res out_st out_world out_log prepend].
  apply component_builds; [apply flownode_component_named|apply flownode_build_builds].
Qed.

(** C24. Whenever generating the flownodes succeeds, the objects are, in order, those of
    [flownode_component] (nothing without a flownode spec), each prepared with the cluster
    as its controller; no two share a kind and key, every selector finds the pods of
    the flownodes' StatefulSet and of nothing else; and when the user's template is
    sound and vector finds its logs, every mount of the pods has its volume. *)
Theorem Flownode_Generate_correct `{!ControllerLaws} {W} (env : environment W) s w objs :
  let c := c_cluster s in
  out_res (exec env Flownode_Generate s w) = Ok objs ->
  (exists raw, Forall2 (fun P x => P x) (component_objects c (flownode_component c)) raw
     /\ Forall2 (fun o o' => prepared (Object KCluster c) o = Ok o') raw objs)
  /\ map kind_key objs = object_keys (cluster_namespace c) (component_segments c (flownode_component c))
  /\ NoDup (map kind_key objs) /\ well_addressed objs
  /\ (Forall (flownode_pod_ok c) (flownode_specs c) -> Forall workload_closed objs).
Proof.
  intros c Hg. pose proof (flownode_generates env s w objs Hg) as (raw & Hr & Hp). fold c in Hr, Hp.
  split; [by exists raw|].
  destruct (component_generated c _ _ raw objs (flownode_component_named c) Hr Hp) as [Hk Hd].
  specialize (Hd (flownode_component_distinct c)) as [Hd1 Hd2]. split_and!; [done..|].
  intros Hok. eapply component_closed; [apply (flownode_component_named c)|exact Hr|exact Hp|].
  intros P o HP Ho. apply list_elem_of_fmap in HP as (spec & -> & Hx).
  rewrite Forall_forall in Hok. destruct (Hok spec Hx) as (Htpl & Hl).
  destruct Ho as (t' & text & Ht & _ & ->). intros t claims [= <- <-].
  apply (extends_hash [] text t').
  assert (Hpod : exists pod, GeneratePodTemplateSpec FlownodeRoleKind (cs_Template (fl_ComponentSpec spec)) = Some pod).
  { unfold flownode_pod, flownode_pod_base in Ht. apply bind_Ok in Ht as (? & Ht & _).
    apply bind_Ok in Ht as ([main pod] & Hs & _). exists pod. by eapply start_pod_Ok. }
  destruct Hpod as [pod Hpod]. eapply extends_flownode_pod; [exact Ht|done|exact Hpod|by apply Htpl].
Qed.

(** The initializer of a generated flownode pod gives the pod with an ordinal the id
    ordinal plus start, when the start is not negative and the pods do not use their node's
    network: then no two pods of a cluster's flownodes share an id. *)
Theorem Flownode_pods_node_ids `{!ControllerLaws} `{FlagLib} `{!FlagLaws} {W} (env : environment W) s w objs spec o node k :
  let c := c_cluster s in
  out_res (exec env Flownode_Generate s w) = Ok objs -> GetFlownode c = Some spec ->
  flownode_numbers_ok spec -> o ∈ objs -> workload_of o <> None -> own_hostnames o = true -> is_count k ->
  pod_node_id node o k = Ok (k + default 0%Z (fl_StartNodeID spec))%Z.
Proof.
  intros c (raw & Hr & Hp)%flownode_generates Hs Hnum Ho Hw Hown Hk. fold c in Hr, Hp.
  apply list_elem_of_lookup in Ho as [a Ha].
  destruct (Forall2_lookup_r _ _ _ _ _ Hp Ha) as (o0 & Hr0 & Hprep).
  destruct (Forall2_lookup_r _ _ _ _ _ Hr Hr0) as (P & HP & HPo).
  pose proof (prepared_keeps _ _ _ Hprep) as (_ & Hwl & _). rewrite Hwl in Hw.
  unfold own_hostnames in Hown. rewrite Hwl in Hown. fold (own_hostnames o0) in Hown.
  assert (Hsup : supported (o_kind o0) = true)
    by (eapply (component_supported c _ (flownode_component_named c) o0 P); [by eapply list_elem_of_lookup_2|done]).
  rewrite (prepared_node_id _ o0 o node k Hsup Hprep).
  destruct (component_objects_workload c _ a P o0 (flownode_component_named c) HP HPo Hw) as (i & _ & Hi).
  apply list_lookup_fmap_Some in Hi as (spec' & -> & Hi). unfold flownode_specs in Hi. rewrite Hs in Hi.
  destruct i; [|done]. injection Hi as <-. by eapply flownode_workload_node_id.
Qed.

(** The flownode's initializer is not told about IPv6, the datanode's is. *)
Theorem flownode_initializer_without_ipv6 c spec i :
  flownode_generateInitializer c spec = Ok i -> EnvEnableIPv6 ∉ map ev_Name (ct_Env i).
Proof.
  unfold flownode_generateInitializer. intros Hi. res_inv. subst i. cbn.
  by rewrite !elem_of_cons, elem_of_nil; intros [[=]|[[=]|[]]].
Qed.
End properties.

#[local] Existing Instances flat_toml plain_vector text_json owner_reference plain_pflag.
#[local] Existing Instances owner_reference_laws.

Lemma Flownode_Generate_correct_witness :
  let s := mkCState (sample_cluster true) ∅ in
  exists objs, out_res (exec fake_env Flownode_Generate s []) = Ok objs
    /\ length objs = 5 /\ NoDup (map kind_key objs) /\ well_addressed objs /\ Forall workload_closed objs.
Proof.
  intros s.
  assert (Hok : match out_res (exec fake_env Flownode_Generate s []) with
                | Ok objs => Nat.eqb (length objs) 5 | _ => false end = true) by (vm_compute; reflexivity).
  destruct (out_res (exec fake_env Flownode_Generate s [])) as [objs|e|] eqn:Hg; [|discriminate Hok..].
  apply Nat.eqb_eq in Hok. exists objs.
  destruct (Flownode_Generate_correct fake_env s [] objs Hg) as (_ & _ & Hd & Hw & Hc).
  split_and!; [done..|]. apply Hc. repeat apply Forall_cons_2; try apply Forall_nil_2.
  split; [apply (bool_decide_unpack _); vm_compute; done|done].
Defined.

Lemma Flownode_pods_node_ids_witness :
  let s := mkCState (sample_cluster true) ∅ in
  exists objs o, out_res (exec fake_env Flownode_Generate s []) = Ok objs /\ objs !! 3%nat = Some o
    /\ pod_node_id "" o 2 = Ok 9%Z.
Proof.
  intros s.
  assert (Hok : match out_res (exec fake_env Flownode_Generate s []) with
                | Ok objs => match objs !! 3%nat with Some o => not_nil (workload_of o) && own_hostnames o | None => false end
                | _ => false end = true) by (vm_compute; reflexivity).
  destruct (out_res (exec fake_env Flownode_Generate s [])) as [objs|e|] eqn:Hg; [|discriminate Hok..].
  destruct (objs !! 3%nat) as [o|] eqn:Ho; [|discriminate Hok]. exists objs, o. split_and!; [done..|].
  apply (Flownode_pods_node_ids fake_env s [] objs
           (mkFlownodeSpec (sample_component 2) 4004 4005 None (Some 7%Z)) o "" 2 Hg).
  - reflexivity.
  - unfold flownode_numbers_ok, is_int32, is_count. cbn. lia.
  - by eapply list_elem_of_lookup_2.
  - intros E. rewrite E in Hok. discriminate Hok.
  - by apply andb_true_iff in Hok as [_ Hok].
  - unfold is_count. lia.
Defined.
