(* ===== verification/FrontendGen.v ===== *)
(** * controllers/greptimedbcluster/deployers/frontend.go: the frontend builder

    One service, config map, deployment and pod monitor for the base frontend and
    for each frontend group, and vector's config map. *)

From stdpp Require Import base gmap sets strings list fin_maps.
From Stdlib Require Import ZArith Lia.
From S2P Require Import Prelude GoLib Hash K8s ApiCommon ApiTypes Client ApiServer K8sUtil.
From S2P Require Import Deployer Builder Common NodeId Validate Toml DbConfig Initializer Pods.
From S2P Require Import Mergo Defaulting Cluster Generator.

Section frontend_builder.
Context `{TomlLib} `{VectorLib}.
Variable c : GreptimeDBCluster.
Notation cluster := (Some c).

Definition frontend_name (spec : FrontendSpec) : string :=
  resource c FrontendRoleKind [FrontendSpec_GetName (Some spec)].

(** ** The pod template *)

(** [Spec.Meta] is dereferenced. *)
Definition frontend_generateMainContainerArgs (spec : FrontendSpec) : res (list string) :=
  let bind port := GetBindAddress (cl_EnableIPv6 (gc_Spec c)) port in
  let server port := GetServerAddress (cl_EnableIPv6 (gc_Spec c)) pod_ip_var port in
  meta ← deref (cl_Meta (gc_Spec c));
  Ok (["frontend"; "start";
       "--rpc-bind-addr"; bind (fe_RPCPort spec);
       "--rpc-server-addr"; server (fe_RPCPort spec);
       "--metasrv-addrs"; resource c MetaRoleKind [] +:+ "." +:+ cluster_namespace c +:+ ":"
                          +:+ fmt_d (me_RPCPort meta);
       "--http-addr"; bind (fe_HTTPPort spec);
       "--mysql-addr"; bind (fe_MySQLPort spec);
       "--postgres-addr"; bind (fe_PostgreSQLPort spec);
       "--config-file"; config_file;
       "--internal-rpc-bind-addr"; bind (fe_InternalPort spec);
       "--internal-rpc-server-addr"; server (fe_InternalPort spec)]
      ++ (if FrontendSpec_IsEnableHTTPAPIServer (Some spec)
          then ["--http-api-server-addr"; bind (fe_HTTPAPIServerPort spec)] else [])
      ++ (if not_nil (fe_TLS spec)
          then ["--tls-mode"; DefaultTLSMode;
                "--tls-cert-path"; path_Join GreptimeDBTLSDir TLSCrtSecretKey;
                "--tls-key-path"; path_Join GreptimeDBTLSDir TLSKeySecretKey] else [])).

Definition frontend_containerPorts (spec : FrontendSpec) : list ContainerPort :=
  [container_port "rpc" (fe_RPCPort spec); container_port "http" (fe_HTTPPort spec)]
  ++ (if FrontendSpec_IsEnableHTTPAPIServer (Some spec)
      then [container_port "http-api" (fe_HTTPAPIServerPort spec)] else [])
  ++ [container_port "mysql" (fe_MySQLPort spec); container_port "pg" (fe_PostgreSQLPort spec);
      container_port "internal-rpc" (fe_InternalPort spec)].

(** The ports of the cluster lead to those of the frontend. *)
Definition frontend_servicePorts (spec : FrontendSpec) : list ServicePort :=
  let s := gc_Spec c in
  let httpTargetPort := if FrontendSpec_IsEnableHTTPAPIServer (Some spec)
                        then fe_HTTPAPIServerPort spec else fe_HTTPPort spec in
  [mkServicePort "rpc" ProtocolTCP (cl_RPCPort s) (FromInt32 (fe_RPCPort spec));
   mkServicePort "http" ProtocolTCP (cl_HTTPPort s) (FromInt32 httpTargetPort);
   mkServicePort "mysql" ProtocolTCP (cl_MySQLPort s) (FromInt32 (fe_MySQLPort spec));
   mkServicePort "pg" ProtocolTCP (cl_PostgreSQLPort s) (FromInt32 (fe_PostgreSQLPort spec))].

(** [logging != nil && !logging.IsOnlyLogToStdout()] *)
Definition frontend_logs_volume (spec : FrontendSpec) : bool :=
  let logging := FrontendSpec_GetLogging (Some spec) in
  not_nil logging && negb (LoggingSpec_IsOnlyLogToStdout logging).

Definition frontend_generatePodTemplateSpec (spec : FrontendSpec) : res CorePodTemplateSpec :=
  '(main, t) ← start_pod FrontendRoleKind (cs_Template (fe_ComponentSpec spec));
  t ← with_args main (frontend_generateMainContainerArgs spec) t;
  let t := label_pod (frontend_name spec) t in
  t ← on_main (set_Ports (frontend_containerPorts spec)) t;
  t ← on_main (append_Env (env c FrontendRoleKind)) t;
  t ← MountConfigDir t (frontend_name spec);
  t ← (if frontend_logs_volume spec
       then AddLogsVolume (LoggingSpec_GetLogsDir (FrontendSpec_GetLogging (Some spec))) t
       else Ok t);
  t ← match FrontendSpec_GetAuditLog (Some spec) with
      | Some auditLog => if al_Enabled auditLog then AddAuditLogsVolume (al_Dir auditLog) t else Ok t
      | None => Ok t
      end;
  t ← (if vector_enabled c then AddVectorSidecar c FrontendRoleKind (AddVectorConfigVolume c t)
       else Ok t);
  match fe_TLS spec with
  | Some tls => mountTLSSecret (tl_SecretName tls) t
  | None => Ok t
  end.

(** ** Objects *)

(** [frontend.Service] is dereferenced. *)
Definition frontend_service (spec : FrontendSpec) : res Service :=
  let name := frontend_name spec in
  service ← deref (fe_Service spec);
  Ok (mkService
        (meta_of (cluster_namespace c) name (Some (MergeStringMap (sv_Labels service) (component_label name)))
           (sv_Annotations service))
        (mkCoreServiceSpec (sv_Type service) "" (component_label name)
           (ServiceSpec_GetPorts (Some service) (frontend_servicePorts spec))
           (sv_LoadBalancerClass service))).

Definition frontend_generateService (p : slot) (spec : FrontendSpec) : M (CState * DefaultBuilder) unit :=
  svc ← lift (frontend_service spec);
  _ ← share_service_maps p (svc_ObjectMeta svc);
  append_object (Object KService svc).

Definition frontend_object (spec : FrontendSpec) (template : CorePodTemplateSpec) : object :=
  let name := frontend_name spec in
  Object KDeployment (mkDeployment (labelled_meta c name)
    (mkDeploymentSpec (cs_Replicas (fe_ComponentSpec spec)) (component_label name) template
      "RollingUpdate" (fe_RollingUpdate spec))
    (mkDeploymentStatus 0 0 [])).

(** An error is noted, and the caller goes on with the next frontend. *)
Definition frontend_generateDeployment (p : slot) (spec : FrontendSpec) : M (CState * DefaultBuilder) unit :=
  catch (
    template ← lift (frontend_generatePodTemplateSpec spec);
    append_hashed c p (RSFrontend (Some spec)) (frontend_object spec) template).

(** ** The methods of the builder *)

(** The base frontend and the groups, with where they are. *)
Definition frontends : list (slot * FrontendSpec) :=
  option_list ((fun spec => (SFrontend, spec)) <$> GetFrontend cluster)
  ++ imap (fun i spec => (SFrontendGroup i, spec)) (GetFrontendGroups cluster).

Definition no_frontends : bool :=
  negb (not_nil (GetFrontend cluster)) && bool_decide (GetFrontendGroups cluster = []).

Definition Frontend_BuildService : M (CState * DefaultBuilder) unit :=
  build (if no_frontends then mret tt
         else range (fun '(p, spec) => frontend_generateService p spec) frontends).

Definition Frontend_BuildConfigMap : M (CState * DefaultBuilder) unit :=
  build (if no_frontends then mret tt
         else range (fun '(_, spec) => append_configmap c (RSFrontend (Some spec))) frontends).

Definition Frontend_BuildDeployment : M (CState * DefaultBuilder) unit :=
  build (
    if no_frontends then mret tt
    else _ ← when (vector_enabled c) (append_vector_configmap c);
         range (fun '(p, spec) => frontend_generateDeployment p spec) frontends).

(** The pod monitor of the base frontend does not carry its name. *)
Definition frontend_monitors : list string :=
  option_list ((fun _ => resource c FrontendRoleKind []) <$> GetFrontend cluster)
  ++ map frontend_name (GetFrontendGroups cluster).

Definition Frontend_BuildPodMonitor : M (CState * DefaultBuilder) unit :=
  build (
    if no_frontends then mret tt
    else if negb (IsEnablePrometheusMonitor (GetPrometheusMonitor cluster)) then mret tt
    else range (append_podmonitor c) frontend_monitors).

Definition frontend_build : M (CState * DefaultBuilder) unit :=
  _ ← Frontend_BuildService;
  _ ← Frontend_BuildConfigMap;
  _ ← Frontend_BuildDeployment;
  Frontend_BuildPodMonitor.

(** The services, which come first, share their annotations with the specs. *)
Definition share_services (b : DefaultBuilder) (s : CState) : CState :=
  foldl (fun s '(p, _, o) => on_spec (at_service p (share_service (meta_of_object o))) s) s
    (zip frontends (db_Objects b)).

(** ** What is generated *)

Definition frontend_specs : list FrontendSpec := map snd frontends.

Definition service_for (spec : FrontendSpec) (o : object) : Prop :=
  exists svc, frontend_service spec = Ok svc /\ o = Object KService svc.

Definition frontend_component : component :=
  mkComponent KDeployment (map frontend_name frontend_specs) (map service_for frontend_specs)
    (map (fun spec => RSFrontend (Some spec)) frontend_specs)
    (map (fun spec => hashed c (RSFrontend (Some spec)) (frontend_object spec)
                        (frontend_generatePodTemplateSpec spec)) frontend_specs)
    frontend_monitors.

(** ** Lemmas *)

Lemma builds_frontend_service p spec : builds [service_for spec] (frontend_generateService p spec).
Proof.
  apply builds_lift_bind. intros svc Hs.
  apply builds_then with (P := fun _ => True); [apply builds_write|by intros ?|]. intros _ _.
  apply builds_such. by exists svc.
Qed.

Lemma builds_frontend_object p spec :
  builds [hashed c (RSFrontend (Some spec)) (frontend_object spec)
            (frontend_generatePodTemplateSpec spec)] (frontend_generateDeployment p spec).
Proof.
  apply builds_catch, builds_lift_bind. intros t Ht. rewrite Ht. apply builds_hashed.
Qed.

Lemma no_frontends_specs :
  no_frontends = bool_decide (map frontend_name frontend_specs = []).
Proof.
  unfold no_frontends, frontend_specs, frontends. destruct (GetFrontend cluster); [done|].
  by destruct (GetFrontendGroups cluster).
Qed.

Lemma frontend_build_builds : builds (component_objects c frontend_component) frontend_build.
Proof.
  unfold frontend_build, component_objects, Frontend_BuildService, Frontend_BuildConfigMap,
    Frontend_BuildDeployment, Frontend_BuildPodMonitor.
  rewrite no_frontends_specs.
  cbn [frontend_component co_names co_services co_configs co_workloads co_monitors].
  destruct (decide _) as [->|Hne].
  { repeat (eapply (builds_bind [] []); [apply builds_build, builds_ret|intros _]).
    apply builds_build, builds_ret. }
  rewrite bool_decide_eq_false_2 by done. unfold frontend_specs.
  apply builds_bind; [|intros _; apply builds_bind; [|intros _; rewrite app_assoc; apply builds_bind; [|intros _]]];
    apply builds_build.
  - rewrite map_map. apply builds_map. intros [p x] _. apply builds_frontend_service.
  - rewrite !map_map. apply builds_map. intros [p x] _. apply builds_configmap.
  - apply builds_bind; [apply builds_when, builds_vector_configmap|]. intros _.
    rewrite map_map. apply builds_map. intros [p x] _. apply builds_frontend_object.
  - unfold monitored. destruct (IsEnablePrometheusMonitor _); cbn [negb]; [|apply builds_ret].
    apply builds_map. intros x _. apply builds_podmonitor.
Qed.

Lemma frontend_pod_label spec t :
  frontend_generatePodTemplateSpec spec = Ok t ->
  pt_Labels t !! GreptimeDBComponentName = Some (frontend_name spec).
Proof.
  unfold frontend_generatePodTemplateSpec. intros Ht.
  apply bind_Ok in Ht as ([main t0] & _ & Ht). apply bind_Ok in Ht as (t1 & _ & Ht). cbv zeta in Ht.
  assert (Hl := label_pod_lookup (frontend_name spec) t1). set (t1' := label_pod _ t1) in *.
  apply bind_Ok in Ht as (t2 & Ht2 & Ht). apply bind_Ok in Ht as (t3 & Ht3 & Ht).
  apply bind_Ok in Ht as (t4 & Ht4 & Ht). apply bind_Ok in Ht as (t5 & Ht5 & Ht).
  apply bind_Ok in Ht as (t6 & Ht6 & Ht). apply bind_Ok in Ht as (t7 & Ht7 & Ht).
  assert (E : pt_Labels t = pt_Labels t1'); [|by rewrite E].
  transitivity (pt_Labels t7); [destruct (fe_TLS spec); [eauto with labels|by injection Ht as ->]|].
  transitivity (pt_Labels t6); [destruct (vector_enabled c); [eauto with labels|by injection Ht7 as ->]|].
  transitivity (pt_Labels t5).
  { destruct (FrontendSpec_GetAuditLog _) as [al|]; [destruct (al_Enabled al)|];
      [eauto with labels|by injection Ht6 as ->..]. }
  transitivity (pt_Labels t4); [destruct (frontend_logs_volume spec); [eauto with labels|by injection Ht5 as ->]|].
  transitivity (pt_Labels t3); [eauto with labels|]. transitivity (pt_Labels t2); eauto with labels.
Qed.

Lemma frontend_component_named : component_named c frontend_component.
Proof.
  split; [by right|]. split; cbn [frontend_component co_services co_names co_workload co_workloads].
  - apply Forall2_fmap, Forall_Forall2_diag, Forall_true. intros spec o (svc & Hs & ->).
    unfold frontend_service in Hs. res_inv. subst svc. split; [done|].
    split; [by split; [intros sel [= <-]|]|]. unfold labels_settle. cbn. intros Hl%(inj Some).
    apply (f_equal (lookup GreptimeDBComponentName)) in Hl. by rewrite MergeStringMap_lookup in Hl.
  - apply Forall2_fmap, Forall_Forall2_diag, Forall_true. intros spec. apply named_hashed.
    + intros t. split_and!; [done|done|apply labelled_settle|]. by exists [].
    + intros t. apply frontend_pod_label.
Qed.

(** The base frontend has no name of its own, and the groups have names of their
    own. *)
Definition frontend_names_ok : Prop :=
  (forall f, GetFrontend cluster = Some f -> fe_Name f = "")
  /\ Forall (fun g => fe_Name g <> "") (GetFrontendGroups cluster)
  /\ NoDup (map fe_Name (GetFrontendGroups cluster)).

Lemma frontend_specs_list :
  frontend_specs = option_list (GetFrontend cluster) ++ GetFrontendGroups cluster.
Proof.
  unfold frontend_specs, frontends. rewrite map_app. f_equal; [by destruct (GetFrontend cluster)|].
  change (map ?f ?l) with (f <$> l). apply list_eq. intros i.
  rewrite list_lookup_fmap, list_lookup_imap. by destruct (_ !! i).
Qed.

Lemma frontend_component_distinct : frontend_names_ok -> component_distinct c frontend_component.
Proof.
  intros (Hb & Hne & Hd). assert (Hn : NoDup (map frontend_name frontend_specs)).
  { change (map frontend_name) with (map (fun x => resource c FrontendRoleKind [fe_Name x])).
    rewrite <- (map_map fe_Name (fun n => resource c FrontendRoleKind [n])).
    apply (NoDup_fmap_2_strong (fun n => resource c FrontendRoleKind [n]));
      [intros n n' _ _; apply resource_inj|].
    rewrite frontend_specs_list, map_app. apply NoDup_app. split_and!; [|intros n|done].
    - destruct (GetFrontend cluster); cbn; [apply NoDup_singleton|apply NoDup_nil_2].
    - destruct (GetFrontend cluster) as [f|] eqn:Hf; cbn; [|by intros ?%elem_of_nil].
      rewrite (Hb f eq_refl). intros ->%list_elem_of_singleton Hin.
      apply list_elem_of_fmap in Hin as (g & Hn & Hg). rewrite Forall_forall in Hne. by apply (Hne g Hg). }
  unfold component_distinct. cbn [frontend_component co_names co_configs co_monitors]. split_and!; [done|..].
  - by rewrite map_map.
  - apply Forall_map, Forall_true. by intros spec s [=].
  - unfold frontend_monitors. rewrite frontend_specs_list, map_app. f_equal.
    destruct (GetFrontend cluster) as [f|] eqn:Hf; [|done]. cbn. unfold frontend_name. cbn.
    by rewrite (Hb f eq_refl).
Qed.

Lemma extends_frontend_pod claims spec t pod :
  frontend_generatePodTemplateSpec spec = Ok t ->
  (vector_enabled c = true -> frontend_logs_volume spec = true) ->
  GeneratePodTemplateSpec FrontendRoleKind (cs_Template (fe_ComponentSpec spec)) = Some pod ->
  extends claims pod t.
Proof.
  unfold frontend_generatePodTemplateSpec. intros Ht Hlogs Hpod.
  apply bind_Ok in Ht as ([main t0] & Ht0 & Ht). apply bind_Ok in Ht as (t1 & Ht1 & Ht). cbv zeta in Ht.
  set (t1' := label_pod _ t1) in *. assert (E1 : extends claims t1 t1') by apply extends_label.
  apply bind_Ok in Ht as (t2 & Ht2 & Ht). apply bind_Ok in Ht as (t3 & Ht3 & Ht).
  apply bind_Ok in Ht as (t4 & Ht4 & Ht). apply bind_Ok in Ht as (t5 & Ht5 & Ht).
  apply bind_Ok in Ht as (t6 & Ht6 & Ht). apply bind_Ok in Ht as (t7 & Ht7 & Ht).
  apply start_pod_Ok in Ht0. rewrite Hpod in Ht0. injection Ht0 as ->.
  transitivity t1; [eauto with extends|]. transitivity t2; [etransitivity; [exact E1|eauto with extends]|].
  transitivity t3; [eauto with extends|]. transitivity t4; [eauto with extends|].
  assert (E6 : extends claims t5 t6) by extends_step Ht6.
  transitivity t5; [extends_step Ht5|]. transitivity t6; [exact E6|].
  transitivity t7; [|extends_step Ht].
  destruct (vector_enabled c); [|eauto with extends]. rewrite Hlogs in Ht5 by done.
  assert (E7 : extends claims t6 (AddVectorConfigVolume c t6)) by apply extends_add_volume.
  etransitivity; [exact E7|]. eapply extends_sidecar; [exact Ht7|..]; apply elem_of_app; left.
  - eapply extends_volumes; [exact E7|]. eapply extends_volumes; [exact E6|]. eauto with extends.
  - unfold AddVectorConfigVolume. rewrite pod_volumes_add. set_solver.
Qed.
End frontend_builder.

Definition Frontend_Generate `{TomlLib} `{VectorLib} `{JsonLib} `{ControllerLib} : M CState (list object) :=
  c ← get_cluster;
  with_builder (Object KCluster c) (_ ← frontend_build c; finish_on (share_services c)).

Lemma keeps_share_services c b s : same_cluster (c_cluster s) (c_cluster (share_services c b s)).
Proof.
  unfold share_services. generalize (zip (frontends c) (db_Objects b)). intros l. revert s.
  induction l as [|[[p spec] o] l IH]; intros s; cbn; [done|]. etransitivity; [|apply IH].
  unfold same_cluster, on_spec. cbn. by rewrite spec_core_share_service.
Qed.

(** ** Memory and requests *)

Lemma Frontend_Generate_keeps `{TomlLib} `{VectorLib} `{JsonLib} `{ControllerLib} : keeps_cluster Frontend_Generate.
Proof.
  apply preserves_bind; [apply _|apply keeps_get_cluster|]. intros c.
  apply preserves_with_builder. unfold frontend_build, Frontend_BuildService, Frontend_BuildConfigMap,
    Frontend_BuildDeployment, Frontend_BuildPodMonitor, frontend_generateService,
    frontend_generateDeployment. solve_keeps.
  apply preserves_finish_on; [apply _|]. intros b s. apply keeps_share_services.
Qed.

Lemma Frontend_Generate_logs `{TomlLib} `{VectorLib} `{JsonLib} `{ControllerLib} : logs_only secret_read Frontend_Generate.
Proof. unfold Frontend_Generate, frontend_build, Frontend_BuildService, Frontend_BuildConfigMap,
    Frontend_BuildDeployment, Frontend_BuildPodMonitor, frontend_generateService,
    frontend_generateDeployment. solve_gen_logs. Qed.

(** ** Properties *)

Section properties.
Context `{TomlLib} `{VectorLib} `{JsonLib} `{ControllerLib}.

(** The frontend's pods can be created: a sound template, and logs for vector. *)
Definition frontend_pod_ok (c : GreptimeDBCluster) (spec : FrontendSpec) : Prop :=
  template_closed [] FrontendRoleKind (cs_Template (fe_ComponentSpec spec))
  /\ (vector_enabled c = true -> frontend_logs_volume spec = true).

Lemma frontend_generates {W} (env : environment W) s w objs :
  out_res (exec env Frontend_Generate s w) = Ok objs ->
  exists raw, Forall2 (fun P x => P x) (component_objects (c_cluster s) (frontend_component (c_cluster s))) raw
    /\ Forall2 (fun o o' => prepared (Object KCluster (c_cluster s)) o = Ok o') raw objs.
Proof.
  unfold Frontend_Generate. rewrite exec_bind, exec_get_cluster.
  cbn [out_res out_st out_world out_log prepend].
  apply component_builds; [apply frontend_component_named|apply frontend_build_builds].
Qed.

(** C22. Whenever generating the frontends succeeds, the objects are, in order, those of
    [frontend_component], each prepared with the cluster as its controller; when the
    groups have distinct names and the base frontend has none, no two share a kind and
    key, and every selector finds the pods of the deployment of its own name and of no
    other; and when the users' templates are sound and vector finds its logs, every
    mount of the pods (TLS, logs, audit logs, vector) has its volume. *)
Theorem Frontend_Generate_correct `{!ControllerLaws} {W} (env : environment W) s w objs :
  let c := c_cluster s in
  out_res (exec env Frontend_Generate s w) = Ok objs ->
  (exists raw, Forall2 (fun P x => P x) (component_objects c (frontend_component c)) raw
     /\ Forall2 (fun o o' => prepared (Object KCluster c) o = Ok o') raw objs)
  /\ map kind_key objs = object_keys (cluster_namespace c) (component_segments c (frontend_component c))
  /\ (frontend_names_ok c -> NoDup (map kind_key objs) /\ well_addressed objs)
  /\ (Forall (frontend_pod_ok c) (frontend_specs c) -> Forall workload_closed objs).
Proof.
  intros c Hg. pose proof (frontend_generates env s w objs Hg) as (raw & Hr & Hp). fold c in Hr, Hp.
  split; [by exists raw|].
  destruct (component_generated c _ _ raw objs (frontend_component_named c) Hr Hp) as [Hk Hd].
  split_and!; [done|intros Hn; by apply Hd, frontend_component_distinct|].
  intros Hok. eapply component_closed; [apply (frontend_component_named c)|exact Hr|exact Hp|].
  intros P o HP Ho. apply list_elem_of_fmap in HP as (spec & -> & Hx).
  rewrite Forall_forall in Hok. destruct (Hok spec Hx) as (Htpl & Hl).
  destruct Ho as (t' & text & Ht & _ & ->). intros t claims [= <- <-].
  apply (extends_hash [] text t').
  assert (Hpod : exists pod, GeneratePodTemplateSpec FrontendRoleKind (cs_Template (fe_ComponentSpec spec)) = Some pod).
  { apply bind_Ok in Ht as ([main pod] & Hs & _). exists pod. by eapply start_pod_Ok. }
  destruct Hpod as [pod Hpod]. eapply extends_frontend_pod; [exact Ht|done|exact Hpod|by apply Htpl].
Qed.
End properties.

#[local] Existing Instances flat_toml plain_vector text_json owner_reference.
#[local] Existing Instances owner_reference_laws.

(** A base frontend and a group, with TLS, audit logs and vector. *)
Lemma Frontend_Generate_correct_witness :
  let s := mkCState (sample_cluster true) ∅ in
  exists objs, out_res (exec fake_env Frontend_Generate s []) = Ok objs
    /\ length objs = 9 /\ NoDup (map kind_key objs) /\ well_addressed objs /\ Forall workload_closed objs.
Proof.
  intros s.
  assert (Hok : match out_res (exec fake_env Frontend_Generate s []) with
                | Ok objs => Nat.eqb (length objs) 9 | _ => false end = true) by (vm_compute; reflexivity).
  destruct (out_res (exec fake_env Frontend_Generate s [])) as [objs|e|] eqn:Hg; [|discriminate Hok..].
  apply Nat.eqb_eq in Hok. exists objs.
  destruct (Frontend_Generate_correct fake_env s [] objs Hg) as (_ & _ & Hd & Hc).
  destruct Hd as [Hd Hw].
  { split_and!; [by intros f [= <-]| |apply NoDup_singleton].
    apply Forall_cons_2; [discriminate|apply Forall_nil_2]. }
  split_and!; [done..|]. apply Hc. repeat apply Forall_cons_2; try apply Forall_nil_2;
    (split; [apply (bool_decide_unpack _); vm_compute; done|done]).
Defined.
