(* ===== verification/Meta.v ===== *)
(** * controllers/greptimedbcluster/deployers/meta.go: the metasrv deployer

    The check of etcd before a synchronisation, and the status check, which puts
    a cluster that is being created into maintenance mode. *)

From stdpp Require Import base gmap sets strings list fin_maps.
From Stdlib Require Import ZArith.
From S2P Require Import Prelude GoLib K8s ApiCommon ApiTypes Client ApiServer K8sUtil Deployer.
From S2P Require Import Common Cluster.

(** ** Operations *)

(** The endpoints to check, if the spec asks for it. *)
Definition etcd_to_check (cluster : GreptimeDBCluster) : option (list string) :=
  match cl_Meta (gc_Spec cluster) with
  | None => None
  | Some meta =>
      match me_BackendStorage meta with
      | None => None
      | Some backend =>
          match bs_EtcdStorage backend with
          | None => None
          | Some etcd => if et_EnableCheckEtcdService etcd then Some (et_Endpoints etcd) else None
          end
      end
  end.

(** Building the client and asking for the status are one request; it answers the
    errors etcd reports. *)
Definition checkEtcdService : M CState unit :=
  cluster ← get_cluster;
  match etcd_to_check cluster with
  | None => mret tt
  | Some endpoints =>
      errors ← (ask (QEtcdStatus endpoints) ≫= lift);
      lift (guard_err (negb (Nat.eqb (length errors) 0)) (Errorf "etcd service error"))
  end.

Definition Meta_PreSyncHooks : list (M CState unit) := [checkEtcdService].

Definition meta_resource (c : GreptimeDBCluster) : string :=
  ResourceName (om_Name (gc_ObjectMeta c)) MetaRoleKind [].

Definition set_maintenance (b : bool) (s : MetaStatus) : MetaStatus :=
  mkMetaStatus (ms_Replicas s) (ms_ReadyReplicas s) b.

Section deployer.
Context `{RetryLib}.

(** [maintenanceModeWhenCreateCluster] is the deployer's option. *)
Definition Meta_CheckAndUpdateStatus (maintenanceModeWhenCreateCluster : bool) : M CState bool :=
  cluster ← get_cluster;
  found ← GetIfFound KDeployment
            (mkNamespacedName (om_Namespace (gc_ObjectMeta cluster)) (meta_resource cluster));
  match found with
  | None => mret false
  | Some deployment =>
      replicas ← lift (deref (ds_Replicas (dep_Spec deployment)));
      _ ← update_status (fun st => set_MetaStatus
            (mkMetaStatus replicas (dt_ReadyReplicas (dep_Status deployment))
               (ms_MaintenanceMode (gst_Meta st))) st);
      ready ← lift (IsDeploymentReady (Some deployment));
      cluster ← get_cluster;
      _ ← (if maintenanceModeWhenCreateCluster
              && String.eqb (gst_ClusterPhase (gc_Status cluster)) PhaseStarting
              && ready && negb (ms_MaintenanceMode (gst_Meta (gc_Status cluster)))
           then
             url ← lift (GetMetaHTTPServiceURL cluster);
             _ ← SetMaintenanceMode url true;
             update_status (fun st => set_MetaStatus (set_maintenance true (gst_Meta st)) st)
           else mret tt);
      cluster ← get_cluster;
      _ ← log_err (UpdateStatus cluster);
      mret ready
  end.
End deployer.

(** ** Specifications *)

Definition in_maintenance (c : GreptimeDBCluster) : bool :=
  ms_MaintenanceMode (gst_Meta (gc_Status c)).

(** A cluster in a phase, with a metasrv checked through etcd. *)
Definition etcd_meta (check : bool) : MetaSpec :=
  mkMetaSpec zero_ComponentSpec 3002 4000
    (Some (mkBackendStorage (Some (mkEtcdStorage ["etcd:2379"] check "")) None None)) None None.
Definition phase_status (phase : Phase) : GreptimeDBClusterStatus :=
  set_Phase "" phase 0 zero_ClusterStatus.
Definition etcd_cluster (check : bool) (phase : Phase) : GreptimeDBCluster :=
  mkGreptimeDBCluster (meta_of "default" "c" None ∅)
    (mkGreptimeDBClusterSpec None None (Some (etcd_meta check)) (Some zero_DatanodeSpec) [] None []
       0 0 0 0 None "" None None None None None None "" false)
    (phase_status phase).

(** ** Lemmas *)

(** The phase a status update leaves, and the step that enters maintenance. *)
Definition enters_maintenance (s s' : CState) (log : list event) : Prop :=
  in_maintenance (c_cluster s') = true ->
  in_maintenance (c_cluster s) = true \/ Exists (maintenance_accepted (c_cluster s) true) log.

Section meta.
Context `{RetryLaws}.

(** Publishing a status changes neither the memory nor the result. *)
Lemma exec_publish {W} (env : environment W) {S} c (s : S) w :
  let o := exec env (log_err (UpdateStatus c)) s w in
  out_st o = s /\ (out_res o = Ok tt \/ out_res o = Panic).
Proof.
  cbv zeta. split.
  - symmetry. apply (preserves_log_err eq). apply UpdateStatus_preserves, _.
  - unfold log_err. rewrite exec_bind, exec_try. cbv zeta.
    destruct (exec env (UpdateStatus c) s w) as [[[]|e|] s1 w1 l1]; cbn; auto.
Qed.

(** From the readiness on: entering maintenance, publishing, returning. *)
Definition meta_finish (flag : bool) (ready : bool) : M CState bool :=
  cluster ← get_cluster;
  _ ← (if flag && String.eqb (gst_ClusterPhase (gc_Status cluster)) PhaseStarting
          && ready && negb (ms_MaintenanceMode (gst_Meta (gc_Status cluster)))
       then
         url ← lift (GetMetaHTTPServiceURL cluster);
         _ ← SetMaintenanceMode url true;
         update_status (fun st => set_MetaStatus (set_maintenance true (gst_Meta st)) st)
       else mret tt);
  cluster ← get_cluster;
  _ ← log_err (UpdateStatus cluster);
  mret ready.

Lemma meta_finish_spec {W} (env : environment W) flag ready s w :
  let o := exec env (meta_finish flag ready) s w in
  (out_res o = Ok true -> flag = true -> gst_ClusterPhase (gc_Status (c_cluster s)) = PhaseStarting ->
   in_maintenance (c_cluster (out_st o)) = true)
  /\ enters_maintenance s (out_st o) (out_log o)
  /\ (forall b, out_res o = Ok b -> b = ready).
Proof.
  cbv zeta. unfold meta_finish. rewrite exec_bind, exec_get_cluster.
  cbn [out_res out_st out_world out_log prepend app]. rewrite exec_bind.
  set (c := c_cluster s). destruct (_ && _ && _ && _) eqn:Hcond; cbv zeta.
  - apply andb_true_iff in Hcond as [Hcond Hm]. apply andb_true_iff in Hcond as [Hcond ->].
    pose proof (switch_outcome W env c true _ _ s w
      (exec_update_status W env (fun st => set_MetaStatus (set_maintenance true (gst_Meta st)) st))) as Hsw.
    cbv zeta in Hsw.
    match goal with |- context [exec env ?m s w] => destruct (exec env m s w) as [[[]|e|] s1 w1 l1] end;
      cbn [out_res out_st out_world out_log prepend app] in *;
      [|destruct Hsw as [[_ ->]|(? & _)]; [|done]; split_and!; [done|by left|done]..].
    destruct Hsw as [[? _]|(_ & -> & Hlog)]; [done|].
    rewrite exec_bind, exec_get_cluster. cbn [out_res out_st out_world out_log prepend app].
    rewrite exec_bind. match goal with |- context [log_err (UpdateStatus ?c')] =>
      match goal with |- context [exec env _ ?s1 w1] =>
        destruct (exec_publish env c' s1 w1) as [Hs Hr];
        destruct (exec env (log_err (UpdateStatus c')) s1 w1) as [r s2 w2 l2] end end.
    cbn [out_res out_st out_world out_log prepend app] in *. subst s2.
    destruct Hr as [->| ->]; cbn; (split_and!; [done| |]);
      try (intros _; right; apply Exists_app; by left); by intros b [= <-].
  - cbn [out_res out_st out_world out_log prepend app]. rewrite exec_ret.
    cbn [out_res out_st out_world out_log prepend app].
    rewrite exec_bind, exec_get_cluster. cbn [out_res out_st out_world out_log prepend app].
    rewrite exec_bind. destruct (exec_publish env (c_cluster s) s w) as [Hs Hr].
    destruct (exec env (log_err (UpdateStatus (c_cluster s))) s w) as [r s2 w2 l2].
    cbn [out_res out_st out_world out_log prepend app] in *. subst s2.
    destruct Hr as [->| ->]; cbn; (split_and!; [|by left|by try intros b [= <-]]); [|done].
    intros [= ->] -> Hphase. fold c in Hphase. rewrite Hphase in Hcond. cbn in Hcond.
    by apply negb_false_iff in Hcond.
Qed.
End meta.

(** ** Properties *)

(** The hook before the metasrv's synchronisation asks etcd exactly when the spec
    enables the check, and then succeeds exactly when etcd reports no error. *)
Theorem checkEtcdService_spec {W} (env : environment W) s w :
  exec env checkEtcdService s w =
    match etcd_to_check (c_cluster s) with
    | None => Outcome (Ok tt) s w []
    | Some endpoints =>
        let '(r, w') := env (QEtcdStatus endpoints) w in
        Outcome (errors ← r;
                 if decide (errors = []) then Ok tt else Err (Errorf "etcd service error"))
          s w' [ev (QEtcdStatus endpoints) r]
    end.
Proof.
  unfold checkEtcdService. rewrite exec_bind, exec_get_cluster.
  cbn [out_res out_st out_world out_log prepend app].
  destruct (etcd_to_check (c_cluster s)) as [endpoints|]; [|done].
  unfold exec, prepend, mbind, M_bind. cbn.
  by destruct (env (QEtcdStatus endpoints) w) as [[[|e es]|e|] w'].
Qed.

(** While a cluster is being created, the metasrv is reported ready only once it
    is in maintenance mode, and the status records maintenance mode only after
    the metasrv accepted it. *)
Theorem maintenance_on_create `{RetryLaws} {W} (env : environment W) flag s w :
  let o := exec env (Meta_CheckAndUpdateStatus flag) s w in
  (out_res o = Ok true -> flag = true -> gst_ClusterPhase (gc_Status (c_cluster s)) = PhaseStarting ->
   in_maintenance (c_cluster (out_st o)) = true)
  /\ (in_maintenance (c_cluster (out_st o)) = true ->
      in_maintenance (c_cluster s) = true
      \/ Exists (maintenance_accepted (c_cluster s) true) (out_log o)).
Proof.
  cbv zeta. unfold Meta_CheckAndUpdateStatus. rewrite exec_bind, exec_get_cluster.
  cbn [out_res out_st out_world out_log prepend app]. rewrite exec_bind.
  cbn [obj]. match goal with |- context [@exec ?S ?W ?A env (GetIfFound ?k ?key) s w] =>
    pose proof (preserves_GetIfFound (S := S) eq k key W env s w : s = out_st (@exec S W A env _ s w)) as Hs;
    destruct (@exec S W A env (GetIfFound k key) s w) as [[[d|]|e|] s1 w1 l1] end;
    cbn [out_st] in Hs; subst s1; cbn [out_res out_st out_world out_log prepend app];
    [|rewrite exec_ret; split; [done|by left]|split; [done|by left]..].
  rewrite exec_bind, exec_lift. cbn [out_res out_st out_world out_log].
  destruct (deref (ds_Replicas (dep_Spec d))) as [n|e|]; [|split; [done|by left]..].
  cbn [prepend app]. rewrite exec_bind, exec_update_status.
  cbn [out_res out_st out_world out_log prepend app]. rewrite exec_bind, exec_lift.
  cbn [out_res out_st out_world out_log].
  destruct (IsDeploymentReady (Some d)) as [ready|e|]; [|split; [done|by left]..].
  cbn [prepend app out_res out_st out_world out_log].
  match goal with |- context [exec env _ ?s1 w1] =>
    destruct (meta_finish_spec env flag ready s1 w1) as (H1 & H2 & _) end.
  unfold enters_maintenance in H2. split; [exact H1|].
  intros Hin. destruct (H2 Hin) as [|Hl]; [by left|right]. apply Exists_app. by right.
Qed.

Lemma maintenance_on_create_witness :
  let _ := simple_retry in
  let s := mkCState (etcd_cluster false PhaseStarting) ∅ in
  let o := exec fake_env (Meta_CheckAndUpdateStatus true) s
             [Object KDeployment (ready_Deployment "default" "c-meta" 1)] in
  out_res o = Ok true
  /\ in_maintenance (c_cluster (out_st o)) = true
  /\ (in_maintenance (etcd_cluster false PhaseStarting) = true
      \/ Exists (maintenance_accepted (etcd_cluster false PhaseStarting) true) (out_log o)).
Proof.
  intros R s o.
  pose proof (maintenance_on_create (H := R) (H0 := simple_retry_laws) fake_env true s
    [Object KDeployment (ready_Deployment "default" "c-meta" 1)]) as [H1 H2].
  assert (Ho : out_res o = Ok true) by (vm_compute; reflexivity).
  split; [exact Ho|]. split; [exact (H1 Ho eq_refl eq_refl)|].
  apply H2. exact (H1 Ho eq_refl eq_refl).
Defined.
