(* ===== verification/Frontend.v ===== *)
(** * controllers/greptimedbcluster/deployers/frontend.go and flownode.go: status

    The status checks of the frontend and flownode deployers, which have no
    cleanup and no hooks of their own. *)

From stdpp Require Import base gmap sets strings list fin_maps.
From Stdlib Require Import ZArith.
From S2P Require Import Prelude GoLib K8s ApiCommon ApiTypes Client ApiServer K8sUtil Deployer.
From S2P Require Import Common Cluster.

Definition frontend_key (c : GreptimeDBCluster) (extraNames : list string) : NamespacedName :=
  mkNamespacedName (om_Namespace (gc_ObjectMeta c))
    (ResourceName (om_Name (gc_ObjectMeta c)) FrontendRoleKind extraNames).

(** One deployment of the frontend: [None] when the check is to return false, the
    two counts, increased in int32, when it goes on. *)
Definition frontend_deployment {S} (key : NamespacedName) (counts : Z * Z)
    : M S (option (Z * Z)) :=
  found ← GetIfFound KDeployment key;
  match found with
  | None => mret None
  | Some deployment =>
      replicas ← lift (deref (ds_Replicas (dep_Spec deployment)));
      ready ← lift (IsDeploymentReady (Some deployment));
      mret (if (ready : bool)
            then Some (int32 (counts.1 + replicas),
                       int32 (counts.2 + dt_ReadyReplicas (dep_Status deployment)))
            else None)
  end.

(** The loop over the groups. *)
Fixpoint frontend_groups {S} (c : GreptimeDBCluster) (groups : list FrontendSpec) (counts : Z * Z)
    : M S (option (Z * Z)) :=
  match groups with
  | [] => mret (Some counts)
  | frontend :: groups =>
      next ← frontend_deployment (frontend_key c [FrontendSpec_GetName (Some frontend)]) counts;
      match next with
      | None => mret None
      | Some counts => frontend_groups c groups counts
      end
  end.

Section deployers.
Context `{RetryLib}.

(** The base deployment's counts are assigned, not added; from zero this is the
    same for the int32 fields of a deployment. *)
Definition Frontend_CheckAndUpdateStatus : M CState bool :=
  cluster ← get_cluster;
  base ← (if not_nil (GetFrontend (Some cluster))
          then frontend_deployment (frontend_key cluster []) (0, 0)%Z
          else mret (Some (0, 0)%Z));
  match base with
  | None => mret false
  | Some counts =>
      total ← frontend_groups cluster (GetFrontendGroups (Some cluster)) counts;
      match total with
      | None => mret false
      | Some counts =>
          _ ← update_status (set_FrontendStatus (mkComponentStatus counts.1 counts.2));
          cluster ← get_cluster;
          _ ← log_err (UpdateStatus cluster);
          mret true
      end
  end.

Definition Flownode_CleanUp : M CState unit := mret tt.

Definition Flownode_CheckAndUpdateStatus : M CState bool :=
  cluster ← get_cluster;
  found ← GetIfFound KStatefulSet
            (mkNamespacedName (om_Namespace (gc_ObjectMeta cluster))
               (ResourceName (om_Name (gc_ObjectMeta cluster)) FlownodeRoleKind []));
  match found with
  | None => mret false
  | Some sts =>
      replicas ← lift (deref (ss_Replicas (sts_Spec sts)));
      _ ← update_status (set_FlownodeStatus
            (mkComponentStatus replicas (st_ReadyReplicas (sts_Status sts))));
      cluster ← get_cluster;
      _ ← log_err (UpdateStatus cluster);
      lift (IsStatefulSetReady (Some sts))
  end.
End deployers.

(** ** Specifications *)

(** The deployments a cluster's frontends run in. *)
Definition frontend_keys (c : GreptimeDBCluster) : list NamespacedName :=
  (if not_nil (GetFrontend (Some c)) then [frontend_key c []] else [])
  ++ map (fun f => frontend_key c [fe_Name f]) (GetFrontendGroups (Some c)).

Section server.
Context {W : Type} (env : environment W) `{!ApiServer env}.

Definition stored_dep (w : W) (key : NamespacedName) : option Deployment :=
  stored w KDeployment key.

(** The API server defaults [spec.replicas]: it is never nil. *)
Definition dep_replicas_set (w : W) : Prop :=
  forall key d, stored_dep w key = Some d -> is_Some (ds_Replicas (dep_Spec d)).

Definition dep_ready (w : W) (key : NamespacedName) : bool :=
  bool_decide (IsDeploymentReady (stored_dep w key) = Ok true).
End server.

(** ** Lemmas *)

Section server_lemmas.
Context {W : Type} (env : environment W) `{!ApiServer env}.

Lemma IsDeploymentReady_total d :
  is_Some (ds_Replicas (dep_Spec d)) -> exists b, IsDeploymentReady (Some d) = Ok b.
Proof.
  intros [n Hn]. unfold IsDeploymentReady. destruct (negb _); [eauto|].
  induction (dt_Conditions (dep_Status d)) as [|c cs IH]; cbn; [eauto|].
  destruct (_ && _); [|done]. rewrite Hn. cbn. destruct (Z.eqb _ _); eauto.
Qed.

Lemma exec_frontend_deployment {S} key counts (s : S) w :
  dep_replicas_set env w ->
  exists r l, exec env (frontend_deployment key counts) s w = Outcome (Ok r) s w l
    /\ not_nil r = dep_ready env w key.
Proof.
  intros Hr. unfold frontend_deployment. rewrite exec_bind.
  destruct (exec_GetIfFound env KDeployment key s w) as [l Hget]. unfold dep_ready, stored_dep.
  pose proof (Hr key) as Hk. unfold stored_dep in Hk. cbn [obj] in *. rewrite Hget.
  destruct (stored w KDeployment key) as [d|]; cbn [out_res out_st out_world out_log];
    [|by eexists None, _].
  destruct (Hk d eq_refl) as [n Hn]. cbn [obj] in *. destruct (IsDeploymentReady_total d) as [b Hb]; [by exists n|].
  rewrite exec_bind, exec_lift, Hn. cbn [deref out_res out_st out_world out_log prepend app].
  rewrite exec_bind, exec_lift. cbn [out_res out_st out_world out_log]. rewrite Hb.
  cbn [prepend app]. rewrite exec_ret. do 2 eexists. split; [reflexivity|]. by destruct b.
Qed.

Lemma exec_frontend_groups {S} c gs counts (s : S) w :
  dep_replicas_set env w ->
  exists r l, exec env (frontend_groups c gs counts) s w = Outcome (Ok r) s w l
    /\ not_nil r = forallb (dep_ready env w) (map (fun f => frontend_key c [fe_Name f]) gs).
Proof.
  intros Hr. revert counts. induction gs as [|g gs IH]; intros counts; cbn [frontend_groups map forallb].
  { rewrite exec_ret. by do 2 eexists. }
  rewrite exec_bind. change (FrontendSpec_GetName (Some g)) with (fe_Name g).
  destruct (exec_frontend_deployment (frontend_key c [fe_Name g]) counts s w Hr) as (r & l & -> & Hn).
  cbn [out_res out_st out_world out_log]. rewrite <- Hn. destruct r as [counts'|].
  - destruct (IH counts') as (r & l' & -> & Hr'). do 2 eexists. split; [reflexivity|exact Hr'].
  - rewrite exec_ret. by do 2 eexists.
Qed.
End server_lemmas.

(** ** Properties *)

(** On a healthy server the frontends are reported ready exactly when the base
    deployment, if any, and every group's deployment exist and are ready. *)
Theorem Frontend_ready_iff `{RetryLaws} {W} (env : environment W) `{!ApiServer env} s w :
  dep_replicas_set env w ->
  out_res (exec env Frontend_CheckAndUpdateStatus s w) =
    Ok (forallb (dep_ready env w) (frontend_keys (c_cluster s))).
Proof.
  intros Hr. unfold Frontend_CheckAndUpdateStatus, frontend_keys. rewrite forallb_app.
  rewrite exec_bind, exec_get_cluster. cbn [out_res out_st out_world out_log prepend app].
  rewrite exec_bind. set (c := c_cluster s).
  assert (Hbase : exists r l,
    exec env (if not_nil (GetFrontend (Some c)) then frontend_deployment (frontend_key c []) (0, 0)%Z
              else mret (Some (0, 0)%Z)) s w = Outcome (Ok r) s w l
    /\ not_nil r = forallb (dep_ready env w)
         (if not_nil (GetFrontend (Some c)) then [frontend_key c []] else [])).
  { destruct (not_nil (GetFrontend (Some c))).
    - destruct (exec_frontend_deployment env (frontend_key c []) (0, 0)%Z s w Hr) as (r & l & Hx & Hn).
      exists r, l. split; [exact Hx|]. cbn. by rewrite andb_true_r.
    - rewrite exec_ret. by do 2 eexists. }
  destruct Hbase as (r & l & -> & Hn). cbn [out_res out_st out_world out_log]. rewrite <- Hn.
  destruct r as [counts|]; [|done]. cbn [not_nil andb]. rewrite exec_bind.
  destruct (exec_frontend_groups env c (GetFrontendGroups (Some c)) counts s w Hr)
    as (r & l' & -> & Hn'). cbn [out_res out_st out_world out_log prepend]. rewrite <- Hn'.
  destruct r as [counts'|]; [|done]. cbn [not_nil]. rewrite exec_bind.
  rewrite exec_update_status.
  cbn [out_res out_st out_world out_log prepend app]. rewrite exec_bind, exec_get_cluster.
  cbn [out_res out_st out_world out_log prepend app]. rewrite exec_bind.
  match goal with |- context [exec env (log_err (UpdateStatus ?c')) ?s1 w] =>
    pose proof (UpdateStatus_returns env c' s1 w) as Hp;
    destruct (exec env (log_err (UpdateStatus c')) s1 w) as [r s2 w2 l2] end.
  cbn in Hp. by subst r.
Qed.

Lemma Frontend_ready_iff_witness :
  let _ := simple_retry in
  let c := mkGreptimeDBCluster (meta_of "default" "c" None ∅)
    (mkGreptimeDBClusterSpec None (Some zero_FrontendSpec) None None [] None [] 0 0 0 0 None "" None
       None None None None None "" false) zero_ClusterStatus in
  let w := [Object KDeployment (ready_Deployment "default" "c-frontend" 2)] in
  out_res (exec fake_env Frontend_CheckAndUpdateStatus (mkCState c ∅) w)
    = Ok (forallb (dep_ready fake_env w) [frontend_key c []]).
Proof.
  intros R c w.
  apply (Frontend_ready_iff (H := R) (H0 := simple_retry_laws) fake_env (mkCState c ∅) w).
  intros key d. unfold stored_dep, w. cbn. destruct (decide _) as [e|]; [|done].
  destruct (decide _); [|done]. rewrite cast_refl. intros [= <-]. eexists. reflexivity.
Defined.
