(* ===== verification/Reconcile.v ===== *)
(** * What the two reconcilers share

    controllers/greptimedbcluster/controller.go and
    controllers/greptimedbstandalone/controller.go have the same skeleton: an outer
    [err] that a deferred handler reads, a finalizer, and a phase machine driven by
    the deployers.

    The [(ctrl.Result, error)] of the code is a [res Result]: controller-runtime
    ignores the result when the error is not nil.  The outer [err] is a field of a
    frame, so that the assignments [err = ...] and the shadowing [err := ...] differ
    as they do in the code. *)

From stdpp Require Import base gmap sets strings list fin_maps.
From Stdlib Require Import ZArith.
From S2P Require Import Prelude GoLib K8s ApiCommon ApiTypes Client ApiServer Deployer.

(** ** Libraries *)

(** controllerutil's finalizer functions, on the object's metadata. *)
Class FinalizerLib := {
  ContainsFinalizer : ObjectMeta -> string -> bool;
  AddFinalizer : ObjectMeta -> string -> ObjectMeta;
  RemoveFinalizer : ObjectMeta -> string -> ObjectMeta }.

Definition with_finalizers (l : list string) (m : ObjectMeta) : ObjectMeta :=
  mkObjectMeta (om_Name m) (om_Namespace m) (om_Labels m) (om_Annotations m) l
    (om_OwnerReferences m) (om_Generation m) (om_ResourceVersion m) (om_DeletionTimestamp m).

(** Their documentation: presence; adding if not present; removing if present. *)
Class FinalizerLaws `{FinalizerLib} := {
  contains_finalizer m f : ContainsFinalizer m f = bool_decide (f ∈ om_Finalizers m);
  add_finalizer m f :
    AddFinalizer m f =
      if bool_decide (f ∈ om_Finalizers m) then m else with_finalizers (om_Finalizers m ++ [f]) m;
  remove_finalizer m f :
    RemoveFinalizer m f = with_finalizers (filter (fun g => g <> f) (om_Finalizers m)) m }.

(** ** Results and phases *)

(** ctrl.Result *)
Record Result := mkResult { rs_Requeue : bool; rs_RequeueAfter : Z }.
Definition no_requeue : Result := mkResult false 0.

(** The next phase when a deployer is not ready, and the phases that a ready one
    ends. *)
Definition next_phase (currentPhase : Phase) : Phase :=
  if decide (currentPhase = PhaseRunning) then PhaseUpdating
  else if decide (currentPhase = PhaseError) then PhaseStarting
  else currentPhase.

Definition becoming_ready (p : Phase) : bool :=
  bool_decide (p = PhaseStarting) || bool_decide (p = PhaseUpdating).

(** The transitions of one [sync]. *)
Inductive phase_step : Phase -> Phase -> Prop :=
  | phase_stays p : phase_step p p
  | phase_updating : phase_step PhaseRunning PhaseUpdating
  | phase_restarting : phase_step PhaseError PhaseStarting
  | phase_started : phase_step PhaseStarting PhaseRunning
  | phase_updated : phase_step PhaseUpdating PhaseRunning.

Definition is_reconcile_error (e : event) : Prop :=
  projT1 e = QEvent "Warning" "ReconcileError".

(** ** The outer error *)

Section frame.
Context {T : Type}.

(** The frame of one call: the memory [T] and the outer [err]. *)
Record Frame := mkFrame { fr_state : T; fr_err : option error }.

Definition on_state {A} (m : M T A) : M Frame A :=
  zoom fr_state (fun f s => mkFrame s (fr_err f)) m.
Definition set_err (e : option error) : M Frame unit :=
  modify (fun f => mkFrame (fr_state f) e).

(** [if err = m(); err != nil { fail(); return ctrl.Result{}, err }]. *)
Definition assign_err (m fail : M Frame unit) : M Frame unit :=
  r ← try m;
  match r with
  | Err e => _ ← set_err (Some e); _ ← fail; lift (Err e)
  | Ok _ => set_err None
  | Panic => lift Panic
  end.

Definition Warning (reason : string) : M Frame unit := Event "Warning" reason.

(** The deferred function: it reads the outer [err]; [on_error] records the
    phase. *)
Definition record_error (on_error : M T unit) : M Frame unit :=
  f ← get;
  match fr_err f with
  | None => mret tt
  | Some _ =>
      _ ← Warning "ReconcileError";
      log_err (on_state on_error)
  end.

(** ** Lemmas *)

Section frame_lemmas.
Context {W : Type} (env : environment W).

(** The outer [err] is what the computation returns. *)
Definition tracks_err {A} (m : M Frame A) : Prop :=
  forall f w, fr_err f = None ->
  let o := exec env m f w in
  fr_err (out_st o) = match out_res o with Err e => Some e | _ => None end.

(** A report that changes nothing in memory. *)
Definition quiet (m : M Frame unit) : Prop :=
  forall f w, exists w' l, exec env m f w = Outcome (Ok tt) f w' l.

Lemma tracks_ret {A} (a : A) : tracks_err (mret a).
Proof. intros f w Hf. by rewrite exec_ret. Qed.

Lemma tracks_bind {A B} (m : M Frame A) (k : A -> M Frame B) :
  tracks_err m -> (forall a, tracks_err (k a)) -> tracks_err (m ≫= k).
Proof.
  intros Hm Hk f w Hf. rewrite exec_bind. specialize (Hm f w Hf). cbn zeta in *.
  destruct (exec env m f w) as [[a|e|] f1 w1 l1]; cbn [out_res out_st out_world out_log] in *; try done.
  specialize (Hk a f1 w1 Hm). exact Hk.
Qed.

Lemma tracks_when c (m : M Frame unit) : tracks_err m -> tracks_err (when c m).
Proof. destruct c; [done|intros _; apply tracks_ret]. Qed.

(** Reading the memory. *)
Lemma tracks_read {A} (m : M T A) : (forall s w, out_res (exec env m s w) = Panic \/ is_Ok (out_res (exec env m s w)) = true) -> tracks_err (on_state m).
Proof.
  intros Hm f w Hf. unfold on_state. rewrite exec_zoom. cbn [out_res out_st fr_err].
  destruct (Hm (fr_state f) w) as [->|Hok]; [done|].
  by destruct (out_res (exec env m (fr_state f) w)).
Qed.

Lemma exec_set_err e f w :
  exec env (set_err e) f w = Outcome (Ok tt) (mkFrame (fr_state f) e) w [].
Proof. done. Qed.

Lemma tracks_assign m fail : quiet fail -> tracks_err (assign_err (on_state m) fail).
Proof.
  intros Hq f w Hf. unfold assign_err, on_state. rewrite exec_bind, exec_try, exec_zoom.
  destruct (exec env m (fr_state f) w) as [[[]|e|] s1 w1 l1]; cbn [out_res out_st out_world out_log];
    [done| |exact Hf].
  rewrite exec_bind. rewrite exec_set_err. cbn [out_res out_st out_world out_log].
  rewrite exec_bind. destruct (Hq (mkFrame s1 (Some e)) w1) as (w2 & l2 & Hfail).
  cbn [fr_state fr_err] in *. rewrite Hfail. cbn [out_res out_st out_world out_log].
  by rewrite exec_lift.
Qed.

Lemma quiet_Warning reason : quiet (Warning reason).
Proof. intros f w. unfold Warning. rewrite exec_Event. eauto. Qed.
Lemma quiet_ret : quiet (mret tt).
Proof. intros f w. rewrite exec_ret. eauto. Qed.

(** A preparation whose errors are recorded, then a rest whose errors are not. *)
Lemma exec_recorded {A} (on_error : M T unit) (prep : M Frame unit) (rest : M T A) f w :
  tracks_err prep -> fr_err f = None ->
  (forall s w, out_res (exec env on_error s w) <> Panic) ->
  let o1 := exec env prep f w in
  exec env (defer (record_error on_error) (_ ← prep; on_state rest)) f w =
    match out_res o1 with
    | Ok _ =>
        let o2 := exec env rest (fr_state (out_st o1)) (out_world o1) in
        Outcome (out_res o2) (mkFrame (out_st o2) None) (out_world o2) (out_log o1 ++ out_log o2)
    | Err e =>
        let a := env (QEvent "Warning" "ReconcileError") (out_world o1) in
        let o3 := exec env on_error (fr_state (out_st o1)) a.2 in
        Outcome (Err e) (mkFrame (out_st o3) (Some e)) (out_world o3)
          (out_log o1 ++ ev (QEvent "Warning" "ReconcileError") a.1 :: out_log o3)
    | Panic => Outcome Panic (out_st o1) (out_world o1) (out_log o1)
    end.
Proof.
  intros Ht Hf Hn. cbn zeta. rewrite exec_defer.
  assert (Hnone : forall g v, fr_err g = None ->
    exec env (record_error on_error) g v = Outcome (Ok tt) g v []).
  { intros g v Hg. unfold record_error. rewrite exec_bind, exec_get. cbn. by rewrite Hg. }
  rewrite exec_bind. specialize (Ht f w Hf). cbn zeta in Ht.
  destruct (exec env prep f w) as [[[]|e|] f1 w1 l1]; cbn [out_res out_st out_world out_log] in *.
  - unfold on_state. rewrite exec_zoom. unfold prepend. cbn [out_res out_st out_world out_log].
    rewrite Hnone by done. cbn [out_res out_st out_world out_log]. by rewrite app_nil_r, Ht.
  - unfold record_error. rewrite exec_bind, exec_get. cbn [out_res out_st out_world out_log].
    rewrite Ht, exec_bind. unfold Warning. rewrite exec_Event. cbn [out_res out_st out_world out_log].
    unfold log_err, on_state. rewrite exec_bind, exec_try, exec_zoom.
    set (w2 := (env _ w1).2). specialize (Hn (fr_state f1) w2).
    destruct (exec env on_error (fr_state f1) w2) as [[[]|e'|] s3 w3 l3];
      cbn [out_res out_st out_world out_log] in *; [| |done]; rewrite exec_ret, Ht; unfold prepend;
      cbn [out_res out_st out_world out_log app]; by rewrite ?app_nil_r.
  - rewrite Hnone by done. cbn [out_res out_st out_world out_log]. by rewrite app_nil_r.
Qed.
End frame_lemmas.
End frame.
Arguments Frame : clear implicits.

Lemma next_phase_not_running p : next_phase p <> PhaseRunning.
Proof. unfold next_phase. repeat case_decide; done. Qed.

Lemma next_phase_step p : phase_step p (next_phase p).
Proof. unfold next_phase. repeat case_decide; subst; constructor. Qed.

(** Finalizer functions that are their documentation, for the witnesses. *)
Definition list_finalizers : FinalizerLib := {|
  ContainsFinalizer m f := bool_decide (f ∈ om_Finalizers m);
  AddFinalizer m f :=
    if bool_decide (f ∈ om_Finalizers m) then m else with_finalizers (om_Finalizers m ++ [f]) m;
  RemoveFinalizer m f := with_finalizers (filter (fun g => g <> f) (om_Finalizers m)) m |}.
Lemma list_finalizers_laws : @FinalizerLaws list_finalizers.
Proof. done. Qed.
