(* ===== verification/Reconciler.v ===== *)
(** * controllers/greptimedbcluster/controller.go: the cluster reconciler

    [Reconcile] reads the cluster, deletes it or brings it up to date: finalizer,
    validation, defaults, merges, and one [Sync] per deployer in order.  The
    phase in the status is a state machine driven by the outcomes. *)

From stdpp Require Import base gmap sets strings list fin_maps.
From Stdlib Require Import ZArith.
From S2P Require Import Prelude GoLib K8s ApiCommon Conditions ApiTypes Client ApiServer K8sUtil.
From S2P Require Import Deployer Reconcile Common Validate Mergo Defaulting Cluster Meta.

(** ** What the reconciler calls *)

(** Go ranges over a map in an unspecified order. *)
Class MapOrder := {
  map_order {A : Type} : list A -> list A;
  map_order_permutation {A} (l : list A) : map_order l ≡ₚ l }.

(** ** State *)

Definition greptimedbClusterFinalizer : string := "greptimedbcluster.greptime.io/finalizer".
(** Five seconds, in nanoseconds. *)
Definition defaultRequeueAfter : Z := 5000000000.

Record Reconciler := mkReconciler {
  EnableAdmissionWebhook : bool;
  Deployers : list (ComponentOperator CState);
  MetricsCollector : option (M CState unit) }.

(** ** Operations *)

Section operations.
Context `{QuantityLib, OpaqueMerge, MergoLib, TomlUnmarshal, RetryLib, FinalizerLib, MapOrder}.
Variable r : Reconciler.

Definition setObservedGeneration (c : GreptimeDBCluster) : Z := om_Generation (gc_ObjectMeta c).

Definition recordNormalEventByPhase (c : GreptimeDBCluster) : M CState unit :=
  let phase := gst_ClusterPhase (gc_Status c) in
  if decide (phase = PhaseStarting) then Event "Normal" "StartingCluster"
  else if decide (phase = PhaseRunning) then Event "Normal" "ClusterIsReady"
  else if decide (phase = PhaseUpdating) then Event "Normal" "UpdatingCluster"
  else if decide (phase = PhaseTerminating) then Event "Normal" "TerminatingCluster"
  else mret tt.

Definition updateClusterStatus (phase : Phase) : M CState unit :=
  cluster ← get_cluster;
  if decide (gst_ClusterPhase (gc_Status cluster) = phase) then mret tt
  else
    _ ← update_status (set_Phase (cl_Version (gc_Spec cluster)) phase (setObservedGeneration cluster));
    cluster ← get_cluster;
    _ ← recordNormalEventByPhase cluster;
    UpdateStatus cluster.

(** [r.Update(ctx, cluster)]: the answer is decoded into the object. *)
Definition update_object : M CState unit :=
  cluster ← get_cluster;
  stored ← Update KCluster cluster;
  update_cluster (fun _ => stored).

Definition addFinalizer : M CState unit :=
  cluster ← get_cluster;
  when (not_nil (cl_Meta (gc_Spec cluster))
        && negb (ContainsFinalizer (gc_ObjectMeta cluster) greptimedbClusterFinalizer))
    (_ ← update_cluster (fun c => set_ClusterMeta (AddFinalizer (gc_ObjectMeta c) greptimedbClusterFinalizer) c);
     update_object).

Definition delete : M CState Result :=
  cluster ← get_cluster;
  if negb (ContainsFinalizer (gc_ObjectMeta cluster) greptimedbClusterFinalizer) then mret no_requeue
  else if decide (gst_ClusterPhase (gc_Status cluster) <> PhaseTerminating) then
    _ ← updateClusterStatus PhaseTerminating;
    mret (mkResult true 0)
  else
    _ ← range co_CleanUp (Deployers r);
    _ ← update_cluster (fun c => set_ClusterMeta (RemoveFinalizer (gc_ObjectMeta c) greptimedbClusterFinalizer) c);
    _ ← update_object;
    mret no_requeue.

(** The loop of [sync]: [Some] when it returns a result early. *)
Fixpoint sync_deployers (ds : list (ComponentOperator CState)) : M CState (option Result) :=
  match ds with
  | [] => mret None
  | d :: ds =>
      err ← try (Sync d);
      match err with
      | Ok _ => sync_deployers ds
      | Err ErrSyncNotReady =>
          cluster ← get_cluster;
          _ ← updateClusterStatus (next_phase (gst_ClusterPhase (gc_Status cluster)));
          mret (Some no_requeue)
      | Err e => lift (Err e)
      | Panic => lift Panic
      end
  end.

(** [metav1.Now()]. *)
Definition Now : M CState Z := ask QNow.

(** The cluster is ready: the condition, the maintenance mode, the phase. *)
Definition sync_ready : M CState unit :=
  now_transition ← Now;
  now_update ← Now;
  _ ← update_status (GreptimeDBClusterStatus_SetCondition
        (NewCondition ConditionTypeReady ConditionTrue "ClusterReady" "the cluster is ready"
           now_transition now_update));
  cluster ← get_cluster;
  _ ← when (ms_MaintenanceMode (gst_Meta (gc_Status cluster)))
    (url ← lift (GetMetaHTTPServiceURL cluster);
     _ ← SetMaintenanceMode url false;
     update_status (fun st => set_MetaStatus (set_maintenance false (gst_Meta st)) st));
  updateClusterStatus PhaseRunning.

(** Collecting the metrics of a running cluster: an error is only logged. *)
Definition collect_metrics : M CState unit :=
  cluster ← get_cluster;
  if decide (gst_ClusterPhase (gc_Status cluster) = PhaseRunning) then
    match MetricsCollector r with
    | Some CollectClusterPodMetrics => log_err CollectClusterPodMetrics
    | None => mret tt
    end
  else mret tt.

(** After the loop: every deployer is synchronised. *)
Definition sync_finish : M CState Result :=
  cluster ← get_cluster;
  let phase := gst_ClusterPhase (gc_Status cluster) in
  _ ← when (bool_decide (phase = PhaseStarting) || bool_decide (phase = PhaseUpdating)) sync_ready;
  _ ← collect_metrics;
  mret no_requeue.

Definition sync : M CState Result :=
  early ← sync_deployers (Deployers r);
  match early with
  | Some result => mret result
  | None => sync_finish
  end.

(** One object of the monitoring: deleted when it is found. *)
Definition remove_object (o : kind * string) : M CState unit :=
  cluster ← get_cluster;
  err ← try (Get o.1 (mkNamespacedName (om_Namespace (gc_ObjectMeta cluster)) o.2));
  match err with
  | Ok found => Delete (Object o.1 found)
  | Err e => if IsNotFound e then mret tt else lift (Err e)
  | Panic => lift Panic
  end.

Definition removeMonitoringDB : M CState unit :=
  cluster ← get_cluster;
  let name := om_Name (gc_ObjectMeta cluster) in
  range remove_object
    (map_order [(KStandalone, MonitoringServiceName name); (KConfigMap, VectorConfigName name)]).

(** A method that mutates the object, or fails. *)
Definition in_memory (f : GreptimeDBCluster -> res GreptimeDBCluster) : M CState unit :=
  cluster ← get_cluster;
  cluster ← lift (f cluster);
  update_cluster (fun _ => cluster).

(** [cluster.Validate()] and [cluster.Check(ctx, r.Client)]. *)
Definition validate : M CState unit :=
  cluster ← get_cluster; lift (Cluster_Validate (Some cluster)).
Definition check : M CState unit := cluster ← get_cluster; Cluster_Check cluster.

(** From the finalizer to the first phase: every error goes through the outer
    [err]. *)
Definition prepare : M (Frame CState) unit :=
  _ ← assign_err (on_state addFinalizer) (Warning "AddFinalizerFailed");
  _ ← when (negb (EnableAdmissionWebhook r))
        (assign_err (on_state validate) (Warning "InvalidCluster"));
  _ ← assign_err (on_state check) (Warning "InvalidCluster");
  originalObject ← on_state get_cluster;
  _ ← assign_err (on_state (in_memory Cluster_SetDefaults)) (Warning "SetDefaultValuesFailed");
  cluster ← on_state get_cluster;
  _ ← when (negb (bool_decide (gc_Spec originalObject = gc_Spec cluster)))
        (assign_err (on_state update_object) (Warning "UpdateClusterFailed"));
  cluster ← on_state get_cluster;
  when (bool_decide (gst_ClusterPhase (gc_Status cluster) = ""))
    (assign_err (on_state (updateClusterStatus PhaseStarting)) (mret tt)).

(** The merges, the monitoring and [sync]: their errors shadow [err]. *)
Definition merge_and_sync : M CState Result :=
  _ ← in_memory MergeWithBaseTemplate;
  _ ← in_memory MergeWithGlobalLogging;
  _ ← in_memory MergeWithGlobalTracing;
  cluster ← get_cluster;
  _ ← when (negb (MonitoringSpec_IsEnabled (cl_Monitoring (gc_Spec cluster)))) removeMonitoringDB;
  sync.

(** From the deletion check to the end of [Reconcile]. *)
Definition reconcile_cluster : M (Frame CState) Result :=
  cluster ← on_state get_cluster;
  if not_nil (om_DeletionTimestamp (gc_ObjectMeta cluster)) then on_state delete
  else _ ← prepare; on_state merge_and_sync.

Definition Reconcile (req : NamespacedName) : M (gset NamespacedName) Result :=
  err ← try (Get KCluster req);
  match err with
  | Ok cluster =>
      zoom (fun maintenance => mkFrame (mkCState cluster maintenance) None)
        (fun _ f => c_maintenance (fr_state f)) (defer (record_error (updateClusterStatus PhaseError)) reconcile_cluster)
  | Err e => if IsNotFound e then mret no_requeue else lift (Err e)
  | Panic => lift Panic
  end.
End operations.

(** ** Specifications *)

Definition phase_of (c : GreptimeDBCluster) : Phase := gst_ClusterPhase (gc_Status c).
Definition maintained (c : GreptimeDBCluster) : bool := ms_MaintenanceMode (gst_Meta (gc_Status c)).

(** The object after [updateClusterStatus phase], whatever the server answers. *)
Definition with_phase (phase : Phase) (c : GreptimeDBCluster) : GreptimeDBCluster :=
  if decide (phase_of c = phase) then c
  else set_Status (set_Phase (cl_Version (gc_Spec c)) phase (om_Generation (gc_ObjectMeta c))
                     (gc_Status c)) c.

(** What setting the phase to Terminating asks for, and the accepted request of it. *)
Definition terminating_request (e : event) : Prop :=
  match projT1 e with
  | QEvent _ _ => True
  | QGet k _ => k = KCluster
  | QStatusUpdate o => exists c, o = Object KCluster c /\ phase_of c = PhaseTerminating
  | _ => False
  end.
Definition terminated (e : event) : Prop :=
  exists c, e = ev (QStatusUpdate (Object KCluster c)) (Ok tt) /\ phase_of c = PhaseTerminating.

(** ** Lemmas *)

Section lemmas.
Context `{QuantityLib, OpaqueMerge, MergoLib, TomlUnmarshal, FinalizerLib, MapOrder}.
Context `{RetryLaws}.
Variable r : Reconciler.
Context {W : Type} (env : environment W).

Lemma updateClusterStatus_state p s w :
  out_st (exec env (updateClusterStatus p) s w)
  = mkCState (with_phase p (c_cluster s)) (c_maintenance s).
Proof.
  unfold updateClusterStatus, with_phase, phase_of. rewrite exec_bind, exec_get_cluster. cbn.
  case_decide; [by destruct s|].
  set (f := set_Phase _ _ _). rewrite exec_bind, exec_update_status. cbn.
  set (s1 := mkCState _ _). symmetry.
  assert (Hp : preserves eq (cluster ← get_cluster; _ ← recordNormalEventByPhase cluster; UpdateStatus cluster)).
  { apply preserves_bind; [apply _|unfold get_cluster; solve_preserves|]. intros c.
    apply preserves_bind; [apply _| |].
    - unfold recordNormalEventByPhase. repeat case_decide; solve_preserves.
    - intros _. apply UpdateStatus_preserves; apply _. }
  exact (Hp W env s1 w).
Qed.

Lemma phase_with_phase p c : phase_of (with_phase p c) = p.
Proof. unfold with_phase, phase_of. by case_decide. Qed.

Lemma exec_Now s w :
  exec env Now s w = Outcome (Ok (env QNow w).1) s (env QNow w).2 [ev QNow (env QNow w).1].
Proof. exact (exec_ask env QNow s w). Qed.

(** What the loop does when a deployer is not ready. *)
Definition not_ready : M CState (option Result) :=
  cluster ← get_cluster;
  _ ← updateClusterStatus (next_phase (phase_of cluster));
  mret (Some no_requeue).

(** The loop runs the deployers in order up to the first error, which it
    returns unless it is [ErrSyncNotReady]. *)
Lemma exec_sync_deployers ds s w :
  exec env (sync_deployers ds) s w =
    let o := exec env (range Sync ds) s w in
    match out_res o with
    | Ok _ => Outcome (Ok None) (out_st o) (out_world o) (out_log o)
    | Err ErrSyncNotReady => prepend (out_log o) (exec env not_ready (out_st o) (out_world o))
    | Err e => Outcome (Err e) (out_st o) (out_world o) (out_log o)
    | Panic => Outcome Panic (out_st o) (out_world o) (out_log o)
    end.
Proof.
  revert s w. induction ds as [|d ds IH]; intros s w; cbn [sync_deployers range].
  { by rewrite !exec_ret. }
  rewrite !exec_bind, exec_try. cbn zeta.
  destruct (exec env (Sync d) s w) as [[[]|[] |] s1 w1 l1]; cbn [out_res out_st out_world out_log];
    first [reflexivity|unfold prepend; cbn; by rewrite app_nil_r|idtac].
  rewrite IH. cbn zeta.
  destruct (exec env (range Sync ds) s1 w1) as [[[]|[] |] s2 w2 l2]; unfold prepend; cbn;
    by rewrite ?app_assoc.
Qed.

(** The memory after a deployer was not ready. *)
Lemma not_ready_state s w :
  let o := exec env not_ready s w in
  phase_of (c_cluster (out_st o)) = next_phase (phase_of (c_cluster s))
  /\ out_res o <> Ok None.
Proof.
  unfold not_ready. rewrite exec_bind, exec_get_cluster. cbn [out_res out_st out_world out_log].
  rewrite exec_bind. pose proof (updateClusterStatus_state (next_phase (phase_of (c_cluster s))) s w) as Hs.
  destruct (exec env (updateClusterStatus _) s w) as [[[]|e|] s1 w1 l1]; cbn [out_res out_st] in *;
    subst s1; split; try done; apply phase_with_phase.
Qed.

(** Declaring the cluster ready: in maintenance, the metasrv must accept to
    leave it before anything else. *)
Lemma sync_ready_outcome s w :
  let o := exec env sync_ready s w in
  let c := c_cluster s in let c' := c_cluster (out_st o) in
  (phase_of c' = phase_of c /\ out_res o <> Ok tt /\ maintained c = true)
  \/ (phase_of c' = PhaseRunning /\ maintained c' = false
      /\ (maintained c = true -> Exists (maintenance_accepted c false) (out_log o))).
Proof.
  unfold sync_ready. rewrite exec_bind, exec_Now. cbn [out_res out_st out_world out_log].
  rewrite exec_bind, exec_Now. cbn [out_res out_st out_world out_log].
  rewrite exec_bind, exec_update_status. cbn zeta. cbn [out_res out_st out_world out_log].
  set (s1 := mkCState _ _).
  assert (Hp1 : phase_of (c_cluster s1) = phase_of (c_cluster s)) by done.
  assert (Hm1 : maintained (c_cluster s1) = maintained (c_cluster s)) by done.
  assert (Hu1 : GetMetaHTTPServiceURL (c_cluster s1) = GetMetaHTTPServiceURL (c_cluster s)) by done.
  rewrite exec_bind, exec_get_cluster. cbn [out_res out_st out_world out_log].
  rewrite exec_bind. fold (maintained (c_cluster s1)).
  set (w1 := (env QNow (env QNow w).2).2).
  pose proof (switch_outcome W env (c_cluster s1) false (update_status (fun st =>
    set_MetaStatus (set_maintenance false (gst_Meta st)) st)) _ s1 w1
    (exec_update_status W env _)) as Hsw. cbn zeta in Hsw.
  assert (Hfinal : forall s2 w2, phase_of (c_cluster (out_st (exec env (updateClusterStatus PhaseRunning) s2 w2)))
      = PhaseRunning
    /\ maintained (c_cluster (out_st (exec env (updateClusterStatus PhaseRunning) s2 w2)))
      = maintained (c_cluster s2)).
  { intros s2 w2. rewrite updateClusterStatus_state. cbn [c_cluster]. split; [apply phase_with_phase|].
    unfold with_phase. by case_decide. }
  destruct (maintained (c_cluster s1)) eqn:Hm; cbn [when].
  - change (maintenance_accepted (c_cluster s1) false) with (maintenance_accepted (c_cluster s) false) in Hsw.
    destruct (exec env _ s1 w1) as [res s2 w2 l2]; cbn [out_res out_st out_world out_log] in *.
    destruct Hsw as [[Hr ->]|(-> & -> & Hl)].
    + left. destruct res as [[]|e|]; [done|split_and!; [exact Hp1|done|by rewrite <- Hm1]..].
    + right. unfold prepend. cbn [out_st out_log app]. 
      match goal with |- context [exec env (updateClusterStatus PhaseRunning) ?s2 w2] =>
        destruct (Hfinal s2 w2) as [-> ->] end.
      split_and!; [done..|]. intros _. do 2 right. apply Exists_app. by left.
  - right. rewrite exec_ret. unfold prepend. cbn [out_st out_log app out_res out_world].
    destruct (Hfinal s1 w1) as [-> ->]. split_and!; [done..|]. by rewrite <- Hm1.
Qed.

Lemma exec_update_cluster f s w :
  exec env (update_cluster f) s w =
    Outcome (Ok tt) (mkCState (f (c_cluster s)) (c_maintenance s)) w [].
Proof. done. Qed.

(** Updating the object: its answer replaces the one in memory. *)
Lemma exec_update_object s w :
  exec env update_object s w =
    let a := env (QUpdate KCluster (c_cluster s)) w in
    let log := [ev (QUpdate KCluster (c_cluster s)) a.1] in
    match a.1 with
    | Ok stored => Outcome (Ok tt) (mkCState stored (c_maintenance s)) a.2 log
    | Err e => Outcome (Err e) s a.2 log
    | Panic => Outcome Panic s a.2 log
    end.
Proof.
  unfold update_object. rewrite exec_bind, exec_get_cluster. cbn [out_res out_st out_world out_log].
  rewrite exec_bind. pose proof (exec_Update env KCluster (c_cluster s) s w) as Hu.
  change (@exec CState W GreptimeDBCluster) with (@exec CState W (obj KCluster)). rewrite Hu.
  cbn [out_res out_st out_world out_log]. destruct (env (QUpdate KCluster (c_cluster s)) w) as [[c|e|] w'];
    done.
Qed.

(** The runs of [delete]. *)
Lemma exec_delete `{!FinalizerLaws} s w :
  let c := c_cluster s in
  exec env (delete r) s w =
    if bool_decide (greptimedbClusterFinalizer ∉ om_Finalizers (gc_ObjectMeta c)) then
      Outcome (Ok no_requeue) s w []
    else if bool_decide (phase_of c <> PhaseTerminating) then
      let o := exec env (updateClusterStatus PhaseTerminating) s w in
      Outcome (_ ← out_res o; Ok (mkResult true 0)) (out_st o) (out_world o) (out_log o)
    else
      let o := exec env (range co_CleanUp (Deployers r)) s w in
      match out_res o with
      | Ok _ =>
          let c' := set_ClusterMeta (RemoveFinalizer (gc_ObjectMeta (c_cluster (out_st o)))
                      greptimedbClusterFinalizer) (c_cluster (out_st o)) in
          let u := exec env update_object (mkCState c' (c_maintenance (out_st o))) (out_world o) in
          prepend (out_log o) (Outcome (_ ← out_res u; Ok no_requeue) (out_st u) (out_world u) (out_log u))
      | Err e => Outcome (Err e) (out_st o) (out_world o) (out_log o)
      | Panic => Outcome Panic (out_st o) (out_world o) (out_log o)
      end.
Proof.
  cbn zeta. unfold delete. rewrite exec_bind, exec_get_cluster. cbn [out_res out_st out_world out_log].
  rewrite contains_finalizer. fold (phase_of (c_cluster s)). unfold prepend at 1. cbn [app].
  destruct (decide (greptimedbClusterFinalizer ∈ om_Finalizers (gc_ObjectMeta (c_cluster s)))) as [Hf|Hf].
  2: { rewrite (bool_decide_eq_false_2 (_ ∈ _)), (bool_decide_eq_true_2 (_ ∉ _)) by done. done. }
  rewrite (bool_decide_eq_true_2 (_ ∈ _)) by done.
  rewrite (bool_decide_eq_false_2 (_ ∉ _)) by (by intros []). cbn [negb].
  destruct (decide (phase_of (c_cluster s) <> PhaseTerminating)) as [Hp|Hp].
  - rewrite (bool_decide_eq_true_2 (_ <> _)) by done. rewrite exec_bind.
    destruct (exec env (updateClusterStatus PhaseTerminating) s w) as [[[]|e|] s1 w1 l1];
      cbn; rewrite ?exec_ret; unfold prepend; cbn; by rewrite ?app_nil_r.
  - rewrite (bool_decide_eq_false_2 (_ <> _)) by done. rewrite exec_bind.
    destruct (exec env (range co_CleanUp (Deployers r)) s w) as [[[]|e|] s1 w1 l1];
      cbn [out_res out_st out_world out_log]; [|done..].
    rewrite exec_bind, exec_update_cluster. cbn [out_res out_st out_world out_log].
    rewrite exec_bind. unfold prepend at 2 3.
    destruct (exec env update_object _ _) as [[[]|e|] s2 w2 l2]; cbn; rewrite ?exec_ret;
      unfold prepend; cbn; by rewrite ?app_nil_r.
Qed.

(** [Reconcile] on a cluster being deleted is [delete]. *)
Lemma exec_Reconcile_deleted req m w c :
  let key := QGet KCluster req in
  (env key w).1 = Ok c -> om_DeletionTimestamp (gc_ObjectMeta c) <> None ->
  let o := exec env (delete r) (mkCState c m) (env key w).2 in
  exec env (Reconcile r req) m w =
    Outcome (out_res o) (c_maintenance (out_st o)) (out_world o) (ev key (env key w).1 :: out_log o).
Proof.
  intros key Ha Hd. unfold Reconcile. rewrite exec_bind, exec_try, exec_Get. fold key.
  cbn [out_res out_st out_world out_log]. rewrite Ha. cbn [out_res out_st out_world out_log].
  set (f := mkFrame (mkCState c m) None).
  assert (Hr : exec env (reconcile_cluster r) f (env key w).2 =
    let o := exec env (delete r) (mkCState c m) (env key w).2 in
    Outcome (out_res o) (mkFrame (out_st o) None) (out_world o) (out_log o)).
  { unfold reconcile_cluster. rewrite exec_bind.
    change (exec env (on_state get_cluster) f (env key w).2)
      with (Outcome (W := W) (Ok c) f (env key w).2 []).
    cbn [out_res out_st out_world out_log]. destruct (om_DeletionTimestamp (gc_ObjectMeta c)); [|done].
    cbn [not_nil]. unfold on_state. rewrite exec_zoom. done. }
  rewrite exec_zoom, exec_defer. fold f. rewrite Hr. cbn [out_res out_st out_world out_log].
  unfold record_error. rewrite exec_bind, exec_get. cbn. rewrite exec_ret. unfold prepend. cbn.
  by rewrite app_nil_r.
Qed.

(** *** The outer error *)

Lemma tracks_prepare : tracks_err env (prepare r).
Proof.
  assert (Hg : tracks_err env (on_state get_cluster)) by (apply tracks_read; by right).
  unfold prepare.
  repeat first
    [ apply tracks_assign; first [apply quiet_Warning|apply quiet_ret]
    | apply tracks_when | exact Hg | apply tracks_bind; [|intros ?] ].
Qed.

Lemma exec_reconcile_cluster d f w :
  om_DeletionTimestamp (gc_ObjectMeta (c_cluster (fr_state f))) = None ->
  exec env (defer d (reconcile_cluster r)) f w
  = exec env (defer d (_ ← prepare r; on_state (merge_and_sync r))) f w.
Proof.
  intros Hd. rewrite !exec_defer.
  assert (Hr : exec env (reconcile_cluster r) f w
               = exec env (_ ← prepare r; on_state (merge_and_sync r)) f w); [|by rewrite Hr].
  unfold reconcile_cluster. rewrite exec_bind.
  assert (Hg : exec env (on_state get_cluster) f w = Outcome (Ok (c_cluster (fr_state f))) f w [])
    by (by destruct f).
  rewrite Hg. cbn [out_res out_st out_world out_log]. rewrite Hd. cbn [not_nil].
  unfold prepend. cbn [app]. match goal with |- _ = ?o => by destruct o end.
Qed.

(** On a healthy server a phase update returns. *)
Lemma updateClusterStatus_returns `{!ApiServer env} p s w :
  out_res (exec env (updateClusterStatus p) s w) <> Panic.
Proof.
  unfold updateClusterStatus. rewrite exec_bind, exec_get_cluster. cbn [out_res out_st out_world].
  case_decide; [done|]. rewrite exec_bind, exec_update_status. cbn [out_res out_st out_world].
  set (s1 := mkCState _ _). rewrite exec_bind, exec_get_cluster. cbn [out_res out_st out_world].
  rewrite exec_bind.
  assert (Hq : exists w1 l1, exec env (recordNormalEventByPhase (c_cluster s1)) s1 w
                             = Outcome (Ok tt) s1 w1 l1).
  { unfold recordNormalEventByPhase. repeat case_decide; rewrite ?exec_Event, ?exec_ret; eauto. }
  destruct Hq as (w1 & l1 & ->). cbn [out_res out_st out_world]. intros Hp. unfold prepend in Hp. cbn [out_res] in Hp.
  pose proof (UpdateStatus_returns env (c_cluster s1) s1 w1) as Hr. unfold log_err in Hr.
  rewrite exec_bind, exec_try in Hr. cbn zeta in Hr. by rewrite Hp in Hr.
Qed.

(** The collector only reads. *)
Definition collector_reads : Prop :=
  forall m, MetricsCollector r = Some m -> preserves eq m.

Lemma collect_metrics_state s w : collector_reads -> out_st (exec env (collect_metrics r) s w) = s.
Proof.
  intros Hm. symmetry. unfold collect_metrics. rewrite exec_bind, exec_get_cluster.
  cbn [out_res out_st out_world out_log]. case_decide; [|by rewrite exec_ret].
  unfold collector_reads in Hm. destruct (MetricsCollector r) as [m|]; [|by rewrite exec_ret].
  cbn. apply (preserves_log_err eq m), Hm. done.
Qed.

Lemma sync_finish_outcome s w :
  collector_reads ->
  let o := exec env (sync_finish r) s w in
  let c := c_cluster s in let c' := c_cluster (out_st o) in
  (phase_of c' = phase_of c /\ (becoming_ready (phase_of c) = true -> maintained c = true))
  \/ (becoming_ready (phase_of c) = true /\ phase_of c' = PhaseRunning /\ maintained c' = false
      /\ (maintained c = true -> Exists (maintenance_accepted c false) (out_log o))).
Proof.
  intros Hm. unfold sync_finish. rewrite exec_bind, exec_get_cluster.
  cbn [out_res out_st out_world out_log]. fold (phase_of (c_cluster s)).
  fold (becoming_ready (phase_of (c_cluster s))).
  rewrite exec_bind. destruct (becoming_ready (phase_of (c_cluster s))); cbn [when].
  - pose proof (sync_ready_outcome s w) as Hr. cbn zeta in Hr.
    destruct (exec env sync_ready s w) as [[[]|e|] s1 w1 l1]; cbn [out_res out_st out_world out_log] in *.
    + destruct Hr as [(_ & [] & _)|(Hp & Hf & Hl)]; [done|]. right.
      rewrite exec_bind. pose proof (collect_metrics_state s1 w1 Hm) as Hs.
      destruct (exec env (collect_metrics r) s1 w1) as [[[]|e|] s2 w2 l2];
        cbn [out_res out_st out_world out_log] in *; subst s2; rewrite ?exec_ret; unfold prepend;
        cbn [out_st out_log app]; split_and!; try done; intros Hc; apply Exists_app; left; by apply Hl.
    + unfold prepend. cbn [out_st out_log out_res app]. destruct Hr as [(Hp & _ & ?)|Hr]; [by left|by right].
    + unfold prepend. cbn [out_st out_log out_res app]. destruct Hr as [(Hp & _ & ?)|Hr]; [by left|by right].
  - left. rewrite exec_ret. cbn [out_res out_st out_world out_log]. rewrite exec_bind.
    pose proof (collect_metrics_state s w Hm) as Hs.
    destruct (exec env (collect_metrics r) s w) as [[[]|e|] s2 w2 l2];
      cbn [out_res out_st out_world out_log] in *; subst s2; done.
Qed.

(** The deployers work on the same cluster: they do not touch its phase. *)
Definition deployers_keep : Prop := Forall (fun d => keeps_cluster (Sync d)) (Deployers r).

Lemma keeps_range ds : Forall (fun d => keeps_cluster (Sync d)) ds -> keeps_cluster (range Sync ds).
Proof.
  induction 1 as [|d ds Hd _ IH]; [apply preserves_ret; apply _|].
  apply preserves_bind; [apply _|exact Hd|]. intros _. exact IH.
Qed.

(** One [sync], by what its deployers do. *)
Lemma sync_outcome s w :
  deployers_keep -> collector_reads ->
  let all := exec env (range Sync (Deployers r)) s w in
  let o := exec env (sync r) s w in
  let c := c_cluster s in let c' := c_cluster (out_st o) in
  match out_res all with
  | Ok _ =>
      (phase_of c' = phase_of c /\ (becoming_ready (phase_of c) = true -> maintained (c_cluster (out_st all)) = true))
      \/ (becoming_ready (phase_of c) = true /\ phase_of c' = PhaseRunning /\ maintained c' = false
          /\ (maintained (c_cluster (out_st all)) = true ->
              Exists (maintenance_accepted (c_cluster (out_st all)) false) (out_log o)))
  | Err ErrSyncNotReady => phase_of c' = next_phase (phase_of c)
  | Err e => out_res o = Err e /\ phase_of c' = phase_of c
  | Panic => out_res o = Panic /\ phase_of c' = phase_of c
  end.
Proof.
  intros Hk Hm. cbn zeta. pose proof (keeps_range _ Hk W env s w) as (_ & _ & Hp).
  unfold sync. rewrite exec_bind, exec_sync_deployers. cbn zeta.
  destruct (exec env (range Sync (Deployers r)) s w) as [[[]|[] |] s1 w1 l1];
    cbn [out_res out_st out_world out_log] in *; fold (phase_of (c_cluster s1)) in Hp;
    fold (phase_of (c_cluster s)) in Hp; try done.
  - rewrite <- Hp. destruct (sync_finish_outcome s1 w1 Hm) as [Hs|(? & ? & ? & Hl)];
      [by left|right]. split_and!; try done. intros Hc. unfold prepend; cbn [out_log].
    apply Exists_app. right. by apply Hl.
  - rewrite <- Hp. destruct (not_ready_state s1 w1) as [Hn Hr].
    destruct (exec env not_ready s1 w1) as [[[x|]|e|] s2 w2 l2]; unfold prepend;
      cbn [out_res out_st out_world out_log] in *; rewrite ?exec_ret; try done.
Qed.

(** Setting the phase to Terminating asks for nothing else. *)
Lemma updateClusterStatus_terminates s w :
  phase_of (c_cluster s) <> PhaseTerminating ->
  let o := exec env (updateClusterStatus PhaseTerminating) s w in
  Forall terminating_request (out_log o) /\ (out_res o = Ok tt -> Exists terminated (out_log o)).
Proof.
  intros Hp. unfold updateClusterStatus. rewrite exec_bind, exec_get_cluster. cbn [out_res out_st out_world out_log].
  unfold phase_of in Hp. rewrite decide_False by done.
  set (f := set_Phase _ _ _). rewrite exec_bind, exec_update_status. cbn [out_res out_st out_world out_log].
  set (s1 := mkCState _ _). rewrite exec_bind, exec_get_cluster. cbn [out_res out_st out_world out_log].
  rewrite exec_bind.
  assert (He : exists w1 l1, exec env (recordNormalEventByPhase (c_cluster s1)) s1 w = Outcome (Ok tt) s1 w1 l1
                 /\ Forall terminating_request l1).
  { unfold recordNormalEventByPhase. repeat case_decide; rewrite ?exec_Event, ?exec_ret;
      eexists _, _; (split; [reflexivity|by repeat constructor]). }
  destruct He as (w1 & l1 & -> & Hl1). unfold prepend. cbn [out_res out_st out_world out_log app].
  assert (Hbody : logs_only terminating_request (cluster ← Get KCluster (cluster_key (c_cluster s1));
    StatusUpdate (Object KCluster (set_Status (gc_Status (c_cluster s1)) cluster)) : M CState unit)).
  { apply logs_only_bind; [apply logs_only_call; [done|intros c; apply logs_only_lift]|]. intros c.
    apply logs_only_call; [|intros a; apply logs_only_lift]. intros a.
    by exists (set_Status (gc_Status (c_cluster s1)) c). }
  split.
  - apply Forall_app. split; [done|]. exact (RetryOnConflict_logs _ _ Hbody _ env s1 w1).
  - intros (s' & w' & Hr & _ & Hincl)%RetryOnConflict_Ok. apply Exists_app. right. apply Exists_exists.
    revert Hr Hincl. rewrite exec_bind. change (@exec CState W GreptimeDBCluster) with (@exec CState W (obj KCluster)).
    rewrite exec_Get. cbn [out_res out_st out_world out_log].
    destruct (env (QGet KCluster _) w') as [[c|e|] w2]; cbn [fst snd]; [|done..].
    rewrite exec_StatusUpdate. unfold prepend. cbn [out_res out_st out_world out_log app].
    destruct (env (QStatusUpdate _) w2) as [[[]|e|] w3] eqn:Ha; cbn [fst snd]; [|done..]. intros _ Hincl.
    eexists. split; [apply list_elem_of_In, Hincl; right; left; reflexivity|].
    by exists (set_Status (gc_Status (c_cluster s1)) c).
Qed.
End lemmas.

(** ** Properties *)

Section properties.
Context `{QuantityLib, OpaqueMerge, MergoLib, TomlUnmarshal, FinalizerLib, MapOrder}.
Context `{RetryLaws}.

(** C4. A [sync] turns a cluster to Running only when every deployer's [Sync] in
    turn returned nil, from Starting or Updating, and with the maintenance mode
    off: if the status said it was on, the metasrv accepted to leave it. *)
Theorem sync_running_only_when_ready r {W} (env : environment W) s w :
  deployers_keep r -> collector_reads r ->
  let all := exec env (range Sync (Deployers r)) s w in
  let o := exec env (sync r) s w in
  let c := c_cluster s in let c' := c_cluster (out_st o) in
  phase_of c <> PhaseRunning -> phase_of c' = PhaseRunning ->
  out_res all = Ok tt
  /\ (phase_of c = PhaseStarting \/ phase_of c = PhaseUpdating)
  /\ maintained c' = false
  /\ (maintained (c_cluster (out_st all)) = true ->
      Exists (maintenance_accepted (c_cluster (out_st all)) false) (out_log o)).
Proof.
  intros Hk Hm. cbn zeta. intros Hne Hr. pose proof (sync_outcome r env s w Hk Hm) as Ho. cbn zeta in Ho.
  destruct (out_res (exec env (range Sync (Deployers r)) s w)) as [[]|[] |] eqn:Hall;
    [|by rewrite Ho in Hr; destruct (next_phase_not_running (phase_of (c_cluster s)))|
      destruct Ho as [_ Ho]; congruence..].
  destruct Ho as [[Hs _]|(Hb & _ & Hf & Hl)]; [congruence|]. split_and!; [done| |done..].
  apply orb_true_iff in Hb as [Hb|Hb]; apply bool_decide_eq_true in Hb; auto.
Qed.

(** C36. And it does turn Running: a Starting or Updating cluster out of
    maintenance whose deployers all returned nil leaves the [sync] in the Running
    phase, whatever the server answers to the status update. *)
Theorem sync_reaches_running r {W} (env : environment W) s w :
  deployers_keep r -> collector_reads r ->
  let all := exec env (range Sync (Deployers r)) s w in
  phase_of (c_cluster s) = PhaseStarting \/ phase_of (c_cluster s) = PhaseUpdating ->
  out_res all = Ok tt -> maintained (c_cluster (out_st all)) = false ->
  phase_of (c_cluster (out_st (exec env (sync r) s w))) = PhaseRunning.
Proof.
  intros Hk Hm. cbn zeta. intros Hp Hall Hf. pose proof (sync_outcome r env s w Hk Hm) as Ho.
  cbn zeta in Ho. rewrite Hall in Ho. destruct Ho as [[_ Hb]|(_ & Ho & _)]; [|done].
  rewrite Hf in Hb. enough (false = true) by done. apply Hb. by destruct Hp as [-> | ->].
Qed.

(** C14. The phase is a state machine: one [sync] keeps it or takes one of the four
    transitions Starting to Running, Updating to Running, Running to Updating,
    Error to Starting, whatever the server and the deployers answer. *)
Theorem sync_phase_step r {W} (env : environment W) s w :
  deployers_keep r -> collector_reads r ->
  phase_step (phase_of (c_cluster s)) (phase_of (c_cluster (out_st (exec env (sync r) s w)))).
Proof.
  intros Hk Hm. pose proof (sync_outcome r env s w Hk Hm) as Ho. cbn zeta in Ho.
  destruct (out_res (exec env (range Sync (Deployers r)) s w)) as [[]|[] |];
    [destruct Ho as [[-> _]|(Hb & -> & _)]; [constructor|]|rewrite Ho; apply next_phase_step|
      destruct Ho as [_ ->]; constructor..].
  apply orb_true_iff in Hb as [Hb|Hb]; apply bool_decide_eq_true in Hb; rewrite Hb; constructor.
Qed.

(** A cluster in the Error phase whose deployers all report success stays in
    the Error phase: only a deployer that is not ready moves it on, so an error
    that is repaired without any change to the generated objects is never
    cleared from the status. *)
Theorem error_phase_sticks r {W} (env : environment W) s w :
  deployers_keep r -> collector_reads r ->
  phase_of (c_cluster s) = PhaseError ->
  out_res (exec env (range Sync (Deployers r)) s w) = Ok tt ->
  phase_of (c_cluster (out_st (exec env (sync r) s w))) = PhaseError.
Proof.
  intros Hk Hm Hp Hall. pose proof (sync_outcome r env s w Hk Hm) as Ho. cbn zeta in Ho.
  rewrite Hall, Hp in Ho. by destruct Ho as [[? _]|[? _]].
Qed.

(** C5. Deleting: without the operator's finalizer nothing is done.  A cluster not yet
    Terminating only has its phase set: in memory its status changes and nothing else, no
    request is sent but an event, reads of clusters and updates of a status to
    Terminating (no clean-up, no update of the object), and it is queued again only when
    such a status update was accepted.  A Terminating one has every deployer cleaned up,
    and the finalizer is removed (the one update of the object, the last request) only
    when every [CleanUp] returned nil. *)
Theorem delete_spec `{!FinalizerLaws} r {W} (env : environment W) s w :
  let c := c_cluster s in
  let o := exec env (delete r) s w in
  let cleaned := exec env (range co_CleanUp (Deployers r)) s w in
  if bool_decide (greptimedbClusterFinalizer ∉ om_Finalizers (gc_ObjectMeta c)) then
    o = Outcome (Ok no_requeue) s w []
  else if bool_decide (phase_of c <> PhaseTerminating) then
    out_st o = mkCState (with_phase PhaseTerminating c) (c_maintenance s)
    /\ phase_of (c_cluster (out_st o)) = PhaseTerminating
    /\ Forall terminating_request (out_log o)
    /\ forall result, out_res o = Ok result -> result = mkResult true 0 /\ Exists terminated (out_log o)
  else match out_res cleaned with
       | Ok _ =>
           exists c' answer, out_log o = out_log cleaned ++ [ev (QUpdate KCluster c') answer]
             /\ om_Finalizers (gc_ObjectMeta c')
                = filter (fun f => f <> greptimedbClusterFinalizer)
                    (om_Finalizers (gc_ObjectMeta (c_cluster (out_st cleaned))))
             /\ is_Ok (out_res o) = is_Ok answer
       | Err e => out_res o = Err e /\ out_log o = out_log cleaned
       | Panic => out_res o = Panic /\ out_log o = out_log cleaned
       end.
Proof.
  cbn zeta. rewrite (exec_delete r env). cbn zeta. case_bool_decide; [done|]. case_bool_decide.
  - cbn [out_st out_res out_log]. rewrite updateClusterStatus_state.
    destruct (updateClusterStatus_terminates env s w) as [Hl Hok]; [done|].
    split_and!; [done|apply phase_with_phase|done|].
    intros result. destruct (out_res (exec env _ s w)) as [[]|e|]; [intros [= <-]|done..]. by split; [|apply Hok].
  - destruct (exec env (range co_CleanUp (Deployers r)) s w) as [[[]|e|] s1 w1 l1];
      cbn [out_res out_st out_world out_log]; [|done..].
    set (c' := set_ClusterMeta _ (c_cluster s1)). rewrite exec_update_object. cbn [c_cluster].
    exists c', (env (QUpdate KCluster c') w1).1. unfold prepend.
    destruct (env (QUpdate KCluster c') w1) as [[stored|e|] w2];
      cbn [out_res out_st out_world out_log fst snd]; (split; [done|split; [|done]]); subst c'; cbn;
      by rewrite remove_finalizer.
Qed.

(** C11. What the Error phase records, on a healthy server: an error of the preparation (finalizer,
    validation, checks, defaults, update, first status) is returned, reported as
    a ReconcileError event and sets the phase to Error; after a preparation that
    succeeded, the deferred handler does nothing, whatever the merges and the
    deployers return: their errors leave no trace in the status. *)
Theorem record_error_spec r {W} (env : environment W) `{!ApiServer env} f w :
  fr_err f = None -> om_DeletionTimestamp (gc_ObjectMeta (c_cluster (fr_state f))) = None ->
  let prepared := exec env (prepare r) f w in
  let o := exec env (defer (record_error (updateClusterStatus PhaseError)) (reconcile_cluster r)) f w in
  match out_res prepared with
  | Err e =>
      out_res o = Err e /\ phase_of (c_cluster (fr_state (out_st o))) = PhaseError
      /\ Exists is_reconcile_error (out_log o)
  | Ok _ =>
      let synced := exec env (merge_and_sync r) (fr_state (out_st prepared)) (out_world prepared) in
      o = Outcome (out_res synced) (mkFrame (out_st synced) None) (out_world synced)
            (out_log prepared ++ out_log synced)
  | Panic => out_res o = Panic
  end.
Proof.
  intros Hf Hd. cbn zeta. rewrite (exec_reconcile_cluster r env _ f w Hd).
  rewrite (exec_recorded env _ _ _ f w (tracks_prepare r env) Hf
    (fun s w => updateClusterStatus_returns env PhaseError s w)). cbn zeta.
  destruct (exec env (prepare r) f w) as [[[]|e|] f1 w1 l1]; cbn [out_res out_st out_world out_log]; [done| |done].
  split; [done|]. split.
  - cbn [fr_state]. rewrite updateClusterStatus_state. apply phase_with_phase.
  - apply Exists_app. right. by left.
Qed.

(** [Reconcile] on a cluster that is gone does nothing; on one being deleted
    it is [delete] and nothing else: no finalizer is added, nothing is defaulted
    or synchronised, and the phase error is not recorded. *)
Theorem Reconcile_missing_or_deleted r {W} (env : environment W) req m w :
  let key := QGet KCluster req in
  (forall msg, (env key w).1 = Err (ErrNotFound msg) ->
   exec env (Reconcile r req) m w = Outcome (Ok no_requeue) m (env key w).2 [ev key (env key w).1])
  /\ (forall c, (env key w).1 = Ok c -> om_DeletionTimestamp (gc_ObjectMeta c) <> None ->
      let o := exec env (delete r) (mkCState c m) (env key w).2 in
      exec env (Reconcile r req) m w =
        Outcome (out_res o) (c_maintenance (out_st o)) (out_world o) (ev key (env key w).1 :: out_log o)).
Proof.
  cbn zeta. split; [intros msg Ha|intros c Ha Hd; by apply exec_Reconcile_deleted].
  unfold Reconcile. rewrite exec_bind, exec_try, exec_Get.
  cbn [out_res out_st out_world out_log]. rewrite Ha. cbn [out_res out_st out_world out_log IsNotFound].
  rewrite exec_ret. unfold prepend. cbn. done.
Qed.
End properties.

(** ** Witnesses *)

#[local] Instance any_toml : TomlUnmarshal := {| toml_Unmarshal _ := Ok tt |}.
#[local] Instance in_order : MapOrder := {| map_order A l := l; map_order_permutation A l := reflexivity l |}.
#[local] Existing Instances any_quantity keep_opaque documented_mergo simple_retry simple_retry_laws
  list_finalizers list_finalizers_laws.

(** A deployer that is ready, and one whose configuration is not accepted. *)
Definition ready_deployer : ComponentOperator CState :=
  mkComponentOperator (mret [annotated_cm "spec" "data"]) (fun _ => mret tt) (mret tt) (mret true) [] [].
Definition broken_deployer : ComponentOperator CState :=
  mkComponentOperator (mret [annotated_cm "spec" "data"]) (fun _ => mret tt)
    (lift (Err (Errorf "cannot list the claims"))) (lift (Err (Errorf "no deployment"))) [] [].
Definition with_deployer (d : ComponentOperator CState) : Reconciler := mkReconciler false [d; d] None.

Definition sample_cluster (phase : Phase) (maintenance : bool) (finalizers : list string)
    : GreptimeDBCluster :=
  mkGreptimeDBCluster (with_finalizers finalizers (meta_of "default" "c" None ∅))
    (mkGreptimeDBClusterSpec None None (Some (mkMetaSpec zero_ComponentSpec 3002 4000 None None None))
       (Some zero_DatanodeSpec) [] None [] 0 0 0 0 None "" None None None None None None "" false)
    (set_MetaStatus (mkMetaStatus 0 0 maintenance) (set_Phase "" phase 0 zero_ClusterStatus)).
Definition sample_state (phase : Phase) (maintenance : bool) : CState :=
  mkCState (sample_cluster phase maintenance [greptimedbClusterFinalizer]) ∅.

Lemma ready_keeps : deployers_keep (with_deployer ready_deployer).
Proof.
  assert (keeps_cluster (Sync ready_deployer))
    by (unfold keeps_cluster, Sync, onPrevSync, onPostSync; cbn; solve_preserves).
  by repeat constructor.
Qed.
Lemma no_collector d : collector_reads (with_deployer d).
Proof. done. Qed.

Lemma sync_running_only_when_ready_witness :
  let o := exec fake_env (sync (with_deployer ready_deployer)) (sample_state PhaseStarting true) [] in
  phase_of (c_cluster (out_st o)) = PhaseRunning /\ maintained (c_cluster (out_st o)) = false
  /\ Exists (maintenance_accepted (sample_cluster PhaseStarting true [greptimedbClusterFinalizer]) false)
       (out_log o).
Proof.
  intros o. assert (Hr : phase_of (c_cluster (out_st o)) = PhaseRunning) by (vm_compute; reflexivity).
  split; [exact Hr|].
  destruct (sync_running_only_when_ready (with_deployer ready_deployer) fake_env
    (sample_state PhaseStarting true) [] ready_keeps (no_collector _)) as (_ & _ & Hm & Hl);
    [by vm_compute|exact Hr|]. split; [exact Hm|]. apply Hl. vm_compute. reflexivity.
Defined.

Lemma sync_reaches_running_witness :
  phase_of (c_cluster (out_st (exec fake_env (sync (with_deployer ready_deployer))
    (sample_state PhaseUpdating false) []))) = PhaseRunning.
Proof.
  apply (sync_reaches_running (with_deployer ready_deployer) fake_env (sample_state PhaseUpdating false) []
    ready_keeps (no_collector _)); [by right|vm_compute; reflexivity..].
Defined.

Lemma sync_phase_step_witness :
  phase_step PhaseUpdating (phase_of (c_cluster (out_st (exec fake_env
    (sync (with_deployer ready_deployer)) (sample_state PhaseUpdating false) [])))).
Proof.
  exact (sync_phase_step (with_deployer ready_deployer) fake_env (sample_state PhaseUpdating false) []
    ready_keeps (no_collector _)).
Defined.

Lemma error_phase_sticks_witness :
  let o := exec fake_env (sync (with_deployer ready_deployer)) (sample_state PhaseError false) [] in
  out_res o = Ok no_requeue /\ phase_of (c_cluster (out_st o)) = PhaseError.
Proof.
  split; [vm_compute; reflexivity|].
  apply (error_phase_sticks (with_deployer ready_deployer) fake_env (sample_state PhaseError false) []
    ready_keeps (no_collector _)); [done|vm_compute; reflexivity].
Defined.

(** A Terminating cluster whose clean-up fails keeps its finalizer. *)
Lemma delete_spec_witness :
  let o := exec fake_env (delete (with_deployer broken_deployer)) (sample_state PhaseTerminating false) [] in
  out_res o = Err (Errorf "cannot list the claims") /\ out_log o = [].
Proof.
  exact (delete_spec (with_deployer broken_deployer) fake_env (sample_state PhaseTerminating false) []).
Defined.

(** A deployer's error: returned, and the phase and the events say nothing. *)
Lemma record_error_spec_witness :
  let f := mkFrame (sample_state PhaseStarting false) None in
  let o := exec fake_env (defer (record_error (updateClusterStatus PhaseError)) (reconcile_cluster (with_deployer broken_deployer))) f
             [Object KCluster (c_cluster (fr_state f))] in
  out_res o = Err (Errorf "no deployment")
  /\ phase_of (c_cluster (fr_state (out_st o))) = PhaseStarting.
Proof.
  intros f o.
  pose proof (record_error_spec (with_deployer broken_deployer) fake_env f
    [Object KCluster (c_cluster (fr_state f))] eq_refl eq_refl) as Ho. cbn zeta in Ho. fold o in Ho.
  assert (Hp : out_res (exec fake_env (prepare (with_deployer broken_deployer)) f
    [Object KCluster (c_cluster (fr_state f))]) = Ok tt) by (vm_compute; reflexivity).
  rewrite Hp in Ho. rewrite Ho. split; vm_compute; reflexivity.
Defined.

Lemma Reconcile_missing_or_deleted_witness :
  exec fake_env (Reconcile (with_deployer ready_deployer) (mkNamespacedName "default" "c")) ∅ []
  = Outcome (Ok no_requeue) ∅ [] [ev (QGet KCluster (mkNamespacedName "default" "c")) (Err (ErrNotFound "not found"))].
Proof.
  exact (proj1 (Reconcile_missing_or_deleted (with_deployer ready_deployer) fake_env
    (mkNamespacedName "default" "c") ∅ []) "not found" eq_refl).
Defined.
