(* ===== verification/Standalone.v ===== *)
(** * controllers/greptimedbstandalone: the standalone deployer and reconciler

    deployer.go's clean-up and status check, and controller.go.  The skeleton is
    the cluster's (Reconcile.v), with one deployer, no maintenance mode, and a
    deletion in one step.  [deleteStorage] is the same text as the datanode
    deployer's and is shared with it. *)

From stdpp Require Import base gmap sets strings list fin_maps.
From Stdlib Require Import ZArith.
From S2P Require Import Prelude GoLib K8s ApiCommon Conditions ApiTypes Client ApiServer K8sUtil.
From S2P Require Import Deployer Reconcile Common Validate Mergo Defaulting Cluster Datanode.

(** ** State

    The memory is the object under reconciliation. *)

Definition set_sa_Status (st : GreptimeDBStandaloneStatus) (s : GreptimeDBStandalone)
    : GreptimeDBStandalone := mkGreptimeDBStandalone (sa_ObjectMeta s) (sa_Spec s) st.
Definition set_sa_Meta (m : ObjectMeta) (s : GreptimeDBStandalone) : GreptimeDBStandalone :=
  mkGreptimeDBStandalone m (sa_Spec s) (sa_Status s).
Definition set_sa_Replicas (replicas readyReplicas : Z) (st : GreptimeDBStandaloneStatus) :=
  mkGreptimeDBStandaloneStatus replicas readyReplicas (sas_Version st) (sas_StandalonePhase st)
    (sas_Conditions st) (sas_ObservedGeneration st).
Definition set_sa_Conditions (cs : list Condition) (st : GreptimeDBStandaloneStatus) :=
  mkGreptimeDBStandaloneStatus (sas_Replicas st) (sas_ReadyReplicas st) (sas_Version st)
    (sas_StandalonePhase st) cs (sas_ObservedGeneration st).
Definition GreptimeDBStandaloneStatus_GetCondition (conditionType : ConditionType)
    (st : GreptimeDBStandaloneStatus) : option Condition := GetCondition (sas_Conditions st) conditionType.
Definition GreptimeDBStandaloneStatus_SetCondition (condition : Condition) (st : GreptimeDBStandaloneStatus)
    : GreptimeDBStandaloneStatus := set_sa_Conditions (SetCondition (sas_Conditions st) condition) st.
(** The phase, the version and the observed generation change together. *)
Definition set_sa_Phase (version : string) (phase : Phase) (generation : Z)
    (st : GreptimeDBStandaloneStatus) :=
  mkGreptimeDBStandaloneStatus (sas_Replicas st) (sas_ReadyReplicas st) version phase
    (sas_Conditions st) generation.

(** Replacing the two fields whose maps are shared. *)
Definition set_sa_maps (base : option PodTemplateSpec) (service : option ServiceSpec)
    (s : GreptimeDBStandaloneSpec) : GreptimeDBStandaloneSpec :=
  mkGreptimeDBStandaloneSpec base service (sa_TLS s) (sa_HTTPPort s) (sa_HTTPAPIServerPort s)
    (sa_EnableHTTPAPIServer s) (sa_RPCPort s) (sa_MySQLPort s) (sa_PostgreSQLPort s)
    (sa_PrometheusMonitor s) (sa_Version s) (sa_Replicas s) (sa_Initializer s)
    (sa_ObjectStorageProvider s) (sa_DatanodeStorage s) (sa_WALProvider s) (sa_Config s) (sa_Logging s)
    (sa_RollingUpdate s) (sa_SlowQuery s) (sa_Tracing s) (sa_ConfigMergeStrategy s) (sa_EnableIPv6 s).

Definition sa_update_status (f : GreptimeDBStandaloneStatus -> GreptimeDBStandaloneStatus)
    : M GreptimeDBStandalone unit := modify (fun s => set_sa_Status (f (sa_Status s)) s).

(** ** The deployer *)

Definition standalone_resource (s : GreptimeDBStandalone) : string :=
  ResourceName (om_Name (sa_ObjectMeta s)) StandaloneRoleKind [].

(** The WAL and the cache. *)
Definition standalone_cleanup_rest `{SelectorLib} (s : GreptimeDBStandalone) : M GreptimeDBStandalone unit :=
  let ns := om_Namespace (sa_ObjectMeta s) in
  _ ← when (delete_policy (RaftEngineWAL_GetFileStorage
              (WALProviderSpec_GetRaftEngineWAL (Standalone_GetWALProvider (Some s)))))
        (deleteStorage ns (standalone_resource s) FileStorageTypeWAL);
  when (delete_policy (GetCacheFileStorage (Standalone_GetObjectStorageProvider (Some s))))
    (deleteStorage ns (standalone_resource s) FileStorageTypeCache).

(** An emptyDir returns early. *)
Definition Standalone_CleanUp `{SelectorLib} : M GreptimeDBStandalone unit :=
  s ← get;
  match Standalone_GetDatanodeFileStorage (Some s) with
  | Some fs =>
      if FileStorage_IsUseEmptyDir (Some fs) then mret tt
      else
        _ ← when (delete_policy (Some fs))
              (deleteStorage (om_Namespace (sa_ObjectMeta s)) (standalone_resource s)
                 FileStorageTypeDatanode);
        standalone_cleanup_rest s
  | None => standalone_cleanup_rest s
  end.

Section deployer.
Context `{RetryLib}.

(** The retried function reads the object again and writes the status the caller
    computed. *)
Definition Standalone_UpdateStatus {S} (input : GreptimeDBStandalone) : M S unit :=
  RetryOnConflict (standalone ← Get KStandalone (key_of (sa_ObjectMeta input));
                   StatusUpdate (Object KStandalone (set_sa_Status (sa_Status input) standalone))).

Definition Standalone_CheckAndUpdateStatus : M GreptimeDBStandalone bool :=
  s ← get;
  found ← GetIfFound KStatefulSet
            (mkNamespacedName (om_Namespace (sa_ObjectMeta s)) (standalone_resource s));
  match found with
  | None => mret false
  | Some sts =>
      replicas ← lift (deref (ss_Replicas (sts_Spec sts)));
      _ ← sa_update_status (set_sa_Replicas replicas (st_ReadyReplicas (sts_Status sts)));
      s ← get;
      _ ← log_err (Standalone_UpdateStatus s);
      lift (IsStatefulSetReady (Some sts))
  end.
End deployer.

(** ** The reconciler *)

Definition greptimedbStandaloneFinalizer : string := "greptimedbstandalone.greptime.io/finalizer".

Record StandaloneReconciler := mkStandaloneReconciler {
  sr_EnableAdmissionWebhook : bool;
  sr_Deployer : ComponentOperator GreptimeDBStandalone }.

Section operations.
Context `{OpaqueMerge, MergoLib, TomlUnmarshal, RetryLib, FinalizerLib}.
Variable r : StandaloneReconciler.

Definition Standalone_recordNormalEventByPhase (s : GreptimeDBStandalone)
    : M GreptimeDBStandalone unit :=
  let phase := sas_StandalonePhase (sa_Status s) in
  if decide (phase = PhaseStarting) then Event "Normal" "StartingStandalone"
  else if decide (phase = PhaseRunning) then Event "Normal" "StandaloneIsReady"
  else if decide (phase = PhaseUpdating) then Event "Normal" "UpdatingStandalone"
  else if decide (phase = PhaseTerminating) then Event "Normal" "Terminatingstandalone"
  else mret tt.

Definition setStandaloneStatus (phase : Phase) : M GreptimeDBStandalone unit :=
  s ← get;
  if decide (sas_StandalonePhase (sa_Status s) = phase) then mret tt
  else
    _ ← sa_update_status (set_sa_Phase (sa_Version (sa_Spec s)) phase (om_Generation (sa_ObjectMeta s)));
    s ← get;
    _ ← Standalone_recordNormalEventByPhase s;
    Standalone_UpdateStatus s.

(** [r.Update(ctx, standalone)]: the answer is decoded into the object. *)
Definition update_standalone : M GreptimeDBStandalone unit :=
  s ← get;
  stored ← Update KStandalone s;
  put stored.

Definition Standalone_addFinalizer : M GreptimeDBStandalone unit :=
  s ← get;
  when (negb (ContainsFinalizer (sa_ObjectMeta s) greptimedbStandaloneFinalizer))
    (_ ← modify (fun s => set_sa_Meta (AddFinalizer (sa_ObjectMeta s) greptimedbStandaloneFinalizer) s);
     update_standalone).

Definition Standalone_delete : M GreptimeDBStandalone Result :=
  s ← get;
  if negb (ContainsFinalizer (sa_ObjectMeta s) greptimedbStandaloneFinalizer) then mret no_requeue
  else
    _ ← co_CleanUp (sr_Deployer r);
    _ ← modify (fun s => set_sa_Meta (RemoveFinalizer (sa_ObjectMeta s) greptimedbStandaloneFinalizer) s);
    _ ← update_standalone;
    mret no_requeue.

Definition sa_now : M GreptimeDBStandalone Z := ask QNow.

(** The standalone is ready: the condition and the phase. *)
Definition Standalone_ready : M GreptimeDBStandalone unit :=
  now_transition ← sa_now;
  now_update ← sa_now;
  _ ← sa_update_status (GreptimeDBStandaloneStatus_SetCondition
        (NewCondition ConditionTypeReady ConditionTrue "StandaloneReady" "the standalone is ready"
           now_transition now_update));
  setStandaloneStatus PhaseRunning.

Definition Standalone_sync : M GreptimeDBStandalone Result :=
  err ← try (Sync (sr_Deployer r));
  match err with
  | Err ErrSyncNotReady =>
      s ← get;
      _ ← setStandaloneStatus (next_phase (sas_StandalonePhase (sa_Status s)));
      mret no_requeue
  | Err e => lift (Err e)
  | Panic => lift Panic
  | Ok _ =>
      s ← get;
      _ ← when (becoming_ready (sas_StandalonePhase (sa_Status s))) Standalone_ready;
      mret no_requeue
  end.

Definition Standalone_in_memory (f : GreptimeDBStandalone -> res GreptimeDBStandalone)
    : M GreptimeDBStandalone unit := s ← get; s ← lift (f s); put s.
Definition standalone_validate : M GreptimeDBStandalone unit :=
  s ← get; lift (Standalone_Validate (Some s)).
Definition standalone_check : M GreptimeDBStandalone unit := s ← get; Standalone_Check s.

(** From the finalizer to the first phase. *)
Definition Standalone_prepare : M (Frame GreptimeDBStandalone) unit :=
  _ ← assign_err (on_state Standalone_addFinalizer) (Warning "AddFinalizerFailed");
  _ ← when (negb (sr_EnableAdmissionWebhook r))
        (assign_err (on_state standalone_validate) (Warning "InvalidStandalone"));
  _ ← assign_err (on_state standalone_check) (Warning "InvalidStandalone");
  originalObject ← on_state get;
  _ ← assign_err (on_state (Standalone_in_memory Standalone_SetDefaults)) (Warning "SetDefaultValuesFailed");
  s ← on_state get;
  _ ← when (negb (bool_decide (sa_Spec originalObject = sa_Spec s)))
        (assign_err (on_state update_standalone) (Warning "UpdateStandaloneFailed"));
  s ← on_state get;
  when (bool_decide (sas_StandalonePhase (sa_Status s) = ""))
    (assign_err (on_state (setStandaloneStatus PhaseStarting)) (mret tt)).

Definition reconcile_standalone : M (Frame GreptimeDBStandalone) Result :=
  s ← on_state get;
  if not_nil (om_DeletionTimestamp (sa_ObjectMeta s)) then on_state Standalone_delete
  else _ ← Standalone_prepare; on_state Standalone_sync.

Definition Standalone_Reconcile {S} (req : NamespacedName) : M S Result :=
  err ← try (Get KStandalone req);
  match err with
  | Ok s =>
      run_local (defer (record_error (setStandaloneStatus PhaseError)) reconcile_standalone)
        (mkFrame s None)
  | Err e => if IsNotFound e then mret no_requeue else lift (Err e)
  | Panic => lift Panic
  end.
End operations.

(** The deployer, with its generator as a variable. *)
Definition StandaloneDeployer `{JsonLib} `{RetryLib} `{SelectorLib} (generate : M GreptimeDBStandalone (list object))
    : ComponentOperator GreptimeDBStandalone :=
  mkComponentOperator generate DefaultDeployer_Apply Standalone_CleanUp
    Standalone_CheckAndUpdateStatus DefaultDeployer_Hooks DefaultDeployer_Hooks.

(** ** Specifications *)

Definition sa_phase (s : GreptimeDBStandalone) : Phase := sas_StandalonePhase (sa_Status s).

(** The claims a standalone's clean-up deletes. *)
Definition standalone_rest_targets (s : GreptimeDBStandalone) : list target :=
  storage_target (RaftEngineWAL_GetFileStorage
       (WALProviderSpec_GetRaftEngineWAL (Standalone_GetWALProvider (Some s))))
       (standalone_resource s, FileStorageTypeWAL)
  ++ storage_target (GetCacheFileStorage (Standalone_GetObjectStorageProvider (Some s)))
       (standalone_resource s, FileStorageTypeCache).
Definition standalone_targets (s : GreptimeDBStandalone) : list target :=
  match Standalone_GetDatanodeFileStorage (Some s) with
  | Some fs => if FileStorage_IsUseEmptyDir (Some fs) then []
               else storage_target (Some fs) (standalone_resource s, FileStorageTypeDatanode)
                    ++ standalone_rest_targets s
  | None => standalone_rest_targets s
  end.

(** The spec without the maps that generated objects share with it (Cluster). *)
Definition sa_core (s : GreptimeDBStandaloneSpec) : GreptimeDBStandaloneSpec :=
  set_sa_maps (no_maps_template <$> sa_Base s) (no_maps_service <$> sa_Service s) s.

(** Identity, spec (up to the shared maps) and phase are left alone. *)
Definition same_standalone (s s' : GreptimeDBStandalone) : Prop :=
  sa_ObjectMeta s' = sa_ObjectMeta s /\ sa_core (sa_Spec s') = sa_core (sa_Spec s)
  /\ sa_phase s' = sa_phase s.

(** The object after [setStandaloneStatus phase]. *)
Definition sa_with_phase (phase : Phase) (s : GreptimeDBStandalone) : GreptimeDBStandalone :=
  if decide (sa_phase s = phase) then s
  else set_sa_Status (set_sa_Phase (sa_Version (sa_Spec s)) phase (om_Generation (sa_ObjectMeta s))
                        (sa_Status s)) s.

(** ** Lemmas *)

#[export] Instance same_standalone_preorder : PreOrder same_standalone.
Proof.
  split; [by intros s|]. intros a b c (?&?&?) (?&?&?). unfold same_standalone. split_and!; congruence.
Qed.

Lemma sa_phase_with_phase p s : sa_phase (sa_with_phase p s) = p.
Proof. unfold sa_with_phase. by case_decide. Qed.

Lemma standalone_rest_cleans `{SelectorLib} s :
  cleans (om_Namespace (sa_ObjectMeta s)) (standalone_rest_targets s) (standalone_cleanup_rest s).
Proof. apply cleans_bind; apply cleans_when. Qed.

Section lemmas.
Context `{RetryLaws}.

Lemma Standalone_UpdateStatus_preserves {S} (R : S -> S -> Prop) `{!PreOrder R} s :
  preserves R (Standalone_UpdateStatus s).
Proof. apply RetryOnConflict_preserves; [done|]. solve_preserves. Qed.

Lemma Standalone_event_preserves (R : GreptimeDBStandalone -> GreptimeDBStandalone -> Prop)
    `{!PreOrder R} s : preserves R (Standalone_recordNormalEventByPhase s).
Proof. unfold Standalone_recordNormalEventByPhase. repeat case_decide; solve_preserves. Qed.

Lemma setStandaloneStatus_state {W} (env : environment W) p s w :
  out_st (exec env (setStandaloneStatus p) s w) = sa_with_phase p s.
Proof.
  unfold setStandaloneStatus, sa_with_phase, sa_phase. rewrite exec_bind, exec_get.
  cbn [out_res out_st out_world out_log]. case_decide; [done|].
  set (f := set_sa_Phase _ _ _). rewrite exec_bind. unfold sa_update_status. rewrite exec_modify.
  cbn [out_res out_st out_world out_log]. set (s1 := set_sa_Status _ s). symmetry.
  assert (Hp : preserves eq (s ← get; _ ← Standalone_recordNormalEventByPhase s; Standalone_UpdateStatus s)).
  { apply preserves_bind; [apply _|apply preserves_get, _|]. intros c.
    apply preserves_bind; [apply _|apply Standalone_event_preserves, _|].
    intros _. apply Standalone_UpdateStatus_preserves; apply _. }
  exact (Hp W env s1 w).
Qed.

(** Declaring the standalone ready. *)
Lemma Standalone_ready_state {W} (env : environment W) s w :
  sa_phase (out_st (exec env Standalone_ready s w)) = PhaseRunning.
Proof.
  unfold Standalone_ready.
  assert (Hn : forall s w, exec env sa_now s w = Outcome (Ok (env QNow w).1) s (env QNow w).2 [ev QNow (env QNow w).1])
    by (intros s' w'; exact (exec_ask env QNow s' w')).
  rewrite exec_bind, Hn. cbn [out_res out_st out_world out_log].
  rewrite exec_bind, Hn. cbn [out_res out_st out_world out_log].
  rewrite exec_bind. unfold sa_update_status. rewrite exec_modify. unfold prepend.
  cbn [out_res out_st out_world out_log]. rewrite setStandaloneStatus_state. apply sa_phase_with_phase.
Qed.

(** On a healthy server a phase update returns. *)
Lemma setStandaloneStatus_returns {W} (env : environment W) `{!ApiServer env} p s w :
  out_res (exec env (setStandaloneStatus p) s w) <> Panic.
Proof.
  unfold setStandaloneStatus. rewrite exec_bind, exec_get. cbn [out_res out_st out_world].
  case_decide; [done|]. rewrite exec_bind. unfold sa_update_status. rewrite exec_modify.
  cbn [out_res out_st out_world]. set (s1 := set_sa_Status _ s).
  rewrite exec_bind, exec_get. cbn [out_res out_st out_world]. rewrite exec_bind.
  assert (Hq : exists w1 l1, exec env (Standalone_recordNormalEventByPhase s1) s1 w
                             = Outcome (Ok tt) s1 w1 l1).
  { unfold Standalone_recordNormalEventByPhase. repeat case_decide; rewrite ?exec_Event, ?exec_ret; eauto. }
  destruct Hq as (w1 & l1 & ->). cbn [out_res out_st out_world]. unfold prepend. cbn [out_res].
  generalize w1. clear w1 l1. intros w1. revert s1 w1.
  enough (Hu : forall i (s1 : GreptimeDBStandalone) w1,
    out_res (exec env (Standalone_UpdateStatus i) s1 w1) <> Panic) by (intros; apply Hu).
  intros i. apply RetryOnConflict_returns. intros s1 w1. rewrite exec_bind.
  destruct (exec_Get_stored env KStandalone (key_of (sa_ObjectMeta i)) s1 w1) as [l Hget].
  change (@exec GreptimeDBStandalone W GreptimeDBStandalone)
    with (@exec GreptimeDBStandalone W (obj KStandalone)). rewrite Hget.
  cbn [out_res out_st out_world].
  destruct (stored w1 KStandalone (key_of (sa_ObjectMeta i))); [|done].
  rewrite exec_StatusUpdate. cbn. apply server_status_answers.
Qed.
End lemmas.

(** The deployer's methods keep the standalone. *)
Section keeps.
Context `{JsonLib} `{RetryLaws} `{SelectorLib}.

Lemma Standalone_status_keeps : preserves same_standalone Standalone_CheckAndUpdateStatus.
Proof.
  apply preserves_bind; [apply _|apply preserves_get, _|]. intros s.
  apply preserves_bind; [apply _|exact (preserves_GetIfFound _ KStatefulSet _)|].
  intros [sts|]; [|apply preserves_ret, _].
  apply preserves_bind; [apply _|apply preserves_lift, _|]. intros n.
  apply preserves_bind; [apply _|by apply preserves_modify|]. intros _.
  apply preserves_bind; [apply _|apply preserves_get, _|]. intros s1.
  apply preserves_bind; [apply _| |intros _; apply preserves_lift, _].
  apply preserves_log_err; [apply _|apply Standalone_UpdateStatus_preserves, _].
Qed.

Lemma StandaloneDeployer_keeps generate :
  preserves same_standalone generate -> preserves same_standalone (Sync (StandaloneDeployer generate)).
Proof.
  intros Hg. refine (Sync_preserves _ (StandaloneDeployer generate) Hg _ Standalone_status_keeps
    (Forall_nil_2 _) (Forall_nil_2 _)). intros os. apply DefaultDeployer_Apply_preserves, _.
Qed.
End keeps.

Section reconciler_lemmas.
Context `{OpaqueMerge, MergoLib, TomlUnmarshal, FinalizerLib} `{RetryLaws}.
Variable r : StandaloneReconciler.
Context {W : Type} (env : environment W).

Lemma tracks_standalone_prepare : tracks_err env (Standalone_prepare r).
Proof.
  assert (Hg : tracks_err env (on_state (T := GreptimeDBStandalone) get)) by (apply tracks_read; by right).
  unfold Standalone_prepare.
  repeat first
    [ apply tracks_assign; first [apply quiet_Warning|apply quiet_ret]
    | apply tracks_when | exact Hg | apply tracks_bind; [|intros ?] ].
Qed.

Lemma exec_update_standalone s w :
  exec env update_standalone s w =
    let a := env (QUpdate KStandalone s) w in
    let log := [ev (QUpdate KStandalone s) a.1] in
    match a.1 with
    | Ok stored => Outcome (Ok tt) stored a.2 log
    | Err e => Outcome (Err e) s a.2 log
    | Panic => Outcome Panic s a.2 log
    end.
Proof.
  unfold update_standalone. rewrite exec_bind, exec_get. cbn [out_res out_st out_world out_log].
  rewrite exec_bind, (exec_Update (S := obj KStandalone) env KStandalone s s w).
  cbn [out_res out_st out_world out_log]. destruct (env (QUpdate KStandalone s) w) as [[c|e|] w'];
    done.
Qed.
End reconciler_lemmas.

(** ** Properties *)

(** Cleaning a standalone up lists and deletes the claims of its declarative
    target list, in order, up to the first failure, and changes nothing in
    memory; an emptyDir hides the WAL and cache claims. *)
Theorem Standalone_CleanUp_refines `{SelectorLib} {W} (env : environment W) s w :
  let o := exec env Standalone_CleanUp s w in
  cleanup_run (om_Namespace (sa_ObjectMeta s)) (standalone_targets s) (out_log o) (out_res o)
  /\ out_st o = s.
Proof.
  cbn zeta. unfold Standalone_CleanUp. rewrite exec_bind, exec_get. unfold prepend.
  cbn [out_res out_st out_world out_log app]. unfold standalone_targets.
  destruct (Standalone_GetDatanodeFileStorage (Some s)) as [fs|]; [|apply standalone_rest_cleans].
  destruct (FileStorage_IsUseEmptyDir (Some fs)); [apply cleans_ret|].
  exact (cleans_bind _ _ _ _ _ (cleans_when _ _ _ _) (standalone_rest_cleans s) W env s w).
Qed.

Section properties.
Context `{OpaqueMerge, MergoLib, TomlUnmarshal, FinalizerLib} `{RetryLaws}.

(** The phase of a standalone after one [sync] is determined by the phase
    before and by what its deployer returned: success turns Starting and
    Updating into Running and keeps the others (Error included), not ready turns
    Running into Updating and Error into Starting, any other error is returned
    and leaves the phase. *)
Theorem Standalone_sync_phase r {W} (env : environment W) s w :
  preserves same_standalone (Sync (sr_Deployer r)) ->
  let o := exec env (Standalone_sync r) s w in
  match out_res (exec env (Sync (sr_Deployer r)) s w) with
  | Ok _ => sa_phase (out_st o) = if becoming_ready (sa_phase s) then PhaseRunning else sa_phase s
  | Err ErrSyncNotReady => sa_phase (out_st o) = next_phase (sa_phase s)
  | Err e => out_res o = Err e /\ sa_phase (out_st o) = sa_phase s
  | Panic => out_res o = Panic
  end.
Proof.
  intros Hk. cbn zeta. pose proof (Hk W env s w) as (_ & _ & Hp). unfold Standalone_sync.
  rewrite exec_bind, exec_try. cbn zeta.
  destruct (exec env (Sync (sr_Deployer r)) s w) as [[[]|[] |] s1 w1 l1];
    cbn [out_res out_st out_world out_log] in *; try done.
  - rewrite exec_bind, exec_get. cbn [out_res out_st out_world out_log]. rewrite exec_bind.
    fold (sa_phase s1). rewrite Hp. destruct (becoming_ready (sa_phase s)); cbn [when].
    + pose proof (Standalone_ready_state env s1 w1) as Hr.
      by destruct (exec env Standalone_ready s1 w1) as [[[]|e|] s2 w2 l2].
    + rewrite exec_ret. cbn [out_res out_st out_world out_log]. by rewrite exec_ret.
  - rewrite exec_bind, exec_get. cbn [out_res out_st out_world out_log]. rewrite exec_bind.
    fold (sa_phase s1). rewrite Hp.
    pose proof (setStandaloneStatus_state env (next_phase (sa_phase s)) s1 w1) as Hs.
    destruct (exec env (setStandaloneStatus (next_phase (sa_phase s))) s1 w1) as [[[]|e|] s2 w2 l2];
      cbn [out_res out_st out_world out_log] in *; rewrite ?exec_ret; unfold prepend;
      cbn [out_st]; rewrite Hs; apply sa_phase_with_phase.
Qed.

(** Deleting a standalone: without the finalizer nothing is done; with it the
    deployer cleans up, and only after it returned nil is the object updated
    without the finalizer, as the last request. *)
Theorem Standalone_delete_spec `{!FinalizerLaws} r {W} (env : environment W) s w :
  let o := exec env (Standalone_delete r) s w in
  let cleaned := exec env (co_CleanUp (sr_Deployer r)) s w in
  if bool_decide (greptimedbStandaloneFinalizer ∈ om_Finalizers (sa_ObjectMeta s)) then
    match out_res cleaned with
    | Ok _ =>
        exists s' answer, out_log o = out_log cleaned ++ [ev (QUpdate KStandalone s') answer]
          /\ om_Finalizers (sa_ObjectMeta s')
             = filter (fun f => f <> greptimedbStandaloneFinalizer)
                 (om_Finalizers (sa_ObjectMeta (out_st cleaned)))
          /\ is_Ok (out_res o) = is_Ok answer
    | Err e => out_res o = Err e /\ out_log o = out_log cleaned
    | Panic => out_res o = Panic /\ out_log o = out_log cleaned
    end
  else o = Outcome (Ok no_requeue) s w [].
Proof.
  cbn zeta. unfold Standalone_delete. rewrite exec_bind, exec_get. cbn [out_res out_st out_world out_log].
  rewrite contains_finalizer. case_bool_decide as Hf; cbn [negb]; [|done].
  rewrite exec_bind. destruct (exec env (co_CleanUp (sr_Deployer r)) s w) as [[[]|e|] s1 w1 l1];
    cbn [out_res out_st out_world out_log]; [|done..].
  rewrite exec_bind, exec_modify. cbn [out_res out_st out_world out_log].
  set (s' := set_sa_Meta _ s1). rewrite exec_bind, exec_update_standalone.
  exists s', (env (QUpdate KStandalone s') w1).1.
  destruct (env (QUpdate KStandalone s') w1) as [[stored|e|] w2]; unfold prepend;
    cbn [out_res out_st out_world out_log app is_Ok fst snd]; rewrite ?exec_ret;
    cbn [out_res out_st out_world out_log app is_Ok]; (split; [done|split; [|done]]); subst s'; cbn;
    by rewrite remove_finalizer.
Qed.

(** The standalone's Error phase records the errors of the preparation and
    never those of its deployer. *)
Theorem Standalone_record_error_spec r {W} (env : environment W) `{!ApiServer env} f w :
  fr_err f = None -> om_DeletionTimestamp (sa_ObjectMeta (fr_state f)) = None ->
  let prepared := exec env (Standalone_prepare r) f w in
  let o := exec env (defer (record_error (setStandaloneStatus PhaseError)) (reconcile_standalone r)) f w in
  match out_res prepared with
  | Err e =>
      out_res o = Err e /\ sa_phase (fr_state (out_st o)) = PhaseError
      /\ Exists is_reconcile_error (out_log o)
  | Ok _ =>
      let synced := exec env (Standalone_sync r) (fr_state (out_st prepared)) (out_world prepared) in
      o = Outcome (out_res synced) (mkFrame (out_st synced) None) (out_world synced)
            (out_log prepared ++ out_log synced)
  | Panic => out_res o = Panic
  end.
Proof.
  intros Hf Hd. cbn zeta.
  assert (Hr : exec env (reconcile_standalone r) f w
               = exec env (_ ← Standalone_prepare r; on_state (Standalone_sync r)) f w).
  { unfold reconcile_standalone. rewrite exec_bind.
    assert (Hg : exec env (on_state get) f w = Outcome (Ok (fr_state f)) f w []) by (by destruct f).
    rewrite Hg. cbn [out_res out_st out_world out_log]. rewrite Hd. cbn [not_nil].
    unfold prepend. cbn [app]. match goal with |- _ = ?o => by destruct o end. }
  rewrite exec_defer, Hr, <- exec_defer.
  rewrite (exec_recorded env _ _ _ f w (tracks_standalone_prepare r env) Hf
    (fun s w => setStandaloneStatus_returns env PhaseError s w)). cbn zeta.
  destruct (exec env (Standalone_prepare r) f w) as [[[]|e|] f1 w1 l1]; cbn [out_res out_st out_world out_log];
    [done| |done]. split; [done|]. split.
  - cbn [fr_state]. rewrite setStandaloneStatus_state. apply sa_phase_with_phase.
  - apply Exists_app. right. by left.
Qed.
End properties.

(** ** Witnesses *)

#[local] Instance standalone_toml : TomlUnmarshal := {| toml_Unmarshal _ := Ok tt |}.
#[local] Existing Instances keep_opaque documented_mergo simple_retry simple_retry_laws
  list_finalizers list_finalizers_laws text_json short_values.

Definition sample_standalone (phase : Phase) (finalizers : list string) : GreptimeDBStandalone :=
  mkGreptimeDBStandalone (with_finalizers finalizers (meta_of "default" "s" None ∅)) zero_StandaloneSpec
    (set_sa_Phase "" phase 0 zero_StandaloneStatus).

(** Its deployer with one object, which a first run has still to create. *)
Definition sample_reconciler : StandaloneReconciler :=
  mkStandaloneReconciler false (StandaloneDeployer (mret [annotated_cm "spec" "data"])).
(** A deployer whose generator fails. *)
Definition failing_reconciler : StandaloneReconciler :=
  mkStandaloneReconciler false (StandaloneDeployer (lift (Err (Errorf "no config")))).

Lemma Standalone_sync_phase_witness :
  sa_phase (out_st (exec fake_env (Standalone_sync sample_reconciler) (sample_standalone PhaseRunning []) []))
  = PhaseUpdating.
Proof.
  pose proof (Standalone_sync_phase sample_reconciler fake_env (sample_standalone PhaseRunning []) []
    (StandaloneDeployer_keeps _ (preserves_ret _ _))) as Hs. cbn zeta in Hs.
  assert (Hd : out_res (exec fake_env (Sync (sr_Deployer sample_reconciler))
    (sample_standalone PhaseRunning []) []) = Err ErrSyncNotReady) by (vm_compute; reflexivity).
  rewrite Hd in Hs. exact Hs.
Defined.

Lemma Standalone_delete_spec_witness :
  exec fake_env (Standalone_delete sample_reconciler) (sample_standalone PhaseRunning []) []
  = Outcome (Ok no_requeue) (sample_standalone PhaseRunning []) [] [].
Proof.
  exact (Standalone_delete_spec sample_reconciler fake_env (sample_standalone PhaseRunning []) []).
Defined.

(** A generator's error: returned, and the phase says Starting. *)
Lemma Standalone_record_error_spec_witness :
  let f := mkFrame (sample_standalone PhaseStarting [greptimedbStandaloneFinalizer]) None in
  let w := [Object KStandalone (fr_state f)] in
  let o := exec fake_env (defer (record_error (setStandaloneStatus PhaseError))
             (reconcile_standalone failing_reconciler)) f w in
  out_res o = Err (Errorf "no config") /\ sa_phase (fr_state (out_st o)) = PhaseStarting.
Proof.
  intros f w o.
  pose proof (Standalone_record_error_spec failing_reconciler fake_env f w eq_refl eq_refl) as Ho.
  cbn zeta in Ho. fold o in Ho.
  assert (Hp : out_res (exec fake_env (Standalone_prepare failing_reconciler) f w) = Ok tt)
    by (vm_compute; reflexivity).
  rewrite Hp in Ho. rewrite Ho. split; vm_compute; reflexivity.
Defined.
