(* ===== verification/StandaloneGen.v ===== *)
(** * controllers/greptimedbstandalone/deployer.go: the standalone builder

    One service, config map, StatefulSet and pod monitor. *)

From stdpp Require Import base gmap sets strings list fin_maps.
From Stdlib Require Import ZArith Lia.
From S2P Require Import Prelude GoLib Hash K8s ApiCommon ApiTypes Client ApiServer K8sUtil.
From S2P Require Import Deployer Builder Common Validate Toml DbConfig Initializer Pods.
From S2P Require Import Mergo Defaulting Cluster Datanode Generator Claims Standalone.

(** Writing to the maps of the standalone in memory. *)
Definition write_sa (f : GreptimeDBStandaloneSpec -> GreptimeDBStandaloneSpec)
    (s : GreptimeDBStandalone) : GreptimeDBStandalone :=
  mkGreptimeDBStandalone (sa_ObjectMeta s) (f (sa_Spec s)) (sa_Status s).
Definition sa_share_pod (pod : CorePodTemplateSpec) (s : GreptimeDBStandalone) : GreptimeDBStandalone :=
  write_sa (fun x => set_sa_maps (share_template pod <$> sa_Base x) (sa_Service x) x) s.
Definition sa_share_service (m : ObjectMeta) (s : GreptimeDBStandalone) : GreptimeDBStandalone :=
  write_sa (fun x => set_sa_maps (sa_Base x) (share_service m <$> sa_Service x) x) s.

Section standalone_builder.
Context `{TomlLib} `{QuantityLib}.
Variable s : GreptimeDBStandalone.
Notation spec := (sa_Spec s).
Notation standalone := (Some s).
Notation B := (M (GreptimeDBStandalone * DefaultBuilder)).

Definition standalone_namespace : string := om_Namespace (sa_ObjectMeta s).
Definition standalone_label : strmap := component_label (standalone_resource s).
Definition standalone_meta : ObjectMeta :=
  meta_of standalone_namespace (standalone_resource s) (Some standalone_label) ∅.

(** ** The pod template *)

Definition standalone_data : option FileStorage := Standalone_GetDatanodeFileStorage standalone.
Definition standalone_wal : option FileStorage :=
  RaftEngineWAL_GetFileStorage (WALProviderSpec_GetRaftEngineWAL (Standalone_GetWALProvider standalone)).
Definition standalone_cache : option FileStorage :=
  GetCacheFileStorage (Standalone_GetObjectStorageProvider standalone).

Definition standalone_generateMainContainerArgs : list string :=
  let bind port := GetBindAddress (sa_EnableIPv6 spec) port in
  ["standalone"; "start";
   "--rpc-bind-addr"; bind (sa_RPCPort spec);
   "--mysql-addr"; bind (sa_MySQLPort spec);
   "--http-addr"; bind (sa_HTTPPort spec);
   "--postgres-addr"; bind (sa_PostgreSQLPort spec);
   "--config-file"; config_file]
  ++ (if StandaloneSpec_IsEnableHTTPAPIServer (Some spec)
      then ["--http-api-server-addr"; bind (sa_HTTPAPIServerPort spec)] else [])
  ++ (if not_nil (sa_TLS spec)
      then ["--tls-mode"; "require";
            "--tls-cert-path"; path_Join GreptimeDBTLSDir TLSCrtSecretKey;
            "--tls-key-path"; path_Join GreptimeDBTLSDir TLSKeySecretKey] else []).

Definition standalone_containerPorts : list ContainerPort :=
  [container_port "grpc" (sa_RPCPort spec); container_port "http" (sa_HTTPPort spec)]
  ++ (if StandaloneSpec_IsEnableHTTPAPIServer (Some spec)
      then [container_port "http-api" (sa_HTTPAPIServerPort spec)] else [])
  ++ [container_port "mysql" (sa_MySQLPort spec); container_port "postgres" (sa_PostgreSQLPort spec)].

Definition standalone_servicePorts : list ServicePort :=
  let httpTargetPort := if StandaloneSpec_IsEnableHTTPAPIServer (Some spec)
                        then sa_HTTPAPIServerPort spec else sa_HTTPPort spec in
  [service_port "grpc" (sa_RPCPort spec);
   mkServicePort "http" ProtocolTCP (sa_HTTPPort spec) (FromInt32 httpTargetPort);
   service_port "mysql" (sa_MySQLPort spec); service_port "postgres" (sa_PostgreSQLPort spec)].

(** [logging != nil && !OnlyLogToStdout && !PersistentWithData] *)
Definition standalone_logs_volume : bool :=
  let logging := Standalone_GetLogging standalone in
  not_nil logging && negb (LoggingSpec_IsOnlyLogToStdout logging)
  && negb (LoggingSpec_IsPersistentWithData logging).

Definition standalone_addVolumeMounts (t : CorePodTemplateSpec) : res CorePodTemplateSpec :=
  t ← mount_storages standalone_data standalone_wal standalone_cache t;
  if standalone_logs_volume
  then AddLogsVolume (LoggingSpec_GetLogsDir (Standalone_GetLogging standalone)) t else Ok t.

Definition standalone_generatePodTemplateSpec : res CorePodTemplateSpec :=
  '(main, t) ← start_pod StandaloneRoleKind (sa_Base spec);
  t ← with_args main (Ok standalone_generateMainContainerArgs) t;
  t ← standalone_addVolumeMounts t;
  t ← (if FileStorage_IsUseEmptyDir standalone_data then addEmptyDirAsStorage standalone_data t else Ok t);
  t ← on_main (set_Ports standalone_containerPorts) t;
  let t := label_pod (standalone_resource s) t in
  t ← MountConfigDir t (standalone_resource s);
  match sa_TLS spec with
  | Some tls => mountTLSSecret (tl_SecretName tls) t
  | None => Ok t
  end.

(** ** Objects *)

(** [Spec.Service] is dereferenced. *)
Definition standalone_service : res Service :=
  service ← deref (sa_Service spec);
  Ok (mkService
        (meta_of standalone_namespace (standalone_resource s)
           (Some (MergeStringMap (sv_Labels service) standalone_label)) (sv_Annotations service))
        (mkCoreServiceSpec (sv_Type service) "" standalone_label
           (ServiceSpec_GetPorts (Some service) standalone_servicePorts)
           (sv_LoadBalancerClass service))).

Definition standalone_generatePVCs : res (list PersistentVolumeClaim) :=
  generate_claims standalone_data standalone_wal standalone_cache (om_Name (sa_ObjectMeta s)) ""
    StandaloneRoleKind.

(** The claims are asked for only without an emptyDir. *)
Definition standalone_claims : res (list PersistentVolumeClaim) :=
  if FileStorage_IsUseEmptyDir standalone_data then Ok [] else standalone_generatePVCs.

(** There is no service name. *)
Definition standalone_sts (claims : list PersistentVolumeClaim) (template : CorePodTemplateSpec) : object :=
  Object KStatefulSet (mkStatefulSet standalone_meta
    (mkStatefulSetSpec "" "" (sa_Replicas spec) standalone_label template claims "RollingUpdate"
      (sa_RollingUpdate spec))
    (mkStatefulSetStatus 0 0 0)).

(** ** The methods of the builder *)

Definition Standalone_BuildService : B unit :=
  build (
    svc ← lift standalone_service;
    _ ← write (sa_share_service (svc_ObjectMeta svc));
    append_object (Object KService svc)).

Definition Standalone_BuildConfigMap : B unit :=
  build (
    configData ← FromStandalone s;
    cm ← lift (GenerateConfigMap standalone_namespace (standalone_resource s) configData);
    append_object (Object KConfigMap cm)).

Definition Standalone_BuildStatefulSet : B unit :=
  build (
    template ← lift standalone_generatePodTemplateSpec;
    _ ← write (sa_share_pod template);
    claims ← lift standalone_claims;
    configData ← FromStandalone s;
    let template := annotate_hash configData template in
    _ ← write (sa_share_pod template);
    append_object (standalone_sts claims template)).

Definition Standalone_BuildPodMonitor : B unit :=
  build (
    if negb (IsEnablePrometheusMonitor (sa_PrometheusMonitor spec)) then mret tt
    else pm ← lift (GeneratePodMonitor standalone_namespace (standalone_resource s) (sa_PrometheusMonitor spec));
         append_object (Object KPodMonitor pm)).

Definition standalone_build : B unit :=
  _ ← Standalone_BuildService;
  _ ← Standalone_BuildConfigMap;
  _ ← Standalone_BuildStatefulSet;
  Standalone_BuildPodMonitor.

(** The annotations of the service, which comes first, are the spec's. *)
Definition sa_share_annotations (b : DefaultBuilder) (m : GreptimeDBStandalone) : GreptimeDBStandalone :=
  match db_Objects b with
  | o :: _ => sa_share_service (meta_of_object o) m
  | [] => m
  end.
End standalone_builder.

Definition Standalone_Generate `{TomlLib} `{QuantityLib} `{JsonLib} `{ControllerLib}
    : M GreptimeDBStandalone (list object) :=
  s ← get;
  with_builder (Object KStandalone s) (_ ← standalone_build s; finish_on sa_share_annotations).

(** ** What is generated *)

Section spec.
Context `{TomlLib} `{QuantityLib}.
Variable s : GreptimeDBStandalone.
Notation spec := (sa_Spec s).

(** A text that [FromStandalone] can return. *)
Definition sa_config_of (text : string) : Prop :=
  exists (S W : Type) (env : environment W) (m : S) (w : W),
    out_res (exec env (FromStandalone s) m w) = Ok text.

Definition sa_service_for (o : object) : Prop :=
  exists svc, standalone_service s = Ok svc /\ o = Object KService svc.
Definition sa_configmap_for (o : object) : Prop :=
  exists text, sa_config_of text
    /\ o = Object KConfigMap (mkConfigMap
             (meta_of (standalone_namespace s) (standalone_resource s) None ∅)
             {[ GreptimeDBConfigFileName := text ]}).
Definition sa_statefulset_for (o : object) : Prop :=
  exists template claims text, standalone_generatePodTemplateSpec s = Ok template
    /\ standalone_claims s = Ok claims /\ sa_config_of text
    /\ o = standalone_sts s claims (annotate_hash text template).
Definition sa_podmonitor_for (o : object) : Prop :=
  exists pm, GeneratePodMonitor (standalone_namespace s) (standalone_resource s)
               (sa_PrometheusMonitor spec) = Ok pm /\ o = Object KPodMonitor pm.

Definition sa_monitored : bool := IsEnablePrometheusMonitor (sa_PrometheusMonitor spec).

Definition standalone_objects : list (object -> Prop) :=
  [sa_service_for; sa_configmap_for; sa_statefulset_for]
  ++ (if sa_monitored then [sa_podmonitor_for] else []).

Definition standalone_segments : list (kind * list string) :=
  let n := standalone_resource s in
  [(KService, [n]); (KConfigMap, [n]); (KStatefulSet, [n])]
  ++ (if sa_monitored then [(KPodMonitor, [n])] else []).

(** ** Lemmas *)

Lemma builds_FromStandalone {A} l (f : string -> M (GreptimeDBStandalone * DefaultBuilder) A) :
  (forall text, sa_config_of text -> builds l (f text)) -> builds l (FromStandalone s ≫= f).
Proof.
  apply builds_then.
  - apply builds_quiet, FromStandalone_preserves. split; [by intros x|intros x1 x2 x3; congruence].
  - intros W env m w text Ht. by eexists _, W, env, m, w.
Qed.

Lemma builds_quiet_write {A} l f (m : M (GreptimeDBStandalone * DefaultBuilder) A) :
  builds l m -> builds l (_ ← write f; m).
Proof. intros Hm. apply (builds_bind []); [apply builds_write|by intros _]. Qed.

Lemma standalone_build_builds : builds standalone_objects (standalone_build s).
Proof.
  unfold standalone_build, standalone_objects. cbn [app].
  apply (builds_bind [_]); [|intros _; apply (builds_bind [_]); [|intros _; apply (builds_bind [_]); [|intros _]]];
    apply builds_build.
  - apply builds_lift_bind. intros svc Hs. apply builds_quiet_write, builds_such. by exists svc.
  - apply builds_FromStandalone. intros text Ht. apply builds_lift_bind. intros cm [= <-].
    apply builds_such. by exists text.
  - apply builds_lift_bind. intros t Ht. apply builds_quiet_write, builds_lift_bind. intros claims Hc.
    apply builds_FromStandalone. intros text Htext. cbv zeta. apply builds_quiet_write, builds_such.
    by exists t, claims, text.
  - unfold sa_monitored. destruct (IsEnablePrometheusMonitor _); cbn [negb]; [|apply builds_ret].
    apply builds_lift_bind. intros pm Hp. apply builds_such. by exists pm.
Qed.

Lemma standalone_pod_label t :
  standalone_generatePodTemplateSpec s = Ok t ->
  pt_Labels t !! GreptimeDBComponentName = Some (standalone_resource s).
Proof.
  unfold standalone_generatePodTemplateSpec. intros Ht.
  apply bind_Ok in Ht as ([main t0] & _ & Ht). apply bind_Ok in Ht as (t1 & _ & Ht).
  apply bind_Ok in Ht as (t2 & _ & Ht). apply bind_Ok in Ht as (t3 & _ & Ht).
  apply bind_Ok in Ht as (t4 & _ & Ht). cbv zeta in Ht.
  assert (Hl := label_pod_lookup (standalone_resource s) t4). set (t4' := label_pod _ t4) in *.
  apply bind_Ok in Ht as (t5 & Ht5 & Ht). assert (E : pt_Labels t = pt_Labels t4'); [|by rewrite E].
  transitivity (pt_Labels t5); [|eauto with labels].
  destruct (sa_TLS spec); [eauto with labels|by injection Ht as ->].
Qed.

(** Each object: its key, that it is annotated, and that it is addressed. *)
Lemma standalone_described :
  Forall2 (fun P k => forall o, P o -> kind_key o = k /\ supported (o_kind o) = true /\ addressed o)
    standalone_objects (object_keys (standalone_namespace s) standalone_segments).
Proof.
  unfold standalone_objects, standalone_segments, object_keys. cbn [app map concat fst snd].
  constructor; [|constructor; [|constructor; [|destruct sa_monitored; [constructor; [|constructor]|constructor]]]].
  - intros o (svc & Hs & ->). unfold standalone_service in Hs. res_inv. subst svc.
    split_and!; [done|done|]. by split; [intros sel [= <-]|].
  - intros o (text & _ & ->). split_and!; [done|done|apply addressed_configmap].
  - intros o (t & claims & text & Ht & _ & _ & ->). split_and!; [done|done|].
    split; [by intros sel [= <-]|]. intros t' claims' [= <- _]. exact (standalone_pod_label t Ht).
  - intros o (pm & Hp & ->). unfold GeneratePodMonitor in Hp. res_inv. subst pm.
    split_and!; [done|done|]. by split; [intros sel [= <-]|].
Qed.
End spec.

(** ** Memory *)

Lemma same_standalone_share_pod pod m : same_standalone m (sa_share_pod pod m).
Proof. unfold same_standalone, sa_core. by destruct m as [? [[[]|]] ?]. Qed.

Lemma same_standalone_share_service meta m : same_standalone m (sa_share_service meta m).
Proof. unfold same_standalone, sa_core. by destruct m as [? [? [[]|]] ?]. Qed.

Lemma preserves_sa_write f :
  (forall m, same_standalone m (f m)) -> preserves (on_memory same_standalone) (write f).
Proof. intros Hf. apply preserves_modify. intros [m b]. exact (Hf m). Qed.

Lemma Standalone_Generate_keeps `{TomlLib} `{QuantityLib} `{JsonLib} `{ControllerLib} :
  preserves same_standalone Standalone_Generate.
Proof.
  unfold Standalone_Generate. apply preserves_bind; [apply _|apply preserves_get, _|]. intros s.
  apply preserves_with_builder, preserves_bind; [apply _| |intros _; apply preserves_finish_on; [apply _|]].
  - unfold standalone_build, Standalone_BuildService, Standalone_BuildConfigMap, Standalone_BuildStatefulSet,
      Standalone_BuildPodMonitor.
    repeat first
      [ apply preserves_build; [apply _|] | apply preserves_append; apply _
      | apply FromStandalone_preserves; apply _
      | apply preserves_sa_write; intros ?; first [apply same_standalone_share_pod|apply same_standalone_share_service]
      | preserves_step ].
  - intros b m. unfold sa_share_annotations. destruct (db_Objects b); [done|apply same_standalone_share_service].
Qed.

(** ** Properties *)

Section properties.
Context `{TomlLib} `{QuantityLib} `{JsonLib} `{ControllerLib}.

(** The pods can be created: a sound template, and no claims next to an emptyDir. *)
Definition standalone_pod_ok (s : GreptimeDBStandalone) : Prop :=
  template_closed [] StandaloneRoleKind (sa_Base (sa_Spec s))
  /\ (FileStorage_IsUseEmptyDir (standalone_data s) = true ->
        standalone_wal s = None /\ standalone_cache s = None).

Lemma extends_standalone_pod s t pod names :
  standalone_generatePodTemplateSpec s = Ok t ->
  GeneratePodTemplateSpec StandaloneRoleKind (sa_Base (sa_Spec s)) = Some pod ->
  (forall fs, fs ∈ [standalone_data s; standalone_wal s; standalone_cache s] -> fs <> None ->
     FileStorage_GetName fs ∈ names) ->
  extends names pod t
  /\ (FileStorage_IsUseEmptyDir (standalone_data s) = true ->
      FileStorage_GetName (standalone_data s) ∈ pod_volumes t).
Proof.
  unfold standalone_generatePodTemplateSpec, standalone_addVolumeMounts. intros Ht Hpod Hnames.
  apply bind_Ok in Ht as ([main t0] & Ht0 & Ht). apply bind_Ok in Ht as (t1 & Ht1 & Ht).
  apply bind_Ok in Ht as (t2 & Ht2 & Ht). apply bind_Ok in Ht as (t3 & Ht3 & Ht).
  apply bind_Ok in Ht as (t4 & Ht4 & Ht). cbv zeta in Ht. set (t4' := label_pod _ t4) in *.
  apply bind_Ok in Ht as (t5 & Ht5 & Ht6). apply bind_Ok in Ht2 as (t1' & Ht1' & Ht2).
  apply start_pod_Ok in Ht0. rewrite Hpod in Ht0. injection Ht0 as ->.
  assert (E1 : extends names t1 t1') by (by eapply extends_mount_storages).
  assert (E2 : extends names t1' t2) by extends_step Ht2.
  assert (E3 : extends names t2 t3)
    by (destruct (FileStorage_IsUseEmptyDir _); [by eapply extends_addEmptyDir|eauto with extends]).
  assert (E6 : extends names t3 t).
  { transitivity t4; [eauto with extends|]. transitivity t4'; [apply extends_label|].
    transitivity t5; [eauto with extends|]. extends_step Ht6. }
  split.
  - transitivity t1; [eauto with extends|]. by repeat (etransitivity; [eassumption|]).
  - intros He. rewrite He in Ht3. apply (extends_addEmptyDir names) in Ht3 as [_ Hin].
    by eapply extends_volumes.
Qed.

Lemma standalone_pod_closed s t claims :
  standalone_generatePodTemplateSpec s = Ok t -> standalone_claims s = Ok claims ->
  standalone_pod_ok s -> closed (claim_names claims) t.
Proof.
  intros Ht Hc [Htpl He].
  assert (Hpod : exists pod, GeneratePodTemplateSpec StandaloneRoleKind (sa_Base (sa_Spec s)) = Some pod).
  { apply bind_Ok in Ht as ([main pod] & Hs & _). exists pod. by eapply start_pod_Ok. }
  destruct Hpod as [pod Hpod].
  eapply closed_with_storages; [exact Hc|exact He|..].
  - intros names Hnames. by apply (extends_standalone_pod s t pod names).
  - apply (extends_standalone_pod s t pod (map FileStorage_GetName
      [standalone_data s; standalone_wal s; standalone_cache s])); [done..|].
    intros fs Hfs _. apply list_elem_of_fmap. by exists fs.
  - eapply closed_with_claims; [|by apply Htpl]. set_solver.
Qed.

(** C25. Whenever generating a standalone succeeds, the objects are its service, config map,
    StatefulSet and, if asked for, pod monitor, each prepared with the standalone as
    its controller; no two share a kind and key, every selector finds the pods of the
    StatefulSet; and with a sound template, and no WAL or cache storage beside a data
    storage that is an emptyDir (their claims are then not made), every mount has its
    volume or its claim. *)
Theorem Standalone_Generate_correct `{!ControllerLaws} {W} (env : environment W) s w objs :
  out_res (exec env Standalone_Generate s w) = Ok objs ->
  (exists raw, Forall2 (fun P x => P x) (standalone_objects s) raw
     /\ Forall2 (fun o o' => prepared (Object KStandalone s) o = Ok o') raw objs)
  /\ map kind_key objs = object_keys (standalone_namespace s) (standalone_segments s)
  /\ NoDup (map kind_key objs) /\ well_addressed objs
  /\ (standalone_pod_ok s -> Forall workload_closed objs).
Proof.
  unfold Standalone_Generate. rewrite exec_bind, exec_get. cbn [out_res out_st out_world out_log prepend].
  intros Hg. pose proof (standalone_described s) as Hd.
  assert (Hsup : Forall (fun P : object -> Prop => forall o, P o -> supported (o_kind o) = true /\ addressed o)
    (standalone_objects s)).
  { apply Forall_forall. intros P HP o Ho. apply list_elem_of_lookup in HP as [i Hi].
    destruct (Forall2_lookup_l _ _ _ _ _ Hd Hi) as (k & _ & Hk). by apply Hk. }
  apply with_builder_finish with (l := standalone_objects s) in Hg as (raw & Hr & Hp);
    [|apply standalone_build_builds|rewrite Forall_forall in Hsup; intros o P HP Ho; by apply (Hsup P)].
  split; [by exists raw|].
  destruct (generated_objects (standalone_objects s)
    (object_keys (standalone_namespace s) (standalone_segments s)) (Object KStandalone s) raw objs)
    as [Hk Ha]; [|done..|].
  { eapply Forall2_impl; [exact Hd|]. intros P k HP o Ho. by apply HP. }
  destruct (segments_well_addressed objs (standalone_namespace s) (standalone_segments s) KStatefulSet
    [standalone_resource s] Hk Ha) as [Hn Hw]; [by left|..].
  - unfold standalone_segments. destruct (sa_monitored s); apply (bool_decide_unpack _); vm_compute; done.
  - unfold standalone_segments. destruct (sa_monitored s); repeat constructor; apply not_elem_of_nil.
  - unfold standalone_segments. destruct (sa_monitored s); cbn [app]; set_solver.
  - unfold standalone_segments, workload_kind. intros k l.
    destruct (sa_monitored s); cbn [app]; rewrite !elem_of_cons, elem_of_nil; intros Hin;
      (split; [naive_solver|intros _]); assert (l = [standalone_resource s]) as -> by naive_solver; done.
  - split_and!; [done..|]. intros Hok. eapply prepared_closed; [exact Hp|].
    eapply described_all; [|exact Hr]. unfold standalone_objects. apply Forall_app. split.
    + repeat apply Forall_cons_2; [..|apply Forall_nil_2]; intros o Ho t claims.
      * by destruct Ho as (svc & _ & ->).
      * by destruct Ho as (text & _ & ->).
      * destruct Ho as (t' & claims' & text & Ht & Hc & _ & ->). intros [= <- <-].
        apply (extends_hash (claim_names claims') text t'). by apply (standalone_pod_closed s).
    + destruct (sa_monitored s); repeat constructor. intros o (pm & _ & ->) t claims. done.
Qed.

(** The claims of a standalone that [CleanUp] selects are those whose storage has the
    retain policy Delete. *)
Theorem Standalone_claims_cleaned s claims :
  FileStorage_IsUseEmptyDir (standalone_data s) = false -> standalone_claims s = Ok claims ->
  let l := storages (standalone_data s) (standalone_wal s) (standalone_cache s) in
  Forall (fun x => no_reserved_labels x.1) l ->
  Forall2 (fun x pvc =>
      Exists (fun tg => selector_matches (pvc_selector tg.1 tg.2) (labels_of (pvc_ObjectMeta pvc)) = true)
        (standalone_targets s)
      <-> delete_policy (Some x.1) = true) l claims.
Proof.
  intros He Hc l Hl. unfold standalone_claims in Hc. rewrite He in Hc.
  eapply claims_selected; [exact Hc|exact Hl|]. intros t.
  rewrite <- (elem_of_storage_targets _ _ _ (standalone_resource s)).
  unfold standalone_targets, standalone_rest_targets, storage_targets.
  fold (standalone_data s) (standalone_wal s) (standalone_cache s).
  destruct (standalone_data s) as [fs|]; [by rewrite He|]. rewrite !elem_of_app.
  assert ((standalone_resource s, t) ∉ storage_target None (standalone_resource s, FileStorageTypeDatanode))
    by (apply not_elem_of_nil). tauto.
Qed.
End properties.

(** ** Witnesses *)

#[local] Existing Instances flat_toml any_quantity text_json owner_reference owner_reference_laws.

(** A monitored standalone with its data, which is deleted, and a WAL, which stays. *)
Definition full_standalone : GreptimeDBStandalone :=
  mkGreptimeDBStandalone (meta_of "default" "s" None ∅)
    (mkGreptimeDBStandaloneSpec (Some sample_template)
       (Some (mkServiceSpec "ClusterIP" {[ "lb" := "internal" ]} {[ "team" := "db" ]} None []))
       (Some (mkTLSSpec "tls-secret")) 4000 4006 (Some true) 4001 4002 4003
       (Some (mkPrometheusMonitorSpec true None "30s")) "v1" (Some 1%Z) None None
       (Some (mkDatanodeStorageSpec "/data/greptimedb" (Some (sample_storage ∅))))
       (Some (mkWALProviderSpec (Some (mkRaftEngineWAL (Some (mkFileStorage "wal" None None "5Gi" "/wal"
          StorageRetainPolicyTypeRetain ∅ ∅)))) None)) "" (Some sample_logging) None None None
       ConfigMergeStrategyInjectedDataFirst false)
    zero_StandaloneStatus.

Lemma Standalone_Generate_correct_witness :
  exists objs, out_res (exec fake_env Standalone_Generate full_standalone []) = Ok objs
    /\ length objs = 4 /\ NoDup (map kind_key objs) /\ well_addressed objs /\ Forall workload_closed objs.
Proof.
  assert (Hok : match out_res (exec fake_env Standalone_Generate full_standalone []) with
                | Ok objs => Nat.eqb (length objs) 4 | _ => false end = true) by (vm_compute; reflexivity).
  destruct (out_res (exec fake_env Standalone_Generate full_standalone [])) as [objs|e|] eqn:Hg;
    [|discriminate Hok..].
  apply Nat.eqb_eq in Hok. exists objs.
  destruct (Standalone_Generate_correct fake_env full_standalone [] objs Hg) as (_ & _ & Hd & Hw & Hc).
  split_and!; [done..|]. apply Hc. split; [apply (bool_decide_unpack _); vm_compute; done|discriminate].
Defined.

Lemma Standalone_claims_cleaned_witness :
  exists claims, standalone_claims full_standalone = Ok claims /\ length claims = 2
    /\ Forall2 (fun x pvc =>
      Exists (fun tg => selector_matches (pvc_selector tg.1 tg.2) (labels_of (pvc_ObjectMeta pvc)) = true)
        (standalone_targets full_standalone)
      <-> delete_policy (Some x.1) = true)
      (storages (standalone_data full_standalone) (standalone_wal full_standalone)
         (standalone_cache full_standalone)) claims.
Proof.
  eexists. split; [reflexivity|]. split; [reflexivity|].
  apply (Standalone_claims_cleaned full_standalone); [reflexivity|reflexivity|].
  repeat constructor.
Defined.
