(* ===== verification/Monitoring.v ===== *)
(** * controllers/greptimedbcluster/deployers/monitoring.go

    With monitoring on, a cluster owns a GreptimeDBStandalone that stores the logs and
    metrics of its pods.  Its deployer generates that resource, waits until the other
    controller has it running, and creates the pipelines that parse the logs in it:
    it looks a pipeline up with SQL and uploads it over HTTP. *)

From stdpp Require Import base gmap sets strings list fin_maps.
From Stdlib Require Import ZArith Lia Ascii.
From S2P Require Import Prelude GoLib K8s ApiCommon ApiTypes Client ApiServer K8sUtil Deployer.
From S2P Require Import Builder Common Mergo Defaulting Validate Cluster Generator.
From S2P Require Import Standalone StandaloneGen.

(** ** Texts *)

Definition quote : string := String (ascii_of_nat 34) "".
Definition newline : string := String (ascii_of_nat 10) "".
Definition CRLF : string := String (ascii_of_nat 13) newline.
Definition quoted (s : string) : string := quote +:+ s +:+ quote.
Definition lines (l : list string) : string := Join newline l +:+ newline.

(** config/logs-pipeline.yaml *)
Definition DefaultLogsPipeline : string := lines
  ["processors:"; "  - date:"; "      fields:";
   "        - timestamp # 2024-08-30T08:55:48.817419Z"; "      formats:";
   "        - " +:+ quoted "%Y-%m-%dT%H:%M:%S.%6fZ"; "";
   "transform:"; "  - fields:"; "      - pod_ip"; "      - namespace"; "      - cluster";
   "      - file"; "      - module_path"; "    type: string"; "";
   "  - fields:"; "      - level"; "      - target"; "      - role"; "    type: string";
   "    index: tag"; "";
   "  - fields:"; "      - pod"; "    type: string"; "    index: skipping"; "";
   "  - fields:"; "      - message"; "      - err"; "    type: string"; "    index: fulltext";
   "    "; "  - field: timestamp"; "    type: time"; "    index: timestamp"].

(** config/audit-logs-pipeline.yaml *)
Definition DefaultAuditLogsPipeline : string := lines
  ["processors:"; "  - date:"; "      fields:"; "        - time"; "      formats:";
   "        - " +:+ quoted "%Y-%m-%dT%H:%M:%S.%fZ"; "";
   "transform:"; "  - fields:"; "      - pod_ip"; "      - namespace"; "      - cluster";
   "      - statement"; "    type: string"; "";
   "  - fields:"; "      - user"; "      - source"; "      - class"; "      - command";
   "      - object_type"; "      - object_names"; "    type: string"; "    index: tag"; "";
   "  - fields:"; "      - pod"; "    type: string"; "    index: skipping"; "";
   "  - field: time"; "    type: time"; "    index: timestamp"].

(** ** mime/multipart: one file in a form *)

(** The header of a file part: [CreateFormFile(field, filename)]. *)
Definition form_file_header (boundary field filename : string) : string :=
  "--" +:+ boundary +:+ CRLF
  +:+ "Content-Disposition: form-data; name=" +:+ quoted field
  +:+ "; filename=" +:+ quoted filename +:+ CRLF
  +:+ "Content-Type: application/octet-stream" +:+ CRLF +:+ CRLF.
(** [w.Close()] *)
Definition form_end (boundary : string) : string := CRLF +:+ "--" +:+ boundary +:+ "--" +:+ CRLF.
(** The boundary is hexadecimal, so it is never quoted. *)
Definition FormDataContentType (boundary : string) : string :=
  "multipart/form-data; boundary=" +:+ boundary.

Definition form (boundary field filename content : string) : string :=
  form_file_header boundary field filename +:+ content +:+ form_end boundary.

(** What is left of a buffer after [n] bytes were read. *)
Fixpoint unread (n : nat) (s : string) : string :=
  match n, s with
  | O, s => s
  | Datatypes.S n, String _ s => unread n s
  | _, EmptyString => EmptyString
  end.

(** ** The deployer *)

Record pipeline := mkPipeline { pl_name : string; pl_data : string }.

Section deployer.
Variable c : GreptimeDBCluster.
Notation cluster := (Some c).

(** The GreptimeDBStandalone of the cluster. *)
Definition monitoring_name : string := MonitoringServiceName (cluster_name c).
Definition monitoring_key : NamespacedName := mkNamespacedName (cluster_namespace c) monitoring_name.
Definition monitoring_on : bool :=
  MonitoringSpec_IsEnabled (GetMonitoring cluster)
  && not_nil (MonitoringSpec_GetStandalone (GetMonitoring cluster)).

(** The DNS name of its service. *)
Definition monitoring_dns : string :=
  ResourceName monitoring_name StandaloneRoleKind [] +:+ "." +:+ cluster_namespace c
  +:+ ".svc.cluster.local".

(** [cluster.Spec.Monitoring.Standalone], dereferenced. *)
Definition monitoring_standalone : res GreptimeDBStandaloneSpec :=
  monitoring ← deref (cl_Monitoring (gc_Spec c));
  deref (mo_Standalone monitoring).

Definition pipelines : list pipeline :=
  mkPipeline (LogsPipelineName (cluster_namespace c) (cluster_name c)) DefaultLogsPipeline
  :: (if IsAuditLogEnabled c
      then [mkPipeline (AuditLogsPipelineName (cluster_namespace c) (cluster_name c))
              DefaultAuditLogsPipeline]
      else []).

Definition pipelines_db (standalone : GreptimeDBStandaloneSpec) : MySQLConfig :=
  mkMySQLConfig "tcp" (monitoring_dns +:+ ":" +:+ fmt_d (sa_MySQLPort standalone))
    "greptime_private" true 5.

Definition pipelines_exist_query : string := "SELECT 1 FROM pipelines LIMIT 1".
Definition pipeline_query : string := "SELECT pipeline FROM pipelines WHERE name = ? LIMIT 1".

Definition QueryContext {S} (cfg : MySQLConfig) (query : string) (args : list string)
    : M S (list (res string)) := ask (QSQLQuery cfg query args) ≫= lift.

(** The empty text when there is no table or no row. *)
Definition getPipeline {S} (pipelineName : string) : M S string :=
  standalone ← lift monitoring_standalone;
  let cfg := pipelines_db standalone in
  _ ← (ask (QSQLOpen cfg) ≫= lift);
  rows ← try (QueryContext cfg pipelines_exist_query []);
  match rows with
  | Err e => if Contains (Error e) "TableNotFound" then mret "" else lift (Err e)
  | Panic => lift Panic
  | Ok _ =>
      rows ← QueryContext cfg pipeline_query [pipelineName];
      match rows with
      | row :: _ => lift row
      | [] => mret ""
      end
  end.

Definition pipeline_url (standalone : GreptimeDBStandaloneSpec) (pipelineName : string) : string :=
  "http://" +:+ monitoring_dns +:+ ":" +:+ fmt_d (sa_HTTPPort standalone)
  +:+ "/v1/events/pipelines/" +:+ pipelineName.

(** The pipeline of the resource comes before the default one. *)
Definition pipeline_content (data : string) : string :=
  let p := LogPipeline_GetData (LogsCollectionSpec_GetPipeline
             (MonitoringSpec_GetLogsCollection (GetMonitoring cluster))) in
  if decide (p = "") then data else p.

(** One attempt.  Its memory is the buffer of the request's body, which the transport
    reads from. *)
Definition post_pipeline (url contentType : string) : M string unit :=
  body ← get;
  answer ← ask (QPostBody url contentType body);
  _ ← put (unread (pa_Read answer) body);
  '(status, responseBody) ← lift (pa_Response answer);
  _ ← lift responseBody;
  lift (guard_err (negb (Z.eqb status 200)) (Errorf "failed to create pipeline")).

Definition createPipeline `{RetryLib} {S} (pipeline pipelineName : string) : M S unit :=
  boundary ← ask QBoundary;
  let b := form boundary "file" "pipeline.yaml" (pipeline_content pipeline) in
  standalone ← lift monitoring_standalone;
  run_local (retry_Do 10 (post_pipeline (pipeline_url standalone pipelineName)
                            (FormDataContentType boundary))) b.
End deployer.

Definition set_InternalDNSName (name : string) (s : GreptimeDBClusterStatus) : GreptimeDBClusterStatus :=
  mkGreptimeDBClusterStatus (gst_Frontend s) (gst_Meta s) (gst_Datanode s) (gst_Flownode s)
    name (gst_Version s) (gst_ClusterPhase s) (gst_Conditions s) (gst_ObservedGeneration s).

Section status.
Context `{RetryLib}.

(** The body of the loop over the pipelines. *)
Definition ensure_pipeline (p : pipeline) : M CState unit :=
  c ← get_cluster;
  found ← getPipeline c (pl_name p);
  _ ← when (bool_decide (found = "")) (createPipeline c (pl_data p) (pl_name p));
  _ ← update_status (set_InternalDNSName (monitoring_dns c));
  c ← get_cluster;
  log_err (UpdateStatus c).

(** An error of the get that is not NotFound is not looked at: the standalone is then the
    zero value, which has no phase. *)
Definition Monitoring_CheckAndUpdateStatus : M CState bool :=
  c ← get_cluster;
  if negb (monitoring_on c) then mret true
  else
    err ← try (Get KStandalone (monitoring_key c));
    if (match err with Err e => IsNotFound e | _ => false end) then mret false
    else
      let phase := match err with
                   | Ok standalone => sas_StandalonePhase (sa_Status standalone)
                   | _ => ""
                   end in
      if MonitoringSpec_IsEnabled (GetMonitoring (Some c)) && bool_decide (phase = PhaseRunning) then
        _ ← range ensure_pipeline (pipelines c);
        mret true
      else mret false.
End status.

(** ** The builder *)

Definition zero_StandaloneStatus : GreptimeDBStandaloneStatus :=
  mkGreptimeDBStandaloneStatus 0 0 "" "" [] 0.

Definition monitoring_object (c : GreptimeDBCluster) (spec : GreptimeDBStandaloneSpec) : object :=
  Object KStandalone (mkGreptimeDBStandalone
    (meta_of (cluster_namespace c) (monitoring_name c) None ∅) spec zero_StandaloneStatus).

Definition Monitoring_BuildGreptimeDBStandalone (c : GreptimeDBCluster)
    : M (CState * DefaultBuilder) unit :=
  when (monitoring_on c) (build (
    spec ← lift (deref (MonitoringSpec_GetStandalone (GetMonitoring (Some c))));
    append_object (monitoring_object c spec))).

Definition Monitoring_Generate `{JsonLib} `{ControllerLib} : M CState (list object) :=
  c ← get_cluster;
  with_builder (Object KCluster c) (_ ← Monitoring_BuildGreptimeDBStandalone c; finish).

Definition MonitoringDeployer `{JsonLib} `{RetryLib} `{ControllerLib} : ComponentOperator CState :=
  mkComponentOperator Monitoring_Generate DefaultDeployer_Apply DefaultDeployer_CleanUp
    Monitoring_CheckAndUpdateStatus DefaultDeployer_Hooks DefaultDeployer_Hooks.

(** ** Specification *)

(** The server has a pipeline: its table shows a text for it, or it accepted the upload. *)
Definition pipeline_known (c : GreptimeDBCluster) (p : pipeline) (log : list event) : Prop :=
  exists standalone, monitoring_standalone c = Ok standalone
  /\ ((exists found rows, found <> ""
        /\ ev (QSQLQuery (pipelines_db c standalone) pipeline_query [pl_name p])
              (Ok (Ok found :: rows)) ∈ log)
      \/ (exists contentType body n text,
            ev (QPostBody (pipeline_url c standalone (pl_name p)) contentType body)
               (mkPostAnswer n (Ok (200%Z, Ok text))) ∈ log)).

(** The resource that the cluster asks for. *)
Definition monitoring_objects (c : GreptimeDBCluster) : list object :=
  match MonitoringSpec_GetStandalone (GetMonitoring (Some c)) with
  | Some spec => if MonitoringSpec_IsEnabled (GetMonitoring (Some c))
                 then [monitoring_object c spec] else []
  | None => []
  end.

(** The cluster in memory is [c], up to its status. *)
Definition is_cluster (c : GreptimeDBCluster) (s : CState) : Prop :=
  exists st, c_cluster s = set_Status st c.
Definition dns_recorded (c : GreptimeDBCluster) (s : CState) : Prop :=
  gst_MonitoringInternalDNSName (gc_Status (c_cluster s)) = monitoring_dns c.

(** A server of the pipelines that works: the table may be missing, a row can be scanned,
    and an upload is accepted. *)
Definition pipelines_served {W} (env : environment W) : Prop :=
  (forall cfg w, (env (QSQLOpen cfg) w).1 = Ok tt)
  /\ (forall cfg q args w,
        (exists rows, (env (QSQLQuery cfg q args) w).1 = Ok rows /\ Forall (fun r => is_Ok r = true) rows)
        \/ (exists e, (env (QSQLQuery cfg q args) w).1 = Err e /\ q = pipelines_exist_query
                      /\ Contains (Error e) "TableNotFound" = true))
  /\ (forall url contentType body w, exists n text,
        (env (QPostBody url contentType body) w).1 = mkPostAnswer n (Ok (200%Z, Ok text))).

(** ** Lemmas *)

Lemma is_cluster_refl s : is_cluster (c_cluster s) s.
Proof. exists (gc_Status (c_cluster s)). by destruct (c_cluster s). Qed.

Lemma pipeline_known_app c p l l' : pipeline_known c p l \/ pipeline_known c p l' -> pipeline_known c p (l ++ l').
Proof.
  unfold pipeline_known. intros [(sa & Hsa & Hk)|(sa & Hsa & Hk)]; exists sa; (split; [done|]);
    (destruct Hk as [(f & rows & Hf & Hin)|(ct & b & n & t & Hin)]; [left; exists f, rows|right; exists ct, b, n, t]);
    try split; try done; apply elem_of_app; auto.
Qed.

Lemma leaves_getPipeline {S} c name :
  leaves (S := S) (fun found l => found <> "" -> exists standalone, monitoring_standalone c = Ok standalone
    /\ exists rows, ev (QSQLQuery (pipelines_db c standalone) pipeline_query [name])
                       (Ok (Ok found :: rows)) ∈ l) (getPipeline c name).
Proof.
  unfold getPipeline. eapply leaves_bind; [apply leaves_returns, returns_lift; intros sa Hsa; exact Hsa|].
  intros sa l0 Hsa. cbv zeta. eapply leaves_bind; [apply leaves_any|]. intros [] l1 _.
  eapply leaves_bind; [apply leaves_any|]. intros [rows|e|] l2 _.
  - eapply leaves_bind;
      [exact (leaves_call (QSQLQuery (pipelines_db c sa) pipeline_query [name]) (fun r => r))|].
    intros rows' l3 (r & -> & ->).
    destruct rows' as [|row rows']; intros W env s w found o.
    + intros [= <-]. done.
    + unfold o. rewrite exec_lift. cbn [out_res]. intros -> _. exists sa. split; [done|]. exists rows'. set_solver.
  - destruct (Contains _ _); intros W env s w found o; [by intros [= <-]|done].
  - by intros W env s w found o.
Qed.

Lemma post_pipeline_Ok {W} (env : environment W) url ct b w :
  out_res (exec env (post_pipeline url ct) b w) = Ok tt ->
  exists n text, out_log (exec env (post_pipeline url ct) b w)
                 = [ev (QPostBody url ct b) (mkPostAnswer n (Ok (200%Z, Ok text)))].
Proof.
  unfold post_pipeline, exec, mbind, M_bind. cbn.
  destruct (env (QPostBody url ct b) w) as [[n r] w1]. cbn.
  destruct r as [[status [text|e|]]|e|]; cbn; try done.
  destruct (Z.eqb_spec status 200) as [->|]; cbn; [|done]. intros _. by exists n, text.
Qed.

Section laws.
Context `{RetryLaws}.

Lemma leaves_createPipeline {S} c data name :
  leaves (S := S) (fun _ l => exists standalone, monitoring_standalone c = Ok standalone
    /\ exists ct body n text, ev (QPostBody (pipeline_url c standalone name) ct body)
                                 (mkPostAnswer n (Ok (200%Z, Ok text))) ∈ l) (createPipeline c data name).
Proof.
  unfold createPipeline. eapply leaves_bind; [apply leaves_any|]. intros boundary l0 _. cbv zeta.
  eapply leaves_bind; [apply leaves_returns, returns_lift; intros sa Hsa; exact Hsa|].
  intros sa l1 Hsa W env s w []. rewrite exec_run_local. cbn [out_res out_log]. intros Hr.
  exists sa. split; [done|]. apply retry_Do_Ok in Hr as (b & w' & Hr & _ & Hincl).
  apply post_pipeline_Ok in Hr as (n & text & Hl). rewrite Hl in Hincl.
  eexists _, b, n, text. apply elem_of_app. right. apply elem_of_app. right.
  apply list_elem_of_In, Hincl. by left.
Qed.

Lemma createPipeline_preserves {S} (R : S -> S -> Prop) `{!PreOrder R} c data name :
  preserves R (createPipeline c data name).
Proof. unfold createPipeline. solve_preserves. Qed.

Lemma getPipeline_preserves {S} (R : S -> S -> Prop) `{!PreOrder R} c name :
  preserves R (getPipeline c name).
Proof. unfold getPipeline, QueryContext. solve_preserves. Qed.

Lemma ensure_pipeline_keeps p : keeps_cluster (ensure_pipeline p).
Proof.
  unfold ensure_pipeline. apply preserves_bind; [apply _|apply keeps_get_cluster|]. intros c.
  apply preserves_bind; [apply _|apply getPipeline_preserves, _|]. intros found.
  apply preserves_bind; [apply _|apply preserves_when; [|apply createPipeline_preserves]; apply _|]. 
  intros []. apply preserves_bind; [apply _|by apply keeps_update_status|]. intros [].
  apply preserves_bind; [apply _|apply keeps_get_cluster|]. intros c'.
  apply preserves_log_err; [apply _|]. apply UpdateStatus_preserves, _.
Qed.

Lemma Monitoring_status_keeps : keeps_cluster Monitoring_CheckAndUpdateStatus.
Proof.
  apply preserves_bind; [apply _|apply keeps_get_cluster|]. intros c.
  destruct (negb _); [apply preserves_ret, _|].
  apply preserves_bind; [apply _|apply preserves_try; exact (preserves_Get _ KStandalone _)|].
  intros err. destruct (match err with Err e => IsNotFound e | _ => false end); [apply preserves_ret, _|].
  cbv zeta. destruct (_ && _); [|apply preserves_ret, _].
  apply preserves_bind; [apply _| |intros _; apply preserves_ret, _].
  apply preserves_range; [apply _|]. intros p. apply ensure_pipeline_keeps.
Qed.
End laws.

Section ready.
Context `{RetryLaws} {W : Type} (env : environment W) (c : GreptimeDBCluster).

(** What is done for a pipeline, from any memory that holds the cluster. *)
Lemma ensure_pipeline_known p :
  hoare env (is_cluster c) (ensure_pipeline p)
    (fun r s l => r = Ok tt -> is_cluster c s /\ dns_recorded c s /\ pipeline_known c p l).
Proof.
  intros s w [st Hc]. unfold ensure_pipeline. rewrite exec_bind, exec_get_cluster.
  cbn [out_res out_st out_world out_log]. rewrite Hc.
  pose proof (leaves_getPipeline (S := CState) c (pl_name p) W env s w) as Hg.
  pose proof (getPipeline_preserves (S := CState) eq c (pl_name p) W env s w) as Hs.
  rewrite exec_bind. cbv zeta in Hg, Hs |- *.
  change (getPipeline (set_Status st c) (pl_name p)) with (getPipeline (S := CState) c (pl_name p)).
  destruct (exec env (getPipeline c (pl_name p)) s w) as [[found|e|] s1 w1 l1];
    cbn [out_res out_st out_world out_log] in *; [|done..]. subst s1.
  rewrite exec_bind. cbv zeta.
  set (post := when _ _). assert (Hp : out_st (exec env post s w1) = s
    /\ (out_res (exec env post s w1) = Ok tt -> pipeline_known c p (l1 ++ out_log (exec env post s w1)))).
  { subst post. destruct (bool_decide_reflect (found = "")) as [->|Hf]; cbn [when].
    - split; [symmetry; exact (createPipeline_preserves (S := CState) eq _ _ _ W env s w1)|].
      intros Hr. destruct (leaves_createPipeline (S := CState) c _ _ W env s w1 tt Hr) as (sa & Hsa & Hin).
      apply pipeline_known_app. right. exists sa. split; [done|]. by right.
    - split; [done|]. intros _. apply pipeline_known_app. left.
      destruct (Hg found eq_refl Hf) as (sa & Hsa & rows & Hin). exists sa. split; [done|].
      left. by exists found, rows. }
  destruct (exec env post s w1) as [[[]|e|] s2 w2 l2]; cbn [out_res out_st out_world out_log] in *;
    [|done..]. destruct Hp as [-> Hk]. specialize (Hk eq_refl).
  rewrite exec_bind, exec_update_status. cbn [out_res out_st out_world out_log].
  rewrite exec_bind, exec_get_cluster. cbn [out_res out_st out_world out_log c_cluster].
  set (s3 := mkCState _ _). set (up := log_err _).
  assert (Hup : out_st (exec env up s3 w2) = s3).
  { symmetry. apply (preserves_log_err eq). apply UpdateStatus_preserves, _. }
  unfold prepend. cbn [out_res out_st out_world out_log app]. rewrite Hup. intros _. split_and!.
  - subst s3. unfold is_cluster. cbn [c_cluster]. rewrite Hc. by eexists.
  - subst s3. unfold dns_recorded. cbn [c_cluster]. by rewrite Hc.
  - rewrite app_assoc. apply pipeline_known_app. by left.
Qed.

Lemma ensure_pipelines_known ps :
  hoare env (fun s => is_cluster c s /\ dns_recorded c s) (range ensure_pipeline ps)
    (fun r s l => r = Ok tt -> dns_recorded c s /\ Forall (fun p => pipeline_known c p l) ps).
Proof.
  induction ps as [|p ps IH]; intros s w [Hc Hd]; cbn [range]; [by rewrite exec_ret|].
  rewrite exec_bind. pose proof (ensure_pipeline_known p s w Hc) as Hp. cbv zeta in *.
  destruct (exec env (ensure_pipeline p) s w) as [[[]|e|] s1 w1 l1];
    cbn [out_res out_st out_world out_log] in *; [|done..].
  destruct (Hp eq_refl) as (Hc1 & Hd1 & Hk). specialize (IH s1 w1 (conj Hc1 Hd1)). cbv zeta in IH.
  unfold prepend. cbn [out_res out_st out_log]. intros Hr. destruct (IH Hr) as [Hd2 Hks]. split; [done|].
  constructor; [by apply pipeline_known_app; left|].
  eapply Forall_impl; [exact Hks|]. intros p' Hp'. apply pipeline_known_app. by right.
Qed.

Lemma exec_status_on s w :
  c_cluster s = c -> monitoring_on c = true ->
  exec env Monitoring_CheckAndUpdateStatus s w =
    let a := env (QGet KStandalone (monitoring_key c)) w in
    match a.1 with
    | Panic => Outcome Panic s a.2 [ev (QGet KStandalone (monitoring_key c)) a.1]
    | Err _ => Outcome (Ok false) s a.2 [ev (QGet KStandalone (monitoring_key c)) a.1]
    | Ok standalone =>
        prepend [ev (QGet KStandalone (monitoring_key c)) a.1]
          (exec env (if bool_decide (sas_StandalonePhase (sa_Status standalone) = PhaseRunning)
                     then _ ← range ensure_pipeline (pipelines c); mret true else mret false) s a.2)
    end.
Proof.
  intros Hc Hon. unfold Monitoring_CheckAndUpdateStatus. rewrite exec_bind, exec_get_cluster.
  cbn [out_res out_st out_world out_log]. rewrite Hc, Hon. cbn [negb]. rewrite exec_bind, exec_try.
  change (@exec CState W GreptimeDBStandalone) with (@exec CState W (obj KStandalone)).
  rewrite exec_Get. cbn [out_res out_st out_world out_log].
  assert (Hen : MonitoringSpec_IsEnabled (GetMonitoring (Some c)) = true).
  { unfold monitoring_on in Hon. by apply andb_prop in Hon as [-> _]. }
  destruct (env (QGet KStandalone (monitoring_key c)) w) as [[sa|e|] w1];
    cbn [fst snd out_res out_st out_world out_log].
  - cbv zeta. rewrite Hen. cbn [andb]. unfold prepend. cbn [out_res out_st out_world out_log app]. done.
  - destruct (IsNotFound e); [by rewrite exec_ret|]. cbv zeta. rewrite Hen. cbn [andb].
    rewrite bool_decide_eq_false_2 by done. by rewrite exec_ret.
  - done.
Qed.
End ready.

(** With a server of the pipelines that works, every pipeline is ensured. *)
Section served.
Context `{RetryLaws} {W : Type} (env : environment W) `{!ApiServer env}.
Hypothesis Hserved : pipelines_served env.

Lemma getPipeline_returns {S} c standalone name (s : S) w :
  monitoring_standalone c = Ok standalone ->
  exists found, out_res (exec env (getPipeline c name) s w) = Ok found.
Proof.
  intros Hsa. destruct Hserved as (Ho & Hq & _).
  unfold getPipeline, QueryContext, exec, mbind, M_bind. rewrite Hsa. cbn.
  pose proof (Ho (pipelines_db c standalone) w) as Ho1.
  destruct (env (QSQLOpen (pipelines_db c standalone)) w) as [a1 w1]. cbn in Ho1 |- *. subst a1. cbn.
  destruct (Hq (pipelines_db c standalone) pipelines_exist_query [] w1) as [(rows & Ha & _)|(e & Ha & _ & Ht)];
    destruct (env (QSQLQuery _ _ _) w1) as [a2 w2]; cbn in Ha |- *; subst a2; cbn.
  - destruct (Hq (pipelines_db c standalone) pipeline_query [name] w2) as [(rows' & Ha & Hall)|(e & Ha & Hbad & _)];
      [|discriminate Hbad].
    destruct (env (QSQLQuery _ _ _) w2) as [a3 w3]; cbn in Ha |- *; subst a3; cbn.
    destruct rows' as [|r rows']; cbn; [eauto|]. apply Forall_cons in Hall as [Hr _].
    destruct r; [cbn; eauto|discriminate..].
  - rewrite Ht. cbn. eauto.
Qed.

Lemma createPipeline_returns {S} c standalone data name (s : S) w :
  monitoring_standalone c = Ok standalone ->
  out_res (exec env (createPipeline c data name) s w) = Ok tt.
Proof.
  intros Hsa. destruct Hserved as (_ & _ & Hp). unfold createPipeline. rewrite exec_bind.
  change (@exec S W string) with (@exec S W (resp QBoundary)). rewrite exec_ask.
  cbn [out_res out_st out_world out_log]. cbv zeta. rewrite exec_bind, exec_lift, Hsa.
  cbn [out_res out_st out_world out_log]. unfold prepend. cbn [out_res]. rewrite exec_run_local. cbn [out_res].
  set (op := post_pipeline _ _). set (b := form _ _ _ _). generalize (env QBoundary w).2. intros w1.
  assert (Hop : out_res (exec env op b w1) = Ok tt).
  { subst op. unfold post_pipeline, exec, mbind, M_bind. cbn.
    match goal with |- context [env (QPostBody ?u ?ct ?b) w1] =>
      destruct (Hp u ct b w1) as (n & text & Ha); destruct (env (QPostBody u ct b) w1) as [a w2] end.
    cbn in Ha |- *. by subst a. }
  by rewrite (retry_Do_first 9 op W env b w1 Hop).
Qed.

Lemma ensure_pipeline_returns c standalone p s w :
  monitoring_standalone c = Ok standalone -> is_cluster c s ->
  out_res (exec env (ensure_pipeline p) s w) = Ok tt.
Proof.
  intros Hsa [st Hc]. unfold ensure_pipeline. rewrite exec_bind, exec_get_cluster.
  cbn [out_res out_st out_world out_log]. rewrite Hc, exec_bind. unfold prepend. cbn [out_res].
  change (getPipeline (set_Status st c) (pl_name p)) with (getPipeline (S := CState) c (pl_name p)).
  destruct (getPipeline_returns c standalone (pl_name p) s w Hsa) as [found Hf].
  destruct (exec env (getPipeline c (pl_name p)) s w) as [r1 s1 w1 l1]; cbn in Hf |- *. subst r1.
  rewrite exec_bind. cbv zeta. cbn [prepend out_res].
  assert (Hw : out_res (exec env (when (bool_decide (found = ""))
                         (createPipeline (set_Status st c) (pl_data p) (pl_name p))) s1 w1) = Ok tt).
  { destruct (bool_decide _); cbn [when]; [|done]. by apply (createPipeline_returns _ standalone). }
  destruct (exec env (when _ _) s1 w1) as [r2 s2 w2 l2]; cbn in Hw |- *. subst r2.
  rewrite exec_bind, exec_update_status. cbn [out_res out_st out_world out_log].
  rewrite exec_bind, exec_get_cluster. cbn [out_res out_st out_world out_log prepend].
  apply UpdateStatus_returns, _.
Qed.

Lemma ensure_pipelines_returns c standalone ps s w :
  monitoring_standalone c = Ok standalone -> is_cluster c s ->
  out_res (exec env (range ensure_pipeline ps) s w) = Ok tt.
Proof.
  intros Hsa. revert s w. induction ps as [|p ps IH]; intros s w Hc; cbn [range]; [done|].
  rewrite exec_bind. pose proof (ensure_pipeline_returns c standalone p s w Hsa Hc) as Hr.
  pose proof (ensure_pipeline_known env c p s w Hc) as Hk. cbv zeta in *.
  destruct (exec env (ensure_pipeline p) s w) as [r s1 w1 l1]; cbn [out_res out_st out_world out_log] in *.
  subst r. cbn [prepend out_res]. apply IH. by apply Hk.
Qed.
End served.

Lemma Monitoring_Generate_keeps `{JsonLib} `{ControllerLib} : keeps_cluster Monitoring_Generate.
Proof.
  unfold Monitoring_Generate. apply preserves_bind; [apply _|apply keeps_get_cluster|]. intros c.
  apply preserves_with_builder. unfold Monitoring_BuildGreptimeDBStandalone. solve_keeps.
Qed.

(** ** Properties *)

(** Generating asks the server nothing, leaves the cluster as it is and gives the
    cluster's monitoring standalone, controlled by the cluster and annotated with its
    spec; without monitoring it gives nothing. *)
Theorem Monitoring_Generate_correct `{JsonLib} `{ControllerLib} {W} (env : environment W) s w :
  exec env Monitoring_Generate s w =
    Outcome (map_res (prepared (Object KCluster (c_cluster s))) (monitoring_objects (c_cluster s))) s w [].
Proof.
  unfold Monitoring_Generate. rewrite exec_bind, exec_get_cluster.
  cbn [out_res out_st out_world out_log]. set (c := c_cluster s).
  unfold prepend, with_builder. rewrite exec_zoom, exec_bind. cbv zeta.
  set (b0 := mkDefaultBuilder [] (Object KCluster c) None).
  assert (Hb : exec env (Monitoring_BuildGreptimeDBStandalone c) (s, b0) w
               = Outcome (Ok tt) (s, set_Objects (monitoring_objects c) b0) w []).
  { unfold Monitoring_BuildGreptimeDBStandalone, monitoring_objects, monitoring_on.
    destruct (MonitoringSpec_IsEnabled _), (MonitoringSpec_GetStandalone _) as [spec|]; reflexivity. }
  rewrite Hb. cbn [out_res out_st out_world out_log]. unfold finish, finish_on.
  rewrite exec_bind, exec_get. cbn [out_res out_st out_world out_log]. rewrite exec_bind, exec_lift.
  cbn [out_res out_st out_world out_log fst snd].
  pose proof (builder_generates (set_Objects (monitoring_objects c) b0) eq_refl) as Hg.
  assert (Hsup : Forall (fun o => supported (o_kind o) = true) (monitoring_objects c)).
  { unfold monitoring_objects. destruct (MonitoringSpec_GetStandalone _); [|constructor].
    destruct (MonitoringSpec_IsEnabled _); [by repeat constructor|constructor]. }
  specialize (Hg Hsup). cbn [db_Owner db_Objects set_Objects b0] in Hg. rewrite <- Hg. subst b0.
  destruct (SetControllerAndAnnotation _) as [b|e|]; cbn [mbind res_bind]; [|done..].
  rewrite exec_bind, exec_put. cbn [out_res out_st out_world out_log]. by rewrite exec_lift.
Qed.

(** C31. Monitoring is ready only when it is off, or when the server showed the standalone
    Running and has every pipeline (it has it in its table, or accepted the upload); the
    status in memory then holds the DNS name of the standalone. *)
Theorem Monitoring_ready_sound `{RetryLaws} {W} (env : environment W) s w :
  let c := c_cluster s in
  let o := exec env Monitoring_CheckAndUpdateStatus s w in
  out_res o = Ok true -> monitoring_on c = true ->
  (exists standalone, ev (QGet KStandalone (monitoring_key c)) (Ok standalone) ∈ out_log o
     /\ sas_StandalonePhase (sa_Status standalone) = PhaseRunning)
  /\ Forall (fun p => pipeline_known c p (out_log o)) (pipelines c)
  /\ dns_recorded c (out_st o).
Proof.
  intros c o Hr Hon. subst o. rewrite (exec_status_on env c s w eq_refl Hon) in *. cbv zeta in *.
  destruct (env (QGet KStandalone (monitoring_key c)) w) as [[standalone|e|] w1]; cbn [fst snd] in *;
    [|discriminate Hr..].
  destruct (bool_decide_reflect (sas_StandalonePhase (sa_Status standalone) = PhaseRunning)) as [Hp|];
    [|discriminate Hr].
  unfold pipelines in *. cbn [range] in *. rewrite !exec_bind in *. cbv zeta in *.
  pose proof (ensure_pipeline_known env c (mkPipeline (LogsPipelineName (cluster_namespace c) (cluster_name c))
    DefaultLogsPipeline) s w1) as Hk. cbv zeta in Hk.
  destruct (exec env (ensure_pipeline _) s w1) as [[[]|e|] s1 w2 l1];
    cbn [out_res out_st out_world out_log prepend] in *; [|discriminate Hr..].
  destruct (Hk (is_cluster_refl s) eq_refl) as (Hc1 & Hd1 & Hk1).
  set (ps := if IsAuditLogEnabled c then _ else _) in *.
  pose proof (ensure_pipelines_known env c ps s1 w2 (conj Hc1 Hd1)) as Hks. cbv zeta in Hks.
  destruct (exec env (range ensure_pipeline ps) s1 w2) as [[[]|e|] s2 w3 l2];
    cbn [out_res out_st out_world out_log prepend] in *; [|discriminate Hr..].
  destruct (Hks eq_refl) as [Hd2 Hall]. split_and!; [|constructor|done].
  - exists standalone. split; [|done]. set_solver.
  - apply (pipeline_known_app _ _ [_]). right. rewrite app_nil_r. apply pipeline_known_app. by left.
  - eapply Forall_impl; [exact Hall|]. intros p Hp'. apply (pipeline_known_app _ _ [_]). right.
    rewrite app_nil_r. apply pipeline_known_app. by right.
Qed.

(** C32. Once the standalone runs and the server of its pipelines works, one status check
    against a healthy API server makes monitoring ready. *)
Theorem Monitoring_becomes_ready `{RetryLaws} {W} (env : environment W) `{!ApiServer env} s w standalone :
  let c := c_cluster s in
  pipelines_served env -> monitoring_on c = true ->
  stored w KStandalone (monitoring_key c) = Some standalone ->
  sas_StandalonePhase (sa_Status standalone) = PhaseRunning ->
  out_res (exec env Monitoring_CheckAndUpdateStatus s w) = Ok true.
Proof.
  intros c Hserved Hon Hst Hrun. rewrite (exec_status_on env c s w eq_refl Hon). cbv zeta.
  rewrite server_get, Hst. cbn [fst snd]. rewrite bool_decide_eq_true_2 by done.
  assert (Hsa : exists spec, monitoring_standalone c = Ok spec).
  { unfold monitoring_on, GetMonitoring, monitoring_standalone in *. cbn in Hon |- *.
    destruct (cl_Monitoring (gc_Spec c)) as [m|]; [|discriminate Hon]. cbn in Hon |- *.
    destruct (mo_Standalone m) as [spec|]; [by exists spec|]. by rewrite andb_false_r in Hon. }
  destruct Hsa as [spec Hspec]. cbn [prepend out_res]. rewrite exec_bind.
  pose proof (ensure_pipelines_returns env Hserved c spec (pipelines c) s w Hspec (is_cluster_refl s)) as Hr.
  destruct (exec env (range ensure_pipeline (pipelines c)) s w) as [r s1 w1 l1]; cbn in Hr |- *.
  by subst r.
Qed.

(** C33. The two controllers agree on the address: the host that the cluster's deployer
    queries and uploads to, and that it writes to the status, is the DNS name of the
    service that the standalone's deployer generates for the resource; with the service's
    default ports, the service has the ports of both protocols. *)
Theorem monitoring_address c spec o svc :
  o ∈ monitoring_objects c -> monitoring_standalone c = Ok spec ->
  standalone_service (mkGreptimeDBStandalone (meta_of_object o) spec zero_StandaloneStatus) = Ok svc ->
  let host := om_Name (svc_ObjectMeta svc) +:+ "." +:+ om_Namespace (svc_ObjectMeta svc)
              +:+ ".svc.cluster.local" in
  my_Addr (pipelines_db c spec) = host +:+ ":" +:+ fmt_d (sa_MySQLPort spec)
  /\ (forall name, pipeline_url c spec name
        = "http://" +:+ host +:+ ":" +:+ fmt_d (sa_HTTPPort spec) +:+ "/v1/events/pipelines/" +:+ name)
  /\ (forall s, dns_recorded c s -> gst_MonitoringInternalDNSName (gc_Status (c_cluster s)) = host)
  /\ (nil_or [] sv_Ports (sa_Service spec) = [] ->
      sa_MySQLPort spec ∈ map sp_Port (se_Ports (svc_Spec svc))
      /\ sa_HTTPPort spec ∈ map sp_Port (se_Ports (svc_Spec svc))).
Proof.
  intros Ho Hspec Hs.
  assert (Hm : meta_of_object o = meta_of (cluster_namespace c) (monitoring_name c) None ∅).
  { unfold monitoring_objects in Ho. destruct (MonitoringSpec_GetStandalone _) as [sa|];
      [|by apply elem_of_nil in Ho]. destruct (MonitoringSpec_IsEnabled _); [|by apply elem_of_nil in Ho].
    apply list_elem_of_singleton in Ho as ->. done. }
  rewrite Hm in Hs. unfold standalone_service in Hs. apply bind_Ok in Hs as (service & Hsv & [= <-]).
  cbn in Hsv. destruct (sa_Service spec) as [sv|]; [|discriminate Hsv]. injection Hsv as ->.
  cbv zeta. cbn [svc_ObjectMeta svc_Spec se_Ports om_Name om_Namespace meta_of nil_or].
  unfold standalone_namespace, standalone_resource. cbn.
  split_and!; [done|done| |].
  - intros s ->. done.
  - intros ->. cbn. split; set_solver.
Qed.

(** The pipeline of the resource replaces every default one: with audit logs on, the audit
    pipeline is created with the content meant for the plain logs. *)
Theorem custom_pipeline_replaces_all c p data :
  p <> "" ->
  LogPipeline_GetData (LogsCollectionSpec_GetPipeline (MonitoringSpec_GetLogsCollection
    (GetMonitoring (Some c)))) = p ->
  pipeline_content c data = p.
Proof. intros Hp Hc. unfold pipeline_content. rewrite Hc. by rewrite decide_False. Qed.

(** The attempts of an upload share one buffer: after an attempt in which the transport
    read all of it, whatever the outcome, every later attempt sends an empty body. *)
Theorem later_attempts_send_nothing {W} (env : environment W) url contentType b w :
  String.length b <= pa_Read (env (QPostBody url contentType b) w).1 ->
  out_st (exec env (post_pipeline url contentType) b w) = ""
  /\ forall w', out_st (exec env (post_pipeline url contentType) "" w') = ""
       /\ exists answer, out_log (exec env (post_pipeline url contentType) "" w')
                         = [ev (QPostBody url contentType "") answer].
Proof.
  assert (Hu : forall n s, String.length s <= n -> unread n s = "").
  { induction n as [|n IH]; intros [|a s]; cbn; try done; [lia|]. intros Hle. apply IH. lia. }
  assert (Hs : forall b w,
    out_st (exec env (post_pipeline url contentType) b w)
      = unread (pa_Read (env (QPostBody url contentType b) w).1) b
    /\ out_log (exec env (post_pipeline url contentType) b w)
      = [ev (QPostBody url contentType b) (env (QPostBody url contentType b) w).1]).
  { clear. intros b w. unfold post_pipeline, exec, mbind, M_bind. cbn.
    destruct (env (QPostBody url contentType b) w) as [[n r] w1]. cbn.
    destruct r as [[status [text|e|]]|e|]; cbn; try done. }
  intros Hle. split; [rewrite (proj1 (Hs b w)); apply Hu, Hle|]. intros w'.
  destruct (Hs "" w') as [-> ->]. split; [apply Hu; cbn; lia|eauto].
Qed.

(** ** Witnesses *)

#[local] Existing Instances text_json owner_reference simple_retry simple_retry_laws.

(** A monitored cluster with audit logs and a pipeline of its own, and its standalone. *)
Definition monitoring_spec : GreptimeDBStandaloneSpec :=
  mkGreptimeDBStandaloneSpec None (Some (mkServiceSpec "ClusterIP" ∅ ∅ None [])) None 4000 4006 None
    4001 4002 4003 None "" (Some 1%Z) None None None None "" None None None None
    ConfigMergeStrategyInjectedDataFirst false.
Definition monitored_cluster : GreptimeDBCluster :=
  let c := Generator.sample_cluster true in
  let s := gc_Spec c in
  mkGreptimeDBCluster (gc_ObjectMeta c)
    (mkGreptimeDBClusterSpec (cl_Base s) (cl_Frontend s) (cl_Meta s) (cl_Datanode s)
       (cl_DatanodeGroups s) (cl_Flownode s) (cl_FrontendGroups s) (cl_HTTPPort s) (cl_RPCPort s)
       (cl_MySQLPort s) (cl_PostgreSQLPort s) (cl_PrometheusMonitor s) (cl_Version s)
       (cl_Initializer s) (cl_ObjectStorageProvider s) (cl_WALProvider s) (cl_Logging s)
       (Some (mkMonitoringSpec true "7d" (Some monitoring_spec)
                (Some (mkLogsCollectionSpec (Some (mkLogPipeline "custom")))) None))
       (cl_Tracing s) (cl_ConfigMergeStrategy s) (cl_EnableIPv6 s))
    (gc_Status c).

Definition running_standalone : GreptimeDBStandalone :=
  mkGreptimeDBStandalone (meta_of "default" "c-monitor" None ∅) monitoring_spec
    (mkGreptimeDBStandaloneStatus 1 1 "" PhaseRunning [] 0).
Definition monitored_state : CState := mkCState monitored_cluster ∅.
Definition monitored_world : list object := [Object KStandalone running_standalone].

Lemma fake_env_serves : pipelines_served fake_env.
Proof.
  split_and!; [done| |].
  - intros cfg q args w. left. exists []. by split.
  - intros url ct body w. cbn. by eexists _, _.
Qed.

Lemma Monitoring_ready_sound_witness :
  let o := exec fake_env Monitoring_CheckAndUpdateStatus monitored_state monitored_world in
  out_res o = Ok true /\ length (pipelines monitored_cluster) = 2
  /\ Forall (fun p => pipeline_known monitored_cluster p (out_log o)) (pipelines monitored_cluster)
  /\ dns_recorded monitored_cluster (out_st o).
Proof.
  intros o. assert (Hr : out_res o = Ok true) by (vm_compute; reflexivity).
  destruct (Monitoring_ready_sound fake_env monitored_state monitored_world Hr eq_refl) as (_ & Hk & Hd).
  split; [exact Hr|]. split; [reflexivity|]. split; [exact Hk|exact Hd].
Defined.

Lemma Monitoring_becomes_ready_witness :
  out_res (exec fake_env Monitoring_CheckAndUpdateStatus monitored_state monitored_world) = Ok true.
Proof.
  exact (Monitoring_becomes_ready fake_env monitored_state monitored_world running_standalone
    fake_env_serves eq_refl eq_refl eq_refl).
Defined.

Lemma monitoring_address_witness :
  exists svc, standalone_service (mkGreptimeDBStandalone
      (meta_of_object (monitoring_object monitored_cluster monitoring_spec)) monitoring_spec
      zero_StandaloneStatus) = Ok svc
  /\ sa_MySQLPort monitoring_spec ∈ map sp_Port (se_Ports (svc_Spec svc)).
Proof.
  eexists. split; [reflexivity|].
  refine (proj1 (proj2 (proj2 (proj2 (monitoring_address monitored_cluster monitoring_spec
    (monitoring_object monitored_cluster monitoring_spec) _ _ eq_refl eq_refl))) eq_refl)).
  by left.
Defined.

Lemma custom_pipeline_replaces_all_witness :
  Forall (fun p => pipeline_content monitored_cluster (pl_data p) = "custom") (pipelines monitored_cluster).
Proof.
  apply Forall_forall. intros p _.
  apply (custom_pipeline_replaces_all monitored_cluster "custom"); [discriminate|reflexivity].
Defined.

(** A server that is not ready for the first uploads: all ten bodies but the first are
    empty, although it would accept the pipeline from the fifth attempt on. *)
Definition busy_env : environment nat := fun q =>
  match q as q return nat -> resp q * nat with
  | QPostBody _ _ body => fun n =>
      (mkPostAnswer (String.length body)
         (Ok (if (0 <? String.length body)%nat && (3 <? n)%nat then 200%Z else 503%Z, Ok "")), Datatypes.S n)
  | q => fun n => ((fake_env q []).1, n)
  end.

Lemma later_attempts_send_nothing_witness :
  out_st (exec busy_env (post_pipeline "http://s" "t") "body" 0) = ""
  /\ map (fun e : event => match projT1 e with QPostBody _ _ b => String.length b | _ => 0 end)
       (out_log (exec busy_env (retry_Do 10 (post_pipeline "http://s" "t")) "body" 0))
     = [4; 0; 0; 0; 0; 0; 0; 0; 0; 0].
Proof.
  split; [|vm_compute; reflexivity].
  apply (later_attempts_send_nothing busy_env "http://s" "t" "body" 0). vm_compute. lia.
Defined.
