(* ===== verification/Metrics.v ===== *)
(** * pkg/metrics/metrics.go: the metrics of a cluster's pods

    After every reconciliation that leaves a cluster Running, the collector lists the
    pods of its components and observes how long each took to be scheduled,
    initialized, started and ready, and how long its image was pulled, which it reads
    from the text of the kubelet's event. *)

From stdpp Require Import base gmap sets strings list fin_maps.
From Stdlib Require Import ZArith Lia Ascii.
From S2P Require Import Prelude GoLib Duration Regexp K8s ApiCommon ApiTypes Client ApiServer.
From S2P Require Import Common.

(** ** The histograms *)

Definition MetricPrefix : string := "greptimedb_operator".
Definition metricName (name : string) : string := Join "_" [MetricPrefix; name].

(** A prometheus HistogramVec, with the range of its exponential buckets. *)
Record HistogramVec := mkHistogramVec {
  hv_Name : string;
  hv_Labels : list string;
  hv_Buckets : Z * Z * nat }.

Definition pod_labels : list string := ["namespace"; "resource"; "pod"; "node"; "role"].
Definition container_labels : list string :=
  ["namespace"; "resource"; "pod"; "container"; "node"; "role"].
Definition image_labels : list string := ["namespace"; "resource"; "pod"; "node"; "role"; "image"].

Definition podStartupDuration : HistogramVec :=
  mkHistogramVec (metricName "pod_startup_duration_seconds") pod_labels (1, 600, 12%nat)%Z.
Definition podSchedulingDuration : HistogramVec :=
  mkHistogramVec (metricName "pod_scheduling_duration_seconds") pod_labels (1, 600, 12%nat)%Z.
Definition podInitializingDuration : HistogramVec :=
  mkHistogramVec (metricName "pod_initializing_duration_seconds") pod_labels (1, 600, 12%nat)%Z.
Definition podContainerStartupDuration : HistogramVec :=
  mkHistogramVec (metricName "pod_container_startup_duration_seconds") container_labels (1, 600, 12%nat)%Z.
Definition podContainerReadyDuration : HistogramVec :=
  mkHistogramVec (metricName "pod_container_ready_duration_seconds") container_labels (1, 600, 12%nat)%Z.
Definition podImagePullingDuration : HistogramVec :=
  mkHistogramVec (metricName "pod_image_pulling_duration_milliseconds") image_labels (1, 600, 12%nat)%Z.

(** What [init] registers, that is, what the operator exports. *)
Definition registered : list HistogramVec :=
  [podStartupDuration; podSchedulingDuration; podInitializingDuration; podContainerStartupDuration;
   podImagePullingDuration].

(** [hv.WithLabelValues(values...).Observe(x)]: a wrong number of values panics. *)
Definition observe {S} (hv : HistogramVec) (values : list string) (x : observed) : M S unit :=
  if Nat.eqb (length values) (length (hv_Labels hv)) then
    _ ← ask (QObserve (hv_Name hv) (zip (hv_Labels hv) values) x); mret tt
  else lift Panic.

(** ** The text of an event *)

Definition quote : string := String (ascii_of_nat 34) "".
Definition is_quote (c : ascii) : bool := (N_of_ascii c =? 34)%N.

(** in (\d+(?:\.\d+)?(?:h|ms|µs|ns|m|s)) *)
Definition duration_units : regexp :=
  Alts (Lit "h") [Lit "ms"; Lit (micro +:+ "s"); Lit "ns"; Lit "m"; Lit "s"].
Definition duration_regexp : regexp :=
  Seq (Lit "in ")
    (Group (Seq (Plus (Class is_digit))
              (Seq (Opt (Seq (Lit ".") (Plus (Class is_digit)))) duration_units))).
(** The name is between quotes. *)
Definition image_regexp : regexp :=
  Seq (Lit quote) (Seq (Group (Plus (Class (fun c => negb (is_quote c))))) (Lit quote)).

(** [matches[1]] after the check that there is a match. *)
Definition first_group (r : regexp) (message : string) (e : error) : res string :=
  match FindStringSubmatch r message with
  | [] => Err e
  | matches => deref (matches !! 1)
  end.

Definition parseImagePullingDuration (message : string) : res Z :=
  m ← first_group duration_regexp message (Errorf "parse image pulling duration from message");
  wrap_err (Errorf "parse duration") (ParseDuration m).

Definition parseImageName (message : string) : res string :=
  first_group image_regexp message (Errorf "failed to parse image name from message").

(** ** The collector *)

(** [ErrEmptyEvents], or another error. *)
Inductive pull_error := ErrEmptyEvents | PullError (e : error).

Definition pull_prompt : string := "Successfully pulled image".

(** The first event that reports a pull: its image and duration; both are zero in the
    error cases. *)
Fixpoint pulling_duration (events : list CoreEvent) : res (string * Z * option pull_error) :=
  match events with
  | [] => Ok ("", 0%Z, None)
  | event :: events =>
      if Contains (ce_Message event) pull_prompt then
        match parseImageName (ce_Message event) with
        | Err e => Ok ("", 0%Z, Some (PullError e))
        | Panic => Panic
        | Ok imageName =>
            match parseImagePullingDuration (ce_Message event) with
            | Err e => Ok ("", 0%Z, Some (PullError e))
            | Panic => Panic
            | Ok duration => Ok (imageName, duration, None)
            end
        end
      else pulling_duration events
  end.

Definition getImagePullingDurationFromEvents {S} (pod : Pod) : M S (string * Z * option pull_error) :=
  events ← ask (QListEvents (po_Namespace pod) {[ "involvedObject.uid" := po_UID pod ]});
  match events with
  | Panic => lift Panic
  | Err e => mret ("", 0%Z, Some (if IsNotFound e then ErrEmptyEvents else PullError e))
  | Ok [] => mret ("", 0%Z, Some ErrEmptyEvents)
  | Ok events => lift (pulling_duration events)
  end.

(** The error is looked at last. *)
Definition collectPodImagePullingDuration {S} (clusterName : string) (pod : Pod) (role : RoleKind)
    : M S unit :=
  '(imageName, duration, err) ← getImagePullingDurationFromEvents pod;
  match err with
  | Some ErrEmptyEvents => mret tt
  | _ =>
      if bool_decide (imageName = "") || Z.eqb duration 0 then mret tt
      else
        match err with
        | Some _ => lift (Err (Errorf "get image pulling duration"))
        | None =>
            observe podImagePullingDuration
              [po_Namespace pod; clusterName; po_Name pod; po_NodeName pod; role; imageName]
              (Float64 (Milliseconds duration))
        end
  end.

Definition getPodConditionTime (conditions : list PodCondition) (conditionType : string) : res Z :=
  match list_find (fun c => pc_Type c = conditionType) conditions with
  | Some (_, c) => Ok (pc_LastTransitionTime c)
  | None => Err (Errorf "condition not found")
  end.

Definition pod_values (clusterName : string) (pod : Pod) (role : RoleKind) : list string :=
  [po_Namespace pod; clusterName; po_Name pod; po_NodeName pod; role].
Definition container_values (clusterName : string) (pod : Pod) (role : RoleKind) (c : ContainerStatus)
    : list string :=
  [po_Namespace pod; clusterName; po_Name pod; cst_Name c; po_NodeName pod; role].

(** [container.State.Running] is dereferenced. *)
Definition collect_container {S} (clusterName : string) (pod : Pod) (role : RoleKind)
    (initializedTime readyTime : Z) (c : ContainerStatus) : M S unit :=
  startedAt ← lift (deref (cst_RunningStartedAt c));
  _ ← observe podContainerStartupDuration (container_values clusterName pod role c)
        (Seconds (Sub startedAt initializedTime));
  observe podContainerReadyDuration (container_values clusterName pod role c)
    (Seconds (Sub readyTime startedAt)).

Definition collectPodMetrics {S} (clusterName : string) (pod : Pod) (role : RoleKind) : M S unit :=
  match po_Conditions pod with
  | None => mret tt
  | Some conditions =>
      let startTime := po_CreationTimestamp pod in
      scheduledTime ← lift (wrap_err (Errorf "get pod scheduled time")
                              (getPodConditionTime conditions "PodScheduled"));
      initializedTime ← lift (wrap_err (Errorf "get pod initialized time")
                                (getPodConditionTime conditions "Initialized"));
      readyTime ← lift (wrap_err (Errorf "get pod ready time")
                          (getPodConditionTime conditions "Ready"));
      _ ← observe podSchedulingDuration (pod_values clusterName pod role)
            (Seconds (Sub scheduledTime startTime));
      _ ← observe podInitializingDuration (pod_values clusterName pod role)
            (Seconds (Sub initializedTime scheduledTime));
      _ ← range (collect_container clusterName pod role initializedTime readyTime)
            (po_ContainerStatuses pod);
      _ ← observe podStartupDuration (pod_values clusterName pod role)
            (Seconds (Sub readyTime startTime));
      collectPodImagePullingDuration clusterName pod role
  end.

Section cluster.
Variable c : GreptimeDBCluster.
Notation cluster := (Some c).

(** The running pods with the component label of a resource. *)
Definition getPods {S} (componentKind : RoleKind) (additionalName : string) : M S (list Pod) :=
  let resourceName := ResourceName (om_Name (gc_ObjectMeta c)) componentKind [additionalName] in
  ask (QListPods (om_Namespace (gc_ObjectMeta c)) {[ GreptimeDBComponentName := resourceName ]}
         {[ "status.phase" := "Running" ]}) ≫= lift.

(** The pods of the frontend groups, appended to [podList]. *)
Fixpoint frontend_group_pods {S} (role : RoleKind) (groups : list FrontendSpec) (podList : list Pod)
    : M S (list Pod) :=
  match groups with
  | [] => mret podList
  | frontend :: groups =>
      frontendPods ← getPods role (fe_Name frontend);
      frontend_group_pods role groups (podList ++ frontendPods)
  end.

Definition collectPodMetricsByRole {S} (role : RoleKind) : M S unit :=
  podList ← (if decide (role = FrontendRoleKind)
             then frontend_group_pods role (GetFrontendGroups cluster) []
             else mret []);
  pods ← getPods role "";
  range (fun pod => collectPodMetrics (om_Name (gc_ObjectMeta c)) pod role) (podList ++ pods).

(** [cluster.GetFrontendGroups() != nil]: a list without a group may be nil or not, which
    the model's lists do not tell; [emptyNotNil] does. *)
Definition frontend_groups_set (emptyNotNil : bool) : bool :=
  negb (bool_decide (GetFrontendGroups cluster = [])) || emptyNotNil.

Definition CollectClusterPodMetrics {S} (emptyNotNil : bool) : M S unit :=
  _ ← when (not_nil (GetMeta cluster)) (collectPodMetricsByRole MetaRoleKind);
  _ ← when (not_nil (GetDatanode cluster)) (collectPodMetricsByRole DatanodeRoleKind);
  _ ← when (not_nil (GetFrontend cluster)) (collectPodMetricsByRole FrontendRoleKind);
  _ ← when (not_nil (GetFlownode c)) (collectPodMetricsByRole FlownodeRoleKind);
  when (frontend_groups_set emptyNotNil) (collectPodMetricsByRole FrontendRoleKind).
End cluster.

Example parse_examples :
  let m := "Successfully pulled image " +:+ quote +:+ "greptime/greptimedb:latest" +:+ quote
           +:+ " in 314.950966ms (6.159733714s including waiting)" in
  parseImageName m = Ok "greptime/greptimedb:latest" /\ parseImagePullingDuration m = Ok 314950966%Z.
Proof. split; vm_compute; reflexivity. Qed.

(** ** Lemmas: the text of an event *)

Section text.
#[local] Open Scope Z_scope.

Definition number (d : string) : Prop := d <> "" /\ all_in is_digit d = true.
Definition fraction (f : string) : Prop := f = "" \/ exists d, f = "." +:+ d /\ number d.
Definition unit_names : list string := ["h"; "ms"; micro +:+ "s"; "ns"; "m"; "s"].

Lemma digit_in v : is_digit (digit (v mod 10)) = true.
Proof. apply is_digit_digit, mod10. Qed.

Lemma put_digits_app fuel : forall a b v, put_digits fuel (a +:+ b) v = put_digits fuel a v +:+ b.
Proof.
  induction fuel as [|fuel IH]; intros a b v; [done|]. rewrite !put_digits_S. destruct (0 <? v); [|done].
  change (String (digit (v mod 10)) (a +:+ b)) with (String (digit (v mod 10)) a +:+ b). apply IH.
Qed.

Lemma fmtInt_app buf v : fmtInt buf v = fmtInt "" v +:+ buf.
Proof.
  unfold fmtInt. destruct (v =? 0); [done|]. change buf with ("" +:+ buf) at 1. apply put_digits_app.
Qed.

Lemma put_digits_all_in fuel : forall s v, all_in is_digit s = true -> all_in is_digit (put_digits fuel s v) = true.
Proof.
  induction fuel as [|fuel IH]; intros s v Hs; [done|]. rewrite put_digits_S. destruct (0 <? v); [|done].
  apply IH. cbn [all_in]. by rewrite digit_in.
Qed.

Lemma fmtInt_number v : 0 <= v -> number (fmtInt "" v).
Proof.
  intros Hv. split.
  - intros He. pose proof (fmtInt_length "" v Hv) as Hl. rewrite He in Hl. cbn in Hl. lia.
  - unfold fmtInt. destruct (v =? 0); [done|by apply put_digits_all_in].
Qed.

Lemma frac_digits_number p : forall buf v, exists d, frac_digits buf v p = d +:+ buf
  /\ all_in is_digit d = true /\ String.length d = p.
Proof.
  induction p as [|p IH]; intros buf v; cbn [frac_digits]; [by exists ""|].
  destruct (IH (String (digit (v mod 10)) buf) (v / 10)) as (d & -> & Hd & Hl).
  exists (d +:+ String (digit (v mod 10)) ""). split_and!.
  - by rewrite string_app_assoc.
  - rewrite all_in_app, Hd. cbn [all_in]. by rewrite digit_in.
  - rewrite string_length_app, Hl. cbn. lia.
Qed.

Lemma point_fraction buf w p : exists f, point buf w p = f +:+ buf /\ fraction f.
Proof.
  destruct p as [|p]; [by exists ""; split; [|left]|].
  destruct (frac_digits_number (S p) buf w) as (d & Hd & Hall & Hl). exists ("." +:+ d). split.
  - change (point buf w (S p)) with (String "." (frac_digits buf w (S p))). by rewrite Hd.
  - right. exists d. split; [done|]. split; [|done]. by intros ->.
Qed.

(** What the first component of a duration's text says. *)
Definition leading (u : Z) : Z :=
  if u <? Minute then u else if u <? Hour then u / Minute * Minute else u / Hour * Hour.

(** The text of a duration starts with a number, perhaps a fraction, and a unit. *)
Definition first_component (text : string) (value : Z) : Prop :=
  exists d f un tail, text = (d +:+ f +:+ un) +:+ tail /\ number d /\ fraction f /\ un ∈ unit_names
    /\ (un = "m" -> exists c s, tail = String c s /\ is_digit c = true)
    /\ ParseDuration (d +:+ f +:+ un) = Ok value.

Lemma text_component u un w p i :
  0 <= u -> 0 <= i -> un ∈ unit_names -> un <> "m" -> u < Minute ->
  text_of u = fmtInt (point un w p) i -> first_component (text_of u) (leading u).
Proof.
  intros Hu Hi Hun Hm Hlt Ht. destruct (point_fraction un w p) as (f & Hf & Hff).
  rewrite fmtInt_app, Hf in Ht.
  exists (fmtInt "" i), f, un, "". split_and!; try done.
  - by rewrite string_app_nil_r.
  - by apply fmtInt_number.
  - rewrite <- Ht. unfold leading. rewrite (proj2 (Z.ltb_lt _ _) Hlt).
    replace (text_of u) with (Duration_String u).
    + apply ParseDuration_String. unfold minDuration, maxDuration, Minute, Second, Millisecond,
        Microsecond, Nanosecond in *. lia.
    + unfold Duration_String. cbv zeta. rewrite Z.abs_eq by lia. by rewrite (proj2 (Z.ltb_ge _ _)) by lia.
Qed.

(** From a minute on: a number of minutes or of hours in front of the rest. *)
Lemma text_large u un value i tail :
  un = "m" \/ un = "h" -> unit_ok un value -> 0 <= i -> i * value <= maxDuration ->
  (exists c s, tail = String c s /\ is_digit c = true) -> leading u = i * value ->
  text_of u = fmtInt (un +:+ tail) i -> first_component (text_of u) (leading u).
Proof.
  intros Hun Hu Hi Hb Htail Hl Ht. rewrite fmtInt_app in Ht.
  exists (fmtInt "" i), "", un, tail. split_and!.
  - rewrite Ht. change ("" +:+ un) with un. by rewrite string_app_assoc.
  - by apply fmtInt_number.
  - by left.
  - unfold unit_names. destruct Hun as [-> | ->]; set_solver.
  - done.
  - change ("" +:+ un) with un. rewrite <- fmtInt_app, Hl.
    assert (Hr : reads [i * value] (fmtInt un i)).
    { rewrite <- (string_app_nil_r un). apply reads_int; [done|done|unfold maxDuration in Hb; lia|done]. }
    rewrite (ParseDuration_reads (i * value) [] (fmtInt un i) false Hr) by (cbn; lia). cbn. f_equal. lia.
Qed.

Lemma text_first u : 0 <= u <= maxDuration -> first_component (text_of u) (leading u).
Proof.
  intros Hu. destruct units_ok as (_ & _ & _ & _ & Um & Uh). pose proof (eq_refl (text_of u)) as Ht.
  unfold text_of at 2 in Ht. unfold maxDuration, unit_names in *.
  destruct (Z.ltb_spec u Second) as [Hs|Hs].
  - assert (Hmin : u < Minute) by (unfold Minute, Second in *; lia).
    destruct (Z.eqb_spec u 0) as [H0|H0];
      [apply (text_component u "s" 0 0 0); [lia|lia|by apply (list_elem_of_lookup_2 _ 5)|done|done|exact Ht]|].
    destruct (u <? Microsecond); [|destruct (u <? Millisecond)].
    + apply (text_component u "ns" 0 0 u); [lia|lia|by apply (list_elem_of_lookup_2 _ 3)|done|done|exact Ht].
    + destruct (fmtFrac_point 3 (micro +:+ "s") u) as (p & w & Hf & _). rewrite Hf in Ht.
      eapply (text_component u (micro +:+ "s") w p); [lia| |by apply (list_elem_of_lookup_2 _ 2)|done|done|exact Ht]. apply Z.div_pos; lia.
    + destruct (fmtFrac_point 6 "ms" u) as (p & w & Hf & _). rewrite Hf in Ht.
      eapply (text_component u "ms" w p); [lia| |by apply (list_elem_of_lookup_2 _ 1)|done|done|exact Ht]. apply Z.div_pos; lia.
  - destruct (fmtFrac_point 9 "s" u) as (p & w & Hf & _). rewrite Hf in Ht.
    change (10 ^ Z.of_nat 9) with 1000000000 in Ht. set (v := u / 1000000000) in *. cbv zeta in Ht.
    assert (Hhead : forall buf i, 0 <= i -> exists c s, fmtInt buf i = String c s /\ is_digit c = true)
      by (intros; by apply fmtInt_head).
    unfold Second, Millisecond, Microsecond, Nanosecond in Hs.
    destruct (Z.ltb_spec 0 (v / 60)) as [Hm|Hm]; [destruct (Z.ltb_spec 0 (v / 60 / 60)) as [Hh|Hh]|].
    + apply (text_large u "h" Hour (v / 60 / 60)
        (fmtInt (String "m" (fmtInt (point "s" w p) (v mod 60))) (v / 60 mod 60))); [by right|done|lia| |apply Hhead; div_lia| |exact Ht];
        unfold maxDuration, leading, Hour, Minute, Second, Millisecond, Microsecond, Nanosecond, v in *.
      * div_lia.
      * rewrite !(proj2 (Z.ltb_ge _ _)) by div_lia. f_equal. div_lia.
    + apply (text_large u "m" Minute (v / 60 mod 60) (fmtInt (point "s" w p) (v mod 60))); [by left|done|div_lia| |apply Hhead; div_lia| |exact Ht];
        unfold maxDuration, leading, Hour, Minute, Second, Millisecond, Microsecond, Nanosecond, v in *.
      * div_lia.
      * rewrite (proj2 (Z.ltb_ge _ _)), (proj2 (Z.ltb_lt _ _)) by div_lia. f_equal. div_lia.
    + eapply (text_component u "s" w p (v mod 60)); [lia|apply Z.mod_pos_bound; lia|by apply (list_elem_of_lookup_2 _ 5)|done| |exact Ht].
      unfold Minute, Second, Millisecond, Microsecond, Nanosecond, v in *. div_lia.
Qed.
End text.

(** The pattern of a component, before a text that does not lengthen its unit. *)
Lemma match_unit {B} un rest groups (k : string -> list string -> option B) b :
  un ∈ unit_names -> (un = "m" -> stops (fun c => Ascii.eqb c "s") rest) -> k rest groups = Some b ->
  rmatch duration_units (un +:+ rest) groups k = Some b.
Proof.
  unfold unit_names, duration_units. rewrite !elem_of_cons, elem_of_nil.
  intros Hun Hm Hk.
  destruct Hun as [->|[->|[->|[->|[->|[->|[]]]]]]]; cbn [Alts];
    repeat first [by apply lit_here | by apply alt_here, lit_here | apply alt_skip; [reflexivity|]].
  apply alt_skip; [|repeat first [by apply alt_here, lit_here | apply alt_skip; [reflexivity|]]].
  specialize (Hm eq_refl). destruct rest as [|c rest]; [done|]. cbn [stops] in Hm.
  change ("m" +:+ String c rest) with (String "m" (String c rest)). cbn [after].
  rewrite Ascii.eqb_refl, Ascii.eqb_sym. by rewrite Hm.
Qed.

Definition component_regexp : regexp :=
  Seq (Plus (Class is_digit)) (Seq (Opt (Seq (Lit ".") (Plus (Class is_digit)))) duration_units).

Lemma unit_stops un rest : un ∈ unit_names -> stops is_digit (un +:+ rest) /\ after "." (un +:+ rest) = None.
Proof.
  unfold unit_names. rewrite !elem_of_cons, elem_of_nil.
  intros Hun. by destruct Hun as [->|[->|[->|[->|[->|[->|[]]]]]]].
Qed.

Lemma match_component {B} d f un rest groups (k : string -> list string -> option B) b :
  number d -> fraction f -> un ∈ unit_names -> (un = "m" -> stops (fun c => Ascii.eqb c "s") rest) ->
  k rest groups = Some b ->
  rmatch component_regexp ((d +:+ f +:+ un) +:+ rest) groups k = Some b.
Proof.
  intros [Hd0 Hd] Hf Hun Hm Hk. rewrite !string_app_assoc. unfold component_regexp.
  destruct (unit_stops un rest Hun) as [Hs Hp]. pose proof (match_unit un rest groups k b Hun Hm Hk) as Hu.
  change (rmatch (Plus (Class is_digit)) (d +:+ f +:+ un +:+ rest) groups
    (fun rest groups => rmatch (Seq (Opt (Seq (Lit ".") (Plus (Class is_digit)))) duration_units) rest groups k)
    = Some b).
  apply rmatch_plus; [done|done| |].
  - destruct Hf as [->|(d2 & -> & _)]; [exact Hs|done].
  - destruct Hf as [->|(d2 & -> & Hd20 & Hd2)].
    + change ("" +:+ un +:+ rest) with (un +:+ rest). cbn [rmatch]. rewrite Hp. exact Hu.
    + rewrite string_app_assoc.
      assert (Ho : rmatch (Plus (Class is_digit)) (d2 +:+ un +:+ rest) groups
        (fun rest groups => rmatch duration_units rest groups k) = Some b) by (by apply rmatch_plus).
      cbn [rmatch]. rewrite after_app. cbn [rmatch] in Ho. by rewrite Ho.
Qed.

(** Nowhere in [pre], before [s], a literal starts. *)
Fixpoint never_starts (lit pre s : string) : Prop :=
  match pre with
  | EmptyString => True
  | String _ p => after lit (pre +:+ s) = None /\ never_starts lit p s
  end.

Lemma find_after r lit r' pre s :
  r = Seq (Lit lit) r' -> never_starts lit pre s ->
  FindStringSubmatch r (pre +:+ s) = FindStringSubmatch r s.
Proof.
  intros ->. induction pre as [|c pre IH]; intros Hn; [done|]. destruct Hn as [H1 Hn].
  change (String c pre +:+ s) with (String c (pre +:+ s)) in *.
  rewrite find_skip; [by apply IH|]. intros groups k. cbn [rmatch]. by rewrite H1.
Qed.

Lemma never_starts_app lit a b s :
  never_starts lit a (b +:+ s) -> never_starts lit b s -> never_starts lit (a +:+ b) s.
Proof.
  induction a as [|c a IH]; [by intros _|]. intros [H1 Ha] Hb.
  change (String c a +:+ b) with (String c (a +:+ b)). split; [|by apply IH].
  change (String c (a +:+ b) +:+ s) with (String c ((a +:+ b) +:+ s)).
  rewrite string_app_assoc. exact H1.
Qed.

(** The name of an image: not empty, without quotes and spaces. *)
Definition image_name (img : string) : Prop :=
  img <> "" /\ all_in (fun c => negb (is_quote c) && negb (Ascii.eqb c " ")) img = true.

Definition pulled_text : string := "Successfully pulled image ".

(** The kubelet's event for a pull. *)
Definition pulled_message (img : string) (d : Z) (rest : string) : string :=
  pulled_text +:+ quote +:+ img +:+ quote +:+ " in " +:+ Duration_String d +:+ rest.

Lemma image_never_starts img s :
  all_in (fun c => negb (is_quote c) && negb (Ascii.eqb c " ")) img = true ->
  never_starts "in " img (quote +:+ s).
Proof.
  induction img as [|c img IH]; [done|]. cbn [all_in]. intros [Hc Hi]%andb_prop.
  split; [|by apply IH]. change (String c img +:+ quote +:+ s) with (String c (img +:+ quote +:+ s)).
  cbn [after]. destruct (Ascii.eqb "i" c); [|done]. destruct img as [|c2 img]; [done|].
  change (String c2 img +:+ quote +:+ s) with (String c2 (img +:+ quote +:+ s)). cbn [after].
  destruct (Ascii.eqb "n" c2); [|done]. cbn [all_in] in Hi. apply andb_prop in Hi as [_ Hi].
  destruct img as [|c3 img]; [done|]. cbn [all_in] in Hi. apply andb_prop in Hi as [Hc3 _].
  apply andb_prop in Hc3 as [_ Hc3].
  change (String c3 img +:+ quote +:+ s) with (String c3 (img +:+ quote +:+ s)). cbn [after].
  rewrite Ascii.eqb_sym. destruct (Ascii.eqb c3 " "); [discriminate Hc3|done].
Qed.

Lemma all_in_impl (p q : ascii -> bool) s :
  (forall c, p c = true -> q c = true) -> all_in p s = true -> all_in q s = true.
Proof.
  intros H. induction s as [|c s IH]; [done|]. cbn [all_in]. intros [Hc Hs]%andb_prop.
  by rewrite (H c Hc), (IH Hs).
Qed.

Lemma first_group_here r s m g e :
  FindStringSubmatch r s = [m; g] -> first_group r s e = Ok g.
Proof. unfold first_group. by intros ->. Qed.

Lemma parse_image img d rest : image_name img -> parseImageName (pulled_message img d rest) = Ok img.
Proof.
  intros [Hne Himg]. unfold parseImageName, pulled_message.
  set (s := quote +:+ " in " +:+ Duration_String d +:+ rest).
  apply (first_group_here _ _ (quote +:+ img +:+ quote)).
  rewrite (find_after image_regexp quote _ pulled_text _ eq_refl) by (by repeat split).
  apply find_here. unfold image_regexp. apply seq_lit. rewrite seq_eq, group_eq.
  apply rmatch_plus; [done| |done|].
  - eapply all_in_impl; [|exact Himg]. by intros c [Hc _]%andb_prop.
  - unfold s. set (t := " in " +:+ Duration_String d +:+ rest). apply lit_here. rewrite consumed_app.
    replace (quote +:+ img +:+ quote +:+ t) with ((quote +:+ img +:+ quote) +:+ t)
      by (by rewrite !string_app_assoc). by rewrite consumed_app.
Qed.

Lemma parse_duration img d rest :
  image_name img -> (0 <= d <= maxDuration)%Z ->
  parseImagePullingDuration (pulled_message img d rest) = Ok (leading d).
Proof.
  intros [Hne Himg] Hd. unfold parseImagePullingDuration.
  assert (Hs : Duration_String d = text_of d).
  { unfold Duration_String. cbv zeta. rewrite Z.abs_eq by lia. by rewrite (proj2 (Z.ltb_ge _ _)) by lia. }
  unfold pulled_message. rewrite Hs.
  destruct (text_first d Hd) as (n & f & un & tail & -> & Hn & Hf & Hun & Hm & Hp).
  set (C := n +:+ f +:+ un) in *.
  assert (Hg : FindStringSubmatch duration_regexp
     (pulled_text +:+ quote +:+ img +:+ quote +:+ " in " +:+ (C +:+ tail) +:+ rest) = ["in " +:+ C; C]).
  { set (s := (C +:+ tail) +:+ rest).
    replace (pulled_text +:+ quote +:+ img +:+ quote +:+ " in " +:+ s)
      with ((pulled_text +:+ quote +:+ img +:+ quote +:+ " ") +:+ "in " +:+ s).
    2:{ rewrite !string_app_assoc. done. }
    rewrite (find_after duration_regexp "in " _ _ _ eq_refl).
    2:{ apply never_starts_app; [by repeat split|]. apply never_starts_app; [by repeat split|].
        apply never_starts_app; [|by repeat split]. rewrite string_app_assoc. by apply image_never_starts. }
    apply find_here. unfold duration_regexp. apply seq_lit. rewrite group_eq.
    unfold s. rewrite string_app_assoc. apply match_component; [done..| |].
    - intros Hu. destruct (Hm Hu) as (c & s' & -> & Hc).
      change (String c s' +:+ rest) with (String c (s' +:+ rest)). cbn [stops].
      by destruct (Ascii.eqb_spec c "s") as [->|].
    - rewrite consumed_app.
      replace ("in " +:+ C +:+ tail +:+ rest) with (("in " +:+ C) +:+ tail +:+ rest) by done.
      by rewrite consumed_app. }
  rewrite (first_group_here _ _ _ _ _ Hg). cbn [mbind res_bind]. by rewrite Hp.
Qed.

(** ** Lemmas: nothing in the texts panics *)

Fixpoint plain (r : regexp) : bool :=
  match r with
  | Class _ | Lit _ => true
  | Seq r1 r2 | Alt r1 r2 => plain r1 && plain r2
  | Plus r | Opt r => plain r
  | Group _ => false
  end.

(** A pattern without groups leaves the groups alone. *)
Lemma plain_groups {B} r : plain r = true -> forall s groups (k : string -> list string -> option B) b,
  rmatch r s groups k = Some b -> exists rest, k rest groups = Some b.
Proof.
  induction r as [p|lit|r1 IH1 r2 IH2|r1 IH1 r2 IH2|r IH|r IH|r _]; cbn [plain]; intros Hp s groups k b; try done.
  - destruct s as [|c s]; cbn; [done|]. destruct (p c); [eauto|done].
  - cbn. destruct (after lit s); [eauto|done].
  - apply andb_prop in Hp as [Hp1 Hp2]. cbn [rmatch]. intros H.
    apply (IH1 Hp1) in H as [rest H]. by apply (IH2 Hp2) in H.
  - apply andb_prop in Hp as [Hp1 Hp2]. cbn [rmatch].
    destruct (rmatch r1 s groups k) eqn:E; [intros [= <-]; by apply (IH1 Hp1) in E|apply (IH2 Hp2)].
  - cbn [rmatch]. generalize (String.length s). intros fuel. revert s.
    induction fuel as [|fuel IHf]; intros s H; apply (IH Hp) in H as [rest H]; [eauto|].
    destruct ((fix plus (f : nat) (x : string) (g : list string) := _) fuel rest groups) eqn:E; [|eauto].
    injection H as ->. by apply IHf in E.
  - cbn [rmatch]. destruct (rmatch r s groups k) eqn:E; [intros [= <-]; by apply (IH Hp) in E|eauto].
Qed.

(** The two patterns have one group, so a match has two texts. *)
Lemma find_shape r s :
  (forall s0 b, rmatch r s0 [] (fun rest groups => Some (consumed s0 rest :: groups)) = Some b ->
     exists x y, b = [x; y]) ->
  FindStringSubmatch r s = [] \/ exists x y, FindStringSubmatch r s = [x; y].
Proof.
  intros H. induction s as [|c s IH]; cbn [FindStringSubmatch]; destruct (rmatch _ _ _ _) eqn:E;
    try (right; by eapply H); [by left|exact IH].
Qed.

Lemma first_group_no_panic r s e :
  (FindStringSubmatch r s = [] \/ exists x y, FindStringSubmatch r s = [x; y]) -> first_group r s e <> Panic.
Proof. unfold first_group. by intros [->|(x & y & ->)]. Qed.

Lemma duration_shape s : FindStringSubmatch duration_regexp s = [] \/ exists x y, FindStringSubmatch duration_regexp s = [x; y].
Proof.
  apply find_shape. intros s0 b. unfold duration_regexp. rewrite seq_eq. intros H.
  apply (plain_groups (Lit "in ") eq_refl) in H as [rest H]. rewrite group_eq in H.
  apply (plain_groups component_regexp eq_refl) in H as [rest' [= <-]]. eauto.
Qed.

Lemma image_shape s : FindStringSubmatch image_regexp s = [] \/ exists x y, FindStringSubmatch image_regexp s = [x; y].
Proof.
  apply find_shape. intros s0 b. unfold image_regexp. rewrite seq_eq. intros H.
  apply (plain_groups (Lit quote) eq_refl) in H as [rest H]. rewrite seq_eq, group_eq in H.
  apply (plain_groups (Plus (Class _)) eq_refl) in H as [rest' H].
  apply (plain_groups (Lit quote) eq_refl) in H as [rest'' [= <-]]. eauto.
Qed.

Lemma leadingInt_no_panic s x : leadingInt s x <> Panic.
Proof.
  revert x. induction s as [|c s IH]; intros x; cbn [leadingInt]; [done|]. destruct (negb _); [done|].
  destruct (_ <? _)%Z; [done|]. destruct (_ <? _)%Z; [done|apply IH].
Qed.

Lemma parse_component_no_panic s : parse_component s <> Panic.
Proof.
  unfold parse_component. destruct (guard_err _ _) as [[]|e|] eqn:E; cbn [mbind res_bind]; [|done|].
  2:{ unfold guard_err in E. by destruct (negb _). }
  pose proof (leadingInt_no_panic s 0). destruct (leadingInt s 0) as [[v s1]|e|]; cbn [mbind res_bind]; [|done|done].
  repeat (match goal with
    | |- match ?x with pair _ _ => _ end <> Panic => destruct x
    | |- (guard_err false _ ≫= _) <> Panic => cbn [guard_err mbind res_bind]
    | |- ((if ?c then Err _ else Ok _) ≫= _) <> Panic => destruct c; cbn [mbind res_bind]; [done|]
    | |- (guard_err ?c ?e ≫= _) <> Panic => unfold guard_err at 1; destruct c; cbn [mbind res_bind]; [done|]
    | |- (match unitMap ?u with _ => _ end ≫= _) <> Panic => destruct (unitMap u); cbn [mbind res_bind]; [|done]
    | |- (if ?c then _ else _) <> Panic => destruct c
    | |- Ok _ <> Panic => done
    end; cbv zeta).
Qed.

Lemma ParseDuration_no_panic s : ParseDuration s <> Panic.
Proof.
  unfold ParseDuration. destruct (sign_of s) as [neg t]. destruct (bool_decide _); [done|].
  destruct (bool_decide _); [done|].
  assert (Hp : forall fuel t d, parse_components fuel t d <> Panic).
  { clear. induction fuel as [|fuel IH]; intros [|c t] d; cbn [parse_components]; try done.
    pose proof (parse_component_no_panic (String c t)).
    destruct (parse_component _) as [[v t']|e|]; cbn [mbind res_bind]; [|done|done].
    unfold guard_err. destruct (_ <? _)%Z; cbn [mbind res_bind]; [done|apply IH]. }
  specialize (Hp (String.length t) t 0%Z). destruct (parse_components _ _ _); cbn [mbind res_bind]; [|done|done].
  destruct neg; [done|]. unfold guard_err. by destruct (_ <? _)%Z.
Qed.

Lemma parseImageName_no_panic m : parseImageName m <> Panic.
Proof. apply first_group_no_panic, image_shape. Qed.

Lemma parseImagePullingDuration_no_panic m : parseImagePullingDuration m <> Panic.
Proof.
  unfold parseImagePullingDuration. pose proof (first_group_no_panic duration_regexp m
    (Errorf "parse image pulling duration from message") (duration_shape m)) as Hf.
  destruct (first_group _ _ _) as [g|e|]; cbn [mbind res_bind]; [|done|done].
  pose proof (ParseDuration_no_panic g). by destruct (ParseDuration g).
Qed.

Lemma pulling_duration_total events : exists r, pulling_duration events = Ok r.
Proof.
  induction events as [|event events IH]; cbn [pulling_duration]; [eauto|].
  destruct (Contains _ _); [|done]. pose proof (parseImageName_no_panic (ce_Message event)).
  destruct (parseImageName _); [|eauto|done].
  pose proof (parseImagePullingDuration_no_panic (ce_Message event)).
  destruct (parseImagePullingDuration _); [eauto|eauto|done].
Qed.

(** An error comes with an empty image. *)
Lemma pulling_duration_error events img d e :
  pulling_duration events = Ok (img, d, Some e) -> img = "" /\ d = 0%Z.
Proof.
  induction events as [|event events IH]; cbn [pulling_duration]; [done|]. destruct (Contains _ _); [|done].
  destruct (parseImageName _); [|by intros [= <- <- _]|done].
  by destruct (parseImagePullingDuration _); [|intros [= <- <- _]|].
Qed.

(** ** Specification: what is observed *)

Definition observation : Type := (string * list (string * string) * observed)%type.

Definition observations (log : list event) : list observation :=
  omap (fun e : event => match projT1 e with QObserve m l x => Some (m, l, x) | _ => None end) log.

Definition observation_of (hv : HistogramVec) (values : list string) (x : observed) : observation :=
  (hv_Name hv, zip (hv_Labels hv) values, x).

(** An answer of the server: pods by namespace, labels and fields, and events. *)
Record answers := mkAnswers {
  an_pods : string -> strmap -> strmap -> list Pod;
  an_events : string -> strmap -> res (list CoreEvent) }.

(** A server that gives these answers, and whose lists of events do not panic. *)
Definition answering {W} (env : environment W) (a : answers) : Prop :=
  (forall ns labels fields w, (env (QListPods ns labels fields) w).1 = Ok (an_pods a ns labels fields))
  /\ (forall ns fields w, (env (QListEvents ns fields) w).1 = an_events a ns fields)
  /\ (forall ns fields, an_events a ns fields <> Panic).

Section spec.
Variable a : answers.

(** The duration of a pull, when an event reports it. *)
Definition pull_observations (clusterName : string) (role : RoleKind) (p : Pod) : list observation :=
  match an_events a (po_Namespace p) {[ "involvedObject.uid" := po_UID p ]} with
  | Ok events =>
      match pulling_duration events with
      | Ok (img, d, None) =>
          if bool_decide (img = "") || Z.eqb d 0 then []
          else [observation_of podImagePullingDuration
                  [po_Namespace p; clusterName; po_Name p; po_NodeName p; role; img]
                  (Float64 (Milliseconds d))]
      | _ => []
      end
  | _ => []
  end.

Definition container_observations (clusterName : string) (role : RoleKind) (p : Pod) (initialized ready : Z)
    (c : ContainerStatus) : list observation :=
  let startedAt := default 0%Z (cst_RunningStartedAt c) in
  [observation_of podContainerStartupDuration (container_values clusterName p role c)
     (Seconds (Sub startedAt initialized));
   observation_of podContainerReadyDuration (container_values clusterName p role c)
     (Seconds (Sub ready startedAt))].

(** A pod whose conditions the kubelet has set, with all its containers running, has
    these times: scheduled, initialized, ready. *)
Definition settled (p : Pod) (times : Z * Z * Z) : Prop :=
  exists conditions, po_Conditions p = Some conditions
    /\ getPodConditionTime conditions "PodScheduled" = Ok times.1.1
    /\ getPodConditionTime conditions "Initialized" = Ok times.1.2
    /\ getPodConditionTime conditions "Ready" = Ok times.2
    /\ Forall (fun c => is_Some (cst_RunningStartedAt c)) (po_ContainerStatuses p).

Definition pod_observations (clusterName : string) (role : RoleKind) (p : Pod) (times : Z * Z * Z)
    : list observation :=
  let '(scheduled, initialized, ready) := times in
  let created := po_CreationTimestamp p in
  [observation_of podSchedulingDuration (pod_values clusterName p role) (Seconds (Sub scheduled created));
   observation_of podInitializingDuration (pod_values clusterName p role)
     (Seconds (Sub initialized scheduled))]
  ++ concat (map (container_observations clusterName role p initialized ready) (po_ContainerStatuses p))
  ++ [observation_of podStartupDuration (pod_values clusterName p role) (Seconds (Sub ready created))]
  ++ pull_observations clusterName role p.
End spec.

(** The component labels whose pods are measured, in order, with the role. *)
Definition role_names (c : GreptimeDBCluster) (role : RoleKind) : list string :=
  map (fun n => ResourceName (om_Name (gc_ObjectMeta c)) role [n])
    ((if decide (role = FrontendRoleKind) then map fe_Name (GetFrontendGroups (Some c)) else []) ++ [""]).
Definition measured (c : GreptimeDBCluster) (emptyNotNil : bool) : list (RoleKind * string) :=
  let of_role (b : bool) role := if b then map (pair role) (role_names c role) else [] in
  of_role (not_nil (GetMeta (Some c))) MetaRoleKind
  ++ of_role (not_nil (GetDatanode (Some c))) DatanodeRoleKind
  ++ of_role (not_nil (GetFrontend (Some c))) FrontendRoleKind
  ++ of_role (not_nil (GetFlownode c)) FlownodeRoleKind
  ++ of_role (frontend_groups_set c emptyNotNil) FrontendRoleKind.

(** The pods the server lists for a component label. *)
Definition pods_of (a : answers) (c : GreptimeDBCluster) (name : string) : list Pod :=
  an_pods a (om_Namespace (gc_ObjectMeta c)) {[ GreptimeDBComponentName := name ]}
    {[ "status.phase" := "Running" ]}.

(** ** Lemmas: executions *)

Lemma observations_app l l' : observations (l ++ l') = observations l ++ observations l'.
Proof. apply omap_app. Qed.

Section exec.
Context {W : Type} (env : environment W) {S : Type}.

(** The computation returns [x], leaves the memory alone and observes [l]. *)
Definition yields {A} (x : A) (l : list observation) (m : M S A) : Prop :=
  forall s w, exists w' log, exec env m s w = Outcome (Ok x) s w' log /\ observations log = l.

Lemma yields_ret {A} (x : A) : yields x [] (mret x).
Proof. intros s w. by exists w, []. Qed.

Lemma yields_lift {A} (x : A) r : r = Ok x -> yields x [] (lift r).
Proof. intros -> s w. by exists w, []. Qed.

Lemma yields_bind {A B} (x : A) (y : B) l1 l2 (m : M S A) (f : A -> M S B) :
  yields x l1 m -> yields y l2 (f x) -> yields y (l1 ++ l2) (m ≫= f).
Proof.
  intros Hm Hf s w. destruct (Hm s w) as (w1 & log1 & H1 & <-). destruct (Hf s w1) as (w2 & log2 & H2 & <-).
  exists w2, (log1 ++ log2). rewrite exec_bind, H1. cbn [out_res out_st out_world out_log]. rewrite H2.
  split; [done|apply observations_app].
Qed.

(** With nothing observed first, or last. *)
Lemma yields_then {A B} (x : A) (y : B) l (m : M S A) (f : A -> M S B) :
  yields x [] m -> yields y l (f x) -> yields y l (m ≫= f).
Proof. apply yields_bind. Qed.

Lemma yields_ask {A} q (to : resp q -> res A) x :
  (forall w, to (env q w).1 = Ok x) -> (forall r, observations [ev q r] = []) ->
  yields x [] (ask q ≫= fun r => lift (to r)).
Proof.
  intros Ha Ho s w. exists (env q w).2, [ev q (env q w).1]. rewrite exec_request, exec_lift, Ha.
  split; [done|apply Ho].
Qed.

Lemma yields_observe hv values x :
  length values = length (hv_Labels hv) -> yields tt [observation_of hv values x] (observe hv values x).
Proof.
  intros Hl s w. unfold observe. rewrite Hl, Nat.eqb_refl.
  eexists _, _. rewrite exec_request, exec_ret. split; [done|reflexivity].
Qed.

Lemma yields_range {A} (spec : A -> list observation) (f : A -> M S unit) l :
  (forall x, x ∈ l -> yields tt (spec x) (f x)) -> yields tt (concat (map spec l)) (range f l).
Proof.
  induction l as [|x l IH]; intros Hf; cbn [range map concat]; [apply yields_ret|].
  apply (yields_bind tt); [apply Hf; set_solver|]. apply IH. set_solver.
Qed.

Lemma yields_when (b : bool) l (m : M S unit) : yields tt l m -> yields tt (if b then l else []) (when b m).
Proof. destruct b; [done|]. intros _. apply yields_ret. Qed.

Variable a : answers.
Hypothesis Ha : answering env a.

Lemma yields_pull clusterName role p :
  yields tt (pull_observations a clusterName role p) (collectPodImagePullingDuration clusterName p role).
Proof.
  destruct Ha as (_ & He & Hnp). unfold collectPodImagePullingDuration, pull_observations.
  set (fields := {[ "involvedObject.uid" := po_UID p ]} : strmap).
  set (r := match an_events a (po_Namespace p) fields with
            | Ok [] => ("", 0%Z, Some ErrEmptyEvents)
            | Ok events => match pulling_duration events with Ok r => r | _ => ("", 0%Z, None) end
            | Err e => ("", 0%Z, Some (if IsNotFound e then ErrEmptyEvents else PullError e))
            | Panic => ("", 0%Z, None)
            end).
  assert (Hr : yields r [] (getImagePullingDurationFromEvents p)).
  { intros s w. unfold getImagePullingDurationFromEvents. fold fields.
    exists (env (QListEvents (po_Namespace p) fields) w).2,
      [ev (QListEvents (po_Namespace p) fields) (env (QListEvents (po_Namespace p) fields) w).1].
    specialize (He (po_Namespace p) fields w). specialize (Hnp (po_Namespace p) fields). rewrite exec_bind.
    change (@exec S W (res (list CoreEvent))) with (@exec S W (resp (QListEvents (po_Namespace p) fields))).
    rewrite exec_ask. cbn [out_res out_st out_world out_log]. rewrite He. subst r. destruct (an_events _ _ _) as [[|event events]|e|]; [|..|done].
    - by rewrite exec_ret.
    - rewrite exec_lift. by destruct (pulling_duration_total (event :: events)) as [r' ->].
    - by rewrite exec_ret. }
  apply (yields_then r); [exact Hr|]. clear Hr. subst r.
  destruct (an_events a (po_Namespace p) fields) as [[|event events]|e|]; try apply yields_ret.
  - destruct (pulling_duration_total (event :: events)) as [[[img d] err] Hp]. rewrite Hp.
    destruct err as [[|e]|].
    + apply yields_ret.
    + apply pulling_duration_error in Hp as [-> _]. apply yields_ret.
    + destruct (_ || _); [apply yields_ret|by apply yields_observe].
  - destruct (IsNotFound e); apply yields_ret.
Qed.

Lemma yields_container clusterName role p initialized ready c :
  is_Some (cst_RunningStartedAt c) ->
  yields tt (container_observations clusterName role p initialized ready c)
    (collect_container clusterName p role initialized ready c).
Proof.
  intros [t Ht]. unfold collect_container, container_observations. rewrite Ht. cbn [default].
  apply (yields_then t); [by apply yields_lift|]. apply (yields_bind tt tt [_]); by apply yields_observe.
Qed.

Lemma yields_pod clusterName role p times :
  settled p times -> yields tt (pod_observations a clusterName role p times) (collectPodMetrics clusterName p role).
Proof.
  destruct times as [[scheduled initialized] ready]. intros (conditions & Hc & H1 & H2 & H3 & Hrun).
  cbn [fst snd] in *. unfold collectPodMetrics. rewrite Hc. cbv zeta.
  apply (yields_then scheduled); [apply yields_lift; by rewrite H1|].
  apply (yields_then initialized); [apply yields_lift; by rewrite H2|].
  apply (yields_then ready); [apply yields_lift; by rewrite H3|]. unfold pod_observations.
  apply (yields_bind tt tt [_] (_ :: _)); [by apply yields_observe|].
  apply (yields_bind tt tt [_] (_ ++ _)); [by apply yields_observe|].
  apply (yields_bind tt tt _ (_ ++ _)).
  - apply yields_range. intros x Hx. apply yields_container. rewrite Forall_forall in Hrun. by apply Hrun.
  - apply (yields_bind tt tt [_]); [by apply yields_observe|apply yields_pull].
Qed.

Variable c : GreptimeDBCluster.

Lemma yields_getPods role n :
  yields (pods_of a c (ResourceName (om_Name (gc_ObjectMeta c)) role [n])) [] (getPods c role n).
Proof.
  destruct Ha as (Hp & _ & _). apply (yields_ask (QListPods _ _ _) (fun r => r)); [|done].
  intros w. apply Hp.
Qed.

Lemma yields_group_pods role gs : forall acc,
  yields (acc ++ concat (map (pods_of a c)
            (map (fun n => ResourceName (om_Name (gc_ObjectMeta c)) role [n]) (map fe_Name gs)))) []
    (frontend_group_pods c role gs acc).
Proof.
  induction gs as [|g gs IH]; intros acc; cbn [frontend_group_pods map concat];
    [rewrite app_nil_r; apply yields_ret|].
  eapply yields_then; [apply yields_getPods|]. rewrite app_assoc. apply IH.
Qed.

(** What is observed of the pods under the names of a role. *)
Definition name_observations (times : Pod -> Z * Z * Z) (x : RoleKind * string) : list observation :=
  concat (map (fun p => pod_observations a (om_Name (gc_ObjectMeta c)) x.1 p (times p)) (pods_of a c x.2)).

Lemma yields_role times role :
  (forall n p, n ∈ role_names c role -> p ∈ pods_of a c n -> settled p (times p)) ->
  yields tt (concat (map (name_observations times) (map (pair role) (role_names c role))))
    (collectPodMetricsByRole c role).
Proof.
  intros Hs. unfold collectPodMetricsByRole.
  set (groups := if decide (role = FrontendRoleKind) then map fe_Name (GetFrontendGroups (Some c)) else []).
  set (name := fun n => ResourceName (om_Name (gc_ObjectMeta c)) role [n]).
  apply (yields_then (concat (map (pods_of a c) (map name groups)))).
  { subst groups. destruct (decide (role = FrontendRoleKind)); [apply yields_group_pods|apply yields_ret]. }
  eapply yields_then; [apply yields_getPods|].
  assert (Hn : role_names c role = map name groups ++ [name ""]).
  { unfold role_names. fold groups. by rewrite map_app. }
  rewrite Hn in Hs |- *.
  replace (concat (map (pods_of a c) (map name groups)) ++ pods_of a c (ResourceName _ role [""]))
    with (concat (map (pods_of a c) (map name groups ++ [name ""]))).
  2:{ rewrite map_app, concat_app. cbn [map concat]. by rewrite app_nil_r. }
  generalize dependent (map name groups ++ [name ""]). intros names Hs _. clear groups name.
  replace (concat (map (name_observations times) (map (pair role) names)))
    with (concat (map (fun p => pod_observations a (om_Name (gc_ObjectMeta c)) role p (times p))
                    (concat (map (pods_of a c) names)))).
  2:{ clear. induction names as [|n names IH]; cbn [map concat]; [done|].
      rewrite map_app, concat_app, IH. done. }
  apply yields_range. intros p Hp. apply yields_pod.
  rewrite <- flat_map_concat_map in Hp. apply list_elem_of_In, in_flat_map in Hp as (n & Hn1 & Hp).
  eapply Hs; by apply list_elem_of_In.
Qed.
End exec.

(** ** Memory and requests *)

(** The collector lists pods and events and observes. *)
Definition metrics_request (e : event) : Prop :=
  match projT1 e with QListPods _ _ _ | QListEvents _ _ | QObserve _ _ _ => True | _ => False end.

Lemma observe_preserves {S} (R : S -> S -> Prop) `{!PreOrder R} hv values x : preserves R (observe hv values x).
Proof. unfold observe. solve_preserves. Qed.
#[export] Hint Resolve observe_preserves : preserves.

Lemma observe_logs {S} hv values x : logs_only (S := S) metrics_request (observe hv values x).
Proof. unfold observe. by solve_logs. Qed.
#[export] Hint Resolve observe_logs : logs.

Lemma frontend_group_pods_preserves {S} (R : S -> S -> Prop) `{!PreOrder R} c role gs acc :
  preserves R (frontend_group_pods c role gs acc).
Proof. revert acc. induction gs as [|g gs IH]; intros acc; cbn; [|unfold getPods]; solve_preserves. Qed.
#[export] Hint Resolve frontend_group_pods_preserves : preserves.

Lemma frontend_group_pods_logs {S} c role gs acc :
  logs_only (S := S) metrics_request (frontend_group_pods c role gs acc).
Proof. revert acc. induction gs as [|g gs IH]; intros acc; cbn; [|unfold getPods]; by solve_logs. Qed.
#[export] Hint Resolve frontend_group_pods_logs : logs.

Lemma CollectClusterPodMetrics_preserves {S} (R : S -> S -> Prop) `{!PreOrder R} c b :
  preserves R (CollectClusterPodMetrics c b).
Proof.
  unfold CollectClusterPodMetrics, collectPodMetricsByRole, getPods, collectPodMetrics, collect_container,
    collectPodImagePullingDuration, getImagePullingDurationFromEvents. solve_preserves.
Qed.

Lemma CollectClusterPodMetrics_logs {S} c b :
  logs_only (S := S) metrics_request (CollectClusterPodMetrics c b).
Proof.
  unfold CollectClusterPodMetrics, collectPodMetricsByRole, getPods, collectPodMetrics, collect_container,
    collectPodImagePullingDuration, getImagePullingDurationFromEvents. by solve_logs.
Qed.

(** ** Properties *)

(** C34. Against a server that answers with settled pods, the collector succeeds, changes
    nothing, and observes exactly the specified durations: of every pod under the names
    in [measured], one scheduling, initializing and startup time, two times per container,
    and the time of the reported pull; whether an empty list of frontend groups is nil or
    not decides on a last pass over the frontends. *)
Theorem CollectClusterPodMetrics_observes {W} (env : environment W) {S} a c emptyNotNil times (s : S) w :
  answering env a ->
  (forall role n p, (role, n) ∈ measured c emptyNotNil -> p ∈ pods_of a c n -> settled p (times p)) ->
  exists w' log, exec env (CollectClusterPodMetrics c emptyNotNil) s w = Outcome (Ok tt) s w' log
    /\ observations log = concat (map (name_observations a c times) (measured c emptyNotNil)).
Proof.
  intros Ha Hs.
  assert (Hrole : forall (b : bool) role, (b = true -> Forall (fun x => x ∈ measured c emptyNotNil) (map (pair role) (role_names c role))) ->
    yields env tt (concat (map (name_observations a c times) (if b then map (pair role) (role_names c role) else [])))
      (when (S := S) b (collectPodMetricsByRole c role))).
  { intros [] role Hin; [|apply yields_ret]. apply yields_role; [done|]. intros n p Hn Hp.
    apply (Hs role n); [|done]. specialize (Hin eq_refl). rewrite Forall_forall in Hin. apply Hin.
    apply list_elem_of_fmap. eauto. }
  enough (H : yields env tt (concat (map (name_observations a c times) (measured c emptyNotNil)))
                (CollectClusterPodMetrics (S := S) c emptyNotNil)) by apply H.
  unfold measured in *. cbv zeta in *. rewrite !map_app, !concat_app. unfold CollectClusterPodMetrics.
  repeat (apply (yields_bind env tt tt); [apply Hrole; intros Hb; rewrite Hb; apply Forall_forall; intros x Hx;
    rewrite !elem_of_app; repeat first [exact Hx|left; exact Hx|right]|]).
  apply Hrole. intros Hb. rewrite Hb. apply Forall_forall. intros x Hx.
  rewrite !elem_of_app. repeat first [exact Hx|left; exact Hx|right].
Qed.

(** C35. A round trip through the kubelet's event: from its text for a pull the collector
    reads the image back and, below a minute, the very duration.  From a minute on the
    pattern stops after the first unit: only the whole minutes, or hours, are kept,
    although the source's comment says that it captures the whole duration. *)
Theorem pulled_event_parsed img d rest :
  image_name img -> (0 <= d <= maxDuration)%Z ->
  let message := pulled_message img d rest in
  parseImageName message = Ok img
  /\ ((d < Minute)%Z -> parseImagePullingDuration message = Ok d)
  /\ ((Minute <= d < Hour)%Z -> parseImagePullingDuration message = Ok (d / Minute * Minute)%Z)
  /\ ((Hour <= d)%Z -> parseImagePullingDuration message = Ok (d / Hour * Hour)%Z).
Proof.
  intros Hi Hd message. subst message. rewrite parse_image, parse_duration by done. split; [done|].
  assert (Hmh : (Minute < Hour)%Z) by done. unfold leading.
  split_and!; intros H; f_equal; destruct (Z.ltb_spec d Minute); try lia; destruct (Z.ltb_spec d Hour); lia.
Qed.

(** An error while reading events or their text is never reported: with an error the
    image is empty, which is tested first. *)
Theorem pull_errors_ignored {W} (env : environment W) {S} clusterName p role (s : S) w e :
  out_res (exec env (collectPodImagePullingDuration clusterName p role) s w) <> Err e.
Proof.
  unfold collectPodImagePullingDuration. rewrite exec_bind. unfold getImagePullingDurationFromEvents.
  rewrite exec_bind.
  set (q := QListEvents (po_Namespace p) {[ "involvedObject.uid" := po_UID p ]}).
  change (@exec S W (res (list CoreEvent))) with (@exec S W (resp q)). rewrite exec_ask.
  cbn [out_res out_st out_world out_log]. generalize (env q w).1. intros r.
  assert (Ho : forall hv values x (s : S) w, out_res (exec env (observe hv values x) s w) <> Err e).
  { intros hv values x s' w'. unfold observe. destruct (Nat.eqb _ _); [|done].
    rewrite exec_request, exec_ret. done. }
  destruct r as [[|event events]|e'|]; [| |destruct (IsNotFound e')|]; try done.
  rewrite exec_lift. destruct (pulling_duration_total (event :: events)) as [[[img d] err] Hp]. rewrite Hp.
  cbn [out_res out_st out_world out_log prepend]. destruct err as [[|e']|]; [done| |].
  - apply pulling_duration_error in Hp as [-> _]. done.
  - destruct (_ || _); [done|]. cbn [prepend out_res]. apply Ho.
Qed.

(** A container that is waiting or has terminated, in a pod with its conditions, is a nil
    pointer dereference. *)
Theorem waiting_container_panics {W} (env : environment W) {S} clusterName p role conditions t1 t2 t3 c pre post (s : S) w :
  po_Conditions p = Some conditions ->
  getPodConditionTime conditions "PodScheduled" = Ok t1 ->
  getPodConditionTime conditions "Initialized" = Ok t2 ->
  getPodConditionTime conditions "Ready" = Ok t3 ->
  po_ContainerStatuses p = pre ++ c :: post -> Forall (fun c => is_Some (cst_RunningStartedAt c)) pre ->
  cst_RunningStartedAt c = None ->
  out_res (exec env (collectPodMetrics clusterName p role) s w) = Panic.
Proof.
  intros Hc H1 H2 H3 Hcs Hpre Hnone. unfold collectPodMetrics. rewrite Hc. cbv zeta.
  rewrite H1, H2, H3. cbn [wrap_err].
  assert (Hthen : forall A B (x : A) l (m : M S A) (f : A -> M S B), yields env x l m ->
    (forall w, out_res (exec env (f x) s w) = Panic) -> forall w, out_res (exec env (m ≫= f) s w) = Panic).
  { intros A B x l m f Hm Hf w'. destruct (Hm s w') as (w1 & log & He & _).
    rewrite exec_bind, He. cbn [out_res out_st out_world out_log prepend]. apply Hf. }
  revert w. do 3 (eapply Hthen; [by apply yields_lift|]). do 2 (eapply Hthen; [by apply yields_observe|]).
  intros w. rewrite exec_bind.
  assert (Hp : forall w, out_res (exec env (range (collect_container clusterName p role t2 t3)
                                       (po_ContainerStatuses p)) s w) = Panic).
  { rewrite Hcs. clear w Hcs. induction Hpre as [|x pre Hx _ IH]; cbn [app range].
    - intros w. unfold collect_container. rewrite Hnone. done.
    - eapply Hthen; [by apply yields_container|exact IH]. }
  specialize (Hp w). destruct (exec env (range _ _) s w) as [r s1 w1 l1]. cbn in Hp |- *. by subst r.
Qed.

(** The groups of datanodes are not measured. *)
Theorem datanode_groups_unmeasured c emptyNotNil g :
  dn_Name g <> "" ->
  (DatanodeRoleKind, ResourceName (om_Name (gc_ObjectMeta c)) DatanodeRoleKind [dn_Name g]) ∉ measured c emptyNotNil.
Proof.
  intros Hg. unfold measured. cbv zeta.
  assert (Hne : forall role, role <> DatanodeRoleKind -> forall (b : bool) x,
    (DatanodeRoleKind, x) ∉ (if b then map (pair role) (role_names c role) else [])).
  { intros role Hr [] x Hin; [|by apply elem_of_nil in Hin]. apply list_elem_of_fmap in Hin as (n & [= <- _] & _). done. }
  rewrite !elem_of_app. intros [H|[H|[H|[H|H]]]]; try (eapply Hne; [|exact H]; done).
  destruct (not_nil _); [|by apply elem_of_nil in H]. cbn in H. apply list_elem_of_singleton in H.
  injection H as H. apply (f_equal String.length) in H. unfold ResourceName in H.
  cbn [add_extra_names] in H. rewrite decide_True in H by done. rewrite decide_False in H by (intros X; by apply X).
  cbn [Join] in H. rewrite !string_length_app in H. cbn in H. lia.
Qed.

(** ** Witnesses *)

(** A pod whose image took 90.5 seconds to pull, by its event. *)
Definition sample_conditions : list PodCondition :=
  [mkPodCondition "PodScheduled" 1000; mkPodCondition "Initialized" 3000; mkPodCondition "Ready" 7000].
Definition sample_pod (containers : list ContainerStatus) : Pod :=
  mkPod "default" "p-0" "uid" 0 "node-1" (Some sample_conditions) containers.
Definition running : ContainerStatus := mkContainerStatus "main" (Some 4000%Z).
Definition sample_answers : answers := {|
  an_pods _ _ _ := [sample_pod [running]];
  an_events _ _ := Ok [mkCoreEvent "Started"; mkCoreEvent (pulled_message "db:v1" 90500000000 " (100s)")] |}.
Definition sample_env : environment unit := fun q =>
  match q as q return unit -> resp q * unit with
  | QListPods ns labels fields => fun w => (Ok (an_pods sample_answers ns labels fields), w)
  | QListEvents ns fields => fun w => (an_events sample_answers ns fields, w)
  | q => fun w => ((fake_env q []).1, w)
  end.
Definition metrics_cluster : GreptimeDBCluster :=
  mkGreptimeDBCluster (meta_of "default" "c" None ∅)
    (mkGreptimeDBClusterSpec None None
       (Some (mkMetaSpec (mkComponentSpec None "" None None None) 3002 4000 None None None)) None [] None []
       0 0 0 0 None "" None None None None None None ConfigMergeStrategyInjectedDataFirst false)
    zero_ClusterStatus.

Lemma CollectClusterPodMetrics_observes_witness :
  exists w' log, exec sample_env (CollectClusterPodMetrics metrics_cluster false) tt tt = Outcome (Ok tt) tt w' log
    /\ length (observations log) = 6.
Proof.
  destruct (CollectClusterPodMetrics_observes sample_env sample_answers metrics_cluster false
    (fun _ => (1000, 3000, 7000)%Z) tt tt) as (w' & log & He & Ho).
  - split_and!; [done|done|]. by intros ns fields.
  - intros role n p Hn Hp. unfold pods_of, sample_answers in Hp. cbn [an_pods] in Hp.
    apply list_elem_of_singleton in Hp as ->.
    exists sample_conditions. split_and!; [reflexivity..|]. repeat constructor. by eexists.
  - exists w', log. split; [exact He|]. rewrite Ho. vm_compute. reflexivity.
Defined.

Lemma pulled_event_parsed_witness :
  parseImagePullingDuration (pulled_message "db:v1" 314950966 " (6s including waiting)") = Ok 314950966%Z
  /\ parseImagePullingDuration (pulled_message "db:v1" 90500000000 "") = Ok 60000000000%Z.
Proof.
  assert (Hi : image_name "db:v1") by (split; [discriminate|reflexivity]). split.
  - refine (proj1 (proj2 (pulled_event_parsed "db:v1" 314950966 " (6s including waiting)" Hi _)) _);
      unfold maxDuration, Minute, Second, Millisecond, Microsecond, Nanosecond; lia.
  - refine (proj1 (proj2 (proj2 (pulled_event_parsed "db:v1" 90500000000 "" Hi _))) _);
      unfold maxDuration, Hour, Minute, Second, Millisecond, Microsecond, Nanosecond; lia.
Defined.

(** A second container that crashed. *)
Lemma waiting_container_panics_witness :
  out_res (exec sample_env (collectPodMetrics "c" (sample_pod [running; mkContainerStatus "vector" None])
    DatanodeRoleKind) tt tt) = Panic.
Proof.
  apply (waiting_container_panics sample_env "c" (sample_pod [running; mkContainerStatus "vector" None])
    DatanodeRoleKind sample_conditions 1000 3000 7000 (mkContainerStatus "vector" None) [running] []);
    try reflexivity. repeat constructor. by eexists.
Defined.

Lemma datanode_groups_unmeasured_witness :
  (DatanodeRoleKind, "c-datanode-read") ∉ measured metrics_cluster false.
Proof.
  apply (datanode_groups_unmeasured metrics_cluster false
    (mkDatanodeSpec (mkComponentSpec None "" None None None) "read" 0 0 None None None)). discriminate.
Defined.
