(* ===== verification/Setup.v ===== *)
(** * controllers/greptimedbcluster/controller.go: the deployers of the reconciler

    The [ComponentOperator]s that [Setup] registers, from the methods of Datanode,
    Meta, Frontend and the generators, and the default ones; and what holds of them
    together. *)

From stdpp Require Import base gmap sets strings list fin_maps.
From Stdlib Require Import ZArith.
From S2P Require Import Prelude GoLib K8s ApiCommon ApiTypes Client ApiServer K8sUtil Deployer.
From S2P Require Import Builder Common Mergo Defaulting Validate Toml DbConfig Cluster Generator.
From S2P Require Import Datanode DatanodeGen Meta MetaGen Frontend FrontendGen FlownodeGen.
From S2P Require Import Reconciler Monitoring Metrics.

(** ** The deployers *)

Section deployers.
Context `{TomlLib} `{VectorLib} `{QuantityLib} `{JsonLib} `{ControllerLib} `{RetryLib} `{SelectorLib}.

Definition MetaDeployer (maintenanceModeWhenCreateCluster : bool) : ComponentOperator CState :=
  mkComponentOperator Meta_Generate DefaultDeployer_Apply DefaultDeployer_CleanUp
    (Meta_CheckAndUpdateStatus maintenanceModeWhenCreateCluster) Meta_PreSyncHooks DefaultDeployer_Hooks.
Definition DatanodeDeployer : ComponentOperator CState :=
  mkComponentOperator Datanode_Generate Datanode_Apply Datanode_CleanUp
    Datanode_CheckAndUpdateStatus DefaultDeployer_Hooks Datanode_PostSyncHooks.
Definition FrontendDeployer : ComponentOperator CState :=
  mkComponentOperator Frontend_Generate DefaultDeployer_Apply DefaultDeployer_CleanUp
    Frontend_CheckAndUpdateStatus DefaultDeployer_Hooks DefaultDeployer_Hooks.
Definition FlownodeDeployer : ComponentOperator CState :=
  mkComponentOperator Flownode_Generate DefaultDeployer_Apply Flownode_CleanUp
    Flownode_CheckAndUpdateStatus DefaultDeployer_Hooks DefaultDeployer_Hooks.

(** The collector's cluster is the one under reconciliation. *)
Definition NewMetricsCollector {S} (emptyNotNil : GreptimeDBCluster -> bool) : M S (M CState unit) :=
  _ ← (ask QNewClient ≫= lift);
  mret (cluster ← get_cluster; CollectClusterPodMetrics cluster (emptyNotNil cluster)).

Definition cluster_reconciler (enableAdmissionWebhook : bool) (collector : M CState unit) : Reconciler :=
  mkReconciler enableAdmissionWebhook
    [MonitoringDeployer; MetaDeployer true; DatanodeDeployer; FrontendDeployer; FlownodeDeployer]
    (Some collector).

Definition Setup {S} (emptyNotNil : GreptimeDBCluster -> bool) (enableAdmissionWebhook : bool) : M S Reconciler :=
  collector ← NewMetricsCollector emptyNotNil;
  mret (cluster_reconciler enableAdmissionWebhook collector).
End deployers.

(** ** Lemmas *)

Section keeps.
Context `{JsonLib} `{RetryLaws} `{SelectorLib}.

Lemma Apply_keeps objects : keeps_cluster (DefaultDeployer_Apply objects).
Proof. apply DefaultDeployer_Apply_preserves, _. Qed.

Lemma checkEtcdService_keeps : keeps_cluster checkEtcdService.
Proof. unfold keeps_cluster, checkEtcdService, get_cluster. solve_preserves. Qed.

Lemma log_UpdateStatus_keeps c : keeps_cluster (log_err (UpdateStatus c)).
Proof. apply preserves_log_err; [apply _|]. apply UpdateStatus_preserves, _. Qed.

Lemma GetIfFound_keeps k key : keeps_cluster (GetIfFound k key).
Proof. apply preserves_GetIfFound, _. Qed.

Lemma Meta_status_keeps b : keeps_cluster (Meta_CheckAndUpdateStatus b).
Proof.
  apply preserves_bind; [apply _|apply keeps_get_cluster|]. intros c.
  apply preserves_bind; [apply _|exact (GetIfFound_keeps KDeployment _)|].
  intros [d|]; [|apply preserves_ret, _].
  apply preserves_bind; [apply _|apply preserves_lift, _|]. intros n.
  apply preserves_bind; [apply _|by apply keeps_update_status|]. intros _.
  apply preserves_bind; [apply _|apply preserves_lift, _|]. intros ready.
  apply preserves_bind; [apply _|apply keeps_get_cluster|]. intros c1.
  apply preserves_bind; [apply _| |].
  - destruct (_ && _); [|apply preserves_ret, _].
    apply preserves_bind; [apply _|apply preserves_lift, _|]. intros url.
    apply preserves_bind; [apply _|apply SetMaintenanceMode_preserves, _|]. intros _.
    by apply keeps_update_status.
  - intros _. apply preserves_bind; [apply _|apply keeps_get_cluster|]. intros c2.
    apply preserves_bind; [apply _|apply log_UpdateStatus_keeps|]. intros _. apply preserves_ret, _.
Qed.

Lemma frontend_deployment_keeps key n : keeps_cluster (frontend_deployment key n).
Proof. unfold keeps_cluster, frontend_deployment, GetIfFound. solve_preserves. Qed.

Lemma frontend_groups_keeps c gs : forall n, keeps_cluster (frontend_groups c gs n).
Proof.
  induction gs as [|g gs IH]; intros n; cbn; [apply preserves_ret, _|].
  apply preserves_bind; [apply _|apply frontend_deployment_keeps|].
  intros [n'|]; [apply IH|apply preserves_ret, _].
Qed.

Lemma Frontend_status_keeps : keeps_cluster Frontend_CheckAndUpdateStatus.
Proof.
  apply preserves_bind; [apply _|apply keeps_get_cluster|]. intros c.
  apply preserves_bind; [apply _| |].
  { destruct (not_nil _); [apply frontend_deployment_keeps|apply preserves_ret, _]. }
  intros [n|]; [|apply preserves_ret, _].
  apply preserves_bind; [apply _|apply frontend_groups_keeps|].
  intros [n'|]; [|apply preserves_ret, _].
  apply preserves_bind; [apply _|by apply keeps_update_status|]. intros _.
  apply preserves_bind; [apply _|apply keeps_get_cluster|]. intros c2.
  apply preserves_bind; [apply _|apply log_UpdateStatus_keeps|]. intros _. apply preserves_ret, _.
Qed.

Lemma Flownode_status_keeps : keeps_cluster Flownode_CheckAndUpdateStatus.
Proof.
  apply preserves_bind; [apply _|apply keeps_get_cluster|]. intros c.
  apply preserves_bind; [apply _|exact (GetIfFound_keeps KStatefulSet _)|].
  intros [d|]; [|apply preserves_ret, _].
  apply preserves_bind; [apply _|apply preserves_lift, _|]. intros n.
  apply preserves_bind; [apply _|by apply keeps_update_status|]. intros _.
  apply preserves_bind; [apply _|apply keeps_get_cluster|]. intros c2.
  apply preserves_bind; [apply _|apply log_UpdateStatus_keeps|]. intros _. apply preserves_lift, _.
Qed.

(** What changes only the status and the flag of the cluster keeps the cluster. *)
Lemma own_flag_keeps {A} (m : M CState A) : preserves own_flag m -> keeps_cluster m.
Proof. intros Hm W env s w. exact (proj1 (Hm W env s w)). Qed.

End keeps.

(** None of the five deployers changes the cluster but for its status. *)
Lemma cluster_deployers_keep `{TomlLib} `{VectorLib} `{QuantityLib} `{JsonLib} `{ControllerLib} `{RetryLaws} `{SelectorLib}
    b collector : deployers_keep (cluster_reconciler b collector).
Proof.
  unfold deployers_keep, cluster_reconciler. cbn [Deployers].
  repeat apply Forall_cons_2; [..|apply Forall_nil_2].
  - exact (Sync_preserves _ MonitoringDeployer Monitoring_Generate_keeps Apply_keeps
      Monitoring_status_keeps (Forall_nil_2 _) (Forall_nil_2 _)).
  - refine (Sync_preserves _ (MetaDeployer true) Meta_Generate_keeps Apply_keeps (Meta_status_keeps true)
      _ (Forall_nil_2 _)). apply Forall_singleton, checkEtcdService_keeps.
  - refine (Sync_preserves _ DatanodeDeployer Datanode_Generate_keeps
      (fun os => own_flag_keeps _ (Datanode_Apply_own_flag os))
      (own_flag_keeps _ Datanode_status_own_flag) (Forall_nil_2 _) _).
    apply Forall_singleton, own_flag_keeps, turnOff_own_flag.
  - exact (Sync_preserves _ FrontendDeployer Frontend_Generate_keeps Apply_keeps Frontend_status_keeps
      (Forall_nil_2 _) (Forall_nil_2 _)).
  - exact (Sync_preserves _ FlownodeDeployer Flownode_Generate_keeps Apply_keeps Flownode_status_keeps
      (Forall_nil_2 _) (Forall_nil_2 _)).
Qed.

(** ** Properties *)

(** The reconciler that [Setup] makes: none of its five deployers, synchronising any
    cluster against any server, changes the cluster's identity, its phase or its spec in
    memory, up to the label and annotation maps that the spec shares with the generated
    objects, so only the reconciler moves the phase; and its collector changes nothing
    and asks for pods and events only. *)
Theorem Setup_deployers_keep `{TomlLib} `{VectorLib} `{QuantityLib} `{JsonLib} `{ControllerLib} `{RetryLaws} `{SelectorLib} emptyNotNil b :
  returns (S := unit) (fun r => deployers_keep r /\ collector_reads r
    /\ forall m, MetricsCollector r = Some m -> logs_only metrics_request m) (Setup emptyNotNil b).
Proof.
  apply (returns_bind (fun m => m = (cluster ← get_cluster; CollectClusterPodMetrics cluster (emptyNotNil cluster)))).
  { apply (returns_bind (fun _ => True)); [apply returns_any|]. intros [] _. by apply returns_ret. }
  intros collector ->. apply returns_ret. split_and!.
  - apply cluster_deployers_keep.
  - intros m [= <-]. apply preserves_bind; [apply _|unfold get_cluster; solve_preserves|].
    intros c. apply CollectClusterPodMetrics_preserves, _.
  - intros m [= <-]. apply logs_only_bind; [unfold get_cluster; by solve_logs|].
    intros c. apply CollectClusterPodMetrics_logs.
Qed.

(** The generators of a cluster, and what each generates. *)
Definition generates `{TomlLib} `{VectorLib} `{QuantityLib} `{JsonLib} `{ControllerLib}
    (kind : RoleKind) (m : M CState (list object)) : Prop :=
  (kind = MetaRoleKind /\ m = Meta_Generate) \/ (kind = DatanodeRoleKind /\ m = Datanode_Generate)
  \/ (kind = FrontendRoleKind /\ m = Frontend_Generate) \/ (kind = FlownodeRoleKind /\ m = Flownode_Generate).

(** *** The names of a role *)

Section names.
Context `{TomlLib} `{VectorLib} `{QuantityLib} `{JsonLib} `{ControllerLib}.
Variable c : GreptimeDBCluster.

Definition of_role (kind : RoleKind) (n : string) : Prop :=
  exists l, n = resource c kind l /\ (l = [] \/ exists x, l = [x]).

Lemma of_role_group kind x : of_role kind (resource c kind [x]).
Proof. exists [x]. eauto. Qed.
Lemma of_role_base kind : of_role kind (resource c kind []).
Proof. exists []. auto. Qed.

(** A component all of whose names are of a role. *)
Definition component_of_role (kind : RoleKind) (x : component) : Prop :=
  Forall (of_role kind) (co_names x) /\ Forall (fun role => GetRoleKind role = kind) (co_configs x)
  /\ Forall (of_role kind) (co_monitors x).

Lemma component_names kind x k n :
  component_of_role kind x ->
  (k, n) ∈ object_keys (cluster_namespace c) (component_segments c x) ->
  (k = KConfigMap /\ nn_Name n = CommonBuilder_VectorConfigName c) \/ of_role kind (nn_Name n).
Proof.
  intros (Hn & Hc & Hm) (_ & l & Hl & Hin)%elem_of_object_keys. unfold component_segments in Hl.
  destruct (decide _) as [_|_]; [by apply elem_of_nil in Hl|].
  rewrite Forall_forall in Hn; rewrite Forall_forall in Hc; rewrite Forall_forall in Hm. rewrite !elem_of_cons, elem_of_nil in Hl.
  destruct Hl as [[= -> ->]|[[= -> ->]|[[= -> ->]|[[= -> ->]|[]]]]]; [by right; apply Hn| |by right; apply Hn|].
  - apply elem_of_app in Hin as [Hin|Hin].
    + apply list_elem_of_fmap in Hin as (role & -> & Hr). right. unfold config_name. rewrite (Hc _ Hr).
      apply of_role_group.
    + destruct (vector_enabled c); [|by apply elem_of_nil in Hin].
      apply list_elem_of_singleton in Hin. by left.
  - destruct (monitored c); [by right; apply Hm|by apply elem_of_nil in Hin].
Qed.

Lemma meta_of_role : component_of_role MetaRoleKind (meta_component c).
Proof.
  split_and!; cbn; apply Forall_map, Forall_true; intros x; try done; apply of_role_base.
Qed.
Lemma flownode_of_role : component_of_role FlownodeRoleKind (flownode_component c).
Proof.
  split_and!; cbn; apply Forall_map, Forall_true; intros x; try done; apply of_role_base.
Qed.
Lemma datanode_of_role : component_of_role DatanodeRoleKind (datanode_component c).
Proof.
  split_and!; cbn; [apply Forall_map, Forall_true; intros; apply of_role_group|by apply Forall_map, Forall_true|].
  unfold datanode_monitors. destruct (GetDatanode _); [apply Forall_singleton, of_role_base|].
  apply Forall_map, Forall_true. intros. apply of_role_group.
Qed.
Lemma frontend_of_role : component_of_role FrontendRoleKind (frontend_component c).
Proof.
  split_and!; cbn; [apply Forall_map, Forall_true; intros; apply of_role_group|by apply Forall_map, Forall_true|].
  unfold frontend_monitors. apply Forall_app. split.
  - destruct (GetFrontend _); cbn; [apply Forall_singleton, of_role_base|constructor].
  - apply Forall_map, Forall_true. intros. apply of_role_group.
Qed.

(** A name tells its role: the four role names differ in their first letters. *)
Lemma of_role_kind kind kind' n :
  kind ∈ [MetaRoleKind; DatanodeRoleKind; FrontendRoleKind; FlownodeRoleKind] ->
  kind' ∈ [MetaRoleKind; DatanodeRoleKind; FrontendRoleKind; FlownodeRoleKind] ->
  of_role kind n -> of_role kind' n -> kind = kind'.
Proof.
  assert (Hsh : forall k, of_role k n -> exists s, n = cluster_name c +:+ "-" +:+ k +:+ s).
  { intros k (l & -> & Hl). apply resource_shape. destruct Hl; eauto. }
  intros Hk Hk' Hr1 Hr2. destruct (Hsh kind Hr1) as [s ->], (Hsh kind' Hr2) as [s' He].
  apply string_app_inj_l in He. injection He as He. clear Hr1 Hr2 Hsh.
  rewrite !elem_of_cons, elem_of_nil in Hk, Hk'.
  destruct Hk as [->|[->|[->|[->|[]]]]], Hk' as [->|[->|[->|[->|[]]]]]; try done; discriminate He.
Qed.
End names.

Lemma generated_names `{TomlLib} `{VectorLib} `{QuantityLib} `{JsonLib} `{ControllerLib}
    `{!ControllerLaws} {W} (env : environment W) c f w kind m objs o :
  generates kind m -> out_res (exec env m (mkCState c f) w) = Ok objs -> o ∈ objs ->
  (o_kind o = KConfigMap /\ object_name o = CommonBuilder_VectorConfigName c)
  \/ kind ∈ [MetaRoleKind; DatanodeRoleKind; FrontendRoleKind; FlownodeRoleKind]
     /\ of_role c kind (object_name o).
Proof.
  intros Hm Hg Ho.
  assert (Hx : exists x raw, component_named c x /\ component_of_role c kind x
    /\ Forall2 (fun P x => P x) (component_objects c x) raw
    /\ Forall2 (fun o o' => prepared (Object KCluster c) o = Ok o') raw objs).
  { destruct Hm as [[-> ->]|[[-> ->]|[[-> ->]|[-> ->]]]].
    - apply meta_generates in Hg as (raw & Hr & Hp). exists (meta_component c), raw.
      split_and!; [apply meta_component_named|apply meta_of_role|done..].
    - apply datanode_generates in Hg as (raw & Hr & Hp). exists (datanode_component c), raw.
      split_and!; [apply datanode_component_named|apply datanode_of_role|done..].
    - apply frontend_generates in Hg as (raw & Hr & Hp). exists (frontend_component c), raw.
      split_and!; [apply frontend_component_named|apply frontend_of_role|done..].
    - apply flownode_generates in Hg as (raw & Hr & Hp). exists (flownode_component c), raw.
      split_and!; [apply flownode_component_named|apply flownode_of_role|done..]. }
  destruct Hx as (x & raw & Hn & Hrole & Hr & Hp).
  destruct (component_generated c x _ raw objs Hn Hr Hp) as [Hk _].
  assert (Hin : kind_key o ∈ map kind_key objs) by (apply list_elem_of_fmap; eauto).
  rewrite Hk in Hin. destruct (component_names c kind x _ _ Hrole Hin) as [[Hc Hv]|Hv]; [by left|right].
  split; [|exact Hv]. destruct Hm as [[-> _]|[[-> _]|[[-> _]|[-> _]]]]; set_solver.
Qed.

(** What is generated is fit for [Apply]. *)
Lemma prepared_annotated_all `{JsonLaws} `{ControllerLaws} owner raw objs :
  Forall2 (fun o o' => prepared owner o = Ok o') raw objs ->
  Forall (fun o => supported (o_kind o) = true) raw -> Forall annotated objs.
Proof.
  intros Hp Hs. induction Hp as [|o o' raw objs Ho _ IH]; [constructor|].
  apply Forall_cons in Hs as [Hk Hs]. constructor; [|by apply IH].
  by destruct (prepared_annotated owner o o' Hk Ho) as (Ha & _).
Qed.

Lemma generated_annotated `{TomlLib} `{VectorLib} `{QuantityLib} `{JsonLaws} `{ControllerLib}
    `{!ControllerLaws} {W} (env : environment W) c f w kind m objs :
  generates kind m -> frontend_names_ok c -> datanode_names_ok c ->
  out_res (exec env m (mkCState c f) w) = Ok objs ->
  NoDup (map kind_key objs) /\ Forall annotated objs
  /\ ((forall p, GetPrometheusMonitor (Some c) = Some p -> pr_Labels p <> Some ∅) -> Forall labels_settle objs).
Proof.
  intros Hm Hf Hd' Hg.
  assert (Hx : exists x raw, component_named c x /\ component_distinct c x
    /\ Forall2 (fun P x => P x) (component_objects c x) raw
    /\ Forall2 (fun o o' => prepared (Object KCluster c) o = Ok o') raw objs).
  { destruct Hm as [[-> ->]|[[-> ->]|[[-> ->]|[-> ->]]]].
    - apply meta_generates in Hg as (raw & Hr & Hp). exists (meta_component c), raw.
      split_and!; [apply meta_component_named|apply meta_component_distinct|done..].
    - apply datanode_generates in Hg as (raw & Hr & Hp). exists (datanode_component c), raw.
      split_and!; [apply datanode_component_named|by apply datanode_component_distinct|done..].
    - apply frontend_generates in Hg as (raw & Hr & Hp). exists (frontend_component c), raw.
      split_and!; [apply frontend_component_named|by apply frontend_component_distinct|done..].
    - apply flownode_generates in Hg as (raw & Hr & Hp). exists (flownode_component c), raw.
      split_and!; [apply flownode_component_named|apply flownode_component_distinct|done..]. }
  destruct Hx as (x & raw & Hn & Hd & Hr & Hp).
  destruct (component_generated c x _ raw objs Hn Hr Hp) as [_ Hk]. split; [by apply Hk|].
  split; [|intros Hmon; by apply (component_labels_settle c x (Object KCluster c) raw)]. eapply prepared_annotated_all; [exact Hp|]. eapply described_all; [|exact Hr].
  apply Forall_forall. intros P HP o Ho. by eapply component_supported.
Qed.

(** The deployers of [Setup] that generate from the cluster's spec. *)
Definition deployer_of `{TomlLib} `{VectorLib} `{QuantityLib} `{JsonLib} `{ControllerLib} `{RetryLib} `{SelectorLib}
    (kind : RoleKind) (op : ComponentOperator CState) : Prop :=
  (kind = MetaRoleKind /\ exists b, op = MetaDeployer b)
  \/ (kind = DatanodeRoleKind /\ op = DatanodeDeployer)
  \/ (kind = FrontendRoleKind /\ op = FrontendDeployer)
  \/ (kind = FlownodeRoleKind /\ op = FlownodeDeployer).

Lemma deployer_generates `{TomlLib} `{VectorLib} `{QuantityLib} `{JsonLib} `{ControllerLib} `{RetryLib} `{SelectorLib}
    kind op : deployer_of kind op -> generates kind (co_Generate op).
Proof.
  intros [[-> [b ->]]|[[-> ->]|[[-> ->]|[-> ->]]]]; [by left|right; by left|right; right; by left|].
  by repeat right.
Qed.

Lemma deployer_applies `{TomlLib} `{VectorLib} `{QuantityLib} `{JsonLib} `{ControllerLib} `{RetryLib} `{SelectorLib}
    kind op :
  deployer_of kind op ->
  (kind = DatanodeRoleKind /\ co_Apply op = Datanode_Apply)
  \/ (kind <> DatanodeRoleKind /\ co_Apply op = DefaultDeployer_Apply).
Proof.
  intros [[-> [b ->]]|[[-> ->]|[[-> ->]|[-> ->]]]]; [by right|by left|by right|by right].
Qed.

(** The stored copy of a StatefulSet has an initializer and a main container. *)
Definition stored_complete {W} (env : environment W) `{!ApiServer env} (w : W) (o : object) : Prop :=
  match o with
  | Object KStatefulSet sts =>
      forall old, stored w KStatefulSet (key_of (sts_ObjectMeta sts)) = Some old ->
        complete_pod (ss_Template (sts_Spec old))
  | _ => True
  end.

Lemma complete_restartable {W} (env : environment W) `{!ApiServer env} s w o :
  every_pod (fun _ => complete_pod) o -> stored_complete env w o -> restartable env s w o.
Proof. destruct o as [[] sts]; try done. intros Hp Hs _. split; [by eapply Hp|exact Hs]. Qed.

(** Generating, for any role and against any server, asks for secrets and for nothing
    else: no object is written before [Apply]. *)
Theorem generators_only_read_secrets `{TomlLib} `{VectorLib} `{QuantityLib} `{JsonLib} `{ControllerLib} kind m :
  generates kind m -> logs_only secret_read m.
Proof.
  intros [[_ ->]|[[_ ->]|[[_ ->]|[_ ->]]]];
    [apply Meta_Generate_logs|apply Datanode_Generate_logs|apply Frontend_Generate_logs|apply Flownode_Generate_logs].
Qed.

(** C21. The deployers do not fight: two objects that different components of a cluster
    generate have different kinds or keys, but for vector's config map. *)
Theorem components_disjoint `{TomlLib} `{VectorLib} `{QuantityLib} `{JsonLib} `{ControllerLib}
    `{!ControllerLaws} {W} (env : environment W) c f w w' kind kind' m m' objs objs' o o' :
  generates kind m -> generates kind' m' -> kind <> kind' ->
  out_res (exec env m (mkCState c f) w) = Ok objs -> out_res (exec env m' (mkCState c f) w') = Ok objs' ->
  o ∈ objs -> o' ∈ objs' -> kind_key o = kind_key o' ->
  o_kind o = KConfigMap /\ object_name o = CommonBuilder_VectorConfigName c.
Proof.
  intros Hm Hm' Hne Hg Hg' Ho Ho' Hk.
  destruct (generated_names env c f w kind m objs o Hm Hg Ho) as [|[Hin Hr]]; [done|].
  destruct (generated_names env c f w' kind' m' objs' o' Hm' Hg' Ho') as [[Hc Hv]|[Hin' Hr']].
  - unfold kind_key, object_key, key_of, object_name in *. injection Hk as Hk _ Hn.
    split; congruence.
  - destruct Hne. eapply (of_role_kind c kind kind'); [done|done|exact Hr|].
    unfold object_name, kind_key, object_key, key_of in *. injection Hk as _ _ ->. exact Hr'.
Qed.

(** C20. From the spec to the server: applying what a deployer (of the metasrv, the
    datanodes, the frontends or the flownodes) generates leaves every generated object up
    to date, and applying it again only reads and succeeds.  The server is healthy and
    accepts the generated objects, and its copies carry a readable annotation.  The
    frontends and the datanodes have an unnamed base and named, distinct groups, and the
    spec's pod monitors do not have a label map that is empty but not nil (such a map is
    patched forever).  For the datanodes, whose deployer may ask the metasrv for
    maintenance mode first, the metasrv accepts and the pods can be compared. *)
Theorem generated_objects_converge `{TomlLib} `{VectorLib} `{QuantityLib} `{JsonLaws} `{ControllerLib}
    `{!ControllerLaws} `{RetryLaws} `{SelectorLib} {W} (env : environment W) c f w kind op objs :
  deployer_of kind op -> frontend_names_ok c -> datanode_names_ok c ->
  (forall p, GetPrometheusMonitor (Some c) = Some p -> pr_Labels p <> Some ∅) ->
  out_res (exec env (co_Generate op) (mkCState c f) w) = Ok objs ->
  forall W' (server : environment W') `{!ApiServer server, !MetasrvServer server} (s : CState) w',
    Forall (comparable server w') objs -> Forall (writable server w') objs ->
    (kind = DatanodeRoleKind -> Forall (stored_complete server w') objs) ->
    exists r s1 w1 log, exec server (co_Apply op objs) s w' = Outcome r s1 w1 log
      /\ (r = Ok tt \/ r = Err ErrSyncNotReady) /\ c_cluster s1 = c_cluster s
      /\ Forall (in_sync server w1) objs
      /\ exists log', exec server (co_Apply op objs) s1 w1 = Outcome (Ok tt) s1 w1 log'
           /\ Forall read_only log'.
Proof.
  intros Hop Hf Hd Hmon Hg W' server ? ? s w' Hcmp Hwr Hst.
  destruct (generated_annotated env c f w kind _ objs (deployer_generates kind op Hop) Hf Hd Hg) as (Hnd & Ha & Hlab).
  specialize (Hlab Hmon). assert (Happ : Forall (appliable server w') objs) by (by unfold appliable; rewrite !Forall_and).
  destruct (deployer_applies kind op Hop) as [[Hk ->]|[Hk ->]].
  - assert (Hcan : Forall (restartable server s w') objs).
    { destruct (deployer_generates kind op Hop) as [[-> _]|[[_ Hgen]|[[-> _]|[-> _]]]]; try done.
      rewrite Hgen in Hg. pose proof (datanode_pods_complete env (mkCState c f) w objs Hg) as Hc.
      specialize (Hst Hk). rewrite Forall_forall in Hc. rewrite Forall_forall in Hst.
      apply Forall_forall. intros o Ho. apply complete_restartable; [exact (Hc o Ho)|exact (Hst o Ho)]. }
    destruct (exec_apply_with_in_sync server same_cluster_object (restartable server)
      datanode_apply_object objs s w' Hnd Ha Happ Hcan) as (r & s1 & w1 & log & He & Hr & HR & Hs).
    exists r, s1, w1, log. split_and!; [done..|].
    exact (exec_apply_with_again server same_cluster_object (restartable server)
      datanode_apply_object objs s1 w1 Hs).
  - destruct (exec_Apply_in_sync server objs s w' Hnd Ha Happ) as (r & w1 & log & He & Hr & Hs).
    exists r, s, w1, log. split_and!; [done..|].
    exact (exec_apply_with_again server eq (fun _ _ _ => True) apply_object objs s w1 Hs).
Qed.

(** ** Witnesses *)

#[local] Existing Instances flat_toml plain_vector any_quantity text_json owner_reference simple_retry.
#[local] Existing Instances owner_reference_laws text_json_laws simple_retry_laws short_values.
#[local] Notation sample := (mkCState (Generator.sample_cluster true) ∅).

Lemma Setup_deployers_keep_witness :
  exists r, out_res (exec fake_env (Setup (fun _ => false) true) tt []) = Ok r /\ deployers_keep r /\ length (Deployers r) = 5.
Proof.
  assert (Hok : is_Ok (out_res (exec fake_env (Setup (fun _ => false) true) tt [])) = true) by (vm_compute; reflexivity).
  destruct (out_res (exec fake_env (Setup (fun _ => false) true) tt [])) as [r|e|] eqn:Hr; [|discriminate Hok..].
  exists r. split; [done|]. destruct (Setup_deployers_keep (fun _ => false) true _ fake_env tt [] r Hr) as (Hk & _ & _).
  split; [exact Hk|]. injection Hr as <-. reflexivity.
Defined.

Lemma generators_only_read_secrets_witness :
  Forall secret_read (out_log (exec fake_env Datanode_Generate sample [])).
Proof. apply (generators_only_read_secrets DatanodeRoleKind). right. by left. Defined.

(** The metasrv's and the datanodes' objects: only vector's config map is in both. *)
Lemma components_disjoint_witness :
  exists objs objs', out_res (exec fake_env Meta_Generate sample []) = Ok objs
    /\ out_res (exec fake_env Flownode_Generate sample []) = Ok objs'
    /\ forall o o', o ∈ objs -> o' ∈ objs' -> kind_key o = kind_key o' -> o_kind o = KConfigMap.
Proof.
  assert (Hok : is_Ok (out_res (exec fake_env Meta_Generate sample [])) = true) by (vm_compute; reflexivity).
  assert (Hok' : is_Ok (out_res (exec fake_env Flownode_Generate sample [])) = true) by (vm_compute; reflexivity).
  destruct (out_res (exec fake_env Meta_Generate sample [])) as [objs|e|] eqn:Hg; [|discriminate Hok..].
  destruct (out_res (exec fake_env Flownode_Generate sample [])) as [objs'|e|] eqn:Hg'; [|discriminate Hok'..].
  exists objs, objs'. split_and!; [done..|]. intros o o' Ho Ho' Hk.
  exact (proj1 (components_disjoint fake_env (Generator.sample_cluster true) ∅ [] [] MetaRoleKind
    FlownodeRoleKind Meta_Generate Flownode_Generate objs objs' o o' (or_introl (conj eq_refl eq_refl))
    (or_intror (or_intror (or_intror (conj eq_refl eq_refl)))) ltac:(discriminate) Hg Hg' Ho Ho' Hk)).
Defined.

(** The datanodes of the cluster, on an empty server. *)
Lemma generated_objects_converge_witness :
  exists objs, out_res (exec fake_env (co_Generate DatanodeDeployer) sample []) = Ok objs /\ length objs = 9
    /\ exists r s1 w1 log, exec fake_env (co_Apply DatanodeDeployer objs) sample [] = Outcome r s1 w1 log
         /\ Forall (in_sync fake_env w1) objs.
Proof.
  assert (Hok : match out_res (exec fake_env (co_Generate DatanodeDeployer) sample []) with
                | Ok objs => bool_decide (length objs = 9) | _ => false end = true) by (vm_compute; reflexivity).
  destruct (out_res (exec fake_env (co_Generate DatanodeDeployer) sample [])) as [objs|e|] eqn:Hg;
    [|discriminate Hok..].
  exists objs. split; [done|]. split; [by apply bool_decide_eq_true in Hok|].
  assert (Hn : frontend_names_ok (Generator.sample_cluster true)).
  { split_and!; [by intros f [= <-]| |apply NoDup_singleton].
    apply Forall_cons_2; [discriminate|apply Forall_nil_2]. }
  assert (Hd : datanode_names_ok (Generator.sample_cluster true)).
  { split_and!; [done|by repeat constructor|]. apply (bool_decide_unpack _). vm_compute. done. }
  assert (Hmon : forall p, GetPrometheusMonitor (Some (Generator.sample_cluster true)) = Some p ->
    pr_Labels p <> Some ∅) by (intros p [= <-]; done).
  destruct (generated_objects_converge fake_env (Generator.sample_cluster true) ∅ [] DatanodeRoleKind
    DatanodeDeployer objs (or_intror (or_introl (conj eq_refl eq_refl)))
    Hn Hd Hmon Hg _ fake_env sample []) as (r & s1 & w1 & log & He & _ & _ & Hs & _).
  - apply Forall_forall. intros o _ old Hold. discriminate Hold.
  - by apply Forall_forall.
  - intros _. apply Forall_forall. intros [[] sts] _; done.
  - exists r, s1, w1, log. split; [exact He|exact Hs].
Defined.
