(* ===== verification/Deletion.v ===== *)
(** * The deletion of a cluster ends

    controller-runtime serves a request again as long as [Reconcile] returns an error
    or asks for it.  Here a cluster with a deletion timestamp is served against a
    server that keeps the clusters, some of whose answers about claims are errors:
    when these errors are finitely many, the deployers clean up, the operator's
    finalizer goes, and the request leaves the queue. *)

From stdpp Require Import base gmap sets strings list fin_maps.
From Stdlib Require Import ZArith Lia.
From S2P Require Import Prelude GoLib K8s ApiCommon ApiTypes Client ApiServer K8sUtil Deployer.
From S2P Require Import Builder Common Mergo Validate Toml Cluster Generator Datanode.
From S2P Require Import Frontend Reconcile Reconciler Setup.

(** ** The queue *)

(** A request is queued again after an error, or when the result says so. *)
Definition requeued (answer : res Result) : bool :=
  match answer with
  | Ok result => rs_Requeue result || (0 <? rs_RequeueAfter result)%Z
  | _ => true
  end.

(** Serving a request at most [fuel] times; [true] when it left the queue. *)
Fixpoint serve (Reconcile : M (gset NamespacedName) Result) (fuel : nat)
    : M (gset NamespacedName) bool :=
  match fuel with
  | O => mret false
  | Datatypes.S fuel =>
      answer ← try Reconcile;
      if requeued answer then serve Reconcile fuel else mret true
  end.

(** ** The server *)

(** A request that writes no cluster. *)
Definition keeps_clusters (q : req) : Prop :=
  match q with
  | QUpdate k _ => k <> KCluster
  | QCreate o | QPatch o _ | QDelete o | QStatusUpdate o => o_kind o <> KCluster
  | _ => True
  end.

(** What a server with one client documents of the clusters it stores: a status update
    computed from the stored object changes its status and nothing else the operator
    reads; an update stores the finalizers it is given, and removes the object when it is
    being deleted and has none left. *)
Class ClusterServer {W} (env : environment W) `{!ApiServer env} := {
  server_key w key c : stored w KCluster key = Some c -> cluster_key c = key;
  server_frame w q key :
    keeps_clusters q -> stored (env q w).2 KCluster key = stored w KCluster key;
  server_status w c old :
    stored w KCluster (cluster_key c) = Some old -> gc_ObjectMeta c = gc_ObjectMeta old ->
    gc_Spec c = gc_Spec old ->
    let a := env (QStatusUpdate (Object KCluster c)) w in
    a.1 = Ok tt /\ exists c', stored a.2 KCluster (cluster_key c) = Some c'
      /\ gc_Status c' = gc_Status c /\ gc_Spec c' = gc_Spec old
      /\ om_Name (gc_ObjectMeta c') = om_Name (gc_ObjectMeta old)
      /\ om_Finalizers (gc_ObjectMeta c') = om_Finalizers (gc_ObjectMeta old)
      /\ om_DeletionTimestamp (gc_ObjectMeta c') = om_DeletionTimestamp (gc_ObjectMeta old);
  server_update w c old :
    stored w KCluster (cluster_key c) = Some old ->
    om_DeletionTimestamp (gc_ObjectMeta c) = om_DeletionTimestamp (gc_ObjectMeta old) ->
    let a := env (QUpdate KCluster c) w in
    exists c', a.1 = Ok c'
      /\ om_Finalizers (gc_ObjectMeta c') = om_Finalizers (gc_ObjectMeta c)
      /\ stored a.2 KCluster (cluster_key c) = if gone (gc_ObjectMeta c) then None else Some c' }.

(** The errors about claims that the server has left to answer. *)
Class ClaimErrors {W} (env : environment W) (left : W -> nat) := {
  errors_bounded q w : left (env q w).2 <= left w;
  list_or_error ns sel w :
    let a := env (QList KPVC ns sel) w in
    (exists claims, a.1 = Ok claims) \/ (exists e, a.1 = Err e /\ left a.2 < left w);
  delete_or_error pvc w :
    let a := env (QDelete (Object KPVC pvc)) w in
    a.1 = Ok tt \/ (exists e, a.1 = Err e /\ left a.2 < left w) }.

(** ** Specification *)

(** The finalizers without the operator's. *)
Definition other_finalizers (l : list string) : list string :=
  filter (fun f => f <> greptimedbClusterFinalizer) l.

(** The end of a deletion: the finalizer is gone, and so is a cluster that had no other. *)
Definition finalized {W} (env : environment W) `{!ApiServer env} (key : NamespacedName)
    (finalizers : list string) (w : W) : Prop :=
  match stored w KCluster key with
  | Some c => om_Finalizers (gc_ObjectMeta c) = other_finalizers finalizers
              /\ other_finalizers finalizers <> []
  | None => other_finalizers finalizers = []
  end.

(** ** Lemmas *)

Section clean_up.
Context {W : Type} (env : environment W) (left : W -> nat) `{!ClaimErrors env left}.

(** A computation that leaves the memory alone and fails only by an error of the server. *)
Definition cleans_up_at {S} (s : S) (m : M S unit) : Prop :=
  forall w, let o := exec env m s w in
    out_st o = s /\ left (out_world o) <= left w
    /\ (out_res o = Ok tt \/ exists e, out_res o = Err e /\ left (out_world o) < left w).

Lemma cleans_up_ret {S} (s : S) : cleans_up_at s (mret tt).
Proof. intros w. split; [done|]. split; [done|by left]. Qed.

Lemma cleans_up_bind {S} (s : S) (m n : M S unit) :
  cleans_up_at s m -> cleans_up_at s n -> cleans_up_at s (_ ← m; n).
Proof.
  intros Hm Hn w. rewrite exec_bind. destruct (Hm w) as (Hs & Hl & Hr).
  destruct (exec env m s w) as [r s1 w1 l1]; cbn [out_res out_st out_world out_log] in *. subst s1.
  destruct Hr as [->|(e & -> & He)]; cbn [out_res out_st out_world out_log];
    [|split_and!; [done..|right; eauto]].
  destruct (Hn w1) as (Hs2 & Hl2 & Hr2). unfold prepend. cbn [out_res out_st out_world].
  split; [done|]. split; [lia|]. destruct Hr2 as [?|(e & ? & ?)]; [by left|right]. exists e. split; [done|lia].
Qed.

Lemma cleans_up_range {S A} (s : S) (f : A -> M S unit) l :
  Forall (fun x => cleans_up_at s (f x)) l -> cleans_up_at s (range f l).
Proof.
  induction 1 as [|x l Hx _ IH]; [apply cleans_up_ret|]. cbn [range]. by apply cleans_up_bind.
Qed.

(** The claims of a target whose selector is accepted. *)
Lemma cleans_up_deleteStorage `{SelectorLib} {S} ns fs t (s : S) :
  selectors_accepted (storage_target fs t) ->
  cleans_up_at s (when (delete_policy fs) (deleteStorage ns t.1 t.2)).
Proof.
  unfold storage_target. destruct (delete_policy fs); [|intros _; apply cleans_up_ret].
  intros Hsel w. apply Forall_cons in Hsel as [Hsel _]. cbn [when]. unfold deleteStorage, GetPVCs, LabelSelectorAsSelector.
  rewrite exec_bind, exec_bind, exec_lift, Hsel. set (sel := pvc_selector t.1 t.2).
  cbn [out_res out_st out_world out_log prepend app].
  change (@exec S W (list PersistentVolumeClaim)) with (@exec S W (list (obj KPVC))). rewrite exec_List.
  pose proof (errors_bounded (QList KPVC ns sel) w) as Hb.
  destruct (list_or_error ns sel w) as [(l & Hl)|(e & He & Hlt)]; rewrite ?Hl, ?He;
    unfold prepend; cbn [out_res out_st out_world out_log]; [|split_and!; [done..|right; eauto]].
  assert (Hr : cleans_up_at s (range (fun pvc : PersistentVolumeClaim => Delete (Object KPVC pvc)) l)).
  { apply cleans_up_range, Forall_true. intros pvc w1. rewrite exec_Delete. cbn [out_res out_st out_world].
    pose proof (errors_bounded (QDelete (Object KPVC pvc)) w1). pose proof (delete_or_error pvc w1).
    split_and!; naive_solver. }
  destruct (Hr (env (QList KPVC ns sel) w).2) as (Hs & Hl2 & Hr2).
  split; [done|]. split; [lia|].
  destruct Hr2 as [?|(e & ? & ?)]; [by left|right]. exists e. split; [done|lia].
Qed.

Lemma cleans_up_group `{SelectorLib} {S} c g (s : S) :
  selectors_accepted (group_targets c g) -> cleans_up_at s (cleanup_group c g).
Proof.
  unfold cleanup_group, group_targets.
  destruct (DatanodeSpec_GetFileStorage _); [|intros _; apply cleans_up_ret].
  destruct (FileStorage_IsUseEmptyDir _); [intros _; apply cleans_up_ret|].
  apply (cleans_up_deleteStorage _ _ (_, _)).
Qed.

Lemma cleans_up_rest `{SelectorLib} {S} c (s : S) :
  selectors_accepted (rest_targets c) -> cleans_up_at s (cleanup_rest c).
Proof.
  unfold rest_targets, selectors_accepted. rewrite !Forall_app. intros (Hg & Hwal & Hcache).
  unfold cleanup_rest. cbv zeta. apply cleans_up_bind.
  - apply cleans_up_range. apply Forall_concat in Hg. rewrite Forall_map in Hg.
    eapply Forall_impl; [exact Hg|]. intros g. apply cleans_up_group.
  - apply cleans_up_bind; by apply (cleans_up_deleteStorage _ _ (_, _)).
Qed.

Lemma cleans_up_datanode `{SelectorLib} s :
  selectors_accepted (cleanup_targets (c_cluster s)) -> cleans_up_at s Datanode_CleanUp.
Proof.
  intros Hsel w. unfold Datanode_CleanUp. rewrite exec_bind, exec_get_cluster. cbn [out_res out_st out_world].
  unfold prepend. cbn [out_res out_st out_world app]. revert w. unfold cleanup_targets in Hsel.
  destruct (DatanodeSpec_GetFileStorage _) as [fs|]; [|by apply cleans_up_rest].
  destruct (FileStorage_IsUseEmptyDir _); [apply cleans_up_ret|].
  apply Forall_app in Hsel as [Hb Hr]. apply cleans_up_bind; [|by apply cleans_up_rest].
  by apply (cleans_up_deleteStorage _ _ (_, _)).
Qed.
End clean_up.

(** The targets of a clean-up are read off the spec and the name. *)
Lemma same_targets c c' :
  gc_Spec c' = gc_Spec c -> om_Name (gc_ObjectMeta c') = om_Name (gc_ObjectMeta c) ->
  cleanup_targets c' = cleanup_targets c.
Proof.
  destruct c as [m s t], c' as [m' s' t']. cbn. intros -> Hn.
  unfold cleanup_targets, rest_targets, group_targets, datanode_base_resource, datanode_resource. cbn. by rewrite Hn.
Qed.

Section server.
Context `{QuantityLib, OpaqueMerge, MergoLib, TomlUnmarshal} `{RetryLaws} `{FinalizerLaws} `{MapOrder}.
Context {W : Type} (env : environment W) `{!ApiServer env, !ClusterServer env}.
Context (left : W -> nat) `{!ClaimErrors env left}.

Lemma left_decreases {S A} (m : M S A) s w : left (out_world (exec env m s w)) <= left w.
Proof.
  apply (logs_only_world env (fun _ => True) (fun w' => left w' <= left w)); [|intros q w' _ Hl|done].
  - intros W' env' s' w'. apply Forall_true. done.
  - pose proof (errors_bounded (left := left) q w'). lia.
Qed.

(** Setting the phase of a stored cluster reaches the server. *)
Lemma updateClusterStatus_stored p c m w :
  stored w KCluster (cluster_key c) = Some c -> phase_of c <> p ->
  let o := exec env (updateClusterStatus p) (mkCState c m) w in
  out_res o = Ok tt /\ exists c', stored (out_world o) KCluster (cluster_key c) = Some c'
    /\ phase_of c' = p /\ om_Finalizers (gc_ObjectMeta c') = om_Finalizers (gc_ObjectMeta c)
    /\ om_DeletionTimestamp (gc_ObjectMeta c') = om_DeletionTimestamp (gc_ObjectMeta c)
    /\ cleanup_targets c' = cleanup_targets c.
Proof.
  intros Hst Hp. unfold updateClusterStatus. rewrite exec_bind, exec_get_cluster. cbn.
  rewrite decide_False by done. rewrite exec_bind, exec_update_status. cbn [out_res out_st out_world out_log]. set (s1 := mkCState _ _).
  rewrite exec_bind, exec_get_cluster. cbn [out_res out_st out_world out_log]. rewrite exec_bind.
  assert (He : exists w1 l1, exec env (recordNormalEventByPhase (c_cluster s1)) s1 w = Outcome (Ok tt) s1 w1 l1
                 /\ stored w1 KCluster (cluster_key c) = stored w KCluster (cluster_key c)).
  { unfold recordNormalEventByPhase. repeat case_decide; rewrite ?exec_Event, ?exec_ret; eexists _, _;
      (split; [done|]); [by apply server_frame..|done]. }
  destruct He as (w1 & l1 & -> & Hw1). cbn [out_res out_st out_world out_log]. rewrite Hst in Hw1.
  set (c1 := c_cluster s1). set (a := env (QStatusUpdate (Object KCluster c1)) w1).
  pose proof (server_status w1 c1 c Hw1 eq_refl eq_refl) as (Ha & c' & Hc' & Hs' & Hsp & Hn & Hf & Hd). fold a in Ha, Hc'.
  assert (Ho : exists l, exec env (UpdateStatus c1) s1 w1 = Outcome (Ok tt) s1 a.2 l).
  { assert (Hop : exec env (cluster ← Get KCluster (cluster_key c1);
       StatusUpdate (Object KCluster (set_Status (gc_Status c1) cluster))) s1 w1
       = Outcome (Ok tt) s1 a.2
           [ev (QGet KCluster (cluster_key c1)) (Ok c); ev (QStatusUpdate (Object KCluster c1)) (Ok tt)]).
    { rewrite exec_bind. change (@exec CState W GreptimeDBCluster) with (@exec CState W (obj KCluster)).
      rewrite exec_Get, server_get. change (cluster_key c1) with (cluster_key c). rewrite Hw1.
      cbn [out_res out_st out_world out_log fst snd].
      change (set_Status (gc_Status c1) c) with c1. rewrite exec_StatusUpdate. fold a. by rewrite Ha. }
    eexists. unfold UpdateStatus. rewrite RetryOnConflict_first; rewrite Hop; done. }
  destruct Ho as [l ->]. unfold prepend. cbn [out_res out_st out_world out_log]. split; [done|]. exists c'. split_and!; [exact Hc'| |done|done|].
  - unfold phase_of. rewrite Hs'. done.
  - by apply same_targets.
Qed.

Variable r : Reconciler.
Variable ok : GreptimeDBCluster -> Prop.
Hypothesis ok_targets : forall c c', cleanup_targets c' = cleanup_targets c -> ok c -> ok c'.
Hypothesis deployers_clean : forall c m, ok c ->
  cleans_up_at env left (mkCState c m) (range co_CleanUp (Deployers r)).
Hypothesis deployers_write_claims :
  logs_only (fun e => keeps_clusters (projT1 e)) (range co_CleanUp (Deployers r)).

(** A cluster being deleted, with the finalizers it had, whose claims can be listed. *)
Definition being_deleted (key : NamespacedName) (finalizers : list string) (w : W) : Prop :=
  exists c, stored w KCluster key = Some c /\ om_Finalizers (gc_ObjectMeta c) = finalizers
    /\ om_DeletionTimestamp (gc_ObjectMeta c) <> None /\ ok c.

(** How far the deletion is: the phase to set, and the errors to come. *)
Definition remaining (key : NamespacedName) (w : W) : nat :=
  left w + match stored w KCluster key with
           | Some c => if decide (phase_of c = PhaseTerminating) then 0 else 1
           | None => 0
           end.

Lemma removal_stored key finalizers c c1 m w :
  stored w KCluster key = Some c -> om_Finalizers (gc_ObjectMeta c) = finalizers ->
  om_DeletionTimestamp (gc_ObjectMeta c) <> None ->
  c1 = set_ClusterMeta (RemoveFinalizer (gc_ObjectMeta c) greptimedbClusterFinalizer) c ->
  let o := exec env update_object (mkCState c1 m) w in
  out_res o = Ok tt /\ finalized env key finalizers (out_world o).
Proof.
  intros Hst Hf Hd -> o. set (c1 := set_ClusterMeta _ c) in o.
  assert (Hkey : cluster_key c1 = key).
  { rewrite <- (server_key w key c Hst). unfold c1, cluster_key. cbn. by rewrite remove_finalizer. }
  rewrite <- Hkey in Hst.
  assert (Hdel : om_DeletionTimestamp (gc_ObjectMeta c1) = om_DeletionTimestamp (gc_ObjectMeta c))
    by (unfold c1; cbn; by rewrite remove_finalizer).
  assert (Hfin : om_Finalizers (gc_ObjectMeta c1) = other_finalizers finalizers)
    by (unfold c1; cbn; rewrite remove_finalizer; cbn; by rewrite Hf).
  destruct (server_update w c1 c Hst Hdel) as (c' & Ha & Hf' & Hw').
  unfold o. rewrite exec_update_object. cbn [c_cluster]. cbn zeta. rewrite Ha. cbn [out_res out_world]. split; [done|].
  unfold finalized. rewrite <- Hkey, Hw'. unfold gone. rewrite Hdel, Hfin.
  destruct (om_DeletionTimestamp (gc_ObjectMeta c)); [|done]. cbn. case_bool_decide; [done|].
  split; [congruence|done].
Qed.

(** One service of the request: the deletion is over, or there is less to do. *)
Lemma Reconcile_round key finalizers m w :
  being_deleted key finalizers w -> greptimedbClusterFinalizer ∈ finalizers ->
  let o := exec env (Reconcile r key) m w in
  (out_res o = Ok no_requeue /\ finalized env key finalizers (out_world o))
  \/ (out_res o <> Panic /\ requeued (out_res o) = true /\ being_deleted key finalizers (out_world o)
      /\ remaining key (out_world o) < remaining key w).
Proof.
  intros (c & Hst & Hf & Hd & Hok0) Hin. pose proof (server_key w key c Hst) as Hkey.
  assert (Hget : env (QGet KCluster key) w = (Ok c, w)) by (by rewrite server_get, Hst).
  cbn zeta. rewrite (exec_Reconcile_deleted r env key m w c); [|by rewrite Hget|done]. rewrite Hget.
  cbn [out_res out_world fst snd]. rewrite (exec_delete r env). cbn [c_cluster].
  rewrite Hf, bool_decide_eq_false_2 by (by intros []).
  assert (Hrem : remaining key w = left w + if decide (phase_of c = PhaseTerminating) then 0 else 1)
    by (unfold remaining; by rewrite Hst).
  case_bool_decide as Hp.
  - right. cbn zeta. cbn [out_res out_world]. rewrite decide_False in Hrem by done.
    destruct (updateClusterStatus_stored PhaseTerminating c m w) as (Hok & c' & Hc' & Hp' & Hf' & Hd' & Ht');
      [by rewrite Hkey|done|]. rewrite Hkey in Hc'. rewrite Hok. split; [done|]. split; [done|].
    split; [exists c'; split_and!; [done|congruence|congruence|by apply (ok_targets c)]|]. rewrite Hrem. unfold remaining.
    rewrite Hc', decide_True by done.
    pose proof (left_decreases (updateClusterStatus PhaseTerminating) (mkCState c m) w). lia.
  - destruct (decide (phase_of c = PhaseTerminating)) as [_|]; [|by destruct Hp].
    destruct (deployers_clean c m Hok0 w) as (Hs & Hl & Hr). cbn zeta.
    assert (Hw : stored (out_world (exec env (range co_CleanUp (Deployers r)) (mkCState c m) w)) KCluster key
                 = Some c).
    { apply (logs_only_world env _ (fun w => stored w KCluster key = Some c) _ deployers_write_claims);
        [|done]. intros q w' Hq Hw'. by rewrite server_frame. }
    destruct (exec env (range co_CleanUp (Deployers r)) (mkCState c m) w) as [res s1 w1 l1].
    cbn [out_res out_st out_world out_log] in *. subst s1. cbn [c_cluster c_maintenance].
    destruct Hr as [->|(e & -> & He)].
    + left. destruct (removal_stored key finalizers c _ m w1 Hw Hf Hd eq_refl) as [Hu Hfin].
      unfold prepend. cbn [out_res out_world]. by rewrite Hu.
    + right. cbn [out_res out_world]. split; [done|]. split; [done|]. split; [by exists c|].
      rewrite Hrem. unfold remaining. rewrite Hw. destruct (decide _) as [_|[]]; [lia|].
      by destruct (decide (phase_of c = PhaseTerminating)) as [|Hn]; [|destruct Hp].
Qed.

Lemma serve_finalizes key finalizers : forall fuel m w,
  being_deleted key finalizers w -> greptimedbClusterFinalizer ∈ finalizers ->
  remaining key w < fuel ->
  let o := exec env (serve (Reconcile r key) fuel) m w in
  out_res o = Ok true /\ finalized env key finalizers (out_world o).
Proof.
  induction fuel as [|fuel IH]; intros m w Hb Hin Hlt; [lia|]. cbn [serve].
  rewrite exec_bind, exec_try. destruct (Reconcile_round key finalizers m w Hb Hin)
    as [[Hr Hf]|(Hp & Hr & Hb' & Hlt')];
    destruct (exec env (Reconcile r key) m w) as [res m1 w1 l1]; cbn [out_res out_st out_world out_log] in *.
  - subst res. cbn [out_res out_st out_world out_log]. change (requeued (Ok no_requeue)) with false. cbv iota.
    rewrite exec_ret. done.
  - destruct (IH m1 w1 Hb' Hin) as [Hok Hf]; [lia|].
    destruct res as [x|e|]; [| |done]; cbn [out_res out_st out_world out_log]; rewrite Hr; by split.
Qed.
End server.

(** ** The operator's deployers *)

Section deployers.
Context `{TomlLib} `{VectorLib} `{QuantityLib} `{JsonLib} `{ControllerLib} `{RetryLib} `{SelectorLib}.

Lemma cluster_deployers_clean {W} (env : environment W) (left : W -> nat) `{!ClaimErrors env left} b collector s :
  selectors_accepted (cleanup_targets (c_cluster s)) ->
  cleans_up_at env left s (range co_CleanUp (Deployers (cluster_reconciler b collector))).
Proof.
  intros Hsel. cbn [range Deployers cluster_reconciler]. repeat apply cleans_up_bind; try apply cleans_up_ret.
  by apply cleans_up_datanode.
Qed.

Lemma cluster_deployers_state {W} (env : environment W) b collector s w :
  out_st (exec env (range co_CleanUp (Deployers (cluster_reconciler b collector))) s w) = s.
Proof.
  symmetry. revert W env s w. change (preserves eq
    (range co_CleanUp (Deployers (cluster_reconciler b collector)))).
  cbn [range Deployers cluster_reconciler].
  repeat (apply preserves_bind; [apply _| |intros _]); try apply preserves_ret, _.
  intros W env s w. symmetry. apply (CleanUp_run env s w).
Qed.

Lemma cleanup_run_claims ns ts log r :
  cleanup_run ns ts log r -> Forall (fun e => keeps_clusters (projT1 e)) log.
Proof.
  assert (Hd : forall (l : list PersistentVolumeClaim), Forall (fun e : event => keeps_clusters (projT1 e))
    (map (delete_event (Ok tt)) l)) by (intros l; by apply Forall_map, Forall_true).
  induction 1; repeat first [apply Forall_cons; split; [done|] | apply Forall_app; split | done | apply Hd].
Qed.

Lemma cluster_deployers_write_claims b collector :
  logs_only (fun e => keeps_clusters (projT1 e))
    (range co_CleanUp (Deployers (cluster_reconciler b collector))).
Proof.
  cbn [range Deployers cluster_reconciler].
  repeat (apply logs_only_bind; [|intros _]); try apply logs_only_ret.
  intros W env s w. destruct (CleanUp_run env s w) as [Hr _]. by eapply cleanup_run_claims.
Qed.
(** A clean-up whose first selector is refused. *)
Lemma blocked_cleanup {W} (env : environment W) `{!ApiServer env, !ClusterServer env} b collector s w t ts e :
  cleanup_targets (c_cluster s) = t :: ts -> selector_error (pvc_selector t.1 t.2) = Some e ->
  let o := exec env (range co_CleanUp (Deployers (cluster_reconciler b collector))) s w in
  out_res o = Err e /\ out_st o = s
  /\ forall key, stored (out_world o) KCluster key = stored w KCluster key.
Proof.
  intros Ht He. cbn zeta. split; [|split; [by apply cluster_deployers_state|]].
  - change (range co_CleanUp (Deployers (cluster_reconciler b collector)))
      with (mret tt ≫= fun _ : unit => mret tt ≫= fun _ : unit => Datanode_CleanUp ≫= fun _ : unit =>
              range co_CleanUp [FrontendDeployer; FlownodeDeployer]).
    rewrite exec_bind, exec_ret. cbn [out_res out_st out_world out_log].
    rewrite exec_bind, exec_ret. cbn [out_res out_st out_world out_log].
    unfold prepend. cbn [out_res]. rewrite exec_bind.
    destruct (CleanUp_run env s w) as [Hr _]. rewrite Ht in Hr.
    destruct (exec env Datanode_CleanUp s w) as [r s1 w1 l1]. cbn [out_res out_log] in *.
    inversion Hr; subst; try congruence. cbn [out_res]. congruence.
  - intros key. apply (logs_only_world env (fun ev => keeps_clusters (projT1 ev))
      (fun w' => stored w' KCluster key = stored w KCluster key) _ (cluster_deployers_write_claims b collector));
      [|done]. intros q w' Hq Hw'. by rewrite server_frame.
Qed.
End deployers.

(** ** Properties *)

(** C2. The deletion of a cluster terminates: against a server that keeps the clusters and
    answers at most [left w] requests about claims with an error, serving the request of
    a cluster being deleted at most [2 + left w] times takes it out of the queue, with the
    operator's finalizer removed and the cluster gone when it had no other finalizer.  The
    selectors of the claims to delete are accepted: a resource name of more than 63
    characters is not, and then the deletion never ends. *)
Theorem deletion_terminates `{TomlLib} `{VectorLib} `{QuantityLib} `{JsonLib} `{ControllerLib}
    `{OpaqueMerge, MergoLib, TomlUnmarshal, MapOrder} `{RetryLaws} `{FinalizerLaws} `{SelectorLib}
    {W} (env : environment W) `{!ApiServer env, !ClusterServer env} left `{!ClaimErrors env left}
    b collector key c m w fuel :
  stored w KCluster key = Some c -> om_DeletionTimestamp (gc_ObjectMeta c) <> None ->
  greptimedbClusterFinalizer ∈ om_Finalizers (gc_ObjectMeta c) ->
  selectors_accepted (cleanup_targets c) ->
  2 + left w <= fuel ->
  let o := exec env (serve (Reconcile (cluster_reconciler b collector) key) fuel) m w in
  out_res o = Ok true /\ finalized env key (om_Finalizers (gc_ObjectMeta c)) (out_world o).
Proof.
  intros Hst Hd Hin Hsel Hfuel.
  apply (serve_finalizes env left _ (fun c => selectors_accepted (cleanup_targets c)));
    [by intros c1 c2 ->|
     intros c1 m1; by apply (cluster_deployers_clean env left b collector (mkCState c1 m1))| |by exists c|done|].
  - apply cluster_deployers_write_claims.
  - unfold remaining. rewrite Hst. case_decide; lia.
Qed.

(** A refused selector blocks the deletion: the clean-up fails before its first request,
    however often the request is served; the cluster keeps the finalizer. *)
Theorem refused_selector_blocks_deletion `{TomlLib} `{VectorLib} `{QuantityLib} `{JsonLib} `{ControllerLib}
    `{OpaqueMerge, MergoLib, TomlUnmarshal, MapOrder} `{RetryLaws} `{FinalizerLaws} `{SelectorLib}
    {W} (env : environment W) `{!ApiServer env, !ClusterServer env} b collector key c m w t ts e fuel :
  stored w KCluster key = Some c -> om_DeletionTimestamp (gc_ObjectMeta c) <> None ->
  greptimedbClusterFinalizer ∈ om_Finalizers (gc_ObjectMeta c) -> phase_of c = PhaseTerminating ->
  cleanup_targets c = t :: ts -> selector_error (pvc_selector t.1 t.2) = Some e ->
  let o := exec env (serve (Reconcile (cluster_reconciler b collector) key) fuel) m w in
  out_res o = Ok false /\ stored (out_world o) KCluster key = Some c.
Proof.
  intros Hst Hd Hin Hp Ht He. cbn zeta. revert m w Hst.
  induction fuel as [|fuel IH]; intros m w Hst; cbn [serve]; [done|].
  assert (Hround : exists w1 l1, exec env (Reconcile (cluster_reconciler b collector) key) m w
    = Outcome (Err e) m w1 l1 /\ stored w1 KCluster key = Some c).
  { assert (Hget : env (QGet KCluster key) w = (Ok c, w)) by (by rewrite server_get, Hst).
    rewrite (exec_Reconcile_deleted _ env key m w c) by (by rewrite ?Hget). rewrite Hget.
    cbn [fst snd]. rewrite (exec_delete _ env). cbn zeta. cbn [c_cluster].
    rewrite bool_decide_eq_false_2 by (by intros []). rewrite bool_decide_eq_false_2 by (by intros []).
    destruct (blocked_cleanup env b collector (mkCState c m) w t ts e Ht He) as (Hr & Hs & Hw).
    destruct (exec env (range co_CleanUp _) _ w) as [r s1 w1 l1]. cbn [out_res out_st out_world out_log] in *.
    subst r s1. eexists _, _. split; [reflexivity|]. by rewrite Hw. }
  destruct Hround as (w1 & l1 & Hr & Hst1). rewrite exec_bind, exec_try, Hr.
  cbn [out_res out_st out_world out_log]. exact (IH m w1 Hst1).
Qed.

(** No service of a cluster being deleted touches the maintenance flags: the flag a
    restart of its pods armed outlives the cluster, for the next one of that name. *)
Theorem deletion_keeps_maintenance `{TomlLib} `{VectorLib} `{QuantityLib} `{JsonLib} `{ControllerLib}
    `{OpaqueMerge, MergoLib, TomlUnmarshal, MapOrder} `{RetryLaws} `{FinalizerLaws} `{SelectorLib}
    {W} (env : environment W) b collector key c m w :
  (env (QGet KCluster key) w).1 = Ok c -> om_DeletionTimestamp (gc_ObjectMeta c) <> None ->
  out_st (exec env (Reconcile (cluster_reconciler b collector) key) m w) = m.
Proof.
  intros Hc Hd. rewrite (exec_Reconcile_deleted _ env key m w c Hc Hd). cbn [out_st].
  set (w' := (env _ w).2). rewrite (exec_delete _ env). cbn zeta.
  case_bool_decide; [done|]. case_bool_decide; cbn [out_st].
  - by rewrite updateClusterStatus_state.
  - pose proof (cluster_deployers_state env b collector (mkCState c m) w') as Hs.
    destruct (exec env (range co_CleanUp _) _ w') as [[[]|e|] s1 w1 l1];
      cbn [out_res out_st out_world out_log] in *; subst s1; [|done..].
    unfold prepend. rewrite exec_update_object. cbn [out_st]. cbn zeta.
    by destruct (env _ w1).1.
Qed.

(** ** Witness: a server whose first lists time out *)

Definition flaky_env : environment (nat * list object) := fun q =>
  match q as q return nat * list object -> resp q * (nat * list object) with
  | QList k ns sel => fun w =>
      match w.1 with
      | O => (Ok (list_obj w.2 k ns sel), w)
      | Datatypes.S n => (Err (Errorf "timeout"), (n, w.2))
      end
  | q => fun w => ((fake_env q w.2).1, (w.1, (fake_env q w.2).2))
  end.

#[local] Program Instance flaky_ApiServer : ApiServer flaky_env := {|
  stored w k key := find_obj w.2 k key; accepts _ _ _ := true |}.
Next Obligation. intros [n w] k key. done. Qed.
Next Obligation.
  intros [n w] o _ _. exists (n, stored_copy o :: w). destruct (find_stored_copy o w) as (o' & ?). by exists o'.
Qed.
Next Obligation.
  intros [n w] o old _ _. exists (n, stored_copy o :: w). destruct (find_stored_copy o w) as (o' & ?). by exists o'.
Qed.
Next Obligation. done. Qed.

#[local] Instance flaky_ClusterServer : ClusterServer flaky_env.
Proof.
  split.
  - intros [n w] key c. apply find_obj_key.
  - intros [n w] q key Hq.
    assert (Hne : forall o, o_kind o <> KCluster -> (KCluster, key) <> (o_kind o, object_key o))
      by (intros o Ho [= ? ?]; by destruct Ho).
    destruct q as [|k0 key0|k0 ns sel|o|k0 x|o old|o|o| | | | | | | | | | |]; try done.
    + by destruct n.
    + destruct (find_stored_copy o w) as (o' & _ & _ & _ & Hu). exact (Hu KCluster key (Hne o Hq)).
    + pose proof (Hne (Object k0 x) Hq) as Hx.
      change (find_obj (if gone (obj_meta x) then remove_obj (Object k0 x) w else Object k0 x :: w) KCluster key
              = find_obj w KCluster key).
      destruct (gone _); [exact (find_obj_kept _ w KCluster key Hx)|exact (find_obj_ne _ w KCluster key Hx)].
    + destruct (find_stored_copy o w) as (o' & _ & _ & _ & Hu). exact (Hu KCluster key (Hne o Hq)).
    + exact (find_obj_kept o w KCluster key (Hne o Hq)).
    + exact (find_obj_ne o w KCluster key (Hne o Hq)).
  - intros [n w] c old Hst Hm Hs. cbn zeta. split; [done|]. exists c.
    split; [apply (find_obj_eq (Object KCluster c))|]. by rewrite Hm, Hs.
  - intros [n w] c old Hst Hd. exists c. split; [done|]. split; [done|].
    change (find_obj (if gone (gc_ObjectMeta c) then remove_obj (Object KCluster c) w
                      else Object KCluster c :: w) KCluster (cluster_key c)
            = if gone (gc_ObjectMeta c) then None else Some c).
    destruct (gone _); [apply (find_obj_removed (Object KCluster c))|apply (find_obj_eq (Object KCluster c))].
Qed.

#[local] Instance flaky_ClaimErrors : ClaimErrors flaky_env fst.
Proof.
  split.
  - intros [] [n w]; cbn; try done. destruct n; cbn; lia.
  - intros ns sel [[|n] w]; [left; eexists; reflexivity|right]. eexists. split; [reflexivity|cbn; lia].
  - intros pvc [n w]. by left.
Qed.

(** A running cluster that was deleted, with a claim of its WAL. *)
Definition doomed_cluster : GreptimeDBCluster :=
  mkGreptimeDBCluster
    (mkObjectMeta "c" "default" None ∅ [greptimedbClusterFinalizer] [] 1 "7" (Some 100%Z))
    (gc_Spec wal_groups_cluster) (set_Phase "" PhaseRunning 1 zero_ClusterStatus).

#[local] Existing Instances flat_toml plain_vector any_quantity text_json owner_reference
  any_toml keep_opaque documented_mergo in_order simple_retry simple_retry_laws
  list_finalizers list_finalizers_laws short_values.

(** Three lists time out: the request is served five times. *)
Lemma deletion_terminates_witness :
  let key := mkNamespacedName "default" "c" in
  let w := (3, [Object KCluster doomed_cluster]) in
  let o := exec flaky_env (serve (Reconcile (cluster_reconciler false (mret tt)) key) 5) ∅ w in
  out_res o = Ok true /\ stored (out_world o) KCluster key = None.
Proof.
  intros key w o.
  destruct (deletion_terminates flaky_env fst false (mret tt) key doomed_cluster ∅ w 5) as [Hr Hf];
    [reflexivity|discriminate|by left|by repeat constructor|cbn; lia|]. split; [exact Hr|].
  unfold finalized in Hf. fold o in Hf. destruct (stored (out_world o) KCluster key); [|done].
  by destruct Hf as [_ []].
Defined.

(** The claims of a cluster whose name has 60 characters cannot be listed. *)
Definition long_named_cluster : GreptimeDBCluster :=
  mkGreptimeDBCluster
    (mkObjectMeta "a-cluster-whose-name-is-made-of-exactly-sixty-characters-abc" "default" None ∅
       [greptimedbClusterFinalizer] [] 1 "7" (Some 100%Z))
    (gc_Spec wal_groups_cluster) (set_Phase "" PhaseTerminating 1 zero_ClusterStatus).

Lemma refused_selector_blocks_deletion_witness :
  let key := cluster_key long_named_cluster in
  let w := (0, [Object KCluster long_named_cluster]) in
  let o := exec flaky_env (serve (Reconcile (cluster_reconciler false (mret tt)) key) 9) ∅ w in
  out_res o = Ok false /\ stored (out_world o) KCluster key = Some long_named_cluster.
Proof.
  intros key w o. assert (Ht : cleanup_targets long_named_cluster <> []) by discriminate.
  destruct (cleanup_targets long_named_cluster) as [|t ts] eqn:Hc; [done|].
  assert (He : exists e, selector_error (pvc_selector t.1 t.2) = Some e).
  { assert (Hh : head (cleanup_targets long_named_cluster) = Some t) by (by rewrite Hc).
    vm_compute in Hh. injection Hh as <-. eexists. vm_compute. reflexivity. }
  destruct He as [e He].
  apply (refused_selector_blocks_deletion flaky_env false (mret tt) key long_named_cluster ∅ w t ts e 9);
    [reflexivity|discriminate|by left|reflexivity|exact Hc|exact He].
Defined.
