(* ===== verification/System.v ===== *)
(** * A Running cluster has been seen ready

    The phase of a cluster, the five deployers and their generators together: when a
    [sync] turns a cluster Running, every workload that the generators make was read
    from the server in this very [sync], and was ready. *)

From stdpp Require Import base gmap sets strings list fin_maps.
From Stdlib Require Import ZArith Lia.
From S2P Require Import Prelude GoLib K8s ApiCommon ApiTypes Client ApiServer K8sUtil Deployer.
From S2P Require Import Builder Common Mergo Defaulting Validate Toml Cluster Generator Datanode DatanodeGen.
From S2P Require Import Meta MetaGen Frontend FrontendGen FlownodeGen Monitoring Reconcile.
From S2P Require Import Reconciler Setup.

(** ** Specification *)

(** The log shows a workload that was ready when it was read. *)
Definition read_ready (k : kind) (key : NamespacedName) (log : list event) : Prop :=
  match k with
  | KStatefulSet => exists sts, ev (QGet KStatefulSet key) (Ok sts) ∈ log
                    /\ IsStatefulSetReady (Some sts) = Ok true
  | KDeployment => exists d, ev (QGet KDeployment key) (Ok d) ∈ log
                   /\ IsDeploymentReady (Some d) = Ok true
  | _ => False
  end.

(** All the workloads of a component. *)
Definition component_ready (c : GreptimeDBCluster) (x : component) (log : list event) : Prop :=
  Forall (fun n => read_ready (co_workload x) (mkNamespacedName (cluster_namespace c) n) log)
    (co_names x).

(** The standalone of the monitoring. *)
Definition monitoring_ready (c : GreptimeDBCluster) (log : list event) : Prop :=
  monitoring_on c = true ->
  exists standalone, ev (QGet KStandalone (monitoring_key c)) (Ok standalone) ∈ log
    /\ sas_StandalonePhase (sa_Status standalone) = PhaseRunning.

(** A base datanode or frontend has no name of its own, and the groups are fewer than an
    int32 counts. *)
Definition bases_unnamed (c : GreptimeDBCluster) : Prop :=
  (forall d, GetDatanode (Some c) = Some d -> dn_Name d = "")
  /\ (forall f, GetFrontend (Some c) = Some f -> fe_Name f = "")
  /\ (Z.of_nat (length (GetDatanodeGroups (Some c))) < 2 ^ 31)%Z.

(** ** Lemmas: what a status check that says ready has read *)

Lemma read_ready_incl k key l l' : l ⊆ l' -> read_ready k key l -> read_ready k key l'.
Proof.
  intros Hl. destruct k; cbn; try done; intros (x & Hx & Hr); exists x; (split; [by apply Hl|done]).
Qed.

Lemma leaves_GetIfFound {S} k key :
  Client.leaves (S := S) (fun found l => forall o, found = Some o -> ev (QGet k key) (Ok o) ∈ l) (GetIfFound k key).
Proof.
  intros W env s w found. unfold GetIfFound. rewrite exec_bind, exec_try, exec_Get.
  cbn [out_res out_st out_world out_log].
  destruct (env (QGet k key) w) as [[o|e|] w1]; cbn [fst snd out_res out_st out_world out_log].
  - rewrite exec_ret. unfold prepend. cbn. intros [= <-] o' [= ->]. by left.
  - destruct (IsNotFound e); rewrite ?exec_ret, ?exec_lift; unfold prepend; cbn; [by intros [= <-]|done].
  - done.
Qed.

(** A check of an object that must be found: a positive answer needs a ready one. *)
Lemma leaves_found {S A} (yes : A -> Prop) k key (f : option (obj k) -> M S A) (ready : obj k -> Prop) :
  returns (fun a => ~ yes a) (f None) -> (forall o, returns (fun a => yes a -> ready o) (f (Some o))) ->
  Client.leaves (fun a l => yes a -> exists o, ev (QGet k key) (Ok o) ∈ l /\ ready o)
    (GetIfFound k key ≫= f).
Proof.
  intros Hn Hs. eapply leaves_bind; [apply leaves_GetIfFound|]. intros [o|] l Hl.
  - eapply leaves_conseq; [apply leaves_returns, Hs|]. intros a l' Ha Hy. exists o.
    split; [apply elem_of_app; left; by apply Hl|by apply Ha].
  - eapply leaves_conseq; [apply leaves_returns, Hn|]. by intros a l' Ha Hy.
Qed.

(** The last steps of a check, whose answer was computed before. *)
Lemma returns_after {S A B} (Q : B -> Prop) (m : M S A) (f : A -> M S B) :
  (forall a, returns Q (f a)) -> returns Q (m ≫= f).
Proof. intros Hf. apply (returns_bind (fun _ => True)); [apply returns_any|]. intros a _. apply Hf. Qed.

Lemma leaves_getStatefulSetStatus {S} ns name :
  Client.leaves (S := S) (fun status l => status.1 = true -> read_ready KStatefulSet (mkNamespacedName ns name) l)
    (getStatefulSetStatus ns name).
Proof.
  apply (leaves_found (fun status : bool * Z => status.1 = true) KStatefulSet); [by apply returns_ret|].
  intros sts. apply (returns_bind (fun ready => IsStatefulSetReady (Some sts) = Ok ready));
    [by apply returns_lift|]. intros ready Hr. apply returns_ret. by intros <-.
Qed.

Section counts.
Context {S : Type} (c : GreptimeDBCluster).
Notation group_key g := (mkNamespacedName (om_Namespace (gc_ObjectMeta c))
                           (datanode_resource c (dn_Name g))).

(** The count reaches the number of groups only when every group is ready. *)
Lemma leaves_count_ready groups : forall n t,
  (0 <= n)%Z -> (n + Z.of_nat (length groups) < 2 ^ 31)%Z ->
  Client.leaves (S := S) (fun r l => (r.1 <= n + Z.of_nat (length groups))%Z
    /\ (r.1 = (n + Z.of_nat (length groups))%Z ->
        Forall (fun g => read_ready KStatefulSet (group_key g) l) groups))
    (count_ready c groups n t).
Proof.
  induction groups as [|g gs IH]; intros n t Hn Hb; cbn [count_ready length].
  { apply leaves_ret. cbn. split; [lia|by constructor]. }
  cbn [length] in Hb. rewrite Nat2Z.inj_succ in Hb |- *. eapply leaves_bind; [apply leaves_getStatefulSetStatus|].
  intros [ready replicas] l Hl. cbn [fst snd] in *.
  assert (Hi : int32 (n + 1) = (n + 1)%Z) by (apply int32_small; unfold is_int32; lia).
  apply (leaves_conseq _ _ _ (IH (if ready then int32 (n + 1) else n) _ ltac:(destruct ready; lia)
    ltac:(destruct ready; lia))).
  intros r l' [Hle Hall]. destruct ready; rewrite ?Hi in Hle, Hall; [|split; lia].
  split; [lia|]. intros Hr. constructor.
  - eapply read_ready_incl; [|by apply Hl]. set_solver.
  - eapply Forall_impl; [apply Hall; lia|]. intros g' Hg. eapply read_ready_incl; [|exact Hg]. set_solver.
Qed.
End counts.

Section checks.
Context `{TomlLib} `{VectorLib} `{QuantityLib} `{JsonLib} `{RetryLib}.

(** A status check begins by reading the cluster in memory. *)
Lemma check_reads {A} (f : GreptimeDBCluster -> M CState A) (Q : GreptimeDBCluster -> A -> list event -> Prop) :
  (forall c, Client.leaves (Q c) (f c)) ->
  forall W (env : environment W) s w a, let o := exec env (c ← get_cluster; f c) s w in
    out_res o = Ok a -> Q (c_cluster s) a (out_log o).
Proof.
  intros Hf W env s w a. rewrite exec_bind, exec_get_cluster. cbn [out_res out_st out_world out_log prepend app].
  apply (Hf (c_cluster s) W env s w a).
Qed.

Lemma meta_checked {W} (env : environment W) b s w :
  let o := exec env (Meta_CheckAndUpdateStatus b) s w in
  out_res o = Ok true -> component_ready (c_cluster s) (meta_component (c_cluster s)) (out_log o).
Proof.
  intros o Hr. unfold component_ready. apply Forall_map, Forall_true. intros _.
  refine (check_reads _ (fun c ok l => ok = true ->
    read_ready KDeployment (mkNamespacedName (cluster_namespace c) (meta_name c)) l) _ W env s w true Hr eq_refl).
  intros c. apply (leaves_found (fun ok => ok = true) KDeployment); [by apply returns_ret|]. intros d.
  apply returns_after. intros n. apply returns_after. intros _.
  apply (returns_bind (fun ready => IsDeploymentReady (Some d) = Ok ready)); [by apply returns_lift|].
  intros ready Hd. do 4 (apply returns_after; intros ?). apply returns_ret. by intros ->.
Qed.

Lemma flownode_checked {W} (env : environment W) s w :
  let o := exec env Flownode_CheckAndUpdateStatus s w in
  out_res o = Ok true -> component_ready (c_cluster s) (flownode_component (c_cluster s)) (out_log o).
Proof.
  intros o Hr. unfold component_ready. apply Forall_map, Forall_true. intros _.
  refine (check_reads _ (fun c ok l => ok = true ->
    read_ready KStatefulSet (mkNamespacedName (cluster_namespace c) (flownode_name c)) l) _ W env s w true Hr eq_refl).
  intros c. apply (leaves_found (fun ok => ok = true) KStatefulSet); [by apply returns_ret|]. intros sts.
  do 4 (apply returns_after; intros ?). apply returns_lift. by intros ok Hd ->.
Qed.

Lemma datanode_base_checked {W} (env : environment W) ns name s w :
  let o := exec env (checkDatanodeStatus ns name) s w in
  out_res o = Ok true -> read_ready KStatefulSet (mkNamespacedName ns name) (out_log o).
Proof.
  intros o Hr. assert (Hl : Client.leaves (fun ok l => ok = true ->
    read_ready KStatefulSet (mkNamespacedName ns name) l) (checkDatanodeStatus ns name)).
  { unfold checkDatanodeStatus. eapply leaves_bind; [apply leaves_getStatefulSetStatus|].
    intros status l Hs. eapply leaves_conseq.
    { apply leaves_returns, returns_after. intros _. apply (returns_ret (fun ok => ok = status.1)). done. }
    intros ok l' -> Ht. eapply read_ready_incl; [|by apply Hs]. set_solver. }
  exact (Hl W env s w true Hr eq_refl).
Qed.

Lemma datanode_groups_checked {W} (env : environment W) s w :
  let c := c_cluster s in let o := exec env checkDatanodeGroupsStatus s w in
  (Z.of_nat (length (GetDatanodeGroups (Some c))) < 2 ^ 31)%Z -> out_res o = Ok true ->
  Forall (fun g => read_ready KStatefulSet (mkNamespacedName (cluster_namespace c) (datanode_name c g)) (out_log o))
    (GetDatanodeGroups (Some c)).
Proof.
  intros c o Hlen Hr.
  refine (check_reads _ (fun c ok l => (Z.of_nat (length (GetDatanodeGroups (Some c))) < 2 ^ 31)%Z ->
    ok = true -> Forall (fun g => read_ready KStatefulSet (mkNamespacedName (cluster_namespace c)
      (datanode_name c g)) l) (GetDatanodeGroups (Some c))) _ W env s w true Hr Hlen eq_refl).
  clear. intros c. set (gs := GetDatanodeGroups (Some c)).
  destruct (Z.lt_ge_cases (Z.of_nat (length gs)) (2 ^ 31)) as [Hlen|Hlen].
  2: { eapply leaves_conseq; [apply leaves_any|]. intros ok l _ Hlt. lia. }
  eapply leaves_bind; [apply (leaves_count_ready c gs 0 0); lia|]. intros counts l [_ Hl].
  eapply leaves_conseq.
  { apply leaves_returns, returns_after. intros _.
    apply (returns_ret (fun ok => ok = Z.eqb counts.1 (int32 (Z.of_nat (length gs))))). done. }
  intros ok l' -> _ He. apply Z.eqb_eq in He. rewrite int32_small in He by (unfold is_int32; lia).
  eapply Forall_impl; [by apply Hl|]. intros g Hg. eapply read_ready_incl; [|exact Hg]. set_solver.
Qed.

Lemma datanode_checked {W} (env : environment W) s w :
  let c := c_cluster s in let o := exec env Datanode_CheckAndUpdateStatus s w in
  bases_unnamed c -> out_res o = Ok true -> component_ready c (datanode_component c) (out_log o).
Proof.
  intros c o (Hd & _ & Hlen) Hr. unfold o, Datanode_CheckAndUpdateStatus in *.
  rewrite exec_bind, exec_get_cluster in *. cbn [out_res out_st out_world out_log prepend app] in *. fold c in Hr |- *.
  unfold component_ready. cbn [co_names co_workload datanode_component]. apply Forall_map. unfold datanode_specs.
  destruct (GetDatanode (Some c)) as [d|] eqn:Hg; cbn [not_nil] in *.
  - apply Forall_singleton.
    assert (Hn : datanode_name c d = datanode_base_resource c)
      by (unfold datanode_name; cbn; by rewrite (Hd d eq_refl)).
    cbn beta. rewrite Hn. exact (datanode_base_checked env _ _ s w Hr).
  - destruct (Nat.ltb_spec 0 (length (GetDatanodeGroups (Some c)))) as [_|Hl];
      [exact (datanode_groups_checked env s w Hlen Hr)|].
    destruct (GetDatanodeGroups (Some c)); [constructor|cbn in Hl; lia].
Qed.

Lemma leaves_frontend_deployment {S} key counts :
  Client.leaves (S := S) (fun next l => next <> None -> read_ready KDeployment key l)
    (frontend_deployment key counts).
Proof.
  apply (leaves_found (fun next => next <> None) KDeployment); [apply returns_ret; tauto|]. intros d.
  apply returns_after. intros n. apply (returns_bind (fun ready => IsDeploymentReady (Some d) = Ok ready));
    [by apply returns_lift|]. intros ready Hd. apply returns_ret. by destruct ready.
Qed.

Lemma leaves_frontend_groups {S} c groups : forall counts,
  Client.leaves (S := S) (fun next l => next <> None -> Forall (fun g =>
    read_ready KDeployment (mkNamespacedName (cluster_namespace c) (frontend_name c g)) l) groups)
    (frontend_groups c groups counts).
Proof.
  induction groups as [|g gs IH]; intros counts; cbn [frontend_groups]; [apply leaves_ret; by constructor|].
  eapply leaves_bind; [apply leaves_frontend_deployment|]. intros [next|] l Hl; [|by apply leaves_ret].
  eapply leaves_conseq; [apply IH|]. intros total l' Hall Ht. constructor.
  - eapply read_ready_incl; [|by apply Hl]. set_solver.
  - eapply Forall_impl; [by apply Hall|]. intros g' Hg. eapply read_ready_incl; [|exact Hg]. set_solver.
Qed.

Lemma frontend_checked {W} (env : environment W) s w :
  let c := c_cluster s in let o := exec env Frontend_CheckAndUpdateStatus s w in
  bases_unnamed c -> out_res o = Ok true -> component_ready c (frontend_component c) (out_log o).
Proof.
  intros c o (_ & Hf & _) Hr. unfold component_ready. cbn [co_names co_workload frontend_component].
  apply Forall_map. rewrite frontend_specs_list. revert Hf. unfold c.
  enough (Hx : (forall f, GetFrontend (Some (c_cluster s)) = Some f -> fe_Name f = "") -> true = true ->
    Forall (fun spec => read_ready KDeployment (mkNamespacedName (cluster_namespace (c_cluster s))
      (frontend_name (c_cluster s) spec)) (out_log o))
      (option_list (GetFrontend (Some (c_cluster s))) ++ GetFrontendGroups (Some (c_cluster s)))).
  { intros Hf. by apply Hx. }
  refine (check_reads _ (fun c ok l => (forall f, GetFrontend (Some c) = Some f -> fe_Name f = "") -> ok = true ->
    Forall (fun spec => read_ready KDeployment (mkNamespacedName (cluster_namespace c) (frontend_name c spec)) l)
      (option_list (GetFrontend (Some c)) ++ GetFrontendGroups (Some c))) _ W env s w true Hr).
  clear. intros c. eapply (leaves_bind (fun base l => base <> None ->
    (forall f, GetFrontend (Some c) = Some f -> fe_Name f = "") -> Forall (fun spec =>
    read_ready KDeployment (mkNamespacedName (cluster_namespace c) (frontend_name c spec)) l)
    (option_list (GetFrontend (Some c))))).
  { destruct (GetFrontend (Some c)) as [f|]; cbn [not_nil option_list]; [|apply leaves_ret; by constructor].
    eapply leaves_conseq; [apply leaves_frontend_deployment|]. intros base l Hb Hne Hf.
    apply Forall_singleton. unfold frontend_name. cbn [FrontendSpec_GetName nil_or]. rewrite (Hf f eq_refl).
    by apply Hb. }
  intros [counts|] l Hbase; [|by apply leaves_ret].
  eapply leaves_bind; [apply leaves_frontend_groups|]. intros [total|] l1 Hgroups; [|by apply leaves_ret].
  do 3 (apply leaves_then; [intros ok l2 l3 Hq Hf Ht; specialize (Hq Hf Ht);
    eapply Forall_impl; [exact Hq|]; intros f Hr; eapply read_ready_incl; [|exact Hr]; set_solver|intros ?]).
  apply leaves_ret. intros Hf _. apply Forall_app. split.
  - eapply Forall_impl; [by apply Hbase|]. intros f Hr. eapply read_ready_incl; [|exact Hr]. set_solver.
  - eapply Forall_impl; [by apply Hgroups|]. intros f Hr. eapply read_ready_incl; [|exact Hr]. set_solver.
Qed.
End checks.

Lemma monitoring_checked `{RetryLaws} {W} (env : environment W) s w :
  let o := exec env Monitoring_CheckAndUpdateStatus s w in
  out_res o = Ok true -> monitoring_ready (c_cluster s) (out_log o).
Proof.
  intros o Hr Hon. unfold o in *. rewrite (exec_status_on env (c_cluster s) s w eq_refl Hon) in *. cbv zeta in *.
  destruct (env (QGet KStandalone _) w) as [[standalone|e|] w1]; cbn [fst snd] in *; [|discriminate Hr..].
  destruct (bool_decide_reflect (sas_StandalonePhase (sa_Status standalone) = PhaseRunning)) as [Hp|];
    [|discriminate Hr].
  exists standalone. split; [by left|done].
Qed.

(** *** The same for the clusters that a synchronisation goes through *)

Section same.
Context `{TomlLib} `{VectorLib} `{QuantityLib}.
Variables c c' : GreptimeDBCluster.
Hypothesis Hsame : same_cluster c c'.

Lemma same_meta : gc_ObjectMeta c' = gc_ObjectMeta c.
Proof. apply Hsame. Qed.

(** A field of the spec that the shared maps leave alone. *)
Lemma same_field {A} (f : GreptimeDBClusterSpec -> A) :
  (forall s, f (spec_core s) = f s) -> f (gc_Spec c') = f (gc_Spec c).
Proof. intros Hf. rewrite <- (Hf (gc_Spec c')), <- (Hf (gc_Spec c)). f_equal. apply Hsame. Qed.

Lemma same_datanodes : map dn_Name (datanode_specs c') = map dn_Name (datanode_specs c).
Proof.
  apply (same_field (fun s => map dn_Name (match cl_Datanode s with Some d => [d] | None => cl_DatanodeGroups s end))).
  intros s. unfold spec_core, set_components. cbn. destruct (cl_Datanode s); cbn; [done|].
  induction (cl_DatanodeGroups s) as [|g gs IH]; [done|]. cbn. by rewrite IH.
Qed.

Lemma same_frontends : map fe_Name (frontend_specs c') = map fe_Name (frontend_specs c).
Proof.
  rewrite !frontend_specs_list.
  apply (same_field (fun s => map fe_Name (option_list (cl_Frontend s) ++ cl_FrontendGroups s))).
  intros s. unfold spec_core, set_components. cbn. rewrite !map_app. f_equal; [by destruct (cl_Frontend s)|].
  induction (cl_FrontendGroups s) as [|g gs IH]; [done|]. cbn. by rewrite IH.
Qed.

Lemma same_metas : not_nil (cl_Meta (gc_Spec c')) = not_nil (cl_Meta (gc_Spec c)).
Proof. apply (same_field (fun s => not_nil (cl_Meta s))). intros s. cbn. by destruct (cl_Meta s). Qed.

Lemma same_flownodes : not_nil (cl_Flownode (gc_Spec c')) = not_nil (cl_Flownode (gc_Spec c)).
Proof. apply (same_field (fun s => not_nil (cl_Flownode s))). intros s. cbn. by destruct (cl_Flownode s). Qed.

Lemma same_monitoring : cl_Monitoring (gc_Spec c') = cl_Monitoring (gc_Spec c).
Proof. by apply (same_field cl_Monitoring). Qed.

(** The names of the components. *)
Lemma same_names :
  co_names (meta_component c') = co_names (meta_component c)
  /\ co_names (datanode_component c') = co_names (datanode_component c)
  /\ co_names (frontend_component c') = co_names (frontend_component c)
  /\ co_names (flownode_component c') = co_names (flownode_component c).
Proof.
  assert (Hname : cluster_name c' = cluster_name c) by (unfold cluster_name; by rewrite same_meta).
  assert (Hres : forall kind l, resource c' kind l = resource c kind l) by (intros; unfold resource; by rewrite Hname).
  assert (Hof : forall {A} (name : A -> string) kind l l', map name l' = map name l ->
    map (fun x => resource c' kind [name x]) l' = map (fun x => resource c kind [name x]) l).
  { intros A name kind l l' Hl. rewrite <- (map_map name (fun n => resource c' kind [n])), Hl, map_map.
    apply map_ext. intros x. apply Hres. }
  split_and!; cbn [co_names meta_component datanode_component frontend_component flownode_component].
  - unfold meta_specs, GetMeta, meta_name. cbn. pose proof same_metas as Hm.
    destruct (cl_Meta (gc_Spec c')), (cl_Meta (gc_Spec c)); try discriminate Hm; cbn; by rewrite ?Hname.
  - exact (Hof _ dn_Name DatanodeRoleKind _ _ same_datanodes).
  - exact (Hof _ fe_Name FrontendRoleKind _ _ same_frontends).
  - unfold flownode_specs, GetFlownode, flownode_name. pose proof same_flownodes as Hm.
    destruct (cl_Flownode (gc_Spec c')), (cl_Flownode (gc_Spec c)); try discriminate Hm; cbn; by rewrite ?Hname.
Qed.
End same.

(** *** Deployers *)

(** What a deployer's [Sync] shows of a cluster when it returns nil. *)
Definition shows (E : GreptimeDBCluster -> list event -> Prop) (d : ComponentOperator CState) : Prop :=
  forall W (env : environment W) s w, let o := exec env (Sync d) s w in
    out_res o = Ok tt -> E (c_cluster s) (out_log o).

(** Evidence that more requests do not remove, and that is about the cluster up to its
    status and its shared maps. *)
Definition evidence (E : GreptimeDBCluster -> list event -> Prop) : Prop :=
  (forall c l l', l ⊆ l' -> E c l -> E c l')
  /\ (forall c c' l, same_cluster c c' -> E c' l -> E c l).

(** A deployer shows what its status check shows, if it also holds when nothing is
    generated. *)
Lemma Sync_shows (I : GreptimeDBCluster -> Prop) E (d : ComponentOperator CState) :
  evidence E -> (forall c c', same_cluster c c' -> I c -> I c') ->
  keeps_cluster (co_Generate d) -> (forall os, keeps_cluster (co_Apply d os)) ->
  Forall keeps_cluster (co_PreSyncHooks d) ->
  (forall W (env : environment W) s w, out_res (exec env (co_Generate d) s w) = Ok [] -> E (c_cluster s) []) ->
  (forall W (env : environment W) s w, let o := exec env (co_CheckAndUpdateStatus d) s w in
     I (c_cluster s) -> out_res o = Ok true -> E (c_cluster s) (out_log o)) ->
  shows (fun c l => I c -> E c l) d.
Proof.
  intros [Hgrow Hsame] HI Hg Ha Hh Hnone Hcheck W env s w. cbv zeta. unfold Sync. rewrite exec_bind. intros Hr Hi. revert Hr.
  specialize (Hg W env s w). specialize (Hnone W env s w).
  destruct (exec env (co_Generate d) s w) as [[objs|e|] s1 w1 l1]; cbn [out_res out_st out_world out_log] in *; [|done..].
  case_decide as Hobjs.
  { intros _. apply nil_length_inv in Hobjs as ->. eapply Hgrow; [|by apply Hnone]. set_solver. }
  rewrite exec_bind.
  assert (Hp : keeps_cluster (onPrevSync d)).
  { unfold onPrevSync. clear - Hh. induction Hh as [|h hs Hk _ IH]; [apply preserves_ret, _|].
    apply preserves_bind; [apply _|exact Hk|]. intros _. exact IH. }
  specialize (Hp W env s1 w1). destruct (exec env (onPrevSync d) s1 w1) as [[[]|e|] s2 w2 l2];
    cbn [out_res out_st out_world out_log prepend] in *; [|done..].
  rewrite exec_bind. specialize (Ha objs W env s2 w2).
  destruct (exec env (co_Apply d objs) s2 w2) as [[[]|e|] s3 w3 l3];
    cbn [out_res out_st out_world out_log prepend] in *; [|done..].
  assert (Hc : same_cluster (c_cluster s) (c_cluster s3)) by (etrans; [exact Hg|]; etrans; [exact Hp|exact Ha]).
  rewrite exec_bind. specialize (Hcheck W env s3 w3).
  destruct (exec env (co_CheckAndUpdateStatus d) s3 w3) as [[ready|e|] s4 w4 l4];
    cbn [out_res out_st out_world out_log prepend] in *; [|done..].
  destruct ready; cbn [negb]; [|by rewrite exec_lift].
  intros _. eapply Hgrow; [|apply (Hsame _ _ _ Hc), Hcheck; [by eapply HI|done]]. set_solver.
Qed.

Section components.
Context `{TomlLib} `{VectorLib} `{QuantityLib} `{JsonLib} `{ControllerLib} `{!ControllerLaws} `{RetryLaws} `{SelectorLib}.

Definition component_evidence (x : GreptimeDBCluster -> component) (c : GreptimeDBCluster) (log : list event) :=
  component_ready c (x c) log.

Lemma evidence_component (x : GreptimeDBCluster -> component) k :
  (forall c, co_workload (x c) = k) ->
  (forall c c', same_cluster c c' -> co_names (x c') = co_names (x c)) -> evidence (component_evidence x).
Proof.
  intros Hk Hn. split.
  - intros c l l' Hl Hr. eapply Forall_impl; [exact Hr|]. intros n. by apply read_ready_incl.
  - intros c c' l Hs. unfold component_evidence, component_ready, cluster_namespace.
    by rewrite (Hn c c' Hs), !Hk, (same_meta c c' Hs).
Qed.

Lemma evidence_monitoring : evidence monitoring_ready.
Proof.
  split.
  - intros c l l' Hl Hr Hon. destruct (Hr Hon) as (sa & Hsa & Hp). exists sa. split; [by apply Hl|done].
  - intros c c' l Hs. unfold monitoring_ready, monitoring_on, monitoring_key, monitoring_name, cluster_name,
      cluster_namespace, GetMonitoring. cbn [nil_or].
    by rewrite (same_monitoring c c' Hs), (same_meta c c' Hs).
Qed.

Lemma same_unnamed c c' : same_cluster c c' -> bases_unnamed c -> bases_unnamed c'.
Proof.
  intros Hs (Hd & Hf & Hl). unfold bases_unnamed, GetDatanode, GetFrontend, GetDatanodeGroups in *. cbn [nil_or] in *.
  assert (Hd' : (dn_Name <$> cl_Datanode (gc_Spec c')) = (dn_Name <$> cl_Datanode (gc_Spec c)))
    by (apply (same_field c c' Hs (fun s => dn_Name <$> cl_Datanode s)); intros s; cbn; by destruct (cl_Datanode s)).
  assert (Hf' : (fe_Name <$> cl_Frontend (gc_Spec c')) = (fe_Name <$> cl_Frontend (gc_Spec c)))
    by (apply (same_field c c' Hs (fun s => fe_Name <$> cl_Frontend s)); intros s; cbn; by destruct (cl_Frontend s)).
  assert (Hl' : length (cl_DatanodeGroups (gc_Spec c')) = length (cl_DatanodeGroups (gc_Spec c)))
    by (apply (same_field c c' Hs (fun s => length (cl_DatanodeGroups s))); intros s; cbn; by rewrite length_fmap).
  split_and!.
  - intros d He. rewrite He in Hd'. destruct (cl_Datanode (gc_Spec c)) as [d0|]; [|done].
    injection Hd' as ->. by apply Hd.
  - intros f He. rewrite He in Hf'. destruct (cl_Frontend (gc_Spec c)) as [f0|]; [|done].
    injection Hf' as ->. by apply Hf.
  - by rewrite Hl'.
Qed.

(** A component for which nothing is generated has no workloads. *)
Lemma nothing_generated c x raw owner :
  component_named c x -> Forall2 (fun P o => P o) (component_objects c x) raw ->
  Forall2 (fun o o' => prepared owner o = Ok o') raw [] -> component_ready c x [].
Proof.
  intros Hn Hr Hp. destruct (component_generated c x owner raw [] Hn Hr Hp) as [Hk _].
  unfold component_ready. unfold component_segments in Hk. destruct (decide (co_names x = [])) as [->|Hne]; [constructor|].
  destruct (co_names x); [done|discriminate Hk].
Qed.

Lemma meta_shows : shows (fun c l => bases_unnamed c -> component_evidence meta_component c l) (MetaDeployer true).
Proof.
  apply (Sync_shows bases_unnamed (component_evidence meta_component)); cbn [co_Generate co_Apply co_PreSyncHooks co_CheckAndUpdateStatus MetaDeployer].
  - by apply (evidence_component meta_component KDeployment); [|intros c c' Hs; apply (same_names c c' Hs)].
  - exact same_unnamed.
  - apply Meta_Generate_keeps.
  - apply Apply_keeps.
  - apply Forall_singleton, checkEtcdService_keeps.
  - intros W env s w Hg. apply meta_generates in Hg as (raw & Hr & Hp).
    exact (nothing_generated _ _ raw _ (meta_component_named _) Hr Hp).
  - intros W env s w _ Hr. exact (meta_checked env true s w Hr).
Qed.

Lemma datanode_shows : shows (fun c l => bases_unnamed c -> component_evidence datanode_component c l) DatanodeDeployer.
Proof.
  apply (Sync_shows bases_unnamed (component_evidence datanode_component)); cbn [co_Generate co_Apply co_PreSyncHooks co_CheckAndUpdateStatus DatanodeDeployer].
  - by apply (evidence_component datanode_component KStatefulSet); [|intros c c' Hs; apply (same_names c c' Hs)].
  - exact same_unnamed.
  - apply Datanode_Generate_keeps.
  - intros os. apply own_flag_keeps, Datanode_Apply_own_flag.
  - constructor.
  - intros W env s w Hg. apply datanode_generates in Hg as (raw & Hr & Hp).
    exact (nothing_generated _ _ raw _ (datanode_component_named _) Hr Hp).
  - intros W env s w Hi Hr. exact (datanode_checked env s w Hi Hr).
Qed.

Lemma frontend_shows : shows (fun c l => bases_unnamed c -> component_evidence frontend_component c l) FrontendDeployer.
Proof.
  apply (Sync_shows bases_unnamed (component_evidence frontend_component)); cbn [co_Generate co_Apply co_PreSyncHooks co_CheckAndUpdateStatus FrontendDeployer].
  - by apply (evidence_component frontend_component KDeployment); [|intros c c' Hs; apply (same_names c c' Hs)].
  - exact same_unnamed.
  - apply Frontend_Generate_keeps.
  - apply Apply_keeps.
  - constructor.
  - intros W env s w Hg. apply frontend_generates in Hg as (raw & Hr & Hp).
    exact (nothing_generated _ _ raw _ (frontend_component_named _) Hr Hp).
  - intros W env s w Hi Hr. exact (frontend_checked env s w Hi Hr).
Qed.

Lemma flownode_shows : shows (fun c l => bases_unnamed c -> component_evidence flownode_component c l) FlownodeDeployer.
Proof.
  apply (Sync_shows bases_unnamed (component_evidence flownode_component)); cbn [co_Generate co_Apply co_PreSyncHooks co_CheckAndUpdateStatus FlownodeDeployer].
  - by apply (evidence_component flownode_component KStatefulSet); [|intros c c' Hs; apply (same_names c c' Hs)].
  - exact same_unnamed.
  - apply Flownode_Generate_keeps.
  - apply Apply_keeps.
  - constructor.
  - intros W env s w Hg. apply flownode_generates in Hg as (raw & Hr & Hp).
    exact (nothing_generated _ _ raw _ (flownode_component_named _) Hr Hp).
  - intros W env s w _ Hr. exact (flownode_checked env s w Hr).
Qed.

Lemma monitoring_shows : shows (fun c l => bases_unnamed c -> monitoring_ready c l) MonitoringDeployer.
Proof.
  apply (Sync_shows bases_unnamed monitoring_ready); cbn [co_Generate co_Apply co_PreSyncHooks co_CheckAndUpdateStatus MonitoringDeployer].
  - exact evidence_monitoring.
  - exact same_unnamed.
  - apply Monitoring_Generate_keeps.
  - apply Apply_keeps.
  - constructor.
  - intros W env s w. rewrite Monitoring_Generate_correct. cbn [out_res]. unfold monitoring_objects, monitoring_ready, monitoring_on.
    destruct (MonitoringSpec_GetStandalone _); [|by rewrite andb_false_r].
    destruct (MonitoringSpec_IsEnabled _); [|done]. cbn. destruct (prepared _ _); done.
  - intros W env s w _ Hr. exact (monitoring_checked env s w Hr).
Qed.

(** Synchronising in turn shows what each deployer shows. *)
Lemma range_shows (I : GreptimeDBCluster -> Prop) Es ds :
  (forall c c', same_cluster c c' -> I c -> I c') ->
  Forall evidence Es -> Forall2 (fun E d => shows (fun c l => I c -> E c l) d) Es ds ->
  Forall (fun d => keeps_cluster (Sync d)) ds ->
  forall W (env : environment W) s w, let o := exec env (range Sync ds) s w in
    I (c_cluster s) -> out_res o = Ok tt -> Forall (fun E => E (c_cluster s) (out_log o)) Es.
Proof.
  intros HI He Hs Hk W env. induction Hs as [|E d Es ds Hd _ IH]; intros s w; cbv zeta; [constructor|].
  apply Forall_cons in He as [[Hgrow Hsame] He]. apply Forall_cons in Hk as [Hkd Hk].
  cbn [range]. rewrite exec_bind. specialize (Hd W env s w). specialize (Hkd W env s w).
  destruct (exec env (Sync d) s w) as [[[]|e|] s1 w1 l1]; cbn [out_res out_st out_world out_log prepend] in *; [|done..].
  intros Hi Hr. specialize (IH He Hk s1 w1 (HI _ _ Hkd Hi) Hr). constructor.
  - apply (Hgrow _ l1); [|by apply Hd]. intros x Hx. apply elem_of_app. by left.
  - rewrite Forall_forall in IH. rewrite Forall_forall in He. apply Forall_forall. intros E' HE'.
    destruct (He E' HE') as [Hgrow' Hsame']. eapply Hsame'; [exact Hkd|].
    apply (Hgrow' _ (out_log (exec env (range Sync ds) s1 w1))); [|by apply IH].
    intros x Hx. apply elem_of_app. by right.
Qed.
End components.

(** ** Properties *)

(** C1. Running means ready, from end to end: when a [sync] of the operator's five deployers
    turns a cluster Running, then every Deployment and StatefulSet that the generators
    make for the metasrv, the datanodes, the frontends and the flownodes was read from the
    server during this [sync] and was ready, and so was the standalone of the monitoring,
    when it is on.  (The base datanode and frontend have no name of their own.) *)
Theorem running_means_ready `{TomlLib} `{VectorLib} `{QuantityLib} `{JsonLib} `{ControllerLib}
    `{!ControllerLaws} `{RetryLaws} `{SelectorLib} {W} (env : environment W) b collector s w :
  let r := cluster_reconciler b collector in
  let c := c_cluster s in
  let o := exec env (sync r) s w in
  collector_reads r -> bases_unnamed c ->
  phase_of c <> PhaseRunning -> phase_of (c_cluster (out_st o)) = PhaseRunning ->
  Forall (fun x => component_ready c (x c) (out_log o))
    [meta_component; datanode_component; frontend_component; flownode_component]
  /\ monitoring_ready c (out_log o).
Proof.
  intros r c o Hm Hi Hne Hrun. subst o c.
  pose proof (sync_outcome r env s w (cluster_deployers_keep b collector) Hm) as Ho. cbv zeta in Ho.
  assert (Hall : out_res (exec env (range Sync (Deployers r)) s w) = Ok tt
    /\ out_log (exec env (range Sync (Deployers r)) s w) ⊆ out_log (exec env (sync r) s w)).
  { unfold sync in *. rewrite exec_bind, exec_sync_deployers in *. cbv zeta in *.
    destruct (exec env (range Sync (Deployers r)) s w) as [[[]|[] |] s1 w1 l1];
      cbn [out_res out_st out_world out_log] in *; [|by rewrite Ho in Hrun; destruct (next_phase_not_running _ Hrun)|
      destruct Ho; congruence..].
    split; [done|]. unfold prepend. cbn [out_log]. set_solver. }
  destruct Hall as [Hok Hincl].
  assert (Hs : Forall (fun E => E (c_cluster s) (out_log (exec env (range Sync (Deployers r)) s w)))
    (monitoring_ready :: map component_evidence
       [meta_component; datanode_component; frontend_component; flownode_component])).
  { apply (range_shows bases_unnamed _ (Deployers r) same_unnamed); [..|exact Hi|exact Hok].
    - apply Forall_cons_2; [exact evidence_monitoring|]. cbn [map].
      repeat apply Forall_cons_2; [apply (evidence_component _ KDeployment)|apply (evidence_component _ KStatefulSet)|
        apply (evidence_component _ KDeployment)|apply (evidence_component _ KStatefulSet)|apply Forall_nil_2];
        try done; intros c c' Hs; apply (same_names c c' Hs).
    - repeat apply Forall2_cons_2; [exact monitoring_shows|exact meta_shows|exact datanode_shows|
        exact frontend_shows|exact flownode_shows|constructor].
    - exact (cluster_deployers_keep b collector). }
  apply Forall_cons in Hs as [Hmon Hs]. split; [|by eapply (proj1 evidence_monitoring)].
  apply Forall_map in Hs. eapply Forall_impl; [exact Hs|]. intros x Hx.
  eapply Forall_impl; [exact Hx|]. intros n. by apply read_ready_incl.
Qed.

(** ** Witness: a server whose workloads are ready as soon as they are created *)

Definition settled (o : object) : object :=
  match o_kind o as k return obj k -> object with
  | KStatefulSet => fun s => Object KStatefulSet (mkStatefulSet (sts_ObjectMeta s) (sts_Spec s)
      (mkStatefulSetStatus (om_Generation (sts_ObjectMeta s)) (default 0%Z (ss_Replicas (sts_Spec s)))
         (default 0%Z (ss_Replicas (sts_Spec s)))))
  | KDeployment => fun d => Object KDeployment (mkDeployment (dep_ObjectMeta d) (dep_Spec d)
      (mkDeploymentStatus (om_Generation (dep_ObjectMeta d)) (default 0%Z (ds_Replicas (dep_Spec d)))
         [mkDeploymentCondition "Progressing" "NewReplicaSetAvailable"]))
  | KStandalone => fun s => Object KStandalone (mkGreptimeDBStandalone (sa_ObjectMeta s) (sa_Spec s)
      (mkGreptimeDBStandaloneStatus 1 1 "" PhaseRunning [] 0))
  | _ => fun _ => o
  end (o_val o).

Definition settling_env : environment (list object) := fun q =>
  match q as q return list object -> resp q * list object with
  | QCreate o => fun w => (Ok tt, settled o :: w)
  | q => fake_env q
  end.

#[local] Existing Instances flat_toml plain_vector any_quantity text_json owner_reference
  owner_reference_laws keep_opaque documented_mergo simple_retry simple_retry_laws short_values.

Definition starting_state : CState :=
  mkCState (set_Status (set_Phase "" PhaseStarting 0 (gc_Status monitored_cluster)) monitored_cluster) ∅.
Definition starting_world : list object := [Object KCluster (c_cluster starting_state)].

(** Metasrv, two datanode groups, a frontend with a group, flownode and monitoring: one
    [sync] creates everything and sees it ready. *)
Lemma running_means_ready_witness :
  let c := c_cluster starting_state in
  let o := exec settling_env (sync (cluster_reconciler false (mret tt))) starting_state starting_world in
  out_res o = Ok no_requeue
  /\ Forall (fun x => component_ready c (x c) (out_log o))
       [meta_component; datanode_component; frontend_component; flownode_component]
  /\ map (fun x => length (co_names (x c)))
       [meta_component; datanode_component; frontend_component; flownode_component] = [1; 2; 2; 1]
  /\ exists standalone, sas_StandalonePhase (sa_Status standalone) = PhaseRunning
       /\ ev (QGet KStandalone (monitoring_key c)) (Ok standalone) ∈ out_log o.
Proof.
  intros c o.
  assert (Hc : collector_reads (cluster_reconciler false (mret tt)))
    by (intros m [= <-]; apply preserves_ret, _).
  assert (Hi : bases_unnamed c) by (split_and!; [by intros d [=]|by intros f [= <-]|reflexivity]).
  destruct (running_means_ready settling_env false (mret tt) starting_state starting_world Hc Hi)
    as [Hw Hm]; [discriminate|vm_compute; reflexivity|].
  split; [vm_compute; reflexivity|]. split; [exact Hw|]. split; [reflexivity|].
  destruct (Hm eq_refl) as (sa & Hsa & Hp). by exists sa.
Defined.
