(* ===== verification/Operator.v ===== *)
(** * cmd/operator: the command of the operator

    options.go: the options and their flags.  command.go: the run of the command, that is,
    what it asks of controller-runtime and in which order, and how it ends.  The manager
    is not part of the repository: [answers] tells how each request to it ends. *)

From stdpp Require Import base gmap strings list fin_maps.
From Stdlib Require Import ZArith Lia.
From S2P Require Import Prelude GoLib Duration K8s ApiTypes Initializer.

(** ** Options (options.go) *)

Definition defaultMetricsAddr : string := ":8080".
Definition defaultHealthProbeAddr : string := ":9494".
Definition defaultAdmissionWebhookPort : Z := 8082.
Definition defaultAdmissionWebhookCertDir : string := "/etc/webhook-tls".
Definition defaultProfilingAddress : string := "0.0.0.0:8083".

Record OperatorOptions := mkOperatorOptions {
  oo_MetricsAddr : string;
  oo_HealthProbeAddr : string;
  oo_EnableLeaderElection : bool;
  oo_LeaseDuration : Z;
  oo_RenewDeadline : Z;
  oo_RetryPeriod : Z;
  oo_EnableAPIServer : bool;
  oo_APIServerPort : Z;
  oo_EnablePodMetrics : bool;
  oo_EnableAdmissionWebhook : bool;
  oo_AdmissionWebhookPort : Z;
  oo_AdmissionWebhookCertDir : string;
  oo_EnableProfiling : bool;
  oo_ProfilingAddress : string }.

Definition NewDefaultOptions : OperatorOptions :=
  mkOperatorOptions defaultMetricsAddr defaultHealthProbeAddr false 0 0 0 false 0 false false
    defaultAdmissionWebhookPort defaultAdmissionWebhookCertDir false defaultProfilingAddress.

(** strconv.ParseBool *)
Definition ParseBool (s : string) : res bool :=
  if bool_decide (s ∈ ["1"; "t"; "T"; "TRUE"; "true"; "True"]) then Ok true
  else if bool_decide (s ∈ ["0"; "f"; "F"; "FALSE"; "false"; "False"]) then Ok false
  else Err (Errorf "invalid syntax").

Definition operator_flags : list string :=
  ["metrics-bind-address"; "health-probe-bind-address"; "enable-leader-election";
   "leader-election-lease-duration"; "leader-election-renew-deadline";
   "leader-election-retry-period"; "enable-pod-metrics"; "enable-admission-webhook";
   "admission-webhook-port"; "admission-webhook-cert-dir"; "enable-profiling";
   "profiling-address"].

(** strconv.ParseInt(s, 0, 64), which pflag's IntVar uses. *)
Class IntFlag := parse_int : string -> res Z.

Section flags.
Context `{FlagLib} `{IntFlag}.

Definition flag_value {A} (parse : string -> res A) (flags : strmap) (name : string) (value : A) : res A :=
  match flags !! name with Some s => parse s | None => Ok value end.

(** The flags registered on [o], and the options once [args] are parsed.  The three
    durations have their default here. *)
Definition AddFlags (o : OperatorOptions) (args : list string) : res OperatorOptions :=
  flags ← pflag_Parse operator_flags args;
  metricsAddr ← flag_value Ok flags "metrics-bind-address" (oo_MetricsAddr o);
  healthProbeAddr ← flag_value Ok flags "health-probe-bind-address" (oo_HealthProbeAddr o);
  leaderElection ← flag_value ParseBool flags "enable-leader-election" (oo_EnableLeaderElection o);
  lease ← flag_value ParseDuration flags "leader-election-lease-duration" (15 * Second)%Z;
  renew ← flag_value ParseDuration flags "leader-election-renew-deadline" (10 * Second)%Z;
  retry ← flag_value ParseDuration flags "leader-election-retry-period" (2 * Second)%Z;
  podMetrics ← flag_value ParseBool flags "enable-pod-metrics" (oo_EnablePodMetrics o);
  webhook ← flag_value ParseBool flags "enable-admission-webhook" (oo_EnableAdmissionWebhook o);
  port ← flag_value parse_int flags "admission-webhook-port" (oo_AdmissionWebhookPort o);
  certDir ← flag_value Ok flags "admission-webhook-cert-dir" (oo_AdmissionWebhookCertDir o);
  profiling ← flag_value ParseBool flags "enable-profiling" (oo_EnableProfiling o);
  profilingAddress ← flag_value Ok flags "profiling-address" (oo_ProfilingAddress o);
  Ok (mkOperatorOptions metricsAddr healthProbeAddr leaderElection lease renew retry
        (oo_EnableAPIServer o) (oo_APIServerPort o) podMetrics webhook port certDir profiling
        profilingAddress).
End flags.

(** ** The run (command.go) *)

Definition leaderElectionID : string := "greptimedb-operator".

(** ctrl.Options, the fields that are set. *)
Record ManagerOptions := mkManagerOptions {
  mg_HealthProbeBindAddress : string;
  mg_LeaderElection : bool;
  mg_LeaseDuration : Z;
  mg_RenewDeadline : Z;
  mg_RetryPeriod : Z;
  mg_LeaderElectionID : string;
  mg_MetricsBindAddress : string }.

Inductive controller := ClusterController | StandaloneController.

(** What the command asks of controller-runtime; a controller is set up with whether the
    webhooks validate in its place. *)
Inductive action :=
  | GetConfigOrDie
  | NewManager (o : ManagerOptions)
  | AddWebhookServer (port : Z) (certDir : string)
  | AddHealthzCheck (name : string)
  | AddReadyzCheck (name : string)
  | NewCollector
  | SetupWithManager (c : controller) (enableAdmissionWebhook : bool)
  | SetupWebhookWithManager (c : controller)
  | ServeProfiling (address : string)
  | Start.
#[export] Instance ManagerOptions_eq_dec : EqDecision ManagerOptions.
Proof. solve_decision. Defined.
#[export] Instance controller_eq_dec : EqDecision controller.
Proof. solve_decision. Defined.
#[export] Instance action_eq_dec : EqDecision action.
Proof. solve_decision. Defined.

(** The process ends: with a code, or by a panic. *)
Inductive ending := Exit (code : Z) | Crash.

(** A part of the run: what was asked, and whether the command goes on. *)
Definition Op : Type := list action * option ending.
Definition op_nil : Op := ([], None).
Definition op_then (p q : Op) : Op :=
  match p.2 with
  | None => (p.1 ++ q.1, q.2)
  | Some e => p
  end.
Declare Scope operator_scope.
Notation "p ;; q" := (op_then p q) (at level 100, right associativity) : operator_scope.
#[local] Open Scope operator_scope.

Section run.
Variable answers : action -> res unit.

(** [if err := a(); err != nil { ...; os.Exit(1) }] *)
Definition or_exit (a : action) : Op :=
  ([a], match answers a with Ok _ => None | Err _ => Some (Exit 1) | Panic => Some Crash end).

(** The same inside a callee, which returns the error to the command. *)
Definition Cluster_Setup (o : OperatorOptions) : Op :=
  or_exit NewCollector;; or_exit (SetupWithManager ClusterController (oo_EnableAdmissionWebhook o)).
Definition Standalone_Setup (o : OperatorOptions) : Op :=
  or_exit (SetupWithManager StandaloneController (oo_EnableAdmissionWebhook o)).

Definition manager_options (o : OperatorOptions) : ManagerOptions :=
  mkManagerOptions (oo_HealthProbeAddr o) (oo_EnableLeaderElection o) (oo_LeaseDuration o)
    (oo_RenewDeadline o) (oo_RetryPeriod o) leaderElectionID (oo_MetricsAddr o).

(** [mgr.Add] comes before the error of [NewManager] is looked at: without a manager it
    is a call on nil. *)
Definition add_webhook_server (o : OperatorOptions) (mgr : res unit) : Op :=
  if oo_EnableAdmissionWebhook o then
    match mgr with
    | Ok _ => or_exit (AddWebhookServer (oo_AdmissionWebhookPort o) (oo_AdmissionWebhookCertDir o))
    | _ => ([], Some Crash)
    end
  else op_nil.

Definition setup_webhooks (o : OperatorOptions) : Op :=
  if oo_EnableAdmissionWebhook o then
    or_exit (SetupWebhookWithManager ClusterController);;
    or_exit (SetupWebhookWithManager StandaloneController)
  else op_nil.

(** The profiling server runs beside the manager: its end is not waited for.  (That it
    ends the process when it fails later is not modelled.) *)
Definition start_profiling (o : OperatorOptions) : Op :=
  if oo_EnableProfiling o then ([ServeProfiling (oo_ProfilingAddress o)], None) else op_nil.

(** The run after the options are parsed: [None] when [Start] returned nil. *)
Definition Run (o : OperatorOptions) : Op :=
  let create := NewManager (manager_options o) in
  let mgr := answers create in
  or_exit GetConfigOrDie;;
  ([create], None);;
  add_webhook_server o mgr;;
  (match mgr with Ok _ => op_nil | Err _ => ([], Some (Exit 1)) | Panic => ([], Some Crash) end);;
  or_exit (AddHealthzCheck "healthz");;
  or_exit (AddReadyzCheck "readyz");;
  Cluster_Setup o;;
  Standalone_Setup o;;
  setup_webhooks o;;
  start_profiling o;;
  or_exit Start.

(** ** Specification *)

(** What is asked for before the start, in order. *)
Definition preparation (o : OperatorOptions) : list action :=
  [GetConfigOrDie; NewManager (manager_options o)]
  ++ (if oo_EnableAdmissionWebhook o
      then [AddWebhookServer (oo_AdmissionWebhookPort o) (oo_AdmissionWebhookCertDir o)] else [])
  ++ [AddHealthzCheck "healthz"; AddReadyzCheck "readyz"; NewCollector;
      SetupWithManager ClusterController (oo_EnableAdmissionWebhook o);
      SetupWithManager StandaloneController (oo_EnableAdmissionWebhook o)]
  ++ (if oo_EnableAdmissionWebhook o
      then [SetupWebhookWithManager ClusterController; SetupWebhookWithManager StandaloneController]
      else [])
  ++ (if oo_EnableProfiling o then [ServeProfiling (oo_ProfilingAddress o)] else []).
Definition plan (o : OperatorOptions) : list action := preparation o ++ [Start].

(** Doing them one by one up to the first that fails; the profiling server cannot. *)
Fixpoint follow (l : list action) : Op :=
  match l with
  | [] => op_nil
  | ServeProfiling address :: l => ([ServeProfiling address], None);; follow l
  | a :: l => or_exit a;; follow l
  end.

(** ** Lemmas *)

Lemma op_assoc (p q r : Op) : ((p;; q);; r) = (p;; q;; r).
Proof. destruct p as [l [e|]], q as [l' [e'|]], r as [l'' e'']; unfold op_then; cbn; by rewrite ?app_assoc. Qed.
Lemma op_nil_l p : (op_nil;; p) = p.
Proof. by destruct p. Qed.
Lemma op_nil_r p : (p;; op_nil) = p.
Proof. destruct p as [l [e|]]; unfold op_then; cbn; by rewrite ?app_nil_r. Qed.

Lemma follow_app l l' : follow (l ++ l') = (follow l;; follow l').
Proof.
  induction l as [|a l IH]; [by rewrite op_nil_l|]. cbn [app follow]. rewrite IH. destruct a; by rewrite op_assoc.
Qed.

Lemma follow_incl l : (follow l).1 ⊆ l.
Proof.
  induction l as [|a l IH]; [done|]. intros x Hx.
  assert (Hc : x ∈ ([a], None : option ending).1 ++ (follow l).1 \/ x ∈ [a]).
  { cbn [follow] in Hx. destruct a; unfold op_then, or_exit in Hx; cbn in Hx; auto;
      destruct (answers _); cbn in Hx; auto. }
  cbn in Hc. set_solver.
Qed.

(** A run that goes to its end had a success for everything asked. *)
Lemma follow_done l : (follow l).2 = None ->
  (follow l).1 = l /\ Forall (fun a => (exists address, a = ServeProfiling address) \/ answers a = Ok tt) l.
Proof.
  induction l as [|a l IH]; [by constructor|]. intros H.
  assert (Ha : ((exists address, a = ServeProfiling address) \/ answers a = Ok tt)
    /\ follow (a :: l) = (([a], None);; follow l)).
  { destruct a; cbn [follow] in *; try (split; [by left; eexists|done]);
      unfold or_exit in *; destruct (answers _) as [[]|e|] eqn:He; try discriminate H; (split; [by right|done]). }
  destruct Ha as [Ha Hf]. rewrite Hf in H |- *. unfold op_then in *. cbn in *.
  destruct (IH H) as [-> Hall]. split; [done|by constructor].
Qed.

(** ** Properties *)

(** The command does what is planned, in order, up to the first failure, which exits with
    code 1; except that with the webhooks on, a manager that could not be created
    crashes the process before its error is reported. *)
Theorem Run_follows o :
  (oo_EnableAdmissionWebhook o = true -> is_Ok (answers (NewManager (manager_options o))) = true) ->
  Run o = follow (plan o).
Proof.
  intros Hm. unfold Run, plan, preparation. cbv zeta. rewrite !follow_app, !op_assoc.
  assert (Hnew : forall p, (([NewManager (manager_options o)], None);; add_webhook_server o (answers (NewManager (manager_options o)));;
      (match answers (NewManager (manager_options o)) with Ok _ => op_nil | Err _ => ([], Some (Exit 1)) | Panic => ([], Some Crash) end);; p)
    = (or_exit (NewManager (manager_options o));; follow (if oo_EnableAdmissionWebhook o
        then [AddWebhookServer (oo_AdmissionWebhookPort o) (oo_AdmissionWebhookCertDir o)] else []);; p)).
  { intros p. unfold add_webhook_server, or_exit at 2.
    destruct (oo_EnableAdmissionWebhook o); [specialize (Hm eq_refl)|clear Hm];
      destruct (answers (NewManager (manager_options o))) as [[]|e|]; try discriminate Hm;
      cbn [follow]; rewrite ?op_nil_l, ?op_nil_r; done. }
  rewrite Hnew. unfold Cluster_Setup, Standalone_Setup, setup_webhooks, start_profiling. cbn [follow].
  rewrite !op_assoc. do 2 f_equal. destruct (oo_EnableAdmissionWebhook o), (oo_EnableProfiling o); cbn [follow];
    rewrite ?op_assoc, ?op_nil_l, ?op_nil_r; done.
Qed.

Theorem Run_without_manager o :
  oo_EnableAdmissionWebhook o = true -> answers GetConfigOrDie = Ok tt ->
  is_Ok (answers (NewManager (manager_options o))) = false ->
  Run o = ([GetConfigOrDie; NewManager (manager_options o)], Some Crash).
Proof.
  intros Hw Hc Hm. unfold Run, add_webhook_server, or_exit at 1. rewrite Hw, Hc.
  by destruct (answers (NewManager _)).
Qed.

(** The manager is started last, once everything before it has succeeded. *)
Theorem Run_starts_last o :
  Start ∈ (Run o).1 -> (Run o).1 = plan o
  /\ Forall (fun a => (exists address, a = ServeProfiling address) \/ answers a = Ok tt) (preparation o).
Proof.
  intros Hs. assert (Hf : Run o = follow (plan o)).
  { destruct (oo_EnableAdmissionWebhook o) eqn:Hw; [|apply Run_follows; by rewrite Hw].
    destruct (is_Ok (answers (NewManager (manager_options o)))) eqn:Hm; [by apply Run_follows|].
    exfalso. revert Hs. unfold Run, add_webhook_server, or_exit at 1. rewrite Hw.
    destruct (answers GetConfigOrDie), (answers (NewManager (manager_options o))); try discriminate Hm;
      unfold op_then; cbn [fst snd app]; rewrite !elem_of_cons, elem_of_nil; naive_solver. }
  rewrite Hf in Hs |- *. unfold plan in *. rewrite follow_app in Hs |- *.
  pose proof (follow_done (preparation o)) as Hd. unfold op_then in *.
  destruct (follow (preparation o)).2 eqn:Hend.
  - exfalso. assert (Hn : Start ∉ preparation o).
    { unfold preparation. rewrite !not_elem_of_app.
      destruct (oo_EnableAdmissionWebhook o), (oo_EnableProfiling o); split_and!;
        by apply (bool_decide_unpack _). }
    by apply Hn, follow_incl.
  - destruct (Hd eq_refl) as [-> Hall]. split; [|exact Hall]. cbn [fst].
    cbn [follow]. rewrite op_nil_r. done.
Qed.
End run.

(** *** The flags *)

Definition bool_text (b : bool) : string := if b then "true" else "false".

(** The command line that sets every flag. *)
Definition options_line (o : OperatorOptions) : list (string * string) :=
  [("metrics-bind-address", oo_MetricsAddr o); ("health-probe-bind-address", oo_HealthProbeAddr o);
   ("enable-leader-election", bool_text (oo_EnableLeaderElection o));
   ("leader-election-lease-duration", Duration_String (oo_LeaseDuration o));
   ("leader-election-renew-deadline", Duration_String (oo_RenewDeadline o));
   ("leader-election-retry-period", Duration_String (oo_RetryPeriod o));
   ("enable-pod-metrics", bool_text (oo_EnablePodMetrics o));
   ("enable-admission-webhook", bool_text (oo_EnableAdmissionWebhook o));
   ("admission-webhook-port", fmt_d (oo_AdmissionWebhookPort o));
   ("admission-webhook-cert-dir", oo_AdmissionWebhookCertDir o);
   ("enable-profiling", bool_text (oo_EnableProfiling o));
   ("profiling-address", oo_ProfilingAddress o)].

(** The values of an int64, which durations and Go's int are. *)
Definition is_int64 (n : Z) : Prop := (minDuration <= n <= maxDuration)%Z.

(** Documented: a decimal number is read back. *)
Class IntFlagLaws `{IntFlag} := parse_int_fmt_d n : is_int64 n -> parse_int (fmt_d n) = Ok n.

Lemma ParseBool_text b : ParseBool (bool_text b) = Ok b.
Proof. by destruct b. Qed.

(** Without arguments, the defaults, and the durations of leader election. *)
Theorem AddFlags_defaults `{FlagLaws} `{IntFlag} :
  AddFlags NewDefaultOptions [] = Ok (mkOperatorOptions ":8080" ":9494" false (15 * Second) (10 * Second)
    (2 * Second) false 0 false false 8082 "/etc/webhook-tls" false "0.0.0.0:8083").
Proof. unfold AddFlags. by rewrite (pflag_Parse_line operator_flags []) by constructor. Qed.

(** Every option that has a flag is read back from the command line that sets it. *)
Theorem AddFlags_line `{FlagLaws} `{IntFlagLaws} o d :
  is_int64 (oo_LeaseDuration o) -> is_int64 (oo_RenewDeadline o) -> is_int64 (oo_RetryPeriod o) ->
  is_int64 (oo_AdmissionWebhookPort o) ->
  oo_EnableAPIServer o = oo_EnableAPIServer d -> oo_APIServerPort o = oo_APIServerPort d ->
  AddFlags d (flag_line (options_line o)) = Ok o.
Proof.
  intros Hl Hr Hp Hw Ha Hs. unfold AddFlags. rewrite pflag_Parse_line.
  - unfold flag_value, options_line. cbn [list_to_map foldr fst snd uncurry mbind res_bind].
    simplify_map_eq. rewrite !ParseBool_text, !ParseDuration_String, parse_int_fmt_d by done.
    cbn [mbind res_bind]. rewrite <- Ha, <- Hs. by destruct o.
  - by apply (bool_decide_unpack _).
  - repeat (apply Forall_cons_2; [by apply (bool_decide_unpack _)|]). apply Forall_nil_2.
Qed.

(** ** Witnesses *)

#[local] Existing Instances plain_pflag plain_pflag_laws.
#[local] Instance plain_int_flag : IntFlag := plain_int.
#[local] Instance plain_int_flag_laws : IntFlagLaws.
Proof.
  intros n Hn. apply plain_int_fmt_d. unfold is_int64, minDuration, maxDuration in Hn. lia.
Qed.

Definition webhook_options : OperatorOptions :=
  mkOperatorOptions ":8080" ":9494" true 15000000000 10000000000 2500000000 false 0 false true 8082
    "/certs" true "0.0.0.0:8083".

Lemma AddFlags_line_witness :
  AddFlags NewDefaultOptions (flag_line (options_line webhook_options)) = Ok webhook_options
  /\ options_line webhook_options !! 5 = Some ("leader-election-retry-period", "2.5s").
Proof.
  split; [|vm_compute; reflexivity].
  apply (AddFlags_line webhook_options NewDefaultOptions); first [done|split; discriminate].
Defined.

Definition no_readiness : action -> res unit := fun a =>
  if decide (a = AddReadyzCheck "readyz") then Err (Errorf "unable to setup readyz check") else Ok tt.

Lemma Run_follows_witness :
  Run no_readiness webhook_options
  = ([GetConfigOrDie; NewManager (manager_options webhook_options); AddWebhookServer 8082 "/certs";
      AddHealthzCheck "healthz"; AddReadyzCheck "readyz"], Some (Exit 1)).
Proof. rewrite (Run_follows no_readiness webhook_options); reflexivity. Defined.

Lemma Run_starts_last_witness :
  (Run (fun _ => Ok tt) webhook_options).1 = plan webhook_options
  /\ (Run (fun _ => Ok tt) webhook_options).2 = None.
Proof.
  split; [|reflexivity].
  apply (Run_starts_last (fun _ => Ok tt) webhook_options).
  apply (bool_decide_unpack _). vm_compute. exact I.
Defined.
