(* ===== verification/Calm.v ===== *)
(** * Computations that never panic

    A Go program that dereferences a nil pointer or indexes past the end of a slice
    panics; here that is the result [Panic].  [calm] is a judgement on the computations
    of the Client file: from a memory that satisfies an invariant, a calm computation does
    not panic, keeps the invariant, also when it fails, and returns a value with a given
    property.  Its rules follow the structure of a program, and [calm_steps] applies
    them.  The environment is fixed: what its answers promise is [answer_ok]. *)

From stdpp Require Import base gmap sets strings list fin_maps.
From Stdlib Require Import ZArith.
From S2P Require Import Prelude GoLib K8s ApiCommon ApiTypes Client K8sUtil Common.
From S2P Require Import Mergo Defaulting Cluster Datanode.

(** ** Pure results *)

(** The result is an error or a value with [Q], never a panic. *)
Definition safe {A} (Q : A -> Prop) (r : res A) : Prop :=
  match r with Ok a => Q a | Err _ => True | Panic => False end.

Lemma safe_weaken {A} (P Q : A -> Prop) (r : res A) : safe P r -> (forall a, P a -> Q a) -> safe Q r.
Proof. destruct r; cbn; auto. Qed.

Lemma safe_bind {A B} (P : A -> Prop) (Q : B -> Prop) (r : res A) (f : A -> res B) :
  safe P r -> (forall a, P a -> safe Q (f a)) -> safe Q (r ≫= f).
Proof. destruct r; cbn; auto. Qed.

Lemma safe_then {A B} (Q : B -> Prop) (r : res A) (f : A -> res B) :
  r <> Panic -> (forall a, safe Q (f a)) -> safe Q (r ≫= f).
Proof. destruct r; cbn; auto. Qed.

Lemma safe_not_panic {A} (r : res A) : safe (fun _ => True) r <-> r <> Panic.
Proof. destruct r; cbn; naive_solver. Qed.

Lemma safe_never_panics {A} (Q : A -> Prop) (r : res A) : safe Q r -> r <> Panic.
Proof. by intros H ->. Qed.

Lemma safe_deref {A} (Q : A -> Prop) (p : option A) : (exists a, p = Some a /\ Q a) -> safe Q (deref p).
Proof. by intros (a & -> & Ha). Qed.

Lemma safe_guard c e : safe (fun _ => True) (guard_err c e).
Proof. by destruct c. Qed.

Lemma safe_wrap {A} (Q : A -> Prop) e (r : res A) : safe Q r -> safe Q (wrap_err e r).
Proof. by destruct r. Qed.

Lemma safe_for_each {A} (f : A -> res unit) l :
  (forall x, safe (fun _ => True) (f x)) -> safe (fun _ => True) (for_each f l).
Proof.
  intros Hf. induction l as [|x l IH]; cbn; [done|]. specialize (Hf x). by destruct (f x).
Qed.

Lemma safe_map_res {A B} (P : A -> Prop) (Q : B -> Prop) (f : A -> res B) l :
  (forall x, P x -> safe Q (f x)) -> Forall P l -> safe (Forall Q) (map_res f l).
Proof.
  intros Hf. induction 1 as [|x l Hx _ IH]; cbn; [by constructor|]. specialize (Hf x Hx).
  destruct (f x); [|done..]. destruct (map_res f l); [|done..]. by constructor.
Qed.

(** ** The judgement *)

(** What the answers of the outside world promise: none is a panic; a workload that was
    stored has its replica count, which the server defaults, and a StatefulSet with a
    datanode's name has its containers, as the operator made it; a stored cluster
    satisfies [cluster_ok], and an update stores the spec it is given; a pod that reports
    conditions has its containers running. *)
Definition datanode_named (key : NamespacedName) : Prop :=
  exists cluster extra, nn_Name key = ResourceName cluster DatanodeRoleKind extra.

Section answers.
Variable cluster_ok : GreptimeDBClusterSpec -> Prop.

Definition stored_ok {k : kind} (key : NamespacedName) : obj k -> Prop :=
  match k with
  | KDeployment => fun d => is_Some (ds_Replicas (dep_Spec d))
  | KStatefulSet => fun s => is_Some (ss_Replicas (sts_Spec s))
      /\ (datanode_named key -> complete_pod (ss_Template (sts_Spec s)))
  | KCluster => fun c => cluster_ok (gc_Spec c)
  | _ => fun _ => True
  end.

Definition updated_ok {k : kind} : obj k -> obj k -> Prop :=
  match k with
  | KCluster => fun c c' => gc_Spec c' = gc_Spec c
  | _ => fun _ _ => True
  end.

Definition pod_ok (p : Pod) : Prop :=
  po_Conditions p <> None -> Forall (fun c => is_Some (cst_RunningStartedAt c)) (po_ContainerStatuses p).

Definition answer_ok (q : req) : resp q -> Prop :=
  match q return resp q -> Prop with
  | QNewClient => safe (fun _ => True)
  | QGet _ key => safe (stored_ok key)
  | QList _ _ _ => safe (fun _ => True)
  | QCreate _ => safe (fun _ => True)
  | QUpdate _ o => safe (updated_ok o)
  | QPatch _ _ => safe (fun _ => True)
  | QDelete _ => safe (fun _ => True)
  | QStatusUpdate _ => safe (fun _ => True)
  | QPost _ => safe (fun _ => True)
  | QPostBody _ _ _ => fun a => safe (fun r => safe (fun _ => True) r.2) (pa_Response a)
  | QBoundary => fun _ => True
  | QSQLOpen _ => safe (fun _ => True)
  | QSQLQuery _ _ _ => safe (Forall (safe (fun _ => True)))
  | QListPods _ _ _ => safe (Forall pod_ok)
  | QListEvents _ _ => safe (fun _ => True)
  | QObserve _ _ _ => fun _ => True
  | QEvent _ _ => fun _ => True
  | QEtcdStatus _ => safe (fun _ => True)
  | QNow => fun _ => True
  end.

Definition sound {W} (env : environment W) : Prop := forall q w, answer_ok q (env q w).1.
End answers.

Definition calm {W} (env : environment W) {S A} (I : S -> Prop) (Q : A -> Prop) (m : M S A) : Prop :=
  hoare env I m (fun r s _ => I s /\ safe Q r).

(** From [I] to [J]: the next steps rely on [J], and nothing on the memory after an
    error. *)
Definition turns {W} (env : environment W) {S A} (I J : S -> Prop) (m : M S A) : Prop :=
  hoare env I m (fun r s _ => safe (fun _ => J s) r).

Section rules.
Context (ok : GreptimeDBClusterSpec -> Prop) {W : Type} (env : environment W).
Hypothesis Hsound : sound ok env.

Section state.
Context {S : Type} (I : S -> Prop).
Notation calm := (calm env I).

Lemma calm_weaken {A} (P Q : A -> Prop) (m : M S A) : calm P m -> (forall a, P a -> Q a) -> calm Q m.
Proof.
  intros Hm HQ s w Hs. destruct (Hm s w Hs) as [HI Hr]. split; [done|]. by eapply safe_weaken.
Qed.

Lemma calm_any {A} (P : A -> Prop) (m : M S A) : calm P m -> calm (fun _ => True) m.
Proof. intros Hm. by eapply calm_weaken. Qed.

Lemma calm_ret {A} (Q : A -> Prop) a : Q a -> calm Q (mret a).
Proof. by intros Ha s w Hs. Qed.

Lemma calm_lift {A} (Q : A -> Prop) r : safe Q r -> calm Q (lift r).
Proof. by intros Hr s w Hs. Qed.

Lemma calm_bind {A B} (P : A -> Prop) (Q : B -> Prop) (m : M S A) (f : A -> M S B) :
  calm P m -> (forall a, P a -> calm Q (f a)) -> calm Q (m ≫= f).
Proof.
  intros Hm Hf. apply (hoare_bind env I m f (fun a s _ => I s /\ P a)).
  - intros s w Hs. destruct (Hm s w Hs) as [HI Hr]. cbv zeta.
    by destruct (out_res (exec env m s w)).
  - intros a l s w [Hs Ha]. by apply Hf.
Qed.

(** A step whose value does not matter. *)
Lemma calm_then {A B} (Q : B -> Prop) (m : M S A) (f : A -> M S B) :
  calm (fun _ => True) m -> (forall a, calm Q (f a)) -> calm Q (m ≫= f).
Proof. intros Hm Hf. eapply calm_bind; [exact Hm|]. intros a _. apply Hf. Qed.

Lemma calm_get : calm I get.
Proof. by intros s w Hs. Qed.

Lemma calm_put s : I s -> calm (fun _ => True) (put s).
Proof. by intros Hs s' w _. Qed.

Lemma calm_modify f : (forall s, I s -> I (f s)) -> calm (fun _ => True) (modify f).
Proof. intros Hf s w Hs. split; [by apply Hf|done]. Qed.

Lemma calm_ask q : calm (answer_ok ok q) (ask q).
Proof. intros s w Hs. rewrite exec_ask. split; [done|apply Hsound]. Qed.

Lemma calm_try {A} (Q : A -> Prop) (m : M S A) : calm Q m -> calm (safe Q) (try m).
Proof.
  intros Hm s w Hs. rewrite exec_try. destruct (Hm s w Hs) as [HI Hr]. cbv zeta in *.
  by destruct (out_res (exec env m s w)).
Qed.

Lemma calm_when c (m : M S unit) : (c = true -> calm (fun _ => True) m) -> calm (fun _ => True) (when c m).
Proof. destruct c; [by intros H; apply H|]. intros _. by apply calm_ret. Qed.

Lemma calm_range {A} (P : A -> Prop) (f : A -> M S unit) l :
  (forall x, P x -> calm (fun _ => True) (f x)) -> Forall P l -> calm (fun _ => True) (range f l).
Proof.
  intros Hf. induction 1 as [|x l Hx _ IH]; cbn [range]; [by apply calm_ret|].
  eapply calm_then; [by apply Hf|]. intros _. exact IH.
Qed.

Lemma calm_log_err (m : M S unit) : calm (fun _ => True) m -> calm (fun _ => True) (log_err m).
Proof.
  intros Hm. eapply calm_bind; [by apply calm_try|]. intros r _. by apply calm_ret.
Qed.

Lemma calm_defer {A} (Q : A -> Prop) (d : M S unit) (m : M S A) :
  calm Q m -> calm (fun _ => True) d -> calm Q (defer d m).
Proof.
  intros Hm Hd s w Hs. rewrite exec_defer. cbn. destruct (Hm s w Hs) as [HI Hr].
  destruct (Hd _ (out_world (exec env m s w)) HI) as [HI' Hr']. cbv zeta in *. split; [exact HI'|].
  by destruct (out_res (exec env d _ _)).
Qed.

(** A computation that is known to return and to keep the invariant. *)
Lemma calm_known {A} (m : M S A) :
  (forall s w, out_res (exec env m s w) <> Panic) -> preserves (fun s s' => I s -> I s') m ->
  calm (fun _ => True) m.
Proof.
  intros Hr Hp s w Hs. split; [by apply (Hp W env)|]. by apply safe_not_panic, Hr.
Qed.

(** *** Requests *)

Lemma calm_call {A} q (to : resp q -> res A) (Q : A -> Prop) :
  (forall r, answer_ok ok q r -> safe Q (to r)) -> calm Q (ask q ≫= fun r => lift (to r)).
Proof.
  intros Ht. eapply calm_bind; [apply calm_ask|]. intros r Hr. by apply calm_lift, Ht.
Qed.

Lemma calm_Get k key : calm (stored_ok ok key) (Get k key).
Proof. apply (calm_call (QGet k key) (fun r => r)). by intros r. Qed.
Lemma calm_List k ns sel : calm (fun _ => True) (ListObjects k ns sel).
Proof. apply (calm_call (QList k ns sel) (fun r => r)). by intros r. Qed.
Lemma calm_Create o : calm (fun _ => True) (Create o).
Proof. apply (calm_call (QCreate o) (fun r => r)). by intros r. Qed.
Lemma calm_Update k o : calm (updated_ok o) (Update k o).
Proof. apply (calm_call (QUpdate k o) (fun r => r)). by intros r. Qed.
Lemma calm_Patch o old : calm (fun _ => True) (Patch o old).
Proof. apply (calm_call (QPatch o old) (fun r => r)). by intros r. Qed.
Lemma calm_Delete o : calm (fun _ => True) (Delete o).
Proof. apply (calm_call (QDelete o) (fun r => r)). by intros r. Qed.
Lemma calm_StatusUpdate o : calm (fun _ => True) (StatusUpdate o).
Proof. apply (calm_call (QStatusUpdate o) (fun r => r)). by intros r. Qed.
Lemma calm_Event t r : calm (fun _ => True) (Event t r).
Proof. eapply calm_bind; [apply (calm_ask (QEvent t r))|]. intros u _. by apply calm_ret. Qed.

Lemma calm_GetIfFound k key :
  calm (fun found => forall o, found = Some o -> stored_ok ok key o) (GetIfFound k key).
Proof.
  unfold GetIfFound. eapply calm_bind; [apply calm_try, calm_Get|]. intros [o|e|] Hr; cbn in Hr.
  - apply calm_ret. by intros o' [= <-].
  - destruct (IsNotFound e); [by apply calm_ret|by apply calm_lift].
  - done.
Qed.

Lemma calm_CreateObjectIfNotExist k (o : obj k) :
  calm (fun found => forall old, found = Some old -> stored_ok ok (key_of (obj_meta o)) old) (CreateObjectIfNotExist k o).
Proof.
  unfold CreateObjectIfNotExist. eapply calm_bind; [apply calm_try, calm_Get|]. intros [old|e|] Hr; cbn in Hr.
  - apply calm_ret. by intros old' [= <-].
  - destruct (IsNotFound e); [|by apply calm_lift]. eapply calm_then; [apply calm_Create|].
    intros _. by apply calm_ret.
  - done.
Qed.
End state.

(** *** Parts of the memory *)

Lemma calm_zoom {S T A} (I : S -> Prop) (J : T -> Prop) (Q : A -> Prop) into back (m : M T A) :
  calm env J Q m -> (forall s, I s -> J (into s)) -> (forall s t, I s -> J t -> I (back s t)) ->
  calm env I Q (zoom into back m).
Proof.
  intros Hm Hin Hback s w Hs. rewrite exec_zoom. cbn. destruct (Hm (into s) w) as [HJ Hr]; [auto|].
  split; [by apply Hback|done].
Qed.

Lemma calm_run_local {S T A} (I : S -> Prop) (J : T -> Prop) (Q : A -> Prop) (m : M T A) (t : T) :
  calm env J Q m -> J t -> calm env I Q (run_local m t).
Proof.
  intros Hm Ht s w Hs. rewrite exec_run_local. cbn. split; [done|]. by apply (Hm t w).
Qed.

(** An invariant that a relation between the memory before and after keeps: the
    computation itself is calm from a weaker one. *)
Lemma calm_preserved {S A} (R : S -> S -> Prop) (I J : S -> Prop) (Q : A -> Prop) (m : M S A) :
  preserves R m -> (forall s s', R s s' -> I s -> I s') -> (forall s, I s -> J s) ->
  calm env J Q m -> calm env I Q m.
Proof.
  intros Hp HR HJ Hm s w Hs. split; [by apply (HR s); [apply (Hp W env)|]|]. apply (Hm s w). auto.
Qed.

Lemma calm_never_panics {S A} (I : S -> Prop) (Q : A -> Prop) (m : M S A) s w :
  calm env I Q m -> I s -> out_res (exec env m s w) <> Panic.
Proof. intros Hm Hs. destruct (Hm s w Hs) as [_ Hr]. by eapply safe_never_panics. Qed.

(** *** From one invariant to the next *)

Lemma turns_calm {S A} (I : S -> Prop) (Q : A -> Prop) (m : M S A) : calm env I Q m -> turns env I I m.
Proof.
  intros Hm s w Hs. destruct (Hm s w Hs) as [HI Hr]. cbv zeta in *. by eapply safe_weaken.
Qed.

Lemma turns_bind {S A B} (I J K : S -> Prop) (m : M S A) (f : A -> M S B) :
  turns env I J m -> (forall a, turns env J K (f a)) -> turns env I K (m ≫= f).
Proof.
  intros Hm Hf. apply (hoare_bind env I m f (fun _ s _ => J s)).
  - intros s w Hs. specialize (Hm s w Hs). cbv zeta in *. by destruct (out_res (exec env m s w)).
  - intros a l s w Hs. by apply Hf.
Qed.

(** A step that keeps the invariant and returns a value with a property. *)
Lemma turns_calm_bind {S A B} (I K : S -> Prop) (Q : A -> Prop) (m : M S A) (f : A -> M S B) :
  calm env I Q m -> (forall a, Q a -> turns env I K (f a)) -> turns env I K (m ≫= f).
Proof.
  intros Hm Hf. apply (hoare_bind env I m f (fun a s _ => I s /\ Q a)).
  - intros s w Hs. destruct (Hm s w Hs) as [HI Hr]. cbv zeta in *.
    by destruct (out_res (exec env m s w)).
  - intros a l s w [Hs Ha]. by apply Hf.
Qed.

Lemma turns_weaken {S A} (I I' J J' : S -> Prop) (m : M S A) :
  turns env I J m -> (forall s, I' s -> I s) -> (forall s, J s -> J' s) -> turns env I' J' m.
Proof.
  intros Hm HI HJ s w Hs. specialize (Hm s w (HI s Hs)). cbv zeta in *.
  eapply safe_weaken; [exact Hm|]. auto.
Qed.

Lemma turns_when {S} (I J : S -> Prop) c (m : M S unit) :
  turns env I J m -> (c = false -> forall s, I s -> J s) -> turns env I J (when c m).
Proof. destruct c; [done|]. intros _ HJ s w Hs. by apply HJ. Qed.

Lemma turns_zoom {S T A} (I I' : T -> Prop) into (back : S -> T -> S) (m : M T A) :
  turns env I I' m -> (forall s t, into (back s t) = t) ->
  turns env (fun s => I (into s)) (fun s => I' (into s)) (zoom into back m).
Proof.
  intros Hm Hb s w Hs. rewrite exec_zoom. cbn. specialize (Hm (into s) w Hs). cbv zeta in *.
  eapply safe_weaken; [exact Hm|]. intros a H. by rewrite Hb.
Qed.
End rules.

(** Follows the structure of a program; what is left are the assignments, the pure
    results and the calls of other computations. *)
Ltac calm_step :=
  match goal with
  | |- forall _, _ => intro
  | |- calm _ _ _ (let _ := _ in _) => cbv zeta
  | |- calm _ _ _ (mret _) => apply calm_ret
  | |- calm _ _ _ (lift _) => apply calm_lift
  | |- calm _ _ (fun _ => True) get => eapply calm_any, calm_get
  | Hs : sound ?ok ?env |- calm ?env ?I _ (Get ?k ?key) =>
      exact (calm_any env I _ _ (calm_Get ok env Hs I k key))
  | Hs : sound ?ok ?env |- calm ?env ?I _ (ListObjects ?k ?ns ?sel) =>
      exact (calm_List ok env Hs I k ns sel)
  | |- calm _ _ _ (Create _) => eapply calm_Create; eassumption
  | |- calm _ _ _ (Patch _ _) => eapply calm_Patch; eassumption
  | |- calm _ _ _ (Delete _) => eapply calm_Delete; eassumption
  | |- calm _ _ _ (StatusUpdate _) => eapply calm_StatusUpdate; eassumption
  | |- calm _ _ _ (Event _ _) => eapply calm_Event; eassumption
  | |- calm _ _ _ (modify _) => apply calm_modify
  | |- calm _ _ _ (when _ _) => apply calm_when
  | |- calm _ _ _ (log_err _) => apply calm_log_err
  | |- calm _ _ _ (ask ?q ≫= lift) => eapply (calm_call _ _ ltac:(eassumption) _ q (fun r => r)); by intros r
  | |- calm _ _ _ (ask ?q) => eapply calm_any, (calm_ask _ _ ltac:(eassumption) _ q)
  | |- calm _ _ _ (_ ≫= _) => eapply calm_then
  | |- calm _ _ _ (match ?x with _ => _ end) => destruct x eqn:?
  | |- safe _ (Ok _) => exact I
  | |- safe _ (Err _) => exact I
  | |- safe _ (guard_err _ _) => apply safe_guard
  | |- safe _ (wrap_err _ _) => apply safe_wrap
  | |- safe _ (for_each _ _) => apply safe_for_each
  | |- safe _ (match ?x with _ => _ end) => destruct x eqn:?
  end.
Create HintDb calm.
Ltac calm_steps := repeat calm_step; eauto with calm.
