(* ===== verification/Runnable.v ===== *)
(** * A spec the operator can run on

    What the generators, the status checks and the collector dereference: the templates
    with their main container, the metasrv, the initializer, the frontends' services, the
    sizes of the storages.  [cluster_ok] is what this needs of the spec a user stores; the
    defaults turn it into [defaulted_ok], and the merges into [runnable], which only
    depends on the spec up to its shared maps. *)

From stdpp Require Import base gmap sets strings list fin_maps.
From Stdlib Require Import ZArith.
From S2P Require Import Prelude GoLib K8s ApiCommon ApiTypes Client Common Mergo Defaulting Cluster.
From S2P Require Import Calm.

(** ** Specifications *)

Definition main_template (c : ComponentSpec) : Prop := is_Some (cs_Template c ≫= tp_MainContainer).

Definition all_frontends (s : GreptimeDBClusterSpec) : list FrontendSpec :=
  option_list (cl_Frontend s) ++ cl_FrontendGroups s.
Definition all_datanodes (s : GreptimeDBClusterSpec) : list DatanodeSpec :=
  option_list (cl_Datanode s) ++ cl_DatanodeGroups s.

(** The operator's own quantities parse. *)
Class QuantityLaws `{QuantityLib} := {
  default_size_parses : MustParse DefaultDataSize <> Panic;
  default_quantities_parse : quantities_parse }.

Section specs.
Context `{QuantityLib}.

(** The size of a storage, if there is one, is a quantity. *)
Definition parses (fs : option FileStorage) : Prop :=
  fs <> None -> MustParse (FileStorage_GetSize fs) <> Panic.

(** A raft-engine WAL has a file storage, whose size is a quantity: the validation does
    not ask for it. *)
Definition wal_ok (s : GreptimeDBClusterSpec) : Prop :=
  forall re, cl_WALProvider s ≫= wp_RaftEngineWAL = Some re ->
    re_FileStorage re <> None /\ parses (re_FileStorage re).
Definition cache_ok (s : GreptimeDBClusterSpec) : Prop :=
  parses (GetCacheFileStorage (cl_ObjectStorageProvider s)).

(** What the operator relies on in the spec of a stored cluster. *)
Definition size_or_default (d : DatanodeSpec) : Prop :=
  forall fs, DatanodeSpec_GetFileStorage (Some d) = Some fs -> fs_StorageSize fs <> "" -> parses (Some fs).
Definition cluster_ok (s : GreptimeDBClusterSpec) : Prop :=
  Forall size_or_default (all_datanodes s) /\ wal_ok s /\ cache_ok s.

(** What does not depend on the component specs. *)
Record shape_ok (s : GreptimeDBClusterSpec) : Prop := {
  shape_meta : is_Some (cl_Meta s);
  shape_initializer : is_Some (cl_Initializer s);
  shape_services : Forall (fun f => is_Some (fe_Service f)) (all_frontends s);
  shape_storages : Forall (fun d => parses (DatanodeSpec_GetFileStorage (Some d))) (all_datanodes s);
  shape_wal : wal_ok s;
  shape_cache : cache_ok s }.

Definition defaulted_ok (s : GreptimeDBClusterSpec) : Prop :=
  shape_ok s /\ (exists b, cl_Base s = Some b /\ with_probes b)
  /\ all_components (fun _ c => is_Some (cs_Template c)) s.
Definition runnable (s : GreptimeDBClusterSpec) : Prop :=
  shape_ok s /\ all_components (fun _ => main_template) s.
End specs.

(** ** The spec without its component specs and shared maps *)

Definition bare_frontend (x : FrontendSpec) : FrontendSpec :=
  on_service no_maps_service (set_fe_component zero_ComponentSpec x).
Definition bare_meta : MetaSpec -> MetaSpec := set_me_component zero_ComponentSpec.
Definition bare_datanode : DatanodeSpec -> DatanodeSpec := set_dn_component zero_ComponentSpec.
Definition bare_flownode : FlownodeSpec -> FlownodeSpec := set_fl_component zero_ComponentSpec.
Definition bare (s : GreptimeDBClusterSpec) : GreptimeDBClusterSpec :=
  set_components (bare_frontend <$> cl_Frontend s) (bare_meta <$> cl_Meta s)
    (bare_datanode <$> cl_Datanode s) (bare_datanode <$> cl_DatanodeGroups s)
    (bare_flownode <$> cl_Flownode s) (bare_frontend <$> cl_FrontendGroups s) s.

(** ** Lemmas *)

Lemma bare_core s : bare (spec_core s) = bare s.
Proof.
  unfold bare, spec_core, set_components. cbn. f_equal; rewrite <- ?option_fmap_compose, <- ?list_fmap_compose;
    (apply option_fmap_ext || apply list_fmap_ext); try (intros i x _); try (intros x);
    unfold compose, bare_frontend, no_maps_frontend, on_service; cbn; try done; by destruct (fe_Service x).
Qed.

Lemma fmap_option_list {A B} (f : A -> B) (p : option A) : option_list (f <$> p) = f <$> option_list p.
Proof. by destruct p. Qed.

Lemma all_frontends_bare s : all_frontends (bare s) = bare_frontend <$> all_frontends s.
Proof. unfold all_frontends. rewrite fmap_app. f_equal. apply fmap_option_list. Qed.
Lemma all_datanodes_bare s : all_datanodes (bare s) = bare_datanode <$> all_datanodes s.
Proof. unfold all_datanodes. rewrite fmap_app. f_equal. apply fmap_option_list. Qed.

Section with_quantities.
Context `{QuantityLib}.

Lemma shape_bare s : shape_ok (bare s) <-> shape_ok s.
Proof.
  assert (Hs : Forall (fun f => is_Some (fe_Service f)) (all_frontends (bare s))
    <-> Forall (fun f => is_Some (fe_Service f)) (all_frontends s)).
  { rewrite all_frontends_bare, Forall_fmap. apply Forall_proper; [|done].
    intros f. cbn. by rewrite fmap_is_Some. }
  assert (Hd : Forall (fun d => parses (DatanodeSpec_GetFileStorage (Some d))) (all_datanodes (bare s))
    <-> Forall (fun d => parses (DatanodeSpec_GetFileStorage (Some d))) (all_datanodes s)).
  { rewrite all_datanodes_bare, Forall_fmap. by apply Forall_proper. }
  split; intros [Hm Hi Hf Hst Hw Hc]; split; try done; try (by apply Hs); try (by apply Hd).
  - cbn in Hm. by apply fmap_is_Some in Hm.
  - cbn. by apply fmap_is_Some.
Qed.

Lemma shape_same s s' : bare s' = bare s -> shape_ok s -> shape_ok s'.
Proof. intros Hb Hs. apply shape_bare. rewrite Hb. by apply shape_bare. Qed.

(** The components up to their shared maps. *)
Lemma main_template_no_maps c : main_template (no_maps c) <-> main_template c.
Proof. unfold main_template. by destruct c as [? ? [t|] ? ?]. Qed.

Lemma all_components_core s :
  all_components (fun _ => main_template) (spec_core s) <-> all_components (fun _ => main_template) s.
Proof.
  unfold all_components, spec_core, set_components. cbn. rewrite !fmap_option_list, !Forall_fmap.
  repeat first [apply Morphisms_Prop.and_iff_morphism | apply Forall_proper; [|reflexivity]];
    intros x; apply main_template_no_maps.
Qed.

Lemma runnable_core s : runnable (spec_core s) <-> runnable s.
Proof.
  unfold runnable. rewrite all_components_core. split; intros [Hs Hc]; split; try done.
  - eapply shape_same; [|exact Hs]. symmetry. apply bare_core.
  - eapply shape_same; [|exact Hs]. apply bare_core.
Qed.

Lemma runnable_same c c' : same_cluster c c' -> runnable (gc_Spec c) -> runnable (gc_Spec c').
Proof. intros (_ & Hs & _) Hr. apply runnable_core. rewrite Hs. by apply runnable_core. Qed.
End with_quantities.

(** ** Updates of the component specs *)

Section updates.
Variable f : Z -> ComponentSpec -> res ComponentSpec.

Lemma on_ptr_image {A B} (u : A -> res A) (b : A -> B) p p' :
  (forall x x', u x = Ok x' -> b x' = b x) -> on_ptr u p = Ok p' -> b <$> p' = b <$> p.
Proof.
  intros Hu. destruct p as [x|]; cbn; [|by intros [= <-]]. destruct (u x) as [x'|e|] eqn:E; cbn; [|done..].
  intros [= <-]. cbn. by rewrite (Hu _ _ E).
Qed.

Lemma map_res_image {A B} (u : A -> res A) (b : A -> B) l l' :
  (forall x x', u x = Ok x' -> b x' = b x) -> map_res u l = Ok l' -> b <$> l' = b <$> l.
Proof.
  intros Hu Hl. apply map_res_Ok in Hl. induction Hl as [|x x' l l' Hx _ IH]; [done|]. cbn.
  by rewrite (Hu _ _ Hx), IH.
Qed.

Lemma update_frontend_bare x x' : update_frontend f x = Ok x' -> bare_frontend x' = bare_frontend x.
Proof. unfold update_frontend. intros H. res_inv. by subst x'. Qed.
Lemma update_meta_bare x x' : update_meta f x = Ok x' -> bare_meta x' = bare_meta x.
Proof. unfold update_meta. intros H. res_inv. by subst x'. Qed.
Lemma update_datanode_bare x x' : update_datanode f x = Ok x' -> bare_datanode x' = bare_datanode x.
Proof. unfold update_datanode. intros H. res_inv. by subst x'. Qed.
Lemma update_flownode_bare x x' : update_flownode f x = Ok x' -> bare_flownode x' = bare_flownode x.
Proof. unfold update_flownode. intros H. res_inv. by subst x'. Qed.

Lemma set_components_bare s frontend meta datanode datanodeGroups flownode frontendGroups :
  on_ptr (update_frontend f) (cl_Frontend s) = Ok frontend ->
  on_ptr (update_meta f) (cl_Meta s) = Ok meta ->
  on_ptr (update_datanode f) (cl_Datanode s) = Ok datanode ->
  map_res (update_datanode f) (cl_DatanodeGroups s) = Ok datanodeGroups ->
  on_ptr (update_flownode f) (cl_Flownode s) = Ok flownode ->
  map_res (update_frontend f) (cl_FrontendGroups s) = Ok frontendGroups ->
  bare (set_components frontend meta datanode datanodeGroups flownode frontendGroups s) = bare s.
Proof.
  intros Hf Hm Hd Hdg Hfl Hfg. unfold bare. cbn.
  rewrite (on_ptr_image _ bare_frontend _ _ update_frontend_bare Hf), (on_ptr_image _ bare_meta _ _ update_meta_bare Hm),
    (on_ptr_image _ bare_datanode _ _ update_datanode_bare Hd), (map_res_image _ bare_datanode _ _ update_datanode_bare Hdg),
    (on_ptr_image _ bare_flownode _ _ update_flownode_bare Hfl), (map_res_image _ bare_frontend _ _ update_frontend_bare Hfg).
  done.
Qed.

(** Updating every component with a function that returns and gives [Q] from [P]. *)
Lemma update_all_specs_gives (P Q : Z -> ComponentSpec -> Prop) s :
  (forall port c, P port c -> exists c', f port c = Ok c' /\ Q port c') -> all_components P s ->
  exists s', update_all_specs f s = Ok s' /\ bare s' = bare s /\ all_components Q s'.
Proof.
  intros Hf (Hfg & Hfe & Hm & Hdg & Hd & Hfl).
  destruct (on_ptr_Ok (fun x => Q (me_HTTPPort x) (me_ComponentSpec x)) (update_meta f) (cl_Meta s))
    as (meta & E1 & Q1); [by apply (updated me_HTTPPort me_ComponentSpec set_me_component P Q)|].
  destruct (on_ptr_Ok (fun x => Q (fl_HTTPPort x) (fl_ComponentSpec x)) (update_flownode f) (cl_Flownode s))
    as (flownode & E2 & Q2); [by apply (updated fl_HTTPPort fl_ComponentSpec set_fl_component P Q)|].
  destruct (on_ptr_Ok (fun x => Q (dn_HTTPPort x) (dn_ComponentSpec x)) (update_datanode f) (cl_Datanode s))
    as (datanode & E3 & Q3); [by apply (updated dn_HTTPPort dn_ComponentSpec set_dn_component P Q)|].
  destruct (map_res_post (fun x => Q (dn_HTTPPort x) (dn_ComponentSpec x)) (update_datanode f) (cl_DatanodeGroups s))
    as (datanodeGroups & E4 & Q4); [by apply (updated dn_HTTPPort dn_ComponentSpec set_dn_component P Q)|].
  destruct (on_ptr_Ok (fun x => Q (fe_HTTPPort x) (fe_ComponentSpec x)) (update_frontend f) (cl_Frontend s))
    as (frontend & E5 & Q5); [by apply (updated fe_HTTPPort fe_ComponentSpec set_fe_component P Q)|].
  destruct (map_res_post (fun x => Q (fe_HTTPPort x) (fe_ComponentSpec x)) (update_frontend f) (cl_FrontendGroups s))
    as (frontendGroups & E6 & Q6); [by apply (updated fe_HTTPPort fe_ComponentSpec set_fe_component P Q)|].
  unfold update_all_specs. rewrite E1, E2, E3, E4, E5, E6. eexists. split; [reflexivity|].
  split; [by apply set_components_bare|]. by unfold all_components.
Qed.
End updates.

(** ** The merges of a reconciliation *)

Section merges.
Context `{QuantityLib} `{OpaqueMerge} `{MergoLaws}.

Lemma probed_main port c : probed port c -> main_template c.
Proof.
  intros (t & Ht & Hp). unfold main_template. rewrite Ht. cbn. unfold probe_ports in Hp.
  destruct (tp_MainContainer t); [eauto|]. by apply Forall_cons in Hp as [? _].
Qed.

Lemma all_components_impl (P Q : Z -> ComponentSpec -> Prop) s :
  (forall port c, P port c -> Q port c) -> all_components P s -> all_components Q s.
Proof.
  intros HPQ (?&?&?&?&?&?). unfold all_components. split_and!;
    (eapply Forall_impl; [eassumption|]; cbn; eauto).
Qed.

Lemma MergeWithBaseTemplate_bare c c' : MergeWithBaseTemplate c = Ok c' -> bare (gc_Spec c') = bare (gc_Spec c).
Proof.
  unfold MergeWithBaseTemplate. intros Hm. res_inv. subst c'. eapply set_components_bare; rewrite ?map_res_Ok; eassumption.
Qed.

(** The base template gives every component its main container. *)
Lemma MergeWithBaseTemplate_runnable c :
  defaulted_ok (gc_Spec c) -> exists c', MergeWithBaseTemplate c = Ok c' /\ runnable (gc_Spec c').
Proof.
  intros (Hs & (b & Hb & Hp) & Ht).
  destruct (MergeWithBaseTemplate_probed c b Hb Hp Ht) as (c' & Hm & Hc). exists c'. split; [done|].
  split; [eapply shape_same; [|exact Hs]; by apply MergeWithBaseTemplate_bare|].
  eapply all_components_impl; [|exact Hc]. intros port x. apply probed_main.
Qed.

Lemma MergeWithGlobalLogging_runnable c :
  runnable (gc_Spec c) -> exists c', MergeWithGlobalLogging c = Ok c' /\ runnable (gc_Spec c').
Proof.
  intros [Hs Hc]. unfold MergeWithGlobalLogging. destruct (GetLogging (Some c)) as [global|]; [|by exists c].
  destruct (update_all_specs_gives (merge_logging global (MonitoringSpec_IsEnabled (GetMonitoring (Some c))))
    (fun _ => main_template) (fun _ => main_template) (gc_Spec c)) as (s' & -> & Hb & Hc'); [|done|].
  - intros port x Hx. unfold merge_logging. destruct (cs_Logging x) as [l|]; cbn [on_ptr]; [|by eexists].
    rewrite mergo_documented. cbn. by eexists.
  - eexists. split; [reflexivity|]. split; [by eapply shape_same|exact Hc'].
Qed.

Lemma MergeWithGlobalTracing_runnable c :
  runnable (gc_Spec c) -> exists c', MergeWithGlobalTracing c = Ok c' /\ runnable (gc_Spec c').
Proof.
  intros [Hs Hc]. unfold MergeWithGlobalTracing. destruct (GetTracing (Some c)) as [global|]; [|by exists c].
  destruct (update_all_specs_gives (merge_tracing global)
    (fun _ => main_template) (fun _ => main_template) (gc_Spec c)) as (s' & -> & Hb & Hc'); [|done|].
  - intros port x Hx. unfold merge_tracing. destruct (cs_Tracing x) as [l|]; cbn [on_ptr]; [|by eexists].
    rewrite mergo_documented. cbn. by eexists.
  - eexists. split; [reflexivity|]. split; [by eapply shape_same|exact Hc'].
Qed.

(** ** The defaults *)

Lemma frontend_service_filled tr x c : is_Some (fe_Service (fill tr x (defaultFrontend c))).
Proof. cbn. by destruct (fe_Service x). Qed.

(** A storage is sized by the user or by the default. *)
Lemma datanode_size_filled `{!QuantityLaws} tr d c :
  size_or_default d -> parses (DatanodeSpec_GetFileStorage (Some (fill tr d (defaultDatanode c)))).
Proof.
  intros Hd _. pose proof default_size_parses as Hsize. unfold size_or_default, parses in Hd.
  cbn in *. destruct (dn_Storage d) as [[home [fs|]]|]; cbn in *; [|exact Hsize|exact Hsize].
  case_decide as E; [exact Hsize|]. by apply (Hd fs).
Qed.

Lemma SetDefaults_gives_shape `{!QuantityLaws} c c1 :
  cluster_ok (gc_Spec c) -> Cluster_SetDefaults c = Ok c1 -> shape_ok (gc_Spec c1).
Proof.
  intros (Hst & Hw & Hca) Hc. pose proof (SetDefaults_groups c c1 Hc) as [Hdg Hfg].
  apply Forall_app in Hst as [Hst Hstg].
  apply SetDefaults_from in Hc as [m Hc]. split.
  - rewrite Hc. change (is_Some (fill true (cl_Meta (gc_Spec c)) (Some (defaultMeta c)))).
    destruct (cl_Meta (gc_Spec c)); eexists; reflexivity.
  - rewrite Hc. change (is_Some (fill true (cl_Initializer (gc_Spec c))
      (Some (mkInitializerSpec DefaultInitializerImage)))).
    destruct (cl_Initializer (gc_Spec c)); eexists; reflexivity.
  - unfold all_frontends. rewrite Hfg. apply Forall_app. split.
    + rewrite Hc. change (Forall (fun f => is_Some (fe_Service f)) (option_list (fill true (cl_Frontend (gc_Spec c))
        (if not_nil (cl_Frontend (gc_Spec c)) then Some (defaultFrontend c) else None)))).
      destruct (cl_Frontend (gc_Spec c)) as [x|]; constructor; [apply (frontend_service_filled true)|done].
    + apply Forall_map, Forall_true. intros x. apply (frontend_service_filled false).
  - unfold all_datanodes. rewrite Hdg. apply Forall_app. split.
    + rewrite Hc. change (Forall (fun d => parses (DatanodeSpec_GetFileStorage (Some d)))
        (option_list (fill true (cl_Datanode (gc_Spec c))
          (if not_nil (cl_Datanode (gc_Spec c)) then Some (defaultDatanode c) else None)))).
      destruct (cl_Datanode (gc_Spec c)) as [x|]; constructor; [|done].
      apply (datanode_size_filled true). by apply Forall_cons in Hst as [? _].
    + apply Forall_map. eapply Forall_impl; [exact Hstg|]. intros x. apply (datanode_size_filled false).
  - assert (He : cl_WALProvider (gc_Spec c1) = cl_WALProvider (gc_Spec c)).
    { rewrite Hc. change (fill true (cl_WALProvider (gc_Spec c)) None = cl_WALProvider (gc_Spec c)).
      by destruct (cl_WALProvider (gc_Spec c)). }
    unfold wal_ok. by rewrite He.
  - assert (He : cl_ObjectStorageProvider (gc_Spec c1) = cl_ObjectStorageProvider (gc_Spec c)).
    { rewrite Hc. change (fill true (cl_ObjectStorageProvider (gc_Spec c)) None = cl_ObjectStorageProvider (gc_Spec c)).
      by destruct (cl_ObjectStorageProvider (gc_Spec c)). }
    unfold cache_ok. by rewrite He.
Qed.

(** The defaults of a stored spec. *)
Lemma SetDefaults_gives `{!QuantityLaws} c :
  cluster_ok (gc_Spec c) -> exists c1, Cluster_SetDefaults c = Ok c1 /\ defaulted_ok (gc_Spec c1).
Proof.
  intros Hok. destruct (SetDefaults_total c default_quantities_parse) as [c1 Hc]. exists c1. split; [done|].
  split; [by eapply SetDefaults_gives_shape|]. split; [by eapply SetDefaults_base|].
  refine (SetDefaults_components (fun x => is_Some (cs_Template x)) _ _ template_filled _ Hc).
  intros r. by eexists.
Qed.
End merges.
