(* ===== verification/CalmGen.v ===== *)
(** * The generators never panic on a runnable cluster

    The configurations, the pod templates, the services and claims of every component,
    and the builder that annotates them: on a spec that is [runnable], with libraries
    that return their errors, no generator dereferences a nil pointer, whatever the
    server answers about secrets. *)

From stdpp Require Import base gmap sets strings list fin_maps.
From Stdlib Require Import ZArith Lia.
From S2P Require Import Prelude GoLib Hash K8s ApiCommon ApiTypes Client ApiServer K8sUtil.
From S2P Require Import Deployer Builder Common NodeId Validate Toml DbConfig Initializer Pods.
From S2P Require Import Mergo Defaulting Cluster Generator Datanode Claims DatanodeGen MetaGen.
From S2P Require Import FlownodeGen FrontendGen Monitoring Calm Runnable.

(** ** Libraries that return their errors *)

Class SafeLibraries `{TomlLib} `{VectorLib} `{JsonLib} `{ControllerLib} := {
  safe_Load s : toml_Load s <> Panic;
  safe_template : vectorConfigTemplate <> Panic;
  safe_Execute t m : template_Execute t m <> Panic;
  safe_Unmarshal s : json_Unmarshal s <> Panic;
  safe_MarshalSpec o : json_MarshalSpec o <> Panic;
  safe_SetControllerReference owner o : SetControllerReference owner (Some o) <> Panic }.

(** ** Configurations *)

Section configs.
Context (ok : GreptimeDBClusterSpec -> Prop) {W : Type} (env : environment W).
Hypothesis Hsound : sound ok env.
Context {S : Type} (I : S -> Prop).
Notation calm := (calm env I).
Notation T := (fun _ => True).

Lemma calm_GetSecretsData ns name keys :
  calm (fun data => length data = length keys) (GetSecretsData ns name keys).
Proof.
  unfold GetSecretsData, GetK8sResource. eapply calm_then.
  { eapply calm_then; [calm_steps|]. calm_steps. }
  intros secret. destruct (sec_Data secret) as [data|]; [|calm_steps]. apply calm_lift.
  match goal with |- safe _ (map_res ?f _) => destruct (map_res f keys) eqn:E end; [|done|].
  - apply map_res_Ok, Forall2_length in E. cbn. by rewrite E.
  - clear - E. induction keys as [|k keys IH]; cbn in E; [done|].
    destruct (data !! k) as [[v|]|]; try done.
    destruct (map_res _ keys); [done|done|by apply IH].
Qed.

Lemma safe_secret_value data i (Q : string -> Prop) :
  i < length data -> (forall v, Q v) -> safe Q (secret_value data i).
Proof.
  intros Hi HQ. unfold secret_value. destruct (lookup_lt_is_Some_2 data i Hi) as [v ->]. apply HQ.
Qed.

Lemma calm_secret_pair ns name k1 k2 old : calm T (secret_pair ns name k1 k2 old).
Proof.
  unfold secret_pair. case_decide; [|calm_steps]. eapply calm_bind; [apply calm_GetSecretsData|].
  intros data Hl. cbn in Hl. eapply calm_then; [apply calm_lift, safe_secret_value; [lia|done]|]. intros a.
  eapply calm_then; [apply calm_lift, safe_secret_value; [lia|done]|]. intros b. calm_steps.
Qed.

Lemma calm_ConfigureObjectStorage c ns accessor : calm T (ConfigureObjectStorage c ns accessor).
Proof.
  unfold ConfigureObjectStorage, configureS3, configureOSS, configureGCS, configureAZBlob.
  eapply calm_then; [|intros c'; calm_steps].
  repeat match goal with |- calm _ (match ?x with _ => _ end) => destruct x end; try by apply calm_ret.
  - eapply calm_then; [apply calm_secret_pair|]. intros []. calm_steps.
  - eapply calm_then; [apply calm_secret_pair|]. intros []. calm_steps.
  - eapply calm_then; [|intros v; calm_steps]. case_decide; [|calm_steps].
    eapply calm_bind; [apply calm_GetSecretsData|]. intros data Hl. cbn in Hl.
    eapply calm_then; [apply calm_lift, safe_secret_value; [lia|done]|]. intros a. calm_steps.
  - eapply calm_then; [apply calm_secret_pair|]. intros []. calm_steps.
Qed.

Lemma calm_with_object_storage c ns provider : calm T (with_object_storage c ns provider).
Proof. unfold with_object_storage. destruct (not_nil provider); [apply calm_ConfigureObjectStorage|calm_steps]. Qed.

Lemma calm_with_kafka c ns wal : calm T (with_kafka c ns wal).
Proof.
  unfold with_kafka, configureKafka. destruct (WALProviderSpec_GetKafkaWAL wal) as [kafka|]; [|calm_steps].
  eapply calm_then; [|intros [? []]; calm_steps].
  destruct (KafkaWAL_GetSASL (Some kafka)) as [sasl|]; [|calm_steps].
  eapply calm_then; [|intros v; calm_steps].
  destruct (ks_SecretRef sasl) as [r|]; [|calm_steps].
  eapply calm_bind; [apply calm_GetSecretsData|]. intros data Hl. cbn in Hl.
  eapply calm_then; [apply calm_lift, safe_secret_value; [lia|done]|]. intros a.
  eapply calm_then; [apply calm_lift, safe_secret_value; [lia|done]|]. intros b. calm_steps.
Qed.

Lemma safe_connection scheme data host port database :
  length data = 2 -> safe T (connection_string scheme data host port database).
Proof.
  intros Hl. unfold connection_string. eapply safe_bind; [apply (safe_secret_value _ _ T); [lia|done]|].
  intros u _. eapply safe_bind; [apply (safe_secret_value _ _ T); [lia|done]|]. done.
Qed.

Lemma calm_configureBackendStorage `{TomlLib} c spec ns : calm T (configureBackendStorage c spec ns).
Proof.
  unfold configureBackendStorage, generateMySQLConnectionString, generatePostgreSQLConnectionString.
  cbv zeta. set (b := MetaSpec_GetBackendStorage spec). eapply calm_then.
  - destruct (BackendStorage_GetMySQLStorage b); [|calm_steps]. eapply calm_then; [|intros v; calm_steps].
    eapply calm_bind; [apply calm_GetSecretsData|]. intros data Hl. by apply calm_lift, safe_connection.
  - intros c1. destruct (BackendStorage_GetPostgreSQLStorage b); [|calm_steps]. eapply calm_then; [|intros v; calm_steps].
    eapply calm_bind; [apply calm_GetSecretsData|]. intros data Hl. by apply calm_lift, safe_connection.
Qed.

Lemma safe_with_wal_dir c wal dir : dir <> Panic -> safe T (with_wal_dir c wal dir).
Proof. unfold with_wal_dir. intros Hd. destruct (not_nil _); [done|]. by destruct dir. Qed.

Lemma calm_ConfigureByCluster `{TomlLib} cfg c role :
  GetWALDir (Some c) <> Panic -> calm T (ConfigureByCluster cfg c role).
Proof.
  intros Hd. unfold ConfigureByCluster. destruct cfg, role; try by calm_steps.
  - eapply calm_then; [|intros v; calm_steps]. unfold configure_meta. cbv zeta.
    eapply calm_then; [apply calm_configureBackendStorage|]. intros m.
    eapply calm_then; [apply calm_with_kafka|]. intros w. calm_steps.
  - eapply calm_then; [|intros v; calm_steps]. unfold configure_datanode. cbv zeta.
    eapply calm_then; [apply calm_with_object_storage|]. intros st.
    eapply calm_then; [by apply calm_lift, safe_with_wal_dir|]. intros w.
    eapply calm_then; [apply calm_with_kafka|]. intros w'. calm_steps.
  - eapply calm_then; [|intros v; calm_steps]. unfold configure_frontend.
    eapply calm_then; [|intros v; calm_steps]. destruct (FrontendSpec_ShouldInjectObjectStorage _); [|calm_steps].
    apply calm_with_object_storage.
Qed.

Lemma safe_Marshal `{TomlLaws} cfg strategy : (forall s, toml_Load s <> Panic) -> safe T (Marshal cfg strategy).
Proof.
  intros Hl. unfold Marshal, mergeConfig. specialize (Hl (GetInputConfig cfg)).
  destruct (toml_Load _) as [t|e|]; [|done..]. cbn [mbind res_bind].
  by destruct (merge_fields_total strategy (fields cfg) t (fields_have_values cfg)) as [t' ->].
Qed.

Lemma safe_NewFromRoleKind `{TomlLib} kind : safe T (NewFromRoleKind kind).
Proof. unfold NewFromRoleKind. by repeat case_decide. Qed.

Lemma calm_FromCluster `{TomlLaws} c role :
  (forall s, toml_Load s <> Panic) -> GetWALDir (Some c) <> Panic -> calm T (FromCluster c role).
Proof.
  intros Hl Hd. unfold FromCluster. eapply calm_then; [apply calm_lift, safe_NewFromRoleKind|]. intros cfg.
  eapply calm_then; [by apply calm_ConfigureByCluster|]. intros cfg'. by apply calm_lift, safe_Marshal.
Qed.
End configs.

(** ** Pod templates *)

Section pods.
Notation T := (fun _ => True).

Lemma safe_on_main f t : has_main t -> safe has_main (on_main f t).
Proof.
  unfold on_main, has_main. destruct (ps_Containers (pt_Spec t)) as [|x l]; [done|]. by cbn.
Qed.

Lemma safe_mount_main m t : has_main t -> safe has_main (mount_main m t).
Proof. apply safe_on_main. Qed.

Lemma safe_mountConfigDir t : has_main t -> safe has_main (mountConfigDir t).
Proof. intros Ht. by apply safe_mount_main. Qed.

Lemma safe_mountTLSSecret name t : has_main t -> safe has_main (mountTLSSecret name t).
Proof. intros Ht. by apply safe_mount_main. Qed.

Lemma safe_AddLogsVolume dir t : has_main t -> safe has_main (AddLogsVolume dir t).
Proof. intros Ht. by apply safe_mount_main. Qed.

Lemma has_main_audit t : has_main t -> has_main (AddAuditLogsVolumeForVector t).
Proof. unfold AddAuditLogsVolumeForVector. by destruct (has_volume _ t). Qed.

Lemma safe_AddAuditLogsVolume dir t : has_main t -> safe has_main (AddAuditLogsVolume dir t).
Proof. intros Ht. by apply safe_mount_main, has_main_audit. Qed.

Lemma safe_MountConfigDir t name : has_main t -> safe has_main (MountConfigDir t name).
Proof.
  unfold MountConfigDir, has_main. destruct (ps_Containers (pt_Spec t)) as [|x l]; [done|]. by cbn.
Qed.

Lemma safe_with_args main args t : args <> Panic -> has_main t -> safe has_main (with_args main args t).
Proof.
  intros Ha Ht. unfold with_args. case_decide; [|done]. apply safe_then; [done|].
  intros a. by apply safe_on_main.
Qed.

Lemma safe_mount_storages data wal cache t : has_main t -> safe has_main (mount_storages data wal cache t).
Proof.
  assert (Hm : forall fs t, has_main t -> safe has_main (mount_storage fs t))
    by (intros [fs|] t' Ht'; [by apply safe_mount_main|done]).
  intros Ht. unfold mount_storages. eapply safe_bind; [by apply Hm|]. intros t1 Ht1.
  eapply safe_bind; [by apply Hm|]. intros t2 Ht2. by apply Hm.
Qed.

Lemma safe_addEmptyDir `{QuantityLib} fs t : parses fs -> fs <> None -> has_main t ->
  safe has_main (addEmptyDirAsStorage fs t).
Proof. intros Hp Hfs Ht. unfold addEmptyDirAsStorage. apply safe_then; [by apply Hp|]. by intros q. Qed.

Lemma safe_start_pod kind template :
  is_Some (template ≫= tp_MainContainer) -> safe (fun p => has_main p.2) (start_pod kind template).
Proof.
  unfold start_pod. destruct template as [t|]; cbn; [|by intros [? [=]]].
  destruct (tp_MainContainer t) as [m|]; cbn; [|by intros [? [=]]]. by intros _.
Qed.

Lemma vector_enabled_set c :
  vector_enabled c = true -> exists m v, cl_Monitoring (gc_Spec c) = Some m /\ mo_Vector m = Some v.
Proof.
  unfold vector_enabled, GetMonitoring. cbn. destruct (cl_Monitoring (gc_Spec c)) as [m|]; [|done].
  cbn. destruct (mo_Vector m) as [v|] eqn:E; [by eauto|]. by rewrite andb_false_r.
Qed.

Lemma safe_AddVectorSidecar c kind t : vector_enabled c = true -> safe has_main (AddVectorSidecar c kind t).
Proof.
  intros (m & v & Hm & Hv)%vector_enabled_set. unfold AddVectorSidecar. cbv zeta. rewrite Hm. cbn.
  rewrite Hv. cbn. apply has_main_add_container.
Qed.

Lemma safe_GenerateVectorConfigMap `{VectorLib} c :
  vectorConfigTemplate <> Panic -> (forall t m, template_Execute t m <> Panic) ->
  vector_enabled c = true -> safe T (GenerateVectorConfigMap c).
Proof.
  intros Ht Hx (m & v & Hm & _)%vector_enabled_set. unfold GenerateVectorConfigMap, GetMonitoring. cbn. rewrite Hm.
  cbn. apply safe_then; [done|]. intros t. apply safe_then; [apply Hx|]. done.
Qed.

Lemma safe_GeneratePodMonitor ns name monitor :
  IsEnablePrometheusMonitor monitor = true -> safe T (GeneratePodMonitor ns name monitor).
Proof. unfold GeneratePodMonitor. by destruct monitor. Qed.

Lemma safe_generate_claims `{QuantityLib} data wal cache name group kind :
  parses data -> parses wal -> parses cache -> safe T (generate_claims data wal cache name group kind).
Proof.
  intros Hd Hw Hc. unfold generate_claims. eapply safe_weaken with (P := Forall T); [|done].
  apply (safe_map_res (fun p : FileStorage * FileStorageType => parses (Some p.1))).
  - intros [fs t] Hp. unfold FileStorageToPVC. apply safe_then; [by apply Hp|]. done.
  - unfold storages. rewrite !Forall_app. split_and!; [destruct data|destruct wal|destruct cache];
      by repeat constructor.
Qed.
End pods.

Create HintDb pods.
#[export] Hint Resolve safe_on_main safe_mount_main safe_mountConfigDir safe_mountTLSSecret
  safe_AddLogsVolume safe_AddAuditLogsVolume safe_MountConfigDir safe_mount_storages safe_start_pod
  has_main_audit : pods.

(** One step of a pod template, which keeps its main container. *)
Ltac pod_step :=
  eapply (safe_bind has_main); [eauto with pods|intros ? ?; cbv beta zeta in *].

(** ** The components' pods *)

Section component_pods.
Context `{TomlLib} `{VectorLib} `{QuantityLib}.
Variable c : GreptimeDBCluster.
Hypothesis Hc : runnable (gc_Spec c).
Notation T := (fun _ => True).

Lemma safe_meta_pod spec : GetMeta (Some c) = Some spec -> safe has_main (meta_pod_base c spec).
Proof.
  intros Hm. assert (Ht : main_template (me_ComponentSpec spec)).
  { destruct Hc as [_ (_ & _ & Hm' & _)]. cbn in Hm. rewrite Hm in Hm'. by apply Forall_cons in Hm' as [? _]. }
  unfold meta_pod_base. eapply safe_bind; [by apply safe_start_pod|]. intros [main t] Hmain. cbn in Hmain.
  eapply safe_bind; [by apply safe_with_args|]. intros t1 Ht1. do 3 pod_step.
  destruct (meta_logs_volume spec); eauto with pods.
Qed.

Lemma meta_set : is_Some (cl_Meta (gc_Spec c)).
Proof. apply Hc. Qed.
Lemma initializer_set : is_Some (cl_Initializer (gc_Spec c)).
Proof. apply Hc. Qed.

Lemma safe_flownode_pod spec : GetFlownode c = Some spec -> safe has_main (flownode_pod_base c spec).
Proof.
  intros Hm. assert (Ht : main_template (fl_ComponentSpec spec)).
  { destruct Hc as [_ (_ & _ & _ & _ & _ & Hm')]. unfold GetFlownode in Hm. rewrite Hm in Hm'.
    by apply Forall_cons in Hm' as [? _]. }
  unfold flownode_pod_base. eapply safe_bind; [by apply safe_start_pod|]. intros [main t] Hmain. cbn in Hmain.
  eapply safe_bind.
  { apply safe_with_args; [|exact Hmain]. unfold flownode_generateMainContainerArgs.
    by destruct meta_set as [m ->]. }
  intros t1 Ht1. do 3 pod_step. destruct (flownode_logs_volume spec); eauto with pods.
Qed.

Lemma safe_flownode_pod_end spec t : safe T (flownode_pod_end c spec t).
Proof.
  unfold flownode_pod_end, flownode_generateInitializer. by destruct initializer_set as [i ->].
Qed.

Lemma safe_datanode_pod spec gid :
  spec ∈ all_datanodes (gc_Spec c) -> safe T (datanode_generatePodTemplateSpec c spec gid).
Proof.
  intros Hin. assert (Ht : main_template (dn_ComponentSpec spec)).
  { destruct Hc as [_ (_ & _ & _ & Hg & Hd & _)]. apply elem_of_app in Hin as [Hin|Hin];
      [rewrite Forall_forall in Hd; by apply Hd|rewrite Forall_forall in Hg; by apply Hg]. }
  assert (Hp : parses (DatanodeSpec_GetFileStorage (Some spec))).
  { destruct Hc as [[_ _ _ Hs _ _] _]. rewrite Forall_forall in Hs. by apply Hs. }
  unfold datanode_generatePodTemplateSpec. eapply safe_bind; [by apply safe_start_pod|].
  intros [main t] Hmain. cbn in Hmain. eapply safe_bind.
  { apply safe_with_args; [|exact Hmain]. unfold datanode_generateMainContainerArgs.
    by destruct meta_set as [m ->]. }
  intros t1 Ht1. do 3 pod_step. unfold datanode_addVolumeMounts. pod_step.
  eapply (safe_bind has_main).
  { destruct (FileStorage_IsUseEmptyDir _) eqn:E; [|done]. apply safe_addEmptyDir; [exact Hp| |done].
    intros He. by rewrite He in E. }
  intros t6 Ht6. eapply (safe_bind has_main); [destruct (datanode_logs_volume spec); eauto with pods|].
  intros t7 Ht7. eapply (safe_bind has_main).
  { destruct (vector_enabled c) eqn:E; [|done]. by apply safe_AddVectorSidecar. }
  intros t8 Ht8. unfold datanode_generateInitializer. by destruct initializer_set as [i ->].
Qed.

Lemma wal_dir_set : GetWALDir (Some c) <> Panic.
Proof.
  unfold GetWALDir. destruct Hc as [[_ _ _ _ Hw _] _]. unfold wal_ok in Hw.
  destruct (cl_WALProvider (gc_Spec c) ≫= wp_RaftEngineWAL) as [re|].
  - destruct (Hw re eq_refl) as [Hfs _]. by destruct (re_FileStorage re).
  - destruct (cl_Datanode (gc_Spec c) ≫= dn_Storage); [|done]. by case_decide.
Qed.

Lemma wal_parses : parses (wal_storage c).
Proof.
  destruct Hc as [[_ _ _ _ Hw _] _]. unfold wal_ok, wal_storage, GetWALProvider in *. cbn in *.
  destruct (cl_WALProvider (gc_Spec c)) as [w|]; cbn in *; [|by intros []].
  destruct (wp_RaftEngineWAL w) as [re|]; cbn; [|by intros []]. by apply (Hw re).
Qed.

Lemma safe_datanode_claims spec : spec ∈ all_datanodes (gc_Spec c) -> safe T (datanode_claims c spec).
Proof.
  intros Hin. unfold datanode_claims. destruct (FileStorage_IsUseEmptyDir _); [done|].
  unfold datanode_generatePVCs. apply safe_generate_claims; [|apply wal_parses|apply Hc].
  destruct Hc as [[_ _ _ Hs _ _] _]. rewrite Forall_forall in Hs. by apply Hs.
Qed.

Lemma safe_frontend_pod spec :
  spec ∈ all_frontends (gc_Spec c) -> safe T (frontend_generatePodTemplateSpec c spec).
Proof.
  intros Hin. assert (Ht : main_template (fe_ComponentSpec spec)).
  { destruct Hc as [_ (Hg & Hf & _)]. apply elem_of_app in Hin as [Hin|Hin];
      [rewrite Forall_forall in Hf; by apply Hf|rewrite Forall_forall in Hg; by apply Hg]. }
  unfold frontend_generatePodTemplateSpec. eapply safe_bind; [by apply safe_start_pod|].
  intros [main t] Hmain. cbn in Hmain. eapply safe_bind.
  { apply safe_with_args; [|exact Hmain]. unfold frontend_generateMainContainerArgs. cbv zeta.
    by destruct meta_set as [m ->]. }
  intros t1 Ht1. cbv zeta. eapply (safe_bind has_main); [by apply safe_on_main|]. intros t2 Ht2. do 2 pod_step.
  eapply (safe_bind has_main); [destruct (frontend_logs_volume spec); eauto with pods|]. intros t5 Ht5.
  eapply (safe_bind has_main).
  { destruct (FrontendSpec_GetAuditLog _) as [log|]; [|done]. destruct (al_Enabled log); eauto with pods. }
  intros t6 Ht6. eapply (safe_bind has_main).
  { destruct (vector_enabled c) eqn:E; [|done]. by apply safe_AddVectorSidecar. }
  intros t7 Ht7. destruct (fe_TLS spec) as [tls|]; [|done].
  eapply safe_weaken; [by apply safe_mountTLSSecret|done].
Qed.

Lemma safe_frontend_service spec : spec ∈ all_frontends (gc_Spec c) -> safe T (frontend_service c spec).
Proof.
  intros Hin. unfold frontend_service. cbv zeta. destruct Hc as [[_ _ Hs _ _ _] _].
  rewrite Forall_forall in Hs. by destruct (Hs spec Hin) as [sv ->].
Qed.
End component_pods.

(** ** The builder *)

(** What the builder has is of the kinds it annotates. *)
Definition known_objects {S} (s : S * DefaultBuilder) : Prop :=
  Forall (fun o => supported (o_kind o) = true) (db_Objects s.2).

Section builder.
Context `{SafeLibraries} {W : Type} (env : environment W).
Notation T := (fun _ => True).

Lemma safe_annotate_loop indices : forall spec controlled b,
  Forall (fun i => i < length (db_Objects b)) indices ->
  Forall (fun o => supported (o_kind o) = true) (db_Objects b) ->
  safe (fun b' => Forall (fun o => supported (o_kind o) = true) (db_Objects b'))
    (annotate_loop indices spec controlled b).
Proof.
  induction indices as [|i indices IH]; intros spec controlled b Hi Ho; cbn [annotate_loop]; [done|].
  apply Forall_cons in Hi as [Hlt Hi]. destruct (lookup_lt_is_Some_2 _ _ Hlt) as [o Hx].
  assert (Hk : supported (o_kind o) = true) by (by eapply Forall_lookup_1 in Ho).
  rewrite Hx. cbn [deref mbind res_bind]. cbv zeta. rewrite Hk. unfold doSetControllerAndAnnotation.
  cbn [mbind option_bind]. rewrite Hx. pose proof (safe_SetControllerReference (db_Owner b) o) as Hr.
  destruct (SetControllerReference _ _) as [m|e|]; [|exact Ho|done]. cbn [deref mbind res_bind].
  set (o' := with_object_meta _ o). unfold setLastAppliedResourceSpecAnnotation.
  pose proof (safe_MarshalSpec o) as Hj. destruct (json_MarshalSpec o) as [data|e|];
    [|cbn; by apply Forall_insert|done].
  cbn [mbind res_bind]. apply IH; cbn [set_Objects db_Objects].
  - eapply Forall_impl; [exact Hi|]. intros j Hj'. by rewrite !length_insert.
  - apply Forall_insert; [by apply Forall_insert|done].
Qed.

Lemma safe_SetControllerAndAnnotation b :
  Forall (fun o => supported (o_kind o) = true) (db_Objects b) ->
  safe (fun b' => Forall (fun o => supported (o_kind o) = true) (db_Objects b'))
    (SetControllerAndAnnotation b).
Proof.
  intros Ho. apply safe_annotate_loop; [|done]. apply Forall_forall. intros i Hi.
  apply elem_of_seq in Hi. lia.
Qed.

Section state.
Context {S : Type}.
Notation J := (@known_objects S).
Notation calm := (calm env J).

Lemma calm_append_object o : supported (o_kind o) = true -> calm T (append_object o).
Proof.
  intros Ho. apply calm_modify. intros s Hs. unfold known_objects. cbn. apply Forall_app. split; [done|].
  by apply Forall_singleton.
Qed.

Lemma calm_write f : calm T (write f).
Proof. by apply calm_modify. Qed.

Lemma calm_catch body : calm T body -> calm T (catch body).
Proof.
  intros Hb. eapply calm_bind; [by apply calm_try|]. intros [u|e|] _; [by apply calm_ret| |by apply calm_ret].
  by apply calm_modify.
Qed.

Lemma calm_build body : calm T body -> calm T (build body).
Proof.
  intros Hb. eapply calm_then; [by eapply calm_any, calm_get|]. intros s.
  destruct (db_Err s.2); [by apply calm_ret|by apply calm_catch].
Qed.

Lemma calm_or_set_err {A B} (r : res A) (b : B) k :
  safe T r -> (forall a, calm T (k a)) -> calm T (or_set_err r b k).
Proof.
  intros Hr Hk. unfold or_set_err. destruct r; [apply Hk| |done].
  eapply calm_then; [by apply calm_modify|]. intros _. by apply calm_ret.
Qed.

Lemma calm_finish_on shared : calm T (finish_on shared).
Proof.
  unfold finish_on. eapply calm_bind; [apply calm_get|]. intros s Hs. cbv beta in Hs.
  eapply calm_bind with (P := fun b => Forall (fun o => supported (o_kind o) = true) (db_Objects b)).
  { by apply calm_lift, safe_SetControllerAndAnnotation. }
  intros b Hb. eapply calm_then; [by apply calm_put|]. intros _. apply calm_lift. unfold Generate.
  by destruct (db_Err b).
Qed.

Lemma calm_with_builder owner (m : M (S * DefaultBuilder) unit) shared :
  calm T m -> Calm.calm env T T (with_builder owner (_ ← m; finish_on shared)).
Proof.
  intros Hm. apply (calm_zoom env T J); [|by intros s _; constructor|done].
  eapply calm_then; [exact Hm|]. intros _. apply calm_finish_on.
Qed.
End state.
End builder.

(** ** The components' builders *)

Section generators.
Context `{SafeLibraries} `{!TomlLaws} `{QuantityLib}.
Context (ok : GreptimeDBClusterSpec -> Prop) {W : Type} (env : environment W).
Hypothesis Hsound : sound ok env.
Notation T := (fun _ => True).
Notation calm := (calm env (@known_objects CState)).

Section cluster.
Variable c : GreptimeDBCluster.
Hypothesis Hc : runnable (gc_Spec c).

Lemma calm_config role : calm T (FromCluster c role).
Proof. exact (calm_FromCluster ok env Hsound _ c role safe_Load (wal_dir_set c Hc)). Qed.

Lemma calm_append_configmap role : calm T (append_configmap c role).
Proof.
  unfold append_configmap, CommonBuilder_GenerateConfigMap. eapply calm_then.
  - eapply calm_then; [apply calm_config|]. intros text. by apply calm_lift.
  - intros cm. by apply calm_append_object.
Qed.

Lemma calm_append_vector_configmap : vector_enabled c = true -> calm T (append_vector_configmap c).
Proof.
  intros Hv. unfold append_vector_configmap. eapply calm_then.
  - apply calm_lift, safe_GenerateVectorConfigMap; [apply safe_template|apply safe_Execute|done].
  - intros cm. by apply calm_append_object.
Qed.

Lemma calm_append_podmonitor name :
  IsEnablePrometheusMonitor (GetPrometheusMonitor (Some c)) = true -> calm T (append_podmonitor c name).
Proof.
  intros Hm. unfold append_podmonitor. eapply calm_then; [by apply calm_lift, safe_GeneratePodMonitor|].
  intros pm. by apply calm_append_object.
Qed.

Lemma calm_append_hashed p role workload template :
  (forall t, supported (o_kind (workload t)) = true) -> calm T (append_hashed c p role workload template).
Proof.
  intros Hw. unfold append_hashed. eapply calm_then; [apply calm_write|]. intros _.
  eapply calm_then; [apply calm_config|]. intros text. cbv zeta.
  eapply calm_then; [apply calm_write|]. intros _. by apply calm_append_object.
Qed.

Lemma calm_with_vector kind t rest :
  (forall t', safe T (rest t')) -> calm T (with_vector c kind t rest).
Proof.
  intros Hr. unfold with_vector. destruct (vector_enabled c) eqn:Hv; [|by apply calm_lift].
  apply calm_or_set_err.
  - apply safe_GenerateVectorConfigMap; [apply safe_template|apply safe_Execute|done].
  - intros cm. eapply calm_then; [by apply calm_append_object|]. intros _.
    eapply calm_then; [|intros t'; by apply calm_lift].
    eapply calm_any, calm_lift. by apply safe_AddVectorSidecar.
Qed.

Lemma calm_meta_build : calm T (meta_build c).
Proof.
  unfold meta_build, Meta_BuildService, Meta_BuildConfigMap, Meta_BuildDeployment, Meta_BuildPodMonitor.
  eapply calm_then; [|intros _; eapply calm_then; [|intros _; eapply calm_then; [|intros _]]];
    apply calm_build; destruct (GetMeta (Some c)) as [spec|] eqn:Hm; try (by apply calm_ret).
  - by apply calm_append_object.
  - apply calm_append_configmap.
  - eapply calm_then; [|intros t; by apply calm_append_hashed]. unfold meta_generatePodTemplateSpec.
    eapply calm_then; [by eapply calm_any, calm_lift, safe_meta_pod|]. intros t. by apply calm_with_vector.
  - destruct (IsEnablePrometheusMonitor _) eqn:Hp; cbn [negb]; [by apply calm_append_podmonitor|by apply calm_ret].
Qed.

Lemma calm_flownode_build : calm T (flownode_build c).
Proof.
  unfold flownode_build, Flownode_BuildService, Flownode_BuildConfigMap, Flownode_BuildStatefulSet,
    Flownode_BuildPodMonitor.
  eapply calm_then; [|intros _; eapply calm_then; [|intros _; eapply calm_then; [|intros _]]];
    apply calm_build; destruct (GetFlownode c) as [spec|] eqn:Hm; try (by apply calm_ret).
  - by apply calm_append_object.
  - apply calm_append_configmap.
  - eapply calm_then; [|intros t; by apply calm_append_hashed]. unfold flownode_generatePodTemplateSpec.
    eapply calm_then; [by eapply calm_any, calm_lift, safe_flownode_pod|]. intros t.
    apply calm_with_vector. intros t'. by apply safe_flownode_pod_end.
  - destruct (IsEnablePrometheusMonitor _) eqn:Hp; cbn [negb]; [by apply calm_append_podmonitor|by apply calm_ret].
Qed.

(** *** Datanodes *)

Lemma base_datanode spec : GetDatanode (Some c) = Some spec -> spec ∈ all_datanodes (gc_Spec c).
Proof. cbn. intros Hd. apply elem_of_app. left. rewrite Hd. by left. Qed.

Lemma group_datanodes : Forall (fun spec => spec ∈ all_datanodes (gc_Spec c)) (GetDatanodeGroups (Some c)).
Proof. apply Forall_forall. intros spec Hs. apply elem_of_app. by right. Qed.

Lemma indexed_datanodes :
  Forall (fun p : nat * DatanodeSpec => p.2 ∈ all_datanodes (gc_Spec c)) (indexed (GetDatanodeGroups (Some c))).
Proof.
  unfold indexed. rewrite Forall_lookup. intros i [j spec] Hi. rewrite list_lookup_imap in Hi.
  apply fmap_Some in Hi as (x & Hx & [= -> ->]). apply elem_of_app. right. by apply list_elem_of_lookup_2 in Hx.
Qed.

Lemma calm_datanode_statefulset p gid spec :
  spec ∈ all_datanodes (gc_Spec c) -> calm T (datanode_statefulset c p gid spec).
Proof.
  intros Hs. unfold datanode_statefulset, generateDatanodeStatefulSet.
  eapply calm_then; [|intros sts; by apply calm_append_object].
  eapply calm_then; [by apply calm_lift, safe_datanode_pod|]. intros t.
  eapply calm_then; [apply calm_write|]. intros _.
  eapply calm_then; [by apply calm_lift, safe_datanode_claims|]. intros claims.
  eapply calm_then; [apply calm_config|]. intros text. cbv zeta.
  eapply calm_then; [apply calm_write|]. intros _. by apply calm_ret.
Qed.

Lemma calm_datanode_build : calm T (datanode_build c).
Proof.
  unfold datanode_build, Datanode_BuildService, Datanode_BuildConfigMap, Datanode_BuildStatefulSet,
    Datanode_BuildPodMonitor.
  eapply calm_then; [|intros _; eapply calm_then; [|intros _; eapply calm_then; [|intros _]]];
    apply calm_build; destruct (no_datanodes c); try (by apply calm_ret).
  - destruct (GetDatanode (Some c)) as [spec|]; [by apply calm_append_object|].
    eapply calm_range; [|apply group_datanodes]. intros spec _. by apply calm_append_object.
  - eapply calm_then; [destruct (GetDatanode (Some c)); [apply calm_append_configmap|by apply calm_ret]|].
    intros _. eapply calm_range; [|apply group_datanodes]. intros spec _. apply calm_append_configmap.
  - eapply calm_then; [apply calm_when; intros Hv; by apply calm_append_vector_configmap|]. intros _.
    destruct (GetDatanode (Some c)) as [spec|] eqn:Hd; [by apply calm_datanode_statefulset, base_datanode|].
    eapply calm_range; [|apply indexed_datanodes]. intros [i spec] Hs. by apply calm_datanode_statefulset.
  - destruct (IsEnablePrometheusMonitor _) eqn:Hp; cbn [negb]; [|by apply calm_ret].
    destruct (GetDatanode (Some c)); [by apply calm_append_podmonitor|].
    eapply calm_range; [|apply group_datanodes]. intros spec _. by apply calm_append_podmonitor.
Qed.

(** *** Frontends *)

Lemma listed_frontends :
  Forall (fun p : slot * FrontendSpec => p.2 ∈ all_frontends (gc_Spec c)) (frontends c).
Proof.
  unfold frontends, all_frontends. apply Forall_app. split.
  - cbn. destruct (cl_Frontend (gc_Spec c)) as [spec|]; cbn; [|constructor]. repeat constructor.
  - rewrite Forall_lookup. intros i [j spec] Hi. rewrite list_lookup_imap in Hi.
    apply fmap_Some in Hi as (x & Hx & [= -> ->]). apply elem_of_app. right. by apply list_elem_of_lookup_2 in Hx.
Qed.

Lemma calm_frontend_build : calm T (frontend_build c).
Proof.
  unfold frontend_build, Frontend_BuildService, Frontend_BuildConfigMap, Frontend_BuildDeployment,
    Frontend_BuildPodMonitor.
  eapply calm_then; [|intros _; eapply calm_then; [|intros _; eapply calm_then; [|intros _]]];
    apply calm_build; destruct (no_frontends c); try (by apply calm_ret).
  - eapply calm_range; [|apply listed_frontends]. intros [p spec] Hs. unfold frontend_generateService.
    eapply calm_then; [by apply calm_lift, safe_frontend_service|]. intros svc.
    eapply calm_then; [apply calm_write|]. intros _. by apply calm_append_object.
  - eapply calm_range; [|apply listed_frontends]. intros [p spec] _. apply calm_append_configmap.
  - eapply calm_then; [apply calm_when; intros Hv; by apply calm_append_vector_configmap|]. intros _.
    eapply calm_range; [|apply listed_frontends]. intros [p spec] Hs. apply calm_catch.
    eapply calm_then; [by apply calm_lift, safe_frontend_pod|]. intros t. by apply calm_append_hashed.
  - destruct (IsEnablePrometheusMonitor _) eqn:Hp; cbn [negb]; [|by apply calm_ret].
    eapply (calm_range _ _ T); [|by apply Forall_true]. intros name _. by apply calm_append_podmonitor.
Qed.

Lemma calm_monitoring_build : calm T (Monitoring_BuildGreptimeDBStandalone c).
Proof.
  apply calm_when. intros Hon. apply calm_build. eapply calm_then.
  - apply calm_lift. unfold monitoring_on in Hon. by destruct (MonitoringSpec_GetStandalone _);
      [|rewrite andb_false_r in Hon].
  - intros spec. by apply calm_append_object.
Qed.
End cluster.

(** ** The generators *)

Definition on_runnable (s : CState) : Prop := runnable (gc_Spec (c_cluster s)).

Lemma on_runnable_same s s' :
  same_cluster (c_cluster s) (c_cluster s') -> on_runnable s -> on_runnable s'.
Proof. apply runnable_same. Qed.

(** A generator reads the cluster in memory and builds from it. *)
Lemma calm_generate (build : GreptimeDBCluster -> M (CState * DefaultBuilder) unit) shared :
  (forall c, runnable (gc_Spec c) -> calm T (build c)) ->
  keeps_cluster (c ← get_cluster; with_builder (Object KCluster c) (_ ← build c; finish_on (shared c))) ->
  Calm.calm env on_runnable T
    (c ← get_cluster; with_builder (Object KCluster c) (_ ← build c; finish_on (shared c))).
Proof.
  intros Hb Hk s w Hs. split; [by eapply on_runnable_same; [apply (Hk W env)|]|].
  rewrite exec_bind, exec_get_cluster. cbn [out_res out_st out_world].
  exact (proj2 (calm_with_builder env (Object KCluster (c_cluster s)) _ (shared (c_cluster s)) (Hb _ Hs) s w I)).
Qed.

Lemma calm_Meta_Generate : Calm.calm env on_runnable T Meta_Generate.
Proof. exact (calm_generate meta_build (fun _ _ s => s) calm_meta_build Meta_Generate_keeps). Qed.
Lemma calm_Datanode_Generate : Calm.calm env on_runnable T Datanode_Generate.
Proof. exact (calm_generate datanode_build (fun _ _ s => s) calm_datanode_build Datanode_Generate_keeps). Qed.
Lemma calm_Flownode_Generate : Calm.calm env on_runnable T Flownode_Generate.
Proof. exact (calm_generate flownode_build (fun _ _ s => s) calm_flownode_build Flownode_Generate_keeps). Qed.
Lemma calm_Frontend_Generate : Calm.calm env on_runnable T Frontend_Generate.
Proof. exact (calm_generate frontend_build share_services calm_frontend_build Frontend_Generate_keeps). Qed.
Lemma calm_Monitoring_Generate : Calm.calm env on_runnable T Monitoring_Generate.
Proof.
  exact (calm_generate Monitoring_BuildGreptimeDBStandalone (fun _ _ s => s)
    (fun c _ => calm_monitoring_build c) Monitoring_Generate_keeps).
Qed.
End generators.
