(* ===== verification/CalmDeployers.v ===== *)
(** * The deployers never panic on a runnable cluster

    Applying, the status checks, the hooks, the clean-ups and the collector, and then
    the [Sync] of each of the operator's five deployers. *)

From stdpp Require Import base gmap sets strings list fin_maps.
From Stdlib Require Import ZArith Lia.
From S2P Require Import Prelude GoLib K8s ApiCommon ApiTypes Client ApiServer K8sUtil Deployer.
From S2P Require Import Builder Common Mergo Defaulting Validate Toml DbConfig Cluster Generator.
From S2P Require Import Datanode DatanodeGen Meta MetaGen Frontend FrontendGen FlownodeGen.
From S2P Require Import Monitoring Metrics Reconcile Reconciler Setup System Calm Runnable CalmGen.

#[local] Notation T := (fun _ => True).

Section deployers.
Context `{SafeLibraries} `{!TomlLaws} `{QuantityLib} `{!ControllerLaws} `{RetryLaws} `{SelectorLib}.
Context (ok : GreptimeDBClusterSpec -> Prop) {W : Type} (env : environment W).
Hypothesis Hsound : sound ok env.

(** ** Retries and status updates *)

Lemma calm_retry {S} (I : S -> Prop) n (op : M S unit) :
  calm env T T op -> preserves eq op -> calm env I T (retry_Do n op).
Proof.
  intros Hop Hp. apply calm_known.
  - apply retry_Do_returns. intros s w. by eapply calm_never_panics.
  - apply retry_Do_preserves; [split; [by intros s|intros a b c Hab Hbc Ha; auto]|].
    intros W' env' s w. by rewrite <- (Hp W' env' s w).
Qed.

Lemma calm_SetMaintenanceMode {S} (I : S -> Prop) url b : calm env I T (SetMaintenanceMode url b).
Proof.
  apply calm_retry; unfold maintenance_post; [|solve_preserves]. eapply calm_then; [calm_steps|].
  intros status. calm_steps.
Qed.

Lemma calm_UpdateStatus {S} (I : S -> Prop) c : calm env I T (UpdateStatus c).
Proof.
  apply calm_known.
  - unfold UpdateStatus. apply RetryOnConflict_returns. intros s w.
    eapply calm_never_panics with (I := T) (Q := T); [|done].
    eapply calm_then; [calm_steps|]. intros cluster. calm_steps.
  - apply UpdateStatus_preserves. split; [by intros s|intros a b c' Hab Hbc Ha; auto].
Qed.

Lemma calm_log_UpdateStatus {S} (I : S -> Prop) c : calm env I T (log_err (UpdateStatus c)).
Proof. apply calm_log_err, calm_UpdateStatus. Qed.

(** ** The cluster in memory *)

Lemma calm_get_cluster : calm env on_runnable (fun c => runnable (gc_Spec c)) get_cluster.
Proof. unfold get_cluster. eapply calm_bind; [apply calm_get|]. intros s Hs. by apply calm_ret. Qed.

Lemma calm_update_status f : calm env on_runnable T (update_status f).
Proof. by apply calm_modify. Qed.

Lemma GetMetaHTTPServiceURL_set c : runnable (gc_Spec c) -> safe T (GetMetaHTTPServiceURL c).
Proof. intros Hc. unfold GetMetaHTTPServiceURL. by destruct (meta_set c Hc) as [m ->]. Qed.

(** ** Readiness *)

Lemma safe_IsDeploymentReady d : is_Some (ds_Replicas (dep_Spec d)) -> safe T (IsDeploymentReady (Some d)).
Proof.
  intros [n Hn]. unfold IsDeploymentReady. destruct (negb _); [done|].
  induction (dt_Conditions (dep_Status d)) as [|x l IH]; cbn [deployment_conditions_ready]; [done|].
  destruct (_ && _); [|exact IH]. rewrite Hn. cbn. by destruct (Z.eqb _ _).
Qed.

Lemma safe_IsStatefulSetReady s : is_Some (ss_Replicas (sts_Spec s)) -> safe T (IsStatefulSetReady (Some s)).
Proof. intros [n Hn]. unfold IsStatefulSetReady. destruct (negb _); [done|]. by rewrite Hn. Qed.

(** ** Status checks *)

Lemma calm_Meta_status b : calm env on_runnable T (Meta_CheckAndUpdateStatus b).
Proof.
  unfold Meta_CheckAndUpdateStatus. eapply calm_then; [by eapply calm_any, calm_get_cluster|]. intros c.
  eapply calm_bind; [apply (calm_GetIfFound ok env Hsound on_runnable KDeployment)|].
  intros [d|] Hd; [|calm_steps]. specialize (Hd d eq_refl).
  eapply calm_then; [apply calm_lift; destruct Hd as [n Hn]; by rewrite Hn|]. intros replicas.
  eapply calm_then; [apply calm_update_status|]. intros _.
  eapply calm_then; [by apply calm_lift, safe_IsDeploymentReady|]. intros ready.
  eapply calm_bind; [apply calm_get_cluster|]. intros c1 Hc1. eapply calm_then.
  { destruct (_ && _); [|calm_steps]. eapply calm_then; [by apply calm_lift, GetMetaHTTPServiceURL_set|].
    intros url. eapply calm_then; [apply calm_SetMaintenanceMode|]. intros _. apply calm_update_status. }
  intros _. eapply calm_then; [by eapply calm_any, calm_get_cluster|]. intros c2.
  eapply calm_then; [apply calm_log_UpdateStatus|]. intros _. calm_steps.
Qed.

Lemma calm_Flownode_status : calm env on_runnable T Flownode_CheckAndUpdateStatus.
Proof.
  unfold Flownode_CheckAndUpdateStatus. eapply calm_then; [by eapply calm_any, calm_get_cluster|]. intros c.
  eapply calm_bind; [apply (calm_GetIfFound ok env Hsound on_runnable KStatefulSet)|].
  intros [s|] Hs; [|calm_steps]. destruct (Hs s eq_refl) as [Hr _].
  eapply calm_then; [apply calm_lift; destruct Hr as [n Hn]; by rewrite Hn|]. intros replicas.
  eapply calm_then; [apply calm_update_status|]. intros _.
  eapply calm_then; [by eapply calm_any, calm_get_cluster|]. intros c1.
  eapply calm_then; [apply calm_log_UpdateStatus|]. intros _. by apply calm_lift, safe_IsStatefulSetReady.
Qed.

Lemma calm_getStatefulSetStatus ns name : calm env on_runnable T (getStatefulSetStatus ns name).
Proof.
  unfold getStatefulSetStatus.
  eapply calm_bind; [apply (calm_GetIfFound ok env Hsound on_runnable KStatefulSet)|].
  intros [s|] Hs; [|calm_steps]. destruct (Hs s eq_refl) as [Hr _].
  eapply calm_then; [by apply calm_lift, safe_IsStatefulSetReady|]. intros ready. calm_steps.
Qed.

Lemma calm_publish_datanode_status n : calm env on_runnable T (publish_datanode_status n).
Proof.
  unfold publish_datanode_status. eapply calm_then; [by eapply calm_any, calm_get_cluster|]. intros c.
  eapply calm_then; [apply calm_update_status|]. intros _.
  eapply calm_then; [by eapply calm_any, calm_get_cluster|]. intros c1. apply calm_log_UpdateStatus.
Qed.

Lemma calm_count_ready c groups : forall n t, calm env on_runnable T (count_ready c groups n t).
Proof.
  induction groups as [|g groups IH]; intros n t; cbn [count_ready]; [calm_steps|].
  eapply calm_then; [apply calm_getStatefulSetStatus|]. intros status. apply IH.
Qed.

Lemma calm_Datanode_status : calm env on_runnable T Datanode_CheckAndUpdateStatus.
Proof.
  unfold Datanode_CheckAndUpdateStatus. eapply calm_then; [by eapply calm_any, calm_get_cluster|]. intros c.
  destruct (not_nil _).
  - unfold checkDatanodeStatus. eapply calm_then; [apply calm_getStatefulSetStatus|]. intros status.
    eapply calm_then; [apply calm_publish_datanode_status|]. intros _. calm_steps.
  - destruct (Nat.ltb _ _); [|calm_steps]. unfold checkDatanodeGroupsStatus.
    eapply calm_then; [by eapply calm_any, calm_get_cluster|]. intros c1.
    eapply calm_then; [apply calm_count_ready|]. intros counts.
    eapply calm_then; [apply calm_publish_datanode_status|]. intros _. calm_steps.
Qed.

Lemma calm_frontend_deployment key counts : calm env on_runnable T (frontend_deployment key counts).
Proof.
  unfold frontend_deployment.
  eapply calm_bind; [apply (calm_GetIfFound ok env Hsound on_runnable KDeployment)|].
  intros [d|] Hd; [|calm_steps]. specialize (Hd d eq_refl).
  eapply calm_then; [apply calm_lift; destruct Hd as [n Hn]; by rewrite Hn|]. intros replicas.
  eapply calm_then; [by apply calm_lift, safe_IsDeploymentReady|]. intros ready. calm_steps.
Qed.

Lemma calm_frontend_groups c groups : forall counts, calm env on_runnable T (frontend_groups c groups counts).
Proof.
  induction groups as [|g groups IH]; intros counts; cbn [frontend_groups]; [calm_steps|].
  eapply calm_then; [apply calm_frontend_deployment|]. intros [next|]; [apply IH|calm_steps].
Qed.

Lemma calm_Frontend_status : calm env on_runnable T Frontend_CheckAndUpdateStatus.
Proof.
  unfold Frontend_CheckAndUpdateStatus. eapply calm_then; [by eapply calm_any, calm_get_cluster|]. intros c.
  eapply calm_then; [destruct (not_nil _); [apply calm_frontend_deployment|calm_steps]|].
  intros [counts|]; [|calm_steps]. eapply calm_then; [apply calm_frontend_groups|].
  intros [total|]; [|calm_steps]. eapply calm_then; [apply calm_update_status|]. intros _.
  eapply calm_then; [by eapply calm_any, calm_get_cluster|]. intros c1.
  eapply calm_then; [apply calm_log_UpdateStatus|]. intros _. calm_steps.
Qed.

(** *** The monitoring: it dereferences the standalone only when the monitoring is on *)

Definition on_monitored (s : CState) : Prop := on_runnable s /\ monitoring_on (c_cluster s) = true.

Lemma calm_get_monitored : calm env on_monitored (fun c => monitoring_on c = true) get_cluster.
Proof.
  unfold get_cluster. eapply calm_bind; [apply calm_get|]. intros s [_ Hs]. by apply calm_ret.
Qed.

Lemma safe_monitoring_standalone c : monitoring_on c = true -> safe T (monitoring_standalone c).
Proof.
  unfold monitoring_on, monitoring_standalone, GetMonitoring. cbn. destruct (cl_Monitoring (gc_Spec c)) as [m|]; [|done].
  cbn. destruct (mo_Standalone m); [done|]. by rewrite andb_false_r.
Qed.

Lemma calm_getPipeline {S} (I : S -> Prop) c name :
  monitoring_on c = true -> calm env I T (getPipeline c name).
Proof.
  intros Hon. unfold getPipeline, QueryContext.
  eapply calm_then; [by apply calm_lift, safe_monitoring_standalone|]. intros standalone. cbv zeta.
  assert (Hq : forall q args, calm env I (Forall (safe T))
    (ask (QSQLQuery (pipelines_db c standalone) q args) ≫= lift)).
  { intros q args. apply (calm_call ok env Hsound I (QSQLQuery (pipelines_db c standalone) q args) (fun r => r)).
    by intros r. }
  eapply calm_then; [calm_steps|]. intros _. eapply calm_bind; [apply calm_try, Hq|].
  intros [rows|e|] Hr; cbn in Hr; [|calm_steps|done].
  eapply calm_bind; [apply Hq|]. intros [|row rows'] Hrows; [calm_steps|].
  apply Forall_cons in Hrows as [Hrow _]. by apply calm_lift.
Qed.

Lemma calm_post_pipeline url contentType : calm env T T (post_pipeline url contentType).
Proof.
  unfold post_pipeline. eapply calm_then; [by eapply calm_any, calm_get|]. intros body.
  eapply calm_bind; [apply (calm_ask ok env Hsound T (QPostBody url contentType body))|]. intros answer Ha.
  eapply calm_then; [by apply calm_put|]. intros _.
  eapply (calm_bind env T (fun r : Z * res string => safe T r.2)); [by apply calm_lift|].
  intros [status body'] Hb. eapply calm_then; [by apply calm_lift|]. intros text. calm_steps.
Qed.

Lemma calm_createPipeline {S} (I : S -> Prop) c data name :
  monitoring_on c = true -> calm env I T (createPipeline c data name).
Proof.
  intros Hon. unfold createPipeline. eapply calm_then; [calm_steps|]. intros boundary. cbv zeta.
  eapply calm_then; [by apply calm_lift, safe_monitoring_standalone|]. intros standalone.
  apply (calm_run_local env I T); [|done]. intros s w _. split; [done|]. apply safe_not_panic, retry_Do_returns.
  intros s' w'. eapply calm_never_panics; [apply calm_post_pipeline|done].
Qed.

Lemma calm_ensure_pipeline p : calm env on_monitored T (ensure_pipeline p).
Proof.
  unfold ensure_pipeline. eapply calm_bind; [apply calm_get_monitored|]. intros c Hc.
  eapply calm_then; [by apply calm_getPipeline|]. intros found.
  eapply calm_then; [apply calm_when; intros _; by apply calm_createPipeline|]. intros _.
  eapply calm_then; [by apply calm_modify|]. intros _.
  eapply calm_then; [by eapply calm_any, calm_get_monitored|]. intros c1. apply calm_log_UpdateStatus.
Qed.

Lemma calm_Monitoring_status : calm env on_runnable T Monitoring_CheckAndUpdateStatus.
Proof.
  intros s w Hs. split; [by eapply on_runnable_same; [apply (Monitoring_status_keeps W env)|]|].
  unfold Monitoring_CheckAndUpdateStatus. rewrite exec_bind, exec_get_cluster.
  cbn [out_res out_st out_world]. destruct (monitoring_on (c_cluster s)) eqn:Hon; cbn [negb]; [|done].
  set (c := c_cluster s) in *.
  match goal with |- context [exec env ?m s w] =>
    assert (Hm : calm env on_monitored T m) end.
  { eapply calm_bind; [apply calm_try, (calm_Get ok env Hsound on_monitored KStandalone)|]. intros err Herr.
    destruct (match err with Err e => _ | _ => false end); [calm_steps|]. cbv zeta.
    destruct (_ && _); [|calm_steps]. eapply calm_then; [|intros _; calm_steps].
    eapply (calm_range env on_monitored T); [|by apply Forall_true]. intros p _. apply calm_ensure_pipeline. }
  exact (proj2 (Hm s w (conj Hs Hon))).
Qed.

(** ** Applying *)

Lemma safe_IsObjectSpecEqual old new key : safe T (IsObjectSpecEqual old new key).
Proof.
  unfold IsObjectSpecEqual. destruct (om_Annotations old !! key) as [x|]; [|done].
  destruct (om_Annotations new !! key) as [y|]; [|done].
  apply safe_then; [apply safe_Unmarshal|]. intros j. apply safe_then; [apply safe_Unmarshal|]. done.
Qed.

Lemma calm_apply_with {S} (I : S -> Prop) (P : object -> Prop) body objects :
  (forall o, P o -> calm env I T (body o)) -> Forall P objects -> calm env I T (apply_with body objects).
Proof.
  intros Hb Ho. unfold apply_with. eapply calm_then; [|intros []; calm_steps].
  generalize false. induction Ho as [|o objects Hx _ IH]; intros u; cbn [apply_loop]; [calm_steps|].
  eapply calm_then; [by apply Hb|]. intros patched. apply IH.
Qed.

Lemma calm_DefaultDeployer_Apply {S} (I : S -> Prop) objects : calm env I T (DefaultDeployer_Apply objects).
Proof.
  apply (calm_apply_with I T); [|by apply Forall_true]. intros o _. unfold apply_object.
  eapply calm_then; [by eapply calm_any, (calm_CreateObjectIfNotExist ok env Hsound)|].
  intros [old|]; [|calm_steps].
  eapply calm_then; [apply calm_lift, safe_IsObjectSpecEqual|]. intros specEqual. cbv zeta.
  destruct (_ || _); calm_steps.
Qed.

(** What the datanodes' deployer applies: pods that can be compared, under a datanode's
    name. *)
Definition datanode_object (o : object) : Prop :=
  every_pod (fun _ => complete_pod) o /\ (o_kind o = KStatefulSet -> datanode_named (object_key o)).

Lemma calm_turnOnMaintenanceMode sts :
  datanode_object (Object KStatefulSet sts) -> calm env on_runnable T (turnOnMaintenanceMode sts).
Proof.
  intros [Hnew Hn]. specialize (Hnew _ _ eq_refl). unfold turnOnMaintenanceMode.
  eapply calm_bind; [apply (calm_Get ok env Hsound on_runnable KStatefulSet)|].
  intros old [_ Hold]. specialize (Hold (Hn eq_refl)).
  eapply calm_bind; [apply calm_get|]. intros s Hs. cbv zeta. case_decide; [calm_steps|].
  eapply calm_then; [apply calm_lift; by destruct (isOldPodRestart_returns sts old Hnew Hold) as [b ->]|].
  intros []; [|calm_steps]. eapply calm_then; [by apply calm_lift, GetMetaHTTPServiceURL_set|]. intros url.
  eapply calm_then; [apply calm_SetMaintenanceMode|]. intros _. by apply calm_modify.
Qed.

Lemma calm_turnOffMaintenanceMode : calm env on_runnable T turnOffMaintenanceMode.
Proof.
  unfold turnOffMaintenanceMode. eapply calm_bind; [apply calm_get|]. intros s Hs. cbv zeta.
  destruct (_ && _); [|calm_steps]. eapply calm_then; [by apply calm_lift, GetMetaHTTPServiceURL_set|]. intros url.
  eapply calm_then; [apply calm_SetMaintenanceMode|]. intros _. by apply calm_modify.
Qed.

Lemma calm_Datanode_Apply objects :
  Forall datanode_object objects -> calm env on_runnable T (Datanode_Apply objects).
Proof.
  intros Hc. apply (calm_apply_with on_runnable datanode_object); [|exact Hc].
  intros o Ho. unfold datanode_apply_object.
  eapply calm_then; [by eapply calm_any, (calm_CreateObjectIfNotExist ok env Hsound)|].
  intros [old|]; [|calm_steps].
  eapply calm_then; [apply calm_lift, safe_IsObjectSpecEqual|]. intros specEqual. cbv zeta.
  destruct (_ || _); [|calm_steps]. eapply calm_then; [|intros _; calm_steps].
  destruct o as [[] sts]; cbn [before_patch]; try by calm_steps.
  eapply calm_then; [by eapply calm_any, calm_get_cluster|]. intros c. apply calm_when. intros _.
  by apply calm_turnOnMaintenanceMode.
Qed.

(** ** Clean-ups and the collector *)

Lemma calm_deleteStorage {S} (I : S -> Prop) ns name t : calm env I T (deleteStorage ns name t).
Proof.
  unfold deleteStorage, GetPVCs, LabelSelectorAsSelector. eapply calm_then.
  { eapply calm_then; [|intros sel; calm_steps]. apply calm_lift. by destruct (selector_error _). }
  intros claims.
  eapply (calm_range env I T); [|by apply Forall_true]. intros pvc _. calm_steps.
Qed.

Lemma calm_Datanode_CleanUp (I : CState -> Prop) : calm env I T Datanode_CleanUp.
Proof.
  pose proof (calm_deleteStorage I) as Hd.
  assert (Hrest : forall c, calm env I T (cleanup_rest c)).
  { intros c. unfold cleanup_rest. cbv zeta. eapply calm_then.
    - eapply (calm_range env I T); [|by apply Forall_true]. intros g _. unfold cleanup_group.
      destruct (DatanodeSpec_GetFileStorage _) as [fs|]; [|calm_steps].
      destruct (FileStorage_IsUseEmptyDir _); [calm_steps|]. apply calm_when. intros _. apply Hd.
    - intros _. eapply calm_then; [apply calm_when; intros _; apply Hd|]. intros _.
      apply calm_when. intros _. apply Hd. }
  unfold Datanode_CleanUp. eapply calm_then.
  { unfold get_cluster. eapply calm_then; [by eapply calm_any, calm_get|]. intros s. calm_steps. }
  intros c. destruct (DatanodeSpec_GetFileStorage _) as [fs|]; [|apply Hrest].
  destruct (FileStorage_IsUseEmptyDir _); [calm_steps|].
  eapply calm_then; [apply calm_when; intros _; apply Hd|]. intros _. apply Hrest.
Qed.

Lemma calm_observe {S} (I : S -> Prop) hv values x :
  length values = length (hv_Labels hv) -> calm env I T (observe hv values x).
Proof.
  intros Hl. unfold observe. rewrite (proj2 (Nat.eqb_eq _ _) Hl). eapply calm_then; [calm_steps|]. intros u. calm_steps.
Qed.

Lemma calm_collectPodMetrics {S} (I : S -> Prop) name p role :
  pod_ok p -> calm env I T (collectPodMetrics name p role).
Proof.
  intros Hp. unfold collectPodMetrics. destruct (po_Conditions p) as [conditions|] eqn:Hcond; [|calm_steps].
  assert (Hr : Forall (fun x => is_Some (cst_RunningStartedAt x)) (po_ContainerStatuses p))
    by (apply Hp; by rewrite Hcond).
  assert (Ht : forall type, safe T (getPodConditionTime conditions type)).
  { intros type. unfold getPodConditionTime. by destruct (list_find _ _) as [[]|]. }
  do 3 (eapply calm_then; [by apply calm_lift, safe_wrap|intros ?]).
  do 2 (eapply calm_then; [by apply calm_observe|intros _]).
  eapply calm_then.
  { eapply calm_range; [|exact Hr]. intros x [started Hx]. unfold collect_container.
    eapply calm_then; [apply calm_lift; by rewrite Hx|]. intros at_.
    eapply calm_then; [by apply calm_observe|intros _]. by apply calm_observe. }
  intros _. eapply calm_then; [by apply calm_observe|intros _]. unfold collectPodImagePullingDuration.
  eapply calm_then.
  { unfold getImagePullingDurationFromEvents.
    eapply calm_bind; [apply (calm_ask ok env Hsound I (QListEvents (po_Namespace p) _))|].
    intros [[|event events]|e|] Ha; cbn in Ha; [calm_steps| |calm_steps|done].
    apply calm_lift. by destruct (pulling_duration_total (event :: events)) as [r ->]. }
  intros [[image d] err]. destruct err as [[|e]|]; [calm_steps|calm_steps|].
  destruct (_ || _); [calm_steps|]. by apply calm_observe.
Qed.

Lemma calm_CollectClusterPodMetrics {S} (I : S -> Prop) c b : calm env I T (CollectClusterPodMetrics c b).
Proof.
  assert (Hg : forall kind name, calm env I (Forall pod_ok) (getPods c kind name)).
  { intros kind name. unfold getPods. cbv zeta. 
    match goal with |- calm _ _ _ (ask ?q ≫= lift) => apply (calm_call ok env Hsound I q (fun r => r)) end.
    by intros r. }
  assert (Hf : forall role groups pods, Forall pod_ok pods ->
    calm env I (Forall pod_ok) (frontend_group_pods c role groups pods)).
  { intros role groups. induction groups as [|g groups IH]; intros pods Hp; cbn [frontend_group_pods];
      [by apply calm_ret|]. eapply calm_bind; [apply Hg|]. intros more Hm. apply IH, Forall_app. by split. }
  assert (Hr : forall role, calm env I T (collectPodMetricsByRole c role)).
  { intros role. unfold collectPodMetricsByRole. eapply (calm_bind env I (Forall pod_ok)).
    - destruct (decide _); [by apply Hf|by apply calm_ret].
    - intros pods Hp. eapply calm_bind; [apply Hg|]. intros more Hm. eapply calm_range.
      + intros p Hp'. by apply calm_collectPodMetrics.
      + apply Forall_app. by split. }
  unfold CollectClusterPodMetrics.
  do 4 (eapply calm_then; [apply calm_when; intros _; apply Hr|intros _]).
  apply calm_when. intros _. apply Hr.
Qed.

(** ** Synchronising *)

Lemma calm_hooks {S} (I : S -> Prop) (hooks : list (M S unit)) :
  Forall (fun hook => calm env I T hook) hooks -> calm env I T (range (fun hook => hook) hooks).
Proof. intros Hh. eapply calm_range; [|exact Hh]. by intros hook. Qed.

Lemma calm_Sync {S} (I : S -> Prop) (Q : list object -> Prop) (d : ComponentOperator S) :
  calm env I Q (co_Generate d) -> (forall objects, Q objects -> calm env I T (co_Apply d objects)) ->
  calm env I T (co_CheckAndUpdateStatus d) ->
  Forall (fun hook => calm env I T hook) (co_PreSyncHooks d) ->
  Forall (fun hook => calm env I T hook) (co_PostSyncHooks d) -> calm env I T (Sync d).
Proof.
  intros Hg Ha Hc Hpre Hpost. unfold Sync. eapply calm_bind; [exact Hg|]. intros objects Ho.
  case_decide; [calm_steps|]. eapply calm_then; [by apply calm_hooks|]. intros _.
  eapply calm_then; [by apply Ha|]. intros _. eapply calm_then; [exact Hc|]. intros ready.
  destruct (negb ready); [calm_steps|by apply calm_hooks].
Qed.

Lemma calm_checkEtcdService : calm env on_runnable T checkEtcdService.
Proof.
  unfold checkEtcdService. eapply calm_then; [by eapply calm_any, calm_get_cluster|]. intros c.
  destruct (etcd_to_check c); [|calm_steps]. eapply calm_then; [calm_steps|]. intros errors. calm_steps.
Qed.

Lemma datanode_objects_named s w objs :
  out_res (exec env Datanode_Generate s w) = Ok objs ->
  Forall (fun o => o_kind o = KStatefulSet -> datanode_named (object_key o)) objs.
Proof.
  intros (raw & Hr & Hp)%datanode_generates. set (c := c_cluster s) in *.
  destruct (component_generated _ _ _ raw objs (datanode_component_named c) Hr Hp) as [Hk _].
  apply Forall_forall. intros o Ho Hkind.
  assert (Hin : kind_key o ∈ map kind_key objs) by (by apply list_elem_of_fmap_2).
  rewrite Hk in Hin. unfold kind_key in Hin.
  destruct (component_names c DatanodeRoleKind _ _ _ (datanode_of_role c) Hin) as [[He _]|(extra & He & _)];
    [congruence|]. exists (cluster_name c), extra. exact He.
Qed.

Lemma calm_Datanode_Generate_named : calm env on_runnable (Forall datanode_object) Datanode_Generate.
Proof.
  intros s w Hs. destruct (calm_Datanode_Generate ok env Hsound s w Hs) as [HI Hr]. split; [exact HI|].
  pose proof (datanode_pods_complete env s w) as Hc. pose proof (datanode_objects_named s w) as Hn. cbv zeta in *.
  destruct (out_res (exec env Datanode_Generate s w)) as [objects|e|]; [|done|done].
  apply Forall_and. split; [by apply Hc|by apply Hn].
Qed.

Lemma calm_cluster_deployers b collector :
  Forall (fun d => calm env on_runnable T (Sync d)) (Deployers (cluster_reconciler b collector)).
Proof.
  repeat apply Forall_cons_2; [..|apply Forall_nil_2].
  - eapply calm_Sync; [by eapply calm_Monitoring_Generate|intros os _; apply calm_DefaultDeployer_Apply|
      apply calm_Monitoring_status|constructor..].
  - eapply calm_Sync; [by eapply calm_Meta_Generate|intros os _; apply calm_DefaultDeployer_Apply|
      apply calm_Meta_status|apply Forall_singleton, calm_checkEtcdService|constructor].
  - eapply calm_Sync; [apply calm_Datanode_Generate_named|intros os; apply calm_Datanode_Apply|
      apply calm_Datanode_status|constructor|apply Forall_singleton, calm_turnOffMaintenanceMode].
  - eapply calm_Sync; [by eapply calm_Frontend_Generate|intros os _; apply calm_DefaultDeployer_Apply|
      apply calm_Frontend_status|constructor..].
  - eapply calm_Sync; [by eapply calm_Flownode_Generate|intros os _; apply calm_DefaultDeployer_Apply|
      apply calm_Flownode_status|constructor..].
Qed.

Lemma calm_cluster_cleanups (I : CState -> Prop) b collector :
  Forall (fun d => calm env I T (co_CleanUp d)) (Deployers (cluster_reconciler b collector)).
Proof.
  repeat apply Forall_cons_2; [..|apply Forall_nil_2]; cbn; try (by apply calm_ret).
  apply calm_Datanode_CleanUp.
Qed.
End deployers.
