(* ===== verification/NoPanic.v ===== *)
(** * The reconciliation of a cluster never panics

    From the read of the cluster to the collected metrics, with the operator's five
    deployers: the defaults make the stored spec one that the merges accept, the merges
    make it runnable, and everything after keeps it so. *)

From stdpp Require Import base gmap sets strings list fin_maps.
From Stdlib Require Import ZArith.
From S2P Require Import Prelude GoLib K8s ApiCommon Conditions ApiTypes Client ApiServer K8sUtil.
From S2P Require Import Deployer Builder Reconcile Common Validate Toml Mergo Defaulting Cluster.
From S2P Require Import Generator Meta Reconciler Setup Metrics Calm Runnable CalmGen CalmDeployers.

#[local] Notation T := (fun _ => True).

(** A parser of configurations that returns its errors. *)
Class SafeUnmarshal `{TomlUnmarshal} := safe_toml_Unmarshal s : toml_Unmarshal s <> Panic.

(** ** Checking *)

Section checks.
Context `{SafeUnmarshal}.

Lemma safe_validateTomlConfig s : safe T (validateTomlConfig s).
Proof. unfold validateTomlConfig. case_decide; [done|]. apply safe_not_panic, safe_toml_Unmarshal. Qed.

Lemma safe_validateFileStorage fs : safe T (validateFileStorage fs).
Proof.
  unfold validateFileStorage. destruct fs; [|done]. apply (safe_bind T); [apply safe_guard|]. intros _ _.
  apply (safe_bind T); [apply safe_guard|]. intros _ _. apply safe_guard.
Qed.

Lemma safe_validateWALProvider wal : safe T (validateWALProvider wal).
Proof.
  unfold validateWALProvider. destruct wal; [|done]. apply (safe_bind T); [apply safe_guard|]. intros _ _.
  destruct (RaftEngineWAL_GetFileStorage _); [apply safe_validateFileStorage|done].
Qed.

Lemma safe_validateObjectStorageProvider osp : safe T (validateObjectStorageProvider osp).
Proof.
  unfold validateObjectStorageProvider. destruct osp; [|done]. apply (safe_bind T); [apply safe_guard|]. intros _ _.
  destruct (GetCacheFileStorage _); [apply safe_validateFileStorage|done].
Qed.

Lemma safe_Cluster_Validate c : safe T (Cluster_Validate c).
Proof.
  assert (Hw : forall e s, safe T (wrap_err e (validateTomlConfig s)))
    by (intros; apply safe_wrap, safe_validateTomlConfig).
  unfold Cluster_Validate. destruct c as [c|]; [|done].
  apply (safe_bind T); [apply Hw|]. intros _ _.
  apply (safe_bind T).
  { apply safe_for_each. intros f. apply (safe_bind T); [apply safe_guard|]. intros _ _. apply Hw. }
  intros _ _. apply (safe_bind T).
  { unfold validateMeta. apply (safe_bind T); [apply Hw|]. intros _ _. unfold validateMetaBackendStorage.
    destruct (MetaSpec_GetBackendStorage _); [apply safe_guard|done]. }
  intros _ _. apply (safe_bind T); [apply safe_guard|]. intros _ _. apply (safe_bind T).
  { unfold validateDatanode. apply (safe_bind T); [|intros _ _; apply Hw].
    destruct (DatanodeSpec_GetFileStorage _); [apply safe_guard|done]. }
  intros _ _. apply (safe_bind T).
  { apply safe_for_each. intros d. apply (safe_bind T); [apply safe_guard|]. intros _ _. apply Hw. }
  intros _ _. apply (safe_bind T); [destruct (not_nil _); [apply Hw|done]|].
  intros _ _. apply (safe_bind T).
  { destruct (GetWALProvider (Some c)); [apply safe_validateWALProvider|done]. }
  intros _ _. destruct (GetObjectStorageProvider (Some c)); [apply safe_validateObjectStorageProvider|done].
Qed.

Lemma safe_Standalone_Validate s : safe T (Standalone_Validate s).
Proof.
  unfold Standalone_Validate. destruct s as [s|]; [|done].
  apply (safe_bind T); [apply safe_wrap, safe_validateTomlConfig|]. intros _ _. apply (safe_bind T).
  { destruct (Standalone_GetWALProvider _); [apply safe_validateWALProvider|done]. }
  intros _ _. destruct (Standalone_GetObjectStorageProvider _); [apply safe_validateObjectStorageProvider|done].
Qed.
End checks.

Section server_checks.
Context (ok : GreptimeDBClusterSpec -> Prop) {W : Type} (env : environment W).
Hypothesis Hsound : sound ok env.
Context {S : Type} (I : S -> Prop).

Lemma calm_checkSecretData ns name keys : calm env I T (checkSecretData ns name keys).
Proof.
  unfold checkSecretData. eapply calm_then; [calm_steps|]. intros secret. destruct (sec_Data secret); calm_steps.
Qed.

Lemma calm_if_secret name keys ns : calm env I T (if_secret name (fun n => checkSecretData ns n keys)).
Proof. unfold if_secret. case_decide; [calm_steps|apply calm_checkSecretData]. Qed.

Lemma calm_when_podmonitor c : calm env I T (when c checkPodMonitorExists).
Proof. apply calm_when. intros _. unfold checkPodMonitorExists. calm_steps. Qed.

Lemma calm_Cluster_Check c : calm env I T (Cluster_Check c).
Proof.
  unfold Cluster_Check. cbv zeta. repeat (eapply calm_then; [apply calm_if_secret || apply calm_when_podmonitor|intros _]).
  apply calm_if_secret.
Qed.

Lemma calm_Standalone_Check s : calm env I T (Standalone_Check s).
Proof.
  unfold Standalone_Check. cbv zeta. repeat (eapply calm_then; [apply calm_if_secret || apply calm_when_podmonitor|intros _]).
  apply calm_if_secret.
Qed.

End server_checks.

(** ** The outer error *)

Lemma calm_Warning ok {W} (env : environment W) {S} (I : Frame S -> Prop) reason :
  sound ok env -> calm env I T (Warning reason).
Proof. intros Hsound. unfold Warning. calm_steps. Qed.

Lemma turns_defer {W} (env : environment W) {S A} (I : S -> Prop) (d : M S unit) (m : M S A) :
  turns env I T m -> calm env T T d -> turns env I T (defer d m).
Proof.
  intros Hm Hd s w Hs. rewrite exec_defer. cbn. specialize (Hm s w Hs). cbv zeta in Hm.
  destruct (Hd (out_st (exec env m s w)) (out_world (exec env m s w)) Logic.I) as [_ Hr].
  cbv zeta in Hr. by destruct (out_res (exec env d _ _)).
Qed.

Lemma turns_assign_err {W} (env : environment W) {S} (I J : S -> Prop) (m : M S unit) (fail : M (Frame S) unit) :
  turns env I J m -> calm env T T fail ->
  turns env (fun f => I (fr_state f)) (fun f => J (fr_state f)) (assign_err (on_state m) fail).
Proof.
  intros Hm Hf f w Hs. unfold assign_err, on_state. rewrite exec_bind, exec_try, exec_zoom.
  specialize (Hm (fr_state f) w Hs). cbv zeta in Hm.
  destruct (exec env m (fr_state f) w) as [[[]|e|] s1 w1 l1]; cbn [out_res out_st out_world out_log] in *;
    [exact Hm| |done].
  rewrite exec_bind, exec_set_err. cbn [out_res out_st out_world out_log prepend].
  rewrite exec_bind. destruct (Hf (mkFrame s1 (Some e)) w1 Logic.I) as [_ Hr]. cbv zeta in Hr. cbn [fr_state].
  by destruct (exec env fail _ w1) as [[[]|e'|] f2 w2 l2].
Qed.

Lemma turns_on_state {W} (env : environment W) {S A} (I J : S -> Prop) (m : M S A) :
  turns env I J m -> turns env (fun f => I (fr_state f)) (fun f => J (fr_state f)) (on_state m).
Proof. intros Hm. by apply (turns_zoom env I J fr_state). Qed.

Lemma turns_read {W} (env : environment W) {S A B} (P : S -> Prop) (J : Frame S -> Prop) (m : M S B)
    (k : B -> M (Frame S) A) :
  calm env P T m -> (forall x, turns env (fun f => P (fr_state f)) J (k x)) ->
  turns env (fun f => P (fr_state f)) J (on_state m ≫= k).
Proof. intros Hm Hk. eapply turns_bind; [|exact Hk]. by eapply turns_on_state, turns_calm. Qed.

(** ** The cluster in memory *)

Definition on_spec (P : GreptimeDBClusterSpec -> Prop) (s : CState) : Prop := P (gc_Spec (c_cluster s)).

Section reconcile.
Context `{SafeLibraries} `{!TomlLaws} `{QuantityLaws} `{!ControllerLaws} `{RetryLaws} `{SelectorLib}.
Context `{OpaqueMerge} `{MergoLaws} `{SafeUnmarshal} `{FinalizerLib} `{MapOrder}.
Context {W : Type} (env : environment W).
Hypothesis Hsound : sound cluster_ok env.

Lemma calm_read (P : GreptimeDBClusterSpec -> Prop) : calm env (on_spec P) (fun c => P (gc_Spec c)) get_cluster.
Proof. unfold get_cluster. eapply calm_bind; [apply calm_get|]. intros s Hs. by apply calm_ret. Qed.

Lemma calm_update_object P : calm env (on_spec P) T update_object.
Proof.
  unfold update_object. eapply calm_bind; [apply calm_read|]. intros c Hc.
  eapply calm_bind; [apply (calm_Update cluster_ok env Hsound _ KCluster c)|]. intros c' Hc'. cbn in Hc'.
  apply calm_modify. intros s _. unfold on_spec. cbn. by rewrite Hc'.
Qed.

Lemma calm_updateClusterStatus P phase : calm env (on_spec P) T (updateClusterStatus phase).
Proof.
  unfold updateClusterStatus. eapply calm_then; [eapply calm_any, calm_read|]. intros c. case_decide; [calm_steps|].
  eapply calm_then; [by apply calm_modify|]. intros _. eapply calm_then; [eapply calm_any, calm_read|]. intros c1.
  eapply calm_then; [unfold recordNormalEventByPhase; repeat case_decide; calm_steps|]. intros _.
  by eapply calm_UpdateStatus.
Qed.

Lemma calm_updateStatus_any phase : calm env T T (updateClusterStatus phase).
Proof. exact (calm_updateClusterStatus T phase). Qed.

Lemma turns_in_memory (P Q : GreptimeDBClusterSpec -> Prop) (f : GreptimeDBCluster -> res GreptimeDBCluster) :
  (forall c, P (gc_Spec c) -> exists c', f c = Ok c' /\ Q (gc_Spec c')) ->
  turns env (on_spec P) (on_spec Q) (in_memory f).
Proof.
  intros Hf s w Hs. unfold in_memory. rewrite exec_bind, exec_get_cluster.
  cbn [out_res out_st out_world out_log prepend]. rewrite exec_bind, exec_lift.
  destruct (Hf (c_cluster s) Hs) as (c' & -> & Hc'). exact Hc'.
Qed.

Lemma calm_addFinalizer P : calm env (on_spec P) T addFinalizer.
Proof.
  unfold addFinalizer. eapply calm_then; [eapply calm_any, calm_read|]. intros c. apply calm_when. intros _.
  eapply calm_then; [by apply calm_modify|]. intros _. apply calm_update_object.
Qed.

(** ** The phases of a reconciliation *)

Variable b : bool.
Variable emptyNotNil : GreptimeDBCluster -> bool.
Notation collector := (cluster ← get_cluster; CollectClusterPodMetrics cluster (emptyNotNil cluster)).
Notation r := (cluster_reconciler b collector).

Notation framed P := (fun f : Frame CState => on_spec P (fr_state f)).

Lemma turns_prepare : turns env (framed cluster_ok) (framed defaulted_ok) (prepare r).
Proof.
  assert (Hw : forall reason, calm env (fun _ : Frame CState => True) T (Warning reason))
    by (intros; by eapply calm_Warning).
  assert (Hread : forall P, calm env (on_spec P) T get_cluster) by (intros P; eapply calm_any, calm_read).
  unfold prepare. eapply turns_bind.
  { apply (turns_assign_err env (on_spec cluster_ok) (on_spec cluster_ok)); [|apply Hw].
    eapply turns_calm, calm_addFinalizer. }
  intros _. eapply turns_bind.
  { apply (turns_when env _ (framed cluster_ok)); [|by auto].
    apply (turns_assign_err env (on_spec cluster_ok) (on_spec cluster_ok)); [|apply Hw].
    eapply turns_calm. unfold validate. eapply calm_then; [eapply calm_any, calm_read|]. intros c.
    apply calm_lift, safe_Cluster_Validate. }
  intros _. eapply turns_bind.
  { apply (turns_assign_err env (on_spec cluster_ok) (on_spec cluster_ok)); [|apply Hw].
    eapply turns_calm. unfold check. eapply calm_then; [eapply calm_any, calm_read|]. intros c.
    by eapply calm_Cluster_Check. }
  intros _. apply (turns_read env (on_spec cluster_ok)); [apply Hread|]. intros original. eapply turns_bind.
  { apply (turns_assign_err env (on_spec cluster_ok) (on_spec defaulted_ok)); [|apply Hw].
    apply turns_in_memory, SetDefaults_gives. }
  intros _. apply (turns_read env (on_spec defaulted_ok)); [apply Hread|]. intros c. eapply turns_bind.
  { apply (turns_when env _ (framed defaulted_ok)); [|by auto].
    apply (turns_assign_err env (on_spec defaulted_ok) (on_spec defaulted_ok)); [|apply Hw].
    eapply turns_calm, calm_update_object. }
  intros _. apply (turns_read env (on_spec defaulted_ok)); [apply Hread|]. intros c1. apply (turns_when env _ (framed defaulted_ok)); [|by auto].
  apply (turns_assign_err env (on_spec defaulted_ok) (on_spec defaulted_ok)); [|by apply calm_ret].
  eapply turns_calm, calm_updateClusterStatus.
Qed.

Lemma calm_removeMonitoringDB : calm env on_runnable T removeMonitoringDB.
Proof.
  unfold removeMonitoringDB. eapply calm_then; [by eapply calm_any, calm_get_cluster|]. intros c. cbv zeta.
  eapply (calm_range env on_runnable T); [|by apply Forall_true]. intros [k name] _. unfold remove_object.
  eapply calm_then; [by eapply calm_any, calm_get_cluster|]. intros c1.
  eapply calm_bind; [apply calm_try, (calm_Get cluster_ok env Hsound on_runnable k)|].
  intros [o|e|] Hr; cbn in Hr; [calm_steps|destruct (IsNotFound e); calm_steps|done].
Qed.

Lemma calm_sync_deployers ds :
  Forall (fun d => calm env on_runnable T (Sync d)) ds -> calm env on_runnable T (sync_deployers ds).
Proof.
  induction 1 as [|d ds Hd _ IH]; cbn [sync_deployers]; [calm_steps|].
  eapply calm_bind; [by apply calm_try|]. intros [u|e|] He; cbn in He; [exact IH| |done].
  destruct e; [|calm_steps..]. eapply calm_then; [by eapply calm_any, calm_get_cluster|]. intros c.
  eapply calm_then; [apply (calm_updateClusterStatus runnable)|]. intros _. calm_steps.
Qed.

Lemma calm_sync_ready : calm env on_runnable T sync_ready.
Proof.
  unfold sync_ready, Now. do 2 (eapply calm_then; [calm_steps|intros ?]).
  eapply calm_then; [apply calm_update_status|]. intros _.
  eapply calm_bind; [apply calm_get_cluster|]. intros c Hc. eapply calm_then.
  { apply calm_when. intros _. eapply calm_then; [by apply calm_lift, GetMetaHTTPServiceURL_set|]. intros url.
    eapply calm_then; [by eapply calm_SetMaintenanceMode|]. intros _. apply calm_update_status. }
  intros _. apply (calm_updateClusterStatus runnable).
Qed.

Lemma calm_sync : calm env on_runnable T (sync r).
Proof.
  unfold sync. eapply calm_then; [apply calm_sync_deployers; by eapply calm_cluster_deployers|].
  intros [result|]; [calm_steps|]. unfold sync_finish.
  eapply calm_then; [by eapply calm_any, calm_get_cluster|]. intros c. cbv zeta.
  eapply calm_then; [apply calm_when; intros _; apply calm_sync_ready|]. intros _.
  eapply calm_then; [|intros _; calm_steps]. unfold collect_metrics.
  eapply calm_then; [by eapply calm_any, calm_get_cluster|]. intros c1. case_decide; [|calm_steps].
  cbn [MetricsCollector cluster_reconciler]. apply calm_log_err.
  eapply calm_then; [by eapply calm_any, calm_get_cluster|]. intros c2. by eapply calm_CollectClusterPodMetrics.
Qed.

Lemma turns_merge_and_sync : turns env (on_spec defaulted_ok) T (merge_and_sync r).
Proof.
  unfold merge_and_sync.
  eapply turns_bind; [apply (turns_in_memory defaulted_ok runnable), MergeWithBaseTemplate_runnable|]. intros _.
  eapply turns_bind; [apply (turns_in_memory runnable runnable), MergeWithGlobalLogging_runnable|]. intros _.
  eapply turns_bind; [apply (turns_in_memory runnable runnable), MergeWithGlobalTracing_runnable|]. intros _.
  eapply (turns_weaken env on_runnable on_runnable on_runnable); [|done|done]. eapply turns_calm.
  eapply calm_then; [by eapply calm_any, calm_get_cluster|]. intros c.
  eapply calm_then; [apply calm_when; intros _; apply calm_removeMonitoringDB|]. intros _. apply calm_sync.
Qed.

Lemma calm_delete : calm env T T (delete r).
Proof.
  unfold delete. eapply calm_then; [exact (calm_read T)|]. intros c. destruct (negb _); [calm_steps|].
  case_decide; [eapply calm_then; [apply calm_updateStatus_any|intros _; calm_steps]|].
  eapply calm_then.
  { eapply (calm_range env T (fun d => calm env T T (co_CleanUp d))); [done|]. by eapply calm_cluster_cleanups. }
  intros _. eapply calm_then; [by apply calm_modify|]. intros _.
  eapply calm_then; [exact (calm_update_object T)|]. intros _. calm_steps.
Qed.

Lemma turns_reconcile_cluster : turns env (framed cluster_ok) T (reconcile_cluster r).
Proof.
  unfold reconcile_cluster. eapply turns_bind; [eapply turns_on_state, turns_calm, calm_read|]. intros c.
  destruct (not_nil _).
  - eapply (turns_weaken env); [apply (turns_on_state env T T), (turns_calm env T T), calm_delete|done|done].
  - eapply turns_bind; [apply turns_prepare|]. intros _.
    exact (turns_on_state env (on_spec defaulted_ok) T _ turns_merge_and_sync).
Qed.

Lemma calm_record_error phase : calm env T T (record_error (updateClusterStatus phase)).
Proof.
  unfold record_error. eapply calm_then; [by eapply calm_any, calm_get|]. intros f.
  destruct (fr_err f); [|calm_steps]. eapply calm_then; [unfold Warning; calm_steps|]. intros _.
  apply calm_log_err. eapply (calm_zoom env T T); [apply calm_updateStatus_any|done|done].
Qed.
End reconcile.

(** ** Properties *)

(** C3. The reconciliation of a cluster never panics: whatever cluster is read, whatever the
    server, the metasrv, the database of the monitoring and the pods answer, in any
    order, with the operator's five deployers and its collector, no nil pointer is
    dereferenced and no index is out of range, provided that the answers are those
    of a sound outside world: a stored cluster's storages have sizes that parse and a
    raft-engine WAL has its storage (the validation does not see to it), a stored
    workload has the count that the server defaults, a StatefulSet with a datanode's name
    the containers that the operator gave it, a pod
    with conditions has its containers running (the collector does not see to it), an
    update stores the spec it was given, and the libraries return their errors. *)
Theorem Reconcile_never_panics `{SafeLibraries} `{!TomlLaws} `{QuantityLaws} `{!ControllerLaws}
    `{RetryLaws} `{SelectorLib} `{OpaqueMerge} `{MergoLaws} `{SafeUnmarshal} `{FinalizerLib} `{MapOrder}
    {W} (env : environment W) b emptyNotNil key m w :
  sound cluster_ok env ->
  let collector := (cluster ← get_cluster; CollectClusterPodMetrics cluster (emptyNotNil cluster)) in
  out_res (exec env (Reconcile (cluster_reconciler b collector) key) m w) <> Panic.
Proof.
  intros Hsound collector. assert (Hc : calm env (fun _ : gset NamespacedName => True) T
    (Reconcile (cluster_reconciler b collector) key)).
  { unfold Reconcile. eapply calm_bind; [apply calm_try, (calm_Get cluster_ok env Hsound T KCluster key)|].
    intros [c|e|] Hr; [|destruct (IsNotFound e); calm_steps|done]. cbn in Hr. clear m w. intros m w _.
    rewrite exec_zoom. cbn [out_res out_st]. split; [done|].
    set (d := record_error (updateClusterStatus PhaseError)).
    assert (Hd : turns env (fun f => on_spec cluster_ok (fr_state f)) T
      (defer d (reconcile_cluster (cluster_reconciler b collector)))).
    { apply turns_defer; [by apply turns_reconcile_cluster|by apply calm_record_error]. }
    by apply (Hd (mkFrame (mkCState c m) None) (w)). }
  by eapply calm_never_panics.
Qed.

(** ** Witness: a server that serves only sound objects *)

Definition wal_stored (w : option WALProviderSpec) : bool :=
  match w ≫= wp_RaftEngineWAL with Some re => not_nil (re_FileStorage re) | None => true end.

Fixpoint mentions (s t : string) : bool :=
  String.prefix s t || match t with EmptyString => false | String _ t => mentions s t end.
Definition comparable (t : CorePodTemplateSpec) : bool :=
  negb (bool_decide (ps_InitContainers (pt_Spec t) = [])) && negb (bool_decide (ps_Containers (pt_Spec t) = [])).

(** A server whose workloads are ready as soon as they are created, and which does not
    serve an object that breaks the promises. *)
Definition admissible {k : kind} (key : NamespacedName) : obj k -> bool :=
  match k with
  | KDeployment => fun d => not_nil (ds_Replicas (dep_Spec d))
  | KStatefulSet => fun s => not_nil (ss_Replicas (sts_Spec s))
      && (negb (mentions DatanodeRoleKind (nn_Name key)) || comparable (ss_Template (sts_Spec s)))
  | KCluster => fun c => wal_stored (cl_WALProvider (gc_Spec c))
  | KStandalone => fun s => wal_stored (sa_WALProvider (sa_Spec s))
  | _ => fun _ => true
  end.

Definition admitting_env : environment (list object) := fun q =>
  match q as q return list object -> resp q * list object with
  | QGet k key => fun w =>
      (match find_obj w k key with
       | Some o => if admissible key o then Ok o else Err (Errorf "rejected")
       | None => Err (ErrNotFound "not found")
       end, w)
  | QListPods _ _ _ => fun w => (Ok [sample_pod [running]], w)
  | q => System.settling_env q
  end.

#[local] Existing Instances flat_toml flat_toml_laws plain_vector any_quantity text_json owner_reference
  owner_reference_laws keep_opaque documented_mergo documented_mergo_laws simple_retry simple_retry_laws
  list_finalizers in_order any_toml short_values.

#[local] Instance any_quantity_laws : QuantityLaws.
Proof. split; [done|]. eexists. reflexivity. Qed.

Lemma mentions_app s p t : mentions s (p +:+ s +:+ t) = true.
Proof.
  assert (Hp : String.prefix s (s +:+ t) = true).
  { induction s as [|a s IH]; [by destruct t|].
    change (String.prefix (String a s) (String a (s +:+ t)) = true). cbn. by destruct (Ascii.ascii_dec a a). }
  induction p as [|a p IH].
  - change (mentions s (s +:+ t) = true). destruct (s +:+ t); cbn in *; by rewrite Hp.
  - change (String.prefix s (String a (p +:+ s +:+ t)) || mentions s (p +:+ s +:+ t) = true).
    rewrite IH. apply orb_true_r.
Qed.

Lemma add_extra_names_app base extra : exists t, add_extra_names base extra = base +:+ t.
Proof.
  revert base. induction extra as [|x extra IH]; intros base; cbn [add_extra_names].
  - exists "". by rewrite string_app_nil_r.
  - case_decide; [|apply IH]. destruct (IH (Join "-" [base; x])) as [t ->]. cbn [Join].
    eexists. by rewrite !string_app_assoc.
Qed.

Lemma datanode_named_mentions key : datanode_named key -> mentions DatanodeRoleKind (nn_Name key) = true.
Proof.
  intros (cluster & extra & ->). unfold ResourceName.
  destruct (add_extra_names_app (Join "-" [cluster; DatanodeRoleKind]) extra) as [t ->]. cbn [Join].
  rewrite !string_app_assoc, <- (string_app_assoc cluster "-"). apply mentions_app.
Qed.

Lemma admitting_sound : sound cluster_ok admitting_env.
Proof.
  assert (Hp : forall fs, parses fs) by done.
  intros [] w; cbn; try done; try (by repeat constructor); [|by destruct k].
  destruct (find_obj w k key) as [o|]; [|done]. destruct (admissible key o) eqn:Ho; [|done]. cbn.
  destruct k; cbn in *; try done.
  - apply andb_true_iff in Ho as [Hr Ho]. split; [by apply not_nil_is_Some|]. intros Hn.
    rewrite (datanode_named_mentions key Hn) in Ho. cbn in Ho. unfold comparable in Ho.
    apply andb_true_iff in Ho as [Hi Hc]. rewrite negb_true_iff, bool_decide_eq_false in Hi, Hc. done.
  - by apply not_nil_is_Some.
  - split; [|split; [|done]]; [apply Forall_true; intros d fs _ _; apply Hp|].
    intros re Hre. unfold wal_stored in Ho. rewrite Hre in Ho. split; [|apply Hp]. by destruct (re_FileStorage re).
Qed.

#[local] Instance sample_libraries : SafeLibraries.
Proof. split; try done. Qed.
#[local] Instance any_toml_safe : SafeUnmarshal.
Proof. done. Qed.

(** The monitored cluster, with the secret and the CRD that its spec refers to. *)
Definition provisioned_world : list object :=
  Object KSecret (mkSecret (meta_of "default" "tls-secret" None ∅)
    (Some {[ TLSCrtSecretKey := Some "crt"; TLSKeySecretKey := Some "key" ]}))
  :: Object KCRD (meta_of "" (nn_Name podmonitors_crd) None ∅)
  :: System.starting_world.

Definition creates (q : event) : bool := match projT1 q with QCreate _ => true | _ => false end.

(** Its first reconciliation creates every object, sees them ready and collects the
    metrics of the pods; the second finds nothing to create and collects them again. *)
Lemma Reconcile_never_panics_witness :
  let collector := (cluster ← get_cluster; CollectClusterPodMetrics cluster false) in
  let r := Reconcile (cluster_reconciler false collector) (mkNamespacedName "default" "c") in
  let o := exec admitting_env r ∅ provisioned_world in
  let o' := exec admitting_env r (out_st o) (out_world o) in
  out_res o <> Panic
  /\ out_res o = Ok no_requeue /\ existsb creates (out_log o) = true
  /\ out_res o' = Ok no_requeue /\ existsb creates (out_log o') = false.
Proof.
  intros collector r o o'. split; [|vm_compute; done].
  exact (Reconcile_never_panics admitting_env false (fun _ => false) (mkNamespacedName "default" "c") ∅ provisioned_world
           admitting_sound).
Defined.
