(* ===== verification/NoPanicStandalone.v ===== *)
(** * The reconciliation of a standalone never panics

    The same for the reconciler of a GreptimeDBStandalone and its deployer: there are no
    templates to merge, so the defaults alone make the stored spec runnable. *)

From stdpp Require Import base gmap sets strings list fin_maps.
From Stdlib Require Import ZArith.
From S2P Require Import Prelude GoLib K8s ApiCommon ApiTypes Client ApiServer K8sUtil.
From S2P Require Import Deployer Builder Reconcile Common Validate Toml DbConfig Pods Mergo Defaulting Cluster.
From S2P Require Import Generator Datanode Claims Standalone StandaloneGen.
From S2P Require Reconciler System.
From S2P Require Import Calm Runnable CalmGen CalmDeployers NoPanic.

#[local] Notation T := (fun _ => True).

(** ** Specifications *)

Section specs.
Context `{QuantityLib}.

(** What the operator relies on in the spec of a stored standalone. *)
Definition sa_wal_ok (s : GreptimeDBStandaloneSpec) : Prop :=
  forall re, sa_WALProvider s ≫= wp_RaftEngineWAL = Some re ->
    re_FileStorage re <> None /\ parses (re_FileStorage re).
Definition standalone_ok (s : GreptimeDBStandaloneSpec) : Prop :=
  (forall fs, sa_DatanodeStorage s ≫= dst_FileStorage = Some fs -> fs_StorageSize fs <> "" -> parses (Some fs))
  /\ sa_wal_ok s /\ parses (GetCacheFileStorage (sa_ObjectStorageProvider s)).

(** What the deployer dereferences. *)
Record sa_runnable (s : GreptimeDBStandaloneSpec) : Prop := {
  sa_main : is_Some (sa_Base s ≫= tp_MainContainer);
  sa_service : is_Some (sa_Service s);
  sa_data_parses : parses (sa_DatanodeStorage s ≫= dst_FileStorage);
  sa_wal : sa_wal_ok s;
  sa_cache_parses : parses (GetCacheFileStorage (sa_ObjectStorageProvider s)) }.

(** The standalones that the server returns. *)
Definition sound_standalones {W} (env : environment W) : Prop :=
  (forall key w, safe (fun s => standalone_ok (sa_Spec s)) (env (QGet KStandalone key) w).1)
  /\ forall s w, safe (fun s' => sa_Spec s' = sa_Spec s) (env (QUpdate KStandalone s) w).1.
End specs.

(** The spec of the standalone in memory. *)
Definition on_sa (P : GreptimeDBStandaloneSpec -> Prop) (s : GreptimeDBStandalone) : Prop := P (sa_Spec s).

(** ** The defaults *)

Section defaults.
Context `{QuantityLaws} `{OpaqueMerge} `{MergoLaws}.

Lemma standalone_size_filled v s :
  (forall fs, sa_DatanodeStorage s ≫= dst_FileStorage = Some fs -> fs_StorageSize fs <> "" -> parses (Some fs)) ->
  parses (sa_DatanodeStorage (standalone_filled v s) ≫= dst_FileStorage).
Proof.
  intros Hd _. pose proof default_size_parses as Hsize. unfold parses in Hd.
  cbn in *. destruct (sa_DatanodeStorage s) as [[home [fs|]]|]; cbn in *; [|exact Hsize|exact Hsize].
  case_decide as E; [exact Hsize|]. by apply (Hd fs).
Qed.

Lemma standalone_main_filled v s : is_Some (sa_Base (standalone_filled v s) ≫= tp_MainContainer).
Proof. cbn. destruct (sa_Base s) as [[? ? [m|] ?]|]; cbn; eauto. Qed.

Lemma Standalone_SetDefaults_gives s :
  standalone_ok (sa_Spec s) -> exists s', Standalone_SetDefaults s = Ok s' /\ sa_runnable (sa_Spec s').
Proof.
  intros (Hd & Hw & Hc). rewrite Standalone_SetDefaults_eq. eexists. split; [reflexivity|].
  set (v := standalone_version s). cbn [sa_Spec set_sa_Spec]. split.
  - apply standalone_main_filled.
  - cbn. by destruct (sa_Service (sa_Spec s)).
  - by apply standalone_size_filled.
  - assert (He : sa_WALProvider (standalone_filled v (sa_Spec s)) = sa_WALProvider (sa_Spec s))
      by (cbn; by destruct (sa_WALProvider (sa_Spec s))).
    unfold sa_wal_ok. by rewrite He.
  - assert (He : sa_ObjectStorageProvider (standalone_filled v (sa_Spec s)) = sa_ObjectStorageProvider (sa_Spec s))
      by (cbn; by destruct (sa_ObjectStorageProvider (sa_Spec s))).
    by rewrite He.
Qed.
End defaults.

(** Being runnable does not depend on the shared maps. *)
Lemma sa_runnable_core `{QuantityLib} s : sa_runnable (sa_core s) <-> sa_runnable s.
Proof.
  assert (Hm : is_Some (sa_Base (sa_core s) ≫= tp_MainContainer) <-> is_Some (sa_Base s ≫= tp_MainContainer))
    by (cbn; by destruct (sa_Base s)).
  assert (Hs : is_Some (sa_Service (sa_core s)) <-> is_Some (sa_Service s)) by apply fmap_is_Some.
  split; intros [? ? ? ? ?]; split; try done; by first [apply Hm | apply Hs].
Qed.

Lemma sa_runnable_same `{QuantityLib} s s' : same_standalone s s' -> on_sa sa_runnable s -> on_sa sa_runnable s'.
Proof.
  intros (_ & Hs & _) Hr. apply sa_runnable_core. rewrite Hs. by apply sa_runnable_core.
Qed.

(** ** The generator *)

Section generator.
Context `{SafeLibraries} `{!TomlLaws} `{QuantityLib}.
Context (ok : GreptimeDBClusterSpec -> Prop) {W : Type} (env : environment W).
Hypothesis Hsound : sound ok env.

Section standalone.
Variable s : GreptimeDBStandalone.
Hypothesis Hs : on_sa sa_runnable s.

Lemma standalone_data_parses : parses (standalone_data s).
Proof. unfold standalone_data. cbn. destruct Hs as [_ _ Hd _ _]. by destruct (sa_DatanodeStorage (sa_Spec s)). Qed.

Lemma standalone_wal_parses : parses (standalone_wal s).
Proof.
  destruct Hs as [_ _ _ Hw _]. unfold sa_wal_ok, standalone_wal in *. cbn in *.
  destruct (sa_WALProvider (sa_Spec s)) as [w|]; cbn in *; [|by intros []].
  destruct (wp_RaftEngineWAL w) as [re|]; cbn; [|by intros []]. by apply (Hw re).
Qed.

Lemma standalone_wal_dir : Standalone_GetWALDir (Some s) <> Panic.
Proof.
  unfold Standalone_GetWALDir. destruct Hs as [_ _ _ Hw _]. unfold sa_wal_ok in Hw.
  destruct (sa_WALProvider (sa_Spec s) ≫= wp_RaftEngineWAL) as [re|].
  - destruct (Hw re eq_refl) as [Hfs _]. by destruct (re_FileStorage re).
  - destruct (sa_DatanodeStorage (sa_Spec s)); [|done]. by case_decide.
Qed.

Lemma safe_standalone_pod : safe has_main (standalone_generatePodTemplateSpec s).
Proof.
  unfold standalone_generatePodTemplateSpec. eapply safe_bind; [apply safe_start_pod, Hs|].
  intros [main t] Ht. cbn in Ht. eapply safe_bind; [by apply safe_with_args|]. intros t1 Ht1.
  eapply (safe_bind has_main).
  { unfold standalone_addVolumeMounts. pod_step. destruct (standalone_logs_volume s); eauto with pods. }
  intros t2 Ht2. eapply (safe_bind has_main).
  { destruct (FileStorage_IsUseEmptyDir _) eqn:E; [|done]. apply safe_addEmptyDir; [apply standalone_data_parses| |done].
    intros He. by rewrite He in E. }
  intros t3 Ht3. do 2 pod_step. destruct (sa_TLS (sa_Spec s)); eauto with pods.
Qed.

Lemma safe_standalone_service : safe T (standalone_service s).
Proof. unfold standalone_service. by destruct Hs as [_ [sv ->] _ _ _]. Qed.

Lemma safe_standalone_claims : safe T (standalone_claims s).
Proof.
  unfold standalone_claims. destruct (FileStorage_IsUseEmptyDir _); [done|].
  apply safe_generate_claims; [apply standalone_data_parses|apply standalone_wal_parses|apply Hs].
Qed.

Lemma calm_FromStandalone {S} (I : S -> Prop) : calm env I T (FromStandalone s).
Proof.
  unfold FromStandalone. eapply calm_then; [apply calm_lift, safe_NewFromRoleKind|]. intros cfg.
  eapply calm_then; [|intros cfg'; apply calm_lift, safe_Marshal, safe_Load].
  destruct cfg; try by apply calm_ret. cbn. eapply calm_then; [|intros v; by apply calm_ret].
  unfold configure_standalone. eapply calm_then; [by eapply calm_with_object_storage|]. intros st.
  eapply calm_then; [by apply calm_lift, safe_with_wal_dir, standalone_wal_dir|]. intros w.
  eapply calm_then; [by eapply calm_with_kafka|]. intros w'. by apply calm_ret.
Qed.

Lemma calm_standalone_build : calm env known_objects T (standalone_build s).
Proof.
  unfold standalone_build, Standalone_BuildService, Standalone_BuildConfigMap, Standalone_BuildStatefulSet,
    Standalone_BuildPodMonitor.
  eapply calm_then; [|intros _; eapply calm_then; [|intros _; eapply calm_then; [|intros _]]]; apply calm_build.
  - eapply calm_then; [apply calm_lift, safe_standalone_service|]. intros svc.
    eapply calm_then; [apply calm_write|]. intros _. by apply calm_append_object.
  - eapply calm_then; [apply calm_FromStandalone|]. intros text. eapply calm_then; [by apply calm_lift|].
    intros cm. by apply calm_append_object.
  - eapply calm_then; [by eapply calm_any, calm_lift, safe_standalone_pod|]. intros t.
    eapply calm_then; [apply calm_write|]. intros _.
    eapply calm_then; [apply calm_lift, safe_standalone_claims|]. intros claims.
    eapply calm_then; [apply calm_FromStandalone|]. intros text. cbv zeta.
    eapply calm_then; [apply calm_write|]. intros _. by apply calm_append_object.
  - destruct (IsEnablePrometheusMonitor _) eqn:Hp; cbn [negb]; [|by apply calm_ret].
    eapply calm_then; [by apply calm_lift, safe_GeneratePodMonitor|]. intros pm. by apply calm_append_object.
Qed.
End standalone.

Lemma calm_Standalone_Generate : calm env (on_sa sa_runnable) T Standalone_Generate.
Proof.
  intros s w Hs. split; [by eapply sa_runnable_same; [apply (Standalone_Generate_keeps W env)|]|].
  unfold Standalone_Generate. rewrite exec_bind, exec_get. cbn [out_res out_st out_world].
  exact (proj2 (calm_with_builder env (Object KStandalone s) _ sa_share_annotations
    (calm_standalone_build s Hs) s w I)).
Qed.
End generator.

(** ** The deployer *)

Section deployer.
Context `{SafeLibraries} `{!TomlLaws} `{QuantityLib} `{RetryLaws} `{SelectorLib}.
Context (ok : GreptimeDBClusterSpec -> Prop) {W : Type} (env : environment W).
Hypothesis Hsound : sound ok env.
Variable P : GreptimeDBStandaloneSpec -> Prop.
Notation calm := (calm env (on_sa P)).

Lemma calm_sa_update_status f : calm T (sa_update_status f).
Proof. by apply calm_modify. Qed.

Lemma calm_Standalone_UpdateStatus {S} (I : S -> Prop) s : Calm.calm env I T (Standalone_UpdateStatus s).
Proof.
  apply calm_known.
  - unfold Standalone_UpdateStatus. apply RetryOnConflict_returns. intros s' w.
    eapply calm_never_panics with (I := T) (Q := T); [|done].
    eapply calm_then; [calm_steps|]. intros standalone. calm_steps.
  - apply Standalone_UpdateStatus_preserves. split; [by intros s'|intros a b c Hab Hbc Ha; auto].
Qed.

Lemma calm_Standalone_status : calm T Standalone_CheckAndUpdateStatus.
Proof.
  unfold Standalone_CheckAndUpdateStatus. eapply calm_then; [by eapply calm_any, calm_get|]. intros s.
  eapply calm_bind; [apply (calm_GetIfFound ok env Hsound _ KStatefulSet)|].
  intros [sts|] Hs; [|calm_steps]. destruct (Hs sts eq_refl) as [Hr _].
  eapply calm_then; [apply calm_lift; destruct Hr as [n Hn]; by rewrite Hn|]. intros replicas.
  eapply calm_then; [apply calm_sa_update_status|]. intros _.
  eapply calm_then; [by eapply calm_any, calm_get|]. intros s1.
  eapply calm_then; [apply calm_log_err, calm_Standalone_UpdateStatus|]. intros _.
  by apply calm_lift, safe_IsStatefulSetReady.
Qed.

Lemma calm_Standalone_CleanUp : calm T Standalone_CleanUp.
Proof.
  assert (Hrest : forall s, calm T (standalone_cleanup_rest s)).
  { intros s. unfold standalone_cleanup_rest. cbv zeta.
    eapply calm_then; [|intros _]; apply calm_when; intros _; by eapply calm_deleteStorage. }
  unfold Standalone_CleanUp. eapply calm_then; [by eapply calm_any, calm_get|]. intros s.
  destruct (Standalone_GetDatanodeFileStorage _) as [fs|]; [|apply Hrest].
  destruct (FileStorage_IsUseEmptyDir _); [calm_steps|].
  eapply calm_then; [apply calm_when; intros _; by eapply calm_deleteStorage|]. intros _. apply Hrest.
Qed.
End deployer.

(** ** The reconciler *)

Section reconcile.
Context `{SafeLibraries} `{!TomlLaws} `{QuantityLaws} `{RetryLaws} `{SelectorLib}.
Context `{OpaqueMerge} `{MergoLaws} `{SafeUnmarshal} `{FinalizerLib}.
Context (ok : GreptimeDBClusterSpec -> Prop) {W : Type} (env : environment W).
Hypothesis Hsound : sound ok env.
Hypothesis Hstandalones : sound_standalones env.
Variable b : bool.
Notation r := (mkStandaloneReconciler b (StandaloneDeployer Standalone_Generate)).

Lemma calm_update_standalone P : calm env (on_sa P) T update_standalone.
Proof.
  intros s w Hs. rewrite (exec_update_standalone env s w). cbv zeta. pose proof (proj2 Hstandalones s w) as Hu.
  destruct (env (QUpdate KStandalone s) w) as [[s'|e|] w']; cbn in Hu |- *; [|done|done].
  split; [|done]. unfold on_sa in *. by rewrite Hu.
Qed.

Lemma calm_setStandaloneStatus P phase : calm env (on_sa P) T (setStandaloneStatus phase).
Proof.
  unfold setStandaloneStatus. eapply calm_then; [by eapply calm_any, calm_get|]. intros s. case_decide; [calm_steps|].
  eapply calm_then; [apply calm_sa_update_status|]. intros _. eapply calm_then; [by eapply calm_any, calm_get|].
  intros s1. eapply calm_then; [unfold Standalone_recordNormalEventByPhase; repeat case_decide; calm_steps|].
  intros _. by eapply calm_Standalone_UpdateStatus.
Qed.

Lemma calm_Standalone_addFinalizer P : calm env (on_sa P) T Standalone_addFinalizer.
Proof.
  unfold Standalone_addFinalizer. eapply calm_then; [by eapply calm_any, calm_get|]. intros s. apply calm_when.
  intros _. eapply calm_then; [by apply calm_modify|]. intros _. apply calm_update_standalone.
Qed.

Lemma calm_Standalone_Sync : calm env (on_sa sa_runnable) T (Sync (sr_Deployer r)).
Proof.
  eapply calm_Sync; [by eapply calm_Standalone_Generate|intros os _; by eapply calm_DefaultDeployer_Apply|
    by eapply calm_Standalone_status|constructor..].
Qed.

Lemma calm_Standalone_sync : calm env (on_sa sa_runnable) T (Standalone_sync r).
Proof.
  unfold Standalone_sync. eapply calm_bind; [apply calm_try, calm_Standalone_Sync|].
  intros [u|e|] He; cbn in He; [| |done].
  - eapply calm_then; [by eapply calm_any, calm_get|]. intros s.
    eapply calm_then; [apply calm_when; intros _|intros _; calm_steps].
    unfold Standalone_ready, sa_now. do 2 (eapply calm_then; [calm_steps|intros ?]).
    eapply calm_then; [apply calm_sa_update_status|]. intros _. apply calm_setStandaloneStatus.
  - destruct e; [|calm_steps..]. eapply calm_then; [by eapply calm_any, calm_get|]. intros s.
    eapply calm_then; [apply calm_setStandaloneStatus|]. intros _. calm_steps.
Qed.

Lemma calm_Standalone_delete : calm env (on_sa T) T (Standalone_delete r).
Proof.
  unfold Standalone_delete. eapply calm_then; [by eapply calm_any, calm_get|]. intros s.
  destruct (negb _); [calm_steps|]. eapply calm_then; [by eapply calm_Standalone_CleanUp|]. intros _.
  eapply calm_then; [by apply calm_modify|]. intros _. eapply calm_then; [apply calm_update_standalone|].
  intros _. calm_steps.
Qed.

Notation framed P := (fun f : Frame GreptimeDBStandalone => on_sa P (fr_state f)).

Lemma turns_Standalone_defaults : turns env (on_sa standalone_ok) (on_sa sa_runnable) (Standalone_in_memory Standalone_SetDefaults).
Proof.
  intros s w Hs. unfold Standalone_in_memory. rewrite exec_bind, exec_get.
  cbn [out_res out_st out_world out_log prepend]. rewrite exec_bind, exec_lift.
  destruct (Standalone_SetDefaults_gives s Hs) as (s' & -> & Hs'). exact Hs'.
Qed.

Lemma turns_Standalone_prepare : turns env (framed standalone_ok) (framed sa_runnable) (Standalone_prepare r).
Proof.
  assert (Hw : forall reason, calm env (fun _ : Frame GreptimeDBStandalone => True) T (Warning reason))
    by (intros; by eapply calm_Warning).
  assert (Hread : forall P, calm env (on_sa P) T get) by (intros P; eapply calm_any, calm_get).
  assert (Hstep : forall P (m : M GreptimeDBStandalone unit) reason, calm env (on_sa P) T m ->
    turns env (framed P) (framed P) (assign_err (on_state m) (Warning reason))).
  { intros P m reason Hm. apply (turns_assign_err env (on_sa P) (on_sa P)); [by eapply turns_calm|apply Hw]. }
  unfold Standalone_prepare. eapply turns_bind; [apply Hstep, calm_Standalone_addFinalizer|]. intros _.
  eapply turns_bind.
  { apply (turns_when env _ (framed standalone_ok)); [|by auto]. apply Hstep. unfold standalone_validate.
    eapply calm_then; [apply Hread|]. intros s. apply calm_lift, safe_Standalone_Validate. }
  intros _. eapply turns_bind.
  { apply Hstep. unfold standalone_check. eapply calm_then; [apply Hread|]. intros s. by eapply calm_Standalone_Check. }
  intros _. apply (turns_read env (on_sa standalone_ok)); [apply Hread|]. intros original. eapply turns_bind.
  { apply (turns_assign_err env (on_sa standalone_ok) (on_sa sa_runnable)); [|apply Hw].
    apply turns_Standalone_defaults. }
  intros _. apply (turns_read env (on_sa sa_runnable)); [apply Hread|]. intros s. eapply turns_bind.
  { apply (turns_when env _ (framed sa_runnable)); [|by auto]. apply Hstep, calm_update_standalone. }
  intros _. apply (turns_read env (on_sa sa_runnable)); [apply Hread|]. intros s1.
  apply (turns_when env _ (framed sa_runnable)); [|by auto].
  apply (turns_assign_err env (on_sa sa_runnable) (on_sa sa_runnable)); [|by apply calm_ret].
  eapply turns_calm, calm_setStandaloneStatus.
Qed.

Lemma turns_reconcile_standalone : turns env (framed standalone_ok) T (reconcile_standalone r).
Proof.
  unfold reconcile_standalone. apply (turns_read env (on_sa standalone_ok)); [by eapply calm_any, calm_get|].
  intros s. destruct (not_nil _).
  - eapply (turns_weaken env); [apply (turns_on_state env (on_sa T) (on_sa T)), (turns_calm env (on_sa T) T),
      calm_Standalone_delete|done|done].
  - eapply turns_bind; [apply turns_Standalone_prepare|]. intros _.
    eapply (turns_weaken env); [apply (turns_on_state env (on_sa sa_runnable) (on_sa sa_runnable)),
      (turns_calm env (on_sa sa_runnable) T), calm_Standalone_sync|done|done].
Qed.

Lemma calm_Standalone_record_error phase : calm env T T (record_error (setStandaloneStatus phase)).
Proof.
  unfold record_error. eapply calm_then; [by eapply calm_any, calm_get|]. intros f.
  destruct (fr_err f); [|calm_steps]. eapply calm_then; [by eapply calm_Warning|]. intros _.
  apply calm_log_err. eapply (calm_zoom env T (on_sa T)); [apply calm_setStandaloneStatus|done|done].
Qed.
End reconcile.

(** ** Properties *)

(** C37. The reconciliation of a standalone never panics: whatever standalone is read and
    whatever the server answers, in any order, with the operator's own deployer, no nil
    pointer is dereferenced and no index is out of range, provided that the answers are
    those of a sound outside world: a stored standalone's storages have sizes that parse
    and its raft-engine WAL has its storage (the validation does not see to it), a stored
    StatefulSet has its replica count, and the libraries return their errors. *)
Theorem Standalone_Reconcile_never_panics `{SafeLibraries} `{!TomlLaws} `{QuantityLaws}
    `{RetryLaws} `{SelectorLib} `{OpaqueMerge} `{MergoLaws} `{SafeUnmarshal} `{FinalizerLib}
    ok {S W} (env : environment W) b key (m : S) w :
  sound ok env -> sound_standalones env ->
  out_res (exec env (Standalone_Reconcile (mkStandaloneReconciler b (StandaloneDeployer Standalone_Generate)) key) m w)
  <> Panic.
Proof.
  intros Hsound Hsa. unfold Standalone_Reconcile. rewrite exec_bind, exec_try, exec_Get.
  cbn [out_res out_st out_world out_log prepend].
  pose proof (proj1 Hsa key w) as Hget. destruct (env (QGet KStandalone key) w) as [[s|e|] w1]; cbn in Hget |- *;
    [|by destruct (IsNotFound e)|done].
  rewrite exec_run_local. cbn [out_res prepend].
  assert (Hd : turns env (fun f => on_sa standalone_ok (fr_state f)) T
    (defer (record_error (setStandaloneStatus PhaseError))
       (reconcile_standalone (mkStandaloneReconciler b (StandaloneDeployer Standalone_Generate))))).
  { apply turns_defer; [by eapply turns_reconcile_standalone|by eapply calm_Standalone_record_error]. }
  eapply safe_never_panics. by apply (Hd (mkFrame s None) w1).
Qed.

(** ** Witness *)

#[local] Existing Instances flat_toml flat_toml_laws plain_vector any_quantity any_quantity_laws text_json
  owner_reference keep_opaque documented_mergo documented_mergo_laws simple_retry simple_retry_laws
  list_finalizers Reconciler.any_toml any_toml_safe sample_libraries short_values.

Lemma admitting_sound_standalones : sound_standalones admitting_env.
Proof.
  assert (Hp : forall fs, parses fs) by done. split; [|done]. intros key w. cbn.
  destruct (find_obj w KStandalone key) as [s|]; [|done]. cbn. unfold wal_stored.
  destruct (sa_WALProvider (sa_Spec s) ≫= wp_RaftEngineWAL) as [re|] eqn:Hre; cbn;
    [destruct (not_nil (re_FileStorage re)) eqn:Hfs; [|done]|];
    (split; [done|split; [|done]]); intros re' Hre'; rewrite Hre in Hre'; [|done].
  injection Hre' as <-. split; [by destruct (re_FileStorage re)|apply Hp].
Qed.

(** A standalone with a WAL of its own, TLS and a monitor: its first reconciliation creates
    its objects and sees them ready, the second finds nothing to create. *)
Lemma Standalone_Reconcile_never_panics_witness :
  let r := Standalone_Reconcile (mkStandaloneReconciler false (StandaloneDeployer Standalone_Generate))
             (mkNamespacedName "default" "s") in
  let o := exec admitting_env r tt (Object KStandalone full_standalone :: provisioned_world) in
  let o' := exec admitting_env r tt (out_world o) in
  out_res o <> Panic
  /\ out_res o = Ok no_requeue /\ existsb creates (out_log o) = true
  /\ out_res o' = Ok no_requeue /\ existsb creates (out_log o') = false.
Proof.
  intros r o o'. split; [|vm_compute; done].
  exact (Standalone_Reconcile_never_panics _ admitting_env false (mkNamespacedName "default" "s") tt
           (Object KStandalone full_standalone :: provisioned_world) admitting_sound admitting_sound_standalones).
Defined.
